(* ===== verification/_CoqProject ===== *)
-Q . S2P
Prelude.v
Abi.v
Dcache.v
Ring.v
Pages.v
Request.v
Balance.v
Queue.v
PoolProps.v
QueueProps.v
Kring.v
KringLife.v
KringNotify.v
KringMap.v
Device.v
DeviceInv.v
DeviceProps.v
DataPath.v
Operation.v
OperationProps.v
Threads.v
ThreadsInv.v
ThreadsStep.v
ThreadsLock.v
ThreadsRun.v
ThreadsSeq.v
ThreadsTerm.v
ThreadsProps.v
Debugfs.v
Lifecycle.v
Create.v
CreateInv.v
CreateProps.v
AllocDisk.v
Netlink.v
NetlinkProps.v
GenlOps.v
System.v
SystemInv.v
SystemStep.v
SystemRun.v
SystemDrain.v
SystemProps.v
KringFrame.v
SystemFrame.v
Files.v
FilesFrame.v
FilesInv.v
FilesStep.v
FilesDrain.v
FilesProps.v
ModuleInit.v
