(* ===== verification/Prelude.v ===== *)
(** * ubbd-kernel: a verification library

    ubbd is a Linux block driver whose requests are served by a process in user
    space, the backend.  The block layer gives a request to one of the queues of
    a device; the queue copies its data to pages shared with the backend, writes
    an entry in a command ring, and signals the backend through a character
    device of its own (a kring device), which also maps the rings and the pages
    into the backend.  The backend answers in a completion ring.  Devices are
    created, configured and removed through generic netlink commands.

    This library models the driver's C code in [src/src] as executable Gallina
    definitions that keep the names of the source, and proves what makes it
    correct.

    ** The files

    - [Prelude]: machine integers with their wrap-around, error numbers, the
      [outcome] of a handler (it returns, or it reaches a fault: NULL, BUG, out
      of bounds, freed or never allocated memory, double free, division by
      zero, fuel), the bind [let*], tactics.
    - [Abi]: interfaces to code that is not in the repository.  [UbbdAbi] is
      [ubbd.h] (a git submodule), [KernelApi] and [KernelMem] the parts of the
      kernel the request path calls; each has a class of laws and an instance
      that satisfies them, on which the witnesses run.
    - [Dcache] ([ubbd_flush_dcache_range]): the pages a flush goes over.
    - [Ring] ([ubbd_req.c] 4-30, 309-354, 601-619 and the [UPDATE_*] macros of
      [ubbd_internal.h]): ring arithmetic over a typed ring memory.
    - [Pages] ([ubbd_req.c] 32-307, 356-375, 586-599): bitmap and array of the
      data pages, their acquisition and release, copies and iovecs.
    - [Request] ([ubbd_req.c] 377-584, 621-787): submission, completion, end of
      the inflight requests.  The state is one [ubbd_queue] and the [world] its
      queues share: request table, pending works, calls into blk-mq, page
      allocator, memory.
    - [Balance]: no operation of the request path changes the pages allocated
      outside a queue, so none leaks.
    - [Queue]: the invariant of a queue and that every operation keeps it;
      [PoolProps] and [QueueProps]: the properties of pages and of requests.
    - [Kring] ([ubbd_kring.c]): minors, life and file operations of kring
      devices, mapping and faults; [KringLife] and [KringMap]: their properties;
      [KringNotify]: attributes, SIGIO listeners, managed registration.
    - [Device] ([ubbd_dev.c] and the helpers of [ubbd_internal.h]): queue and
      device status, stop, start, removal, configuration, add-disk work,
      references; [DeviceInv] composes the queue invariants over the queues of
      a device; [DeviceProps] has the properties.
    - [DataPath]: the data of a request end to end, over [Request] and the fault
      handler of [Kring]: bytes of the bios, iovecs, mapping, backend.
    - [Operation]: a device in operation as a machine that composes the
      handlers of [Request] and [Device] over all its queues, in any order;
      [OperationProps]: that it never faults and loses no request.
    - [Threads]: the handlers of [Request], [queue_stop], [queue_start] and
      [ubbd_dev_remove_queues] cut at their locks; a [task] is a thread inside
      one of them, [task_step] its next section, and [conc_step] interleaves any
      number of threads of a queue with the block layer and the backend.
      A section that stores under one lock what is read under another is cut
      again, the thread keeping the lock: the submission under [cmdr_lock] has
      three sections (padding and [req_tid]; the entry and [se]; the iovecs and
      the head), [fetch_inflight_req] two (the look-up and the test of
      [STOPPING]; the store of [STOPPED]).
      [ThreadsInv] (what each thread holds, the frame rules, the invariant),
      [ThreadsStep] (the sections of one thread), [ThreadsLock] (one thread next
      to the others, and what the holder of [cmdr_lock] may rely on),
      [ThreadsRun] (every step keeps the invariant), [ThreadsSeq] (the sections in a row are the handlers),
      [ThreadsTerm] (a weight that every section lowers), [ThreadsProps] (the
      theorems, with schedules they are applied to).
    - [Debugfs] ([ubbd_debugfs.c], [ubbd_req_stats]): files of a device and
      their contents, with their properties.
    - [Lifecycle]: the device as a state machine over commands, works, opens
      and mappings.
    - [Create] ([ubbd_dev.c] 42-60, 98-320, 455-570, 637-763): queues, devices
      and disks created and destroyed, over a heap of the objects allocated;
      [CreateInv] and [CreateProps]: lemmas and properties; [AllocDisk]: the
      disk of older kernels ([ubbd_dev.c] 322-453).
    - [Netlink] ([ubbd_nl.c]): messages, their sizes, the command handlers over
      the state of the whole driver; [NetlinkProps]: the properties; [GenlOps]:
      the command tables of the three forms of generic netlink.
    - [System]: the driver as one machine, whose steps are the netlink commands
      on any device, the events of the devices' lives, the opens of their queues
      by backends and their requests; a device is destroyed by whichever step
      drops its last reference.  [SystemInv] (the parts of the invariant),
      [SystemStep] (events and requests keep it), [SystemRun] (commands keep it,
      so every reachable state has it), [SystemDrain] (steps that take something
      down lower a weight), [SystemProps] (the theorems about the driver).
    - [Files]: the driver with its backends: the file operations of the kring
      devices and the mappings of the queues ([ubbd_kring_open], [_release],
      [_read], [_poll], [_write], [_mmap], [ubbd_vma_open], [_close], [_fault])
      as steps between those of [System], on the whole kring state.
      [KringFrame] and [SystemFrame]: what goes through on the [registry] of the
      kring devices, as the driver sees them, goes through whatever files are
      open; [FilesFrame] (what a step leaves of the devices), [FilesInv] and
      [FilesStep] (backends' steps are steps of [System], through the registry),
      [FilesDrain] (emptying), [FilesProps] (the theorems).
    - [ModuleInit] ([ubbd_main.c], [__ubbd_init], [__ubbd_exit], the class part
      of [ubbd_kring.c]): loading and unloading.

    ** What the theorems show

    - Driver: no interleaving of commands, events and requests on any number of
      devices faults as long as commands carry their attributes, the manager
      waits for add-disk works and transitions, and requests come to queues
      that backends have opened ([sys_can]); the devices share nothing; ids, references, kring devices
      and data pages are exactly those of the devices; no request is lost; and
      from every state the driver can be emptied, back to its start but for the
      disks and tag sets leaked when limits are refused.
    - Backends: with any number of open files and mappings the driver is the
      same driver (a refinement, so the theorems above hold), still faults
      nowhere if writes go to registered kring devices of opened queues
      ([file_can]), counts one reference per file and mapping, shows through a mapping
      no page but the queue's own, and can still be emptied.
    - Rings: the space test is exact and never underflows, padding makes the
      command fit, the tail advances over exactly the finished entries.
    - Pages: acquisition is all or nothing and terminates, release respects the
      reserve, data survives the way to the backend and back, and a page is
      unmapped from the backend when it is freed.
    - Requests: submission does what the request asks or refuses it cleanly;
      the completion loop implements a contract on abstract completions
      ([completion_refines]); every request is ended once; reads deliver the
      backend's bytes; pages are lost only on the path that loses them in the
      source.
    - Data: through the iovecs of an entry and its mapping the backend reads
      exactly the bytes of a write, and what it puts there is what a read
      returns.
    - Kring: no use after free over completed operations, exclusive mapping,
      addresses that resolve to the driver's pages, wake-ups.
    - Device: forced removal ends everything on queues backends have opened,
      stop keeps the invariant of all
      queues, configuration touches only reserves; the life cycle is safe for a
      manager that waits for the add-disk work.
    - Operation: submissions, works, backend, completions, timeouts and
      management in any order never fault, the queues keep their invariants
      together, and each request started is exactly one of ended, given back,
      refused, waiting or inflight.
    - Threads: no interleaving of submissions, works, completers, stops, starts
      and removals of a queue faults as long as no completer looks up an id that
      a work is still submitting; a request is ended or given back once, no
      page, id or ring entry has two owners, and a backend may write any entries,
      even over those the driver has consumed and not read yet; the threads end
      under every schedule; and run alone they compute what the handlers do.
      Schedules show where this stops: a completion with the id 0 or with the
      id the next request gets ([early_completion_faults]; ids read in the ring
      are safe, [published_ids_named]), a queue marked as stopped with a request
      inflight, and a removal whose status is overwritten
      ([removal_overwritten]).
    - Creation: every failure is unwound, creation then destruction is the
      identity on the driver, except for the disk leaked when its limits are
      refused.
    - Commands: replies fit the computed sizes and are complete, add-dev is all
      or nothing, add then remove is the identity, refusals have no effect.
    - Disk of older kernels: both variants leave the same device, and nothing is
      left behind or freed twice.
    - Debugfs: files never touch a freed device, the tree is restored.
    - Loading: every exit balances what was acquired.
    - Where the code does not do what it means to, the theorem says when: the
      orders of events that crash it, attributes used unchecked, exclusion of
      backends that can be bypassed, statistics that divide by zero.

    ** Fuel and bounds

    [advance_cmd_ring] has the bytes of the ring as fuel: a live entry takes at
    least one.  A completion runs one round per entry; the theorems ask for one
    more than the number of entries and prove that it is enough; the machine of
    [Operation] uses the size of the ring, which [compr_length] shows to exceed
    the entries it can hold.  A flush runs one round per page of the range.  The two-round
    fuel per page of [ubbd_get_data_pages] covers its [again]: the second round
    holds the page the first one allocated, so it stores it or fails.  Reads of
    the kring device and retries of the state lock are bounded by the events
    given to them.  Hypotheses such as fewer than 2^16 segments per request are
    limits the driver itself gives to the block layer.
    [Threads] asks for at most 2^22 threads (the kernel's limit of process ids),
    so that the pages allocated and not yet stored stay within an [int], and for
    fewer than 2^64 requests; a thread needs no fuel: [threads_end] bounds its
    steps by a weight.

    ** What is not modelled

    - Interleavings inside a handler, in the machines other than [Threads]:
      their handlers are atomic, and the windows in which the source drops or
      does not take a lock are steps of their own where they matter
      ([add_disk_begin] / [add_disk_end], [unregister_device_part],
      [open_found], [DDestroy]).  [Threads] is about one queue: its threads are
      not composed with other queues, devices and files.  In it a section is
      atomic, the updates of the counter [data_pages_allocated] included, and
      memory is sequentially consistent.
    - Fault injection: the tests [ubbd_req_need_fault] and
      [ubbd_mgmt_need_fault] are the ones of a build without
      [UBBD_FAULT_INJECT].
    - The limits of kernels before 6.8, set one by one through [blk_queue_*] to
      the same values; the machines run the variant of the disk with
      [blk_mq_alloc_disk], to which [AllocDisk] relates the other.
    - Backends that write to the command ring or to the heads and tails the
      driver keeps in the shared page: the machines let a backend append
      completion entries of any content ([backend_step], [backend_writes]), and
      the data pages take any bytes.
    - Requests on a queue no backend has opened yet, in [Operation], [System]
      and [Files]: the code dereferences a NULL inode then
      ([PoolProps.release_without_backend_faults]); and, in [Files], a write to
      a file whose kring device has been unregistered, which dereferences NULL
      ([KringLife.write_after_unregister_faults]).
    - In [Threads], what follows a completion of a request whose submission is
      not over: the completer's look-up is the last step considered when the
      entry carries the id 0 or an id being entered, but for the two cases
      [early_completion_faults] follows to the fault.
    - The 16-bit length of a netlink nest, which wraps in a reply of more than
      64 KiB; multicast groups, which are declared and never used.
    - Lock initialisation; where the cache is flushed (memory is coherent in the
      model).
    - [compat-tests] and packaging: no behaviour at run time. *)

From Stdlib Require Export ZArith Lia.
From stdpp Require Export base numbers option sets gmap list.

#[export] Set Default Goal Selector "!".
Open Scope Z_scope.

(** ** Machine integers

    The source computes on C integers; a value of width [w] is a [Z] and the
    wrap-around of the conversion is written where the source converts. *)

Definition u8 (x : Z) : Z := x mod 2 ^ 8.
Definition u32 (x : Z) : Z := x mod 2 ^ 32.
Definition u64 (x : Z) : Z := x mod 2 ^ 64.

(** Conversion to a signed width: two's complement (the kernel is compiled
    with wrapping signed arithmetic). *)
Definition s32 (x : Z) : Z := (x + 2 ^ 31) mod 2 ^ 32 - 2 ^ 31.
Definition s64 (x : Z) : Z := (x + 2 ^ 63) mod 2 ^ 64 - 2 ^ 63.

Definition UINT_MAX : Z := 2 ^ 32 - 1.

Lemma u32_range x : 0 <= u32 x < 2 ^ 32.
Proof. apply Z.mod_pos_bound. lia. Qed.

Lemma u64_range x : 0 <= u64 x < 2 ^ 64.
Proof. apply Z.mod_pos_bound. lia. Qed.

Lemma u32_small x : 0 <= x < 2 ^ 32 -> u32 x = x.
Proof. apply Z.mod_small. Qed.

Lemma u64_small x : 0 <= x < 2 ^ 64 -> u64 x = x.
Proof. apply Z.mod_small. Qed.

Lemma s32_small x : - 2 ^ 31 <= x < 2 ^ 31 -> s32 x = x.
Proof. intros H. unfold s32. rewrite Z.mod_small; lia. Qed.

Lemma s64_small x : - 2 ^ 63 <= x < 2 ^ 63 -> s64 x = x.
Proof. intros H. unfold s64. rewrite Z.mod_small; lia. Qed.

Create HintDb ubbd.
#[export] Hint Resolve u32_range u64_range : ubbd.

(** ** Kernel error numbers the source names *)

Definition ENOENT : Z := 2.
Definition EIO : Z := 5.
Definition EAGAIN : Z := 11.
Definition ENOMEM : Z := 12.
Definition EFAULT : Z := 14.
Definition EBUSY : Z := 16.
Definition ENODEV : Z := 19.
Definition EINVAL : Z := 22.
Definition ENOSPC : Z := 28.
Definition EMSGSIZE : Z := 90.
Definition ESTALE : Z := 116.
Definition ERESTARTSYS : Z := 512.
Definition EPROBE_DEFER : Z := 517.

(** ** Outcomes

    A handler either returns, or reaches a state the kernel cannot leave: a
    NULL dereference, a [BUG], an access outside an array or to memory that
    holds no object, a division by zero, or an exhausted fuel (the loop did not
    finish). *)

Inductive fault : Type :=
| NULL_DEREF
| BUG
| OUT_OF_BOUNDS
| WILD_ACCESS
| DOUBLE_FREE
| DIV_BY_ZERO
| OUT_OF_FUEL.

#[export] Instance fault_eq_dec : EqDecision fault.
Proof. solve_decision. Defined.

Inductive outcome (A : Type) : Type :=
| Ok (a : A)
| Fault (f : fault).
Arguments Ok {A} a.
Arguments Fault {A} f.

Definition obind {A B} (m : outcome A) (k : A -> outcome B) : outcome B :=
  match m with
  | Ok a => k a
  | Fault f => Fault f
  end.

(** Dereference of a pointer: NULL is [None]. *)
Definition deref {A} (o : option A) (f : fault) : outcome A :=
  match o with
  | Some a => Ok a
  | None => Fault f
  end.

Declare Scope ubbd_scope.
Delimit Scope ubbd_scope with ubbd.
Notation "'let*' x := m 'in' k" := (obind m (fun x => k))
  (at level 10, x name, m at level 100, k at level 200) : ubbd_scope.
Notation "'let*' ' p := m 'in' k" := (obind m (fun x => match x with p => k end))
  (at level 10, p pattern, m at level 100, k at level 200) : ubbd_scope.
Open Scope ubbd_scope.

Definition is_ok {A} (m : outcome A) : bool :=
  match m with Ok _ => true | Fault _ => false end.

Lemma ok_pair {A B} (m : outcome (A * B)) d :
  is_ok m = true ->
  m = Ok ((match m with Ok r => r | Fault _ => d end).1, (match m with Ok r => r | Fault _ => d end).2).
Proof. by destruct m as [[]|]. Qed.

Lemma ok_pair_inj {A B} (a c : A) (b d : B) : Ok (a, b) = Ok (c, d) -> a = c /\ b = d.
Proof. by intros [= -> ->]. Qed.

Lemma obind_ok {A B} (m : outcome A) (k : A -> outcome B) b :
  obind m k = Ok b <-> exists a, m = Ok a /\ k a = Ok b.
Proof.
  split.
  - destruct m; simpl; [eauto | discriminate].
  - intros (a & -> & H). exact H.
Qed.

(** ** Tactics *)

(** Open the monadic binds of a hypothesis [H : obind _ _ = Ok _]. *)
Ltac inv_ok H :=
  lazymatch type of H with
  | obind _ _ = Ok _ =>
      let a := fresh "r" in let E := fresh "E" in
      apply obind_ok in H as (a & E & H)
  end.

Ltac inv_oks :=
  repeat match goal with
  | H : obind _ _ = Ok _ |- _ => inv_ok H
  | H : Ok _ = Ok _ |- _ => injection H as H; subst
  | H : Fault _ = Ok _ |- _ => discriminate H
  | H : deref ?o _ = Ok _ |- _ =>
      let E := fresh "E" in destruct o eqn:E; [injection H as H; subst | discriminate H]
  | r : (_ * _)%type |- _ => destruct r
  end.

(** Case analysis on the tests of a goal, closing what arithmetic closes. *)
Ltac zcase :=
  repeat match goal with
  | |- context [bool_decide ?P] => destruct (bool_decide_reflect P)
  | |- context [Z.ltb ?a ?b] => destruct (Z.ltb_spec a b)
  | |- context [Z.leb ?a ?b] => destruct (Z.leb_spec a b)
  | |- context [Z.eqb ?a ?b] => destruct (Z.eqb_spec a b)
  end.

(** Remove width conversions that do not change their argument. *)
Ltac widths :=
  repeat match goal with
  | |- context [u32 ?x] => rewrite (u32_small x) by lia
  | |- context [u64 ?x] => rewrite (u64_small x) by lia
  | |- context [s32 ?x] => rewrite (s32_small x) by lia
  | |- context [s64 ?x] => rewrite (s64_small x) by lia
  end.

(** ** Lists *)

Definition sumZ (l : list Z) : Z := foldr Z.add 0 l.

Lemma sumZ_app l1 l2 : sumZ (l1 ++ l2) = sumZ l1 + sumZ l2.
Proof. unfold sumZ. induction l1 as [|x l1 IH]; simpl; [lia|]. rewrite IH. lia. Qed.

#[export] Instance sumZ_perm : Proper (Permutation ==> eq) sumZ.
Proof. intros l1 l2. unfold sumZ. induction 1; simpl; lia. Qed.

Lemma sumZ_nonneg l : Forall (fun x => 0 <= x) l -> 0 <= sumZ l.
Proof. unfold sumZ. induction 1; simpl; lia. Qed.

(** Range of [x mod n] as a pair of linear facts for [lia]. *)
Lemma Zmod_wrap x n : 0 < n -> 0 <= x < 2 * n -> x mod n = if x <? n then x else x - n.
Proof.
  intros Hn Hx. destruct (Z.ltb_spec x n).
  - apply Z.mod_small. lia.
  - rewrite <- (Z.mod_add x (-1) n) by lia. rewrite Z.mod_small; lia.
Qed.
