(* ===== verification/Abi.v ===== *)
(** * Interfaces to the code that is not in this repository

    The driver includes [ubbd.h] from a git submodule and runs inside the
    kernel.  What it uses of both is stated here as operation classes (the
    names the source calls) and law classes (what it relies on).  The demo
    instances at the end of the file satisfy the laws, and the witnesses of
    the other files are evaluated on them. *)

From S2P Require Import Prelude.

(** ** [ubbd.h] *)

(** [enum ubbd_op], the constructors the source names. *)
Inductive ubbd_op : Type :=
| UBBD_OP_WRITE
| UBBD_OP_READ
| UBBD_OP_DISCARD
| UBBD_OP_WRITE_ZEROS
| UBBD_OP_FLUSH
| UBBD_OP_PAD.

#[export] Instance ubbd_op_eq_dec : EqDecision ubbd_op.
Proof. solve_decision. Defined.

Class UbbdAbi := {
  (* geometry of the shared region *)
  UBBD_MAGIC : Z;
  UBBD_SB_VERSION : Z;
  UBBD_INFO_OFF : Z;
  UBBD_INFO_SIZE : Z;
  CMDR_OFF : Z;
  CMDR_SIZE : Z;
  CMDR_RESERVED : Z;
  COMPR_OFF : Z;
  COMPR_SIZE : Z;
  RING_SIZE : Z;
  UBBD_OP_ALIGN_SIZE : Z;
  sizeof_ubbd_se : Z;
  sizeof_ubbd_ce : Z;
  ubbd_op_zero : ubbd_op;   (* the enumerator a cleared field reads as *)
  (* struct ubbd_se_hdr and its accessors *)
  ubbd_se_hdr : Type;
  hdr_zeroed : ubbd_se_hdr;
  ubbd_se_hdr_set_op : ubbd_op -> ubbd_se_hdr -> ubbd_se_hdr;
  ubbd_se_hdr_set_len : Z -> ubbd_se_hdr -> ubbd_se_hdr;
  ubbd_se_hdr_get_len : ubbd_se_hdr -> Z;
  ubbd_se_hdr_get_op : ubbd_se_hdr -> option ubbd_op;
  ubbd_se_hdr_flags_set : Z -> ubbd_se_hdr -> ubbd_se_hdr;
  ubbd_se_hdr_flags_test : Z -> ubbd_se_hdr -> bool;
  UBBD_SE_HDR_DONE : Z;
  (* status values *)
  UBBD_QUEUE_KSTATUS_RUNNING : Z;
  UBBD_QUEUE_KSTATUS_STOPPING : Z;
  UBBD_QUEUE_KSTATUS_STOPPED : Z;
  UBBD_QUEUE_KSTATUS_REMOVING : Z;
  UBBD_DEV_KSTATUS_INIT : Z;
  UBBD_DEV_KSTATUS_PREPARED : Z;
  UBBD_DEV_KSTATUS_RUNNING : Z;
  UBBD_DEV_KSTATUS_REMOVING : Z;
  UBBD_DEV_KSTATUS_SHIFT : Z;
  (* attribute flags *)
  UBBD_ATTR_FLAGS_ADD_WRITECACHE : Z;
  UBBD_ATTR_FLAGS_ADD_FUA : Z;
  UBBD_ATTR_FLAGS_ADD_DISCARD : Z;
  UBBD_ATTR_FLAGS_ADD_WRITE_ZEROS : Z;
  UBBD_ATTR_FLAGS_ADD_READONLY : Z;
  UBBD_ATTR_FLAGS_REMOVE_FORCE : Z;
  UBBD_ATTR_FLAGS_QUEUE_OP_STOP : Z;
  UBBD_ATTR_FLAGS_QUEUE_OP_START : Z;
}.

(** What the driver relies on of [ubbd.h]. *)
Class UbbdAbiLaws `(A : UbbdAbi) : Prop := {
  op_align_pow2 : exists k, 0 <= k <= 16 /\ UBBD_OP_ALIGN_SIZE = 2 ^ k;
  cmdr_size_bound : 0 < CMDR_SIZE <= 2 ^ 31;
  cmdr_size_align : (UBBD_OP_ALIGN_SIZE | CMDR_SIZE);
  cmdr_reserved_bound : 0 < CMDR_RESERVED < CMDR_SIZE;
  sizeof_se_bound : 0 < sizeof_ubbd_se <= 2 ^ 16;
  sizeof_ce_pos : 0 < sizeof_ubbd_ce;
  compr_size_bound : 0 < COMPR_SIZE <= 2 ^ 31;
  compr_size_align : (sizeof_ubbd_ce | COMPR_SIZE);
  hdr_zeroed_not_done : ubbd_se_hdr_flags_test UBBD_SE_HDR_DONE hdr_zeroed = false;
  hdr_get_set_len h l :
    0 <= l <= CMDR_SIZE -> (UBBD_OP_ALIGN_SIZE | l) ->
    ubbd_se_hdr_get_len (ubbd_se_hdr_set_len l h) = l;
  hdr_get_set_op h op : ubbd_se_hdr_get_op (ubbd_se_hdr_set_op op h) = Some op;
  hdr_get_op_set_len h l :
    0 <= l <= CMDR_SIZE -> (UBBD_OP_ALIGN_SIZE | l) ->
    ubbd_se_hdr_get_op (ubbd_se_hdr_set_len l h) = ubbd_se_hdr_get_op h;
  hdr_flags_set_op h op b :
    ubbd_se_hdr_flags_test b (ubbd_se_hdr_set_op op h) = ubbd_se_hdr_flags_test b h;
  hdr_flags_set_len h l b :
    ubbd_se_hdr_flags_test b (ubbd_se_hdr_set_len l h) = ubbd_se_hdr_flags_test b h;
  hdr_flags_set_done h :
    ubbd_se_hdr_flags_test UBBD_SE_HDR_DONE (ubbd_se_hdr_flags_set UBBD_SE_HDR_DONE h) = true;
  hdr_get_len_flags h b :
    ubbd_se_hdr_get_len (ubbd_se_hdr_flags_set b h) = ubbd_se_hdr_get_len h;
  hdr_get_op_flags h b :
    ubbd_se_hdr_get_op (ubbd_se_hdr_flags_set b h) = ubbd_se_hdr_get_op h;
  queue_kstatus_nodup :
    NoDup [UBBD_QUEUE_KSTATUS_RUNNING; UBBD_QUEUE_KSTATUS_STOPPING;
           UBBD_QUEUE_KSTATUS_STOPPED; UBBD_QUEUE_KSTATUS_REMOVING];
  dev_kstatus_nodup :
    NoDup [UBBD_DEV_KSTATUS_INIT; UBBD_DEV_KSTATUS_PREPARED;
           UBBD_DEV_KSTATUS_RUNNING; UBBD_DEV_KSTATUS_REMOVING];
  dev_kstatus_u8 :
    Forall (fun s => 0 <= s < 2 ^ 8)
      [UBBD_DEV_KSTATUS_INIT; UBBD_DEV_KSTATUS_PREPARED;
       UBBD_DEV_KSTATUS_RUNNING; UBBD_DEV_KSTATUS_REMOVING];
  dev_kstatus_shift : 0 <= UBBD_DEV_KSTATUS_SHIFT < 31;
  queue_op_flags_disjoint :
    Z.land UBBD_ATTR_FLAGS_QUEUE_OP_STOP UBBD_ATTR_FLAGS_QUEUE_OP_START = 0;
  queue_op_flags_pos :
    0 < UBBD_ATTR_FLAGS_QUEUE_OP_STOP /\ 0 < UBBD_ATTR_FLAGS_QUEUE_OP_START;
  remove_force_pos : 0 < UBBD_ATTR_FLAGS_REMOVE_FORCE;
}.

(** ** Pure kernel helpers *)

(** A [bio_vec]: a page of the block layer, an offset in it and a length. *)
Record bio_vec : Type := mk_bio_vec {
  bv_page : Z;
  bv_offset : Z;
  bv_len : Z;
}.

Class KernelApi := {
  PAGE_SHIFT : Z;
  sizeof_iovec : Z;
  round_up : Z -> Z -> Z;
  (** [find_first_zero_bit map size], the map given as its set of set bits *)
  find_first_zero_bit : gset Z -> Z -> Z;
  blk_status_t : Type;
  BLK_STS_OK : blk_status_t;
  BLK_STS_IOERR : blk_status_t;
  BLK_STS_RESOURCE : blk_status_t;
  errno_to_blk_status : Z -> blk_status_t;
}.

Definition PAGE_SIZE `{KernelApi} : Z := 2 ^ PAGE_SHIFT.

Class KernelApiLaws `(K : KernelApi) : Prop := {
  page_shift_bound : 12 <= PAGE_SHIFT <= 16;
  sizeof_iovec_bound : 0 < sizeof_iovec <= 16;
  (** [round_up] to a power of two, on 32-bit operands *)
  round_up_spec x k :
    0 <= k -> 0 <= x -> x + 2 ^ k <= 2 ^ 32 ->
    (2 ^ k | round_up x (2 ^ k)) /\ x <= round_up x (2 ^ k) < x + 2 ^ k;
  find_first_zero_bit_range bm n :
    0 <= n -> 0 <= find_first_zero_bit bm n <= n;
  find_first_zero_bit_below bm n j :
    0 <= n -> 0 <= j < find_first_zero_bit bm n -> j ∈ bm;
  find_first_zero_bit_clear bm n :
    0 <= n -> find_first_zero_bit bm n < n -> find_first_zero_bit bm n ∉ bm;
  errno_to_blk_status_0 : errno_to_blk_status 0 = BLK_STS_OK;
}.

(** ** The kernel allocator

    [kmem] is the allocator's own state, [live] the pages it has handed out. *)

Class KernelMem := {
  kmem : Type;
  live : kmem -> gset Z;
  alloc_page : kmem -> option Z * kmem;
  free_page : Z -> kmem -> kmem;
  (** [kcalloc] of [n] words: success or failure *)
  kcalloc : Z -> kmem -> bool * kmem;
  kfree : kmem -> kmem;
  (** result of [xa_err (xa_store ...)]: 0, or a negative error number *)
  xa_store_err : kmem -> Z * kmem;
}.

Class KernelMemLaws `(M : KernelMem) : Prop := {
  alloc_page_some km p km' :
    alloc_page km = (Some p, km') -> (p ∉ live km) /\ live km' = {[p]} ∪ live km;
  alloc_page_none km km' : alloc_page km = (None, km') -> live km' = live km;
  free_page_live p km : live (free_page p km) = (live km ∖ {[p]});
  kcalloc_live n km : live (snd (kcalloc n km)) = live km;
  kfree_live km : live (kfree km) = live km;
  xa_store_live km : live (snd (xa_store_err km)) = live km;
  xa_store_nonpos km : fst (xa_store_err km) <= 0;
}.


(** ** Facts used everywhere *)

Section facts.
Context `{L : UbbdAbiLaws}.

Lemma op_align_bound : 0 < UBBD_OP_ALIGN_SIZE <= 2 ^ 16.
Proof.
  destruct op_align_pow2 as (k & Hk & ->). split.
  - apply Z.pow_pos_nonneg; lia.
  - apply Z.pow_le_mono_r; lia.
Qed.

Lemma queue_kstatus_distinct :
  UBBD_QUEUE_KSTATUS_RUNNING <> UBBD_QUEUE_KSTATUS_STOPPING /\
  UBBD_QUEUE_KSTATUS_RUNNING <> UBBD_QUEUE_KSTATUS_STOPPED /\
  UBBD_QUEUE_KSTATUS_RUNNING <> UBBD_QUEUE_KSTATUS_REMOVING /\
  UBBD_QUEUE_KSTATUS_STOPPING <> UBBD_QUEUE_KSTATUS_STOPPED /\
  UBBD_QUEUE_KSTATUS_STOPPING <> UBBD_QUEUE_KSTATUS_REMOVING /\
  UBBD_QUEUE_KSTATUS_STOPPED <> UBBD_QUEUE_KSTATUS_REMOVING.
Proof.
  pose proof queue_kstatus_nodup as H.
  rewrite !NoDup_cons, !not_elem_of_cons in H. intuition idtac.
Qed.

Lemma dev_kstatus_distinct :
  UBBD_DEV_KSTATUS_INIT <> UBBD_DEV_KSTATUS_PREPARED /\
  UBBD_DEV_KSTATUS_INIT <> UBBD_DEV_KSTATUS_RUNNING /\
  UBBD_DEV_KSTATUS_INIT <> UBBD_DEV_KSTATUS_REMOVING /\
  UBBD_DEV_KSTATUS_PREPARED <> UBBD_DEV_KSTATUS_RUNNING /\
  UBBD_DEV_KSTATUS_PREPARED <> UBBD_DEV_KSTATUS_REMOVING /\
  UBBD_DEV_KSTATUS_RUNNING <> UBBD_DEV_KSTATUS_REMOVING.
Proof.
  pose proof dev_kstatus_nodup as H.
  rewrite !NoDup_cons, !not_elem_of_cons in H. intuition idtac.
Qed.
End facts.

(** Decide the comparisons of a status with the named values. *)
Ltac kstatus :=
  let H := fresh in
  pose proof queue_kstatus_distinct as H; destruct_and! H;
  repeat case_bool_decide; simplify_eq; try congruence.

Ltac dstatus :=
  let H := fresh in
  pose proof dev_kstatus_distinct as H; destruct_and! H;
  repeat case_bool_decide; simplify_eq; try congruence.

(** ** Demo instances *)

(** A header packed in a word, operation in the three low bits. *)
Definition demo_op_code (op : ubbd_op) : Z :=
  match op with
  | UBBD_OP_WRITE => 1
  | UBBD_OP_READ => 2
  | UBBD_OP_DISCARD => 3
  | UBBD_OP_WRITE_ZEROS => 4
  | UBBD_OP_FLUSH => 5
  | UBBD_OP_PAD => 0
  end.

Definition demo_op_decode (z : Z) : option ubbd_op :=
  find (fun op => Z.eqb (demo_op_code op) z)
    [UBBD_OP_WRITE; UBBD_OP_READ; UBBD_OP_DISCARD; UBBD_OP_WRITE_ZEROS;
     UBBD_OP_FLUSH; UBBD_OP_PAD].

#[export] Instance demo_abi : UbbdAbi := {|
  UBBD_MAGIC := 43981;
  UBBD_SB_VERSION := 1;
  UBBD_INFO_OFF := 4096;
  UBBD_INFO_SIZE := 4096;
  CMDR_OFF := 8192;
  CMDR_SIZE := 512;
  CMDR_RESERVED := 64;
  COMPR_OFF := 12288;
  COMPR_SIZE := 128;
  RING_SIZE := 16384;
  UBBD_OP_ALIGN_SIZE := 8;
  sizeof_ubbd_se := 40;
  sizeof_ubbd_ce := 16;
  ubbd_op_zero := UBBD_OP_PAD;
  ubbd_se_hdr := (Z * Z)%type;
  hdr_zeroed := (0, 0);
  ubbd_se_hdr_set_op op h := (h.1 / 8 * 8 + demo_op_code op, h.2);
  ubbd_se_hdr_set_len l h := (l + h.1 mod 8, h.2);
  ubbd_se_hdr_get_len h := h.1 / 8 * 8;
  ubbd_se_hdr_get_op h := demo_op_decode (h.1 mod 8);
  ubbd_se_hdr_flags_set b h := (h.1, Z.lor h.2 b);
  ubbd_se_hdr_flags_test b h := negb (Z.eqb (Z.land h.2 b) 0);
  UBBD_SE_HDR_DONE := 1;
  UBBD_QUEUE_KSTATUS_RUNNING := 1;
  UBBD_QUEUE_KSTATUS_STOPPING := 2;
  UBBD_QUEUE_KSTATUS_STOPPED := 3;
  UBBD_QUEUE_KSTATUS_REMOVING := 4;
  UBBD_DEV_KSTATUS_INIT := 0;
  UBBD_DEV_KSTATUS_PREPARED := 1;
  UBBD_DEV_KSTATUS_RUNNING := 2;
  UBBD_DEV_KSTATUS_REMOVING := 3;
  UBBD_DEV_KSTATUS_SHIFT := 4;
  UBBD_ATTR_FLAGS_ADD_WRITECACHE := 1;
  UBBD_ATTR_FLAGS_ADD_FUA := 2;
  UBBD_ATTR_FLAGS_ADD_DISCARD := 4;
  UBBD_ATTR_FLAGS_ADD_WRITE_ZEROS := 8;
  UBBD_ATTR_FLAGS_ADD_READONLY := 16;
  UBBD_ATTR_FLAGS_REMOVE_FORCE := 1;
  UBBD_ATTR_FLAGS_QUEUE_OP_STOP := 1;
  UBBD_ATTR_FLAGS_QUEUE_OP_START := 2;
|}.

Lemma demo_op_code_range op : 0 <= demo_op_code op < 8.
Proof. destruct op; simpl; lia. Qed.

#[export] Instance demo_abi_laws : UbbdAbiLaws demo_abi.
Proof.
  split; simpl; try lia; try done.
  - exists 3. lia.
  - exists 64. lia.
  - exists 8. lia.
  - intros [w f] l Hl [k ->]. simpl. Z.div_mod_to_equations. lia.
  - intros [w f] op. simpl. pose proof (demo_op_code_range op).
    replace ((w / 8 * 8 + demo_op_code op) mod 8) with (demo_op_code op)
      by (Z.div_mod_to_equations; lia).
    by destruct op.
  - intros [w f] l Hl [k ->]. simpl. f_equal. Z.div_mod_to_equations. lia.
  - intros [w f]. simpl. destruct (Z.eqb_spec (Z.land (Z.lor f 1) 1) 0) as [E|]; [|done].
    apply (f_equal (fun z => Z.testbit z 0)) in E.
    rewrite Z.land_spec, Z.lor_spec in E. by rewrite orb_true_r in E.
  - apply (bool_decide_unpack _). reflexivity.
  - apply (bool_decide_unpack _). reflexivity.
  - repeat constructor; lia.
Qed.

Fixpoint demo_ffz (bm : gset Z) (i : Z) (n : nat) : Z :=
  match n with
  | O => i
  | S n => if bool_decide (i ∈ bm) then demo_ffz bm (i + 1) n else i
  end.

Lemma demo_ffz_spec bm n : forall i,
  i <= demo_ffz bm i n <= i + Z.of_nat n /\
  (forall j, i <= j < demo_ffz bm i n -> j ∈ bm) /\
  (demo_ffz bm i n < i + Z.of_nat n -> demo_ffz bm i n ∉ bm).
Proof.
  induction n as [|n IH]; intros i; simpl.
  - repeat split; lia.
  - case_bool_decide as Hi.
    + destruct (IH (i + 1)) as (H1 & H2 & H3). repeat split; try lia.
      * intros j Hj. destruct (decide (j = i)) as [->|]; [done|]. apply H2. lia.
      * intros H. apply H3. lia.
    + repeat split; lia || done.
Qed.

#[export] Instance demo_kernel : KernelApi := {|
  PAGE_SHIFT := 12;
  sizeof_iovec := 16;
  round_up x y := (x + y - 1) / y * y;
  find_first_zero_bit bm n := demo_ffz bm 0 (Z.to_nat n);
  blk_status_t := Z;
  BLK_STS_OK := 0;
  BLK_STS_IOERR := 10;
  BLK_STS_RESOURCE := 9;
  errno_to_blk_status e := if Z.eqb e 0 then 0 else 10;
|}.

#[export] Instance demo_kernel_laws : KernelApiLaws demo_kernel.
Proof.
  split; simpl; try lia.
  - intros x k Hk Hx _. assert (0 < 2 ^ k) by (apply Z.pow_pos_nonneg; lia).
    split; [apply Z.divide_factor_r|].
    pose proof (Z.div_mod (x + 2 ^ k - 1) (2 ^ k)).
    pose proof (Z.mod_pos_bound (x + 2 ^ k - 1) (2 ^ k)). lia.
  - intros bm n Hn. destruct (demo_ffz_spec bm (Z.to_nat n) 0). lia.
  - intros bm n j Hn Hj. destruct (demo_ffz_spec bm (Z.to_nat n) 0) as (_ & H & _). auto.
  - intros bm n Hn Hlt. destruct (demo_ffz_spec bm (Z.to_nat n) 0) as (_ & _ & H).
    apply H. lia.
Qed.

(** An allocator with a schedule of failures ([true] fails the call). *)
Definition demo_next (lv : gset Z) : Z := foldr Z.max 0 (elements lv) + 1.

Lemma demo_next_fresh lv : demo_next lv ∉ lv.
Proof.
  assert (forall l x, x ∈ l -> x <= foldr Z.max 0 l) as H.
  { induction l as [|y l IH]; intros x; [by rewrite elem_of_nil|].
    rewrite elem_of_cons. simpl. intros [->|Hx]; [lia|]. specialize (IH x Hx). lia. }
  intros Hin. apply elem_of_elements, H in Hin. unfold demo_next in Hin. lia.
Qed.

Definition demo_sched (km : gset Z * list bool) : bool * (gset Z * list bool) :=
  match km.2 with
  | [] => (false, km)
  | b :: s => (b, (km.1, s))
  end.

#[export] Instance demo_mem : KernelMem := {|
  kmem := (gset Z * list bool)%type;
  live km := km.1;
  alloc_page km :=
    let '(fail, km') := demo_sched km in
    if fail then (None, km') else (Some (demo_next km.1), ({[demo_next km.1]} ∪ km.1, km'.2));
  free_page p km := (km.1 ∖ {[p]}, km.2);
  kcalloc n km := let '(fail, km') := demo_sched km in (negb fail, km');
  kfree km := km;
  xa_store_err km :=
    let '(fail, km') := demo_sched km in ((if fail then - ENOMEM else 0), km');
|}.

#[export] Instance demo_mem_laws : KernelMemLaws demo_mem.
Proof.
  split; simpl.
  - intros [lv s] p km'. unfold demo_sched. simpl. destruct s as [|[] s]; simpl; intros [= <- <-];
      (split; [apply demo_next_fresh | done]).
  - intros [lv s] km'. unfold demo_sched. simpl. destruct s as [|[] s]; simpl; intros [= <-]; done.
  - done.
  - intros n [lv s]. unfold demo_sched. by destruct s.
  - done.
  - intros [lv s]. unfold demo_sched. by destruct s.
  - intros [lv s]. unfold demo_sched. destruct s as [|[] s]; simpl; unfold ENOMEM; lia.
Qed.
