(* ===== verification/Dcache.v ===== *)
(** * Flushing the data cache

    Models [ubbd_flush_dcache_range] of [src/src/ubbd_internal.h], which the
    driver calls on the super block and on completion entries before it reads
    what the backend wrote: the loop over the pages of a range. *)

From S2P Require Import Prelude Abi.

Section code.
Context `{A : UbbdAbi} `{K : KernelApi}.

(** [offset_in_page] *)
Definition offset_in_page (vaddr : Z) : Z := Z.land vaddr (PAGE_SIZE - 1).

(** The loop: the addresses of the pages flushed. *)
Fixpoint flush_loop (fuel : nat) (start size : Z) : outcome (list Z) :=
  if size =? 0 then Ok []
  else
    match fuel with
    | O => Fault OUT_OF_FUEL
    | S fuel =>
        let* l := flush_loop fuel (u64 (start + PAGE_SIZE)) (u64 (size - PAGE_SIZE)) in
        Ok (start :: l)
    end.

Definition ubbd_flush_dcache_range (vaddr size : Z) : outcome (list Z) :=
  let offset := offset_in_page vaddr in
  let start := u64 (vaddr - offset) in
  let size := round_up (u64 (size + offset)) PAGE_SIZE in
  flush_loop (Z.to_nat (size / PAGE_SIZE)) start size.
End code.

Section properties.
Context `{L : UbbdAbiLaws} `{KL : KernelApiLaws}.

Lemma page_size_bound : 2 ^ 12 <= PAGE_SIZE <= 2 ^ 16.
Proof. pose proof page_shift_bound. unfold PAGE_SIZE. split; apply Z.pow_le_mono_r; lia. Qed.

Lemma offset_in_page_mod vaddr : 0 <= vaddr -> offset_in_page vaddr = vaddr mod PAGE_SIZE.
Proof.
  intros Hv. pose proof page_shift_bound. unfold offset_in_page, PAGE_SIZE.
  rewrite <- Z.land_ones by lia. by rewrite Z.ones_equiv, <- Z.sub_1_r.
Qed.

(** [n] pages from [start]. *)
Lemma flush_loop_spec n start :
  0 <= start -> start + Z.of_nat n * PAGE_SIZE < 2 ^ 64 ->
  flush_loop n start (Z.of_nat n * PAGE_SIZE) =
    Ok ((fun i => start + i * PAGE_SIZE) <$> seqZ 0 (Z.of_nat n)).
Proof.
  pose proof page_size_bound. revert start. induction n as [|n IH]; intros start Hs Hb; [done|].
  cbn [flush_loop]. assert (Z.of_nat (S n) * PAGE_SIZE = Z.of_nat n * PAGE_SIZE + PAGE_SIZE) as Es by lia.
  assert (0 <= Z.of_nat n * PAGE_SIZE) by (apply Z.mul_nonneg_nonneg; lia).
  rewrite Es in *. rewrite (proj2 (Z.eqb_neq _ 0)) by lia.
  rewrite u64_small by lia.
  rewrite Z.add_simpl_r. rewrite u64_small by lia.
  rewrite IH by lia. cbn [obind]. f_equal. rewrite Nat2Z.inj_succ, (seqZ_cons 0 (Z.succ _)), Z.pred_succ by lia.
  cbn [fmap list_fmap]. f_equal; [lia|]. rewrite <- (fmap_add_seqZ 1 0), <- list_fmap_compose.
  apply list_fmap_ext. intros i z _. simpl. lia.
Qed.

(** C36: the flush covers the range and no more.  On a range that fits in 32
    bits and does not reach the end of the address space the loop ends, and the
    pages it flushes, each once, are exactly those that hold a byte of the
    range. *)
Theorem flush_dcache_range_exact (vaddr size : Z) :
  0 <= vaddr -> 0 < size -> size + 2 * PAGE_SIZE <= 2 ^ 32 -> vaddr + size + PAGE_SIZE < 2 ^ 64 ->
  exists l, ubbd_flush_dcache_range vaddr size = Ok l /\ NoDup l /\
    forall p, p ∈ l <-> (PAGE_SIZE | p) /\ p < vaddr + size /\ vaddr < p + PAGE_SIZE.
Proof.
  intros Hv Hs Hb He. pose proof page_size_bound as Hp. unfold ubbd_flush_dcache_range.
  rewrite offset_in_page_mod by done. set (off := vaddr mod PAGE_SIZE).
  assert (0 <= off < PAGE_SIZE) as Hoff by (apply Z.mod_pos_bound; lia).
  assert (vaddr - off = vaddr / PAGE_SIZE * PAGE_SIZE) as Est.
  { unfold off. pose proof (Z_div_mod_eq_full vaddr PAGE_SIZE). lia. }
  rewrite (u64_small (size + off)) by lia.
  pose proof page_shift_bound as Hsh.
  destruct (round_up_spec (size + off) PAGE_SHIFT) as [[n Hn] Hr]; [lia|lia|unfold PAGE_SIZE in *; lia|].
  fold PAGE_SIZE in Hn, Hr. rewrite Hn in *. clear Hn. assert (0 < n) as Hn0 by (apply (Z.mul_lt_mono_pos_r PAGE_SIZE); lia).
  rewrite Z.div_mul by lia.
  assert (0 <= vaddr / PAGE_SIZE) as Hq by (apply Z.div_pos; lia).
  assert (0 <= vaddr - off) as Hst by (rewrite Est; apply Z.mul_nonneg_nonneg; lia).
  rewrite (u64_small (vaddr - off)) by lia.
  pose proof (flush_loop_spec (Z.to_nat n) (vaddr - off)) as Hf. rewrite Z2Nat.id in Hf by lia.
  rewrite Hf by lia. eexists. split; [done|]. split.
  - apply NoDup_fmap_2; [|apply NoDup_seqZ]. intros i j Hij. apply (Z.mul_reg_r _ _ PAGE_SIZE); lia.
  - intros p. rewrite list_elem_of_fmap. rewrite Est. split.
    + intros (i & -> & Hi%elem_of_seqZ). split; [exists (vaddr / PAGE_SIZE + i); lia|]. rewrite <- Est.
      assert (0 <= i * PAGE_SIZE) by (apply Z.mul_nonneg_nonneg; lia).
      assert ((i + 1) * PAGE_SIZE <= n * PAGE_SIZE) by (apply Z.mul_le_mono_nonneg_r; lia). lia.
    + intros ([k ->] & H1 & H2). exists (k - vaddr / PAGE_SIZE). split; [lia|]. apply elem_of_seqZ. rewrite Z.add_0_l.
      assert ((vaddr / PAGE_SIZE) * PAGE_SIZE < (k + 1) * PAGE_SIZE) as Hlo by lia.
      assert (k * PAGE_SIZE < (vaddr / PAGE_SIZE + n) * PAGE_SIZE) as Hhi by lia.
      apply Z.mul_lt_mono_pos_r in Hlo, Hhi; lia.
Qed.
End properties.

Lemma flush_dcache_range_exact_witness :
  exists l, ubbd_flush_dcache_range 8190 10 = Ok l /\ (4096 ∈ l) /\ (8192 ∈ l) /\ (0 ∉ l).
Proof.
  destruct (flush_dcache_range_exact 8190 10) as (l & E & _ & H); [done|done|vm_compute; congruence|vm_compute; reflexivity|].
  exists l. split; [exact E|]. rewrite !H. change PAGE_SIZE with 4096.
  split; [|split]; [split; [by exists 1|lia]|split; [by exists 2|lia]|lia].
Defined.
