(* ===== verification/Ring.v ===== *)
(** * The command ring and the completion ring

    Models [struct ubbd_sb] as the driver uses it and the ring code of
    [src/src/ubbd_req.c]: [get_submit_entry], [get_oldest_se],
    [get_complete_entry], [submit_ring_space_enough], [insert_padding],
    [advance_cmd_ring] and the [UPDATE_*] macros of [ubbd_internal.h].

    Ring memory is typed: a map from the offset (in [cmdr]) where an entry
    starts to its header, and one to the rest of the entry.  Clearing a byte
    range forgets the entries that start in it. *)

From S2P Require Import Prelude Abi.

(** ** Shared state *)

Record ubbd_sb : Type := mk_sb {
  sb_magic : Z;
  sb_version : Z;
  sb_info_off : Z;
  sb_info_size : Z;
  sb_cmdr_off : Z;
  cmdr_size : Z;
  cmd_head : Z;
  cmd_tail : Z;
  sb_compr_off : Z;
  compr_size : Z;
  compr_head : Z;
  compr_tail : Z;
}.

Definition set_cmd_head (v : Z) (s : ubbd_sb) : ubbd_sb :=
  mk_sb (sb_magic s) (sb_version s) (sb_info_off s) (sb_info_size s) (sb_cmdr_off s)
    (cmdr_size s) v (cmd_tail s) (sb_compr_off s) (compr_size s) (compr_head s) (compr_tail s).

Definition set_cmd_tail (v : Z) (s : ubbd_sb) : ubbd_sb :=
  mk_sb (sb_magic s) (sb_version s) (sb_info_off s) (sb_info_size s) (sb_cmdr_off s)
    (cmdr_size s) (cmd_head s) v (sb_compr_off s) (compr_size s) (compr_head s) (compr_tail s).

Definition set_compr_tail (v : Z) (s : ubbd_sb) : ubbd_sb :=
  mk_sb (sb_magic s) (sb_version s) (sb_info_off s) (sb_info_size s) (sb_cmdr_off s)
    (cmdr_size s) (cmd_head s) (cmd_tail s) (sb_compr_off s) (compr_size s) (compr_head s) v.

(** The part of [struct ubbd_se] after its header.  An iovec is its base (an
    offset in the mapping) and its length. *)
Record se_body : Type := mk_se_body {
  se_priv_data : Z;
  se_offset : Z;
  se_len : Z;
  se_iov_cnt : Z;
  se_iov : list (Z * Z);
}.

Record ubbd_ce : Type := mk_ce { ce_priv_data : Z; ce_result : Z }.

Record ring `{UbbdAbi} : Type := mk_ring {
  sb : ubbd_sb;
  hdrs : gmap Z ubbd_se_hdr;
  bodies : gmap Z se_body;
  ces : gmap Z ubbd_ce;
}.

Section code.
Context `{A : UbbdAbi}.

Definition upd_sb (f : ubbd_sb -> ubbd_sb) (r : ring) : ring :=
  mk_ring _ (f (sb r)) (hdrs r) (bodies r) (ces r).

(** ** Ring macros *)

(** The macro adds in the width of its operands: [u32] for a padding or an
    entry length, [u64] where [used] is a [size_t]. *)
Definition UPDATE_CMDR_HEAD (wd : Z -> Z) (used : Z) (r : ring) : ring :=
  let size := cmdr_size (sb r) in
  upd_sb (set_cmd_head (u32 (wd (cmd_head (sb r) mod size + used) mod size))) r.

Definition UPDATE_CMDR_TAIL (wd : Z -> Z) (used : Z) (r : ring) : ring :=
  let size := cmdr_size (sb r) in
  upd_sb (set_cmd_tail (u32 (wd (cmd_tail (sb r) mod size + used) mod size))) r.

Definition UPDATE_COMPR_TAIL (wd : Z -> Z) (used : Z) (r : ring) : ring :=
  let size := compr_size (sb r) in
  upd_sb (set_compr_tail (u32 (wd (compr_tail (sb r) mod size + used) mod size))) r.

(** ** Entry access: pointers into the ring are offsets *)

Definition get_submit_entry (r : ring) : Z := cmd_head (sb r).

Definition get_oldest_se (r : ring) : option Z :=
  if cmd_tail (sb r) =? cmd_head (sb r) then None else Some (cmd_tail (sb r)).

Definition get_complete_entry (r : ring) : option Z :=
  if compr_tail (sb r) =? compr_head (sb r) then None else Some (compr_tail (sb r)).

(** ** Space accounting, in [u32] *)

Definition submit_ring_space_enough (r : ring) (cmd_size : Z) : bool :=
  let size := cmdr_size (sb r) in
  let head := cmd_head (sb r) in
  let tail := cmd_tail (sb r) in
  let space_max := u32 (size - CMDR_RESERVED) in
  let space_used :=
    if tail <? head then u32 (head - tail)
    else if head <? tail then u32 (head + u32 (size - tail))
    else 0 in
  let space_available := u32 (space_max - space_used) in
  let space_needed :=
    if cmd_size <? u32 (size - head) then cmd_size
    else u32 (u32 (cmd_size + size) - head) in
  if space_available <? space_needed then false else true.

(** [memset(ring + off, 0, len)] *)
Definition outside (off len k : Z) : bool := (k <? off) || (off + len <=? k).

Definition ring_memset (off len : Z) (r : ring) : ring :=
  mk_ring _ (sb r)
    (filter (fun kv => outside off len kv.1 = true) (hdrs r))
    (filter (fun kv => outside off len kv.1 = true) (bodies r))
    (ces r).

Definition put_hdr (off : Z) (h : ubbd_se_hdr) (r : ring) : ring :=
  mk_ring _ (sb r) (<[off := h]> (hdrs r)) (bodies r) (ces r).

Definition put_body (off : Z) (b : se_body) (r : ring) : ring :=
  mk_ring _ (sb r) (hdrs r) (<[off := b]> (bodies r)) (ces r).

Definition insert_padding (r : ring) (cmd_size : Z) : ring :=
  let size := cmdr_size (sb r) in
  let head := cmd_head (sb r) in
  if cmd_size <=? u32 (size - head) then r
  else
    let pad_len := u32 (size - head) in
    let header := get_submit_entry r in
    let r := ring_memset header pad_len r in
    let h := ubbd_se_hdr_set_op UBBD_OP_PAD hdr_zeroed in
    let h := ubbd_se_hdr_set_len pad_len h in
    let r := put_hdr header h r in
    UPDATE_CMDR_HEAD u32 pad_len r.

(** [ubbd_se_hdr_flags_set(se, bit)] on the entry at [off] *)
Definition se_flags_set (off : Z) (bit : Z) (r : ring) : outcome ring :=
  let* h := deref (hdrs r !! off) WILD_ACCESS in
  Ok (put_hdr off (ubbd_se_hdr_flags_set bit h) r).

(** The tail of the ring moves over the finished entries at its front.  The
    backward [goto again] is the recursion. *)
Fixpoint advance_cmd_ring (fuel : nat) (r : ring) : outcome ring :=
  match fuel with
  | O => Fault OUT_OF_FUEL
  | S fuel =>
      match get_oldest_se r with
      | None => Ok r
      | Some se =>
          let* h := deref (hdrs r !! se) WILD_ACCESS in
          if ubbd_se_hdr_flags_test UBBD_SE_HDR_DONE h
          then advance_cmd_ring fuel (UPDATE_CMDR_TAIL u32 (ubbd_se_hdr_get_len h) r)
          else Ok r
      end
  end.
End code.

(** ** Abstract view

    The live part of the command ring is the list of its entries from tail to
    head, each with its offset and header. *)

Abbreviation entry := (Z * ubbd_se_hdr)%type.

Section spec.
Context `{A : UbbdAbi}.

Definition entry_len (e : entry) : Z := ubbd_se_hdr_get_len e.2.
Definition entry_done (e : entry) : bool := ubbd_se_hdr_flags_test UBBD_SE_HDR_DONE e.2.
Definition total (es : list entry) : Z := sumZ (map entry_len es).

(** [chain m size off es off']: reading headers of [m] from [off], each
    entry followed by the next one modulo [size], gives [es] and ends at
    [off'].  No entry crosses the end of the ring. *)
Inductive chain (m : gmap Z ubbd_se_hdr) (size : Z) : Z -> list entry -> Z -> Prop :=
| chain_nil h : chain m size h [] h
| chain_cons off hd es h :
    m !! off = Some hd ->
    0 < ubbd_se_hdr_get_len hd ->
    (UBBD_OP_ALIGN_SIZE | ubbd_se_hdr_get_len hd) ->
    off + ubbd_se_hdr_get_len hd <= size ->
    chain m size ((off + ubbd_se_hdr_get_len hd) mod size) es h ->
    chain m size off ((off, hd) :: es) h.

Record ring_wf (r : ring) (es : list entry) : Prop := {
  wf_size : cmdr_size (sb r) = CMDR_SIZE;
  wf_tail : 0 <= cmd_tail (sb r) < CMDR_SIZE;
  wf_tail_align : (UBBD_OP_ALIGN_SIZE | cmd_tail (sb r));
  wf_chain : chain (hdrs r) CMDR_SIZE (cmd_tail (sb r)) es (cmd_head (sb r));
  wf_total : total es <= CMDR_SIZE - CMDR_RESERVED;
}.

(** What one operation does to the list. *)
Fixpoint drop_done (es : list entry) : list entry :=
  match es with
  | [] => []
  | e :: es' => if entry_done e then drop_done es' else es
  end.

Definition mark_done (off : Z) (es : list entry) : list entry :=
  map (fun e => if e.1 =? off then (e.1, ubbd_se_hdr_flags_set UBBD_SE_HDR_DONE e.2) else e) es.

(** Pending completion entries: consecutive slots from tail to head. *)
Inductive compr_chain (m : gmap Z ubbd_ce) (size : Z) : Z -> list ubbd_ce -> Z -> Prop :=
| compr_nil h : compr_chain m size h [] h
| compr_cons off c cs h :
    off <> h ->
    m !! off = Some c ->
    compr_chain m size ((off + sizeof_ubbd_ce) mod size) cs h ->
    compr_chain m size off (c :: cs) h.

Record compr_wf (r : ring) (cs : list ubbd_ce) : Prop := {
  cwf_size : compr_size (sb r) = COMPR_SIZE;
  cwf_tail : 0 <= compr_tail (sb r) < COMPR_SIZE;
  cwf_chain : compr_chain (ces r) COMPR_SIZE (compr_tail (sb r)) cs (compr_head (sb r));
}.
End spec.

(** ** Lemmas on chains *)

Section chains.
Context `{L : UbbdAbiLaws}.
Implicit Types (m : gmap Z ubbd_se_hdr) (es : list entry) (r : ring).

Lemma total_cons e es : total (e :: es) = entry_len e + total es.
Proof. reflexivity. Qed.

Lemma total_app es1 es2 : total (es1 ++ es2) = total es1 + total es2.
Proof. unfold total. rewrite map_app. apply sumZ_app. Qed.

Lemma chain_total_nonneg m size o es h : chain m size o es h -> 0 <= total es.
Proof.
  induction 1 as [|o hd es h _ Hp _ _ _ IH]; [done|].
  rewrite total_cons. unfold entry_len. simpl. lia.
Qed.

Lemma chain_length_total m size o es h : chain m size o es h -> Z.of_nat (length es) <= total es.
Proof.
  induction 1 as [|o hd es h _ Hp _ _ _ IH]; [done|].
  rewrite total_cons. unfold entry_len. simpl length. simpl. lia.
Qed.

(** Where a chain ends: start plus the bytes of the entries. *)
Lemma chain_end m size o es h :
  0 < size -> 0 <= o < size -> chain m size o es h ->
  h = (o + total es) mod size /\ 0 <= h < size.
Proof.
  intros Hs Ho Hc. revert Ho.
  induction Hc as [o|o hd es h _ Hp _ _ Hc IH]; intros Ho.
  - rewrite Z.add_0_r, Z.mod_small by lia. lia.
  - destruct IH as [-> ?]; [apply Z.mod_pos_bound; lia|]. split; [|done].
    rewrite total_cons. unfold entry_len. simpl.
    rewrite Zplus_mod_idemp_l. f_equal. lia.
Qed.

(** Every entry lies, without wrapping, at a position before the end. *)
Lemma chain_pos m size o es h e :
  0 < size -> 0 <= o < size -> chain m size o es h -> e ∈ es ->
  exists p, 0 <= p /\ p + entry_len e <= total es /\ 0 < entry_len e /\
    e.1 = (o + p) mod size /\ 0 <= e.1 /\ e.1 + entry_len e <= size.
Proof.
  intros Hs Ho Hc. revert Ho.
  induction Hc as [o|o hd es h _ Hp _ Hb Hc IH]; intros Ho.
  - by rewrite elem_of_nil.
  - pose proof (chain_total_nonneg _ _ _ _ _ Hc).
    rewrite elem_of_cons, total_cons. unfold entry_len. simpl. intros [->|He].
    + exists 0. simpl. rewrite Z.add_0_r, (Z.mod_small o) by lia. lia.
    + destruct IH as (p & ? & ? & ? & Hoff & ? & ?); [apply Z.mod_pos_bound; lia|done|].
      unfold entry_len in *.
      exists (ubbd_se_hdr_get_len hd + p). repeat split; try lia.
      rewrite Hoff, Zplus_mod_idemp_l. f_equal. lia.
Qed.

Lemma chain_lookup m size o es h e : chain m size o es h -> e ∈ es -> m !! e.1 = Some e.2.
Proof.
  induction 1; [by rewrite elem_of_nil|]. rewrite elem_of_cons. intros [->|]; auto.
Qed.

(** The free space after the chain does not meet any of its entries. *)
Lemma chain_disjoint m size o es h n e :
  0 < size -> 0 <= o < size -> chain m size o es h -> e ∈ es ->
  0 <= n -> h + n <= size -> total es + n <= size ->
  e.1 + entry_len e <= h \/ h + n <= e.1.
Proof.
  intros Hs Ho Hc He Hn Hh Ht.
  destruct (chain_end _ _ _ _ _ Hs Ho Hc) as [-> ?].
  destruct (chain_pos _ _ _ _ _ _ Hs Ho Hc He) as (p & ? & ? & ? & Hoff & ? & ?).
  rewrite Zmod_wrap in Hoff, Hh |- * by lia.
  destruct (Z.ltb_spec (o + p) size), (Z.ltb_spec (o + total es) size); lia.
Qed.

Lemma chain_ext m m' size o es h :
  chain m size o es h -> (forall e, e ∈ es -> m' !! e.1 = m !! e.1) -> chain m' size o es h.
Proof.
  induction 1 as [|o hd es h Hm Hp Ha Hb Hc IH]; intros Hext; constructor; try done.
  - rewrite <- Hm. apply (Hext (o, hd)). apply elem_of_cons. by left.
  - apply IH. intros e He. apply Hext. apply elem_of_cons. by right.
Qed.

Lemma chain_snoc m size o es h hd :
  chain m size o es h -> m !! h = Some hd -> 0 < ubbd_se_hdr_get_len hd ->
  (UBBD_OP_ALIGN_SIZE | ubbd_se_hdr_get_len hd) ->
  h + ubbd_se_hdr_get_len hd <= size ->
  chain m size o (es ++ [(h, hd)]) ((h + ubbd_se_hdr_get_len hd) mod size).
Proof.
  induction 1 as [|o hd' es h Hm Hp Ha Hb Hc IH]; intros; simpl;
    (econstructor; eauto using chain_nil).
Qed.

(** A chain shorter than the ring is the only one between its ends. *)
Lemma chain_det m size o es es' h :
  0 <= o < size -> total es < size -> total es' < size ->
  chain m size o es h -> chain m size o es' h -> es = es'.
Proof.
  intros Ho Ht Ht' Hc. revert es' Ho Ht Ht'.
  assert (forall o es hd, 0 <= o < size -> total ((o, hd) :: es) < size ->
    0 < ubbd_se_hdr_get_len hd -> chain m size o ((o, hd) :: es) o -> False) as Hno.
  { intros o1 es1 hd Ho1 Ht1 Hp Hc1. assert (0 < size) as Hs by lia.
    destruct (chain_end _ _ _ _ _ Hs Ho1 Hc1) as [E _].
    inversion Hc1 as [|? ? ? ? _ _ _ _ Hc2]; subst. pose proof (chain_total_nonneg _ _ _ _ _ Hc2).
    rewrite total_cons in *. unfold entry_len in *. simpl in *.
    rewrite Zmod_wrap in E by lia. destruct (Z.ltb_spec (o1 + (ubbd_se_hdr_get_len hd + total es1)) size); lia. }
  induction Hc as [o|o hd es h Hm Hp Ha Hb Hc IH]; intros es' Ho Ht Ht' Hc'.
  - inversion Hc' as [|? hd' es1 ? ? ? ? ? ?]; subst; [done|]. exfalso. by eapply (Hno o es1 hd').
  - inversion Hc' as [|? hd' es1 ? Hm' ? ? ? Hc1]; subst.
    { exfalso. eapply (Hno h es hd); try done. by constructor. }
    rewrite Hm in Hm'. injection Hm' as <-. rewrite total_cons in Ht, Ht'. unfold entry_len in Ht, Ht'.
    simpl in Ht, Ht'. f_equal. apply IH; [apply Z.mod_pos_bound; lia|lia|lia|done].
Qed.

Lemma chain_head_align m o es h :
  chain m CMDR_SIZE o es h -> (UBBD_OP_ALIGN_SIZE | o) -> (UBBD_OP_ALIGN_SIZE | h).
Proof.
  pose proof cmdr_size_align. pose proof cmdr_size_bound.
  induction 1 as [|o hd es h Hm Hp Ha Hb Hc IH]; intros Ho; [done|].
  apply IH. rewrite Z.mod_eq by lia.
  apply Z.divide_sub_r; [apply Z.divide_add_r; done|]. by apply Z.divide_mul_l.
Qed.

Lemma entry_len_mark off e :
  entry_len (if e.1 =? off then (e.1, ubbd_se_hdr_flags_set UBBD_SE_HDR_DONE e.2) else e)
  = entry_len e.
Proof. unfold entry_len. case_match; [apply hdr_get_len_flags|done]. Qed.

Lemma total_mark_done off es : total (mark_done off es) = total es.
Proof.
  unfold total, mark_done. rewrite map_map. f_equal. apply map_ext. apply entry_len_mark.
Qed.

Lemma chain_mark m size o es h off hd :
  m !! off = Some hd -> chain m size o es h ->
  chain (<[off := ubbd_se_hdr_flags_set UBBD_SE_HDR_DONE hd]> m) size o (mark_done off es) h.
Proof.
  intros Hoff. induction 1 as [|o hd' es h Hm Hp Ha Hb Hc IH]; simpl; [constructor|].
  destruct (Z.eqb_spec o off) as [->|Hne].
  - replace hd' with hd in * by congruence. simpl.
    constructor; rewrite ?hdr_get_len_flags; try done. apply lookup_insert_eq.
  - constructor; try done. by rewrite lookup_insert_ne.
Qed.
End chains.

(** ** The operations on the abstract view *)

Section ops.
Context `{L : UbbdAbiLaws}.
Implicit Types (es : list entry) (r : ring).

Lemma cmdr_size_pos : 0 < CMDR_SIZE.
Proof. pose proof cmdr_size_bound. lia. Qed.

Lemma ring_wf_head r es : ring_wf r es ->
  cmd_head (sb r) = (cmd_tail (sb r) + total es) mod CMDR_SIZE /\
  0 <= cmd_head (sb r) < CMDR_SIZE /\ 0 <= total es < CMDR_SIZE /\
  (UBBD_OP_ALIGN_SIZE | cmd_head (sb r)).
Proof.
  intros [Hs Ht Ha Hc Hx]. pose proof cmdr_size_bound. pose proof cmdr_reserved_bound.
  destruct (chain_end _ _ _ _ _ cmdr_size_pos Ht Hc) as [E Hh].
  pose proof (chain_total_nonneg _ _ _ _ _ Hc).
  pose proof (chain_head_align _ _ _ _ Hc Ha).
  repeat split; auto with lia.
Qed.

(** Bytes the reservation for [cmd_size] takes: the entry, and the rest of
    the ring when the entry does not fit strictly before its end. *)
Definition space_needed (r : ring) (cmd_size : Z) : Z :=
  if cmd_size <? CMDR_SIZE - cmd_head (sb r) then cmd_size
  else cmd_size + (CMDR_SIZE - cmd_head (sb r)).

(** The [u32] test computes exactly the reservation on the live bytes: no
    subtraction wraps in a well-formed ring. *)
Lemma space_enough_iff r es cmd_size :
  ring_wf r es -> 0 < cmd_size < 2 ^ 31 ->
  submit_ring_space_enough r cmd_size = true <->
  total es + space_needed r cmd_size <= CMDR_SIZE - CMDR_RESERVED.
Proof.
  intros Hwf Hcmd. destruct (ring_wf_head _ _ Hwf) as (Hh & Hhb & Htot & _).
  destruct Hwf as [Hs Ht _ _ Hx]. pose proof cmdr_size_bound. pose proof cmdr_reserved_bound.
  rewrite Zmod_wrap in Hh by lia.
  unfold submit_ring_space_enough, space_needed. rewrite Hs.
  set (T := cmd_tail (sb r)) in *. set (Hd := cmd_head (sb r)) in *.
  assert ((if T <? Hd then u32 (Hd - T)
           else if Hd <? T then u32 (Hd + u32 (CMDR_SIZE - T)) else 0) = total es) as ->.
  { revert Hh. zcase; intros; widths; lia. }
  rewrite (u32_small (CMDR_SIZE - Hd)), (u32_small (CMDR_SIZE - CMDR_RESERVED)),
    (u32_small (cmd_size + CMDR_SIZE)), (u32_small (CMDR_SIZE - CMDR_RESERVED - total es)) by lia.
  zcase; rewrite ?(u32_small (cmd_size + CMDR_SIZE - Hd)) in * by lia; split; (lia || done).
Qed.

(** Clearing and writing the free space leaves the live entries alone. *)
Lemma free_space_outside r es n e :
  ring_wf r es -> 0 <= n -> cmd_head (sb r) + n <= CMDR_SIZE -> total es + n <= CMDR_SIZE ->
  e ∈ es -> outside (cmd_head (sb r)) n e.1 = true.
Proof.
  intros [Hs Ht _ Hc _] Hn Hh Htot He. pose proof cmdr_size_bound.
  pose proof (chain_disjoint _ _ _ _ _ n e cmdr_size_pos Ht Hc He Hn Hh Htot).
  destruct (chain_pos _ _ _ _ _ _ cmdr_size_pos Ht Hc He) as (p & _ & _ & ? & _).
  unfold outside. apply orb_true_iff. rewrite Z.ltb_lt, Z.leb_le. lia.
Qed.

Lemma lookup_ring_memset off n r k :
  outside off n k = true ->
  hdrs (ring_memset off n r) !! k = hdrs r !! k /\
  bodies (ring_memset off n r) !! k = bodies r !! k.
Proof.
  intros Hk. simpl. rewrite !map_lookup_filter.
  split; [destruct (hdrs r !! k) | destruct (bodies r !! k)]; simpl; try done;
    by rewrite option_guard_True.
Qed.

Lemma free_space_ne r es n e :
  ring_wf r es -> 0 < n -> cmd_head (sb r) + n <= CMDR_SIZE -> total es + n <= CMDR_SIZE ->
  e ∈ es -> e.1 <> cmd_head (sb r).
Proof.
  intros Hwf Hn Hh Htot He E. pose proof (free_space_outside r es n e Hwf ltac:(lia) Hh Htot He) as Ho.
  unfold outside in Ho. rewrite E, orb_true_iff, Z.ltb_lt, Z.leb_le in Ho. lia.
Qed.

(** The entries of a ring are the only ones. *)
Lemma ring_wf_det r es es' : ring_wf r es -> ring_wf r es' -> es = es'.
Proof.
  intros [_ Ht _ Hc Hx] [_ _ _ Hc' Hx']. pose proof cmdr_reserved_bound.
  apply (chain_det (hdrs r) CMDR_SIZE (cmd_tail (sb r)) es es' (cmd_head (sb r))); done || lia.
Qed.

(** A ring whose entries keep their headers keeps its entries. *)
Lemma ring_wf_keep r r' es : ring_wf r es -> sb r' = sb r ->
  (forall e, e ∈ es -> hdrs r' !! e.1 = hdrs r !! e.1) -> ring_wf r' es.
Proof. intros [? ? ? Hc ?] Es He. split; rewrite ?Es; try done. by apply (chain_ext _ _ _ _ _ _ Hc). Qed.

(** The entry whose header is at the head becomes the last one. *)
Lemma ring_extend r es n h wd :
  ring_wf r es -> 0 < n -> (UBBD_OP_ALIGN_SIZE | n) ->
  cmd_head (sb r) + n <= CMDR_SIZE -> total es + n <= CMDR_SIZE - CMDR_RESERVED ->
  ubbd_se_hdr_get_len h = n -> hdrs r !! cmd_head (sb r) = Some h ->
  (forall x, 0 <= x < 2 ^ 32 -> wd x = x) ->
  ring_wf (UPDATE_CMDR_HEAD wd n r) (es ++ [(cmd_head (sb r), h)]).
Proof.
  intros Hwf Hn Ha Hh Htot Hlen Hhd Hwd. pose proof cmdr_size_bound.
  destruct (ring_wf_head _ _ Hwf) as (_ & Hhb & _ & _).
  destruct Hwf as [Hs Ht Hta Hc Hx]. split; simpl; try done.
  - rewrite Hs, (Z.mod_small (cmd_head _)), Hwd, u32_small by
      (pose proof (Z.mod_pos_bound (cmd_head (sb r) + n) CMDR_SIZE); lia).
    rewrite <- Hlen. apply chain_snoc; rewrite ?Hlen; done.
  - rewrite total_app. unfold total at 2, entry_len. simpl. lia.
Qed.

(** Appending one entry at the head: the shape shared by padding and
    submission.  [r'] is the ring once the header is in place. *)
Lemma ring_append r es n h r' wd :
  ring_wf r es -> 0 < n -> (UBBD_OP_ALIGN_SIZE | n) ->
  cmd_head (sb r) + n <= CMDR_SIZE -> total es + n <= CMDR_SIZE - CMDR_RESERVED ->
  ubbd_se_hdr_get_len h = n ->
  sb r' = sb r ->
  hdrs r' = <[cmd_head (sb r) := h]> (hdrs (ring_memset (cmd_head (sb r)) n r)) ->
  (forall x, 0 <= x < 2 ^ 32 -> wd x = x) ->
  ring_wf (UPDATE_CMDR_HEAD wd n r') (es ++ [(cmd_head (sb r), h)]).
Proof.
  intros Hwf Hn Ha Hh Htot Hlen Hsb Hhd Hwd. pose proof cmdr_size_bound.
  pose proof cmdr_reserved_bound. rewrite <- Hsb. apply ring_extend; rewrite ?Hsb; try done.
  - apply (ring_wf_keep r); [done..|]. intros e He. rewrite Hhd.
    rewrite lookup_insert_ne.
    + apply lookup_ring_memset. by apply (free_space_outside r es); lia || done.
    + symmetry. by apply (free_space_ne r es n e); lia || done.
  - rewrite Hhd. apply lookup_insert_eq.
Qed.

(** [insert_padding] after a successful space test: at most one PAD entry is
    appended, and then the command fits before the end of the ring. *)
Lemma insert_padding_wf r es cmd_size :
  ring_wf r es -> 0 < cmd_size < 2 ^ 31 ->
  submit_ring_space_enough r cmd_size = true ->
  exists pads,
    ring_wf (insert_padding r cmd_size) (es ++ pads) /\
    cmd_head (sb (insert_padding r cmd_size)) + cmd_size <= CMDR_SIZE /\
    total (es ++ pads) + cmd_size <= CMDR_SIZE - CMDR_RESERVED /\
    (pads = [] \/ exists h, pads = [(cmd_head (sb r), h)] /\
       ubbd_se_hdr_get_op h = Some UBBD_OP_PAD /\
       ubbd_se_hdr_flags_test UBBD_SE_HDR_DONE h = false /\
       UBBD_OP_ALIGN_SIZE <= ubbd_se_hdr_get_len h /\
       cmd_head (sb (insert_padding r cmd_size)) = 0) /\
    (forall e, e ∈ es -> bodies (insert_padding r cmd_size) !! e.1 = bodies r !! e.1) /\
    ces (insert_padding r cmd_size) = ces r /\
    cmd_tail (sb (insert_padding r cmd_size)) = cmd_tail (sb r).
Proof.
  intros Hwf Hcmd Hsp. rewrite (space_enough_iff _ _ _ Hwf Hcmd) in Hsp.
  pose proof cmdr_size_bound. pose proof cmdr_reserved_bound.
  destruct (ring_wf_head _ _ Hwf) as (_ & Hhb & Htb & Hal).
  unfold space_needed in Hsp. unfold insert_padding. rewrite (wf_size _ _ Hwf).
  rewrite (u32_small (CMDR_SIZE - cmd_head (sb r))) by lia.
  destruct (Z.leb_spec cmd_size (CMDR_SIZE - cmd_head (sb r))) as [Hle|Hgt].
  { exists []. rewrite app_nil_r.
    destruct (Z.ltb_spec cmd_size (CMDR_SIZE - cmd_head (sb r))); split_and!; auto with lia. }
  destruct (Z.ltb_spec cmd_size (CMDR_SIZE - cmd_head (sb r))); [lia|].
  set (pad := CMDR_SIZE - cmd_head (sb r)) in *.
  assert (UBBD_OP_ALIGN_SIZE | pad) as Hpa by (apply Z.divide_sub_r; [apply cmdr_size_align|done]).
  set (h := ubbd_se_hdr_set_len pad (ubbd_se_hdr_set_op UBBD_OP_PAD hdr_zeroed)).
  assert (ubbd_se_hdr_get_len h = pad) as Hlen by (apply hdr_get_set_len; [lia|done]).
  assert (u32 (u32 (cmd_head (sb r) mod CMDR_SIZE + pad) mod CMDR_SIZE) = 0) as Hz.
  { rewrite (Z.mod_small (cmd_head _)) by lia.
    replace (cmd_head (sb r) + pad) with CMDR_SIZE by lia.
    by rewrite (u32_small CMDR_SIZE), Z_mod_same_full, u32_small by lia. }
  exists [(cmd_head (sb r), h)]. unfold get_submit_entry. split_and!.
  - eapply ring_append; eauto with lia. apply u32_small.
  - simpl. rewrite (wf_size _ _ Hwf), Hz. lia.
  - rewrite total_app. unfold total at 2, entry_len. simpl. lia.
  - right. exists h. split_and!; [done| | | |].
    + unfold h. rewrite hdr_get_op_set_len by (lia || done). apply hdr_get_set_op.
    + unfold h. rewrite hdr_flags_set_len, hdr_flags_set_op. apply hdr_zeroed_not_done.
    + rewrite Hlen. apply Z.divide_pos_le; [lia|done].
    + simpl. by rewrite (wf_size _ _ Hwf).
  - intros e He.
    assert (outside (cmd_head (sb r)) pad e.1 = true) as Ho
      by (apply (free_space_outside r es); auto with lia).
    apply (lookup_ring_memset _ _ r _ Ho).
  - done.
  - done.
Qed.

(** The oldest entry is the front of the list. *)
Lemma get_oldest_se_spec r es :
  ring_wf r es -> get_oldest_se r = match es with [] => None | e :: _ => Some e.1 end.
Proof.
  intros Hwf. destruct (ring_wf_head _ _ Hwf) as (Hh & _ & Htb & _).
  destruct Hwf as [_ Ht _ Hc _]. unfold get_oldest_se.
  inversion Hc as [h E|o hd es' h _ Hp _ _ Hc' E1 E2 E3]; subst.
  - by rewrite Z.eqb_refl.
  - destruct (Z.eqb_spec (cmd_tail (sb r)) (cmd_head (sb r))) as [E|]; [|done]. exfalso.
    pose proof (chain_total_nonneg _ _ _ _ _ Hc').
    rewrite total_cons in *. unfold entry_len in *. simpl in *.
    rewrite Zmod_wrap in Hh by lia. revert Hh. zcase; lia.
Qed.

(** Removing the front entry: what one step of [advance_cmd_ring] does. *)
Lemma ring_pop r e es wd :
  ring_wf r (e :: es) -> (forall x, 0 <= x < 2 ^ 32 -> wd x = x) ->
  ring_wf (UPDATE_CMDR_TAIL wd (entry_len e) r) es.
Proof.
  intros [Hs Ht Ha Hc Hx] Hwd. pose proof cmdr_size_bound.
  inversion Hc as [|o hd es' h Hm Hp Hal Hb Hc' E1 E2 E3]; subst.
  unfold entry_len. simpl.
  pose proof (Z.mod_pos_bound (cmd_tail (sb r) + ubbd_se_hdr_get_len hd) CMDR_SIZE cmdr_size_pos).
  split; simpl; rewrite ?Hs, ?(Z.mod_small (cmd_tail _)), ?Hwd, ?(u32_small (_ mod _)) by lia;
    try done.
  - rewrite Z.mod_eq by lia. apply Z.divide_sub_r; [by apply Z.divide_add_r|].
    apply Z.divide_mul_l, cmdr_size_align.
  - rewrite total_cons in Hx. unfold entry_len in Hx. simpl in Hx. lia.
Qed.

(** Fuel for the loops over the command ring: a ring of [CMDR_SIZE] bytes
    holds fewer than [CMDR_SIZE] entries. *)
Definition ring_fuel : nat := Z.to_nat CMDR_SIZE.

Lemma ring_fuel_enough r es : ring_wf r es -> (length es < ring_fuel)%nat.
Proof.
  intros Hwf. destruct (ring_wf_head _ _ Hwf) as (_ & _ & Ht & _).
  pose proof (chain_length_total _ _ _ _ _ (wf_chain _ _ Hwf)). unfold ring_fuel. lia.
Qed.

Lemma advance_cmd_ring_wf es : forall fuel r,
  ring_wf r es -> (length es < fuel)%nat ->
  exists t, advance_cmd_ring fuel r = Ok (upd_sb (set_cmd_tail t) r) /\
    ring_wf (upd_sb (set_cmd_tail t) r) (drop_done es).
Proof.
  induction es as [|e es IH]; intros fuel r Hwf Hf; (destruct fuel as [|fuel]; [simpl in Hf; lia|]);
    pose proof (get_oldest_se_spec _ _ Hwf) as Ho; simpl; rewrite Ho.
  - exists (cmd_tail (sb r)). destruct r as [[] ? ? ?]. done.
  - rewrite (chain_lookup _ _ _ _ _ e (wf_chain _ _ Hwf)) by (apply elem_of_cons; by left).
    simpl. change (ubbd_se_hdr_flags_test UBBD_SE_HDR_DONE e.2) with (entry_done e).
    destruct (entry_done e).
    + pose proof (ring_pop _ _ _ u32 Hwf u32_small) as Hwf'.
      destruct (IH fuel _ Hwf') as (t & E & Ht); [simpl in Hf; lia|].
      exists t. split; [exact E|exact Ht].
    + exists (cmd_tail (sb r)). destruct r as [[] ? ? ?]. done.
Qed.

Lemma se_flags_set_wf r es off hd :
  ring_wf r es -> hdrs r !! off = Some hd ->
  se_flags_set off UBBD_SE_HDR_DONE r =
    Ok (put_hdr off (ubbd_se_hdr_flags_set UBBD_SE_HDR_DONE hd) r) /\
  ring_wf (put_hdr off (ubbd_se_hdr_flags_set UBBD_SE_HDR_DONE hd) r) (mark_done off es).
Proof.
  intros [Hs Ht Ha Hc Hx] Hoff. unfold se_flags_set. rewrite Hoff. split; [done|].
  split; simpl; try done.
  - by apply chain_mark.
  - by rewrite total_mark_done.
Qed.

(** ** The completion ring *)

Lemma get_complete_entry_spec r cs :
  compr_wf r cs ->
  get_complete_entry r = match cs with [] => None | _ => Some (compr_tail (sb r)) end /\
  match cs with [] => True | c :: _ => ces r !! compr_tail (sb r) = Some c end.
Proof.
  intros [_ _ Hc]. unfold get_complete_entry.
  destruct Hc as [h|o c cs h Hne Hm Hc].
  - by rewrite Z.eqb_refl.
  - apply Z.eqb_neq in Hne. by rewrite Hne.
Qed.

Lemma compr_pop r c cs wd :
  compr_wf r (c :: cs) -> sizeof_ubbd_ce <= COMPR_SIZE ->
  (forall x, 0 <= x < 2 ^ 32 -> wd x = x) ->
  compr_wf (UPDATE_COMPR_TAIL wd sizeof_ubbd_ce r) cs.
Proof.
  intros [Hs Ht Hc] Hce Hwd. pose proof compr_size_bound. pose proof sizeof_ce_pos.
  inversion Hc as [|o c' cs' h Hne Hm Hc' E1 E2 E3]; subst.
  assert (0 < COMPR_SIZE) as Hpos by lia.
  pose proof (Z.mod_pos_bound (compr_tail (sb r) + sizeof_ubbd_ce) COMPR_SIZE Hpos).
  split; simpl; rewrite ?Hs, ?(Z.mod_small (compr_tail _)), ?Hwd, ?(u32_small (_ mod _)) by lia;
    done.
Qed.

Lemma sizeof_ce_le : sizeof_ubbd_ce <= COMPR_SIZE.
Proof.
  pose proof sizeof_ce_pos. pose proof compr_size_bound.
  apply Z.divide_pos_le; [lia|apply compr_size_align].
Qed.
End ops.

(** ** Properties *)

Section properties.
Context `{L : UbbdAbiLaws}.

(** C21: [submit_ring_space_enough] is exact.  On a well-formed ring its
    32-bit computation (four subtractions, the wrapped used-space sum) never
    underflows, and it answers true exactly when the live bytes plus the
    bytes the submission will take (the entry, and the tail of the ring when
    the entry does not fit strictly before the end) leave [CMDR_RESERVED]
    bytes free. *)
Theorem submit_ring_space_enough_exact (r : ring) (es : list entry) (cmd_size : Z) :
  ring_wf r es -> 0 < cmd_size < 2 ^ 31 ->
  submit_ring_space_enough r cmd_size = true <->
  total es + space_needed r cmd_size <= CMDR_SIZE - CMDR_RESERVED.
Proof. apply space_enough_iff. Qed.

(** C22: after a successful space test, [insert_padding] appends nothing or
    one PAD entry that fills the ring to its end (a positive multiple of the
    alignment, so its header fits), keeps every live entry, and leaves the
    head where the command fits without wrapping and still within the
    reservation. *)
Theorem insert_padding_makes_room (r : ring) (es : list entry) (cmd_size : Z) :
  ring_wf r es -> 0 < cmd_size < 2 ^ 31 ->
  submit_ring_space_enough r cmd_size = true ->
  let r' := insert_padding r cmd_size in
  exists pads,
    ring_wf r' (es ++ pads) /\
    (pads = [] \/
     exists h, pads = [(cmd_head (sb r), h)] /\
       ubbd_se_hdr_get_op h = Some UBBD_OP_PAD /\
       UBBD_OP_ALIGN_SIZE <= ubbd_se_hdr_get_len h /\ cmd_head (sb r') = 0) /\
    cmd_head (sb r') + cmd_size <= CMDR_SIZE /\
    total (es ++ pads) + cmd_size <= CMDR_SIZE - CMDR_RESERVED /\
    (forall e, e ∈ es -> hdrs r' !! e.1 = hdrs r !! e.1 /\ bodies r' !! e.1 = bodies r !! e.1).
Proof.
  intros Hwf Hcmd Hsp. cbv zeta.
  destruct (insert_padding_wf r es cmd_size Hwf Hcmd Hsp) as (pads & H1 & H2 & H3 & H4 & H5 & _).
  exists pads. split_and!; try done.
  - destruct H4 as [->|(h & ? & ? & _ & ? & ?)]; [by left|right; eauto].
  - intros e He. split; [|by apply H5].
    rewrite (chain_lookup _ _ _ _ _ e (wf_chain _ _ H1)) by (apply elem_of_app; by left).
    by rewrite (chain_lookup _ _ _ _ _ e (wf_chain _ _ Hwf)).
Qed.

(** C23: [advance_cmd_ring] returns, whatever entries the backend has marked
    done: the tail passes exactly the finished entries at the front of the
    ring (the maximal prefix), nothing else of the shared region changes and
    the ring stays well formed.  [ring_fuel] iterations are enough. *)
Theorem advance_cmd_ring_drops_done (r : ring) (es : list entry) :
  ring_wf r es ->
  exists t, advance_cmd_ring ring_fuel r = Ok (upd_sb (set_cmd_tail t) r) /\
    ring_wf (upd_sb (set_cmd_tail t) r) (drop_done es).
Proof. intros Hwf. apply advance_cmd_ring_wf; [done|]. by apply (ring_fuel_enough r). Qed.

(** An idle ring always accepts a command of at most half of its usable
    space, wherever head and tail stand. *)
Theorem idle_ring_accepts (r : ring) (cmd_size : Z) :
  ring_wf r [] -> 0 < cmd_size -> 2 * cmd_size <= CMDR_SIZE - CMDR_RESERVED ->
  submit_ring_space_enough r cmd_size = true.
Proof.
  intros Hwf Hc Hle. pose proof cmdr_size_bound. pose proof cmdr_reserved_bound.
  apply (space_enough_iff _ _ _ Hwf); [lia|]. unfold space_needed.
  change (total []) with 0. zcase; lia.
Qed.
End properties.

(** ** Witnesses *)

(** A ring of 512 bytes whose two live entries straddle the end: a finished
    one at 448 and an unfinished one at 0, head at 64. *)
Definition demo_ring : ring := mk_ring demo_abi
  (mk_sb 0 0 0 0 0 512 64 448 0 128 0 0)
  {[448 := (64, 1); 0 := (64, 0)]} ∅ ∅.

(** The same ring with its head near the end: a padding is needed. *)
Definition demo_ring_pad : ring := mk_ring demo_abi
  (mk_sb 0 0 0 0 0 512 488 448 0 128 0 0)
  {[448 := (40, 0)]} ∅ ∅.

Definition demo_ring_idle : ring := mk_ring demo_abi
  (mk_sb 0 0 0 0 0 512 504 504 0 128 0 0) ∅ ∅ ∅.

Ltac solve_demo_ring :=
  split; simpl;
  [ reflexivity | lia | by exists 56 + by exists 63
  | repeat (econstructor; [reflexivity | vm_compute; reflexivity | | vm_compute; congruence | ]);
    try constructor; try (by exists 8); try (by exists 5)
  | vm_compute; congruence ].

Lemma demo_ring_wf : ring_wf demo_ring [(448, (64, 1)); (0, (64, 0))].
Proof. solve_demo_ring. Qed.

Lemma demo_ring_pad_wf : ring_wf demo_ring_pad [(448, (40, 0))].
Proof. solve_demo_ring. Qed.

Lemma demo_ring_idle_wf : ring_wf demo_ring_idle [].
Proof. solve_demo_ring. Qed.

Lemma submit_ring_space_enough_exact_witness :
  submit_ring_space_enough demo_ring 56 = true <->
  total [(448, (64, 1)); (0, (64, 0))] + space_needed demo_ring 56 <= CMDR_SIZE - CMDR_RESERVED.
Proof. apply (submit_ring_space_enough_exact _ _ 56 demo_ring_wf). lia. Defined.

Lemma insert_padding_makes_room_witness :
  exists pads, ring_wf (insert_padding demo_ring_pad 40) ([(448, (40, 0))] ++ pads).
Proof.
  destruct (insert_padding_makes_room demo_ring_pad _ 40 demo_ring_pad_wf ltac:(lia)
              ltac:(vm_compute; reflexivity)) as (pads & H & _).
  by exists pads.
Defined.

Lemma advance_cmd_ring_drops_done_witness :
  exists t, advance_cmd_ring ring_fuel demo_ring = Ok (upd_sb (set_cmd_tail t) demo_ring) /\
    ring_wf (upd_sb (set_cmd_tail t) demo_ring) (drop_done [(448, (64, 1)); (0, (64, 0))]).
Proof. apply (advance_cmd_ring_drops_done _ _ demo_ring_wf). Defined.

Lemma idle_ring_accepts_witness : submit_ring_space_enough demo_ring_idle 200 = true.
Proof. apply (idle_ring_accepts _ 200 demo_ring_idle_wf); simpl; lia. Defined.

(** The tail of the demo ring moves over the finished entry only. *)
Example demo_ring_advance :
  match advance_cmd_ring ring_fuel demo_ring with
  | Ok r => cmd_tail (sb r)
  | Fault _ => -1
  end = 0.
Proof. vm_compute. reflexivity. Qed.
