(* ===== verification/Pages.v ===== *)
(** * The data-page pool of a queue

    Models the page half of [src/src/ubbd_req.c]: the page indices of a
    request ([ubbd_req_get_pi], [ubbd_req_set_pi]), the pool of shared data
    pages ([ubbd_alloc_page], [ubbd_release_page], [ubbd_get_data_pages]) and
    the copies between the pages of the block layer and the shared pages. *)

From S2P Require Import Prelude Abi.

(** ** Block-layer requests *)

Inductive req_op : Type :=
| REQ_OP_READ
| REQ_OP_WRITE
| REQ_OP_FLUSH
| REQ_OP_DISCARD
| REQ_OP_WRITE_ZEROES
| REQ_OP_OTHER (code : Z).

#[export] Instance req_op_eq_dec : EqDecision req_op.
Proof. solve_decision. Defined.

(** A [struct request]: [rq_bio] is the chain of bios from [req->bio] along
    [bi_next], each with its segments; the empty chain is the NULL pointer. *)
Record request : Type := mk_request {
  rq_op : req_op;
  rq_bio : list (list bio_vec);
  rq_pos : Z;
  rq_bytes : Z;
  rq_timeout : Z;
}.

(** ** The driver's part of a request *)

Definition UBBD_REQ_INLINE_PI_MAX : Z := 4.

(** The [pi] pointer: NULL, an array of page indices, or a dangling pointer. *)
Inductive pi_ptr : Type :=
| PI_NULL
| PI_ARRAY (l : list Z)
| PI_FREED.

Record ubbd_request : Type := mk_ubbd_request {
  ur_op : ubbd_op;
  ur_req_tid : Z;
  ur_pi_cnt : Z;
  ur_inline_pi : list Z;
  ur_pi : pi_ptr;
  ur_se : option Z;
}.

Definition set_inline_pi (l : list Z) (r : ubbd_request) : ubbd_request :=
  mk_ubbd_request (ur_op r) (ur_req_tid r) (ur_pi_cnt r) l (ur_pi r) (ur_se r).
Definition set_pi (p : pi_ptr) (r : ubbd_request) : ubbd_request :=
  mk_ubbd_request (ur_op r) (ur_req_tid r) (ur_pi_cnt r) (ur_inline_pi r) p (ur_se r).
Definition set_pi_cnt (n : Z) (r : ubbd_request) : ubbd_request :=
  mk_ubbd_request (ur_op r) (ur_req_tid r) n (ur_inline_pi r) (ur_pi r) (ur_se r).
Definition set_req_tid (n : Z) (r : ubbd_request) : ubbd_request :=
  mk_ubbd_request (ur_op r) n (ur_pi_cnt r) (ur_inline_pi r) (ur_pi r) (ur_se r).
Definition set_se (s : option Z) (r : ubbd_request) : ubbd_request :=
  mk_ubbd_request (ur_op r) (ur_req_tid r) (ur_pi_cnt r) (ur_inline_pi r) (ur_pi r) s.

(** [memset(ubbd_req, 0, sizeof(struct ubbd_request))], then [op]. *)
Definition zeroed_ubbd_request (op : ubbd_op) : ubbd_request :=
  mk_ubbd_request op 0 0 [0; 0; 0; 0] PI_NULL None.

Definition ubbd_req_get_pi (req : ubbd_request) (bvec_index : Z) : outcome Z :=
  if bvec_index <? UBBD_REQ_INLINE_PI_MAX
  then deref (ur_inline_pi req !! Z.to_nat bvec_index) OUT_OF_BOUNDS
  else match ur_pi req with
       | PI_NULL => Fault NULL_DEREF
       | PI_FREED => Fault WILD_ACCESS
       | PI_ARRAY l => deref (l !! Z.to_nat (bvec_index - UBBD_REQ_INLINE_PI_MAX)) OUT_OF_BOUNDS
       end.

Definition ubbd_req_set_pi (req : ubbd_request) (index value : Z) : outcome ubbd_request :=
  if index <? UBBD_REQ_INLINE_PI_MAX
  then if bool_decide (Z.to_nat index < length (ur_inline_pi req))%nat
       then Ok (set_inline_pi (<[Z.to_nat index := u32 value]> (ur_inline_pi req)) req)
       else Fault OUT_OF_BOUNDS
  else match ur_pi req with
       | PI_NULL => Fault NULL_DEREF
       | PI_FREED => Fault WILD_ACCESS
       | PI_ARRAY l =>
           let i := Z.to_nat (index - UBBD_REQ_INLINE_PI_MAX) in
           if bool_decide (i < length l)%nat
           then Ok (set_pi (PI_ARRAY (<[i := u32 value]> l)) req)
           else Fault OUT_OF_BOUNDS
       end.

(** ** The pool *)

Record data_pool : Type := mk_pool {
  data_bitmap : gset Z;              (* set bits *)
  data_pages_array : gmap Z Z;       (* xarray: page index to page *)
  data_pages : Z;
  data_pages_allocated : Z;
  data_pages_reserved : Z;
  data_off : Z;
  q_inode : option Z;                (* inode of the last opener *)
  unmap_log : list (Z * Z);          (* ranges given to unmap_mapping_range *)
}.

Definition set_bitmap (b : gset Z) (p : data_pool) : data_pool :=
  mk_pool b (data_pages_array p) (data_pages p) (data_pages_allocated p)
    (data_pages_reserved p) (data_off p) (q_inode p) (unmap_log p).
Definition set_array (a : gmap Z Z) (p : data_pool) : data_pool :=
  mk_pool (data_bitmap p) a (data_pages p) (data_pages_allocated p)
    (data_pages_reserved p) (data_off p) (q_inode p) (unmap_log p).
Definition set_allocated (n : Z) (p : data_pool) : data_pool :=
  mk_pool (data_bitmap p) (data_pages_array p) (data_pages p) n
    (data_pages_reserved p) (data_off p) (q_inode p) (unmap_log p).
Definition set_reserved (n : Z) (p : data_pool) : data_pool :=
  mk_pool (data_bitmap p) (data_pages_array p) (data_pages p) (data_pages_allocated p)
    n (data_off p) (q_inode p) (unmap_log p).
Definition set_inode (i : option Z) (p : data_pool) : data_pool :=
  mk_pool (data_bitmap p) (data_pages_array p) (data_pages p) (data_pages_allocated p)
    (data_pages_reserved p) (data_off p) i (unmap_log p).
Definition add_unmap (r : Z * Z) (p : data_pool) : data_pool :=
  mk_pool (data_bitmap p) (data_pages_array p) (data_pages p) (data_pages_allocated p)
    (data_pages_reserved p) (data_off p) (q_inode p) (unmap_log p ++ [r]).

(** [UBBD_FAULT_INJECT] is undefined by the header: no fault is injected. *)
Definition ubbd_req_need_fault : bool := false.
Definition ubbd_mgmt_need_fault : bool := false.

Section code.
Context `{K : KernelApi} `{M : KernelMem}.

Definition ubbd_alloc_page (p : data_pool) (km : kmem) : option Z * data_pool * kmem :=
  if ubbd_req_need_fault then (None, p, km)
  else match alloc_page km with
       | (None, km) => (None, p, km)
       | (Some page, km) => (Some page, set_allocated (u32 (data_pages_allocated p + 1)) p, km)
       end.

Definition __ubbd_release_page (p : data_pool) (km : kmem) (page : Z) : data_pool * kmem :=
  let km := free_page page km in
  (set_allocated (u32 (data_pages_allocated p - 1)) p, km).

(** [unmap_mapping_range(ubbd_q->inode->i_mapping, ...)]: the inode is the one
    stored by the last open of the kring device, NULL before the first. *)
Definition ubbd_kring_unmap_range (p : data_pool) (holebegin holelen : Z) : outcome data_pool :=
  let* _ := deref (q_inode p) NULL_DEREF in
  Ok (add_unmap (holebegin, holelen) p).

Definition ubbd_release_page (p : data_pool) (km : kmem) (req : ubbd_request) (bvec_index : Z)
  : outcome (data_pool * kmem) :=
  let* i := ubbd_req_get_pi req (u32 bvec_index) in
  let page_index := s32 i in
  let p := set_bitmap (data_bitmap p ∖ {[page_index]}) p in
  if data_pages_reserved p <? data_pages_allocated p then
    match data_pages_array p !! page_index with
    | None => Ok (p, km)
    | Some page =>
        let off := s64 (data_off p + s32 (page_index * 4096)) in
        let* p := ubbd_kring_unmap_range p off 2 in
        let p := set_array (delete page_index (data_pages_array p)) p in
        Ok (__ubbd_release_page p km page)
    end
  else Ok (p, km).

Definition ubbd_xa_store_page (p : data_pool) (km : kmem) (page_index page : Z)
  : Z * data_pool * kmem :=
  if ubbd_req_need_fault then (- ENOMEM, p, km)
  else let '(err, km) := xa_store_err km in
       if err =? 0 then (0, set_array (<[page_index := page]> (data_pages_array p)) p, km)
       else (err, p, km).

(** The section of [ubbd_get_data_pages] under [pages_mutex]. *)
Inductive locked_result : Type :=
| L_NO_SPACE
| L_GOT (page_index : Z) (p : data_pool) (km : kmem) (new_page : option Z)
| L_STORE_FAILED (err : Z) (page : Z) (p : data_pool) (km : kmem)
| L_NEED_PAGE.

Definition get_page_locked (p : data_pool) (km : kmem) (new_page : option Z) : locked_result :=
  let page_index := s32 (find_first_zero_bit (data_bitmap p) (data_pages p)) in
  if u32 page_index =? data_pages p then L_NO_SPACE
  else match data_pages_array p !! page_index with
       | Some _ => L_GOT page_index (set_bitmap ({[page_index]} ∪ data_bitmap p) p) km new_page
       | None =>
           match new_page with
           | None => L_NEED_PAGE
           | Some page =>
               let '(ret, p, km) := ubbd_xa_store_page p km page_index page in
               if ret =? 0
               then L_GOT page_index (set_bitmap ({[page_index]} ∪ data_bitmap p) p) km None
               else L_STORE_FAILED ret page p km
           end
       end.

(** One segment: the [again] loop, which drops the mutex to allocate.  The
    result is the error number or the page index. *)
Record gdp_state : Type := mk_gdp {
  g_pool : data_pool;
  g_km : kmem;
  g_new_page : option Z;
}.

Fixpoint get_one_page (fuel : nat) (st : gdp_state) : outcome ((Z + Z) * gdp_state) :=
  match fuel with
  | O => Fault OUT_OF_FUEL
  | S fuel =>
      match get_page_locked (g_pool st) (g_km st) (g_new_page st) with
      | L_NO_SPACE => Ok (inl (- ENOMEM), st)
      | L_GOT page_index p km new_page => Ok (inr page_index, mk_gdp p km new_page)
      | L_STORE_FAILED ret page p km =>
          let '(p, km) := __ubbd_release_page p km page in
          Ok (inl ret, mk_gdp p km None)
      | L_NEED_PAGE =>
          match ubbd_alloc_page (g_pool st) (g_km st) with
          | (None, p, km) => Ok (inl (- ENOMEM), mk_gdp p km None)
          | (Some new_page, p, km) => get_one_page fuel (mk_gdp p km (Some new_page))
          end
      end
  end.

(** The segments of the bio chain, in order, until the first error. *)
Fixpoint get_segs (fuel : nat) (segs : list bio_vec) (req : ubbd_request) (bvec_index : Z)
    (st : gdp_state) : outcome (Z * ubbd_request * Z * gdp_state) :=
  match segs with
  | [] => Ok (0, req, bvec_index, st)
  | _ :: segs =>
      let* '(r, st) := get_one_page fuel st in
      match r with
      | inl ret => Ok (ret, req, bvec_index, st)
      | inr page_index =>
          let* req := ubbd_req_set_pi req bvec_index page_index in
          get_segs fuel segs req (bvec_index + 1) st
      end
  end.

(** [while (bvec_index > 0) ubbd_release_page(ubbd_q, req, --bvec_index)] *)
Fixpoint release_pages_down (n : nat) (p : data_pool) (km : kmem) (req : ubbd_request)
  : outcome (data_pool * kmem) :=
  match n with
  | O => Ok (p, km)
  | S n =>
      let* '(p, km) := ubbd_release_page p km req (Z.of_nat n) in
      release_pages_down n p km req
  end.

Definition ubbd_get_data_pages (fuel : nat) (p : data_pool) (km : kmem) (req : ubbd_request)
    (bio : list (list bio_vec)) : outcome (Z * ubbd_request * data_pool * kmem) :=
  match bio with
  | [] => Fault NULL_DEREF
  | _ =>
      let* '(ret, req, bvec_index, st) := get_segs fuel (concat bio) req 0 (mk_gdp p km None) in
      let '(p, km) :=
        match g_new_page st with
        | Some page => __ubbd_release_page (g_pool st) (g_km st) page
        | None => (g_pool st, g_km st)
        end in
      if ret =? 0 then Ok (0, req, p, km)
      else
        let* '(p, km) := release_pages_down (Z.to_nat bvec_index) p km req in
        Ok (ret, req, p, km)
  end.

(** [ubbd_req_release] walks the indices upwards and frees the array. *)
Fixpoint release_pages_up (n : nat) (i : Z) (p : data_pool) (km : kmem) (req : ubbd_request)
  : outcome (data_pool * kmem) :=
  match n with
  | O => Ok (p, km)
  | S n =>
      let* '(p, km) := ubbd_release_page p km req i in
      release_pages_up n (i + 1) p km req
  end.

Definition kfree_pi (req : ubbd_request) (km : kmem) : outcome kmem :=
  match ur_pi req with
  | PI_NULL => Ok km
  | PI_ARRAY _ => Ok (kfree km)
  | PI_FREED => Fault DOUBLE_FREE
  end.

Definition ubbd_req_release (p : data_pool) (km : kmem) (req : ubbd_request)
  : outcome (data_pool * kmem * ubbd_request) :=
  let* '(p, km) := release_pages_up (Z.to_nat (ur_pi_cnt req)) 0 p km req in
  let* km := kfree_pi req km in
  Ok (p, km, set_pi PI_NULL req).

(** ** Segments and sizes *)

Definition ubbd_req_nodata (req : ubbd_request) : outcome bool :=
  match ur_op req with
  | UBBD_OP_WRITE | UBBD_OP_READ => Ok false
  | UBBD_OP_DISCARD | UBBD_OP_WRITE_ZEROS | UBBD_OP_FLUSH => Ok true
  | UBBD_OP_PAD => Fault BUG
  end.

Definition bio_segments (bio : list bio_vec) : Z := Z.of_nat (length bio).

Fixpoint count_segments (segs : Z) (bio : list (list bio_vec)) : Z :=
  match bio with
  | [] => segs
  | b :: bio => count_segments (u32 (segs + bio_segments b)) bio
  end.

Definition ubbd_req_segments (req : ubbd_request) (bio : list (list bio_vec)) : outcome Z :=
  let* nodata := ubbd_req_nodata req in
  if nodata then Ok 0 else Ok (count_segments 0 bio).

Definition ubbd_req_pi_alloc (req : ubbd_request) (km : kmem) : Z * ubbd_request * kmem :=
  if ubbd_req_need_fault then (- ENOMEM, req, km)
  else
    let n := u32 (ur_pi_cnt req - UBBD_REQ_INLINE_PI_MAX) in
    match kcalloc n km with
    | (false, km) => (- ENOMEM, set_pi PI_NULL req, km)
    | (true, km) => (0, set_pi (PI_ARRAY (replicate (Z.to_nat n) 0)) req, km)
    end.

(** ** Copies *)

(** Contents of pages: page, offset, byte. *)
Definition memory : Type := Z -> Z -> Z.

Definition memcpy (m : memory) (dst doff src soff len : Z) : memory :=
  fun p o =>
    if (p =? dst) && (doff <=? o) && (o <? doff + len)
    then m src (soff + (o - doff))
    else m p o.

Definition ubbd_req_get_page (array : gmap Z Z) (req : ubbd_request) (bvec_index : Z)
  : outcome (option Z) :=
  let* i := ubbd_req_get_pi req bvec_index in
  Ok (array !! i).

Fixpoint copy_to_segs (array : gmap Z Z) (req : ubbd_request) (segs : list bio_vec)
    (bvec_index : Z) (m : memory) : outcome memory :=
  match segs with
  | [] => Ok m
  | bv :: segs =>
      let* page := ubbd_req_get_page array req bvec_index in
      let* page := deref page BUG in
      copy_to_segs array req segs (bvec_index + 1)
        (memcpy m page (bv_offset bv) (bv_page bv) (bv_offset bv) (bv_len bv))
  end.

Definition copy_data_to_ubbdreq (array : gmap Z Z) (req : ubbd_request)
    (bio : list (list bio_vec)) (m : memory) : outcome memory :=
  match bio with
  | [] => Fault NULL_DEREF
  | _ => copy_to_segs array req (concat bio) 0 m
  end.

Fixpoint copy_from_segs (array : gmap Z Z) (req : ubbd_request) (segs : list bio_vec)
    (bvec_index : Z) (m : memory) : outcome memory :=
  match segs with
  | [] => Ok m
  | bv :: segs =>
      let* page := ubbd_req_get_page array req bvec_index in
      let* page := deref page BUG in
      copy_from_segs array req segs (bvec_index + 1)
        (memcpy m (bv_page bv) (bv_offset bv) page (bv_offset bv) (bv_len bv))
  end.

(** [ubbd_set_se_iov]: the iovecs point into the mapping of the backend, at
    the data page of the segment, with the offset of the segment in it. *)
Fixpoint set_iov_segs (doff : Z) (req : ubbd_request) (segs : list bio_vec) (bvec_index : Z)
    (iov : list (Z * Z)) : outcome (list (Z * Z)) :=
  match segs with
  | [] => Ok iov
  | bv :: segs =>
      let* page_index := ubbd_req_get_pi req bvec_index in
      if bool_decide (Z.to_nat bvec_index < length iov)%nat then
        let base := u64 (u64 (page_index * PAGE_SIZE) + doff + bv_offset bv) in
        set_iov_segs doff req segs (bvec_index + 1)
          (<[Z.to_nat bvec_index := (base, bv_len bv)]> iov)
      else Fault OUT_OF_BOUNDS
  end.

Definition ubbd_set_se_iov (doff : Z) (req : ubbd_request) (bio : list (list bio_vec))
    (iov : list (Z * Z)) : outcome (list (Z * Z)) :=
  match bio with
  | [] => Fault NULL_DEREF
  | _ => set_iov_segs doff req (concat bio) 0 iov
  end.

Definition copy_data_from_ubbdreq (array : gmap Z Z) (req : ubbd_request)
    (bio : list (list bio_vec)) (m : memory) : outcome memory :=
  match bio with
  | [] => Fault NULL_DEREF
  | _ => copy_from_segs array req (concat bio) 0 m
  end.
End code.

Arguments __ubbd_release_page : simpl never.
Arguments ubbd_alloc_page : simpl never.
Arguments get_page_locked : simpl never.

(** ** Invariant

    [held] are pages allocated but not yet stored in the xarray, [F] the pages
    other owners have (other queues, the block layer): the pool never touches
    them. *)

Section invariant.
Context `{K : KernelApi} `{M : KernelMem}.

Record pool_inv (p : data_pool) (km : kmem) (held F : gset Z) : Prop := {
  pl_size : 0 <= data_pages p < 2 ^ 31;
  pl_bits i : i ∈ data_bitmap p -> is_Some (data_pages_array p !! i);
  pl_keys i pg : data_pages_array p !! i = Some pg -> 0 <= i < data_pages p;
  pl_live i pg : data_pages_array p !! i = Some pg -> pg ∈ live km /\ (pg ∉ held) /\ pg ∉ F;
  pl_inj i j pg :
    data_pages_array p !! i = Some pg -> data_pages_array p !! j = Some pg -> i = j;
  pl_held : held ⊆ live km;
  pl_foreign : F ⊆ live km /\ held ## F;
  pl_count : data_pages_allocated p = Z.of_nat (size (data_pages_array p)) + Z.of_nat (size held);
}.

(** What a request's page indices are: inline ones first, then the array. *)
Definition pi_slots (req : ubbd_request) : list Z :=
  ur_inline_pi req ++ match ur_pi req with PI_ARRAY l => l | _ => [] end.

(** The request has room for [n] indices. *)
Definition req_wf (req : ubbd_request) (n : nat) : Prop :=
  length (ur_inline_pi req) = 4%nat /\ (n <= length (pi_slots req))%nat /\
  ur_pi req <> PI_FREED.

(** The indices in use. *)
Definition req_pis (req : ubbd_request) : list Z :=
  take (Z.to_nat (ur_pi_cnt req)) (pi_slots req).

Definition held_of (o : option Z) : gset Z :=
  match o with Some pg => {[pg]} | None => ∅ end.
End invariant.

(** ** Lemmas *)

Section lemmas.
Context `{KL : KernelApiLaws} `{ML : KernelMemLaws}.
Implicit Types (p : data_pool) (req : ubbd_request).

Lemma get_pi_spec req n i v :
  req_wf req n -> (i < n)%nat ->
  ubbd_req_get_pi req (Z.of_nat i) = Ok v <-> pi_slots req !! i = Some v.
Proof.
  intros (Hl & Hn & Hf) Hi. unfold ubbd_req_get_pi, UBBD_REQ_INLINE_PI_MAX, pi_slots in *.
  destruct (Z.ltb_spec (Z.of_nat i) 4).
  - rewrite lookup_app_l, Nat2Z.id by lia.
    destruct (ur_inline_pi req !! i); simpl; split; congruence.
  - rewrite lookup_app_r, Hl by lia. rewrite length_app, Hl in Hn.
    replace (Z.to_nat (Z.of_nat i - 4)) with (i - 4)%nat by lia.
    destruct (ur_pi req) as [|l|]; simpl in *; try lia.
    destruct (l !! (i - 4)%nat); simpl; split; congruence.
Qed.

Lemma get_pi_total req n i :
  req_wf req n -> (i < n)%nat ->
  exists v, ubbd_req_get_pi req (Z.of_nat i) = Ok v /\ pi_slots req !! i = Some v.
Proof.
  intros Hwf Hi. destruct Hwf as (Hl & Hn & Hf).
  destruct (lookup_lt_is_Some_2 (pi_slots req) i ltac:(lia)) as [v Hv].
  exists v. split; [|done]. apply (get_pi_spec req n); [done|lia|done].
Qed.

(** Setting an index updates one slot and nothing else. *)
Lemma set_pi_spec req n i v :
  req_wf req n -> (i < n)%nat -> 0 <= v < 2 ^ 32 ->
  exists req', ubbd_req_set_pi req (Z.of_nat i) v = Ok req' /\
    pi_slots req' = <[i := v]> (pi_slots req) /\ req_wf req' n /\
    ur_op req' = ur_op req /\ ur_req_tid req' = ur_req_tid req /\
    ur_pi_cnt req' = ur_pi_cnt req /\ ur_se req' = ur_se req /\
    (ur_pi req = PI_NULL <-> ur_pi req' = PI_NULL).
Proof.
  intros (Hl & Hn & Hf) Hi Hv. unfold req_wf, ubbd_req_set_pi, UBBD_REQ_INLINE_PI_MAX, pi_slots in *.
  rewrite u32_small by lia.
  destruct (Z.ltb_spec (Z.of_nat i) 4).
  - rewrite bool_decide_eq_true_2 by lia. eexists. split; [done|]. simpl.
    rewrite Nat2Z.id, insert_app_l, length_insert by lia.
    split_and!; try done. by rewrite length_app, length_insert, <- length_app.
  - rewrite length_app, Hl in Hn.
    replace (Z.to_nat (Z.of_nat i - 4)) with (i - 4)%nat by lia.
    destruct (ur_pi req) as [|l|]; simpl in *; try lia.
    rewrite bool_decide_eq_true_2 by lia. eexists. split; [done|]. simpl.
    rewrite insert_app_r_alt, Hl by lia.
    split_and!; try done. by rewrite length_app, length_insert, Hl.
Qed.

Lemma pool_keys_bound p km held F : pool_inv p km held F ->
  Z.of_nat (size (data_pages_array p)) <= data_pages p.
Proof.
  intros Hi. rewrite <- size_dom.
  assert (dom (data_pages_array p) ⊆ (list_to_set (seqZ 0 (data_pages p)) : gset Z)) as Hs.
  { intros i. rewrite elem_of_dom, elem_of_list_to_set, elem_of_seqZ.
    intros [pg Hpg]. pose proof (pl_keys _ _ _ _ Hi _ _ Hpg). lia. }
  apply subseteq_size in Hs. rewrite size_list_to_set in Hs by apply NoDup_seqZ.
  rewrite length_seqZ in Hs. pose proof (pl_size _ _ _ _ Hi). lia.
Qed.

(** A held page comes from the allocator and returns to it. *)
Lemma alloc_page_inv p km held F r p' km' :
  pool_inv p km held F -> Z.of_nat (size held) < 2 ^ 30 ->
  ubbd_alloc_page p km = (r, p', km') ->
  data_bitmap p' = data_bitmap p /\ data_pages_array p' = data_pages_array p /\
  match r with
  | Some pg => (pg ∉ held) /\ pool_inv p' km' ({[pg]} ∪ held) F
  | None => pool_inv p' km' held F
  end /\ (p' = p \/ exists n, p' = set_allocated n p).
Proof.
  intros Hi Hh. unfold ubbd_alloc_page. simpl.
  pose proof (pool_keys_bound _ _ _ _ Hi). pose proof (pl_size _ _ _ _ Hi).
  destruct (alloc_page km) as [[pg|] km1] eqn:E; intros [= <- <- <-].
  - destruct (alloc_page_some _ _ _ E) as [Hf Hl]. destruct Hi as [? ? ? Hlv ? Hhd [HF Hd] Hc].
    assert (pg ∉ held) as Hn by set_solver. split_and!; [done|done|done| |right; eauto].
    split; simpl; try assumption; rewrite ?Hl.
    + intros i q Hq. destruct (Hlv i q Hq) as (? & ? & ?). set_solver.
    + clear -Hhd. set_solver.
    + clear -HF Hd Hf. set_solver.
    + rewrite size_union, size_singleton by set_solver. rewrite Hc, u32_small; lia.
  - pose proof (alloc_page_none _ _ E) as Hl. split_and!; [done|done| |by left].
    destruct Hi. split; rewrite ?Hl; done.
Qed.

Lemma release_held_inv p km held F pg :
  pool_inv p km ({[pg]} ∪ held) F -> pg ∉ held -> Z.of_nat (size held) < 2 ^ 30 ->
  pool_inv (set_allocated (u32 (data_pages_allocated p - 1)) p) (free_page pg km) held F.
Proof.
  intros Hi Hn Hh.
  pose proof (pool_keys_bound _ _ _ _ Hi). pose proof (pl_size _ _ _ _ Hi).
  destruct Hi as [? ? ? Hlv ? Hhd [HF Hd] Hc].
  split; simpl; try assumption; rewrite ?free_page_live.
  - intros i q Hq. destruct (Hlv i q Hq) as (? & ? & ?). set_solver.
  - clear -Hhd Hn. set_solver.
  - clear -HF Hd. set_solver.
  - rewrite size_union, size_singleton in Hc by set_solver. rewrite Hc, u32_small; lia.
Qed.

(** Storing a held page at a free index. *)
Lemma store_page_inv p km held F pg i b :
  pool_inv p km ({[pg]} ∪ held) F -> pg ∉ held ->
  data_pages_array p !! i = None -> 0 <= i < data_pages p ->
  b ⊆ {[i]} ∪ data_bitmap p ->
  pool_inv (set_bitmap b (set_array (<[i := pg]> (data_pages_array p)) p)) km held F.
Proof.
  intros [? Hb ? Hlv Hinj Hhd [HF Hd] Hc] Hpg Hi Hr Hsub.
  assert (forall j q, data_pages_array p !! j = Some q -> q <> pg) as Hne.
  { intros j q Hq ->. destruct (Hlv j pg Hq) as (_ & Hn & _). set_solver. }
  split; simpl; try assumption.
  - intros j Hj. destruct (decide (i = j)) as [->|]; [rewrite lookup_insert_eq; eauto|].
    rewrite lookup_insert_ne by done. apply Hb. set_solver.
  - intros j q. rewrite lookup_insert_Some. intros [[<- <-]|[? Hq]]; eauto.
  - intros j q. rewrite lookup_insert_Some. intros [[<- <-]|[? Hq]]; [set_solver|].
    destruct (Hlv j q Hq) as (? & ? & ?). set_solver.
  - intros j k q. rewrite !lookup_insert_Some.
    intros [[<- <-]|[? Hq]] [[<- E]|[? Hq']]; eauto; subst; exfalso; eapply Hne; eauto.
  - clear -Hhd. set_solver.
  - clear -HF Hd. set_solver.
  - rewrite Hc, map_size_insert_None, size_union, size_singleton by (done || set_solver). lia.
Qed.

(** Taking a stored page out of the array, to free it. *)
Lemma erase_page_inv p km held F pg i :
  pool_inv p km held F -> data_pages_array p !! i = Some pg -> i ∉ data_bitmap p ->
  pool_inv (set_array (delete i (data_pages_array p)) p) km ({[pg]} ∪ held) F.
Proof.
  intros [? Hb Hk Hlv Hinj Hhd [HF Hd] Hc] Hi Hbit.
  destruct (Hlv i pg Hi) as (Hl & Hnh & HnF).
  split; simpl; try assumption.
  - intros j Hj. rewrite lookup_delete_ne by congruence. by apply Hb.
  - intros j q. rewrite lookup_delete_Some. intros [? Hq]; eauto.
  - intros j q. rewrite lookup_delete_Some. intros [Hij Hq].
    destruct (Hlv j q Hq) as (? & ? & ?).
    assert (q <> pg) by (intros ->; apply Hij; eauto). set_solver.
  - intros j k q. rewrite !lookup_delete_Some. intros [_ ?] [_ ?]; eauto.
  - clear -Hhd Hl. set_solver.
  - clear -HF Hd HnF. set_solver.
  - rewrite Hc, size_union, size_singleton by set_solver.
    rewrite map_size_delete_Some by eauto.
    assert (size (data_pages_array p) <> 0%nat).
    { intros E0. apply map_size_empty_inv in E0. rewrite E0 in Hi. by rewrite lookup_empty in Hi. }
    lia.
Qed.

Lemma set_bit_inv p km held F b :
  pool_inv p km held F -> (forall i, i ∈ b -> is_Some (data_pages_array p !! i)) ->
  pool_inv (set_bitmap b p) km held F.
Proof. intros [] Hb. split; simpl; eauto. Qed.

Lemma pool_inv_km p km km' held F :
  pool_inv p km held F -> live km' = live km -> pool_inv p km' held F.
Proof. intros [] E. split; rewrite ?E; done. Qed.

(** The part of the pool no page operation changes. *)
Definition same_config (p p' : data_pool) : Prop :=
  data_pages p' = data_pages p /\ data_pages_reserved p' = data_pages_reserved p /\
  data_off p' = data_off p /\ q_inode p' = q_inode p.

(** [ubbd_release_page]: the bit is cleared; above the reserve the page is
    unmapped from the backend and freed, otherwise it stays cached. *)
Lemma release_page_spec p km held F req n i v :
  pool_inv p km held F -> Z.of_nat (size held) < 2 ^ 30 ->
  req_wf req n -> (i < n)%nat -> pi_slots req !! i = Some v -> 0 <= v < 2 ^ 31 ->
  is_Some (q_inode p) -> Z.of_nat i < 2 ^ 32 ->
  exists p' km', ubbd_release_page p km req (Z.of_nat i) = Ok (p', km') /\
    data_bitmap p' = data_bitmap p ∖ {[v]} /\ pool_inv p' km' held F /\ same_config p p' /\
    (data_pages_array p' = data_pages_array p \/
     data_pages_array p' = delete v (data_pages_array p)) /\
    data_pages_allocated p' =
      (if (data_pages_reserved p <? data_pages_allocated p) &&
          bool_decide (is_Some (data_pages_array p !! v))
       then data_pages_allocated p - 1 else data_pages_allocated p).
Proof.
  intros Hi Hh Hw Hn Hv Hr [ino Hino] Hi32. unfold ubbd_release_page.
  rewrite u32_small by lia. rewrite (proj2 (get_pi_spec req n i v Hw Hn) Hv). simpl.
  rewrite (s32_small v) by lia.
  assert (pool_inv (set_bitmap (data_bitmap p ∖ {[v]}) p) km held F) as Hi1.
  { eapply set_bit_inv; eauto. intros j Hj. apply (pl_bits _ _ _ _ Hi). set_solver. }
  pose proof (pool_keys_bound _ _ _ _ Hi). pose proof (pl_size _ _ _ _ Hi).
  destruct (Z.ltb_spec (data_pages_reserved p) (data_pages_allocated p)); simpl.
  2: { do 2 eexists. split; [done|]. split_and!; auto. by split_and!. }
  destruct (data_pages_array p !! v) as [pg|] eqn:Ev; simpl.
  2: { do 2 eexists. split; [done|]. split_and!; auto. by split_and!. }
  unfold ubbd_kring_unmap_range. simpl. rewrite Hino. simpl.
  do 2 eexists. split; [done|]. split; [done|].
  destruct (pl_live _ _ _ _ Hi _ _ Ev) as (_ & Hnh & _).
  pose proof (erase_page_inv _ _ _ _ pg v Hi1 Ev ltac:(simpl; set_solver)) as Hi2.
  pose proof (release_held_inv _ _ _ _ _ Hi2 Hnh Hh) as Hi3.
  split_and!; [|by split_and!|by right|].
  - destruct Hi3. by split.
  - simpl.
    pose proof (pl_count _ _ _ _ Hi) as Hc. rewrite Hc.
    assert (size (data_pages_array p) <> 0%nat).
    { intros E0. apply map_size_empty_inv in E0. rewrite E0 in Ev. by rewrite lookup_empty in Ev. }
    rewrite u32_small; lia.
Qed.

Lemma same_config_refl p : same_config p p.
Proof. by split_and!. Qed.

Lemma same_config_trans p1 p2 p3 : same_config p1 p2 -> same_config p2 p3 -> same_config p1 p3.
Proof. intros (?&?&?&?) (?&?&?&?). split_and!; congruence. Qed.

Lemma same_config_allocated n p : same_config p (set_allocated n p).
Proof. by split_and!. Qed.

(** The critical section: the index it returns was free and is now taken and
    backed by a page. *)
Lemma get_page_locked_spec p km held F new :
  pool_inv p km (held_of new ∪ held) F -> held_of new ## held ->
  match get_page_locked p km new with
  | L_NO_SPACE => forall i, 0 <= i < data_pages p -> i ∈ data_bitmap p
  | L_GOT i p' km' new' =>
      0 <= i < data_pages p /\ (i ∉ data_bitmap p) /\
      data_bitmap p' = {[i]} ∪ data_bitmap p /\ pool_inv p' km' (held_of new' ∪ held) F /\
      same_config p p' /\ (new' = new \/ new' = None) /\ live km' = live km
  | L_STORE_FAILED ret pg p' km' =>
      new = Some pg /\ ret < 0 /\ p' = p /\ pool_inv p km' ({[pg]} ∪ held) F
  | L_NEED_PAGE => new = None
  end.
Proof.
  intros Hi Hd. unfold get_page_locked. pose proof (pl_size _ _ _ _ Hi) as Hs.
  pose proof (find_first_zero_bit_range (data_bitmap p) (data_pages p) ltac:(lia)) as Hr.
  set (i := find_first_zero_bit _ _) in *. rewrite s32_small, u32_small by lia.
  destruct (Z.eqb_spec i (data_pages p)) as [E|Hne].
  { intros j Hj. apply (find_first_zero_bit_below _ (data_pages p)); fold i; lia. }
  assert (i ∉ data_bitmap p) as Hbit by (apply find_first_zero_bit_clear; fold i; lia).
  destruct (data_pages_array p !! i) as [pg|] eqn:Ea.
  { split_and!; try lia; try done; [|by left].
    eapply set_bit_inv; eauto. intros j. rewrite elem_of_union, elem_of_singleton.
    intros [->|Hj]; [eauto|by apply (pl_bits _ _ _ _ Hi)]. }
  destruct new as [pg|]; [|done]. change (held_of (Some pg)) with ({[pg]} : gset Z) in *.
  assert (pg ∉ held) as Hnh by (intros Hin; apply (Hd pg); [by apply elem_of_singleton|done]).
  unfold ubbd_xa_store_page. simpl.
  pose proof (xa_store_live km) as Hlv. pose proof (xa_store_nonpos km) as Hnp.
  destruct (xa_store_err km) as [err km1]. simpl in *.
  destruct (Z.eqb_spec err 0) as [->|Herr]; simpl.
  - split_and!; try lia; try done; [|by right].
    rewrite (left_id_L ∅ (∪)).
    eapply pool_inv_km; [|exact Hlv].
    eapply (store_page_inv p km held F pg i ({[i]} ∪ data_bitmap p)); eauto; lia || done.
  - destruct (Z.eqb_spec err 0); [done|]. split_and!; try done; [lia|].
    by eapply pool_inv_km.
Qed.

Definition step_ok (p p' : data_pool) (r : Z + Z) : Prop :=
  match r with
  | inl ret => ret < 0 /\ data_bitmap p' = data_bitmap p
  | inr i => 0 <= i < data_pages p /\ (i ∉ data_bitmap p) /\ data_bitmap p' = {[i]} ∪ data_bitmap p
  end.

(** Run alone, the [again] loop needs at most two rounds. *)
Lemma get_one_page_spec fuel st F :
  (2 <= fuel)%nat -> pool_inv (g_pool st) (g_km st) (held_of (g_new_page st)) F ->
  exists r st', get_one_page fuel st = Ok (r, st') /\
    pool_inv (g_pool st') (g_km st') (held_of (g_new_page st')) F /\
    same_config (g_pool st) (g_pool st') /\ step_ok (g_pool st) (g_pool st') r.
Proof.
  destruct st as [p km new]. intros Hf Hi. destruct fuel as [|fuel]; [lia|]. simpl in *.
  assert (ENOMEM > 0) by (unfold ENOMEM; lia).
  pose proof (get_page_locked_spec p km ∅ F new) as Hl.
  rewrite !(right_id_L ∅ (∪)) in Hl. specialize (Hl Hi ltac:(clear; set_solver)).
  destruct (get_page_locked p km new) as [|i p1 km1 new1|ret pg p1 km1|] eqn:EL.
  - do 2 eexists. split; [done|]. split_and!; simpl; try done; lia.
  - destruct Hl as (? & ? & ? & Hi1 & ? & _). rewrite (right_id_L ∅ (∪)) in Hi1.
    do 2 eexists. by split_and!.
  - destruct Hl as (-> & ? & -> & Hi1).
    pose proof (release_held_inv p km1 ∅ F pg Hi1 ltac:(clear; set_solver) ltac:(done)) as Hrel.
    do 2 eexists. by split_and!.
  - subst new. simpl in Hi.
    destruct (ubbd_alloc_page p km) as [[r p1] km1] eqn:EA.
    destruct (alloc_page_inv _ _ _ _ _ _ _ Hi ltac:(done) EA) as (Eb & Ea & Hr & Hp).
    assert (same_config p p1) as Hc by (destruct Hp as [->|[n ->]]; by split_and!).
    destruct r as [pg|].
    2: { do 2 eexists. split; [done|]. split_and!; simpl; (done || lia || apply Hc). }
    destruct Hr as [_ Hi1].
    pose proof (get_page_locked_spec p1 km1 ∅ F (Some pg)) as Hl2. simpl in Hl2.
    specialize (Hl2 Hi1 ltac:(clear; set_solver)).
    destruct fuel as [|fuel]; [lia|]. simpl.
    destruct (get_page_locked p1 km1 (Some pg)) as [|i p2 km2 new2|ret pg' p2 km2|] eqn:EL2.
    + rewrite (right_id_L ∅ (∪)) in Hi1.
      do 2 eexists. split; [done|]. split_and!; simpl; (done || lia || apply Hc).
    + destruct Hl2 as (? & ? & ? & Hi2 & ? & _). rewrite (right_id_L ∅ (∪)) in Hi2.
      do 2 eexists. split; [done|]. simpl. pose proof (proj1 Hc) as Hc1. rewrite Hc1, Eb in *.
      split; [done|]. split; [by eapply same_config_trans|done].
    + destruct Hl2 as ([= <-] & ? & -> & Hi2).
      pose proof (release_held_inv p1 km2 ∅ F pg Hi2 ltac:(clear; set_solver) ltac:(done)) as Hrel.
      do 2 eexists. split; [done|]. split_and!; simpl; (done || lia || apply Hc).
    + done.
Qed.

(** Fields of a request the page code leaves alone. *)
Definition same_req (req req' : ubbd_request) : Prop :=
  ur_op req' = ur_op req /\ ur_req_tid req' = ur_req_tid req /\
  ur_pi_cnt req' = ur_pi_cnt req /\ ur_se req' = ur_se req /\
  (ur_pi req = PI_NULL <-> ur_pi req' = PI_NULL).

Lemma same_req_refl req : same_req req req.
Proof. by split_and!. Qed.

Lemma same_req_trans r1 r2 r3 : same_req r1 r2 -> same_req r2 r3 -> same_req r1 r3.
Proof.
  intros (?&?&?&?&?) (?&?&?&?&?). split_and!; congruence || (etrans; eassumption).
Qed.

Lemma take_insert_snoc {T} (l : list T) k v :
  (k < length l)%nat -> take (S k) (<[k := v]> l) = take k l ++ [v].
Proof.
  intros Hk. rewrite (take_S_r _ _ v) by (by apply list_lookup_insert_eq).
  by rewrite take_insert_ge.
Qed.

(** What a list of fresh indices does to the bitmap. *)
Record grabbed (p p' : data_pool) (pis : list Z) : Prop := {
  gr_nodup : NoDup pis;
  gr_fresh : Forall (fun i => (i ∉ data_bitmap p) /\ 0 <= i < data_pages p) pis;
  gr_bitmap : data_bitmap p' = data_bitmap p ∪ list_to_set pis;
}.

Lemma get_segs_spec fuel segs F : forall req k st n,
  (2 <= fuel)%nat -> req_wf req n -> (k + length segs <= n)%nat ->
  pool_inv (g_pool st) (g_km st) (held_of (g_new_page st)) F ->
  exists ret req' pis st',
    get_segs fuel segs req (Z.of_nat k) st = Ok (ret, req', Z.of_nat (k + length pis), st') /\
    pool_inv (g_pool st') (g_km st') (held_of (g_new_page st')) F /\
    same_config (g_pool st) (g_pool st') /\ req_wf req' n /\ same_req req req' /\
    take (k + length pis) (pi_slots req') = take k (pi_slots req) ++ pis /\
    grabbed (g_pool st) (g_pool st') pis /\
    ((ret = 0 /\ length pis = length segs) \/ (ret < 0 /\ (length pis < length segs)%nat)).
Proof.
  induction segs as [|bv segs IH]; intros req k st n Hf Hw Hk Hi; cbn [get_segs].
  { exists 0, req, [], st. rewrite Nat.add_0_r, app_nil_r. split_and!; try done.
    - split; [constructor|constructor|]. set_solver.
    - by left. }
  simpl in Hk.
  destruct (get_one_page_spec fuel st F Hf Hi) as (r & st1 & E1 & Hi1 & Hc1 & Hs1). rewrite E1. simpl.
  destruct r as [ret|i]; simpl in Hs1.
  { destruct Hs1 as [Hneg Hb]. exists ret, req, [], st1. rewrite Nat.add_0_r, app_nil_r.
    split_and!; try done.
    - split; [constructor|constructor|]. rewrite Hb. set_solver.
    - right. simpl. lia. }
  destruct Hs1 as (Hr & Hni & Hb). pose proof (pl_size _ _ _ _ Hi) as Hsz.
  destruct (set_pi_spec req n k i Hw ltac:(lia) ltac:(lia)) as (req1 & E2 & Hsl & Hw1 & Hsame).
  rewrite E2. simpl. replace (Z.of_nat k + 1) with (Z.of_nat (S k)) by lia.
  destruct (IH req1 (S k) st1 n Hf Hw1 ltac:(lia) Hi1)
    as (ret & req2 & pis & st2 & E3 & Hi2 & Hc2 & Hw2 & Hs2 & Ht & Hg & Hres).
  exists ret, req2, (i :: pis), st2. rewrite E3.
  replace (k + length (i :: pis))%nat with (S k + length pis)%nat by (simpl; lia).
  split_and!; try done.
  - by eapply same_config_trans.
  - by eapply same_req_trans.
  - rewrite Ht, Hsl, take_insert_snoc, <- app_assoc; [done|]. destruct Hw as (_ & ? & _). lia.
  - destruct Hg as [Hnd Hfr Hbm]. rewrite Forall_forall in Hfr.
    destruct Hc1 as (Hdp & _). rewrite Hdp, Hb in *.
    split.
    + constructor; [|done]. intros Hin. destruct (Hfr i Hin) as [Hx _]. set_solver.
    + constructor; [done|]. apply Forall_forall. intros j Hj. destruct (Hfr j Hj). set_solver.
    + rewrite Hbm. set_solver.
  - simpl. destruct Hres as [[? ?]|[? ?]]; [left|right]; split; lia || congruence.
Qed.

(** Releasing the indices [l] clears their bits. *)
Definition released (p p' : data_pool) (l : list Z) : Prop :=
  data_bitmap p' = data_bitmap p ∖ list_to_set l.

Definition pis_ok (l : list Z) : Prop := Forall (fun v => 0 <= v < 2 ^ 31) l.

Lemma release_pages_down_spec N F req : forall n p km,
  pool_inv p km ∅ F -> req_wf req N -> (n <= N)%nat -> Z.of_nat N < 2 ^ 32 ->
  pis_ok (take n (pi_slots req)) -> is_Some (q_inode p) ->
  exists p' km', release_pages_down n p km req = Ok (p', km') /\
    pool_inv p' km' ∅ F /\ same_config p p' /\ released p p' (take n (pi_slots req)).
Proof.
  induction n as [|n IH]; intros p km Hi Hw Hn HN Hok Hin; cbn [release_pages_down].
  { exists p, km. split_and!; try done. unfold released. set_solver. }
  destruct (lookup_lt_is_Some_2 (pi_slots req) n) as [v Hv]; [destruct Hw as (_ & ? & _); lia|].
  rewrite (take_S_r _ _ _ Hv) in *. apply Forall_app in Hok as [Hok Hv0].
  rewrite Forall_singleton in Hv0.
  destruct (release_page_spec p km ∅ F req N n v Hi ltac:(done) Hw ltac:(lia) Hv ltac:(lia) Hin
              ltac:(lia)) as (p1 & km1 & E1 & Hb1 & Hi1 & Hc1 & _). rewrite E1. simpl.
  assert (is_Some (q_inode p1)) as Hin1 by (destruct Hc1 as (_&_&_&->); done).
  destruct (IH p1 km1 Hi1 Hw ltac:(lia) HN Hok Hin1) as (p2 & km2 & E2 & Hi2 & Hc2 & Hr2).
  exists p2, km2. split_and!; try done; [by eapply same_config_trans|].
  unfold released in *. rewrite Hr2, Hb1. set_solver.
Qed.

Lemma release_pages_up_spec N F req : forall n i p km,
  pool_inv p km ∅ F -> req_wf req N -> (i + n <= N)%nat -> Z.of_nat N < 2 ^ 32 ->
  pis_ok (take n (drop i (pi_slots req))) -> is_Some (q_inode p) ->
  exists p' km', release_pages_up n (Z.of_nat i) p km req = Ok (p', km') /\
    pool_inv p' km' ∅ F /\ same_config p p' /\ released p p' (take n (drop i (pi_slots req))).
Proof.
  induction n as [|n IH]; intros i p km Hi Hw Hn HN Hok Hin; cbn [release_pages_up].
  { exists p, km. split_and!; try done. unfold released. set_solver. }
  destruct (lookup_lt_is_Some_2 (pi_slots req) i) as [v Hv]; [destruct Hw as (_ & ? & _); lia|].
  rewrite (drop_S _ _ _ Hv) in *. cbn [take] in *. apply Forall_cons in Hok as [Hv0 Hok]. simpl in Hv0.
  destruct (release_page_spec p km ∅ F req N i v Hi ltac:(done) Hw ltac:(lia) Hv ltac:(lia) Hin
              ltac:(lia)) as (p1 & km1 & E1 & Hb1 & Hi1 & Hc1 & _). rewrite E1. simpl.
  assert (is_Some (q_inode p1)) as Hin1 by (destruct Hc1 as (_&_&_&->); done).
  replace (Z.of_nat i + 1) with (Z.of_nat (S i)) by lia.
  destruct (IH (S i) p1 km1 Hi1 Hw ltac:(lia) HN Hok Hin1) as (p2 & km2 & E2 & Hi2 & Hc2 & Hr2).
  exists p2, km2. split_and!; try done; [by eapply same_config_trans|].
  unfold released in *. rewrite Hr2, Hb1. set_solver.
Qed.

(** [ubbd_get_data_pages]: all the segments or nothing. *)
Lemma get_data_pages_spec fuel p km req bio n F :
  (2 <= fuel)%nat -> req_wf req n -> (length (concat bio) <= n)%nat -> Z.of_nat n < 2 ^ 32 ->
  bio <> [] -> pool_inv p km ∅ F -> is_Some (q_inode p) ->
  exists ret req' p' km',
    ubbd_get_data_pages fuel p km req bio = Ok (ret, req', p', km') /\
    pool_inv p' km' ∅ F /\ same_config p p' /\ req_wf req' n /\ same_req req req' /\
    ((ret = 0 /\ grabbed p p' (take (length (concat bio)) (pi_slots req'))) \/
     (ret < 0 /\ data_bitmap p' = data_bitmap p)).
Proof.
  intros Hf Hw Hl Hn Hb Hi Hin. unfold ubbd_get_data_pages. destruct bio as [|b bio]; [done|].
  set (segs := concat (b :: bio)) in *.
  destruct (get_segs_spec fuel segs F req 0 (mk_gdp p km None) n Hf Hw ltac:(lia) Hi)
    as (ret & req1 & pis & st & E & Hi1 & Hc1 & Hw1 & Hs1 & Ht & Hg & Hres).
  change (Z.of_nat 0) with 0 in E. rewrite E. simpl in *.
  assert (exists p2 km2,
    match g_new_page st with
    | Some page => __ubbd_release_page (g_pool st) (g_km st) page
    | None => (g_pool st, g_km st)
    end = (p2, km2) /\ pool_inv p2 km2 ∅ F /\ same_config p p2 /\
    data_bitmap p2 = data_bitmap (g_pool st)) as (p2 & km2 & E2 & Hi2 & Hc2 & Hb2).
  { destruct (g_new_page st) as [pg|]; simpl in Hi1.
    - do 2 eexists. split; [reflexivity|]. split_and!; try done; try apply Hc1.
      apply release_held_inv; [by rewrite (right_id_L ∅ (∪))|clear; set_solver|done].
    - by do 2 eexists. }
  rewrite E2. destruct Hres as [[-> Hlen]|[Hneg Hlen]]; simpl.
  - do 4 eexists. split; [done|]. split_and!; try done. left. split; [done|].
    rewrite <- Hlen, Ht. destruct Hg as [? ? Hbm]. split; [done|done|]. by rewrite Hb2.
  - destruct (Z.eqb_spec ret 0); [lia|]. rewrite Nat2Z.id.
    destruct Hg as [Hnd Hfr Hbm].
    pose proof (pl_size _ _ _ _ Hi).
    assert (is_Some (q_inode p2)) as Hin2 by (destruct Hc2 as (_&_&_&->); done).
    destruct (release_pages_down_spec n F req1 (length pis) p2 km2 Hi2 Hw1 ltac:(lia) Hn)
      as (p3 & km3 & E3 & Hi3 & Hc3 & Hr3); [|done|].
    { rewrite Ht. eapply Forall_impl; [exact Hfr|]. simpl. intros; lia. }
    rewrite E3. simpl. do 4 eexists. split; [done|]. split_and!; try done.
    + by eapply same_config_trans.
    + right. split; [done|]. unfold released in Hr3. rewrite Hr3, Hb2, Hbm, Ht.
      rewrite Forall_forall in Hfr.
      apply set_eq. intros i. rewrite elem_of_difference, elem_of_union, elem_of_list_to_set.
      split; [intros [[|] ?]; done|]. intros Hi0. split; [by left|].
      intros Hp. by destruct (Hfr i Hp).
Qed.
End lemmas.

(** ** Allocating and releasing the index array; copies *)

Section copies.
Context `{KL : KernelApiLaws} `{ML : KernelMemLaws}.
Implicit Types (p : data_pool) (req : ubbd_request) (m : memory).

(** A request whose first four indices are inline and whose array, when it
    has one, holds the rest. *)
Lemma pi_alloc_spec req km :
  length (ur_inline_pi req) = 4%nat -> ur_pi req = PI_NULL ->
  UBBD_REQ_INLINE_PI_MAX < ur_pi_cnt req < 2 ^ 32 ->
  let '(ret, req', km') := ubbd_req_pi_alloc req km in
  live km' = live km /\ ur_op req' = ur_op req /\ ur_req_tid req' = ur_req_tid req /\
  ur_pi_cnt req' = ur_pi_cnt req /\ ur_se req' = ur_se req /\
  ((ret = - ENOMEM /\ ur_pi req' = PI_NULL) \/
   (ret = 0 /\ ur_pi req' <> PI_NULL /\ req_wf req' (Z.to_nat (ur_pi_cnt req)))).
Proof.
  intros Hl Hn Hc. unfold ubbd_req_pi_alloc, ubbd_req_need_fault, UBBD_REQ_INLINE_PI_MAX in *.
  pose proof (kcalloc_live (u32 (ur_pi_cnt req - 4)) km) as Hlv.
  destruct (kcalloc _ km) as [[|] km1]; simpl in *; split_and!; try done.
  - right. split_and!; try done. unfold req_wf, pi_slots. simpl.
    split; [done|]. split; [|done].
    rewrite length_app, length_replicate, Hl, u32_small by lia. lia.
  - by left.
Qed.

Lemma req_release_spec p km req F :
  pool_inv p km ∅ F -> req_wf req (Z.to_nat (ur_pi_cnt req)) -> 0 <= ur_pi_cnt req < 2 ^ 32 ->
  pis_ok (req_pis req) -> is_Some (q_inode p) ->
  exists p' km', ubbd_req_release p km req = Ok (p', km', set_pi PI_NULL req) /\
    pool_inv p' km' ∅ F /\ same_config p p' /\ released p p' (req_pis req).
Proof.
  intros Hi Hw Hc Hok Hin. unfold ubbd_req_release.
  destruct (release_pages_up_spec (Z.to_nat (ur_pi_cnt req)) F req (Z.to_nat (ur_pi_cnt req)) 0 p km
              Hi Hw ltac:(lia) ltac:(lia) Hok Hin) as (p1 & km1 & E & Hi1 & Hc1 & Hr).
  change (Z.of_nat 0) with 0 in E. rewrite E. simpl.
  destruct Hw as (_ & _ & Hf). unfold kfree_pi.
  destruct (ur_pi req); simpl; [| |done]; do 2 eexists; (split; [done|split_and!; try done]).
  eapply pool_inv_km; [done|apply kfree_live].
Qed.

Lemma memcpy_in m dst doff src soff len o :
  doff <= o < doff + len -> memcpy m dst doff src soff len dst o = m src (soff + (o - doff)).
Proof. intros Ho. unfold memcpy. by zcase; simpl; try lia. Qed.

Lemma memcpy_out m dst doff src soff len q o :
  q <> dst \/ o < doff \/ doff + len <= o -> memcpy m dst doff src soff len q o = m q o.
Proof. intros Ho. unfold memcpy. by zcase; simpl; try lia. Qed.

(** The pages behind the indices of a request, from position [k] on. *)
Definition mapped (array : gmap Z Z) (req : ubbd_request) (k : nat) (pgs : list Z) : Prop :=
  forall j pg, pgs !! j = Some pg ->
    exists v, ubbd_req_get_pi req (Z.of_nat (k + j)) = Ok v /\ array !! v = Some pg.

Definition in_seg (bv : bio_vec) (o : Z) : Prop := bv_offset bv <= o < bv_offset bv + bv_len bv.

Lemma mapped_cons array req k pg pgs :
  mapped array req k (pg :: pgs) ->
  (exists v, ubbd_req_get_pi req (Z.of_nat k) = Ok v /\ array !! v = Some pg) /\
  mapped array req (S k) pgs.
Proof.
  intros Hm. split.
  - destruct (Hm 0%nat pg eq_refl) as (v & Hv & Ha). rewrite Nat.add_0_r in Hv. eauto.
  - intros j q Hq. destruct (Hm (S j) q Hq) as (v & Hv & Ha). exists v.
    by replace (S k + j)%nat with (k + S j)%nat by lia.
Qed.

Lemma copy_to_segs_spec array req segs : forall k m pgs,
  mapped array req k pgs -> length pgs = length segs -> NoDup pgs ->
  Forall (fun bv => bv_page bv ∉ pgs) segs ->
  exists m', copy_to_segs array req segs (Z.of_nat k) m = Ok m' /\
    (forall q o, q ∉ pgs -> m' q o = m q o) /\
    (forall j bv pg o, segs !! j = Some bv -> pgs !! j = Some pg -> in_seg bv o ->
       m' pg o = m (bv_page bv) o).
Proof.
  induction segs as [|bv segs IH]; intros k m [|pg pgs] Hm Hl Hnd Hb; try done.
  { exists m. done. }
  cbn [copy_to_segs]. unfold ubbd_req_get_page.
  apply mapped_cons in Hm as [(v & Hv & Ha) Hm]. rewrite Hv. simpl. rewrite Ha. simpl.
  replace (Z.of_nat k + 1) with (Z.of_nat (S k)) by lia.
  apply NoDup_cons in Hnd as [Hn Hnd]. apply Forall_cons in Hb as [Hb0 Hb].
  destruct (IH (S k) (memcpy m pg (bv_offset bv) (bv_page bv) (bv_offset bv) (bv_len bv)) pgs Hm
              ltac:(simpl in Hl; lia) Hnd) as (m' & E & Hframe & Hcopy).
  { eapply Forall_impl; [exact Hb|]. set_solver. }
  exists m'. split; [done|]. split.
  - intros q o Hq. rewrite Hframe by set_solver. apply memcpy_out. set_solver.
  - intros [|j] bv' pg' o Hj Hp Ho; simpl in *.
    + simplify_eq. rewrite Hframe by done. rewrite memcpy_in by done. f_equal. lia.
    + rewrite (Hcopy j bv' pg' o Hj Hp Ho). apply memcpy_out. left.
      apply list_elem_of_lookup_2 in Hj. rewrite Forall_forall in Hb.
      specialize (Hb _ Hj). simpl in Hb. set_solver.
Qed.

(** Segments of a bio chain do not overlap in their pages. *)
Definition segs_disjoint (segs : list bio_vec) : Prop :=
  forall i j b1 b2 o, segs !! i = Some b1 -> segs !! j = Some b2 -> i <> j ->
    bv_page b1 = bv_page b2 -> in_seg b1 o -> in_seg b2 o -> False.

Lemma copy_from_segs_spec array req segs : forall k m pgs,
  mapped array req k pgs -> length pgs = length segs ->
  Forall (fun bv => bv_page bv ∉ pgs) segs -> segs_disjoint segs ->
  exists m', copy_from_segs array req segs (Z.of_nat k) m = Ok m' /\
    (forall q o, (forall bv, bv ∈ segs -> bv_page bv = q -> in_seg bv o -> False) ->
       m' q o = m q o) /\
    (forall j bv pg o, segs !! j = Some bv -> pgs !! j = Some pg -> in_seg bv o ->
       m' (bv_page bv) o = m pg o).
Proof.
  induction segs as [|bv segs IH]; intros k m [|pg pgs] Hm Hl Hb Hd; try done.
  { exists m. done. }
  cbn [copy_from_segs]. unfold ubbd_req_get_page.
  apply mapped_cons in Hm as [(v & Hv & Ha) Hm]. rewrite Hv. simpl. rewrite Ha. simpl.
  replace (Z.of_nat k + 1) with (Z.of_nat (S k)) by lia.
  apply Forall_cons in Hb as [Hb0 Hb].
  destruct (IH (S k) (memcpy m (bv_page bv) (bv_offset bv) pg (bv_offset bv) (bv_len bv)) pgs Hm
              ltac:(simpl in Hl; lia)) as (m' & E & Hframe & Hcopy).
  { eapply Forall_impl; [exact Hb|]. set_solver. }
  { intros i j b1 b2 o Hi Hj Hne. apply (Hd (S i) (S j) b1 b2 o); simpl; auto. }
  exists m'. split; [done|]. split.
  - intros q o Hq. rewrite Hframe.
    + apply memcpy_out. destruct (decide (bv_page bv = q)) as [<-|]; [|by left; congruence].
      right. assert (~ in_seg bv o) as Hno by (intros H; apply (Hq bv); set_solver).
      unfold in_seg in Hno. lia.
    + intros b Hbin. apply Hq. set_solver.
  - intros [|j] bv' pg' o Hj Hp Ho; simpl in *.
    + simplify_eq. rewrite Hframe; [rewrite memcpy_in by done; f_equal; lia|].
      intros b Hbin Hpg Hin. apply list_elem_of_lookup in Hbin as [i Hi].
      apply (Hd 0%nat (S i) bv' b o); simpl; auto.
    + rewrite (Hcopy j bv' pg' o Hj Hp Ho). apply memcpy_out. left.
      intros ->. apply Hb0. apply elem_of_cons. right. by eapply list_elem_of_lookup_2.
Qed.
(** The copy out of the data pages needs no disjointness to go through. *)
Lemma copy_from_segs_ok array req segs : forall k m pgs,
  mapped array req k pgs -> length pgs = length segs ->
  exists m', copy_from_segs array req segs (Z.of_nat k) m = Ok m'.
Proof.
  induction segs as [|bv segs IH]; intros k m [|pg pgs] Hm Hl; try done; [by exists m|].
  cbn [copy_from_segs]. unfold ubbd_req_get_page.
  apply mapped_cons in Hm as [(v & Hv & Ha) Hm]. rewrite Hv. simpl. rewrite Ha. simpl.
  replace (Z.of_nat k + 1) with (Z.of_nat (S k)) by lia.
  apply (IH (S k) _ pgs Hm). simpl in Hl. lia.
Qed.
End copies.
