(* ===== verification/Request.v ===== *)
(** * The request path of a queue

    Models [src/src/ubbd_req.c] above the rings and the page pool:
    [ubbd_queue_rq], the work function, the completion loop and the ending of
    inflight requests, with [struct ubbd_queue] of [ubbd_internal.h]. *)

From S2P Require Import Prelude Abi Ring Pages.

(** ** State *)

(** [struct ubbd_queue].  Requests are named by their tag. *)
Record ubbd_queue `{UbbdAbi} : Type := mk_queue {
  q_index : Z;
  q_inflight : list Z;
  q_req_tid : Z;
  q_pool : data_pool;
  q_ring : ring;
  q_mmap_pages : Z;
  q_has_backend : bool;
  q_status : Z;
  q_cpumask : list Z;
  q_backend_pid : Z;
  q_event : Z;               (* event counter of its kring device *)
}.

(** A request of the block layer with the driver's data behind it. *)
Record rq_entry : Type := mk_rq_entry {
  e_rq : request;
  e_q : option Z;            (* index of [ubbd_req->ubbd_q], or NULL *)
  e_pdu : ubbd_request;
}.

Inductive blk_event `{KernelApi} : Type :=
| BLK_START (tag : Z)
| BLK_END (tag : Z) (st : blk_status_t)
| BLK_REQUEUE (tag : Z).

(** What the queues of a device share. *)
Record world `{KernelApi} `{KernelMem} : Type := mk_world {
  w_reqs : gmap Z rq_entry;
  w_wq : list Z;             (* works pending on task_wq *)
  w_blk : list blk_event;    (* calls into blk-mq, oldest first *)
  w_km : kmem;
  w_mem : memory;
}.

Section setters.
Context `{A : UbbdAbi} `{K : KernelApi} `{M : KernelMem}.

Definition set_q_inflight (l : list Z) (q : ubbd_queue) : ubbd_queue :=
  mk_queue _ (q_index q) l (q_req_tid q) (q_pool q) (q_ring q) (q_mmap_pages q)
    (q_has_backend q) (q_status q) (q_cpumask q) (q_backend_pid q) (q_event q).
Definition set_q_req_tid (t : Z) (q : ubbd_queue) : ubbd_queue :=
  mk_queue _ (q_index q) (q_inflight q) t (q_pool q) (q_ring q) (q_mmap_pages q)
    (q_has_backend q) (q_status q) (q_cpumask q) (q_backend_pid q) (q_event q).
Definition set_q_pool (p : data_pool) (q : ubbd_queue) : ubbd_queue :=
  mk_queue _ (q_index q) (q_inflight q) (q_req_tid q) p (q_ring q) (q_mmap_pages q)
    (q_has_backend q) (q_status q) (q_cpumask q) (q_backend_pid q) (q_event q).
Definition set_q_ring (r : ring) (q : ubbd_queue) : ubbd_queue :=
  mk_queue _ (q_index q) (q_inflight q) (q_req_tid q) (q_pool q) r (q_mmap_pages q)
    (q_has_backend q) (q_status q) (q_cpumask q) (q_backend_pid q) (q_event q).
Definition set_q_status (s : Z) (q : ubbd_queue) : ubbd_queue :=
  mk_queue _ (q_index q) (q_inflight q) (q_req_tid q) (q_pool q) (q_ring q) (q_mmap_pages q)
    (q_has_backend q) s (q_cpumask q) (q_backend_pid q) (q_event q).
Definition set_q_backend (b : bool) (pid : Z) (q : ubbd_queue) : ubbd_queue :=
  mk_queue _ (q_index q) (q_inflight q) (q_req_tid q) (q_pool q) (q_ring q) (q_mmap_pages q)
    b (q_status q) (q_cpumask q) pid (q_event q).
Definition set_q_cpumask (c : list Z) (q : ubbd_queue) : ubbd_queue :=
  mk_queue _ (q_index q) (q_inflight q) (q_req_tid q) (q_pool q) (q_ring q) (q_mmap_pages q)
    (q_has_backend q) (q_status q) c (q_backend_pid q) (q_event q).
Definition set_q_event (e : Z) (q : ubbd_queue) : ubbd_queue :=
  mk_queue _ (q_index q) (q_inflight q) (q_req_tid q) (q_pool q) (q_ring q) (q_mmap_pages q)
    (q_has_backend q) (q_status q) (q_cpumask q) (q_backend_pid q) e.

Definition set_w_reqs (r : gmap Z rq_entry) (w : world) : world :=
  mk_world _ _ r (w_wq w) (w_blk w) (w_km w) (w_mem w).
Definition set_w_wq (l : list Z) (w : world) : world :=
  mk_world _ _ (w_reqs w) l (w_blk w) (w_km w) (w_mem w).
Definition add_blk (e : blk_event) (w : world) : world :=
  mk_world _ _ (w_reqs w) (w_wq w) (w_blk w ++ [e]) (w_km w) (w_mem w).
Definition set_w_km (km : kmem) (w : world) : world :=
  mk_world _ _ (w_reqs w) (w_wq w) (w_blk w) km (w_mem w).
Definition set_w_mem (m : memory) (w : world) : world :=
  mk_world _ _ (w_reqs w) (w_wq w) (w_blk w) (w_km w) m.

(** Store the driver's part of a request back. *)
Definition put_pdu (tag : Z) (e : rq_entry) (u : ubbd_request) (w : world) : world :=
  set_w_reqs (<[tag := mk_rq_entry (e_rq e) (e_q e) u]> (w_reqs w)) w.
End setters.

(** ** Submission *)

Section code.
Context `{A : UbbdAbi} `{K : KernelApi} `{M : KernelMem}.

(** The status test at the top of [ubbd_queue_rq] and [ubbd_queue_workfn]. *)
Definition status_errno (status : Z) : Z :=
  if negb (status =? UBBD_QUEUE_KSTATUS_RUNNING) then
    if status =? UBBD_QUEUE_KSTATUS_REMOVING then - EIO
    else if (status =? UBBD_QUEUE_KSTATUS_STOPPING) || (status =? UBBD_QUEUE_KSTATUS_STOPPED)
    then - EBUSY
    else 0
  else 0.

(** [ubbd_req_init] on the zeroed pdu *)
Definition ubbd_req_init (q : ubbd_queue) (op : ubbd_op) (rq : request) : rq_entry :=
  mk_rq_entry rq (Some (q_index q)) (zeroed_ubbd_request op).

Definition op_of_req_op (op : req_op) : option ubbd_op :=
  match op with
  | REQ_OP_FLUSH => Some UBBD_OP_FLUSH
  | REQ_OP_DISCARD => Some UBBD_OP_DISCARD
  | REQ_OP_WRITE_ZEROES => Some UBBD_OP_WRITE_ZEROS
  | REQ_OP_WRITE => Some UBBD_OP_WRITE
  | REQ_OP_READ => Some UBBD_OP_READ
  | REQ_OP_OTHER _ => None
  end.

Definition ubbd_queue_rq (q : ubbd_queue) (w : world) (tag : Z) : outcome (blk_status_t * world) :=
  let* e := deref (w_reqs w !! tag) WILD_ACCESS in
  let req := e_rq e in
  let status := q_status q in
  if negb (status =? UBBD_QUEUE_KSTATUS_RUNNING) && (status =? UBBD_QUEUE_KSTATUS_REMOVING)
  then Ok (BLK_STS_IOERR, w)
  else if negb (status =? UBBD_QUEUE_KSTATUS_RUNNING) &&
          ((status =? UBBD_QUEUE_KSTATUS_STOPPING) || (status =? UBBD_QUEUE_KSTATUS_STOPPED))
  then Ok (BLK_STS_RESOURCE, w)
  else
    let w := set_w_reqs
      (<[tag := mk_rq_entry req None (zeroed_ubbd_request ubbd_op_zero)]> (w_reqs w)) w in
    let w := add_blk (BLK_START tag) w in
    match op_of_req_op (rq_op req) with
    | None => Ok (BLK_STS_IOERR, w)
    | Some op =>
        let w := set_w_reqs (<[tag := ubbd_req_init q op req]> (w_reqs w)) w in
        let w := set_w_wq (w_wq w ++ [tag]) w in
        Ok (BLK_STS_OK, w)
    end.

Definition ubbd_get_cmd_size (u : ubbd_request) : Z :=
  let cmd_size := u32 (sizeof_ubbd_se + sizeof_iovec * ur_pi_cnt u) in
  round_up cmd_size UBBD_OP_ALIGN_SIZE.

(** [queue_req_prepare]: the error number, the updated pdu, pool and world. *)
Definition queue_req_prepare (q : ubbd_queue) (w : world) (rq : request) (u : ubbd_request)
  : outcome (Z * ubbd_request * ubbd_queue * world) :=
  let* segs := ubbd_req_segments u (rq_bio rq) in
  let u := set_pi_cnt segs u in
  let '(ret, u, km) :=
    if UBBD_REQ_INLINE_PI_MAX <? ur_pi_cnt u then ubbd_req_pi_alloc u (w_km w)
    else (0, u, w_km w) in
  let w := set_w_km km w in
  if negb (ret =? 0) then Ok (ret, u, q, w)
  else
    let* '(ret, u, p, km) :=
      if negb (ur_pi_cnt u =? 0) then ubbd_get_data_pages 2 (q_pool q) (w_km w) u (rq_bio rq)
      else Ok (0, u, q_pool q, w_km w) in
    let q := set_q_pool p q in
    let w := set_w_km km w in
    if negb (ret =? 0) then
      let* km := kfree_pi u (w_km w) in
      let u := match ur_pi u with PI_ARRAY _ => set_pi PI_FREED u | _ => u end in
      Ok (ret, u, q, set_w_km km w)
    else if bool_decide (rq_op rq = REQ_OP_WRITE) then
      let* m := copy_data_to_ubbdreq (data_pages_array (q_pool q)) u (rq_bio rq) (w_mem w) in
      Ok (0, u, q, set_w_mem m w)
    else Ok (0, u, q, w).

Definition SECTOR_SHIFT : Z := 9.

(** [queue_req_se_init]: clear the slot at the head and fill it. *)
Definition queue_req_se_init (r : ring) (rq : request) (u : ubbd_request) : ring * ubbd_request :=
  let offset := u64 (Z.shiftl (rq_pos rq) SECTOR_SHIFT) in
  let length := rq_bytes rq in
  let se := get_submit_entry r in
  let r := ring_memset se (ubbd_get_cmd_size u) r in
  let h := ubbd_se_hdr_set_op (ur_op u) hdr_zeroed in
  let h := ubbd_se_hdr_set_len (ubbd_get_cmd_size u) h in
  let r := put_hdr se h r in
  let r := put_body se
    (mk_se_body (ur_req_tid u) offset length (ur_pi_cnt u)
       (replicate (Z.to_nat (ur_pi_cnt u)) (0, 0))) r in
  (r, set_se (Some se) u).

(** [queue_req_data_init]: the iovecs of the entry. *)
Definition queue_req_data_init (r : ring) (doff : Z) (rq : request) (u : ubbd_request)
  : outcome ring :=
  if negb (ur_pi_cnt u =? 0) then
    let* se := deref (ur_se u) NULL_DEREF in
    let* b := deref (bodies r !! se) WILD_ACCESS in
    let* iov := ubbd_set_se_iov doff u (rq_bio rq) (se_iov b) in
    Ok (put_body se
          (mk_se_body (se_priv_data b) (se_offset b) (se_len b) (se_iov_cnt b) iov) r)
  else Ok r.

(** [end_request]: requeue on -ENOMEM and -EBUSY, end with the error else. *)
Definition end_request (ret : Z) (tag : Z) (w : world) : world :=
  if (ret =? - ENOMEM) || (ret =? - EBUSY) then add_blk (BLK_REQUEUE tag) w
  else add_blk (BLK_END tag (errno_to_blk_status ret)) w.

Definition list_del (tag : Z) (l : list Z) : list Z := filter (fun t => t <> tag) l.

Definition ubbd_queue_workfn (q : ubbd_queue) (w : world) (tag : Z)
  : outcome (ubbd_queue * world) :=
  let* e := deref (w_reqs w !! tag) WILD_ACCESS in
  let ret := status_errno (q_status q) in
  if negb (ret =? 0) then Ok (q, end_request ret tag w)
  else
    let* '(ret, u, q, w) := queue_req_prepare q w (e_rq e) (e_pdu e) in
    if negb (ret =? 0) then Ok (q, end_request ret tag (put_pdu tag e u w))
    else
      let q := set_q_inflight (q_inflight q ++ [tag]) q in
      let command_size := ubbd_get_cmd_size u in
      if negb (submit_ring_space_enough (q_ring q) command_size) then
        let q := set_q_inflight (list_del tag (q_inflight q)) q in
        Ok (q, end_request (- ENOMEM) tag (put_pdu tag e u w))
      else
        let r := insert_padding (q_ring q) command_size in
        let q := set_q_req_tid (u64 (q_req_tid q + 1)) q in
        let u := set_req_tid (q_req_tid q) u in
        let '(r, u) := queue_req_se_init r (e_rq e) u in
        let* r := queue_req_data_init r (data_off (q_pool q)) (e_rq e) u in
        let r := UPDATE_CMDR_HEAD u64 (ubbd_get_cmd_size u) r in
        let q := set_q_ring r q in
        let q := set_q_event (s32 (q_event q + 1)) q in
        Ok (q, put_pdu tag e u w).

(** ** Completion *)

(** [fetch_inflight_req]: the first inflight request with this tid leaves the
    list; the last one to leave a stopping queue stops it.  The memory of a
    request belongs to the tag set and outlives the queue, so every tag of the
    list is in the table ([queue_inv]); a tag that is not is passed over. *)
Fixpoint find_inflight (w : world) (l : list Z) (req_tid : Z) : option Z :=
  match l with
  | [] => None
  | tag :: l =>
      match w_reqs w !! tag with
      | Some e => if ur_req_tid (e_pdu e) =? req_tid then Some tag else find_inflight w l req_tid
      | None => find_inflight w l req_tid
      end
  end.

Definition fetch_inflight_req (q : ubbd_queue) (w : world) (req_tid : Z)
  : option Z * ubbd_queue :=
  match find_inflight w (q_inflight q) req_tid with
  | None => (None, q)
  | Some tag =>
      let q := set_q_inflight (list_del tag (q_inflight q)) q in
      let q :=
        if (q_status q =? UBBD_QUEUE_KSTATUS_STOPPING) && bool_decide (q_inflight q = [])
        then set_q_status UBBD_QUEUE_KSTATUS_STOPPED q else q in
      (Some tag, q)
  end.

Definition complete_inflight_req (q : ubbd_queue) (w : world) (tag : Z) (ret : Z)
  : outcome (ubbd_queue * world) :=
  let* e := deref (w_reqs w !! tag) WILD_ACCESS in
  let u := e_pdu e in
  let* se := deref (ur_se u) NULL_DEREF in
  let* r := se_flags_set se UBBD_SE_HDR_DONE (q_ring q) in
  let* '(p, km, u) := ubbd_req_release (q_pool q) (w_km w) u in
  let w := put_pdu tag e u (set_w_km km w) in
  let w := add_blk (BLK_END tag (errno_to_blk_status ret)) w in
  let* r := advance_cmd_ring (Z.to_nat CMDR_SIZE) r in
  Ok (set_q_ring r (set_q_pool p q), w).

(** The [again] loop of [ubbd_queue_complete], one completion entry a round.
    The entry is read after the tail has moved past it. *)
Fixpoint complete_again (fuel : nat) (q : ubbd_queue) (w : world) : outcome (ubbd_queue * world) :=
  match fuel with
  | O => Fault OUT_OF_FUEL
  | S fuel =>
      match get_complete_entry (q_ring q) with
      | None => Ok (q, w)
      | Some off =>
          let q := set_q_ring (UPDATE_COMPR_TAIL u64 sizeof_ubbd_ce (q_ring q)) q in
          let* ce := deref (ces (q_ring q) !! off) WILD_ACCESS in
          match fetch_inflight_req q w (ce_priv_data ce) with
          | (None, q) => complete_again fuel q w
          | (Some tag, q) =>
              let* e := deref (w_reqs w !! tag) WILD_ACCESS in
              let* m :=
                if bool_decide (rq_op (e_rq e) = REQ_OP_READ) then
                  copy_data_from_ubbdreq (data_pages_array (q_pool q)) (e_pdu e)
                    (rq_bio (e_rq e)) (w_mem w)
                else Ok (w_mem w) in
              let* '(q, w) := complete_inflight_req q (set_w_mem m w) tag (ce_result ce) in
              complete_again fuel q w
          end
      end
  end.

Definition ubbd_queue_complete (fuel : nat) (q : ubbd_queue) (w : world)
  : outcome (ubbd_queue * world) :=
  if q_status q =? UBBD_QUEUE_KSTATUS_REMOVING then Ok (q, w) else complete_again fuel q w.

(** The work version has the same body. *)
Definition complete_work_fn (fuel : nat) (q : ubbd_queue) (w : world)
  : outcome (ubbd_queue * world) :=
  if q_status q =? UBBD_QUEUE_KSTATUS_REMOVING then Ok (q, w) else complete_again fuel q w.

(** ** Ending the inflight requests *)

(** [list_splice_init] to a private list, then one request after the other. *)
Fixpoint end_inflight_list (tmp : list Z) (q : ubbd_queue) (w : world) (ret : Z)
  : outcome (ubbd_queue * world) :=
  match tmp with
  | [] => Ok (q, w)
  | tag :: tmp =>
      let* '(q, w) := complete_inflight_req q w tag ret in
      end_inflight_list tmp q w ret
  end.

Definition ubbd_queue_end_inflight_reqs (q : ubbd_queue) (w : world) (ret : Z)
  : outcome (ubbd_queue * world) :=
  let tmp := q_inflight q in
  end_inflight_list tmp (set_q_inflight [] q) w ret.

Fixpoint ubbd_end_inflight_reqs (queues : list ubbd_queue) (w : world) (ret : Z)
  : outcome (list ubbd_queue * world) :=
  match queues with
  | [] => Ok ([], w)
  | q :: queues =>
      let* '(q, w) := ubbd_queue_end_inflight_reqs q w ret in
      let* '(queues, w) := ubbd_end_inflight_reqs queues w ret in
      Ok (q :: queues, w)
  end.
End code.

(** ** Preparation of a request *)

Section prepare.
Context `{A : UbbdAbi} `{KL : KernelApiLaws} `{ML : KernelMemLaws}.
Implicit Types (q : ubbd_queue) (w : world) (u : ubbd_request) (rq : request).

Lemma count_segments_eq bio : forall n,
  0 <= n -> n + Z.of_nat (length (concat bio)) < 2 ^ 32 ->
  count_segments n bio = n + Z.of_nat (length (concat bio)).
Proof.
  induction bio as [|b bio IH]; intros n Hn Hb; cbn [count_segments concat].
  - simpl. lia.
  - simpl in Hb. rewrite length_app in *. unfold bio_segments.
    rewrite u32_small, IH by lia. lia.
Qed.

(** What the block layer hands the driver: data requests have a bio chain with
    few enough segments ([max_segments] is [USHRT_MAX]), whose pages [F] are
    not data pages of the pool. *)
Record rq_ok (rq : request) (F : gset Z) : Prop := {
  rqo_segs : Z.of_nat (length (concat (rq_bio rq))) < 2 ^ 16;
  rqo_data : (rq_op rq = REQ_OP_READ \/ rq_op rq = REQ_OP_WRITE) ->
             concat (rq_bio rq) <> [];
  rqo_pages : Forall (fun bv => bv_page bv ∈ F) (concat (rq_bio rq));
}.

(** Segments the driver gives data pages to. *)
Definition data_segs (rq : request) : list bio_vec :=
  match rq_op rq with
  | REQ_OP_READ | REQ_OP_WRITE => concat (rq_bio rq)
  | _ => []
  end.

Definition pages_of (array : gmap Z Z) (pis : list Z) : list Z :=
  map (fun v => default 0 (array !! v)) pis.

(** The pages behind distinct indices in use: distinct, and not foreign. *)
Lemma pages_of_ok p km held F u :
  pool_inv p km held F -> req_wf u (Z.to_nat (ur_pi_cnt u)) -> NoDup (req_pis u) ->
  Forall (fun i => i ∈ data_bitmap p) (req_pis u) ->
  let pgs := pages_of (data_pages_array p) (req_pis u) in
  mapped (data_pages_array p) u 0 pgs /\ NoDup pgs /\ Forall (fun pg => pg ∉ F) pgs /\
  length pgs = Z.to_nat (ur_pi_cnt u).
Proof.
  intros Hi Hw Hnd Hb. cbv zeta. rewrite Forall_forall in Hb.
  assert (length (req_pis u) = Z.to_nat (ur_pi_cnt u)) as Hlen.
  { unfold req_pis. rewrite length_take. destruct Hw as (_ & ? & _). lia. }
  assert (forall v, v ∈ req_pis u -> exists pg, data_pages_array p !! v = Some pg) as Hp.
  { intros v Hv. apply (pl_bits _ _ _ _ Hi), Hb, Hv. }
  unfold pages_of. split_and!.
  - intros j pg. rewrite list_lookup_fmap. destruct (req_pis u !! j) as [v|] eqn:Ej; [|done].
    simpl. intros [= <-]. destruct (Hp v) as [pg Hpg]; [by eapply list_elem_of_lookup_2|].
    exists v. rewrite Hpg. split; [|done].
    pose proof (lookup_lt_Some _ _ _ Ej). unfold req_pis in Ej.
    apply lookup_take_Some in Ej as [Ej _].
    apply (get_pi_spec u (Z.to_nat (ur_pi_cnt u))); [done|lia|done].
  - apply NoDup_fmap_2_strong; [|done]. intros x y Hx Hy E.
    destruct (Hp x Hx) as [px Ex], (Hp y Hy) as [py Ey]. rewrite Ex, Ey in E. simpl in E. subst.
    by apply (pl_inj _ _ _ _ Hi x y py).
  - apply Forall_forall. intros pg Hpg. apply list_elem_of_fmap in Hpg as (v & -> & Hv).
    destruct (Hp v Hv) as [pg Epg]. rewrite Epg. by apply (pl_live _ _ _ _ Hi v).
  - by rewrite length_map.
Qed.

Definition n_segs (rq : request) : nat := length (data_segs rq).

(** After preparation: the request owns fresh pages for all its segments. *)
Record prepared (rq : request) (u u' : ubbd_request) (p p' : data_pool) : Prop := {
  pr_wf : req_wf u' (Z.to_nat (ur_pi_cnt u'));
  pr_cnt : ur_pi_cnt u' = Z.of_nat (n_segs rq);
  pr_op : ur_op u' = ur_op u;
  pr_grab : grabbed p p' (req_pis u');
}.

Definition data_written (rq : request) (u : ubbd_request) (p : data_pool) (m m' : memory) : Prop :=
  forall j bv v pg o,
    data_segs rq !! j = Some bv -> req_pis u !! j = Some v ->
    data_pages_array p !! v = Some pg -> in_seg bv o -> m' pg o = m (bv_page bv) o.

Lemma req_segments_spec rq op u F :
  op_of_req_op (rq_op rq) = Some op -> rq_ok rq F -> ur_op u = op ->
  ubbd_req_segments u (rq_bio rq) = Ok (Z.of_nat (n_segs rq)) /\
  Z.of_nat (n_segs rq) < 2 ^ 16 /\ (n_segs rq <> 0%nat -> data_segs rq = concat (rq_bio rq)) /\
  (rq_op rq = REQ_OP_WRITE -> n_segs rq <> 0%nat).
Proof.
  intros Hop [Hs Hd _] Hu. unfold ubbd_req_segments, ubbd_req_nodata, n_segs, data_segs. rewrite Hu.
  assert (count_segments 0 (rq_bio rq) = Z.of_nat (length (concat (rq_bio rq)))) as Hc
    by (rewrite count_segments_eq; lia).
  destruct (rq_op rq); simpl in *; simplify_eq; simpl; rewrite ?Hc;
    (split_and!; [match goal with H : _ = ur_op u |- _ => by rewrite <- H end|lia|done|]);
    try done; intros _ E; apply length_zero_iff_nil in E; apply Hd; auto.
Qed.

(** Room for the indices. *)
Lemma prepare_alloc u km :
  length (ur_inline_pi u) = 4%nat -> ur_pi u = PI_NULL -> 0 <= ur_pi_cnt u < 2 ^ 32 ->
  let '(ret, u', km') :=
    if UBBD_REQ_INLINE_PI_MAX <? ur_pi_cnt u then ubbd_req_pi_alloc u km else (0, u, km) in
  live km' = live km /\ ur_op u' = ur_op u /\ ur_pi_cnt u' = ur_pi_cnt u /\
  (ret = - ENOMEM \/ (ret = 0 /\ req_wf u' (Z.to_nat (ur_pi_cnt u')))).
Proof.
  intros Hl Hn Hc. unfold UBBD_REQ_INLINE_PI_MAX.
  destruct (Z.ltb_spec 4 (ur_pi_cnt u)).
  - pose proof (pi_alloc_spec u km Hl Hn ltac:(unfold UBBD_REQ_INLINE_PI_MAX; lia)) as H0.
    destruct (ubbd_req_pi_alloc u km) as [[ret u'] km'].
    destruct H0 as (? & ? & _ & ? & _ & Hr). split_and!; try done.
    destruct Hr as [[-> _]|(-> & _ & ?)]; [by left|right]. by replace (ur_pi_cnt u') with (ur_pi_cnt u).
  - split_and!; try done. right. split; [done|]. unfold req_wf, pi_slots. rewrite Hn, Hl.
    split_and!; try done. rewrite app_nil_r, Hl. lia.
Qed.

(** The copy of a prepared write succeeds and fills its data pages. *)
Lemma copy_to_prepared p km held F u rq m :
  pool_inv p km held F -> req_wf u (Z.to_nat (ur_pi_cnt u)) -> ur_pi_cnt u = Z.of_nat (n_segs rq) ->
  NoDup (req_pis u) -> Forall (fun i => i ∈ data_bitmap p) (req_pis u) ->
  rq_ok rq F -> data_segs rq = concat (rq_bio rq) -> n_segs rq <> 0%nat ->
  exists m', copy_data_to_ubbdreq (data_pages_array p) u (rq_bio rq) m = Ok m' /\
    data_written rq u p m m'.
Proof.
  intros Hi Hw Hc Hnd Hb [_ _ Hpg] Hds Hn.
  destruct (pages_of_ok p km held F u Hi Hw Hnd Hb) as (Hm & Hndp & HF & Hlen).
  unfold copy_data_to_ubbdreq. destruct (rq_bio rq) as [|b bio] eqn:Eb.
  { exfalso. apply Hn. unfold n_segs. by rewrite Hds. }
  rewrite <- Hds in *.
  destruct (copy_to_segs_spec (data_pages_array p) u (data_segs rq) 0 m _ Hm) as (m' & E & _ & Hcp).
  { rewrite Hlen, Hc. unfold n_segs. lia. }
  { done. }
  { rewrite Forall_forall in HF. eapply Forall_impl; [exact Hpg|].
    intros bv Hbv Hin. by apply (HF _ Hin). }
  exists m'. split; [exact E|]. intros j bv v pg o Hj Hv Ha Ho.
  apply (Hcp j bv pg o Hj); [|done]. unfold pages_of. rewrite list_lookup_fmap, Hv. simpl.
  by rewrite Ha.
Qed.

Lemma grabbed_in_bitmap p p' pis : grabbed p p' pis -> Forall (fun i => i ∈ data_bitmap p') pis.
Proof. intros [_ _ Hb]. apply Forall_forall. intros i Hi. rewrite Hb. set_solver. Qed.

Lemma set_q_pool_id q : set_q_pool (q_pool q) q = q.
Proof. by destruct q. Qed.

Lemma set_w_mem_id w : set_w_mem (w_mem w) w = w.
Proof. by destruct w. Qed.

(** [queue_req_prepare]: everything the request needs, or nothing. *)
Lemma queue_req_prepare_spec q w rq op F :
  op_of_req_op (rq_op rq) = Some op -> rq_ok rq F ->
  pool_inv (q_pool q) (w_km w) ∅ F -> is_Some (q_inode (q_pool q)) ->
  exists ret u' p' km' m',
    queue_req_prepare q w rq (zeroed_ubbd_request op) =
      Ok (ret, u', set_q_pool p' q, set_w_mem m' (set_w_km km' w)) /\
    pool_inv p' km' ∅ F /\ same_config (q_pool q) p' /\
    ((ret = 0 /\ prepared rq (zeroed_ubbd_request op) u' (q_pool q) p' /\
      (rq_op rq = REQ_OP_WRITE -> data_written rq u' p' (w_mem w) m') /\
      (rq_op rq <> REQ_OP_WRITE -> m' = w_mem w)) \/
     (ret < 0 /\ data_bitmap p' = data_bitmap (q_pool q) /\ m' = w_mem w)).
Proof.
  intros Hop Hok Hi Hin. unfold queue_req_prepare.
  destruct (req_segments_spec rq op (zeroed_ubbd_request op) F Hop Hok eq_refl)
    as (Eseg & Hn16 & Hds & Hwr). rewrite Eseg. cbn [obind].
  set (u0 := set_pi_cnt _ _).
  pose proof (prepare_alloc u0 (w_km w) eq_refl eq_refl ltac:(simpl; lia)) as Hal.
  destruct (if UBBD_REQ_INLINE_PI_MAX <? ur_pi_cnt u0 then _ else _) as [[ret u1] km1].
  destruct Hal as (Hlv & Hop1 & Hcnt & Hret). simpl in Hcnt.
  assert (pool_inv (q_pool q) km1 ∅ F) as Hi1 by (by eapply pool_inv_km).
  destruct Hret as [->|(-> & Hw1)]; cbn [negb Z.eqb ENOMEM Z.opp].
  { exists (- ENOMEM), u1, (q_pool q), km1, (w_mem w). rewrite set_q_pool_id.
    split_and!; [done|done|apply same_config_refl|]. right. by split_and!. }
  rewrite Hcnt in *. destruct (decide (n_segs rq = 0%nat)) as [Hz|Hnz].
  { rewrite Hz. change (negb (Z.of_nat 0 =? 0)) with false. cbn [obind negb Z.eqb].
    rewrite bool_decide_eq_false_2 by (intros E; by apply Hwr in E).
    exists 0, u1, (q_pool q), km1, (w_mem w). split; [by rewrite set_q_pool_id|].
    split_and!; [done|apply same_config_refl|]. left. split_and!; try done.
    - split; try done; [by rewrite Hcnt|]. unfold req_pis. rewrite Hcnt, Hz.
      split; [constructor|constructor|]. set_solver.
    - intros E. by apply Hwr in E. }
  destruct (Z.eqb_spec (Z.of_nat (n_segs rq)) 0) as [|_]; [lia|]. cbn [negb].
  specialize (Hds Hnz). rewrite Nat2Z.id in Hw1.
  assert (length (concat (rq_bio rq)) = n_segs rq) as Hlc by (unfold n_segs; by rewrite Hds).
  destruct (get_data_pages_spec 2 (q_pool q) km1 u1 (rq_bio rq) (n_segs rq) F)
    as (ret & u2 & p2 & km2 & E2 & Hi2 & Hc2 & Hw2 & Hs2 & Hres); try done; try lia.
  { intros E. rewrite E in Hlc. simpl in Hlc. lia. }
  simpl w_km. rewrite E2. cbn [obind]. destruct Hs2 as (Ho2 & _ & Hcnt2 & _ & _).
  destruct Hres as [[-> Hg]|[Hneg Hb]].
  - cbn [negb Z.eqb].
    assert (req_pis u2 = take (length (concat (rq_bio rq))) (pi_slots u2)) as Hpis.
    { unfold req_pis. by rewrite Hcnt2, Hcnt, Nat2Z.id, Hlc. }
    rewrite <- Hpis in Hg.
    assert (prepared rq (zeroed_ubbd_request op) u2 (q_pool q) p2) as Hprep.
    { split; try done; [by rewrite Hcnt2, Hcnt, Nat2Z.id|congruence|].
      by rewrite Ho2, Hop1. }
    destruct (decide (rq_op rq = REQ_OP_WRITE)) as [Ew|Ew].
    + rewrite bool_decide_eq_true_2 by done.
      destruct (copy_to_prepared p2 km2 ∅ F u2 rq (w_mem w)) as (m' & E3 & Hdw); try done.
      { apply Hprep. }
      { apply Hprep. }
      { apply Hg. }
      { by eapply grabbed_in_bitmap. }
      simpl. rewrite E3. simpl. exists 0, u2, p2, km2, m'. split_and!; [done|done|done|].
      left. split_and!; try done.
    + rewrite bool_decide_eq_false_2 by done.
      exists 0, u2, p2, km2, (w_mem w). split_and!; [done|done|done|]. left. split_and!; try done.
  - destruct (Z.eqb_spec ret 0); [lia|]. cbn [negb]. simpl w_km.
    unfold kfree_pi. pose proof (proj2 (proj2 Hw2)) as Hnf.
    destruct (ur_pi u2); [|cbn [obind]|done].
    + exists ret, u2, p2, km2, (w_mem w). split_and!; [done|done|done|]. by right.
    + exists ret, (set_pi PI_FREED u2), p2, (kfree km2), (w_mem w).
      split_and!; [done|eapply pool_inv_km; [done|apply kfree_live]|done|]. by right.
Qed.
End prepare.

(** ** The entry of a request *)

Section entry.
Context `{L : UbbdAbiLaws} `{KL : KernelApiLaws} `{ML : KernelMemLaws}.
Implicit Types (q : ubbd_queue) (w : world) (u : ubbd_request) (rq : request).

(** The iovec of a segment: the data page in the mapping of the backend, at
    the offset the segment has in its own page. *)
Definition iov_of (doff : Z) (i : Z) (bv : bio_vec) : Z * Z :=
  (u64 (u64 (i * PAGE_SIZE) + doff + bv_offset bv), bv_len bv).

Lemma set_iov_segs_spec doff u n segs : forall k iov,
  req_wf u n -> (k + length segs <= n)%nat -> length iov = (k + length segs)%nat ->
  set_iov_segs doff u segs (Z.of_nat k) iov =
    Ok (take k iov ++ zip_with (iov_of doff) (take (length segs) (drop k (pi_slots u))) segs).
Proof.
  induction segs as [|bv segs IH]; intros k iov Hw Hk Hl; cbn [set_iov_segs].
  { simpl. rewrite app_nil_r, take_ge; [done|]. simpl in Hl. lia. }
  simpl in Hk, Hl. destruct (get_pi_total u n k Hw ltac:(lia)) as (v & E & Hv). rewrite E. simpl.
  rewrite Nat2Z.id, bool_decide_eq_true_2 by lia.
  replace (Z.of_nat k + 1) with (Z.of_nat (S k)) by lia.
  rewrite IH by (rewrite ?length_insert; done || lia).
  rewrite take_insert_snoc, <- app_assoc by lia. by rewrite (drop_S _ _ _ Hv).
Qed.

Lemma get_cmd_size_bound u :
  0 <= ur_pi_cnt u < 2 ^ 16 ->
  0 < ubbd_get_cmd_size u < 2 ^ 22 /\ (UBBD_OP_ALIGN_SIZE | ubbd_get_cmd_size u).
Proof.
  intros Hc. unfold ubbd_get_cmd_size. pose proof sizeof_se_bound. pose proof sizeof_iovec_bound.
  pose proof op_align_bound as Hal. destruct op_align_pow2 as (k & Hk & E).
  assert (0 <= sizeof_iovec * ur_pi_cnt u <= 16 * 2 ^ 16) by nia.
  rewrite u32_small by lia. rewrite E in *.
  destruct (round_up_spec (sizeof_ubbd_se + sizeof_iovec * ur_pi_cnt u) k) as [? ?]; try lia.
  split; [lia|done].
Qed.

Lemma get_cmd_size_cnt u u' :
  ur_pi_cnt u' = ur_pi_cnt u -> ubbd_get_cmd_size u' = ubbd_get_cmd_size u.
Proof. intros E. unfold ubbd_get_cmd_size. by rewrite E. Qed.

(** What the body of a submitted entry holds. *)
Definition body_of (doff : Z) (rq : request) (u : ubbd_request) : se_body :=
  mk_se_body (ur_req_tid u) (u64 (Z.shiftl (rq_pos rq) SECTOR_SHIFT)) (rq_bytes rq) (ur_pi_cnt u)
    (zip_with (iov_of doff) (req_pis u) (data_segs rq)).

Definition hdr_of (u : ubbd_request) : ubbd_se_hdr :=
  ubbd_se_hdr_set_len (ubbd_get_cmd_size u) (ubbd_se_hdr_set_op (ur_op u) hdr_zeroed).

(** The iovecs are filled in the body of the entry, which keeps the id. *)
Lemma data_init_ok r doff rq op u F se b :
  op_of_req_op (rq_op rq) = Some op -> rq_ok rq F -> ur_op u = op ->
  ur_pi_cnt u = Z.of_nat (n_segs rq) -> req_wf u (n_segs rq) ->
  ur_se u = Some se -> bodies r !! se = Some b -> length (se_iov b) = n_segs rq ->
  exists r' b', queue_req_data_init r doff rq u = Ok r' /\
    sb r' = sb r /\ ces r' = ces r /\ hdrs r' = hdrs r /\
    (forall k, k <> se -> bodies r' !! k = bodies r !! k) /\
    bodies r' !! se = Some b' /\ se_priv_data b' = se_priv_data b.
Proof.
  intros Hop Hok Hu Hc Hw Hse Hb Hl.
  destruct (req_segments_spec rq op u F Hop Hok Hu) as (_ & _ & Hds & _).
  unfold queue_req_data_init. rewrite Hc. destruct (Z.eqb_spec (Z.of_nat (n_segs rq)) 0) as [|Hnz]; cbn [negb].
  { exists r, b. by split_and!. }
  assert (n_segs rq <> 0%nat) as Hnz' by lia. specialize (Hds Hnz').
  rewrite Hse. cbn [deref obind]. rewrite Hb. cbn [deref obind]. unfold ubbd_set_se_iov.
  destruct (rq_bio rq) as [|b0 bio] eqn:Eb; [exfalso; apply Hnz'; unfold n_segs; by rewrite Hds|].
  rewrite <- Hds. pose proof (set_iov_segs_spec doff u (n_segs rq) (data_segs rq) 0 (se_iov b) Hw) as E.
  change (Z.of_nat 0) with 0 in E. rewrite E by (unfold n_segs in *; lia). cbn [obind].
  do 2 eexists. split; [done|]. simpl. rewrite lookup_insert_eq. split_and!; try done.
  intros k Hk. by rewrite lookup_insert_ne.
Qed.

(** Filling an entry touches one slot of the ring. *)
Lemma data_init_spec r doff rq op u F :
  op_of_req_op (rq_op rq) = Some op -> rq_ok rq F -> ur_op u = op ->
  ur_pi_cnt u = Z.of_nat (n_segs rq) -> req_wf u (n_segs rq) ->
  let '(r1, u1) := queue_req_se_init r rq u in
  u1 = set_se (Some (cmd_head (sb r))) u /\
  exists r2, queue_req_data_init r1 doff rq u1 = Ok r2 /\
    sb r2 = sb r /\ ces r2 = ces r /\
    hdrs r2 = <[cmd_head (sb r) := hdr_of u]>
                (hdrs (ring_memset (cmd_head (sb r)) (ubbd_get_cmd_size u) r)) /\
    (forall k, k <> cmd_head (sb r) ->
       bodies r2 !! k = bodies (ring_memset (cmd_head (sb r)) (ubbd_get_cmd_size u) r) !! k) /\
    bodies r2 !! cmd_head (sb r) = Some (body_of doff rq u).
Proof.
  intros Hop Hok Hu Hc Hw. unfold queue_req_se_init, get_submit_entry. split; [done|].
  destruct (req_segments_spec rq op u F Hop Hok Hu) as (_ & _ & Hds & _).
  unfold queue_req_data_init, body_of. cbn [ur_pi_cnt ur_se set_se deref obind].
  destruct (decide (n_segs rq = 0%nat)) as [Hz|Hnz].
  - assert (data_segs rq = []) as Hd by (by apply length_zero_iff_nil).
    rewrite Hc, Hz. cbn [negb Z.eqb Z.of_nat]. eexists. split; [done|]. split_and!; try done.
    + intros k Hk. simpl. by rewrite lookup_insert_ne.
    + simpl. rewrite lookup_insert_eq, Hd. by rewrite zip_with_nil_r.
  - rewrite Hc. destruct (Z.eqb_spec (Z.of_nat (n_segs rq)) 0); [lia|]. cbn [negb].
    simpl bodies. rewrite lookup_insert_eq. cbn [deref obind se_iov].
    specialize (Hds Hnz). unfold ubbd_set_se_iov.
    destruct (rq_bio rq) as [|b bio] eqn:Eb; [exfalso; apply Hnz; unfold n_segs; by rewrite Hds|].
    rewrite <- Hds.
    pose proof (set_iov_segs_spec doff (set_se (Some (cmd_head (sb r))) u) (n_segs rq) (data_segs rq)
      0 (replicate (Z.to_nat (Z.of_nat (n_segs rq))) (0, 0)) Hw) as E.
    change (Z.of_nat 0) with 0 in E. rewrite E by (rewrite ?length_replicate; unfold n_segs; lia).
    cbn [obind]. eexists. split; [done|]. split_and!; try done.
    + intros k Hk. simpl. by rewrite !lookup_insert_ne.
    + simpl. rewrite lookup_insert_eq. repeat f_equal.
      unfold req_pis, n_segs in *. by rewrite Hc, Nat2Z.id.
Qed.
End entry.
