(* ===== verification/Balance.v ===== *)
(** * No data page leaks

    Whatever the operations on a queue do, succeed or not, the pages that are
    allocated but not in the array of the queue's pool stay the same: a page the
    driver allocates ends in the array or goes back to the kernel, and a page it
    frees was in the array. *)

From S2P Require Import Prelude Abi Ring Pages Request.

Section pool.
Context `{K : KernelApi} `{ML : KernelMemLaws}.
Implicit Types (p : data_pool) (km : kmem).

(** The allocated pages that are neither in the array nor in [X]. *)
Definition stray p km (X : gset Z) : gset Z := live km ∖ (map_img (data_pages_array p) ∪ X).

Lemma stray_alloc p km r p' km' :
  ubbd_alloc_page p km = (r, p', km') -> stray p' km' (held_of r) = stray p km ∅.
Proof.
  unfold ubbd_alloc_page, ubbd_req_need_fault, stray.
  destruct (alloc_page km) as [[pg|] km1] eqn:E; intros [= <- <- <-]; simpl.
  - destruct (alloc_page_some _ _ _ E) as [Hn ->]. set_solver.
  - by rewrite (alloc_page_none _ _ E).
Qed.

Lemma stray_release_new p km pg p' km' :
  __ubbd_release_page p km pg = (p', km') -> stray p' km' ∅ = stray p km {[pg]}.
Proof. unfold __ubbd_release_page, stray. intros [= <- <-]. simpl. rewrite free_page_live. set_solver. Qed.

Lemma stray_release p km req i p' km' :
  ubbd_release_page p km req i = Ok (p', km') -> stray p' km' ∅ = stray p km ∅.
Proof.
  unfold ubbd_release_page, ubbd_kring_unmap_range. intros H. inv_ok H. cbv zeta in H.
  destruct (_ <? _); [|by injection H as <- <-].
  destruct (data_pages_array (set_bitmap _ p) !! s32 r) as [pg|] eqn:Ep; [|by injection H as <- <-].
  inv_ok H. inv_ok E0. injection E0 as <-. injection H as <- <-. unfold stray. simpl in *. rewrite free_page_live.
  rewrite <- (insert_delete_id _ _ _ Ep) at 2. rewrite map_img_insert_notin_L by apply lookup_delete_eq. set_solver.
Qed.

Lemma stray_locked p km new :
  match get_page_locked p km new with
  | L_GOT _ p' km' new' => stray p' km' (held_of new') = stray p km (held_of new)
  | L_STORE_FAILED _ pg p' km' => stray p' km' {[pg]} = stray p km (held_of new)
  | L_NEED_PAGE => new = None
  | L_NO_SPACE => True
  end.
Proof.
  unfold get_page_locked, ubbd_xa_store_page, ubbd_req_need_fault. destruct (_ =? _); [done|].
  destruct (data_pages_array p !! _) eqn:Ep; [done|]. destruct new as [pg|]; [|done].
  pose proof (xa_store_live km) as Hl. destruct (xa_store_err km) as [err km1]. simpl in Hl. cbv zeta.
  destruct (Z.eqb_spec err 0) as [->|Hne].
  - change (0 =? 0) with true. cbn iota. unfold stray. simpl. rewrite map_img_insert_notin_L by done. rewrite Hl. set_solver.
  - rewrite (proj2 (Z.eqb_neq err 0) Hne). unfold stray. simpl. by rewrite Hl.
Qed.

Definition stray_of (st : gdp_state) : gset Z := stray (g_pool st) (g_km st) (held_of (g_new_page st)).

Lemma stray_get_one fuel : forall st r st', get_one_page fuel st = Ok (r, st') -> stray_of st' = stray_of st.
Proof.
  induction fuel as [|fuel IH]; intros [p km new] r st' H; [done|]. cbn [get_one_page g_pool g_km g_new_page] in H.
  pose proof (stray_locked p km new) as Hl. destruct (get_page_locked p km new) as [|i p1 km1 new1|err pg p1 km1|].
  - by injection H as <- <-.
  - by injection H as <- <-.
  - destruct (__ubbd_release_page p1 km1 pg) as [p2 km2] eqn:E. injection H as <- <-.
    unfold stray_of. simpl. by rewrite (stray_release_new _ _ _ _ _ E).
  - subst new. destruct (ubbd_alloc_page p km) as [[[pg|] p1] km1] eqn:E; pose proof (stray_alloc _ _ _ _ _ E) as Hs.
    + rewrite (IH _ _ _ H). exact Hs.
    + by injection H as <- <-.
Qed.

Lemma stray_get_segs fuel segs : forall req i st ret req' i' st',
  get_segs fuel segs req i st = Ok (ret, req', i', st') -> stray_of st' = stray_of st.
Proof.
  induction segs as [|b segs IH]; intros req i st ret req' i' st' H; cbn [get_segs] in H;
    [by injection H as <- <- <- <-|].
  inv_ok H. destruct r as [[err|pi] st1]; pose proof (stray_get_one _ _ _ _ E) as Hs.
  - by injection H as <- <- <- <-.
  - inv_ok H. by rewrite (IH _ _ _ _ _ _ _ H).
Qed.

Lemma stray_release_down n : forall p km req p' km',
  release_pages_down n p km req = Ok (p', km') -> stray p' km' ∅ = stray p km ∅.
Proof.
  induction n as [|n IH]; intros p km req p' km' H; cbn [release_pages_down] in H; [by injection H as <- <-|].
  inv_ok H. destruct r as [p1 km1]. by rewrite (IH _ _ _ _ _ H), (stray_release _ _ _ _ _ _ E).
Qed.

Lemma stray_release_up n : forall i p km req p' km',
  release_pages_up n i p km req = Ok (p', km') -> stray p' km' ∅ = stray p km ∅.
Proof.
  induction n as [|n IH]; intros i p km req p' km' H; cbn [release_pages_up] in H; [by injection H as <- <-|].
  inv_ok H. destruct r as [p1 km1]. by rewrite (IH _ _ _ _ _ _ H), (stray_release _ _ _ _ _ _ E).
Qed.

Lemma stray_get_data_pages fuel p km req bio ret req' p' km' :
  ubbd_get_data_pages fuel p km req bio = Ok (ret, req', p', km') -> stray p' km' ∅ = stray p km ∅.
Proof.
  unfold ubbd_get_data_pages. destruct bio as [|b bio]; [done|]. intros H. inv_ok H. destruct r as [[[r u] i] st].
  pose proof (stray_get_segs _ _ _ _ _ _ _ _ _ E) as Hs. unfold stray_of at 2 in Hs. simpl in Hs.
  assert (forall p1 km1, match g_new_page st with
    | Some page => __ubbd_release_page (g_pool st) (g_km st) page | None => (g_pool st, g_km st) end = (p1, km1) ->
    stray p1 km1 ∅ = stray p km ∅) as Hnew.
  { intros p1 km1. rewrite <- Hs. unfold stray_of. destruct (g_new_page st) as [pg|].
    - intros E1. by rewrite (stray_release_new _ _ _ _ _ E1).
    - by intros [= <- <-]. }
  destruct (match g_new_page st with Some _ => _ | None => _ end) as [p1 km1].
  specialize (Hnew _ _ eq_refl). destruct (r =? 0); [by injection H as <- <- <- <-|].
  inv_ok H. destruct r0 as [p2 km2]. injection H as <- <- <- <-. by rewrite (stray_release_down _ _ _ _ _ _ E0).
Qed.

Lemma stray_same_live p km km' X : live km' = live km -> stray p km' X = stray p km X.
Proof. intros E. unfold stray. by rewrite E. Qed.

Lemma kfree_pi_live req km km' : kfree_pi req km = Ok km' -> live km' = live km.
Proof. unfold kfree_pi. destruct (ur_pi req); intros [= <-]; auto using kfree_live. Qed.

Lemma pi_alloc_live req km ret req' km' : ubbd_req_pi_alloc req km = (ret, req', km') -> live km' = live km.
Proof.
  unfold ubbd_req_pi_alloc, ubbd_req_need_fault. cbv zeta.
  pose proof (kcalloc_live (u32 (ur_pi_cnt req - UBBD_REQ_INLINE_PI_MAX)) km) as Hl.
  destruct (kcalloc _ km) as [[] km1]; simpl in Hl; by intros [= <- <- <-].
Qed.

Lemma stray_req_release p km req p' km' req' :
  ubbd_req_release p km req = Ok (p', km', req') -> stray p' km' ∅ = stray p km ∅.
Proof.
  unfold ubbd_req_release. intros H. inv_ok H. destruct r as [p1 km1]. inv_ok H. injection H as <- <- <-.
  rewrite (stray_same_live _ _ _ _ (kfree_pi_live _ _ _ E0)). by apply (stray_release_up _ _ _ _ _ _ _ E).
Qed.
End pool.

(** ** A queue *)

Section queue.
Context `{A : UbbdAbi} `{K : KernelApi} `{ML : KernelMemLaws}.
Implicit Types (q : ubbd_queue) (w : world).

Definition queue_pages q : gset Z := map_img (data_pages_array (q_pool q)).

(** The allocated pages that are not this queue's. *)
Definition outside q w : gset Z := live (w_km w) ∖ queue_pages q.

Lemma outside_stray q w : outside q w = stray (q_pool q) (w_km w) ∅.
Proof. unfold outside, queue_pages, stray. by rewrite (right_id_L ∅ (∪)). Qed.

Lemma prepare_balanced q w rq u ret u' q' w' :
  queue_req_prepare q w rq u = Ok (ret, u', q', w') -> outside q' w' = outside q w.
Proof.
  unfold queue_req_prepare. intros H. rewrite !outside_stray. inv_ok H.
  destruct (if _ <? _ then _ else _) as [[r1 u1] km1] eqn:E1.
  assert (live km1 = live (w_km w)) as Hl.
  { destruct (_ <? _); [by eapply pi_alloc_live|by injection E1 as <- <- <-]. }
  assert (stray (q_pool q) km1 ∅ = stray (q_pool q) (w_km w) ∅) as Hs by (by apply stray_same_live).
  destruct (negb (r1 =? 0)); [by injection H as <- <- <- <-|].
  inv_ok H. destruct r0 as [[[r2 u2] p2] km2].
  assert (stray p2 km2 ∅ = stray (q_pool q) (w_km w) ∅) as Hs2.
  { rewrite <- Hs. destruct (negb (ur_pi_cnt u1 =? 0)); [|by injection E0 as <- <- <- <-].
    by apply (stray_get_data_pages _ _ _ _ _ _ _ _ _ E0). }
  destruct (negb (r2 =? 0)).
  - inv_ok H. injection H as <- <- <- <-. simpl. by rewrite (stray_same_live _ _ _ _ (kfree_pi_live _ _ _ E2)).
  - case_bool_decide; [inv_ok H|]; by injection H as <- <- <- <-.
Qed.

Lemma end_request_km ret tag w : w_km (end_request ret tag w) = w_km w.
Proof. unfold end_request. by destruct (_ || _). Qed.

Lemma workfn_balanced q w tag q' w' : ubbd_queue_workfn q w tag = Ok (q', w') -> outside q' w' = outside q w.
Proof.
  unfold ubbd_queue_workfn. intros H. inv_ok H.
  destruct (negb (status_errno _ =? 0)).
  { injection H as <- <-. unfold outside. by rewrite end_request_km. }
  inv_ok H. destruct r0 as [[[r2 u2] q2] w2]. pose proof (prepare_balanced _ _ _ _ _ _ _ _ E0) as <-.
  destruct (negb (r2 =? 0)).
  { injection H as <- <-. unfold outside. by rewrite end_request_km. }
  cbv zeta in H. destruct (negb (submit_ring_space_enough _ _)).
  { injection H as <- <-. unfold outside. by rewrite end_request_km. }
  destruct (queue_req_se_init _ _ _) as [r3 u3]. inv_ok H. by injection H as <- <-.
Qed.

Lemma complete_one_balanced q w tag ret q' w' :
  complete_inflight_req q w tag ret = Ok (q', w') -> outside q' w' = outside q w.
Proof.
  unfold complete_inflight_req. intros H. inv_ok H. inv_ok H. inv_ok H. inv_ok H.
  destruct r2 as [[p km] u]. inv_ok H. injection H as <- <-. rewrite !outside_stray. simpl.
  by apply (stray_req_release _ _ _ _ _ _ E2).
Qed.

Lemma fetch_pool q w tid o q' : fetch_inflight_req q w tid = (o, q') -> q_pool q' = q_pool q.
Proof.
  unfold fetch_inflight_req. destruct (find_inflight _ _ _); [|by intros [= <- <-]].
  destruct (_ && _); by intros [= <- <-].
Qed.

Lemma complete_again_balanced fuel : forall q w q' w',
  complete_again fuel q w = Ok (q', w') -> outside q' w' = outside q w.
Proof.
  induction fuel as [|fuel IH]; intros q w q' w' H; [done|]. cbn [complete_again] in H.
  destruct (get_complete_entry (q_ring q)) as [off|]; [|by injection H as <- <-].
  set (q1 := set_q_ring _ q) in H. inv_ok H.
  destruct (fetch_inflight_req q1 w (ce_priv_data r)) as [[tag|] q2] eqn:Ef;
    pose proof (fetch_pool _ _ _ _ _ Ef : _ = q_pool q) as Ep.
  - inv_ok H. inv_ok H. inv_ok H. destruct r2 as [q3 w3].
    rewrite (IH _ _ _ _ H), (complete_one_balanced _ _ _ _ _ _ E2). unfold outside, queue_pages. by rewrite Ep.
  - rewrite (IH _ _ _ _ H). unfold outside, queue_pages. by rewrite Ep.
Qed.

Lemma end_list_balanced ret tmp : forall q w q' w',
  end_inflight_list tmp q w ret = Ok (q', w') -> outside q' w' = outside q w.
Proof.
  induction tmp as [|t tmp IH]; intros q w q' w' H; cbn [end_inflight_list] in H; [by injection H as <- <-|].
  inv_ok H. destruct r as [q1 w1]. by rewrite (IH _ _ _ _ H), (complete_one_balanced _ _ _ _ _ _ E).
Qed.
End queue.

(** ** The queues of a device *)

Section queues.
Context `{A : UbbdAbi} `{K : KernelApi} `{ML : KernelMemLaws}.
Implicit Types (q : ubbd_queue) (qs : list ubbd_queue) (w : world).

(** The pages the queues own, and the allocated pages of others. *)
Definition pages_in qs : gset Z := ⋃ map queue_pages qs.
Definition outside_all qs w : gset Z := live (w_km w) ∖ pages_in qs.

Lemma pages_in_middle qs1 q qs2 : pages_in (qs1 ++ q :: qs2) = queue_pages q ∪ pages_in (qs1 ++ qs2).
Proof. unfold pages_in. rewrite !map_app. simpl. rewrite !union_list_app_L. simpl. set_solver. Qed.

(** A balanced step of one queue is balanced for all of them. *)
Lemma insert_balanced qs i q q' w w' :
  qs !! i = Some q -> outside q' w' = outside q w ->
  outside_all (<[i := q']> qs) w' = outside_all qs w.
Proof.
  intros Hi Ho. unfold outside_all. rewrite <- (take_drop_middle qs i q Hi) at 2.
  rewrite insert_take_drop by (by eapply lookup_lt_Some). rewrite !pages_in_middle. unfold outside in Ho.
  set (R := pages_in _). set_solver.
Qed.

Lemma pages_in_map f qs :
  (forall q, queue_pages (f q) = queue_pages q) -> pages_in (map f qs) = pages_in qs.
Proof. intros Hf. unfold pages_in. rewrite map_map. f_equal. by apply map_ext. Qed.
End queues.
