(* ===== verification/Queue.v ===== *)
(** * The queue invariant and what each request operation does

    [queue_inv q w es F l] says that queue [q], with the shared state [w], owns
    the requests tagged [l]: each has its own data pages, its own transaction
    id and its own unfinished entry among the live entries [es] of the command
    ring.  [F] are the pages of other owners.  Every operation of
    [src/src/ubbd_req.c] preserves it. *)

From S2P Require Import Prelude Abi Ring Pages Request.

(** ** The invariant *)

Section invariant.
Context `{A : UbbdAbi} `{K : KernelApi} `{M : KernelMem}.

(** A submitted request of the queue. *)
Record inflight_ok (q : ubbd_queue) (es : list entry) (F : gset Z) (e : rq_entry) : Prop := {
  io_rq : rq_ok (e_rq e) F;
  io_op : op_of_req_op (rq_op (e_rq e)) = Some (ur_op (e_pdu e));
  io_cnt : ur_pi_cnt (e_pdu e) = Z.of_nat (n_segs (e_rq e));
  io_wf : req_wf (e_pdu e) (n_segs (e_rq e));
  io_nodup : NoDup (req_pis (e_pdu e));
  io_bits : Forall (fun i => i ∈ data_bitmap (q_pool q)) (req_pis (e_pdu e));
  io_tid : 1 <= ur_req_tid (e_pdu e) <= q_req_tid q;
  io_se : exists se hd b,
    ur_se (e_pdu e) = Some se /\ (se, hd) ∈ es /\ entry_done (se, hd) = false /\
    bodies (q_ring q) !! se = Some b /\ se_priv_data b = ur_req_tid (e_pdu e);
}.

(** Two requests share nothing. *)
Record apart (e1 e2 : rq_entry) : Prop := {
  ap_pis : forall i, i ∈ req_pis (e_pdu e1) -> i ∈ req_pis (e_pdu e2) -> False;
  ap_tid : ur_req_tid (e_pdu e1) <> ur_req_tid (e_pdu e2);
  ap_se : ur_se (e_pdu e1) <> ur_se (e_pdu e2);
}.

Record queue_inv (q : ubbd_queue) (w : world) (es : list entry) (F : gset Z) (l : list Z)
  : Prop := {
  qi_pool : pool_inv (q_pool q) (w_km w) ∅ F;
  qi_inode : is_Some (q_inode (q_pool q));
  qi_ring : ring_wf (q_ring q) es;
  qi_tid : 0 <= q_req_tid q < 2 ^ 64;
  qi_nodup : NoDup l;
  qi_live t : t ∈ l -> exists e, w_reqs w !! t = Some e /\ inflight_ok q es F e;
  qi_apart t1 t2 e1 e2 : t1 ∈ l -> t2 ∈ l -> t1 <> t2 ->
    w_reqs w !! t1 = Some e1 -> w_reqs w !! t2 = Some e2 -> apart e1 e2;
}.
End invariant.

Section lemmas.
Context `{L : UbbdAbiLaws} `{KL : KernelApiLaws} `{ML : KernelMemLaws}.
Implicit Types (q : ubbd_queue) (w : world) (u : ubbd_request) (rq : request) (e : rq_entry).

(** Entries of requests survive in [es'] with their bodies. *)
Definition entries_kept (q q' : ubbd_queue) (es es' : list entry) (e : rq_entry) : Prop :=
  forall se hd, ur_se (e_pdu e) = Some se -> (se, hd) ∈ es -> entry_done (se, hd) = false ->
    (se, hd) ∈ es' /\ bodies (q_ring q') !! se = bodies (q_ring q) !! se.

(** The frame rule of the invariant: an operation that leaves the requests
    [l'] and what they own alone preserves it. *)
Lemma queue_inv_frame q w es F l q' w' es' l' :
  queue_inv q w es F l -> l' ⊆ l -> NoDup l' ->
  pool_inv (q_pool q') (w_km w') ∅ F -> is_Some (q_inode (q_pool q')) ->
  ring_wf (q_ring q') es' -> q_req_tid q <= q_req_tid q' < 2 ^ 64 ->
  (forall t e, t ∈ l' -> w_reqs w !! t = Some e ->
     w_reqs w' !! t = Some e /\
     (forall i, i ∈ req_pis (e_pdu e) -> i ∈ data_bitmap (q_pool q) ->
        i ∈ data_bitmap (q_pool q')) /\ entries_kept q q' es es' e) ->
  queue_inv q' w' es' F l'.
Proof.
  intros [Hp Hn Hr Ht Hnd Hlv Hap] Hsub Hnd' Hp' Hn' Hr' Ht' Hk.
  split; try done; [lia| |].
  - intros t Hin. destruct (Hlv t (Hsub t Hin)) as (e & He & [H1 H2 H3 H4 H5 H6 H7 H8]).
    destruct (Hk t e Hin He) as (He' & Hbits & Hse).
    exists e. split; [done|]. split; try done; [|lia|].
    + rewrite Forall_forall in *. intros i Hi. apply Hbits; auto.
    + destruct H8 as (se & hd & b & E1 & E2 & E3 & E4 & E5).
      destruct (Hse se hd E1 E2 E3) as [? Hb]. exists se, hd, b. rewrite Hb. by split_and!.
  - intros t1 t2 e1 e2 H1 H2 Hne He1 He2.
    destruct (Hlv t1 (Hsub t1 H1)) as (e1' & He1' & _).
    destruct (Hlv t2 (Hsub t2 H2)) as (e2' & He2' & _).
    destruct (Hk _ _ H1 He1') as [E1 _]. destruct (Hk _ _ H2 He2') as [E2 _].
    simplify_eq. apply (Hap t1 t2); auto.
Qed.

(** One more request. *)
Lemma queue_inv_add q w es F l t e :
  queue_inv q w es F l -> t ∉ l -> w_reqs w !! t = Some e -> inflight_ok q es F e ->
  (forall t' e', t' ∈ l -> w_reqs w !! t' = Some e' -> apart e' e) ->
  queue_inv q w es F (l ++ [t]).
Proof.
  intros [Hp Hn Hr Ht Hnd Hlv Hap] Hni He Hok Hdis.
  split; try done.
  - apply NoDup_app. split_and!; [done| |apply NoDup_singleton]. set_solver.
  - intros t'. rewrite elem_of_app, list_elem_of_singleton. intros [?| ->]; eauto.
  - intros t1 t2 e1 e2. rewrite !elem_of_app, !list_elem_of_singleton.
    intros [H1| ->] [H2| ->] Hne E1 E2; simplify_eq.
    + by apply (Hap t1 t2).
    + by apply (Hdis t1).
    + destruct (Hdis t2 e2 H2 E2) as [P1 P2 P3]. split; [eauto|congruence|congruence].
Qed.

Lemma entries_kept_refl q q' es e :
  q_ring q' = q_ring q -> entries_kept q q' es es e.
Proof. intros E se hd _ ? _. by rewrite E. Qed.

Lemma drop_done_keeps en es : en ∈ es -> entry_done en = false -> en ∈ drop_done es.
Proof.
  induction es as [|x es IH]; [by rewrite elem_of_nil|]. rewrite elem_of_cons.
  intros [->|Hin] Hd; simpl.
  - rewrite Hd. apply elem_of_cons. by left.
  - destruct (entry_done x); [auto|]. apply elem_of_cons. by right.
Qed.

Lemma mark_done_keeps off en es : en ∈ es -> en.1 <> off -> en ∈ mark_done off es.
Proof.
  intros Hin Hne. unfold mark_done. apply list_elem_of_fmap. exists en. split; [|done].
  apply Z.eqb_neq in Hne. by rewrite Hne.
Qed.

(** *** [ubbd_queue_workfn] *)

(** The entry appended by a submission. *)
Lemma submit_ring_spec q es F rq op u :
  ring_wf (q_ring q) es ->
  op_of_req_op (rq_op rq) = Some op -> rq_ok rq F -> ur_op u = op ->
  ur_pi_cnt u = Z.of_nat (n_segs rq) -> req_wf u (n_segs rq) ->
  submit_ring_space_enough (q_ring q) (ubbd_get_cmd_size u) = true ->
  let rp := insert_padding (q_ring q) (ubbd_get_cmd_size u) in
  exists pads r2,
    (let '(r1, u1) := queue_req_se_init rp rq u in
     u1 = set_se (Some (cmd_head (sb rp))) u /\
     queue_req_data_init r1 (data_off (q_pool q)) rq u1 = Ok r2) /\
    (pads = [] \/ exists h, pads = [(cmd_head (sb (q_ring q)), h)] /\
       ubbd_se_hdr_get_op h = Some UBBD_OP_PAD) /\
    ring_wf (UPDATE_CMDR_HEAD u64 (ubbd_get_cmd_size u) r2)
      (es ++ pads ++ [(cmd_head (sb rp), hdr_of u)]) /\
    (forall en, en ∈ es -> en.1 <> cmd_head (sb rp) /\ bodies r2 !! en.1 = bodies (q_ring q) !! en.1) /\
    bodies r2 !! cmd_head (sb rp) = Some (body_of (data_off (q_pool q)) rq u) /\
    ces r2 = ces (q_ring q) /\ sb r2 = sb rp.
Proof.
  intros Hq Hop Hok Hu Hc Hw Hsp rp.
  destruct (req_segments_spec rq op u F Hop Hok Hu) as (_ & H16 & _).
  destruct (get_cmd_size_bound u ltac:(lia)) as [Hsz Hal].
  assert (0 < ubbd_get_cmd_size u < 2 ^ 31) as Hsz' by lia.
  destruct (insert_padding_wf (q_ring q) es (ubbd_get_cmd_size u) Hq Hsz' Hsp)
    as (pads & Hwf & Hfit & Htot & Hpads & Hbod & Hces & _). fold rp in Hwf, Hfit, Hpads, Hbod, Hces.
  pose proof cmdr_size_bound. pose proof cmdr_reserved_bound.
  pose proof (ring_wf_head _ _ Hwf) as (_ & Hhb & Htb & _).
  pose proof (data_init_spec rp (data_off (q_pool q)) rq op u F Hop Hok Hu Hc Hw) as Hdi.
  destruct (queue_req_se_init rp rq u) as [r1 u1].
  destruct Hdi as (Eu1 & r2 & E2 & Hsb & Hc2 & Hh2 & Hb2 & Hb2').
  assert (forall en, en ∈ es -> outside (cmd_head (sb rp)) (ubbd_get_cmd_size u) en.1 = true) as Hout.
  { intros en Hen. apply (free_space_outside rp (es ++ pads)); try done; try lia.
    apply elem_of_app. by left. }
  assert (forall en, en ∈ es -> en.1 <> cmd_head (sb rp)) as Hne.
  { intros en Hen E. specialize (Hout en Hen). unfold outside in Hout.
    rewrite orb_true_iff, Z.ltb_lt, Z.leb_le in Hout. lia. }
  exists pads, r2. split_and!; try done.
  - destruct Hpads as [->|(h & ? & ? & _)]; [by left|right; eauto].
  - rewrite app_assoc. eapply (ring_append rp); eauto with lia.
    + unfold hdr_of. apply hdr_get_set_len; [lia|done].
    + intros x Hx. apply u64_small. lia.
  - intros en Hen. split; [by apply Hne|]. rewrite Hb2 by (by apply Hne).
    rewrite (proj2 (lookup_ring_memset _ _ rp _ (Hout en Hen))). by apply Hbod.
  - by rewrite Hc2.
Qed.

(** What [ubbd_queue_workfn] may do with request [tag] of a running queue. *)
Inductive workfn_result (q : ubbd_queue) (w : world) (tag : Z) (e : rq_entry)
    (es : list entry) (F : gset Z) (l : list Z) (q' : ubbd_queue) (w' : world) : Prop :=
| workfn_submitted u se pads :
    q_inflight q' = q_inflight q ++ [tag] ->
    w_blk w' = w_blk w -> w_wq w' = w_wq w ->
    w_reqs w' = <[tag := mk_rq_entry (e_rq e) (e_q e) u]> (w_reqs w) ->
    ur_req_tid u = q_req_tid q + 1 -> ur_se u = Some se ->
    (pads = [] \/ exists h, pads = [(cmd_head (sb (q_ring q)), h)] /\
       ubbd_se_hdr_get_op h = Some UBBD_OP_PAD) ->
    queue_inv q' w' (es ++ pads ++ [(se, hdr_of u)]) F (l ++ [tag]) ->
    bodies (q_ring q') !! se = Some (body_of (data_off (q_pool q)) (e_rq e) u) ->
    grabbed (q_pool q) (q_pool q') (req_pis u) ->
    (rq_op (e_rq e) = REQ_OP_WRITE ->
       data_written (e_rq e) u (q_pool q') (w_mem w) (w_mem w')) ->
    data_off (q_pool q') = data_off (q_pool q) ->
    workfn_result q w tag e es F l q' w'
| workfn_rejected ret u :
    ret < 0 ->
    q_inflight q' = q_inflight q -> q_ring q' = q_ring q -> w_wq w' = w_wq w ->
    data_bitmap (q_pool q') = data_bitmap (q_pool q) ->
    w_reqs w' = <[tag := mk_rq_entry (e_rq e) (e_q e) u]> (w_reqs w) ->
    w_blk w' = w_blk w ++
      [if (ret =? - ENOMEM) || (ret =? - EBUSY) then BLK_REQUEUE tag
       else BLK_END tag (errno_to_blk_status ret)] ->
    queue_inv q' w' es F l ->
    workfn_result q w tag e es F l q' w'
| workfn_ring_full u :
    submit_ring_space_enough (q_ring q) (ubbd_get_cmd_size u) = false ->
    ur_pi_cnt u = Z.of_nat (n_segs (e_rq e)) ->
    q_inflight q' = q_inflight q -> q_ring q' = q_ring q -> w_wq w' = w_wq w ->
    grabbed (q_pool q) (q_pool q') (req_pis u) ->
    length (req_pis u) = n_segs (e_rq e) ->
    w_reqs w' = <[tag := mk_rq_entry (e_rq e) (e_q e) u]> (w_reqs w) ->
    w_blk w' = w_blk w ++ [BLK_REQUEUE tag] ->
    queue_inv q' w' es F l ->
    workfn_result q w tag e es F l q' w'.

Lemma list_del_app tag l : tag ∉ l -> list_del tag (l ++ [tag]) = l.
Proof.
  intros Hni. unfold list_del. rewrite filter_app. simpl.
  rewrite filter_cons_False by (by intros ?). rewrite app_nil_r.
  induction l as [|x l IH]; [done|]. rewrite filter_cons_True by set_solver.
  f_equal. apply IH. set_solver.
Qed.

Lemma workfn_spec q w tag e es F l op :
  queue_inv q w es F l -> q_inflight q ⊆ l -> tag ∉ l ->
  q_status q = UBBD_QUEUE_KSTATUS_RUNNING -> q_req_tid q + 1 < 2 ^ 64 ->
  w_reqs w !! tag = Some e -> op_of_req_op (rq_op (e_rq e)) = Some op ->
  e_pdu e = zeroed_ubbd_request op -> rq_ok (e_rq e) F ->
  exists q' w', ubbd_queue_workfn q w tag = Ok (q', w') /\
    workfn_result q w tag e es F l q' w'.
Proof.
  intros Hq Hsub Hni Hst Htid He Hop Hpdu Hok. unfold ubbd_queue_workfn.
  rewrite He. cbn [deref obind]. unfold status_errno. rewrite Hst, Z.eqb_refl. cbn [negb Z.eqb].
  rewrite Hpdu.
  destruct (queue_req_prepare_spec q w (e_rq e) op F Hop Hok (qi_pool _ _ _ _ _ Hq)
              (qi_inode _ _ _ _ _ Hq)) as (ret & u & p' & km' & m' & E & Hp' & Hcfg & Hres).
  rewrite E. cbn [obind].
  assert (is_Some (q_inode p')) as Hino by (destruct Hcfg as (_&_&_&->); apply Hq).
  assert (forall t, t ∈ l -> t <> tag) as Hnt by (intros t Ht ->; done).
  (* the requests already there survive whatever the pool grants *)
  assert (forall qx wx esx u', q_pool qx = p' -> w_km wx = km' ->
            (forall i, i ∈ data_bitmap (q_pool q) -> i ∈ data_bitmap p') ->
            w_reqs wx = <[tag := mk_rq_entry (e_rq e) (e_q e) u']> (w_reqs w) ->
            ring_wf (q_ring qx) esx -> q_req_tid q <= q_req_tid qx < 2 ^ 64 ->
            (forall e0, entries_kept q qx es esx e0) ->
            queue_inv qx wx esx F l) as Hframe.
  { intros qx wx esx u' Ep Ek Hb Er Hr Ht Hk. eapply queue_inv_frame; eauto.
    - apply Hq.
    - by rewrite Ep, Ek.
    - by rewrite Ep.
    - intros t e0 Hin He0. rewrite Er, lookup_insert_ne by (symmetry; auto).
      split_and!; [done| |apply Hk]. intros i _ Hi. rewrite Ep. auto. }
  pose proof (qi_tid _ _ _ _ _ Hq) as Htr.
  destruct Hres as [(-> & Hpr & Hwr & Hnw)|(Hneg & Hb & ->)].
  2: { destruct (Z.eqb_spec ret 0); [lia|]. cbn [negb]. do 2 eexists. split; [done|].
    eapply (workfn_rejected _ _ _ _ _ _ _ _ _ ret u); try done.
    - unfold end_request. by destruct (_ || _).
    - unfold end_request. by destruct (_ || _).
    - unfold end_request. by destruct (_ || _).
    - unfold end_request.
      eapply (Hframe _ _ es u); try (by destruct (_ || _)).
      + done.
      + intros i. by rewrite Hb.
      + exact (qi_ring _ _ _ _ _ Hq).
      + simpl. lia.
      + intros e0. by apply entries_kept_refl. }
  cbn [negb Z.eqb]. destruct Hpr as [Hw Hc Ho Hg]. rewrite Hc, Nat2Z.id in Hw.
  assert (forall i, i ∈ data_bitmap (q_pool q) -> i ∈ data_bitmap p') as Hbsub.
  { intros i Hi. rewrite (gr_bitmap _ _ _ Hg). by apply elem_of_union_l. }
  assert (length (req_pis u) = n_segs (e_rq e)) as Hlen.
  { unfold req_pis. rewrite Hc, Nat2Z.id, length_take. destruct Hw as (_ & ? & _). lia. }
  simpl q_inflight. simpl q_ring.
  destruct (submit_ring_space_enough (q_ring q) (ubbd_get_cmd_size u)) eqn:Esp; cbn [negb].
  2: { do 2 eexists. split; [done|]. simpl.
    eapply (workfn_ring_full _ _ _ _ _ _ _ _ _ u); try done; simpl.
    - apply list_del_app. intros Hin. apply Hni. by apply Hsub.
    - eapply (Hframe _ _ es u); try done; simpl.
      + apply Hq.
      + lia. }
  set (ut := set_req_tid (u64 (q_req_tid q + 1)) u).
  destruct (submit_ring_spec q es F (e_rq e) op ut (qi_ring _ _ _ _ _ Hq) Hop Hok)
    as (pads & r2 & Hse & Hpads & Hwf & Hold & Hbody & Hces & Hsb); try done.
  change (ubbd_get_cmd_size ut) with (ubbd_get_cmd_size u) in *.
  set (rp := insert_padding (q_ring q) (ubbd_get_cmd_size u)) in *.
  cbn [q_req_tid set_q_req_tid set_q_inflight set_q_pool q_pool]. fold ut.
  destruct (queue_req_se_init rp (e_rq e) ut) as [r1 u1]. destruct Hse as [-> E2].
  replace (data_off p') with (data_off (q_pool q)) by (destruct Hcfg as (_&_&->&_); done).
  rewrite E2. cbn [obind]. do 2 eexists. split; [done|].
  assert (ur_req_tid ut = q_req_tid q + 1) as Et by (simpl; apply u64_small; lia).
  set (uf := set_se (Some (cmd_head (sb rp))) ut) in *.
  eapply (workfn_submitted _ _ _ _ _ _ _ _ _ uf (cmd_head (sb rp)) pads); try done.
  2: { simpl. by destruct Hcfg as (_ & _ & -> & _). }
  change (hdr_of uf) with (hdr_of ut).
  assert (forall x, 0 <= x -> x + 1 < 2 ^ 64 -> u64 (x + 1) = x + 1) as Hu by
    (intros x ? ?; apply u64_small; lia).
  eapply queue_inv_add; [|done|apply lookup_insert_eq| |].
  - eapply (Hframe _ _ _ uf); try done.
    + simpl. rewrite Hu by lia. lia.
    + intros e0 se hd _ Hin _. split; [apply elem_of_app; by left|]. simpl.
      by apply (Hold (se, hd)).
  - split; simpl; try done.
    + by rewrite Ho.
    + apply (gr_nodup _ _ _ Hg).
    + by eapply grabbed_in_bitmap.
    + rewrite Hu by lia. lia.
    + exists (cmd_head (sb rp)), (hdr_of ut), (body_of (data_off (q_pool q)) (e_rq e) ut).
      split_and!; try done.
      * rewrite !elem_of_app, list_elem_of_singleton. auto.
      * unfold entry_done, hdr_of. simpl. rewrite hdr_flags_set_len, hdr_flags_set_op.
        apply hdr_zeroed_not_done.
  - intros t' e' Hin He'. simpl in He'. rewrite lookup_insert_ne in He' by (symmetry; auto).
    destruct (qi_live _ _ _ _ _ Hq t' Hin) as (e0 & He0 & [_ _ _ _ _ Hb0 Ht0 Hs0]).
    simplify_eq. split; simpl.
    + intros i Hi Hi'. rewrite Forall_forall in Hb0.
      pose proof (gr_fresh _ _ _ Hg) as Hfr. rewrite Forall_forall in Hfr.
      by apply (proj1 (Hfr i Hi')), Hb0.
    + rewrite Hu by lia. lia.
    + destruct Hs0 as (se & hd & b & -> & Hin2 & _). intros [= E3].
      by apply (proj1 (Hold _ Hin2)).
Qed.
(** *** [complete_inflight_req] *)

(** The completion side of the ring is the same. *)
Definition same_compr (r r' : ring) : Prop :=
  compr_size (sb r') = compr_size (sb r) /\ compr_tail (sb r') = compr_tail (sb r) /\
  compr_head (sb r') = compr_head (sb r) /\ ces r' = ces r.

Lemma same_compr_wf r r' cs : same_compr r r' -> compr_wf r cs -> compr_wf r' cs.
Proof. intros (E1 & E2 & E3 & E4) [? ? ?]. split; by rewrite ?E1, ?E2, ?E3, ?E4. Qed.

Lemma elem_of_list_del t tag l : t ∈ list_del tag l <-> t ∈ l /\ t <> tag.
Proof. unfold list_del. rewrite list_elem_of_filter. tauto. Qed.

Lemma pis_in_range q w es F l e :
  queue_inv q w es F l -> inflight_ok q es F e -> pis_ok (req_pis (e_pdu e)).
Proof.
  intros Hq He. eapply Forall_impl; [apply (io_bits _ _ _ _ He)|]. simpl. intros i Hi.
  pose proof (qi_pool _ _ _ _ _ Hq) as Hp. pose proof (pl_size _ _ _ _ Hp).
  destruct (pl_bits _ _ _ _ Hp i Hi) as [pg Hpg]. pose proof (pl_keys _ _ _ _ Hp _ _ Hpg). lia.
Qed.

(** What ending request [tag] with [ret] does to the queue and the world. *)
Record completed (q : ubbd_queue) (w : world) (tag : Z) (e : rq_entry) (ret : Z)
    (q' : ubbd_queue) (w' : world) : Prop := {
  cp_inflight : q_inflight q' = q_inflight q;
  cp_status : q_status q' = q_status q;
  cp_blk : w_blk w' = w_blk w ++ [BLK_END tag (errno_to_blk_status ret)];
  cp_mem : w_mem w' = w_mem w;
  cp_wq : w_wq w' = w_wq w;
  cp_reqs : w_reqs w' = <[tag := mk_rq_entry (e_rq e) (e_q e) (set_pi PI_NULL (e_pdu e))]> (w_reqs w);
  cp_pages : data_bitmap (q_pool q') = data_bitmap (q_pool q) ∖ list_to_set (req_pis (e_pdu e));
  cp_compr : same_compr (q_ring q) (q_ring q');
}.

Lemma complete_spec q w es F l tag e ret :
  queue_inv q w es F l -> tag ∈ l -> w_reqs w !! tag = Some e ->
  exists q' w' se, complete_inflight_req q w tag ret = Ok (q', w') /\
    ur_se (e_pdu e) = Some se /\
    queue_inv q' w' (drop_done (mark_done se es)) F (list_del tag l) /\
    completed q w tag e ret q' w'.
Proof.
  intros Hq Hin He. destruct (qi_live _ _ _ _ _ Hq tag Hin) as (e' & He' & Hok). simplify_eq.
  pose proof Hok as [Hrq Hop Hc Hw _ _ _ (se & hd & b & Ese & Hen & _)].
  pose proof Hq as [Hp Hino Hr Ht Hndl Hlv Hap].
  destruct (req_segments_spec (e_rq e) _ (e_pdu e) F Hop Hrq eq_refl) as (_ & H16 & _).
  unfold complete_inflight_req. rewrite He. cbn [deref obind]. rewrite Ese. cbn [deref obind].
  pose proof (chain_lookup _ _ _ _ _ _ (wf_chain _ _ Hr) Hen) as Hhd. simpl in Hhd.
  destruct (se_flags_set_wf (q_ring q) es se hd Hr Hhd) as [Ef Hr1]. rewrite Ef. cbn [obind].
  destruct (req_release_spec (q_pool q) (w_km w) (e_pdu e) F Hp) as (p' & km' & E1 & Hp' & Hcf & Hrel).
  { by rewrite Hc, Nat2Z.id. }
  { lia. }
  { by eapply pis_in_range. }
  { done. }
  rewrite E1. cbn [obind].
  destruct (advance_cmd_ring_wf _ (Z.to_nat CMDR_SIZE) _ Hr1) as (t & E2 & Hr2).
  { by apply (ring_fuel_enough _ _ Hr1). }
  rewrite E2. cbn [obind]. do 3 eexists. split; [done|]. split; [done|]. split.
  2: { by split. }
  eapply queue_inv_frame; try done; simpl.
  - intros x. rewrite elem_of_list_del. tauto.
  - by apply NoDup_filter.
  - destruct Hcf as (_&_&_&->). done.
  - lia.
  - intros t' e0 Hin' He0. apply elem_of_list_del in Hin' as [Hin' Hne].
    destruct (Hap t' tag e0 e Hin' Hin Hne He0 He) as [P1 P2 P3].
    rewrite lookup_insert_ne by done. split_and!; [done| |].
    + intros i Hi Hbi. rewrite Hrel, elem_of_difference, elem_of_list_to_set.
      split; [done|]. intros Hi'. by apply (P1 i).
    + intros se' hd' E3 Hin3 Hd3. split; [|done]. apply drop_done_keeps; [|done].
      apply mark_done_keeps; [done|]. simpl. intros ->. congruence.
Qed.
(** *** The completion loop *)

(** The inflight requests as the backend sees them: tag and transaction id. *)
Definition tid_of (w : world) (t : Z) : Z :=
  match w_reqs w !! t with Some e => ur_req_tid (e_pdu e) | None => 0 end.

Definition view (w : world) (l : list Z) : list (Z * Z) := map (fun t => (t, tid_of w t)) l.

(** The contract of the completion loop: each completion entry ends the
    inflight request with its id, or is ignored. *)
Fixpoint abs_complete (v : list (Z * Z)) (cs : list ubbd_ce) : list (Z * Z) * list (Z * Z) :=
  match cs with
  | [] => (v, [])
  | c :: cs =>
      match find (fun p => p.2 =? ce_priv_data c) v with
      | None => abs_complete v cs
      | Some p =>
          let '(v', ended) := abs_complete (filter (fun x => x.1 <> p.1) v) cs in
          (v', (p.1, ce_result c) :: ended)
      end
  end.

(** Every index in use belongs to a request of the list: no page is lost. *)
Definition accounted (q : ubbd_queue) (w : world) (l : list Z) : Prop :=
  forall i, i ∈ data_bitmap (q_pool q) ->
    exists t e, t ∈ l /\ w_reqs w !! t = Some e /\ i ∈ req_pis (e_pdu e).

Lemma find_inflight_view w l tid :
  (forall t, t ∈ l -> is_Some (w_reqs w !! t)) ->
  find_inflight w l tid = fst <$> find (fun p => p.2 =? tid) (view w l).
Proof.
  induction l as [|t l IH]; intros Hs; [done|]. simpl.
  destruct (Hs t) as [e He]; [apply elem_of_cons; by left|].
  assert (tid_of w t = ur_req_tid (e_pdu e)) as -> by (unfold tid_of; by rewrite He).
  rewrite He. destruct (_ =? tid); [done|]. apply IH. intros t' Ht'. apply Hs. by right.
Qed.

Lemma view_list_del w l tag : filter (fun x => x.1 <> tag) (view w l) = view w (list_del tag l).
Proof.
  unfold view, list_del. induction l as [|t l IH]; [done|]. simpl.
  destruct (decide (t = tag)) as [->|Hne].
  - rewrite !filter_cons_False by (simpl; auto). done.
  - rewrite !filter_cons_True by (simpl; auto). simpl. by rewrite IH.
Qed.

Lemma view_insert w w' tag e e' l :
  w_reqs w !! tag = Some e -> ur_req_tid (e_pdu e') = ur_req_tid (e_pdu e) ->
  w_reqs w' = <[tag := e']> (w_reqs w) -> view w' l = view w l.
Proof.
  intros He Et Ew. apply map_ext. intros t. f_equal. unfold tid_of. rewrite Ew.
  destruct (decide (t = tag)) as [->|Hne]; [by rewrite lookup_insert_eq, He, Et|].
  by rewrite lookup_insert_ne.
Qed.

Lemma find_view_in w l f p : find f (view w l) = Some p -> p.1 ∈ l /\ f p = true.
Proof.
  intros H. apply List.find_some in H as [Hin Hf]. split; [|done].
  apply list_elem_of_In, list_elem_of_fmap in Hin as (t & -> & Ht). done.
Qed.

(** Changes to a queue the invariant does not see. *)
Lemma queue_inv_same q q' w w' es F l :
  queue_inv q w es F l -> q_pool q' = q_pool q -> q_req_tid q' = q_req_tid q ->
  ring_wf (q_ring q') es -> bodies (q_ring q') = bodies (q_ring q) ->
  w_reqs w' = w_reqs w -> w_km w' = w_km w ->
  queue_inv q' w' es F l.
Proof.
  intros Hq E1 E2 Hr Eb E3 E4. pose proof Hq as [].
  eapply queue_inv_frame; eauto; rewrite ?E1, ?E2, ?E3, ?E4; try done.
  - lia.
  - intros t e _ He. split_and!; [done|auto|]. intros se hd _ ? _. by rewrite Eb.
Qed.

Lemma ring_wf_compr_tail r es wd n : ring_wf r es -> ring_wf (UPDATE_COMPR_TAIL wd n r) es.
Proof. intros []. by split. Qed.

(** The pages of a submitted request are mapped. *)
Lemma inflight_mapped q w es F l e :
  queue_inv q w es F l -> inflight_ok q es F e ->
  let pgs := pages_of (data_pages_array (q_pool q)) (req_pis (e_pdu e)) in
  mapped (data_pages_array (q_pool q)) (e_pdu e) 0 pgs /\ NoDup pgs /\
  Forall (fun pg => pg ∉ F) pgs /\ length pgs = n_segs (e_rq e).
Proof.
  intros Hq [_ _ Hc Hw Hnd Hb _ _]. cbv zeta.
  rewrite <- (Nat2Z.id (n_segs _)), <- Hc in Hw.
  destruct (pages_of_ok (q_pool q) (w_km w) ∅ F (e_pdu e) (qi_pool _ _ _ _ _ Hq) Hw Hnd Hb)
    as (? & ? & ? & Hl). by rewrite Hl, Hc, Nat2Z.id.
Qed.

Lemma read_copy_ok q w es F l e m :
  queue_inv q w es F l -> inflight_ok q es F e -> rq_op (e_rq e) = REQ_OP_READ ->
  exists m', copy_data_from_ubbdreq (data_pages_array (q_pool q)) (e_pdu e) (rq_bio (e_rq e)) m
    = Ok m'.
Proof.
  intros Hq He Hr. destruct (inflight_mapped _ _ _ _ _ _ Hq He) as (Hm & _ & _ & Hl).
  unfold copy_data_from_ubbdreq. pose proof (rqo_data _ _ (io_rq _ _ _ _ He) (or_introl Hr)) as Hne.
  destruct (rq_bio (e_rq e)) as [|b bio] eqn:Eb; [done|].
  apply (copy_from_segs_ok _ _ _ 0 m _ Hm). rewrite Hl. unfold n_segs, data_segs.
  by rewrite Hr, Eb.
Qed.

(** One matched completion. *)
Definition stop_if (q : ubbd_queue) (l' : list Z) : Z :=
  if (q_status q =? UBBD_QUEUE_KSTATUS_STOPPING) && bool_decide (l' = [])
  then UBBD_QUEUE_KSTATUS_STOPPED else q_status q.

Lemma fetch_spec q w tid :
  (forall t, t ∈ q_inflight q -> is_Some (w_reqs w !! t)) ->
  fetch_inflight_req q w tid =
    match find (fun p => p.2 =? tid) (view w (q_inflight q)) with
    | None => (None, q)
    | Some p =>
        let l' := list_del p.1 (q_inflight q) in
        (Some p.1, set_q_status (stop_if q l') (set_q_inflight l' q))
    end.
Proof.
  intros Hs. unfold fetch_inflight_req, stop_if. rewrite find_inflight_view by done.
  destruct (find _ _) as [p|]; simpl; [|done]. by destruct (_ && _).
Qed.

(** What a run of the completion loop over the entries [cs] does. *)
Record completion_run (q : ubbd_queue) (w : world) (cs : list ubbd_ce) (F : gset Z)
    (q' : ubbd_queue) (w' : world) : Prop := {
  cr_inv : exists es', queue_inv q' w' es' F (q_inflight q');
  cr_compr : compr_wf (q_ring q') [];
  cr_view : view w' (q_inflight q') = (abs_complete (view w (q_inflight q)) cs).1;
  cr_blk : w_blk w' = w_blk w ++
    map (fun p => BLK_END p.1 (errno_to_blk_status p.2))
      (abs_complete (view w (q_inflight q)) cs).2;
  cr_status : q_status q' =
    if bool_decide ((abs_complete (view w (q_inflight q)) cs).2 = []) then q_status q
    else stop_if q (q_inflight q');
  cr_account : accounted q w (q_inflight q) -> accounted q' w' (q_inflight q');
}.

Lemma stop_if_eq q l : stop_if q l = q_status q \/ stop_if q l = UBBD_QUEUE_KSTATUS_STOPPED.
Proof. unfold stop_if. destruct (_ && _); auto. Qed.

Lemma accounted_completed q w l tag e ret q' w' :
  accounted q w l -> w_reqs w !! tag = Some e -> completed q w tag e ret q' w' ->
  accounted q' w' (list_del tag l).
Proof.
  intros Ha He [_ _ _ _ _ Er Ep _] i Hi. rewrite Ep in Hi.
  apply elem_of_difference in Hi as [Hi Hn]. rewrite elem_of_list_to_set in Hn.
  destruct (Ha i Hi) as (t & e0 & Hin & He0 & Hpi).
  destruct (decide (t = tag)) as [->|Hne]; [by simplify_eq|].
  exists t, e0. rewrite elem_of_list_del, Er, lookup_insert_ne by done. done.
Qed.

Lemma abs_complete_none v cs : (abs_complete v cs).2 = [] -> (abs_complete v cs).1 = v.
Proof.
  induction cs as [|c cs IH]; [done|]. simpl. destruct (find _ _) as [p|]; [|done].
  destruct (abs_complete (filter _ v) cs). simpl. congruence.
Qed.

Lemma abs_complete_nil cs : abs_complete [] cs = ([], []).
Proof. by induction cs. Qed.

Lemma view_nil w l : view w l = [] <-> l = [].
Proof. by destruct l. Qed.

(** Stopping at each match or at the end is the same. *)
Lemma stop_if_run q q4 w4 w' l' lf cs :
  q_status q4 = stop_if q l' -> view w' lf = (abs_complete (view w4 l') cs).1 ->
  (if bool_decide ((abs_complete (view w4 l') cs).2 = []) then q_status q4 else stop_if q4 lf)
  = stop_if q lf.
Proof.
  intros Hs Hv. case_bool_decide as Hn.
  - rewrite abs_complete_none in Hv by done. rewrite Hs. unfold stop_if.
    rewrite (bool_decide_ext (l' = []) (lf = [])); [done|].
    by rewrite <- (view_nil w' lf), <- (view_nil w4 l'), Hv.
  - assert (l' <> []) as Hl by (intros ->; by rewrite abs_complete_nil in Hn).
    unfold stop_if in *. rewrite (bool_decide_eq_false_2 _ Hl), andb_false_r in Hs. by rewrite Hs.
Qed.

(** The copy made for a completed request. *)
Definition read_back (q : ubbd_queue) (e : rq_entry) (m : memory) : outcome memory :=
  if bool_decide (rq_op (e_rq e) = REQ_OP_READ) then
    copy_data_from_ubbdreq (data_pages_array (q_pool q)) (e_pdu e) (rq_bio (e_rq e)) m
  else Ok m.

(** The queue once the entry is consumed and the request fetched. *)
Definition fetched (q : ubbd_queue) (tag : Z) : ubbd_queue :=
  let q1 := set_q_ring (UPDATE_COMPR_TAIL u64 sizeof_ubbd_ce (q_ring q)) q in
  let l' := list_del tag (q_inflight q) in
  set_q_status (stop_if q1 l') (set_q_inflight l' q1).

(** One round of the loop on an entry that matches request [tag]. *)
Lemma complete_again_match fuel q w es F c cs p :
  queue_inv q w es F (q_inflight q) -> compr_wf (q_ring q) (c :: cs) ->
  find (fun p => p.2 =? ce_priv_data c) (view w (q_inflight q)) = Some p ->
  exists e m q' w' es',
    w_reqs w !! p.1 = Some e /\ inflight_ok q es F e /\ read_back q e (w_mem w) = Ok m /\
    complete_again (S fuel) q w = complete_again fuel q' w' /\
    completed (fetched q p.1) (set_w_mem m w) p.1 e (ce_result c) q' w' /\
    queue_inv q' w' es' F (list_del p.1 (q_inflight q)) /\ compr_wf (q_ring q') cs.
Proof.
  intros Hq Hc Ef. cbn [complete_again].
  destruct (get_complete_entry_spec _ _ Hc) as [-> Hce].
  set (q1 := set_q_ring _ q). change (ces (q_ring q1)) with (ces (q_ring q)). rewrite Hce.
  cbn [deref obind].
  assert (forall t, t ∈ q_inflight q -> is_Some (w_reqs w !! t)) as Hs
    by (intros t Ht; destruct (qi_live _ _ _ _ _ Hq t Ht) as (? & -> & _); eauto).
  rewrite fetch_spec by done. change (q_inflight q1) with (q_inflight q). rewrite Ef.
  destruct (find_view_in _ _ _ _ Ef) as [Hin _].
  destruct (qi_live _ _ _ _ _ Hq _ Hin) as (e & He & Hok). cbv zeta.
  set (l' := list_del p.1 (q_inflight q)). set (q2 := set_q_status (stop_if q1 l') _).
  change (set_q_status _ _) with (fetched q p.1) in q2.
  cbv beta iota. rewrite He. cbn [deref obind].
  assert (exists m, read_back q e (w_mem w) = Ok m) as [m Em].
  { unfold read_back. case_bool_decide as Hr; [|eauto]. by eapply read_copy_ok. }
  change (if bool_decide (rq_op (e_rq e) = REQ_OP_READ) then _ else _)
    with (read_back q e (w_mem w)). rewrite Em. cbn [obind].
  assert (ring_wf (q_ring q1) es) as Hr1 by (apply ring_wf_compr_tail, (qi_ring _ _ _ _ _ Hq)).
  assert (queue_inv q2 (set_w_mem m w) es F (q_inflight q)) as Hq3 by (by eapply queue_inv_same).
  assert (compr_wf (q_ring q2) cs) as Hc1
    by (apply (compr_pop _ _ _ _ Hc sizeof_ce_le); intros; apply u64_small; lia).
  destruct (complete_spec q2 (set_w_mem m w) es F _ p.1 e (ce_result c) Hq3 Hin He)
    as (q4 & w4 & se & E4 & Hse & Hq4 & Hcp). rewrite E4. cbn [obind].
  exists e, m, q4, w4. eexists. split_and!; try done.
  apply (same_compr_wf _ _ _ (cp_compr _ _ _ _ _ _ _ Hcp) Hc1).
Qed.

(** An entry that matches nothing is skipped. *)
Lemma complete_again_skip fuel q w es F c cs :
  queue_inv q w es F (q_inflight q) -> compr_wf (q_ring q) (c :: cs) ->
  find (fun p => p.2 =? ce_priv_data c) (view w (q_inflight q)) = None ->
  let q' := set_q_ring (UPDATE_COMPR_TAIL u64 sizeof_ubbd_ce (q_ring q)) q in
  complete_again (S fuel) q w = complete_again fuel q' w /\
  queue_inv q' w es F (q_inflight q') /\ compr_wf (q_ring q') cs.
Proof.
  intros Hq Hc Ef. cbv zeta. cbn [complete_again].
  destruct (get_complete_entry_spec _ _ Hc) as [-> Hce].
  set (q1 := set_q_ring _ q). change (ces (q_ring q1)) with (ces (q_ring q)). rewrite Hce.
  cbn [deref obind]. rewrite fetch_spec.
  - change (q_inflight q1) with (q_inflight q). rewrite Ef. split_and!; [done| |].
    + eapply queue_inv_same; try done. apply ring_wf_compr_tail, (qi_ring _ _ _ _ _ Hq).
    + apply (compr_pop _ _ _ _ Hc sizeof_ce_le). intros; apply u64_small; lia.
  - intros t Ht. destruct (qi_live _ _ _ _ _ Hq t Ht) as (? & -> & _); eauto.
Qed.

Lemma complete_again_spec F cs : forall fuel q w es,
  queue_inv q w es F (q_inflight q) -> compr_wf (q_ring q) cs -> (length cs < fuel)%nat ->
  exists q' w', complete_again fuel q w = Ok (q', w') /\ completion_run q w cs F q' w'.
Proof.
  induction cs as [|c cs IH]; intros fuel q w es Hq Hc Hf;
    (destruct fuel as [|fuel]; [simpl in Hf; lia|]); simpl in Hf.
  { cbn [complete_again]. destruct (get_complete_entry_spec _ _ Hc) as [-> Hce].
    exists q, w. split; [done|]. split; simpl; eauto. by rewrite app_nil_r. }
  destruct (find (fun p => p.2 =? ce_priv_data c) (view w (q_inflight q))) as [p|] eqn:Ef.
  2: { destruct (complete_again_skip fuel q w es F c cs Hq Hc Ef) as (-> & Hq1 & Hc1).
    destruct (IH fuel _ w es Hq1 Hc1 ltac:(lia)) as (q' & w' & E & [R1 R2 R3 R4 R5 R6]).
    exists q', w'. split; [done|]. split; simpl; rewrite ?Ef; done. }
  destruct (complete_again_match fuel q w es F c cs p Hq Hc Ef)
    as (e & m & q4 & w4 & es4 & He & _ & _ & -> & Hcp & Hq4 & Hc4).
  pose proof Hcp as [Hi4 Hs4 Hb4 _ _ Hr4 _ _].
  change (q_inflight (fetched q p.1)) with (list_del p.1 (q_inflight q)) in Hi4.
  rewrite <- Hi4 in Hq4.
  destruct (IH fuel q4 w4 _ Hq4 Hc4 ltac:(lia)) as (q' & w' & E & [R1 R2 R3 R4 R5 R6]).
  exists q', w'. split; [done|].
  assert (view w4 (q_inflight q4) = filter (fun x => x.1 <> p.1) (view w (q_inflight q))) as Hv.
  { rewrite view_list_del, Hi4.
    by apply (view_insert w w4 p.1 e (mk_rq_entry (e_rq e) (e_q e) (set_pi PI_NULL (e_pdu e)))). }
  assert (q_status q4 = stop_if q (q_inflight q4)) as Hs4' by (by rewrite Hs4, Hi4).
  split; try done; simpl; rewrite ?Ef, <- ?Hv;
    pose proof (stop_if_run q q4 w4 w' (q_inflight q4) (q_inflight q') cs Hs4' R3) as Hrun;
    destruct (abs_complete (view w4 _) cs) as [v' ended]; simpl in *; try done.
  - rewrite R4, Hb4, <- app_assoc. done.
  - by rewrite R5.
  - intros Ha. apply R6. rewrite Hi4.
    by apply (accounted_completed (fetched q p.1) (set_w_mem m w) (q_inflight q) p.1 e (ce_result c)).
Qed.

(** *** Ending everything *)

Lemma queue_inv_list q w es F l l' :
  queue_inv q w es F l -> q_inflight (set_q_inflight l' q) = l' /\
  queue_inv (set_q_inflight l' q) w es F l.
Proof.
  intros Hq. split; [done|]. eapply queue_inv_same; try done. apply (qi_ring _ _ _ _ _ Hq).
Qed.

Lemma end_inflight_list_spec ret F tmp : forall q w es,
  queue_inv q w es F tmp ->
  exists q' w' es', end_inflight_list tmp q w ret = Ok (q', w') /\
    queue_inv q' w' es' F [] /\ q_inflight q' = q_inflight q /\ q_status q' = q_status q /\
    w_blk w' = w_blk w ++ map (fun t => BLK_END t (errno_to_blk_status ret)) tmp /\
    w_wq w' = w_wq w /\ w_mem w' = w_mem w /\
    (forall t, t ∉ tmp -> w_reqs w' !! t = w_reqs w !! t) /\
    (accounted q w tmp -> data_bitmap (q_pool q') = ∅).
Proof.
  induction tmp as [|t tmp IH]; intros q w es Hq; cbn [end_inflight_list].
  { exists q, w, es. rewrite app_nil_r. split_and!; try done.
    intros Ha. apply set_eq. intros i. rewrite elem_of_empty. split; [|done].
    intros Hi. destruct (Ha i Hi) as (t & _ & Hin & _). by rewrite elem_of_nil in Hin. }
  assert (t ∈ t :: tmp) as Hin by (apply elem_of_cons; by left).
  destruct (qi_live _ _ _ _ _ Hq t Hin) as (e & He & _).
  destruct (complete_spec q w es F _ t e ret Hq Hin He) as (q1 & w1 & se & E & _ & Hq1 & Hcp).
  rewrite E. cbn [obind].
  assert (list_del t (t :: tmp) = tmp) as Hl.
  { pose proof (qi_nodup _ _ _ _ _ Hq) as Hnd. apply NoDup_cons in Hnd as [Hnt _].
    unfold list_del. rewrite filter_cons_False by (intros ?; done).
    clear -Hnt. induction tmp as [|x tmp IH]; [done|].
    rewrite filter_cons_True by set_solver. f_equal. apply IH. set_solver. }
  pose proof Hcp as [Hi1 Hs1 Hb1 Hm1 Hw1 Hr1 Hp1 _]. rewrite Hl in Hq1.
  destruct (IH q1 w1 _ Hq1) as (q' & w' & es' & E' & Hq' & Hi' & Hs' & Hb' & Hwq' & Hm' & Hr' & Ha').
  exists q', w', es'. split_and!; try done; try congruence.
  - by rewrite Hb', Hb1, <- app_assoc.
  - intros t' Ht'. rewrite Hr', Hr1 by set_solver. rewrite lookup_insert_ne by set_solver. done.
  - intros Ha. apply Ha'. rewrite <- Hl. by apply (accounted_completed q w _ t e ret).
Qed.

(** *** Submission keeps every page accounted for, unless the ring is full *)

Lemma accounted_submitted q w l q' w' tag e u :
  accounted q w l -> tag ∉ l ->
  w_reqs w' = <[tag := mk_rq_entry (e_rq e) (e_q e) u]> (w_reqs w) ->
  grabbed (q_pool q) (q_pool q') (req_pis u) -> accounted q' w' (l ++ [tag]).
Proof.
  intros Ha Hni Er Hg i. rewrite (gr_bitmap _ _ _ Hg), elem_of_union, elem_of_list_to_set.
  intros [Hi|Hi].
  - destruct (Ha i Hi) as (t & e0 & Hin & He0 & Hpi). exists t, e0.
    rewrite Er, lookup_insert_ne by (intros ->; done). split_and!; try done.
    apply elem_of_app. by left.
  - exists tag, (mk_rq_entry (e_rq e) (e_q e) u). rewrite Er, lookup_insert_eq.
    split_and!; try done. apply elem_of_app. right. by apply list_elem_of_singleton.
Qed.

(** The data a read hands to the block layer. *)
Definition data_read (rq : request) (u : ubbd_request) (p : data_pool) (m m' : memory) : Prop :=
  forall j bv v pg o,
    data_segs rq !! j = Some bv -> req_pis u !! j = Some v ->
    data_pages_array p !! v = Some pg -> in_seg bv o -> m' (bv_page bv) o = m pg o.

Lemma read_copy_spec q w es F l e m :
  queue_inv q w es F l -> inflight_ok q es F e -> rq_op (e_rq e) = REQ_OP_READ ->
  segs_disjoint (data_segs (e_rq e)) ->
  exists m', copy_data_from_ubbdreq (data_pages_array (q_pool q)) (e_pdu e) (rq_bio (e_rq e)) m
    = Ok m' /\ data_read (e_rq e) (e_pdu e) (q_pool q) m m'.
Proof.
  intros Hq He Hr Hd. destruct (inflight_mapped _ _ _ _ _ _ Hq He) as (Hm & _ & HF & Hl).
  unfold copy_data_from_ubbdreq.
  pose proof (rqo_data _ _ (io_rq _ _ _ _ He) (or_introl Hr)) as Hne.
  pose proof (rqo_pages _ _ (io_rq _ _ _ _ He)) as Hpg.
  assert (data_segs (e_rq e) = concat (rq_bio (e_rq e))) as Eds by (unfold data_segs; by rewrite Hr).
  destruct (rq_bio (e_rq e)) as [|b bio] eqn:Eb; [done|]. rewrite <- Eds in *.
  destruct (copy_from_segs_spec _ _ (data_segs (e_rq e)) 0 m _ Hm) as (m' & E & _ & Hcp); try done.
  { rewrite Forall_forall in HF. eapply Forall_impl; [exact Hpg|].
    intros bv Hbv Hin. by apply (HF _ Hin). }
  exists m'. split; [exact E|]. intros j bv v pg o Hj Hv Ha Ho.
  apply (Hcp j bv pg o Hj); [|done]. unfold pages_of. rewrite list_lookup_fmap, Hv. simpl.
  by rewrite Ha.
Qed.
End lemmas.

(** ** The whole request path *)

Section path.
Context `{L : UbbdAbiLaws} `{KL : KernelApiLaws} `{ML : KernelMemLaws}.
Implicit Types (q : ubbd_queue) (w : world) (e : rq_entry).

(** Accepting a request leaves a queued work whose preconditions hold. *)
Lemma queue_rq_spec q w tag e es F l op :
  queue_inv q w es F l -> tag ∉ l -> q_status q = UBBD_QUEUE_KSTATUS_RUNNING ->
  w_reqs w !! tag = Some e -> op_of_req_op (rq_op (e_rq e)) = Some op ->
  exists w1, ubbd_queue_rq q w tag = Ok (BLK_STS_OK, w1) /\
    w_blk w1 = w_blk w ++ [BLK_START tag] /\ w_wq w1 = w_wq w ++ [tag] /\ w_mem w1 = w_mem w /\
    w_reqs w1 !! tag = Some (ubbd_req_init q op (e_rq e)) /\
    (forall t, t <> tag -> w_reqs w1 !! t = w_reqs w !! t) /\
    queue_inv q w1 es F l.
Proof.
  intros Hq Hni Hst He Hop. unfold ubbd_queue_rq. rewrite He. cbn [deref obind].
  rewrite Hst, Z.eqb_refl. cbn [negb andb]. rewrite Hop. eexists. split; [done|].
  simpl. rewrite lookup_insert_eq. split_and!; try done.
  - intros t Ht. by rewrite !lookup_insert_ne by done.
  - eapply queue_inv_frame; try done; try apply Hq; simpl.
    + pose proof (qi_tid _ _ _ _ _ Hq). lia.
    + intros t e0 Hin He0. rewrite !lookup_insert_ne by (intros ->; done).
      split_and!; [done|auto|by apply entries_kept_refl].
Qed.

Lemma abs_complete_partition cs : forall v, NoDup (v.*1) ->
  (abs_complete v cs).2.*1 ++ (abs_complete v cs).1.*1 ≡ₚ v.*1.
Proof.
  induction cs as [|c cs IH]; intros v Hnd; simpl; [done|].
  destruct (find _ v) as [p|] eqn:Ef; [|by apply IH].
  apply List.find_some in Ef as [Hin _]. apply list_elem_of_In in Hin.
  assert (p.1 :: (filter (fun x => x.1 <> p.1) v).*1 ≡ₚ v.*1) as Hp.
  { clear -Hnd Hin. induction v as [|x v IHv]; [by apply elem_of_nil in Hin|].
    simpl in Hnd. apply NoDup_cons in Hnd as [Hx Hnd].
    apply elem_of_cons in Hin as [->|Hin]; simpl.
    - rewrite filter_cons_False by auto. f_equiv.
      assert (filter (fun y => y.1 <> x.1) v = v) as ->; [|done].
      clear -Hx. induction v as [|y v IHv]; [done|]. simpl in Hx.
      apply not_elem_of_cons in Hx as [? ?].
      rewrite filter_cons_True by auto. f_equal. by apply IHv.
    - rewrite filter_cons_True.
      + simpl. rewrite <- (IHv Hnd Hin). apply Permutation_swap.
      + intros E. apply Hx. rewrite E. by apply list_elem_of_fmap_2. }
  destruct (abs_complete (filter _ v) cs) as [v' ended] eqn:E. simpl.
  rewrite <- Hp. f_equiv. specialize (IH (filter (fun x => x.1 <> p.1) v)).
  rewrite E in IH. apply IH. rewrite <- Hp in Hnd. by apply NoDup_cons in Hnd as [_ ?].
Qed.

Lemma view_fst w l : (view w l).*1 = l.
Proof. induction l as [|t l IH]; [done|]. change (t :: (view w l).*1 = t :: l). by rewrite IH. Qed.

(** The id of an inflight request finds that request. *)
Lemma find_by_tid q w es F l tag e :
  queue_inv q w es F l -> tag ∈ l -> w_reqs w !! tag = Some e ->
  find (fun p => p.2 =? ur_req_tid (e_pdu e)) (view w l) = Some (tag, ur_req_tid (e_pdu e)).
Proof.
  intros Hq Hin He. destruct (find _ _) as [[t n]|] eqn:Ef.
  - destruct (find_view_in _ _ _ _ Ef) as [Hint Hn]. simpl in *. apply Z.eqb_eq in Hn as ->.
    destruct (decide (t = tag)) as [->|Hne]; [done|]. exfalso.
    apply List.find_some in Ef as [Ev _]. apply list_elem_of_In, list_elem_of_fmap in Ev
      as (t' & [= <- Et] & _). unfold tid_of in Et.
    destruct (qi_live _ _ _ _ _ Hq t Hint) as (e0 & He0 & _). rewrite He0 in Et.
    by apply (ap_tid _ _ (qi_apart _ _ _ _ _ Hq t tag e0 e Hint Hin Hne He0 He)).
  - exfalso. pose proof (List.find_none _ _ Ef (tag, tid_of w tag)) as Hx. simpl in Hx.
    unfold tid_of in Hx. rewrite He, Z.eqb_refl in Hx. enough (true = false) by done.
    apply Hx.
    apply list_elem_of_In, list_elem_of_fmap. exists tag. split; [|done].
    unfold tid_of. by rewrite He.
Qed.
End path.
