(* ===== verification/PoolProps.v ===== *)
(** * Properties of the data-page pool

    The theorems about the page half of [src/src/ubbd_req.c], each with a
    witness on a pool of four pages. *)

From S2P Require Import Prelude Abi Ring Pages Request.

Section properties.
Context `{L : UbbdAbiLaws} `{KL : KernelApiLaws} `{ML : KernelMemLaws}.


(** [ubbd_release_page] frees the page only above the reserve.  The index
    becomes free; the page is unmapped from the backend and returned to the
    kernel exactly when more pages are allocated than reserved, and is kept
    for the next request otherwise, so a release never brings the number of
    allocated pages below the reserve. *)
Theorem release_page_keeps_reserve (p : data_pool) (km : kmem) (F : gset Z)
    (req : ubbd_request) (n i : nat) (v pg : Z) :
  pool_inv p km ∅ F -> req_wf req n -> (i < n)%nat -> pi_slots req !! i = Some v ->
  0 <= v < 2 ^ 31 -> Z.of_nat i < 2 ^ 32 -> is_Some (q_inode p) ->
  data_pages_array p !! v = Some pg ->
  exists p' km', ubbd_release_page p km req (Z.of_nat i) = Ok (p', km') /\
    pool_inv p' km' ∅ F /\ data_bitmap p' = data_bitmap p ∖ {[v]} /\
    data_pages_allocated p' =
      (if data_pages_reserved p <? data_pages_allocated p
       then data_pages_allocated p - 1 else data_pages_allocated p) /\
    (data_pages_reserved p <= data_pages_allocated p ->
     data_pages_reserved p <= data_pages_allocated p').
Proof.
  intros Hi Hw Hn Hv Hr Hi32 Hino Hpg.
  destruct (release_page_spec p km ∅ F req n i v Hi ltac:(done) Hw Hn Hv Hr Hino Hi32)
    as (p' & km' & E & Hb & Hi' & _ & _ & Ha).
  exists p', km'. rewrite Hpg, bool_decide_eq_true_2, andb_true_r in Ha by eauto.
  split_and!; try done. rewrite Ha. zcase; lia.
Qed.

(** Data written through the shared pages comes back: copying the
    segments of a write into the data pages of a request and then from the
    same pages into the segments of a read of the same shape (other pages,
    same offsets and lengths) puts every byte of the first buffer at the same
    place of the second. *)
Theorem write_read_roundtrip (array : gmap Z Z) (req : ubbd_request) (m : memory)
    (pgs : list Z) (wsegs rsegs : list bio_vec) :
  mapped array req 0 pgs -> NoDup pgs ->
  length pgs = length wsegs -> length pgs = length rsegs ->
  Forall (fun bv => bv_page bv ∉ pgs) wsegs -> Forall (fun bv => bv_page bv ∉ pgs) rsegs ->
  segs_disjoint rsegs -> wsegs <> [] ->
  Forall2 (fun a b => bv_offset a = bv_offset b /\ bv_len a = bv_len b) wsegs rsegs ->
  exists m1 m2, copy_data_to_ubbdreq array req [wsegs] m = Ok m1 /\
    copy_data_from_ubbdreq array req [rsegs] m1 = Ok m2 /\
    forall j a b o, wsegs !! j = Some a -> rsegs !! j = Some b -> in_seg a o ->
      m2 (bv_page b) o = m (bv_page a) o.
Proof.
  intros Hm Hnd Hl1 Hl2 Hw Hr Hd Hne Hsh. unfold copy_data_to_ubbdreq, copy_data_from_ubbdreq.
  cbn [concat]. rewrite !app_nil_r.
  destruct (copy_to_segs_spec array req wsegs 0 m pgs Hm Hl1 Hnd Hw) as (m1 & E1 & _ & H1).
  destruct (copy_from_segs_spec array req rsegs 0 m1 pgs Hm Hl2 Hr Hd) as (m2 & E2 & _ & H2).
  exists m1, m2. split_and!; [exact E1|exact E2|].
  intros j a b o Ha Hb Ho.
  destruct (lookup_lt_is_Some_2 pgs j) as [pg Hpg].
  { rewrite Hl1. by eapply lookup_lt_Some. }
  destruct (Forall2_lookup_lr _ _ _ _ _ _ Hsh Ha Hb) as [Eo El].
  rewrite (H2 j b pg o Hb Hpg), (H1 j a pg o Ha Hpg); [done|done|].
  unfold in_seg in *. lia.
Qed.

(** The size of a command is exact and aligned.  For any request the
    block layer can build (at most [USHRT_MAX] segments) the 32-bit sum does
    not wrap, the result is a positive multiple of the alignment, holds the
    entry and all its iovecs, and wastes less than one alignment unit. *)
Theorem get_cmd_size_exact (u : ubbd_request) :
  0 <= ur_pi_cnt u < 2 ^ 16 ->
  (UBBD_OP_ALIGN_SIZE | ubbd_get_cmd_size u) /\
  sizeof_ubbd_se + sizeof_iovec * ur_pi_cnt u <= ubbd_get_cmd_size u <
    sizeof_ubbd_se + sizeof_iovec * ur_pi_cnt u + UBBD_OP_ALIGN_SIZE.
Proof.
  intros Hc. split; [by apply get_cmd_size_bound|]. unfold ubbd_get_cmd_size.
  pose proof sizeof_se_bound. pose proof sizeof_iovec_bound. pose proof op_align_bound as Hal.
  destruct op_align_pow2 as (k & Hk & E).
  assert (0 <= sizeof_iovec * ur_pi_cnt u <= 16 * 2 ^ 16) by nia.
  rewrite u32_small by lia. rewrite E in *. apply round_up_spec; lia.
Qed.
(** A page is taken from a backend that never came: on a queue whose kring
    device has not been opened yet, releasing a page while the pool is above its
    reserve dereferences the NULL inode. *)
Theorem release_without_backend_faults (p : data_pool) (km : kmem) (req : ubbd_request) (k v pg : Z) :
  ubbd_req_get_pi req (u32 k) = Ok v -> data_pages_array p !! s32 v = Some pg ->
  data_pages_reserved p < data_pages_allocated p -> q_inode p = None ->
  ubbd_release_page p km req k = Fault NULL_DEREF.
Proof.
  intros Ek Ev Hr Hn. unfold ubbd_release_page. rewrite Ek. cbn [obind].
  assert (forall X (a b : outcome X),
    (if data_pages_reserved (set_bitmap (data_bitmap p ∖ {[s32 v]}) p) <?
        data_pages_allocated (set_bitmap (data_bitmap p ∖ {[s32 v]}) p) then a else b) = a) as ->.
  { intros X a b. simpl. by rewrite (proj2 (Z.ltb_lt _ _) Hr). }
  change (data_pages_array (set_bitmap _ p)) with (data_pages_array p). rewrite Ev.
  unfold ubbd_kring_unmap_range. simpl. by rewrite Hn.
Qed.

End properties.

(** ** Witnesses *)

(** Page 3 of the kernel at index 2; three of the four pages may be used. *)
Definition demo_pool1 : data_pool := mk_pool {[2]} {[2 := 3]} 4 1 0 16384 (Some 1) [].
Definition demo_km : @kmem demo_mem := ({[3; 900; 901]}, []).
Definition demo_foreign1 : gset Z := {[900; 901]}.
Definition demo_req : ubbd_request := mk_ubbd_request UBBD_OP_WRITE 1 1 [2; 0; 0; 0] PI_NULL None.

Lemma demo_pool1_inv s : pool_inv (M := demo_mem) demo_pool1 ({[3; 900; 901]}, s) ∅ demo_foreign1.
Proof.
  split; simpl; try done.
  - intros i. rewrite elem_of_singleton. intros ->. by exists 3.
  - intros i pg. rewrite lookup_singleton_Some. intros [<- <-]. lia.
  - intros i pg. rewrite lookup_singleton_Some. intros [<- <-]. by vm_compute.
  - intros i j pg. rewrite !lookup_singleton_Some. intros [<- _] [<- _]. done.
  - split; [|done]. intros x. unfold demo_foreign1. set_solver.
Qed.

Lemma demo_req_wf : req_wf demo_req 4.
Proof. by split_and!. Qed.


Lemma release_page_keeps_reserve_witness :
  exists p' km', ubbd_release_page (M := demo_mem) demo_pool1 demo_km demo_req 0 = Ok (p', km') /\
    data_pages_allocated p' = 0.
Proof.
  destruct (release_page_keeps_reserve demo_pool1 demo_km demo_foreign1 demo_req 4 0 2 3
    (demo_pool1_inv _) demo_req_wf ltac:(lia) eq_refl ltac:(lia) ltac:(lia) ltac:(by exists 1)
    eq_refl) as (p' & km' & E & _ & _ & Ha & _).
  exists p', km'. split; [exact E|exact Ha].
Defined.

Lemma write_read_roundtrip_witness :
  exists m1 m2,
    copy_data_to_ubbdreq {[2 := 3]} demo_req [[mk_bio_vec 900 512 1024]] (fun p o => p + o) = Ok m1 /\
    copy_data_from_ubbdreq {[2 := 3]} demo_req [[mk_bio_vec 901 512 1024]] m1 = Ok m2 /\
    m2 901 600 = 1500.
Proof.
  destruct (write_read_roundtrip {[2 := 3]} demo_req (fun p o => p + o) [3]
    [mk_bio_vec 900 512 1024] [mk_bio_vec 901 512 1024]) as (m1 & m2 & E1 & E2 & H).
  - intros [|j] pg; simpl; [intros [= <-]; by exists 2|rewrite lookup_nil; done].
  - apply NoDup_singleton.
  - reflexivity.
  - reflexivity.
  - repeat constructor. simpl. rewrite list_elem_of_singleton. lia.
  - repeat constructor. simpl. rewrite list_elem_of_singleton. lia.
  - intros [|i] [|j] b1 b2 o Hi Hj Hne _ _ _; simpl in *; rewrite ?lookup_nil in *; done.
  - done.
  - repeat constructor.
  - exists m1, m2. split; [exact E1|]. split; [exact E2|].
    refine (eq_trans (H 0%nat (mk_bio_vec 900 512 1024) (mk_bio_vec 901 512 1024) 600
      eq_refl eq_refl _) eq_refl).
    unfold in_seg. simpl. lia.
Defined.

Lemma get_cmd_size_exact_witness :
  (UBBD_OP_ALIGN_SIZE | ubbd_get_cmd_size demo_req) /\
  sizeof_ubbd_se + sizeof_iovec * 1 <= ubbd_get_cmd_size demo_req.
Proof.
  destruct (get_cmd_size_exact demo_req) as [H1 [H2 _]]; [simpl; lia|].
  split; [exact H1|exact H2].
Defined.
