(* ===== verification/QueueProps.v ===== *)
(** * Properties of the request path

    The theorems about [src/src/ubbd_req.c] above the rings and the page pool,
    each with a witness on a concrete queue. *)

From S2P Require Import Prelude Abi Ring Pages Request Queue.

Section properties.
Context `{L : UbbdAbiLaws} `{KL : KernelApiLaws} `{ML : KernelMemLaws}.


(** C15: [ubbd_queue_complete] refines its contract.  On a queue that is not
    being removed, with any completion entries [cs] from the backend (unknown
    ids, duplicates and any order included), the loop returns after at most
    one round per entry; it ends exactly the inflight requests the entries
    name, in the order of the entries and with their results, consumes every
    entry, moves a stopping queue to stopped exactly when the last inflight
    request leaves, and keeps the invariant and every page accounted for. *)
Theorem completion_refines (q : ubbd_queue) (w : world) (es : list entry) (F : gset Z)
    (cs : list ubbd_ce) (fuel : nat) :
  queue_inv q w es F (q_inflight q) -> compr_wf (q_ring q) cs -> (length cs < fuel)%nat ->
  q_status q <> UBBD_QUEUE_KSTATUS_REMOVING ->
  exists q' w', ubbd_queue_complete fuel q w = Ok (q', w') /\ completion_run q w cs F q' w'.
Proof.
  intros Hq Hc Hf Hs. unfold ubbd_queue_complete. apply Z.eqb_neq in Hs. rewrite Hs.
  by apply (complete_again_spec F cs fuel q w es).
Qed.

(** No request is ended twice or lost by the completion work: the
    requests it ends and the requests still inflight partition the requests
    that were inflight. *)
Theorem completion_ends_once (q : ubbd_queue) (w : world) (es : list entry) (F : gset Z)
    (cs : list ubbd_ce) (fuel : nat) :
  queue_inv q w es F (q_inflight q) -> compr_wf (q_ring q) cs -> (length cs < fuel)%nat ->
  q_status q <> UBBD_QUEUE_KSTATUS_REMOVING ->
  exists q' w' ended, complete_work_fn fuel q w = Ok (q', w') /\
    w_blk w' = w_blk w ++ map (fun p => BLK_END p.1 (errno_to_blk_status p.2)) ended /\
    ended.*1 ++ q_inflight q' ≡ₚ q_inflight q /\ NoDup (ended.*1).
Proof.
  intros Hq Hc Hf Hs. unfold complete_work_fn. apply Z.eqb_neq in Hs. rewrite Hs.
  destruct (complete_again_spec F cs fuel q w es Hq Hc Hf) as (q' & w' & E & [_ _ Hv Hb _ _]).
  exists q', w', (abs_complete (view w (q_inflight q)) cs).2. split_and!; [done|done| |].
  - pose proof (abs_complete_partition cs (view w (q_inflight q))) as Hp.
    rewrite view_fst in Hp. specialize (Hp (qi_nodup _ _ _ _ _ Hq)).
    by rewrite <- Hv, view_fst in Hp.
  - pose proof (abs_complete_partition cs (view w (q_inflight q))) as Hp.
    rewrite view_fst in Hp. specialize (Hp (qi_nodup _ _ _ _ _ Hq)).
    pose proof (qi_nodup _ _ _ _ _ Hq) as Hnd. rewrite <- Hp in Hnd.
    by apply NoDup_app in Hnd as [? _].
Qed.

(** C24: completing a read delivers the data: when the oldest completion entry
    names an inflight read, one round of the loop leaves, in every byte of
    every segment of the request's bios, the byte the backend put in the data
    page of that segment, and ends the request with the entry's result. *)
Theorem read_delivered (q : ubbd_queue) (w : world) (es : list entry) (F : gset Z)
    (c : ubbd_ce) (tag : Z) (e : rq_entry) (fuel : nat) :
  queue_inv q w es F (q_inflight q) -> compr_wf (q_ring q) [c] ->
  tag ∈ q_inflight q -> w_reqs w !! tag = Some e -> ur_req_tid (e_pdu e) = ce_priv_data c ->
  rq_op (e_rq e) = REQ_OP_READ -> segs_disjoint (data_segs (e_rq e)) ->
  exists q' w', complete_again (S (S fuel)) q w = Ok (q', w') /\
    data_read (e_rq e) (e_pdu e) (q_pool q) (w_mem w) (w_mem w') /\
    w_blk w' = w_blk w ++ [BLK_END tag (errno_to_blk_status (ce_result c))].
Proof.
  intros Hq Hc Hin He Ht Hr Hd.
  pose proof (find_by_tid _ _ _ _ _ _ _ Hq Hin He) as Ef. rewrite Ht in Ef.
  destruct (complete_again_match (S fuel) q w es F c [] _ Hq Hc Ef)
    as (e0 & m & q' & w' & es' & He0 & Hok & Em & -> & Hcp & _ & Hc').
  simpl in *. simplify_eq. destruct (get_complete_entry_spec _ _ Hc') as [-> _].
  exists q', w'. split; [done|]. rewrite (cp_mem _ _ _ _ _ _ _ Hcp), (cp_blk _ _ _ _ _ _ _ Hcp).
  split; [|done]. unfold read_back in Em. rewrite bool_decide_eq_true_2 in Em by done.
  destruct (read_copy_spec q w es F _ e (w_mem w) Hq Hok Hr Hd) as (m' & Em' & Hdr).
  rewrite Em in Em'. injection Em' as ->. exact Hdr.
Qed.

(** [ubbd_queue_end_inflight_reqs] ends every inflight request, once, in
    submission order, with the given error; nothing stays inflight, and when
    every page in use belonged to one of them none is in use afterwards. *)
Theorem end_inflight_ends_all (q : ubbd_queue) (w : world) (es : list entry) (F : gset Z) (ret : Z) :
  queue_inv q w es F (q_inflight q) ->
  exists q' w' es', ubbd_queue_end_inflight_reqs q w ret = Ok (q', w') /\
    queue_inv q' w' es' F [] /\ q_inflight q' = [] /\
    w_blk w' = w_blk w ++ map (fun t => BLK_END t (errno_to_blk_status ret)) (q_inflight q) /\
    (accounted q w (q_inflight q) -> data_bitmap (q_pool q') = ∅).
Proof.
  intros Hq. unfold ubbd_queue_end_inflight_reqs.
  destruct (queue_inv_list q w es F _ [] Hq) as [Hi Hq'].
  destruct (end_inflight_list_spec ret F _ _ w es Hq')
    as (q' & w' & es' & E & ? & ? & _ & ? & _ & _ & _ & Ha).
  exists q', w', es'. by split_and!.
Qed.

(** The entry points refuse a queue that is not running.  While it is
    being removed [ubbd_queue_rq] fails the request and the work ends it with
    an I/O error; while it is stopping or stopped [ubbd_queue_rq] asks for a
    retry and the work requeues it.  No page is taken, nothing is written to
    the rings, and the completion loop touches nothing under removal. *)
Theorem not_running_refused (q : ubbd_queue) (w : world) (tag : Z) (e : rq_entry) (fuel : nat) :
  w_reqs w !! tag = Some e ->
  (q_status q = UBBD_QUEUE_KSTATUS_REMOVING ->
     ubbd_queue_rq q w tag = Ok (BLK_STS_IOERR, w) /\
     ubbd_queue_workfn q w tag =
       Ok (q, add_blk (BLK_END tag (errno_to_blk_status (- EIO))) w) /\
     ubbd_queue_complete fuel q w = Ok (q, w) /\ complete_work_fn fuel q w = Ok (q, w)) /\
  (q_status q = UBBD_QUEUE_KSTATUS_STOPPING \/ q_status q = UBBD_QUEUE_KSTATUS_STOPPED ->
     ubbd_queue_rq q w tag = Ok (BLK_STS_RESOURCE, w) /\
     ubbd_queue_workfn q w tag = Ok (q, add_blk (BLK_REQUEUE tag) w)).
Proof.
  intros He. pose proof queue_kstatus_distinct as Hd. destruct_and! Hd.
  assert (forall a b : Z, a <> b -> (b =? a) = false) as Hne by (intros a b ?; apply Z.eqb_neq; auto).
  unfold ubbd_queue_rq, ubbd_queue_workfn, status_errno, ubbd_queue_complete, complete_work_fn.
  rewrite He. split; [intros ->|intros [-> | ->]]; cbn [deref obind];
    rewrite ?Z.eqb_refl, ?Hne by done; rewrite ?orb_true_r; done.
Qed.

(** C30: a submission followed by its completion gives every page back: the
    set of indices in use is the one before the submission. *)
Theorem submit_complete_restores_pages (q : ubbd_queue) (w : world) (tag : Z) (e : rq_entry)
    (es : list entry) (F : gset Z) (op : ubbd_op) (ret : Z) (q' : ubbd_queue) (w' : world) :
  queue_inv q w es F (q_inflight q) -> tag ∉ q_inflight q ->
  q_status q = UBBD_QUEUE_KSTATUS_RUNNING -> q_req_tid q + 1 < 2 ^ 64 ->
  w_reqs w !! tag = Some e -> op_of_req_op (rq_op (e_rq e)) = Some op ->
  e_pdu e = zeroed_ubbd_request op -> rq_ok (e_rq e) F ->
  ubbd_queue_workfn q w tag = Ok (q', w') -> tag ∈ q_inflight q' ->
  exists q2 w2, complete_inflight_req q' w' tag ret = Ok (q2, w2) /\
    data_bitmap (q_pool q2) = data_bitmap (q_pool q) /\
    w_blk w2 = w_blk w ++ [BLK_END tag (errno_to_blk_status ret)].
Proof.
  intros Hq Hni Hst Htid He Hop Hpdu Hok E Hin.
  destruct (workfn_spec q w tag e es F _ op Hq ltac:(done) Hni Hst Htid He Hop Hpdu Hok)
    as (q1 & w1 & E1 & Hres). rewrite E in E1. injection E1 as <- <-.
  destruct Hres as [u se pads Hi Hb _ Hr _ _ _ Hq' _ Hg _|? ? ? Hi|? ? ? Hi];
    [|by rewrite Hi in Hin|by rewrite Hi in Hin].
  destruct (complete_spec q' w' _ F _ tag (mk_rq_entry (e_rq e) (e_q e) u) ret Hq')
    as (q2 & w2 & ? & E2 & _ & _ & Hcp).
  { apply elem_of_app. right. by apply list_elem_of_singleton. }
  { rewrite Hr. apply lookup_insert_eq. }
  exists q2, w2. rewrite (cp_blk _ _ _ _ _ _ _ Hcp), Hb. split_and!; [done| |done].
  rewrite (cp_pages _ _ _ _ _ _ _ Hcp), (gr_bitmap _ _ _ Hg). simpl.
  pose proof (gr_fresh _ _ _ Hg) as Hf. rewrite Forall_forall in Hf.
  apply set_eq. intros i. rewrite elem_of_difference, elem_of_union, elem_of_list_to_set.
  split; [intros [[|] ?]; done|]. intros Hi0. split; [by left|]. intros Hp. by destruct (Hf i Hp).
Qed.

(** C31: the only way the submission work loses data pages is a full command
    ring.  If every index in use belongs to an inflight request, it still does
    after the work, except when [submit_ring_space_enough] finds no room for
    the command of the request, whose size its segments determine: then the
    request is requeued without releasing what it was given, one index per
    segment, and those indices are in use but belong to no inflight request. *)
Theorem pages_lost_only_on_full_ring (q : ubbd_queue) (w : world) (tag : Z) (e : rq_entry)
    (es : list entry) (F : gset Z) (op : ubbd_op) :
  queue_inv q w es F (q_inflight q) -> tag ∉ q_inflight q ->
  q_status q = UBBD_QUEUE_KSTATUS_RUNNING -> q_req_tid q + 1 < 2 ^ 64 ->
  w_reqs w !! tag = Some e -> op_of_req_op (rq_op (e_rq e)) = Some op ->
  e_pdu e = zeroed_ubbd_request op -> rq_ok (e_rq e) F ->
  accounted q w (q_inflight q) ->
  exists q' w', ubbd_queue_workfn q w tag = Ok (q', w') /\
    (accounted q' w' (q_inflight q') \/
     submit_ring_space_enough (q_ring q)
       (ubbd_get_cmd_size (set_pi_cnt (Z.of_nat (n_segs (e_rq e))) (e_pdu e))) = false /\
     w_blk w' = w_blk w ++ [BLK_REQUEUE tag] /\
     exists lost, NoDup lost /\ length lost = n_segs (e_rq e) /\ q_inflight q' = q_inflight q /\
       (forall i, i ∈ lost -> i ∈ data_bitmap (q_pool q')) /\
       (forall i t e', i ∈ lost -> t ∈ q_inflight q' -> w_reqs w' !! t = Some e' ->
          i ∉ req_pis (e_pdu e'))).
Proof.
  intros Hq Hni Hst Htid He Hop Hpdu Hok Ha.
  destruct (workfn_spec q w tag e es F _ op Hq ltac:(done) Hni Hst Htid He Hop Hpdu Hok)
    as (q' & w' & E & Hres). exists q', w'. split; [done|].
  destruct Hres as [u se pads Hi _ _ Hr _ _ _ _ _ Hg _|ret u _ Hi _ _ Hb Hr _ _|u Hfull Hcnt Hi _ _ Hg Hl Hr Hblk _].
  - left. rewrite Hi. by eapply accounted_submitted.
  - left. intros i. rewrite Hb, Hi. intros Hin. destruct (Ha i Hin) as (t & e0 & Ht & He0 & Hp).
    exists t, e0. rewrite Hr, lookup_insert_ne by (intros ->; done). done.
  - right. split; [by rewrite (get_cmd_size_cnt u) by (simpl; congruence)|]. split; [done|].
    exists (req_pis u). destruct Hg as [Hnd Hf Hbm]. rewrite Forall_forall in Hf.
    split_and!; try done.
    + intros i Hin. rewrite Hbm, elem_of_union, elem_of_list_to_set. by right.
    + intros i t e' Hin Ht He' Hp. rewrite Hi in Ht.
      rewrite Hr, lookup_insert_ne in He' by (intros ->; done).
      destruct (qi_live _ _ _ _ _ Hq t Ht) as (e0 & He0 & Hio). simplify_eq.
      pose proof (io_bits _ _ _ _ Hio) as Hbits. rewrite Forall_forall in Hbits.
      by apply (proj1 (Hf i Hin)), Hbits.
Qed.
End properties.

(** ** Witnesses

    A fresh queue of four data pages (three reserved) over the 512-byte demo
    ring, with page 900 of the block layer. *)

Definition demo_pool : data_pool := mk_pool ∅ ∅ 4 0 3 16384 (Some 1) [].

Definition demo_empty_ring : ring := mk_ring demo_abi (mk_sb 0 0 0 0 0 512 0 0 0 128 0 0) ∅ ∅ ∅.

Definition demo_queue (status : Z) : ubbd_queue :=
  mk_queue demo_abi 0 [] 0 demo_pool demo_empty_ring 0 true status [] 0 0.

Definition demo_rq (op : req_op) : request :=
  mk_request op [[mk_bio_vec 900 512 1024]] 8 1024 30.

Definition demo_foreign : gset Z := {[900]}.

Definition demo_world (op : req_op) (u : ubbd_request) : world :=
  mk_world demo_kernel demo_mem {[7 := mk_rq_entry (demo_rq op) None u]} [] []
    (demo_foreign, []) (fun p o => p + o).

Definition demo_entry (op : req_op) (u : ubbd_request) : rq_entry :=
  mk_rq_entry (demo_rq op) None u.

Definition demo_read : rq_entry := demo_entry REQ_OP_READ (zeroed_ubbd_request UBBD_OP_READ).
Definition demo_read_world : world :=
  demo_world REQ_OP_READ (zeroed_ubbd_request UBBD_OP_READ).

Lemma demo_pool_inv : pool_inv (M := demo_mem) demo_pool (demo_foreign, []) ∅ demo_foreign.
Proof.
  by split.
Qed.

Lemma demo_queue_inv st op u : queue_inv (demo_queue st) (demo_world op u) [] demo_foreign [].
Proof.
  split; [apply demo_pool_inv|done| |simpl; lia| | |].
  - split; simpl; try done; [by exists 0|constructor].
  - constructor.
  - intros t. by rewrite elem_of_nil.
  - intros t1 t2 e1 e2. by rewrite elem_of_nil.
Qed.

Lemma demo_rq_ok op : rq_ok (demo_rq op) demo_foreign.
Proof. split; simpl; [lia|done|]. by repeat constructor. Qed.


(** The queue and the world after the work ran: one inflight read. *)
Definition demo_run : ubbd_queue * world :=
  match ubbd_queue_workfn (demo_queue 1) demo_read_world 7 with
  | Ok r => r
  | Fault _ => (demo_queue 1, demo_read_world)
  end.

Definition demo_queue1 : ubbd_queue := demo_run.1.
Definition demo_world1 : world := demo_run.2.

Lemma demo_run_eq : ubbd_queue_workfn (demo_queue 1) demo_read_world 7 = Ok (demo_queue1, demo_world1).
Proof. apply (ok_pair _ (demo_queue 1, demo_read_world)). vm_compute. reflexivity. Qed.

Lemma demo_queue1_inv :
  exists es, queue_inv demo_queue1 demo_world1 es demo_foreign (q_inflight demo_queue1).
Proof.
  destruct (workfn_spec (demo_queue 1) demo_read_world 7 demo_read [] demo_foreign [] UBBD_OP_READ
    (demo_queue_inv _ _ _) ltac:(done) ltac:(set_solver) eq_refl ltac:(simpl; lia) eq_refl eq_refl
    eq_refl (demo_rq_ok _)) as (q' & w' & E & Hres).
  rewrite demo_run_eq in E. apply ok_pair_inj in E as [<- <-].
  destruct Hres as [u se pads Hi _ _ _ _ _ _ Hq _ _ _|ret u _ Hi|u _ _ Hi].
  - eexists. rewrite Hi. exact Hq.
  - vm_compute in Hi. discriminate.
  - vm_compute in Hi. discriminate.
Qed.

(** The backend posts the completion of the read and one unknown id. *)
Definition demo_post (n : Z) (c : gmap Z ubbd_ce) (q : ubbd_queue) : ubbd_queue :=
  let r := q_ring q in
  let s := sb r in
  set_q_ring (mk_ring demo_abi
    (mk_sb (sb_magic s) (sb_version s) (sb_info_off s) (sb_info_size s) (sb_cmdr_off s)
       (cmdr_size s) (cmd_head s) (cmd_tail s) (sb_compr_off s) (compr_size s) n (compr_tail s))
    (hdrs r) (bodies r) c) q.

Definition demo_queue2 : ubbd_queue := demo_post 32 {[0 := mk_ce 99 0; 16 := mk_ce 1 0]} demo_queue1.
Definition demo_queue3 : ubbd_queue := demo_post 16 {[0 := mk_ce 1 0]} demo_queue1.

Lemma post_inv (q : ubbd_queue) w es F l n c :
  queue_inv q w es F l -> queue_inv (demo_post n c q) w es F l.
Proof. intros Hq. eapply queue_inv_same; try done. destruct (qi_ring _ _ _ _ _ Hq). by split. Qed.

Lemma demo_post_inv n c :
  exists es, queue_inv (demo_post n c demo_queue1) demo_world1 es demo_foreign (q_inflight demo_queue1).
Proof. destruct demo_queue1_inv as [es Hq]. exists es. exact (post_inv _ _ _ _ _ n c Hq). Qed.

Lemma demo_queue2_compr : compr_wf (q_ring demo_queue2) [mk_ce 99 0; mk_ce 1 0].
Proof.
  split; [reflexivity|vm_compute; split; congruence|].
  repeat (eapply compr_cons; [vm_compute; congruence|vm_compute; reflexivity|]). constructor.
Qed.

Lemma demo_queue3_compr : compr_wf (q_ring demo_queue3) [mk_ce 1 0].
Proof.
  split; [reflexivity|vm_compute; split; congruence|].
  repeat (eapply compr_cons; [vm_compute; congruence|vm_compute; reflexivity|]). constructor.
Qed.

Lemma completion_refines_witness :
  exists q' w', ubbd_queue_complete 3 demo_queue2 demo_world1 = Ok (q', w') /\
    completion_run demo_queue2 demo_world1 [mk_ce 99 0; mk_ce 1 0] demo_foreign q' w'.
Proof.
  destruct (demo_post_inv 32 {[0 := mk_ce 99 0; 16 := mk_ce 1 0]}) as [es Hq].
  apply (completion_refines _ _ es _ _ 3 Hq demo_queue2_compr); [simpl; lia|].
  vm_compute. congruence.
Defined.

Lemma completion_ends_once_witness :
  exists q' w' (ended : list (Z * Z)), complete_work_fn 3 demo_queue2 demo_world1 = Ok (q', w') /\
    ended.*1 ++ q_inflight q' ≡ₚ q_inflight demo_queue2.
Proof.
  destruct (demo_post_inv 32 {[0 := mk_ce 99 0; 16 := mk_ce 1 0]}) as [es Hq].
  destruct (completion_ends_once _ _ es _ _ 3 Hq demo_queue2_compr)
    as (q' & w' & ended & E & _ & Hp & _); [simpl; lia|vm_compute; congruence|].
  exists q', w', ended. split; [exact E|exact Hp].
Defined.

Lemma demo_segs_disjoint op : segs_disjoint (data_segs (demo_rq op)).
Proof.
  intros i j b1 b2 o Hi Hj Hne _ _ _. apply Hne.
  destruct op; simpl in *; try done;
    (destruct i as [|i], j as [|j]; simpl in *; rewrite ?lookup_nil in *; done).
Qed.

Lemma read_delivered_witness :
  exists e q' w', w_reqs demo_world1 !! 7 = Some e /\
    complete_again 2 demo_queue3 demo_world1 = Ok (q', w') /\
    data_read (e_rq e) (e_pdu e) (q_pool demo_queue3) (w_mem demo_world1) (w_mem w').
Proof.
  destruct (demo_post_inv 16 {[0 := mk_ce 1 0]}) as [es Hq].
  destruct (w_reqs demo_world1 !! 7) as [e|] eqn:He; [|vm_compute in He; discriminate].
  destruct (read_delivered demo_queue3 demo_world1 es demo_foreign (mk_ce 1 0) 7 e 0 Hq
    demo_queue3_compr) as (q' & w' & E & Hd & _).
  - vm_compute. left.
  - exact He.
  - vm_compute in He. injection He as <-. reflexivity.
  - vm_compute in He. injection He as <-. reflexivity.
  - vm_compute in He. injection He as <-. apply (demo_segs_disjoint REQ_OP_READ).
  - exists e, q', w'. split; [reflexivity|]. split; [exact E|exact Hd].
Defined.

Lemma end_inflight_ends_all_witness :
  exists q' w' es', ubbd_queue_end_inflight_reqs demo_queue1 demo_world1 (- EIO) = Ok (q', w') /\
    queue_inv q' w' es' demo_foreign [].
Proof.
  destruct demo_queue1_inv as [es Hq].
  destruct (end_inflight_ends_all demo_queue1 demo_world1 es demo_foreign (- EIO) Hq)
    as (q' & w' & es' & E & H & _).
  exists q', w', es'. split; [exact E|exact H].
Defined.

Lemma not_running_refused_witness :
  ubbd_queue_rq (demo_queue 4) demo_read_world 7 = Ok (BLK_STS_IOERR, demo_read_world) /\
  ubbd_queue_rq (demo_queue 2) demo_read_world 7 = Ok (BLK_STS_RESOURCE, demo_read_world).
Proof.
  split.
  - by apply (not_running_refused (demo_queue 4) demo_read_world 7 demo_read 0 eq_refl).
  - apply (not_running_refused (demo_queue 2) demo_read_world 7 demo_read 0 eq_refl). by left.
Defined.

Lemma submit_complete_restores_pages_witness :
  exists q2 w2, complete_inflight_req demo_queue1 demo_world1 7 0 = Ok (q2, w2) /\
    data_bitmap (q_pool q2) = data_bitmap demo_pool.
Proof.
  destruct (submit_complete_restores_pages (demo_queue 1) demo_read_world 7 demo_read [] demo_foreign
    UBBD_OP_READ 0 demo_queue1 demo_world1 (demo_queue_inv _ _ _) ltac:(set_solver) eq_refl
    ltac:(simpl; lia) eq_refl eq_refl eq_refl (demo_rq_ok _) demo_run_eq)
    as (q2 & w2 & E & Hb & _).
  - vm_compute. left.
  - exists q2, w2. split; [exact E|exact Hb].
Defined.

(** A ring with 40 bytes left before the reserve cannot take the read. *)
Definition demo_full_queue : ubbd_queue :=
  set_q_ring (mk_ring demo_abi (mk_sb 0 0 0 0 0 512 400 0 0 128 0 0) {[0 := (400, 0)]} ∅ ∅)
    (demo_queue 1).

Lemma demo_full_queue_inv :
  queue_inv demo_full_queue demo_read_world [(0, (400, 0))] demo_foreign [].
Proof.
  apply (queue_inv_frame (demo_queue 1) demo_read_world [] demo_foreign []); try done.
  - apply demo_queue_inv.
  - constructor.
  - split; simpl; try done; [by exists 0|].
    econstructor; [done|done| |vm_compute; congruence|constructor]. by exists 50.
  - intros t e Hin. by apply elem_of_nil in Hin.
Qed.

Lemma pages_lost_only_on_full_ring_witness :
  exists q' w', ubbd_queue_workfn demo_full_queue demo_read_world 7 = Ok (q', w').
Proof.
  destruct (pages_lost_only_on_full_ring demo_full_queue demo_read_world 7 demo_read
    [(0, (400, 0))] demo_foreign UBBD_OP_READ demo_full_queue_inv ltac:(set_solver) eq_refl
    ltac:(simpl; lia) eq_refl eq_refl eq_refl (demo_rq_ok _)) as (q' & w' & E & _).
  - intros i. simpl. by rewrite elem_of_empty.
  - exists q', w'. exact E.
Defined.

(** The loss happens: the read is requeued, nothing is inflight and one data
    page stays in use. *)
Example ring_full_loses_a_page :
  match ubbd_queue_workfn demo_full_queue demo_read_world 7 with
  | Ok (q, w) => (q_inflight q, w_blk w, elements (data_bitmap (q_pool q)))
  | Fault _ => ([], [], [])
  end = ([], [BLK_REQUEUE 7], [0]).
Proof. vm_compute. reflexivity. Qed.
