(* ===== verification/Kring.v ===== *)
(** * The kring device: sharing a queue with the backend

    Models [src/src/ubbd_kring.c]: the minors and the life of a kring device
    ([__ubbd_kring_register_device], [ubbd_kring_open], [ubbd_kring_release],
    [ubbd_kring_unregister_device]), its file operations, and the mapping of
    the rings and data pages ([ubbd_kring_mmap], [ubbd_vma_fault],
    [ubbd_vma_open], [ubbd_vma_close]). *)

From S2P Require Import Prelude Abi Ring Pages Request Queue.

(** ** Minor numbers *)

(** [idr_alloc] on the map of the ids in use: an id of [lo, hi) or a negative
    error number. *)
Class KernelIdr := {
  idr_alloc : gmap Z Z -> Z -> Z -> Z;
}.

Class KernelIdrLaws `(I : KernelIdr) : Prop := {
  idr_alloc_fresh m lo hi :
    0 <= idr_alloc m lo hi ->
    lo <= idr_alloc m lo hi < hi /\ m !! idr_alloc m lo hi = None;
}.

#[export] Instance demo_idr : KernelIdr := {|
  idr_alloc m lo hi :=
    match find (fun i => bool_decide (m !! i = None)) (seqZ lo (Z.min (hi - lo) 64)) with
    | Some i => i
    | None => - ENOSPC
    end;
|}.

#[export] Instance demo_idr_laws : KernelIdrLaws demo_idr.
Proof.
  split. intros m lo hi. simpl. destruct (find _ _) as [i|] eqn:E; [|done]. intros _.
  apply List.find_some in E as [Hin Hf]. apply list_elem_of_In, elem_of_seqZ in Hin.
  apply bool_decide_eq_true in Hf. split; [lia|done].
Qed.

(** ** State *)

(** [struct ubbd_kring_device]; [kd_info] is [idev->info], as the index of the
    queue the info is part of. *)
Record kring_device : Type := mk_kdev {
  kd_minor : Z;
  kd_info : option Z;
  kd_refs : Z;               (* references of its struct device *)
}.

(** [struct ubbd_kring_listener] *)
Record listener : Type := mk_listener {
  ls_dev : Z;
  ls_event_count : Z;
}.

Record kring_state : Type := mk_kring {
  ks_class_registered : bool;
  ks_idr : gmap Z Z;                 (* minor to device *)
  ks_devs : gmap Z kring_device;     (* allocated devices *)
  ks_files : gmap Z listener;        (* open files *)
  ks_modrefs : Z;                    (* module references they hold *)
}.

Definition set_ks_idr (m : gmap Z Z) (s : kring_state) : kring_state :=
  mk_kring (ks_class_registered s) m (ks_devs s) (ks_files s) (ks_modrefs s).
Definition set_ks_devs (m : gmap Z kring_device) (s : kring_state) : kring_state :=
  mk_kring (ks_class_registered s) (ks_idr s) m (ks_files s) (ks_modrefs s).
Definition set_ks_files (m : gmap Z listener) (s : kring_state) : kring_state :=
  mk_kring (ks_class_registered s) (ks_idr s) (ks_devs s) m (ks_modrefs s).
Definition set_ks_modrefs (n : Z) (s : kring_state) : kring_state :=
  mk_kring (ks_class_registered s) (ks_idr s) (ks_devs s) (ks_files s) n.

(** The [name] of an info: NULL, a live string or a freed one. *)
Inductive name_ptr : Type := NAME_NULL | NAME_LIVE | NAME_FREED.

#[export] Instance name_ptr_eq_dec : EqDecision name_ptr.
Proof. solve_decision. Defined.

Record kring_info : Type := mk_info {
  ki_dev : option Z;         (* [info->ubbd_kring_dev] *)
  ki_name : name_ptr;
}.

(** ** Life of a device *)

Section life.
Context `{I : KernelIdr}.

Definition MINORBITS : Z := 20.
Definition KRING_MAX_DEVICES : Z := Z.shiftl 1 MINORBITS.

(** On success the minor is stored in the device. *)
Definition ubbd_kring_get_minor (h : Z) (s : kring_state) : Z * Z * kring_state :=
  let retval := idr_alloc (ks_idr s) 0 KRING_MAX_DEVICES in
  if 0 <=? retval then (0, retval, set_ks_idr (<[retval := h]> (ks_idr s)) s)
  else if retval =? - ENOSPC then (- EINVAL, 0, s)
  else (retval, 0, s).

Definition ubbd_kring_free_minor (minor : Z) (s : kring_state) : kring_state :=
  set_ks_idr (delete minor (ks_idr s)) s.

(** [get_device] and [put_device]; the last reference frees the device
    ([ubbd_kring_device_release]). *)
Definition get_device (h : Z) (s : kring_state) : outcome kring_state :=
  let* d := deref (ks_devs s !! h) WILD_ACCESS in
  Ok (set_ks_devs (<[h := mk_kdev (kd_minor d) (kd_info d) (kd_refs d + 1)]> (ks_devs s)) s).

Definition put_device (h : Z) (s : kring_state) : outcome kring_state :=
  let* d := deref (ks_devs s !! h) WILD_ACCESS in
  if kd_refs d =? 1 then Ok (set_ks_devs (delete h (ks_devs s)) s)
  else Ok (set_ks_devs (<[h := mk_kdev (kd_minor d) (kd_info d) (kd_refs d - 1)]> (ks_devs s)) s).

(** What the kernel answers to the calls a registration makes. *)
Record register_env : Type := mk_register_env {
  re_kzalloc : option Z;     (* handle of the new device, or NULL *)
  re_set_name : Z;
  re_device_add : Z;
}.

Definition __ubbd_kring_register_device (env : register_env) (q_index : Z) (parent : bool)
    (info : kring_info) (s : kring_state) : outcome (Z * kring_info * kring_state) :=
  if negb (ks_class_registered s) then Ok (- EPROBE_DEFER, info, s)
  else if negb parent || bool_decide (ki_name info = NAME_NULL) then Ok (- EINVAL, info, s)
  else
    let info := mk_info None (ki_name info) in
    match re_kzalloc env with
    | None => Ok (- ENOMEM, info, s)
    | Some h =>
        let '(ret, minor, s) := ubbd_kring_get_minor h s in
        if negb (ret =? 0) then Ok (ret, info, s)
        else
          let s := set_ks_devs (<[h := mk_kdev minor (Some q_index) 1]> (ks_devs s)) s in
          let ret := re_set_name env in
          let ret := if ret =? 0 then re_device_add env else ret in
          if negb (ret =? 0) then
            let s := ubbd_kring_free_minor minor s in
            let* s := put_device h s in
            Ok (ret, info, s)
          else Ok (0, mk_info (Some h) (ki_name info), s)
    end.

(** The unregistration, cut where another thread can run: the device goes
    first, its minor after. *)
Definition unregister_device_part (h : Z) (s : kring_state) : outcome kring_state :=
  let* d := deref (ks_devs s !! h) WILD_ACCESS in
  let s := set_ks_devs (<[h := mk_kdev (kd_minor d) None (kd_refs d)]> (ks_devs s)) s in
  put_device h s.

Definition ubbd_kring_unregister_device (info : kring_info) (s : kring_state) : outcome kring_state :=
  match ki_dev info with
  | None => Ok s
  | Some h =>
      let* d := deref (ks_devs s !! h) WILD_ACCESS in
      let minor := kd_minor d in
      let* s := unregister_device_part h s in
      Ok (ubbd_kring_free_minor minor s)
  end.

(** [ubbd_kring_open]: the lookup, and what follows it.  The result names the
    queue whose [info->open] ran, if any. *)
Definition open_found (h : Z) (file event : Z) (module_ok kmalloc_ok : bool) (s : kring_state)
  : outcome (Z * option Z * kring_state) :=
  let* s := get_device h s in
  if negb module_ok then
    let* s := put_device h s in Ok (- ENODEV, None, s)
  else
    let s := set_ks_modrefs (ks_modrefs s + 1) s in
    if negb kmalloc_ok then
      let s := set_ks_modrefs (ks_modrefs s - 1) s in
      let* s := put_device h s in Ok (- ENOMEM, None, s)
    else
      let* d := deref (ks_devs s !! h) WILD_ACCESS in
      match kd_info d with
      | None =>
          let s := set_ks_modrefs (ks_modrefs s - 1) s in
          let* s := put_device h s in Ok (- EINVAL, None, s)
      | Some q => Ok (0, Some q, set_ks_files (<[file := mk_listener h event]> (ks_files s)) s)
      end.

Definition ubbd_kring_open (minor file event : Z) (module_ok kmalloc_ok : bool) (s : kring_state)
  : outcome (Z * option Z * kring_state) :=
  match ks_idr s !! minor with
  | None => Ok (- ENODEV, None, s)
  | Some h => open_found h file event module_ok kmalloc_ok s
  end.

Definition ubbd_kring_release (file : Z) (s : kring_state) : outcome kring_state :=
  let* l := deref (ks_files s !! file) WILD_ACCESS in
  let* _ := deref (ks_devs s !! ls_dev l) WILD_ACCESS in
  let s := set_ks_modrefs (ks_modrefs s - 1) s in
  let s := set_ks_files (delete file (ks_files s)) s in
  put_device (ls_dev l) s.

(** [name_show] of the device's sysfs directory: an error number, or the
    string that is printed. *)
Definition name_show (h : Z) (info : kring_info) (s : kring_state) : outcome (Z + name_ptr) :=
  let* d := deref (ks_devs s !! h) WILD_ACCESS in
  match kd_info d with
  | None => Ok (inl (- EINVAL))
  | Some _ =>
      match ki_name info with
      | NAME_FREED => Fault WILD_ACCESS
      | n => Ok (inr n)
      end
  end.

(** [ubbd_queue_kring_init], with the success of [kasprintf] as an argument. *)
Definition ubbd_queue_kring_init (env : register_env) (kasprintf_ok : bool) (q_index : Z)
    (info : kring_info) (s : kring_state) : outcome (Z * kring_info * kring_state) :=
  if negb kasprintf_ok then Ok (- ENOMEM, mk_info (ki_dev info) NAME_NULL, s)
  else __ubbd_kring_register_device env q_index true (mk_info (ki_dev info) NAME_LIVE) s.

Definition kfree_name (info : kring_info) : outcome kring_info :=
  match ki_name info with
  | NAME_NULL => Ok info
  | NAME_LIVE => Ok (mk_info (ki_dev info) NAME_FREED)
  | NAME_FREED => Fault DOUBLE_FREE
  end.

Definition ubbd_queue_kring_destroy (info : kring_info) (s : kring_state)
  : outcome (kring_info * kring_state) :=
  let* info := kfree_name info in
  let* s := ubbd_kring_unregister_device info s in
  Ok (info, s).
End life.

(** ** File operations *)

Section files.
Context `{A : UbbdAbi} `{K : KernelApi} `{M : KernelMem}.

(** [info->open] stores the inode for [ubbd_kring_unmap_range]. *)
Definition ubbd_kring_dev_open (inode : Z) (q : ubbd_queue) : ubbd_queue :=
  set_q_pool (set_inode (Some inode) (q_pool q)) q.

Definition ubbd_kring_event_notify (event : Z) : Z := s32 (event + 1).

(** [ubbd_kring_poll]: readable, and the listener remembers the event. *)
Definition ubbd_kring_poll (event : Z) (l : listener) : bool * listener :=
  if negb (ls_event_count l =? event) then (true, mk_listener (ls_dev l) event) else (false, l).

(** What one round of the loop of [ubbd_kring_read] observes. *)
Record read_round : Type := mk_round {
  rd_registered : bool;      (* [idev->info] is not NULL *)
  rd_event : Z;
  rd_copy_ok : bool;         (* [copy_to_user] *)
  rd_signal : bool;
}.

(** The loop over the rounds observed so far; [None] while asleep. *)
Fixpoint read_loop (nonblock : bool) (l : listener) (rounds : list read_round)
  : option (Z * listener) :=
  match rounds with
  | [] => None
  | r :: rounds =>
      if negb (rd_registered r) then Some (- EIO, l)
      else if negb (rd_event r =? ls_event_count l) then
        if rd_copy_ok r then Some (4, mk_listener (ls_dev l) (rd_event r)) else Some (- EFAULT, l)
      else if nonblock then Some (- EAGAIN, l)
      else if rd_signal r then Some (- ERESTARTSYS, l)
      else read_loop nonblock l rounds
  end.

Definition ubbd_kring_read (count : Z) (nonblock : bool) (l : listener) (rounds : list read_round)
  : option (Z * listener) :=
  if negb (count =? 4) then Some (- EINVAL, l) else read_loop nonblock l rounds.

Definition ubbd_irqcontrol (fuel : nat) (q : ubbd_queue) (w : world) : outcome (Z * ubbd_queue * world) :=
  if q_status q =? UBBD_QUEUE_KSTATUS_REMOVING then Ok (0, q, w)
  else let* '(q, w) := ubbd_queue_complete fuel q w in Ok (0, q, w).

(** [ubbd_kring_write] calls [idev->info->irqcontrol]; [queue] gives the queue
    of an info. *)
Definition ubbd_kring_write (fuel : nat) (file : Z) (s : kring_state) (q : ubbd_queue) (w : world)
  : outcome (Z * ubbd_queue * world) :=
  let* l := deref (ks_files s !! file) WILD_ACCESS in
  let* d := deref (ks_devs s !! ls_dev l) WILD_ACCESS in
  let* _ := deref (kd_info d) NULL_DEREF in
  let* '(retval, q, w) := ubbd_irqcontrol fuel q w in
  Ok ((if negb (retval =? 0) then retval else 4), q, w).

(** ** Mappings *)

(** A mapping of the queue's file; [vm_write] is [VM_WRITE]. *)
Record vma : Type := mk_vma {
  vm_pages : Z;
  vm_write : bool;
}.

Definition ubbd_kring_dev_mmap (pid : Z) (v : vma) (q : ubbd_queue) (refs : Z)
  : Z * ubbd_queue * Z :=
  if negb (vm_pages v =? q_mmap_pages q) then (- EINVAL, q, refs)
  else if q_has_backend q then (- EBUSY, q, refs)
  else (0, set_q_backend true pid q, refs + 1).

(** The size test of [ubbd_kring_mmap], on a page-aligned [mem[0].addr] of
    [mem[0].size = mmap_pages << PAGE_SHIFT] bytes.  A [vma] is given by its
    number of pages, so its end is not before its start and the test of that
    (line 315) is always passed. *)
Definition ubbd_kring_mmap (registered : bool) (pid : Z) (v : vma) (q : ubbd_queue) (refs : Z)
  : Z * ubbd_queue * Z :=
  if negb registered then (- EINVAL, q, refs)
  else
    let size := u64 (Z.shiftl (q_mmap_pages q) PAGE_SHIFT) in
    let actual_pages := Z.shiftr (u64 (size + PAGE_SIZE - 1)) PAGE_SHIFT in
    if actual_pages <? vm_pages v then (- EINVAL, q, refs)
    else ubbd_kring_dev_mmap pid v q refs.

Definition ubbd_vma_open (refs : Z) : Z := refs + 1.

Definition ubbd_vma_close (v : vma) (q : ubbd_queue) (refs : Z) : ubbd_queue * Z :=
  let q := if vm_write v then set_q_backend false 0 q else q in
  (q, refs - 1).

(** [ubbd_vma_fault]: a page of the rings, a data page, or SIGBUS. *)
Inductive fault_result : Type :=
| FAULT_RING (offset : Z)
| FAULT_DATA (page : Z)
| FAULT_SIGBUS.

Definition ubbd_try_get_data_page (p : data_pool) (dpi : Z) : option Z := data_pages_array p !! dpi.

Definition ubbd_vma_fault (p : data_pool) (pgoff : Z) : fault_result :=
  let offset := u64 (Z.shiftl pgoff PAGE_SHIFT) in
  if offset <? data_off p then FAULT_RING offset
  else
    let dpi := u32 ((offset - data_off p) / PAGE_SIZE) in
    match ubbd_try_get_data_page p dpi with
    | None => FAULT_SIGBUS
    | Some page => FAULT_DATA page
    end.
End files.
