(* ===== verification/KringLife.v ===== *)
(** * The life of a kring device: no use after free

    The reference counts of [src/src/ubbd_kring.c] over arbitrary sequences of
    registrations, opens, releases and unregistrations, and the two orders of
    events that break them. *)

From S2P Require Import Prelude Abi Ring Pages Request Queue Kring.

(** ** Runs *)

Section run.
Context `{I : KernelIdr}.

Inductive kring_op : Type :=
| OpRegister (env : register_env) (q_index : Z)
| OpOpen (minor file event : Z) (module_ok kmalloc_ok : bool)
| OpRelease (file : Z)
| OpUnregister (h : Z).

Definition kring_step (op : kring_op) (s : kring_state) : outcome kring_state :=
  match op with
  | OpRegister env q =>
      let* '(_, _, s) := ubbd_queue_kring_init env true q (mk_info None NAME_NULL) s in Ok s
  | OpOpen minor file event mok kok =>
      let* '(_, _, s) := ubbd_kring_open minor file event mok kok s in Ok s
  | OpRelease file => ubbd_kring_release file s
  | OpUnregister h =>
      let* '(_, s) := ubbd_queue_kring_destroy (mk_info (Some h) NAME_LIVE) s in Ok s
  end.

(** What the kernel guarantees of the calls: a new device or file is new, a
    file is released once, a queue unregisters the device it registered. *)
Definition enabled (op : kring_op) (s : kring_state) : Prop :=
  match op with
  | OpRegister env _ =>
      match re_kzalloc env with Some h => ks_devs s !! h = None | None => True end
  | OpOpen _ file _ _ _ => ks_files s !! file = None
  | OpRelease file => is_Some (ks_files s !! file)
  | OpUnregister h => exists d q, ks_devs s !! h = Some d /\ kd_info d = Some q
  end.

Definition kring_initial (registered : bool) : kring_state := mk_kring registered ∅ ∅ ∅ 0.

Inductive kring_reach (registered : bool) : kring_state -> Prop :=
| reach_initial : kring_reach registered (kring_initial registered)
| reach_step s op s' :
    kring_reach registered s -> enabled op s -> kring_step op s = Ok s' -> kring_reach registered s'.
End run.

(** ** The invariant *)

(** Open files of device [h]. *)
Definition opens (s : kring_state) (h : Z) : Z :=
  Z.of_nat (size (filter (fun kv => ls_dev kv.2 = h) (ks_files s))).

Definition registered_ref (d : kring_device) : Z :=
  match kd_info d with Some _ => 1 | None => 0 end.

Record kring_inv (s : kring_state) : Prop := {
  ki_refs h d : ks_devs s !! h = Some d ->
    kd_refs d = opens s h + registered_ref d /\ 0 < kd_refs d;
  ki_files f l : ks_files s !! f = Some l -> is_Some (ks_devs s !! ls_dev l);
  ki_idr m h : ks_idr s !! m = Some h ->
    exists d q, ks_devs s !! h = Some d /\ kd_info d = Some q /\ kd_minor d = m;
  ki_minor h d q : ks_devs s !! h = Some d -> kd_info d = Some q ->
    ks_idr s !! kd_minor d = Some h;
  ki_modrefs : ks_modrefs s = Z.of_nat (size (ks_files s));
}.

Section lemmas.
Context `{IL : KernelIdrLaws}.
Implicit Types (s : kring_state) (d : kring_device).

Lemma opens_insert s f l h :
  ks_files s !! f = None ->
  opens (set_ks_files (<[f := l]> (ks_files s)) s) h =
    opens s h + (if decide (ls_dev l = h) then 1 else 0).
Proof.
  intros Hf. unfold opens. simpl. case_decide as E.
  - rewrite map_filter_insert_True by done. rewrite map_size_insert_None; [lia|].
    rewrite map_lookup_filter, Hf. done.
  - rewrite map_filter_insert_False by done. rewrite delete_id by done. lia.
Qed.

Lemma opens_delete s f l h :
  ks_files s !! f = Some l ->
  opens (set_ks_files (delete f (ks_files s)) s) h =
    opens s h - (if decide (ls_dev l = h) then 1 else 0).
Proof.
  intros Hf. unfold opens. simpl. rewrite map_filter_delete. case_decide as E.
  - assert (filter (fun kv => ls_dev kv.2 = h) (ks_files s) !! f = Some l) as Hl
      by (by apply map_lookup_filter_Some).
    rewrite map_size_delete_Some by eauto.
    assert (size (filter (fun kv => ls_dev kv.2 = h) (ks_files s)) <> 0%nat).
    { intros E0. apply map_size_empty_inv in E0. by rewrite E0, lookup_empty in Hl. }
    lia.
  - rewrite delete_id; [lia|]. apply map_lookup_filter_None. right. intros x Hx. by simplify_eq.
Qed.

Lemma opens_pos s f l : ks_files s !! f = Some l -> 0 < opens s (ls_dev l).
Proof.
  intros Hf. unfold opens. assert (size (filter (fun kv => ls_dev kv.2 = ls_dev l) (ks_files s)) <> 0%nat).
  { intros E0. apply map_size_empty_inv in E0.
    assert (filter (fun kv => ls_dev kv.2 = ls_dev l) (ks_files s) !! f = Some l) as Hl
      by (by apply map_lookup_filter_Some). by rewrite E0, lookup_empty in Hl. }
  lia.
Qed.

Lemma opens_nonneg s h : 0 <= opens s h.
Proof. unfold opens. lia. Qed.

(** A device without open file. *)
Lemma opens_none s h f l : opens s h = 0 -> ks_files s !! f = Some l -> ls_dev l <> h.
Proof. intros H0 Hf <-. pose proof (opens_pos _ _ _ Hf). lia. Qed.

Lemma opens_zero s h :
  (forall f l, ks_files s !! f = Some l -> ls_dev l <> h) -> opens s h = 0.
Proof.
  intros Hn. unfold opens. rewrite (proj2 (map_size_empty_iff _)); [done|].
  apply map_empty. intros f. apply map_lookup_filter_None. right. intros l Hl. by apply (Hn f l).
Qed.

(** [get_device] then [put_device] changes nothing. *)
Lemma get_put_device s h d :
  ks_devs s !! h = Some d -> 0 < kd_refs d ->
  exists s1, get_device h s = Ok s1 /\ ks_devs s1 !! h = Some (mk_kdev (kd_minor d) (kd_info d) (kd_refs d + 1)) /\
    ks_idr s1 = ks_idr s /\ ks_files s1 = ks_files s /\ ks_modrefs s1 = ks_modrefs s /\
    ks_class_registered s1 = ks_class_registered s /\
    (forall n, put_device h (set_ks_modrefs n s1) = Ok (set_ks_modrefs n s)) /\
    ks_devs s1 = <[h := mk_kdev (kd_minor d) (kd_info d) (kd_refs d + 1)]> (ks_devs s).
Proof.
  intros Hd Hr. unfold get_device. rewrite Hd. cbn [deref obind]. eexists. split; [done|].
  simpl. rewrite lookup_insert_eq. split_and!; try done. intros n.
  unfold put_device. simpl. rewrite lookup_insert_eq. simpl.
  destruct (Z.eqb_spec (kd_refs d + 1) 1); [lia|].
  rewrite insert_insert_eq. replace (kd_refs d + 1 - 1) with (kd_refs d) by lia.
  unfold set_ks_modrefs, set_ks_devs. simpl. repeat f_equal.
  destruct d as [m i r]. by rewrite insert_id.
Qed.

Lemma set_ks_modrefs_id s : set_ks_modrefs (ks_modrefs s) s = s.
Proof. by destruct s. Qed.

(** An open that fails leaves no trace; one that succeeds adds one file, one
    reference of the device and one of the module. *)
Lemma open_spec s minor f ev mok kok :
  kring_inv s -> ks_files s !! f = None ->
  exists ret opened s', ubbd_kring_open minor f ev mok kok s = Ok (ret, opened, s') /\
    kring_inv s' /\
    ((ret < 0 /\ s' = s /\ opened = None) \/
     (ret = 0 /\ exists h d, ks_idr s !! minor = Some h /\ ks_devs s !! h = Some d /\
        opened = kd_info d /\ ks_files s' = <[f := mk_listener h ev]> (ks_files s) /\
        ks_modrefs s' = ks_modrefs s + 1)).
Proof.
  intros Hi Hf. unfold ubbd_kring_open.
  assert (0 < ENODEV /\ 0 < ENOMEM) as [? ?] by (unfold ENODEV, ENOMEM; lia).
  destruct (ks_idr s !! minor) as [h|] eqn:Em.
  2: { do 3 eexists. split; [done|]. split; [done|]. left. split_and!; done || lia. }
  destruct (ki_idr _ Hi _ _ Em) as (d & q & Hd & Hq & Hm).
  destruct (ki_refs _ Hi _ _ Hd) as [Hr Hpos].
  destruct (get_put_device s h d Hd Hpos) as (s1 & E1 & Hd1 & Ei & Ef & En & Ec & Eput & Ed).
  unfold open_found. rewrite E1. cbn [obind].
  destruct mok; cbn [negb].
  2: { rewrite <- (set_ks_modrefs_id s1), Eput, En, set_ks_modrefs_id. cbn [obind].
    do 3 eexists. split; [done|]. split; [done|]. left. split_and!; done || lia. }
  destruct kok; cbn [negb].
  2: { change (set_ks_modrefs _ (set_ks_modrefs _ s1)) with (set_ks_modrefs (ks_modrefs s1 + 1 - 1) s1).
    rewrite Eput, En. replace (ks_modrefs s + 1 - 1) with (ks_modrefs s) by lia.
    rewrite set_ks_modrefs_id. cbn [obind].
    do 3 eexists. split; [done|]. split; [done|]. left. split_and!; done || lia. }
  change (ks_devs (set_ks_modrefs (ks_modrefs s1 + 1) s1)) with (ks_devs s1). rewrite Hd1.
  cbn [deref obind kd_info]. rewrite Hq.
  set (s2 := set_ks_files _ _).
  assert (ks_files s2 = <[f := mk_listener h ev]> (ks_files s)) as Ef2 by (simpl; by rewrite Ef).
  assert (ks_modrefs s2 = ks_modrefs s + 1) as En2 by (simpl; by rewrite En).
  assert (ks_devs s2 = ks_devs s1) as Ed2 by done. rewrite Ed in Ed2.
  assert (ks_idr s2 = ks_idr s) as Ei2 by done. clearbody s2.
  exists 0, (Some q), s2. split; [done|]. split.
  2: { right. split; [done|]. exists h, d. by split_and!. }
  assert (forall h', opens s2 h' = opens s h' + (if decide (h = h') then 1 else 0)) as Ho.
  { intros h'. pose proof (opens_insert s f (mk_listener h ev) h' Hf) as Eo.
    unfold opens in *. simpl in *. by rewrite Ef2. }
  split; rewrite ?Ed2, ?Ei2, ?Ef2, ?En2.
  - intros h' d'. rewrite Ho, lookup_insert_Some. intros [[<- <-]|[Hne Hd']].
    + rewrite decide_True by done. unfold registered_ref in *. simpl in *. rewrite Hr. lia.
    + rewrite decide_False by done. destruct (ki_refs _ Hi _ _ Hd'). lia.
  - intros f' l'. rewrite lookup_insert_Some. intros [[<- <-]|[Hne Hl]]; simpl.
    + rewrite lookup_insert_eq. eauto.
    + destruct (decide (h = ls_dev l')) as [<-|]; [rewrite lookup_insert_eq; eauto|].
      rewrite lookup_insert_ne by done. by apply (ki_files _ Hi f').
  - intros m h' Hm'. destruct (ki_idr _ Hi _ _ Hm') as (d' & q' & Hd' & Hq' & Hmm).
    destruct (decide (h = h')) as [<-|]; [|exists d', q'; by rewrite lookup_insert_ne].
    rewrite lookup_insert_eq. simplify_eq. do 2 eexists. by split_and!.
  - intros h' d' q'. rewrite lookup_insert_Some. intros [[<- <-]|[Hne Hd']]; simpl.
    + intros _. by apply (ki_minor _ Hi h d q).
    + intros Hq'. by apply (ki_minor _ Hi h' d' q').
  - rewrite map_size_insert_None by done. rewrite (ki_modrefs _ Hi). lia.
Qed.

(** Dropping a reference: the device is freed with its last one. *)
Lemma put_device_spec s h d :
  ks_devs s !! h = Some d ->
  exists s', put_device h s = Ok s' /\ ks_idr s' = ks_idr s /\ ks_files s' = ks_files s /\
    ks_modrefs s' = ks_modrefs s /\ ks_class_registered s' = ks_class_registered s /\
    ks_devs s' = if kd_refs d =? 1 then delete h (ks_devs s)
                 else <[h := mk_kdev (kd_minor d) (kd_info d) (kd_refs d - 1)]> (ks_devs s).
Proof.
  intros Hd. unfold put_device. rewrite Hd. cbn [deref obind].
  destruct (kd_refs d =? 1); eexists; by split_and!.
Qed.

Lemma opens_ext s s' h : ks_files s' = ks_files s -> opens s' h = opens s h.
Proof. unfold opens. by intros ->. Qed.

Lemma registered_ref_range d : 0 <= registered_ref d <= 1.
Proof. unfold registered_ref. destruct (kd_info d); lia. Qed.

Lemma release_spec s f :
  kring_inv s -> is_Some (ks_files s !! f) ->
  exists s', ubbd_kring_release f s = Ok s' /\ kring_inv s' /\
    ks_files s' = delete f (ks_files s) /\ ks_modrefs s' = ks_modrefs s - 1 /\
    ks_idr s' = ks_idr s.
Proof.
  intros Hi [l Hf]. destruct (ki_files _ Hi _ _ Hf) as [d Hd].
  destruct (ki_refs _ Hi _ _ Hd) as [Hr Hp]. pose proof (opens_pos _ _ _ Hf) as Hop.
  unfold ubbd_kring_release. rewrite Hf. cbn [deref obind]. rewrite Hd. cbn [deref obind].
  set (s1 := set_ks_files _ _).
  destruct (put_device_spec s1 (ls_dev l) d Hd) as (s2 & E & Ei & Ef & En & _ & Ed).
  assert (forall h, opens s2 h = opens s h - (if decide (ls_dev l = h) then 1 else 0)) as Ho.
  { intros h. rewrite (opens_ext s1 s2 h Ef). apply (opens_delete s f l h Hf). }
  exists s2. split; [done|]. split; [|by split_and!].
  change (ks_devs s1) with (ks_devs s) in Ed. change (ks_idr s1) with (ks_idr s) in Ei.
  change (ks_files s1) with (delete f (ks_files s)) in Ef.
  change (ks_modrefs s1) with (ks_modrefs s - 1) in En.
  pose proof (registered_ref_range d) as Hrr.
  split.
  - intros h d' Hd'. rewrite Ho. rewrite Ed in Hd'. destruct (Z.eqb_spec (kd_refs d) 1) as [E1|].
    + apply lookup_delete_Some in Hd' as [Hne Hd']. rewrite decide_False by done.
      destruct (ki_refs _ Hi _ _ Hd'). lia.
    + apply lookup_insert_Some in Hd' as [[<- <-]|[Hne Hd']].
      * rewrite decide_True by done. unfold registered_ref in *. simpl in *. lia.
      * rewrite decide_False by done. destruct (ki_refs _ Hi _ _ Hd'). lia.
  - intros f' l'. rewrite Ef, lookup_delete_Some. intros [Hne Hf'].
    destruct (ki_files _ Hi _ _ Hf') as [d' Hd']. rewrite Ed.
    destruct (Z.eqb_spec (kd_refs d) 1) as [E1|].
    + assert (ls_dev l' <> ls_dev l) as Hnl.
      { apply (opens_none s2 _ f').
        - rewrite Ho, decide_True by done. lia.
        - rewrite Ef, lookup_delete_ne by done. done. }
      rewrite lookup_delete_ne by done. eauto.
    + destruct (decide (ls_dev l = ls_dev l')) as [->|]; [rewrite lookup_insert_eq; eauto|].
      rewrite lookup_insert_ne by done. eauto.
  - intros m h Hm. rewrite Ei in Hm. destruct (ki_idr _ Hi _ _ Hm) as (d' & q & Hd' & Hq & Hmm).
    rewrite Ed. destruct (Z.eqb_spec (kd_refs d) 1) as [E1|].
    + destruct (decide (ls_dev l = h)) as [<-|]; [|exists d', q; by rewrite lookup_delete_ne].
      simplify_eq. exfalso. unfold registered_ref in *. rewrite Hq in *. lia.
    + destruct (decide (ls_dev l = h)) as [<-|]; [|exists d', q; by rewrite lookup_insert_ne].
      rewrite lookup_insert_eq. simplify_eq. do 2 eexists. by split_and!.
  - intros h d' q Hd' Hq. rewrite Ei. rewrite Ed in Hd'.
    destruct (Z.eqb_spec (kd_refs d) 1) as [E1|].
    + apply lookup_delete_Some in Hd' as [_ Hd']. by apply (ki_minor _ Hi _ _ q).
    + apply lookup_insert_Some in Hd' as [[<- <-]|[_ Hd']]; [exact (ki_minor _ Hi _ _ q Hd Hq)|exact (ki_minor _ Hi _ _ q Hd' Hq)].
  - rewrite En, Ef, map_size_delete_Some, (ki_modrefs _ Hi) by eauto.
    assert (size (ks_files s) <> 0%nat); [|lia].
    intros E0. apply map_size_empty_inv in E0. by rewrite E0, lookup_empty in Hf.
Qed.

(** Unregistering empties the info, takes the minor back and leaves the
    device to its open files. *)
Lemma unregister_spec s h d q n :
  kring_inv s -> ks_devs s !! h = Some d -> kd_info d = Some q ->
  exists s', ubbd_kring_unregister_device (mk_info (Some h) n) s = Ok s' /\ kring_inv s' /\
    ks_idr s' = delete (kd_minor d) (ks_idr s) /\ ks_files s' = ks_files s /\
    ks_modrefs s' = ks_modrefs s /\
    ks_devs s' = if opens s h =? 0 then delete h (ks_devs s)
                 else <[h := mk_kdev (kd_minor d) None (opens s h)]> (ks_devs s).
Proof.
  intros Hi Hd Hq. destruct (ki_refs _ Hi _ _ Hd) as [Hr Hp]. unfold registered_ref in Hr.
  rewrite Hq in Hr. pose proof (ki_minor _ Hi _ _ _ Hd Hq) as Hmin.
  unfold ubbd_kring_unregister_device, unregister_device_part. simpl ki_dev. cbv iota.
  rewrite Hd. cbn [deref obind]. set (s1 := set_ks_devs _ s).
  assert (ks_devs s1 !! h = Some (mk_kdev (kd_minor d) None (kd_refs d))) as Hd1
    by apply lookup_insert_eq.
  destruct (put_device_spec s1 h _ Hd1) as (s2 & E & Ei & Ef & En & _ & Ed). rewrite E.
  cbn [obind]. set (s3 := ubbd_kring_free_minor _ _).
  assert (ks_devs s3 = if opens s h =? 0 then delete h (ks_devs s)
                 else <[h := mk_kdev (kd_minor d) None (opens s h)]> (ks_devs s)) as Ed3.
  { change (ks_devs s3) with (ks_devs s2). rewrite Ed. simpl kd_refs. rewrite Hr.
    change (ks_devs s1) with (<[h := mk_kdev (kd_minor d) None (kd_refs d)]> (ks_devs s)).
    destruct (Z.eqb_spec (opens s h + 1) 1), (Z.eqb_spec (opens s h) 0); try lia.
    - by rewrite delete_insert_eq.
    - rewrite insert_insert_eq. do 2 f_equal. simpl. lia. }
  assert (ks_idr s3 = delete (kd_minor d) (ks_idr s)) as Ei3 by (simpl; by rewrite Ei).
  assert (ks_files s3 = ks_files s) as Ef3 by (simpl; by rewrite Ef).
  assert (ks_modrefs s3 = ks_modrefs s) as En3 by (simpl; by rewrite En).
  clearbody s3. exists s3. split; [done|]. split; [|by split_and!].
  pose proof (opens_nonneg s h).
  split; rewrite ?Ei3, ?Ef3, ?En3.
  - intros h' d' Hd'. rewrite (opens_ext s s3 h' Ef3). rewrite Ed3 in Hd'.
    destruct (Z.eqb_spec (opens s h) 0).
    + apply lookup_delete_Some in Hd' as [Hne Hd']. by apply (ki_refs _ Hi).
    + apply lookup_insert_Some in Hd' as [[<- <-]|[Hne Hd']]; [unfold registered_ref; simpl; lia|by apply (ki_refs _ Hi)].
  - intros f l Hl. destruct (ki_files _ Hi _ _ Hl) as [d' Hd']. rewrite Ed3.
    destruct (Z.eqb_spec (opens s h) 0).
    + rewrite lookup_delete_ne; [eauto|]. intros ->. by apply (opens_none s (ls_dev l) f l).
    + destruct (decide (h = ls_dev l)) as [<-|]; [rewrite lookup_insert_eq; eauto|].
      rewrite lookup_insert_ne by done. eauto.
  - intros m h' Hm. apply lookup_delete_Some in Hm as [Hne Hm].
    destruct (ki_idr _ Hi _ _ Hm) as (d' & q' & Hd' & Hq' & Hmm).
    assert (h <> h') as Hh by (intros <-; simplify_eq).
    exists d', q'. rewrite Ed3.
    destruct (opens s h =? 0); [by rewrite lookup_delete_ne|by rewrite lookup_insert_ne].
  - intros h' d' q' Hd' Hq'. rewrite Ed3 in Hd'.
    assert (h' <> h /\ ks_devs s !! h' = Some d') as [Hne Hd''].
    { destruct (opens s h =? 0); [apply lookup_delete_Some in Hd' as [? ?]; auto|].
      apply lookup_insert_Some in Hd' as [[<- <-]|[? ?]]; [done|auto]. }
    pose proof (ki_minor _ Hi _ _ _ Hd'' Hq') as Hm'.
    rewrite lookup_delete_ne; [done|]. intros Em. rewrite Em in Hmin. congruence.
  - apply (ki_modrefs _ Hi).
Qed.

Lemma get_minor_spec h s :
  let '(ret, minor, s') := ubbd_kring_get_minor h s in
  (ret < 0 /\ s' = s) \/
  (ret = 0 /\ ks_idr s !! minor = None /\ s' = set_ks_idr (<[minor := h]> (ks_idr s)) s).
Proof.
  unfold ubbd_kring_get_minor. pose proof (idr_alloc_fresh (ks_idr s) 0 KRING_MAX_DEVICES) as Hf.
  destruct (Z.leb_spec 0 (idr_alloc (ks_idr s) 0 KRING_MAX_DEVICES)) as [Hle|].
  - cbv iota. right. split; [done|]. split; [|done]. by apply Hf.
  - assert (0 < EINVAL) by (unfold EINVAL; lia).
    destruct (_ =? - ENOSPC); cbv iota; left; split; done || lia.
Qed.

(** A registration that fails undoes everything it did. *)
Lemma register_spec env q info s :
  kring_inv s ->
  match re_kzalloc env with Some h => ks_devs s !! h = None | None => True end ->
  exists ret info' s', __ubbd_kring_register_device env q true info s = Ok (ret, info', s') /\
    kring_inv s' /\
    ((ret <> 0 /\ s' = s) \/
     (ret = 0 /\ exists h minor, re_kzalloc env = Some h /\ ki_dev info' = Some h /\
        ks_idr s !! minor = None /\ ks_idr s' = <[minor := h]> (ks_idr s) /\
        ks_devs s' = <[h := mk_kdev minor (Some q) 1]> (ks_devs s) /\
        ks_files s' = ks_files s /\ ks_modrefs s' = ks_modrefs s)).
Proof.
  intros Hi Hh. unfold __ubbd_kring_register_device.
  destruct (ks_class_registered s); cbn [negb].
  2: { do 3 eexists. split; [done|]. split; [done|]. by left. }
  cbn [negb orb]. case_bool_decide.
  { do 3 eexists. split; [done|]. split; [done|]. by left. }
  destruct (re_kzalloc env) as [h|].
  2: { do 3 eexists. split; [done|]. split; [done|]. by left. }
  pose proof (get_minor_spec h s) as Hg.
  destruct (ubbd_kring_get_minor h s) as [[ret minor] s1].
  destruct Hg as [[Hneg ->]|(-> & Hm & ->)].
  { destruct (Z.eqb_spec ret 0); [lia|]. cbn [negb].
    do 3 eexists. split; [done|]. split; [done|]. by left. }
  cbn [negb Z.eqb].
  assert (forall f l, ks_files s !! f = Some l -> ls_dev l <> h) as Hnf.
  { intros f l Hf <-. destruct (ki_files _ Hi _ _ Hf). congruence. }
  set (ret := if re_set_name env =? 0 then re_device_add env else re_set_name env).
  destruct (Z.eqb_spec ret 0) as [Er|Er]; cbn [negb].
  - set (s2 := set_ks_devs _ _).
    assert (ks_devs s2 = <[h := mk_kdev minor (Some q) 1]> (ks_devs s)) as Ed by done.
    assert (ks_idr s2 = <[minor := h]> (ks_idr s)) as Ei by done.
    assert (ks_files s2 = ks_files s) as Ef by done.
    assert (ks_modrefs s2 = ks_modrefs s) as En by done. clearbody s2.
    do 3 eexists. split; [done|]. split.
    2: { right. split; [done|]. exists h, minor. by split_and!. }
    split; rewrite ?Ed, ?Ei, ?Ef, ?En.
    + intros h' d'. rewrite (opens_ext s s2 h' Ef), lookup_insert_Some.
      intros [[<- <-]|[Hne Hd']]; [|by apply (ki_refs _ Hi)].
      by rewrite (opens_zero s h Hnf).
    + intros f l Hf. destruct (ki_files _ Hi _ _ Hf) as [d Hd]. exists d.
      rewrite lookup_insert_ne; [done|]. intros ->. congruence.
    + intros m h'. rewrite lookup_insert_Some. intros [[<- <-]|[Hne Hm']].
      * rewrite lookup_insert_eq. do 2 eexists. by split_and!.
      * destruct (ki_idr _ Hi _ _ Hm') as (d' & q' & Hd' & ? & ?). exists d', q'.
        rewrite lookup_insert_ne; [done|]. intros <-. congruence.
    + intros h' d' q'. rewrite lookup_insert_Some. intros [[<- <-]|[Hne Hd']] Hq.
      * apply lookup_insert_eq.
      * pose proof (ki_minor _ Hi _ _ _ Hd' Hq) as Hm'. simpl in Hm'.
        rewrite lookup_insert_ne; [done|]. intros ->. congruence.
    + apply (ki_modrefs _ Hi).
  - unfold put_device, ubbd_kring_free_minor. simpl. rewrite lookup_insert_eq. simpl.
    do 3 eexists. split; [done|].
    assert (set_ks_devs (delete h (<[h := mk_kdev minor (Some q) 1]> (ks_devs s)))
      (set_ks_idr (delete minor (<[minor := h]> (ks_idr s)))
        (set_ks_devs (<[h := mk_kdev minor (Some q) 1]> (ks_devs s))
          (set_ks_idr (<[minor := h]> (ks_idr s)) s))) = s) as Es.
    { rewrite !delete_insert_eq, !delete_id by done. by destruct s. }
    unfold set_ks_devs, set_ks_idr in *. simpl in *. rewrite Es. split; [done|]. by left.
Qed.

Lemma kring_inv_initial b : kring_inv (kring_initial b).
Proof. split; simpl; intros *; rewrite ?lookup_empty; done. Qed.

(** One enabled operation goes through and keeps the invariant. *)
Lemma kring_step_inv op s :
  kring_inv s -> enabled op s -> exists s', kring_step op s = Ok s' /\ kring_inv s'.
Proof.
  intros Hi He. destruct op as [env q|minor f ev mok kok|f|h]; simpl in *.
  - destruct (register_spec env q (mk_info None NAME_LIVE) s Hi He) as (? & ? & s' & E & Hi' & _).
    unfold ubbd_queue_kring_init. cbn [negb ki_dev]. rewrite E. simpl. eauto.
  - destruct (open_spec s minor f ev mok kok Hi He) as (? & ? & s' & E & Hi' & _).
    rewrite E. simpl. eauto.
  - destruct (release_spec s f Hi He) as (s' & E & Hi' & _). eauto.
  - destruct He as (d & q & Hd & Hq).
    destruct (unregister_spec s h d q NAME_FREED Hi Hd Hq) as (s' & E & Hi' & _).
    unfold ubbd_queue_kring_destroy, kfree_name. cbn [ki_name obind ki_dev]. rewrite E. simpl. eauto.
Qed.

Lemma kring_reach_inv b s : kring_reach b s -> kring_inv s.
Proof.
  induction 1 as [|s op s' _ IH He E]; [apply kring_inv_initial|].
  destruct (kring_step_inv op s IH He) as (s'' & E' & Hi). congruence.
Qed.
End lemmas.

(** ** Properties *)

Section properties.
Context `{IL : KernelIdrLaws}.

(** Kring devices are never used after they are freed, and none is leaked.
    In every state reached by any sequence of registrations (whatever fails in
    them), opens, releases and unregistrations, each run to its end, a further
    operation never faults; a device's references are its open files plus one
    while registered, so it is freed exactly when it is unregistered and its
    last file is closed; and the module references are the open files. *)
Theorem kring_no_use_after_free (b : bool) (s : kring_state) (op : kring_op) :
  kring_reach b s -> enabled op s ->
  (exists s', kring_step op s = Ok s') /\
  (forall h d, ks_devs s !! h = Some d -> kd_refs d = opens s h + registered_ref d /\ 0 < kd_refs d) /\
  ks_modrefs s = Z.of_nat (size (ks_files s)).
Proof.
  intros Hr He. pose proof (kring_reach_inv b s Hr) as Hi. split_and!.
  - destruct (kring_step_inv op s Hi He) as (s' & E & _). eauto.
  - apply (ki_refs _ Hi).
  - apply (ki_modrefs _ Hi).
Qed.

(** [ubbd_kring_open] unwinds.  On each failure (no such minor, the module
    going away, no memory, the device unregistered) the state is exactly the
    one before; on success, closing the file brings the references, the minor
    table and the files back. *)
Theorem kring_open_release_roundtrip (s : kring_state) (minor f ev : Z) (mok kok : bool) :
  kring_inv s -> ks_files s !! f = None ->
  exists ret opened s', ubbd_kring_open minor f ev mok kok s = Ok (ret, opened, s') /\
    ((ret < 0 /\ s' = s) \/
     (ret = 0 /\ ks_files s' !! f <> None /\
      exists s2, ubbd_kring_release f s' = Ok s2 /\ ks_files s2 = ks_files s /\
        ks_modrefs s2 = ks_modrefs s /\ ks_idr s2 = ks_idr s')).
Proof.
  intros Hi Hf. destruct (open_spec s minor f ev mok kok Hi Hf)
    as (ret & opened & s' & E & Hi' & [(? & ? & _)|(-> & h & d & Hm & Hd & _ & Ef & En)]).
  - exists ret, opened, s'. split; [done|]. by left.
  - exists 0, opened, s'. split; [done|]. right. split; [done|].
    assert (ks_files s' !! f = Some (mk_listener h ev)) as Hl
      by (rewrite Ef; apply lookup_insert_eq).
    split; [by rewrite Hl|].
    destruct (release_spec s' f Hi' ltac:(eauto)) as (s2 & E2 & _ & Ef2 & En2 & Ei2).
    exists s2. split_and!; [done| |lia|done]. rewrite Ef2, Ef. by apply delete_insert_id.
Qed.

(** The unregistration is not safe against a concurrent open.  The device
    is released before its minor is taken out of the table, so an open that
    runs between the two, on a device without open files, takes a reference on
    freed memory. *)
Theorem open_during_unregister_faults (s : kring_state) (h : Z) (d : kring_device) (q f ev : Z) :
  kring_inv s -> ks_devs s !! h = Some d -> kd_info d = Some q -> opens s h = 0 ->
  exists s1, unregister_device_part h s = Ok s1 /\
    ubbd_kring_open (kd_minor d) f ev true true s1 = Fault WILD_ACCESS.
Proof.
  intros Hi Hd Hq Ho. destruct (ki_refs _ Hi _ _ Hd) as [Hr _].
  pose proof (ki_minor _ Hi _ _ _ Hd Hq) as Hm.
  unfold registered_ref in Hr. rewrite Hq, Ho in Hr.
  unfold unregister_device_part, put_device. rewrite Hd. cbn [deref obind ks_devs set_ks_devs].
  rewrite lookup_insert_eq. cbn [deref obind kd_refs]. rewrite Hr. cbn [Z.add Z.eqb Pos.eqb].
  eexists. split; [done|]. unfold ubbd_kring_open, open_found, get_device.
  cbn [ks_idr set_ks_devs ks_devs]. rewrite Hm, delete_insert_eq, lookup_delete_eq. done.
Qed.

(** A write to a file kept open over the removal of its queue faults:
    [ubbd_kring_write] calls through [idev->info] without testing it, and the
    unregistration has set it to NULL. *)
Theorem write_after_unregister_faults `{A : UbbdAbi} `{K : KernelApi} `{M : KernelMem}
    (s : kring_state) (f ev h : Z) (d : kring_device) (qi : Z) (n : name_ptr)
    (fuel : nat) (q : ubbd_queue) (w : world) :
  kring_inv s -> ks_files s !! f = Some (mk_listener h ev) ->
  ks_devs s !! h = Some d -> kd_info d = Some qi ->
  exists s', ubbd_kring_unregister_device (mk_info (Some h) n) s = Ok s' /\
    ubbd_kring_write fuel f s' q w = Fault NULL_DEREF.
Proof.
  intros Hi Hf Hd Hq. destruct (unregister_spec s h d qi n Hi Hd Hq)
    as (s' & E & _ & _ & Ef & _ & Ed).
  exists s'. split; [done|]. unfold ubbd_kring_write. rewrite Ef, Hf. cbn [deref obind ls_dev].
  rewrite Ed. pose proof (opens_pos s f _ Hf) as Hp. simpl in Hp.
  destruct (Z.eqb_spec (opens s h) 0); [lia|]. rewrite lookup_insert_eq. done.
Qed.
End properties.

(** ** Witnesses *)

(** A device at handle 5 under minor 0, without and with an open file. *)
Definition demo_kring : kring_state :=
  mk_kring true {[0 := 5]} {[5 := mk_kdev 0 (Some 0) 1]} ∅ 0.

Definition demo_kring_open : kring_state :=
  mk_kring true {[0 := 5]} {[5 := mk_kdev 0 (Some 0) 2]} {[40 := mk_listener 5 0]} 1.

Lemma demo_kring_reach : kring_reach true demo_kring.
Proof.
  eapply (reach_step true (kring_initial true) (OpRegister (mk_register_env (Some 5) 0 0) 0)).
  - constructor.
  - reflexivity.
  - vm_compute. reflexivity.
Qed.

Lemma demo_kring_open_reach : kring_reach true demo_kring_open.
Proof.
  eapply (reach_step true demo_kring (OpOpen 0 40 0 true true)).
  - apply demo_kring_reach.
  - reflexivity.
  - vm_compute. reflexivity.
Qed.

Lemma kring_no_use_after_free_witness : exists s', kring_step (OpUnregister 5) demo_kring_open = Ok s'.
Proof.
  apply (kring_no_use_after_free true demo_kring_open (OpUnregister 5) demo_kring_open_reach).
  exists (mk_kdev 0 (Some 0) 2), 0. split; reflexivity.
Defined.

Lemma kring_open_release_roundtrip_witness :
  exists ret opened s', ubbd_kring_open 0 41 3 true true demo_kring_open = Ok (ret, opened, s') /\ ret <= 0.
Proof.
  destruct (kring_open_release_roundtrip demo_kring_open 0 41 3 true true
    (kring_reach_inv _ _ demo_kring_open_reach) eq_refl) as (ret & opened & s' & E & Hr).
  exists ret, opened, s'. split; [exact E|]. destruct Hr as [[? _]|[-> _]]; lia.
Defined.

Lemma open_during_unregister_faults_witness :
  exists s1, unregister_device_part 5 demo_kring = Ok s1 /\
    ubbd_kring_open 0 40 0 true true s1 = Fault WILD_ACCESS.
Proof.
  apply (open_during_unregister_faults demo_kring 5 (mk_kdev 0 (Some 0) 1) 0 40 0
    (kring_reach_inv _ _ demo_kring_reach)); reflexivity.
Defined.

Lemma write_after_unregister_faults_witness :
  exists s', ubbd_kring_unregister_device (mk_info (Some 5) NAME_LIVE) demo_kring_open = Ok s' /\
    forall q w, ubbd_kring_write (A := demo_abi) (K := demo_kernel) (M := demo_mem) 1 40 s' q w = Fault NULL_DEREF.
Proof.
  eexists. split; [vm_compute; reflexivity|]. intros q w.
  destruct (write_after_unregister_faults demo_kring_open 40 0 5 (mk_kdev 0 (Some 0) 2) 0 NAME_LIVE 1 q w
    (kring_reach_inv _ _ demo_kring_open_reach) eq_refl eq_refl eq_refl) as (s' & E & H).
  vm_compute in E. injection E as <-. exact H.
Defined.
