(* ===== verification/KringNotify.v ===== *)
(** * Notifications, attributes and managed registration of a kring device

    Models the rest of [src/src/ubbd_kring.c]: the sysfs attributes
    [version_show] and [event_show] (30-89; [name_show] is in [Kring]), the
    event counter with its waiters and SIGIO listeners ([ubbd_kring_fasync],
    and what [ubbd_kring_event_notify] and [ubbd_kring_unregister_device] send
    them), and the registration tied to a parent device
    ([__devm_ubbd_kring_register_device]). *)

From S2P Require Import Prelude Abi Ring Pages Request Queue Kring KringLife.

(** ** Attributes *)

Section attributes.
Context `{A : UbbdAbi}.

(** An error number, or the version whose text is printed: [info->version] is
    the string of [UBBD_SB_VERSION]. *)
Definition version_show (h : Z) (s : kring_state) : outcome (Z + Z) :=
  let* d := deref (ks_devs s !! h) WILD_ACCESS in
  match kd_info d with
  | None => Ok (inl (- EINVAL))
  | Some _ => Ok (inr UBBD_SB_VERSION)
  end.

(** The event counter, an [atomic_t], is printed as an unsigned number. *)
Definition event_show (h event : Z) (s : kring_state) : outcome Z :=
  let* _ := deref (ks_devs s !! h) WILD_ACCESS in Ok (u32 event).

(** [ubbd_kring_attrs] *)
Inductive kring_attr : Type := ATTR_NAME | ATTR_VERSION | ATTR_EVENT.
Definition ubbd_kring_attrs : list kring_attr := [ATTR_NAME; ATTR_VERSION; ATTR_EVENT].
End attributes.

(** ** Events *)

(** [fasync_helper] on the list of a device's SIGIO listeners, by file. *)
Class KernelFasync := {
  fasync_helper : Z -> Z -> bool -> list Z -> Z * list Z;
}.

(** Off, the file leaves the list; on, it enters it once, or nothing changes and
    an error is returned. *)
Class KernelFasyncLaws `(F : KernelFasync) : Prop := {
  fasync_off fd f l : snd (fasync_helper fd f false l) = filter (fun g => g <> f) l;
  fasync_on fd f l :
    let '(r, l') := fasync_helper fd f true l in
    (r < 0 /\ l' = l) \/ (0 <= r /\ l' = if decide (f ∈ l) then l else f :: l);
}.

#[export] Instance demo_fasync : KernelFasync := {|
  fasync_helper fd f on l :=
    if on then (if decide (f ∈ l) then (0, l) else (1, f :: l))
    else (Z.b2z (bool_decide (f ∈ l)), filter (fun g => g <> f) l);
|}.

#[export] Instance demo_fasync_laws : KernelFasyncLaws demo_fasync.
Proof.
  split; [done|]. intros fd f l. simpl. by destruct (decide (f ∈ l)) as [H|H]; right.
Qed.

(** Why a listener gets SIGIO. *)
Inductive sigio_band : Type := POLL_IN | POLL_HUP.

(** [event], [async_queue] and whether [info] is there, with the wake-ups of
    [wait] and the signals sent so far. *)
Record notify_state : Type := mk_notify {
  nt_registered : bool;
  nt_event : Z;
  nt_async : list Z;
  nt_wakeups : Z;
  nt_signals : list (Z * sigio_band);
}.

Section events.
Context `{F : KernelFasync}.

Definition wake_up_interruptible (s : notify_state) : notify_state :=
  mk_notify (nt_registered s) (nt_event s) (nt_async s) (nt_wakeups s + 1) (nt_signals s).

Definition kill_fasync (band : sigio_band) (s : notify_state) : notify_state :=
  mk_notify (nt_registered s) (nt_event s) (nt_async s) (nt_wakeups s)
    (nt_signals s ++ map (fun f => (f, band)) (nt_async s)).

Definition ubbd_kring_fasync (fd file : Z) (on : bool) (s : notify_state) : Z * notify_state :=
  let '(ret, l) := fasync_helper fd file on (nt_async s) in
  (ret, mk_notify (nt_registered s) (nt_event s) l (nt_wakeups s) (nt_signals s)).

(** The whole of [ubbd_kring_event_notify]. *)
Definition event_notify (s : notify_state) : notify_state :=
  wake_up_interruptible
    (mk_notify (nt_registered s) (ubbd_kring_event_notify (nt_event s)) (nt_async s) (nt_wakeups s) (nt_signals s)).

(** What [ubbd_kring_unregister_device] does to the listeners. *)
Definition unregister_notify (s : notify_state) : notify_state :=
  kill_fasync POLL_HUP
    (wake_up_interruptible (mk_notify false (nt_event s) (nt_async s) (nt_wakeups s) (nt_signals s))).

Inductive notify_op : Type :=
| NEvent
| NFasync (fd file : Z) (on : bool)
| NUnregister.

Definition notify_step (op : notify_op) (s : notify_state) : notify_state :=
  match op with
  | NEvent => event_notify s
  | NFasync fd file on => (ubbd_kring_fasync fd file on s).2
  | NUnregister => unregister_notify s
  end.

Definition notify_run (ops : list notify_op) (s : notify_state) : notify_state := foldl (fun s op => notify_step op s) s ops.

(** A device just registered. *)
Definition notify_start : notify_state := mk_notify true 0 [] 0 [].
End events.

(** ** Managed registration *)

(** The nodes [devres_alloc] has given and not taken back, and the ones attached
    to the parent: each holds the pointer to an info, here its queue. *)
Record devres : Type := mk_devres {
  dr_nodes : Z;
  dr_attached : list Z;
}.

Section devm.
Context `{I : KernelIdr}.

Definition __devm_ubbd_kring_register_device (env : register_env) (devres_ok : bool) (q_index : Z) (parent : bool)
    (info : kring_info) (s : kring_state) (dr : devres) : outcome (Z * kring_info * kring_state * devres) :=
  if negb devres_ok then Ok (- ENOMEM, info, s, dr)
  else
    let dr := mk_devres (dr_nodes dr + 1) (dr_attached dr) in
    let* '(ret, info, s) := __ubbd_kring_register_device env q_index parent info s in
    if negb (ret =? 0) then Ok (ret, info, s, mk_devres (dr_nodes dr - 1) (dr_attached dr))
    else Ok (0, info, s, mk_devres (dr_nodes dr) (dr_attached dr ++ [q_index])).

(** The release function of a node; [infos] gives the info of a queue. *)
Definition devm_ubbd_kring_unregister_device (infos : Z -> kring_info) (res : Z) (s : kring_state)
  : outcome kring_state :=
  ubbd_kring_unregister_device (infos res) s.
End devm.

(** ** Properties *)

Section properties.
Context `{A : UbbdAbi} `{IL : KernelIdrLaws} `{FL : KernelFasyncLaws}.

(** The attributes of a device can be read as long as the device is there, also
    after it has been unregistered: the version is refused then. *)
Theorem attributes_readable (h event : Z) (d : kring_device) (s : kring_state) :
  ks_devs s !! h = Some d ->
  version_show h s = Ok (if bool_decide (is_Some (kd_info d)) then inr UBBD_SB_VERSION else inl (- EINVAL)) /\
  event_show h event s = Ok (u32 event).
Proof. unfold version_show, event_show. intros ->. cbn [deref obind]. by destruct (kd_info d). Qed.

Lemma s32_mod x : s32 x mod 2 ^ 32 = x mod 2 ^ 32.
Proof.
  unfold s32. rewrite Zminus_mod, Z.mod_mod, <- Zminus_mod by lia. f_equal. lia.
Qed.

(** The notifications of a sequence of operations. *)
Fixpoint events_in (ops : list notify_op) : Z :=
  match ops with
  | [] => 0
  | NEvent :: ops => 1 + events_in ops
  | _ :: ops => events_in ops
  end.

Definition is_unregister (op : notify_op) : bool := match op with NUnregister => true | _ => false end.

Lemma fasync_nodup fd f on l : NoDup l -> NoDup (snd (fasync_helper fd f on l)).
Proof.
  intros Hl. destruct on; [|rewrite fasync_off; by apply NoDup_filter].
  pose proof (fasync_on fd f l) as H. destruct (fasync_helper fd f true l) as [r l']. simpl.
  destruct H as [[_ ->]|[_ ->]]; [done|]. case_decide; [done|]. by apply NoDup_cons.
Qed.

Lemma fasync_keeps fd f on s :
  let s' := (ubbd_kring_fasync fd f on s).2 in
  nt_signals s' = nt_signals s /\ nt_wakeups s' = nt_wakeups s /\ nt_event s' = nt_event s /\
  (NoDup (nt_async s) -> NoDup (nt_async s')).
Proof.
  unfold ubbd_kring_fasync. pose proof (fasync_nodup fd f on (nt_async s)) as H.
  by destruct (fasync_helper fd f on (nt_async s)).
Qed.

Lemma notify_run_spec ops s :
  Forall (fun op => is_unregister op = false) ops -> NoDup (nt_async s) ->
  let s' := notify_run ops s in
  nt_signals s' = nt_signals s /\ nt_wakeups s' = nt_wakeups s + events_in ops /\
  u32 (nt_event s') = u32 (nt_event s + events_in ops) /\ NoDup (nt_async s').
Proof.
  intros Hu. revert s. induction Hu as [|op ops Hop _ IH]; intros s Hn; cbn [notify_run foldl events_in].
  { rewrite !Z.add_0_r. done. }
  specialize (IH (notify_step op s)). unfold notify_run in IH. destruct op as [|fd f on|]; [| |done].
  - destruct IH as (-> & -> & -> & ?); [done|]. simpl. split_and!; [done|lia| |done].
    unfold u32, ubbd_kring_event_notify. rewrite Zplus_mod, s32_mod, <- Zplus_mod. f_equal. lia.
  - cbn [notify_step] in *. destruct (fasync_keeps fd f on s) as (E1 & E2 & E3 & Hd).
    destruct IH as (-> & -> & -> & ?); [by apply Hd|]. by rewrite E1, E2, E3.
Qed.

(** SIGIO tells of the end of the device and of nothing else.  After any number
    of notifications and of listeners coming and going, every notification has
    woken the waiters and moved the counter, but no signal has been sent; the
    unregistration sends POLL_HUP once to each listener. *)
Theorem sigio_only_at_unregister (ops : list notify_op) :
  Forall (fun op => is_unregister op = false) ops ->
  let s := notify_run ops notify_start in
  nt_signals s = [] /\ nt_wakeups s = events_in ops /\ u32 (nt_event s) = u32 (events_in ops) /\
  NoDup (nt_async s) /\ nt_signals (unregister_notify s) = map (fun f => (f, POLL_HUP)) (nt_async s).
Proof.
  intros Hu. destruct (notify_run_spec ops notify_start Hu) as (H1 & H2 & H3 & H4); [constructor|].
  cbv zeta. rewrite H1, H2, H3. split_and!; try done.
  unfold unregister_notify, kill_fasync, wake_up_interruptible. cbn [nt_signals nt_async]. by rewrite H1.
Qed.

(** A managed registration is all or nothing: on any error no device, no minor
    and no node is left; on success the node attached to the parent takes the
    device back when the parent goes. *)
Theorem devm_register_balanced (env : register_env) (ok : bool) (q : Z) (info : kring_info) (s : kring_state)
    (dr : devres) :
  kring_inv s -> match re_kzalloc env with Some h => ks_devs s !! h = None | None => True end ->
  exists ret info' s' dr', __devm_ubbd_kring_register_device env ok q true info s dr = Ok (ret, info', s', dr') /\
    (ret <> 0 -> s' = s /\ dr' = dr) /\
    (ret = 0 -> dr_nodes dr' = dr_nodes dr + 1 /\ dr_attached dr' = dr_attached dr ++ [q] /\
       forall infos, infos q = info' -> exists s2, devm_ubbd_kring_unregister_device infos q s' = Ok s2 /\
         ks_idr s2 = ks_idr s /\ ks_devs s2 = ks_devs s /\ ks_files s2 = ks_files s /\
         ks_modrefs s2 = ks_modrefs s).
Proof.
  intros Hi Hh. unfold __devm_ubbd_kring_register_device. destruct ok; cbn [negb].
  2: { do 4 eexists. split; [done|]. split; done. }
  destruct (register_spec env q info s Hi Hh) as (ret & info' & s' & E & Hi' & Hr). rewrite E. cbn [obind].
  destruct Hr as [[Hne ->]|(-> & h & m & Ek & Ed & Hm & Eidr & Edevs & Ef & En)].
  - rewrite (proj2 (Z.eqb_neq _ _) Hne). do 4 eexists. split; [done|]. split; [|done]. intros _. split; [done|].
    destruct dr. simpl. f_equal. lia.
  - do 4 eexists. split; [done|]. split; [done|]. intros _. split; [done|]. split; [done|]. intros infos Hinf.
    rewrite Ek in Hh. unfold devm_ubbd_kring_unregister_device. rewrite Hinf.
    destruct info' as [hd n]. simpl in Ed. subst hd.
    destruct (unregister_spec s' h (mk_kdev m (Some q) 1) q n Hi') as (s2 & E2 & _ & E3 & E4 & E5 & E6);
      [rewrite Edevs; apply lookup_insert_eq|done|].
    exists s2. split; [done|]. split_and!.
    + rewrite E3, Eidr. simpl. by rewrite delete_insert_id.
    + assert (opens s' h = 0) as Eo.
      { apply opens_zero. rewrite Ef. intros f l Hf <-. destruct (ki_files _ Hi _ _ Hf). congruence. }
      rewrite E6, Eo. simpl. rewrite Edevs. by rewrite delete_insert_id.
    + congruence.
    + congruence.
Qed.
End properties.
