(* ===== verification/KringMap.v ===== *)
(** * What the backend sees: mappings, faults and events

    Properties of the memory side of [src/src/ubbd_kring.c]: the addresses the
    driver writes into the ring resolve to the right pages, the mapping of a
    queue is exclusive, and readers of the event counter. *)

From stdpp Require Import relations.
From S2P Require Import Prelude Abi Ring Pages Request Queue Kring.

(** ** Addresses *)

Section addresses.
Context `{L : UbbdAbiLaws} `{KL : KernelApiLaws} `{ML : KernelMemLaws}.
Implicit Types (p : data_pool).

Lemma PAGE_SIZE_bound : 2 ^ 12 <= PAGE_SIZE <= 2 ^ 16.
Proof.
  unfold PAGE_SIZE. pose proof page_shift_bound.
  split; apply Z.pow_le_mono_r; lia.
Qed.

(** Layout of the mapping: the rings, then the data pages. *)
Record layout_ok (p : data_pool) : Prop := {
  lo_off : 0 <= data_off p < 2 ^ 62;
  lo_align : (PAGE_SIZE | data_off p);
}.

Lemma fault_data p i :
  layout_ok p -> 0 <= i < 2 ^ 32 ->
  ubbd_vma_fault p (data_off p / PAGE_SIZE + i) =
    match data_pages_array p !! i with Some pg => FAULT_DATA pg | None => FAULT_SIGBUS end.
Proof.
  intros [Ho [k Hk]] Hi. pose proof PAGE_SIZE_bound. pose proof page_shift_bound.
  unfold ubbd_vma_fault, ubbd_try_get_data_page.
  rewrite Z.shiftl_mul_pow2 by lia. fold PAGE_SIZE.
  rewrite Hk in *. rewrite Z.div_mul by lia.
  replace ((k + i) * PAGE_SIZE) with (k * PAGE_SIZE + i * PAGE_SIZE) by lia.
  assert (0 <= i * PAGE_SIZE <= 2 ^ 32 * 2 ^ 16) by nia.
  rewrite u64_small by lia.
  destruct (Z.ltb_spec (k * PAGE_SIZE + i * PAGE_SIZE) (k * PAGE_SIZE)); [lia|].
  replace (k * PAGE_SIZE + i * PAGE_SIZE - k * PAGE_SIZE) with (i * PAGE_SIZE) by lia.
  rewrite Z.div_mul by lia. by rewrite u32_small by lia.
Qed.

(** The address of byte [o] of a segment through its iovec. *)
Definition iov_address (p : data_pool) (i : Z) (bv : bio_vec) (o : Z) : Z :=
  (iov_of (data_off p) i bv).1 + (o - bv_offset bv).

Lemma iov_address_eq p i bv o :
  layout_ok p -> 0 <= i < 2 ^ 32 -> 0 <= bv_offset bv <= PAGE_SIZE ->
  iov_address p i bv o = data_off p + i * PAGE_SIZE + o.
Proof.
  intros [Ho _] Hi Hb. pose proof PAGE_SIZE_bound. unfold iov_address, iov_of. simpl.
  assert (0 <= i * PAGE_SIZE <= 2 ^ 32 * 2 ^ 16) by nia.
  rewrite (u64_small (i * PAGE_SIZE)), u64_small by lia. lia.
Qed.

(** *** The range unmapped on release *)

Lemma unmap_offset_eq p v :
  layout_ok p -> 0 <= v < 2 ^ 31 ->
  s64 (data_off p + s32 (v * 4096)) = data_off p + v * PAGE_SIZE <->
  v = 0 \/ (PAGE_SHIFT = 12 /\ v < 2 ^ 19).
Proof.
  intros [Ho _] Hv. pose proof PAGE_SIZE_bound. pose proof page_shift_bound.
  assert (- 2 ^ 31 <= s32 (v * 4096) < 2 ^ 31) as Hs
    by (unfold s32; pose proof (Z.mod_pos_bound (v * 4096 + 2 ^ 31) (2 ^ 32)); lia).
  rewrite s64_small by lia.
  assert (PAGE_SHIFT = 12 <-> PAGE_SIZE = 4096) as Hps.
  { unfold PAGE_SIZE. split; [by intros ->|]. change 4096 with (2 ^ 12). intros E.
    apply Z.pow_inj_r in E; lia. }
  destruct (Z.ltb_spec v (2 ^ 19)) as [Hlt|Hge].
  - rewrite s32_small by lia. rewrite Hps. split; [nia|]. intros [->|[-> _]]; lia.
  - split; [|lia]. intros E. exfalso. nia.
Qed.

(** What a release that frees the page tells the backend's mapping. *)
Lemma release_unmap_log p km F req n i v pg :
  pool_inv p km ∅ F -> req_wf req n -> (i < n)%nat -> pi_slots req !! i = Some v ->
  0 <= v < 2 ^ 31 -> Z.of_nat i < 2 ^ 32 -> is_Some (q_inode p) ->
  data_pages_array p !! v = Some pg -> data_pages_reserved p < data_pages_allocated p ->
  exists p' km', ubbd_release_page p km req (Z.of_nat i) = Ok (p', km') /\
    unmap_log p' = unmap_log p ++ [(s64 (data_off p + s32 (v * 4096)), 2)] /\
    data_pages_array p' !! v = None /\ live km' = live km ∖ {[pg]}.
Proof.
  intros Hi Hw Hn Hv Hr Hi32 [ino Hino] Hpg Hra. unfold ubbd_release_page.
  rewrite u32_small by lia. rewrite (proj2 (get_pi_spec req n i v Hw Hn) Hv). cbn [obind].
  rewrite (s32_small v) by lia.
  change (data_pages_reserved (set_bitmap _ p)) with (data_pages_reserved p).
  change (data_pages_allocated (set_bitmap _ p)) with (data_pages_allocated p).
  destruct (Z.ltb_spec (data_pages_reserved p) (data_pages_allocated p)); [|lia].
  change (data_pages_array (set_bitmap _ p)) with (data_pages_array p). rewrite Hpg.
  unfold ubbd_kring_unmap_range. simpl. rewrite Hino. simpl.
  do 2 eexists. split; [done|]. simpl. split_and!; [done|apply lookup_delete_eq|].
  apply free_page_live.
Qed.
End addresses.

(** ** Mappings as a state machine *)

Section mappings.
Context `{A : UbbdAbi} `{K : KernelApi} `{M : KernelMem}.

(** The queue, the references of its device and its live mappings. *)
Record map_state : Type := mk_map_state {
  ms_queue : ubbd_queue;
  ms_refs : Z;
  ms_maps : list vma;
}.

(** An [mmap] of a registered device, a fork (or split) that duplicates a
    mapping, an unmap. *)
Inductive map_step : map_state -> map_state -> Prop :=
| step_mmap pid v s q refs :
    ubbd_kring_mmap true pid v (ms_queue s) (ms_refs s) = (0, q, refs) ->
    map_step s (mk_map_state q refs (v :: ms_maps s))
| step_fork v s :
    v ∈ ms_maps s ->
    map_step s (mk_map_state (ms_queue s) (ubbd_vma_open (ms_refs s)) (v :: ms_maps s))
| step_unmap v l1 l2 s q refs :
    ms_maps s = l1 ++ v :: l2 ->
    ubbd_vma_close v (ms_queue s) (ms_refs s) = (q, refs) ->
    map_step s (mk_map_state q refs (l1 ++ l2)).

(** The steps of a backend that does not fork and maps for writing. *)
Inductive plain_step : map_state -> map_state -> Prop :=
| plain_mmap pid v s q refs :
    vm_write v = true ->
    ubbd_kring_mmap true pid v (ms_queue s) (ms_refs s) = (0, q, refs) ->
    plain_step s (mk_map_state q refs (v :: ms_maps s))
| plain_unmap v l1 l2 s q refs :
    ms_maps s = l1 ++ v :: l2 ->
    ubbd_vma_close v (ms_queue s) (ms_refs s) = (q, refs) ->
    plain_step s (mk_map_state q refs (l1 ++ l2)).
End mappings.

Section map_lemmas.
Context `{L : UbbdAbiLaws} `{KL : KernelApiLaws} `{ML : KernelMemLaws}.

(** The size test of [ubbd_kring_mmap] lets through what the driver's accepts. *)
Lemma mmap_eq registered pid v q refs :
  0 <= q_mmap_pages q < 2 ^ 40 ->
  ubbd_kring_mmap registered pid v q refs =
    if negb registered || negb (vm_pages v =? q_mmap_pages q) then (- EINVAL, q, refs)
    else if q_has_backend q then (- EBUSY, q, refs)
    else (0, set_q_backend true pid q, refs + 1).
Proof.
  intros Hm. pose proof PAGE_SIZE_bound. pose proof page_shift_bound.
  unfold ubbd_kring_mmap, ubbd_kring_dev_mmap. destruct registered; [|done]. cbn [negb orb].
  rewrite Z.shiftl_mul_pow2, Z.shiftr_div_pow2 by lia. fold PAGE_SIZE.
  assert (0 <= q_mmap_pages q * PAGE_SIZE <= 2 ^ 40 * 2 ^ 16) by nia.
  rewrite !u64_small by (rewrite ?u64_small; lia).
  replace ((q_mmap_pages q * PAGE_SIZE + PAGE_SIZE - 1) / PAGE_SIZE) with (q_mmap_pages q).
  2: { apply (Z.div_unique _ _ _ (PAGE_SIZE - 1)); lia. }
  destruct (Z.ltb_spec (q_mmap_pages q) (vm_pages v)), (Z.eqb_spec (vm_pages v) (q_mmap_pages q));
    cbn [negb]; done || lia.
Qed.

(** A successful [mmap]. *)
Lemma mmap_ok pid v q refs q' refs' :
  ubbd_kring_mmap true pid v q refs = (0, q', refs') ->
  q_has_backend q = false /\ vm_pages v = q_mmap_pages q /\
  q' = set_q_backend true pid q /\ refs' = refs + 1.
Proof.
  assert (0 < EINVAL /\ 0 < EBUSY) as [? ?] by (unfold EINVAL, EBUSY; lia).
  unfold ubbd_kring_mmap, ubbd_kring_dev_mmap. cbn [negb]. cbv zeta.
  destruct (_ <? _); [intros [= ? ? ?]; lia|].
  destruct (Z.eqb_spec (vm_pages v) (q_mmap_pages q)); cbn [negb]; [|intros [= ? ? ?]; lia].
  destruct (q_has_backend q); [intros [= ? ? ?]; lia|]. by intros [= <- <-].
Qed.

Lemma map_refs s s' :
  rtc map_step s s' ->
  ms_refs s' - Z.of_nat (length (ms_maps s')) = ms_refs s - Z.of_nat (length (ms_maps s)).
Proof.
  induction 1 as [|s1 s2 s3 Hst _ IH]; [done|]. rewrite IH.
  destruct Hst as [pid v s q refs E|v s Hin|v l1 l2 s q refs Hl E]; simpl.
  - apply mmap_ok in E as (_ & _ & _ & ->). lia.
  - unfold ubbd_vma_open. lia.
  - unfold ubbd_vma_close in E. injection E as _ <-. rewrite Hl, !length_app. simpl. lia.
Qed.

Definition backend_inv (s : map_state) : Prop :=
  Forall (fun v => vm_write v = true) (ms_maps s) /\
  match ms_maps s with
  | [] => q_has_backend (ms_queue s) = false
  | [_] => q_has_backend (ms_queue s) = true
  | _ => False
  end.

Lemma backend_inv_steps s s' : rtc plain_step s s' -> backend_inv s -> backend_inv s'.
Proof.
  induction 1 as [|s1 s2 s3 Hst _ IH]; [done|]. intros [Hw Hb]. apply IH.
  destruct Hst as [pid v s q refs Hv E|v l1 l2 s q refs Hl E].
  - apply mmap_ok in E as (Hnb & _ & -> & _). unfold backend_inv. simpl.
    destruct (ms_maps s) as [|v1 [|v2 l]]; [|congruence|done]. split; [by constructor|done].
  - unfold ubbd_vma_close in E. rewrite Hl in *. apply Forall_app in Hw as [Hw1 Hw2].
    apply Forall_cons in Hw2 as [Hwv Hw2]. simpl in Hwv. rewrite Hwv in E. injection E as <- _.
    unfold backend_inv. simpl. destruct l1 as [|v1 l1]; simpl in *.
    + destruct l2; [|done]. split; [constructor|done].
    + by destruct l1.
Qed.
End map_lemmas.

(** The three facts about a finished read. *)
Ltac read_round_done := split_and!; [done|split; [done|naive_solver]|done].

(** ** Properties *)

Section properties.
Context `{L : UbbdAbiLaws} `{KL : KernelApiLaws} `{ML : KernelMemLaws}.

(** The backend finds the data where the ring says.  For every byte [o] of
    a segment (which lies in one page), the address the submission entry gives
    for it faults in exactly the data page recorded for the segment's index,
    at the same offset [o] in the page where the driver copies the byte. *)
Theorem iov_resolves_to_data_page (p : data_pool) (i pg : Z) (bv : bio_vec) (o : Z) :
  layout_ok p -> 0 <= i < 2 ^ 32 -> data_pages_array p !! i = Some pg ->
  0 <= bv_offset bv -> bv_offset bv + bv_len bv <= PAGE_SIZE -> in_seg bv o ->
  ubbd_vma_fault p (iov_address p i bv o / PAGE_SIZE) = FAULT_DATA pg /\
  iov_address p i bv o mod PAGE_SIZE = o.
Proof.
  intros Hl Hi Hpg Hb0 Hb1 Ho. unfold in_seg in Ho. pose proof PAGE_SIZE_bound.
  rewrite (iov_address_eq p i bv o Hl Hi) by lia.
  destruct (lo_align _ Hl) as [k Hk].
  assert (data_off p + i * PAGE_SIZE + o = o + (data_off p / PAGE_SIZE + i) * PAGE_SIZE) as ->
    by (rewrite Hk, Z.div_mul by lia; lia).
  rewrite Z.div_add, Z.mod_add, Z.div_small, Z.mod_small, Z.add_0_l by lia.
  split; [|done]. rewrite fault_data by done. by rewrite Hpg.
Qed.

(** C34: when a release frees a data page, the range it unmaps from the backend
    starts at that page exactly when the index is 0, or the page size is 4096
    and the index is below 2^19: the offset is computed with the constant 4096
    in 32-bit arithmetic.  For any other index the backend keeps a mapping of a
    page that is back in the allocator. *)
Theorem release_unmaps_freed_page (p : data_pool) (km : kmem) (F : gset Z)
    (req : ubbd_request) (n i : nat) (v pg : Z) :
  pool_inv p km ∅ F -> req_wf req n -> (i < n)%nat -> pi_slots req !! i = Some v ->
  0 <= v < 2 ^ 31 -> Z.of_nat i < 2 ^ 32 -> is_Some (q_inode p) -> layout_ok p ->
  data_pages_array p !! v = Some pg -> data_pages_reserved p < data_pages_allocated p ->
  exists p' km' off, ubbd_release_page p km req (Z.of_nat i) = Ok (p', km') /\
    unmap_log p' = unmap_log p ++ [(off, 2)] /\ live km' = live km ∖ {[pg]} /\
    (off = data_off p + v * PAGE_SIZE <-> v = 0 \/ (PAGE_SHIFT = 12 /\ v < 2 ^ 19)).
Proof.
  intros Hi Hw Hn Hv Hr Hi32 Hino Hl Hpg Hra.
  destruct (release_unmap_log p km F req n i v pg Hi Hw Hn Hv Hr Hi32 Hino Hpg Hra)
    as (p' & km' & E & Hlog & _ & Hlv).
  exists p', km', (s64 (data_off p + s32 (v * 4096))). split_and!; [done..|].
  by apply unmap_offset_eq.
Qed.

(** A mapped queue keeps its device.  Over any sequence of mappings,
    forks and unmaps the references of the device grow and shrink with the
    number of live mappings, so it cannot be destroyed under one. *)
Theorem mappings_hold_device (s s' : map_state) :
  rtc map_step s s' ->
  ms_refs s' = ms_refs s + Z.of_nat (length (ms_maps s')) - Z.of_nat (length (ms_maps s)).
Proof. intros H. pose proof (map_refs s s' H). lia. Qed.

(** One backend at a time.  As long as backends map for writing and do not
    fork, a queue never has two live mappings, and it is marked as having a
    backend exactly while it has one. *)
Theorem backend_exclusive (s s' : map_state) :
  rtc plain_step s s' -> ms_maps s = [] -> q_has_backend (ms_queue s) = false ->
  (length (ms_maps s') <= 1)%nat /\
  (q_has_backend (ms_queue s') = true <-> ms_maps s' <> []).
Proof.
  intros H E Hb. destruct (backend_inv_steps s s' H) as [_ Hi].
  { unfold backend_inv. rewrite E. split; [constructor|done]. }
  destruct (ms_maps s') as [|v [|v2 l]]; simpl; [..|done]; split; try lia; rewrite Hi; done.
Qed.

(** The two ways the exclusion fails.  A mapping without [VM_WRITE] takes
    the queue and its unmap does not give it back, so every later mapping of
    the right size is refused with -EBUSY; and when a writable mapping is
    duplicated by a fork, the unmap of one copy clears the mark while the other
    lives, so a second process can map the queue. *)
Theorem backend_exclusion_gaps (q : ubbd_queue) (refs pid pid2 : Z) (v vr : vma) :
  0 <= q_mmap_pages q < 2 ^ 40 -> q_has_backend q = false ->
  vm_pages v = q_mmap_pages q -> vm_write v = true ->
  vm_pages vr = q_mmap_pages q -> vm_write vr = false ->
  (exists q1 refs1, rtc map_step (mk_map_state q refs []) (mk_map_state q1 refs1 []) /\
     (ubbd_kring_mmap true pid2 v q1 refs1).1.1 = - EBUSY) /\
  (exists s', rtc map_step (mk_map_state q refs []) s' /\ length (ms_maps s') = 2%nat /\
     q_backend_pid (ms_queue s') = pid2).
Proof.
  intros Hm Hb Hv Hw Hvr Hwr. split.
  - exists (set_q_backend true pid q), (refs + 1 - 1). split.
    + eapply rtc_l; [|eapply rtc_l; [|apply rtc_refl]].
      * apply (step_mmap pid vr). rewrite mmap_eq, Hvr, Z.eqb_refl by done. cbn [negb orb].
        simpl. by rewrite Hb.
      * apply (step_unmap vr [] []); [done|]. unfold ubbd_vma_close. by rewrite Hwr.
    + rewrite mmap_eq by done. simpl. by rewrite Hv, Z.eqb_refl.
  - eexists. split; [|split].
    + eapply rtc_l; [|eapply rtc_l; [|eapply rtc_l; [|eapply rtc_l; [|apply rtc_refl]]]].
      * apply (step_mmap pid v). rewrite mmap_eq, Hv, Z.eqb_refl by done. cbn [negb orb].
        simpl. by rewrite Hb.
      * apply (step_fork v). simpl. by apply list_elem_of_singleton.
      * apply (step_unmap v [] [v]); [done|]. unfold ubbd_vma_close. by rewrite Hw.
      * apply (step_mmap pid2 v). rewrite mmap_eq by done. simpl. by rewrite Hv, Z.eqb_refl.
    + done.
    + done.
Qed.

(** C35: a blocking read of the event counter is woken by the first change.
    [ubbd_kring_read] keeps sleeping over the rounds in which the device is
    registered, the counter is the one the listener knows and no signal is
    pending, and returns in the first round that differs; it returns 4 bytes
    exactly when the counter moved (and could be copied), and then the
    listener knows the new value. *)
Theorem read_returns_at_first_change (l : listener) (quiet : list read_round) (r : read_round)
    (rest : list read_round) :
  Forall (fun x => rd_registered x = true /\ rd_event x = ls_event_count l /\ rd_signal x = false) quiet ->
  ~ (rd_registered r = true /\ rd_event r = ls_event_count l /\ rd_signal r = false) ->
  ubbd_kring_read 4 false l quiet = None /\
  exists ret l', ubbd_kring_read 4 false l (quiet ++ r :: rest) = Some (ret, l') /\
    (ret = 4 <-> rd_registered r = true /\ rd_event r <> ls_event_count l /\ rd_copy_ok r = true) /\
    (if decide (ret = 4) then l' = mk_listener (ls_dev l) (rd_event r) else l' = l).
Proof.
  intros Hq Hr. unfold ubbd_kring_read. cbn [Z.eqb Pos.eqb negb].
  induction Hq as [|x quiet (Hx1 & Hx2 & Hx3) _ [IH1 IH2]]; simpl.
  - split; [done|].
    destruct (rd_registered r); simpl; [|exists (- EIO), l; read_round_done].
    destruct (Z.eqb_spec (rd_event r) (ls_event_count l)) as [E|E]; simpl.
    + destruct (rd_signal r); simpl; [|naive_solver]. exists (- ERESTARTSYS), l. read_round_done.
    + destruct (rd_copy_ok r).
      * exists 4, (mk_listener (ls_dev l) (rd_event r)). read_round_done.
      * exists (- EFAULT), l. read_round_done.
  - rewrite Hx1, Hx2, Hx3, Z.eqb_refl. simpl. by split.
Qed.

(** A poll that reports the file readable also takes the event: it stores
    the counter in the listener, so a non-blocking read right after it, with
    no new event, fails with -EAGAIN. *)
Theorem poll_consumes_event (event : Z) (l l' : listener) (r : read_round) (rest : list read_round) :
  ubbd_kring_poll event l = (true, l') -> rd_registered r = true -> rd_event r = event ->
  ubbd_kring_read 4 true l' (r :: rest) = Some (- EAGAIN, l').
Proof.
  unfold ubbd_kring_poll. destruct (_ =? _); simpl; [done|]. intros [= <-] Hreg Hev.
  unfold ubbd_kring_read. simpl. by rewrite Hreg, Hev, Z.eqb_refl.
Qed.
End properties.

(** ** Witnesses *)

Definition demo_map_pool : data_pool := mk_pool {[2]} {[2 := 3]} 4 1 0 16384 (Some 1) [].
Definition demo_map_req : ubbd_request :=
  mk_ubbd_request UBBD_OP_WRITE 1 1 [2; 0; 0; 0] PI_NULL None.

Lemma demo_map_pool_inv : pool_inv (M := demo_mem) demo_map_pool ({[3]}, []) ∅ ∅.
Proof.
  split; simpl; try done.
  - intros i. rewrite elem_of_singleton. intros ->. by exists 3.
  - intros i pg. rewrite lookup_singleton_Some. intros [<- <-]. lia.
  - intros i pg. rewrite lookup_singleton_Some. intros [<- <-]. by vm_compute.
  - intros i j pg. rewrite !lookup_singleton_Some. intros [<- _] [<- _]. done.
Qed.

Lemma demo_map_req_wf : req_wf demo_map_req 4.
Proof. by split_and!. Qed.

Lemma demo_layout : layout_ok (K := demo_kernel) demo_map_pool.
Proof. split; simpl; [lia|]. by exists 4. Qed.

(** A queue of eight mappable pages without backend. *)
Definition demo_map_queue : ubbd_queue :=
  mk_queue demo_abi 0 [] 0 demo_map_pool
    (mk_ring demo_abi (mk_sb 0 0 0 0 0 512 0 0 0 128 0 0) ∅ ∅ ∅) 8 false 1 [] 0 0.

Lemma iov_resolves_to_data_page_witness :
  ubbd_vma_fault (K := demo_kernel) demo_map_pool
    (iov_address (K := demo_kernel) demo_map_pool 2 (mk_bio_vec 900 512 1024) 600 / 4096) = FAULT_DATA 3.
Proof.
  apply (iov_resolves_to_data_page (K := demo_kernel) demo_map_pool 2 3 (mk_bio_vec 900 512 1024) 600
    demo_layout); [lia|reflexivity|simpl; lia|vm_compute; congruence|unfold in_seg; simpl; lia].
Defined.

Lemma release_unmaps_freed_page_witness :
  exists p' km' off,
    ubbd_release_page (M := demo_mem) demo_map_pool ({[3]}, []) demo_map_req 0 = Ok (p', km') /\
    unmap_log p' = [(off, 2)] /\ off = 16384 + 2 * 4096.
Proof.
  destruct (release_unmaps_freed_page (K := demo_kernel) (M := demo_mem) demo_map_pool ({[3]}, []) ∅
    demo_map_req 4 0 2 3 demo_map_pool_inv demo_map_req_wf) as (p' & km' & off & E & Hl & _ & Hoff);
    try lia; try reflexivity.
  { by exists 1. }
  { apply demo_layout. }
  exists p', km', off. split; [exact E|]. split; [exact Hl|].
  apply Hoff. right. split; [reflexivity|lia].
Defined.

Lemma demo_map_run pid :
  map_step (K := demo_kernel) (mk_map_state demo_map_queue 1 [])
    (mk_map_state (set_q_backend true pid demo_map_queue) 2 [mk_vma 8 true]).
Proof. by apply (step_mmap pid (mk_vma 8 true) (mk_map_state demo_map_queue 1 [])). Qed.

Lemma mappings_hold_device_witness :
  ms_refs (mk_map_state (set_q_backend true 9 demo_map_queue) 2 [mk_vma 8 true]) = 2.
Proof.
  etransitivity; [exact (mappings_hold_device (K := demo_kernel) _ _ (rtc_once _ _ (demo_map_run 9)))|].
  reflexivity.
Defined.

Lemma backend_exclusive_witness :
  (length (ms_maps (mk_map_state (set_q_backend true 9 demo_map_queue) 2 [mk_vma 8 true])) <= 1)%nat.
Proof.
  apply (backend_exclusive (K := demo_kernel) (mk_map_state demo_map_queue 1 [])
    (mk_map_state (set_q_backend true 9 demo_map_queue) 2 [mk_vma 8 true])).
  - apply rtc_once. by apply (plain_mmap 9 (mk_vma 8 true) (mk_map_state demo_map_queue 1 [])).
  - reflexivity.
  - reflexivity.
Defined.

Lemma backend_exclusion_gaps_witness :
  exists s', rtc (map_step (K := demo_kernel)) (mk_map_state demo_map_queue 1 []) s' /\
    length (ms_maps s') = 2%nat /\ q_backend_pid (ms_queue s') = 11.
Proof.
  apply (backend_exclusion_gaps (K := demo_kernel) demo_map_queue 1 9 11 (mk_vma 8 true) (mk_vma 8 false));
    simpl; lia || reflexivity.
Defined.

Lemma read_returns_at_first_change_witness :
  exists ret l', ubbd_kring_read 4 false (mk_listener 5 7)
    ([mk_round true 7 true false] ++ mk_round true 8 true false :: []) = Some (ret, l') /\ ret = 4.
Proof.
  destruct (read_returns_at_first_change (mk_listener 5 7) [mk_round true 7 true false]
    (mk_round true 8 true false) []) as (_ & ret & l' & E & Hret & _).
  - repeat constructor.
  - simpl. intros (_ & H & _). discriminate.
  - exists ret, l'. split; [exact E|]. apply Hret. repeat split. simpl. discriminate.
Defined.

Lemma poll_consumes_event_witness :
  ubbd_kring_read 4 true (mk_listener 5 8) [mk_round true 8 true false] = Some (- EAGAIN, mk_listener 5 8).
Proof. apply (poll_consumes_event 8 (mk_listener 5 7) (mk_listener 5 8)); reflexivity. Defined.
