(* ===== verification/Device.v ===== *)
(** * The device: queues, disk and management operations

    Models [src/src/ubbd_dev.c] with [struct ubbd_device] of
    [ubbd_internal.h]: the rings of a queue, stopping, starting and removing
    queues, the status of the device and its disk, the configuration and the
    references.  Creation and destruction are in [Create]. *)

From S2P Require Import Prelude Abi Ring Pages Request Queue Kring.

(** ** State *)

Definition UBBD_KRING_DATA_RESERVE_PERCENT : Z := 75.
Definition UBBD_SINGLE_MAJOR_PART_SHIFT : Z := 4.
Definition SECTOR_SIZE : Z := 512.
Definition UBBD_MAX_DISCARD_SECTORS : Z := 8 * 1024.
Definition UBBD_MAX_WRITE_ZEROS_SECTORS : Z := 8 * 1024.
Definition UBBD_DEV_STATUS_FLAG_INTRANS : Z := Z.shiftl 1 0.
Definition UBBD_DEV_CONFIG_FLAG_DP_RESERVE : Z := Z.shiftl 1 0.
Definition UBBD_DEV_CONFIG_FLAG_DEV_SIZE : Z := Z.shiftl 1 1.

(** The limits [ubbd_dev_device_setup] decides. *)
Record queue_limits : Type := mk_limits {
  lim_write_cache : bool;
  lim_fua : bool;
  lim_discard_granularity : Z;
  lim_max_discard_sectors : Z;
  lim_max_discard_segments : Z;
  lim_max_write_zeroes_sectors : Z;
}.

(** A gendisk: allocated, added to the system, deleted from it. *)
Inductive disk_phase : Type := DISK_ALLOCATED | DISK_ADDED | DISK_DELETED.

#[export] Instance disk_phase_eq_dec : EqDecision disk_phase.
Proof. solve_decision. Defined.

Record gendisk : Type := mk_disk {
  dk_phase : disk_phase;
  dk_capacity : Z;
  dk_ro : bool;
  dk_limits : queue_limits;
}.

Record ubbd_device `{UbbdAbi} : Type := mk_dev {
  d_dev_id : Z;
  d_queues : list ubbd_queue;
  d_hctx : list (option Z);  (* [driver_data] of queue [i]'s hctx, or no hctx *)
  d_disk : option gendisk;
  d_dev_size : Z;
  d_dev_features : Z;
  d_open_count : Z;
  d_status : Z;              (* u8 *)
  d_status_flags : Z;        (* u32 *)
  d_kref : Z;
  d_in_list : bool;          (* linked in [ubbd_dev_list] *)
  d_work_pending : bool;     (* [work] is queued on [ubbd_wq] *)
}.

Section setters.
Context `{A : UbbdAbi}.

Definition set_d_queues (l : list ubbd_queue) (d : ubbd_device) : ubbd_device :=
  mk_dev _ (d_dev_id d) l (d_hctx d) (d_disk d) (d_dev_size d) (d_dev_features d) (d_open_count d)
    (d_status d) (d_status_flags d) (d_kref d) (d_in_list d) (d_work_pending d).
Definition set_d_hctx (l : list (option Z)) (d : ubbd_device) : ubbd_device :=
  mk_dev _ (d_dev_id d) (d_queues d) l (d_disk d) (d_dev_size d) (d_dev_features d) (d_open_count d)
    (d_status d) (d_status_flags d) (d_kref d) (d_in_list d) (d_work_pending d).
Definition set_d_disk (k : option gendisk) (d : ubbd_device) : ubbd_device :=
  mk_dev _ (d_dev_id d) (d_queues d) (d_hctx d) k (d_dev_size d) (d_dev_features d) (d_open_count d)
    (d_status d) (d_status_flags d) (d_kref d) (d_in_list d) (d_work_pending d).
Definition set_d_open_count (n : Z) (d : ubbd_device) : ubbd_device :=
  mk_dev _ (d_dev_id d) (d_queues d) (d_hctx d) (d_disk d) (d_dev_size d) (d_dev_features d) n
    (d_status d) (d_status_flags d) (d_kref d) (d_in_list d) (d_work_pending d).
Definition set_d_status (n : Z) (d : ubbd_device) : ubbd_device :=
  mk_dev _ (d_dev_id d) (d_queues d) (d_hctx d) (d_disk d) (d_dev_size d) (d_dev_features d)
    (d_open_count d) n (d_status_flags d) (d_kref d) (d_in_list d) (d_work_pending d).
Definition set_d_status_flags (n : Z) (d : ubbd_device) : ubbd_device :=
  mk_dev _ (d_dev_id d) (d_queues d) (d_hctx d) (d_disk d) (d_dev_size d) (d_dev_features d)
    (d_open_count d) (d_status d) n (d_kref d) (d_in_list d) (d_work_pending d).
Definition set_d_kref (n : Z) (d : ubbd_device) : ubbd_device :=
  mk_dev _ (d_dev_id d) (d_queues d) (d_hctx d) (d_disk d) (d_dev_size d) (d_dev_features d)
    (d_open_count d) (d_status d) (d_status_flags d) n (d_in_list d) (d_work_pending d).
Definition set_d_in_list (b : bool) (d : ubbd_device) : ubbd_device :=
  mk_dev _ (d_dev_id d) (d_queues d) (d_hctx d) (d_disk d) (d_dev_size d) (d_dev_features d)
    (d_open_count d) (d_status d) (d_status_flags d) (d_kref d) b (d_work_pending d).
Definition set_d_work_pending (b : bool) (d : ubbd_device) : ubbd_device :=
  mk_dev _ (d_dev_id d) (d_queues d) (d_hctx d) (d_disk d) (d_dev_size d) (d_dev_features d)
    (d_open_count d) (d_status d) (d_status_flags d) (d_kref d) (d_in_list d) b.
End setters.

(** ** Status flags *)

Section code.
Context `{A : UbbdAbi} `{K : KernelApi} `{M : KernelMem}.

Definition ubbd_dev_status_flags_test (d : ubbd_device) (bit : Z) : bool :=
  negb (Z.land (Z.shiftr (d_status_flags d) UBBD_DEV_KSTATUS_SHIFT) bit =? 0).

Definition ubbd_dev_status_flags_set (d : ubbd_device) (bit : Z) : ubbd_device :=
  set_d_status_flags (Z.lor (d_status_flags d) (u32 (Z.shiftl bit UBBD_DEV_KSTATUS_SHIFT))) d.

Definition ubbd_dev_status_flags_clear (d : ubbd_device) (bit : Z) : ubbd_device :=
  set_d_status_flags
    (Z.land (d_status_flags d) (u32 (Z.lnot (u32 (Z.shiftl bit UBBD_DEV_KSTATUS_SHIFT))))) d.

Definition intrans (d : ubbd_device) : bool := ubbd_dev_status_flags_test d UBBD_DEV_STATUS_FLAG_INTRANS.

(** ** Identifiers *)

Definition ubbd_dev_id_to_minor (dev_id : Z) : Z := s32 (Z.shiftl dev_id UBBD_SINGLE_MAJOR_PART_SHIFT).
Definition minor_to_ubbd_dev_id (minor : Z) : Z := Z.shiftr minor UBBD_SINGLE_MAJOR_PART_SHIFT.

(** ** Queues *)

Definition zeroed_ring : ring := mk_ring _ (mk_sb 0 0 0 0 0 0 0 0 0 0 0 0) ∅ ∅ ∅.

Definition zeroed_pool : data_pool := mk_pool ∅ ∅ 0 0 0 0 None [].

(** The [kcalloc]ed queue, its device and index set. *)
Definition zeroed_queue (i : Z) : ubbd_queue :=
  mk_queue _ i [] 0 zeroed_pool zeroed_ring 0 false 0 [] 0 0.

(** [ubbd_queue_sb_init], with the success of [vzalloc]. *)
Definition ubbd_queue_sb_init (vzalloc_ok : bool) (q : ubbd_queue) : Z * ubbd_queue :=
  if ubbd_mgmt_need_fault then (- ENOMEM, q)
  else if negb vzalloc_ok then (- ENOMEM, q)
  else
    let p := q_pool q in
    let mmap_pages := u64 (data_pages p + Z.shiftr RING_SIZE PAGE_SHIFT) in
    let p := mk_pool (data_bitmap p) (data_pages_array p) (data_pages p) (data_pages_allocated p)
               (data_pages_reserved p) RING_SIZE (q_inode p) (unmap_log p) in
    let sb := mk_sb UBBD_MAGIC UBBD_SB_VERSION UBBD_INFO_OFF UBBD_INFO_SIZE CMDR_OFF CMDR_SIZE 0 0
                COMPR_OFF COMPR_SIZE 0 0 in
    (0, mk_queue _ (q_index q) (q_inflight q) (q_req_tid q) p (mk_ring _ sb ∅ ∅ ∅) mmap_pages
          (q_has_backend q) (q_status q) (q_cpumask q) (q_backend_pid q) (q_event q)).

Definition data_pages_reserve (percent n : Z) : Z := u32 (percent * n) / 100.

(** [ubbd_page_release]: every page of the array goes back to the kernel. *)
Definition ubbd_page_release (p : data_pool) (km : kmem) : data_pool * kmem :=
  let present := filter (fun kv => 0 <= kv.1 <= data_pages p) (data_pages_array p) in
  (set_array (filter (fun kv => ~ 0 <= kv.1 <= data_pages p) (data_pages_array p)) p,
   foldr (fun kv km => free_page kv.2 km) km (map_to_list present)).

(** ** Disk *)

Definition ubbd_dev_device_limits (features : Z) : queue_limits :=
  let has f := negb (Z.land features f =? 0) in
  let wc := has UBBD_ATTR_FLAGS_ADD_WRITECACHE in
  let di := has UBBD_ATTR_FLAGS_ADD_DISCARD in
  let wz := has UBBD_ATTR_FLAGS_ADD_WRITE_ZEROS in
  mk_limits wc (if wc then has UBBD_ATTR_FLAGS_ADD_FUA else false)
    (if di then 4096 else 0) (if di then UBBD_MAX_DISCARD_SECTORS else 0) (if di then 1 else 0)
    (if wz then UBBD_MAX_WRITE_ZEROS_SECTORS else 0).

Definition ubbd_free_disk (d : ubbd_device) : outcome ubbd_device :=
  let* _ := deref (d_disk d) NULL_DEREF in Ok (set_d_disk None d).

(** ** Stopping and starting queues *)

Fixpoint find_running (qs : list ubbd_queue) (i : Z) : option Z :=
  match qs with
  | [] => None
  | q :: qs => if q_status q =? UBBD_QUEUE_KSTATUS_RUNNING then Some i else find_running qs (i + 1)
  end.

Definition find_running_queue (d : ubbd_device) : option Z := find_running (d_queues d) 0.

(** [flush_workqueue(task_wq)]: the pending works run, each on its queue. *)
Fixpoint run_works (tags : list Z) (qs : list ubbd_queue) (w : world)
  : outcome (list ubbd_queue * world) :=
  match tags with
  | [] => Ok (qs, w)
  | tag :: tags =>
      let* e := deref (w_reqs w !! tag) WILD_ACCESS in
      let* qi := deref (e_q e) NULL_DEREF in
      let* q := deref (qs !! Z.to_nat qi) WILD_ACCESS in
      let* '(q, w) := ubbd_queue_workfn q w tag in
      run_works tags (<[Z.to_nat qi := q]> qs) w
  end.

Definition flush_workqueue (qs : list ubbd_queue) (w : world) : outcome (list ubbd_queue * world) :=
  run_works (w_wq w) qs (set_w_wq [] w).

Definition queue_stop (d : ubbd_device) (i : nat) (w : world) : outcome (Z * ubbd_device * world) :=
  let* q := deref (d_queues d !! i) OUT_OF_BOUNDS in
  let status := q_status q in
  if (status =? UBBD_QUEUE_KSTATUS_STOPPING) || (status =? UBBD_QUEUE_KSTATUS_STOPPED)
  then Ok (0, d, w)
  else if negb (status =? UBBD_QUEUE_KSTATUS_RUNNING) then Ok (- EINVAL, d, w)
  else
    let d :=
      match d_hctx d !! i with
      | Some (Some _) =>
          match find_running_queue d with
          | Some r => set_d_hctx (<[i := Some r]> (d_hctx d)) d
          | None => d
          end
      | _ => d
      end in
    let qs := <[i := set_q_status UBBD_QUEUE_KSTATUS_STOPPING q]> (d_queues d) in
    let* '(qs, w) := flush_workqueue qs w in
    let* q := deref (qs !! i) OUT_OF_BOUNDS in
    let q := if bool_decide (q_inflight q = []) then set_q_status UBBD_QUEUE_KSTATUS_STOPPED q else q in
    Ok (0, set_d_queues (<[i := q]> qs) d, w).

(** [queue_id] is an [int] compared with the unsigned number of queues. *)
Definition bad_queue_id (d : ubbd_device) (queue_id : Z) : bool :=
  Z.of_nat (length (d_queues d)) <=? u32 queue_id.

Definition ubbd_dev_stop_queue (d : ubbd_device) (queue_id : Z) (w : world)
  : outcome (Z * ubbd_device * world) :=
  if negb (d_status d =? UBBD_DEV_KSTATUS_RUNNING) then Ok (- EINVAL, d, w)
  else if bad_queue_id d queue_id then Ok (- EINVAL, d, w)
  else queue_stop d (Z.to_nat queue_id) w.

Definition queue_start (d : ubbd_device) (i : nat) : outcome (Z * ubbd_device) :=
  let* q := deref (d_queues d !! i) OUT_OF_BOUNDS in
  let status := q_status q in
  if status =? UBBD_QUEUE_KSTATUS_RUNNING then Ok (0, d)
  else if status =? UBBD_QUEUE_KSTATUS_REMOVING then Ok (- EINVAL, d)
  else
    let d := set_d_queues (<[i := set_q_status UBBD_QUEUE_KSTATUS_RUNNING q]> (d_queues d)) d in
    match d_hctx d !! i with
    | Some (Some r) =>
        if negb (r =? Z.of_nat i) then Ok (0, set_d_hctx (<[i := Some (Z.of_nat i)]> (d_hctx d)) d)
        else Ok (0, d)
    | _ => Ok (0, d)
    end.

Definition ubbd_dev_start_queue (d : ubbd_device) (queue_id : Z) : outcome (Z * ubbd_device) :=
  if negb (d_status d =? UBBD_DEV_KSTATUS_RUNNING) then Ok (- EINVAL, d)
  else if bad_queue_id d queue_id then Ok (- EINVAL, d)
  else queue_start d (Z.to_nat queue_id).

(** ** Removal *)

(** One round of [ubbd_dev_remove_queues]. *)
Definition remove_queue (force : bool) (i : nat) (qs : list ubbd_queue) (w : world)
  : outcome (list ubbd_queue * world) :=
  let* q := deref (qs !! i) OUT_OF_BOUNDS in
  let qs := <[i := set_q_status UBBD_QUEUE_KSTATUS_REMOVING q]> qs in
  let* '(qs, w) := flush_workqueue qs w in
  if force then
    let* q := deref (qs !! i) OUT_OF_BOUNDS in
    let* '(q, w) := ubbd_queue_end_inflight_reqs q w (- EIO) in
    Ok (<[i := q]> qs, w)
  else Ok (qs, w).

Fixpoint remove_queues_from (force : bool) (n i : nat) (qs : list ubbd_queue) (w : world)
  : outcome (list ubbd_queue * world) :=
  match n with
  | O => Ok (qs, w)
  | S n =>
      let* '(qs, w) := remove_queue force i qs w in
      remove_queues_from force n (S i) qs w
  end.

Definition ubbd_dev_remove_queues (d : ubbd_device) (force : bool) (w : world)
  : outcome (ubbd_device * world) :=
  let* '(qs, w) := remove_queues_from force (length (d_queues d)) 0 (d_queues d) w in
  Ok (set_d_queues qs d, w).

(** [del_gendisk] *)
Definition del_gendisk (d : ubbd_device) : outcome ubbd_device :=
  let* k := deref (d_disk d) NULL_DEREF in
  Ok (set_d_disk (Some (mk_disk DISK_DELETED (dk_capacity k) (dk_ro k) (dk_limits k))) d).

(** The part of [ubbd_dev_remove_disk] after the queues, entered once no state
    transition is in progress. *)
Definition remove_disk_status (d : ubbd_device) : outcome ubbd_device :=
  let disk_is_running := d_status d =? UBBD_DEV_KSTATUS_RUNNING in
  let d := set_d_status UBBD_DEV_KSTATUS_REMOVING d in
  if disk_is_running then del_gendisk d else Ok d.

Definition ubbd_dev_remove_disk (d : ubbd_device) (force : bool) (w : world)
  : outcome (ubbd_device * world) :=
  let* '(d, w) := ubbd_dev_remove_queues d force w in
  let* d := remove_disk_status d in
  Ok (d, w).

(** [__timeout] *)
Inductive timer_return : Type := BLK_EH_RESET_TIMER | BLK_EH_DONE.

Definition ubbd_timeout (d : ubbd_device) (w : world) (rq : request)
  : outcome (timer_return * ubbd_device * world) :=
  if rq_timeout rq =? UINT_MAX then Ok (BLK_EH_RESET_TIMER, d, w)
  else let* '(d, w) := ubbd_dev_remove_disk d true w in Ok (BLK_EH_DONE, d, w).

(** ** Configuration *)

Record ubbd_dev_config_opts : Type := mk_config {
  co_flags : Z;
  co_dp_reserve_percnt : Z;
  co_dev_size : Z;
}.

Definition set_queue_reserve (percnt : Z) (q : ubbd_queue) : ubbd_queue :=
  set_q_pool (set_reserved (data_pages_reserve percnt (data_pages (q_pool q))) (q_pool q)) q.

Definition ubbd_dev_config (d : ubbd_device) (opts : ubbd_dev_config_opts) : outcome (Z * ubbd_device) :=
  if negb (d_status d =? UBBD_DEV_KSTATUS_RUNNING) then Ok (- EINVAL, d)
  else if negb (Z.land (co_flags opts) UBBD_DEV_CONFIG_FLAG_DP_RESERVE =? 0) &&
          (100 <? co_dp_reserve_percnt opts) then Ok (- EINVAL, d)
  else
    let d :=
      if negb (Z.land (co_flags opts) UBBD_DEV_CONFIG_FLAG_DP_RESERVE =? 0)
      then set_d_queues (map (set_queue_reserve (co_dp_reserve_percnt opts)) (d_queues d)) d else d in
    if negb (Z.land (co_flags opts) UBBD_DEV_CONFIG_FLAG_DEV_SIZE =? 0) then
      let* k := deref (d_disk d) NULL_DEREF in
      Ok (0, set_d_disk (Some (mk_disk (dk_phase k) (co_dev_size opts / SECTOR_SIZE) (dk_ro k)
                                 (dk_limits k))) d)
    else Ok (0, d).

(** ** Life of the device *)

Definition ubbd_dev_get (d : ubbd_device) : ubbd_device := set_d_kref (d_kref d + 1) d.

(** [ubbd_dev_put]: [None] when the last reference goes and the device is
    destroyed. *)
Definition ubbd_dev_put (d : ubbd_device) : option ubbd_device :=
  if d_kref d =? 1 then None else Some (set_d_kref (d_kref d - 1) d).

(** [INIT_WORK] and [queue_work]: initialising a work that is still queued
    corrupts the queue. *)
Definition queue_device_work (d : ubbd_device) : outcome ubbd_device :=
  if d_work_pending d then Fault WILD_ACCESS else Ok (set_d_work_pending true d).

Definition ubbd_dev_add_disk (d : ubbd_device) : outcome (Z * ubbd_device) :=
  if negb (d_status d =? UBBD_DEV_KSTATUS_PREPARED) then Ok (- EINVAL, d)
  else
    let d := ubbd_dev_get d in
    let* d := queue_device_work d in
    Ok (0, d).

(** [ubbd_add_disk_fn], cut at the window in which [state_lock] is dropped and
    INTRANS is set.  The first part says whether the disk is to be added. *)
Definition add_disk_begin (d : ubbd_device) : outcome (bool * ubbd_device) :=
  let d := set_d_work_pending false d in
  if negb (d_status d =? UBBD_DEV_KSTATUS_PREPARED) then Ok (false, d)
  else
    let d := ubbd_dev_status_flags_set d UBBD_DEV_STATUS_FLAG_INTRANS in
    let* _ := deref (d_disk d) NULL_DEREF in
    Ok (true, d).

(** [add_disk] itself, then the [out] part: [None] if the device is gone. *)
Definition add_disk_end (to_add : bool) (add_ret : Z) (d : ubbd_device) : outcome (option ubbd_device) :=
  let disk_running := to_add && (add_ret =? 0) in
  let* d :=
    if disk_running then
      let* k := deref (d_disk d) NULL_DEREF in
      Ok (set_d_disk (Some (mk_disk DISK_ADDED (dk_capacity k) (dk_ro k) (dk_limits k))) d)
    else Ok d in
  let d := ubbd_dev_status_flags_clear d UBBD_DEV_STATUS_FLAG_INTRANS in
  let d := if disk_running then set_d_status UBBD_DEV_KSTATUS_RUNNING d else d in
  Ok (ubbd_dev_put d).

Definition ubbd_dev_remove_dev (d : ubbd_device) : outcome (Z * option ubbd_device) :=
  if negb (d_status d =? UBBD_DEV_KSTATUS_REMOVING) && negb (d_status d =? UBBD_DEV_KSTATUS_PREPARED)
  then Ok (- EINVAL, Some d)
  else
    let d := set_d_in_list false d in
    let* d := ubbd_free_disk d in
    Ok (0, ubbd_dev_put d).

(** The block device file operations. *)
Definition ubbd_open (d : ubbd_device) : ubbd_device :=
  let d := ubbd_dev_get d in set_d_open_count (d_open_count d + 1) d.

Definition ubbd_release (d : ubbd_device) : option ubbd_device :=
  ubbd_dev_put (set_d_open_count (d_open_count d - 1) d).
End code.
