(* ===== verification/DeviceInv.v ===== *)
(** * The queues of a device together

    The queues of a device share the request table, the allocator and the work
    queue.  [dev_inv] composes the invariants of the queues: what one queue
    owns is foreign to every other.  Each operation on one queue keeps it, so
    the flush of the works, the stop of a queue and the removal of all of them
    run without a fault. *)

From S2P Require Import Prelude Abi Ring Pages Request Queue Kring Device.

(** ** The invariant of the queues *)

Section invariant.
Context `{A : UbbdAbi} `{K : KernelApi} `{M : KernelMem}.

(** Pages stored in a pool. *)
Definition owns (p : data_pool) (pg : Z) : Prop := exists i, data_pages_array p !! i = Some pg.

Definition kstatus_ok (s : Z) : Prop :=
  s ∈ [UBBD_QUEUE_KSTATUS_RUNNING; UBBD_QUEUE_KSTATUS_STOPPING;
       UBBD_QUEUE_KSTATUS_STOPPED; UBBD_QUEUE_KSTATUS_REMOVING].

(** One queue among the others: its own invariant, relative to foreign pages
    [F] that include those of the block layer [FB] and of the other queues. *)
Record member_inv (qs : list ubbd_queue) (w : world) (FB : gset Z) (i : nat) (q : ubbd_queue)
  : Prop := {
  mb_inv : exists es F, queue_inv q w es F (q_inflight q) /\ FB ⊆ F /\
    forall j q' pg, j <> i -> qs !! j = Some q' -> owns (q_pool q') pg -> pg ∈ F;
  mb_rq t e : t ∈ q_inflight q -> w_reqs w !! t = Some e -> rq_ok (e_rq e) FB;
  mb_status : kstatus_ok (q_status q);
}.

Record dev_inv (qs : list ubbd_queue) (w : world) (FB : gset Z) : Prop := {
  di_member i q : qs !! i = Some q -> member_inv qs w FB i q;
  di_tags i j qi qj t : qs !! i = Some qi -> qs !! j = Some qj -> i <> j ->
    t ∈ q_inflight qi -> t ∈ q_inflight qj -> False;
}.

(** The pending works: prepared by [ubbd_queue_rq], not yet submitted. *)
Record work_ok (qs : list ubbd_queue) (w : world) (FB : gset Z) (tag : Z) : Prop := {
  wk_entry : exists e op i q, w_reqs w !! tag = Some e /\ e_q e = Some (Z.of_nat i) /\
    qs !! i = Some q /\ op_of_req_op (rq_op (e_rq e)) = Some op /\
    e_pdu e = zeroed_ubbd_request op /\ rq_ok (e_rq e) FB;
  wk_fresh i q : qs !! i = Some q -> tag ∉ q_inflight q;
}.

Record works_ok (qs : list ubbd_queue) (w : world) (FB : gset Z) (tags : list Z) : Prop := {
  wo_nodup : NoDup tags;
  wo_each tag : tag ∈ tags -> work_ok qs w FB tag;
  wo_tids i q : qs !! i = Some q -> q_req_tid q + Z.of_nat (length tags) < 2 ^ 64;
}.
End invariant.

Section lemmas.
Context `{L : UbbdAbiLaws} `{KL : KernelApiLaws} `{ML : KernelMemLaws}.
Implicit Types (q : ubbd_queue) (qs : list ubbd_queue) (w : world) (e : rq_entry).

Lemma rq_ok_mono rq F F' : rq_ok rq F -> F ⊆ F' -> rq_ok rq F'.
Proof.
  intros [H1 H2 H3] Hs. split; try done. eapply Forall_impl; [exact H3|]. simpl. intros; by apply Hs.
Qed.

(** A queue seen from outside: another queue's operation changed the world. *)
Lemma queue_inv_other q w es F l w' F' :
  queue_inv q w es F l ->
  (forall t, t ∈ l -> w_reqs w' !! t = w_reqs w !! t) ->
  (forall pg, owns (q_pool q) pg -> pg ∈ live (w_km w') /\ pg ∉ F') ->
  F' ⊆ live (w_km w') ->
  (forall t e, t ∈ l -> w_reqs w !! t = Some e -> rq_ok (e_rq e) F') ->
  queue_inv q w' es F' l.
Proof.
  intros [Hp Hn Hr Ht Hnd Hlv Hap] Hreq Hown HF Hrq. split; try done.
  - destruct Hp as [? ? ? Hl ? ? [_ _] ?]. split; try done.
    + intros i pg Hi. destruct (Hl i pg Hi) as (_ & ? & _).
      destruct (Hown pg) as [? ?]; [by exists i|]. done.
  - intros t Hin. destruct (Hlv t Hin) as (e & He & [H1 H2 H3 H4 H5 H6 H7 H8]).
    exists e. rewrite Hreq by done. split; [done|]. split; try done. by apply (Hrq t).
  - intros t1 t2 e1 e2 H1 H2 Hne. rewrite !Hreq by done. by apply Hap.
Qed.

(** An operation on queue [j] that keeps [j]'s invariant for the same foreign
    pages, and touches only requests no other queue has, keeps [dev_inv]. *)
Lemma dev_inv_step qs w FB j q q' w' :
  dev_inv qs w FB -> qs !! j = Some q ->
  (forall es F, queue_inv q w es F (q_inflight q) -> FB ⊆ F ->
     exists es', queue_inv q' w' es' F (q_inflight q')) ->
  (forall i qi t, i <> j -> qs !! i = Some qi -> t ∈ q_inflight qi ->
     w_reqs w' !! t = w_reqs w !! t /\ t ∉ q_inflight q') ->
  (forall t e, t ∈ q_inflight q' -> w_reqs w' !! t = Some e -> rq_ok (e_rq e) FB) ->
  kstatus_ok (q_status q') ->
  dev_inv (<[j := q']> qs) w' FB.
Proof.
  intros [Hm Htags] Hj Hop Hfr Hrq Hst.
  assert (j < length qs)%nat as Hlen by (by eapply lookup_lt_Some).
  destruct (Hm j q Hj) as [(es & F & Hq & HFB & Hoth) _ _].
  destruct (Hop es F Hq HFB) as (es' & Hq').
  pose proof (qi_pool _ _ _ _ _ Hq') as Hp'. pose proof (pl_foreign _ _ _ _ Hp') as [HFl _].
  split.
  - intros i qi Hi. destruct (decide (i = j)) as [->|Hne].
    + rewrite list_lookup_insert_eq in Hi by done. injection Hi as <-. split; try done.
      exists es', F. split_and!; try done. intros k qk pg Hk Hqk.
      rewrite list_lookup_insert_ne in Hqk by done. by apply (Hoth k).
    + rewrite list_lookup_insert_ne in Hi by done.
      destruct (Hm i qi Hi) as [(esi & Fi & Hqi & HFBi & Hothi) Hrqi Hsti].
      split; [|intros t e Ht; rewrite (proj1 (Hfr i qi t Hne Hi Ht)); by apply Hrqi|done].
      set (Fi' := (Fi ∩ live (w_km w')) ∪ map_img (data_pages_array (q_pool q'))).
      assert (forall pg, owns (q_pool q') pg <-> pg ∈ (map_img (data_pages_array (q_pool q')) : gset Z)) as Himg
        by (intros pg; by rewrite elem_of_map_img).
      exists esi, Fi'. split_and!.
      * eapply queue_inv_other; [exact Hqi| | | |].
        -- intros t Ht. by apply (Hfr i qi t).
        -- intros pg Hpg. assert (pg ∈ F) as HpF by (by apply (Hoth i qi)).
           split; [by apply HFl|]. unfold Fi'. rewrite elem_of_union, elem_of_intersection.
           intros [[Hx _]|Hx].
           ++ destruct Hpg as [k Hk].
              by destruct (pl_live _ _ _ _ (qi_pool _ _ _ _ _ Hqi) k pg Hk) as (_ & _ & ?).
           ++ apply Himg in Hx as [k Hk].
              by destruct (pl_live _ _ _ _ Hp' k pg Hk) as (_ & _ & ?).
        -- unfold Fi'. intros pg. rewrite elem_of_union, elem_of_intersection.
           intros [[_ ?]|Hx]; [done|]. apply Himg in Hx as [k Hk].
           by destruct (pl_live _ _ _ _ Hp' k pg Hk).
        -- intros t e Ht He. eapply rq_ok_mono; [by apply (Hrqi t)|].
           intros pg Hpg. unfold Fi'. apply elem_of_union_l, elem_of_intersection. auto.
      * intros pg Hpg. unfold Fi'. apply elem_of_union_l, elem_of_intersection. auto.
      * intros k qk pg Hk Hqk Hpg. unfold Fi'. destruct (decide (k = j)) as [->|Hkj].
        -- rewrite list_lookup_insert_eq in Hqk by done. injection Hqk as <-.
           apply elem_of_union_r. by apply Himg.
        -- rewrite list_lookup_insert_ne in Hqk by done.
           apply elem_of_union_l, elem_of_intersection. split; [by apply (Hothi k qk)|].
           apply HFl. by apply (Hoth k qk).
  - intros i k qi qk t Hi Hk Hne Hti Htk.
    destruct (decide (i = j)) as [->|], (decide (k = j)) as [->|]; [done|..].
    + rewrite list_lookup_insert_eq in Hi by done. rewrite list_lookup_insert_ne in Hk by done.
      injection Hi as <-. by destruct (Hfr k qk t ltac:(done) Hk Htk).
    + rewrite list_lookup_insert_eq in Hk by done. rewrite list_lookup_insert_ne in Hi by done.
      injection Hk as <-. by destruct (Hfr i qi t ltac:(done) Hi Hti).
    + rewrite list_lookup_insert_ne in Hi, Hk by done. by apply (Htags i k qi qk t).
Qed.

(** *** What the work leaves alone, whatever it does *)

Lemma prepare_frame q w rq u ret u' q' w' :
  queue_req_prepare q w rq u = Ok (ret, u', q', w') ->
  (exists p, q' = set_q_pool p q) /\ w_wq w' = w_wq w /\ w_reqs w' = w_reqs w /\ w_blk w' = w_blk w.
Proof.
  assert (exists p, q = set_q_pool p q) as Hq by (exists (q_pool q); by destruct q).
  unfold queue_req_prepare. intros H. inv_ok H.
  destruct (if _ <? _ then _ else _) as [[r1 u1] km1].
  destruct (negb (r1 =? 0)); [by injection H as <- <- <- <-|].
  inv_ok H. destruct r0 as [[[r2 u2] p2] km2].
  destruct (negb (r2 =? 0)).
  - inv_ok H. injection H as <- <- <- <-. split; [eauto|done].
  - case_bool_decide; [inv_ok H|]; injection H as <- <- <- <-; (split; [eauto|done]).
Qed.

(** What a queue keeps for life: its index and its CPUs. *)
Definition q_fixed q : Z * list Z := (q_index q, q_cpumask q).

Lemma workfn_frame q w tag q' w' :
  ubbd_queue_workfn q w tag = Ok (q', w') ->
  q_status q' = q_status q /\ q_fixed q' = q_fixed q /\ w_wq w' = w_wq w /\
  (q_req_tid q' = q_req_tid q \/ q_req_tid q' = u64 (q_req_tid q + 1)).
Proof.
  unfold ubbd_queue_workfn. intros H. inv_ok H.
  assert (forall r t x, w_wq (end_request r t x) = w_wq x) as Hend
    by (intros; unfold end_request; by destruct (_ || _)).
  destruct (negb (status_errno _ =? 0)).
  { injection H as <- <-. rewrite Hend. auto. }
  inv_ok H. destruct r0 as [[[r2 u2] q2] w2].
  destruct (prepare_frame _ _ _ _ _ _ _ _ E0) as ([p ->] & Hw & _).
  destruct (negb (r2 =? 0)).
  { injection H as <- <-. rewrite Hend. simpl. auto. }
  cbv zeta in H. destruct (negb (submit_ring_space_enough _ _)).
  { injection H as <- <-. rewrite Hend. simpl. auto. }
  destruct (queue_req_se_init _ _ _) as [r3 u3]. inv_ok H. injection H as <- <-. simpl. auto.
Qed.

(** One pending work among the queues. *)
Lemma work_step qs w FB tag e op i q :
  dev_inv qs w FB -> qs !! i = Some q -> w_reqs w !! tag = Some e ->
  op_of_req_op (rq_op (e_rq e)) = Some op -> e_pdu e = zeroed_ubbd_request op ->
  rq_ok (e_rq e) FB -> (forall j qj, qs !! j = Some qj -> tag ∉ q_inflight qj) ->
  q_req_tid q + 1 < 2 ^ 64 ->
  exists q' w', ubbd_queue_workfn q w tag = Ok (q', w') /\ dev_inv (<[i := q']> qs) w' FB /\
    q_status q' = q_status q /\ w_wq w' = w_wq w /\ q_req_tid q' <= q_req_tid q + 1 /\
    (forall t, t ∈ q_inflight q' -> t ∈ q_inflight q \/ t = tag) /\
    (forall t, t <> tag -> w_reqs w' !! t = w_reqs w !! t) /\
    (q_status q <> UBBD_QUEUE_KSTATUS_RUNNING -> q_inflight q' = q_inflight q).
Proof.
  intros Hd Hi He Hop Hpdu Hok Hni Htid.
  destruct (di_member _ _ _ Hd i q Hi) as [(es & F & Hq & HFB & _) Hrq Hst].
  assert (forall j qj t, qs !! j = Some qj -> t ∈ q_inflight qj -> t <> tag) as Hne
    by (intros j qj t Hj Ht ->; by apply (Hni j qj Hj)).
  pose proof (qi_tid _ _ _ _ _ Hq) as Htr.
  destruct (decide (q_status q = UBBD_QUEUE_KSTATUS_RUNNING)) as [Hrun|Hnr].
  - destruct (workfn_spec q w tag e es F _ op Hq ltac:(done) (Hni i q Hi) Hrun Htid He Hop Hpdu
                (rq_ok_mono _ _ _ Hok HFB)) as (q' & w' & E & Hres).
    destruct (workfn_frame _ _ _ _ _ E) as (Es & _ & Ew & Et).
    assert ((exists u, w_reqs w' = <[tag := mk_rq_entry (e_rq e) (e_q e) u]> (w_reqs w)) /\
            (q_inflight q' = q_inflight q \/ q_inflight q' = q_inflight q ++ [tag])) as [[u Hu] Hin].
    { destruct Hres; eauto. }
    assert (forall t, t ∈ q_inflight q' -> t ∈ q_inflight q \/ t = tag) as Hsub.
    { intros t. destruct Hin as [-> | ->]; [auto|].
      rewrite elem_of_app, list_elem_of_singleton. auto. }
    exists q', w'. split; [done|]. split.
    + eapply dev_inv_step; eauto.
      * intros es0 F0 Hq0 HFB0.
        destruct (workfn_spec q w tag e es0 F0 _ op Hq0 ltac:(done) (Hni i q Hi) Hrun Htid He Hop Hpdu
                    (rq_ok_mono _ _ _ Hok HFB0)) as (q1 & w1 & E1 & Hres1).
        rewrite E in E1. injection E1 as <- <-.
        destruct Hres1 as [? ? ? Hi1 _ _ _ _ _ _ Hq1|? ? _ Hi1 _ _ _ _ _ Hq1|? _ _ Hi1 _ _ _ _ _ _ Hq1];
          rewrite Hi1; eauto.
      * intros j qj t Hj Hqj Ht. rewrite Hu, lookup_insert_ne by (symmetry; by eapply Hne).
        split; [done|]. intros Ht'. destruct (Hsub t Ht') as [Ht2| ->]; [|by eapply Hne].
        by apply (di_tags _ _ _ Hd i j q qj t).
      * intros t e0 Ht. rewrite Hu. destruct (decide (t = tag)) as [->|Hnt].
        -- rewrite lookup_insert_eq. by intros [= <-].
        -- rewrite lookup_insert_ne by done. apply Hrq. by destruct (Hsub t Ht).
      * by rewrite Es.
    + split_and!; try done.
      * destruct Et as [-> | ->]; [lia|]. rewrite u64_small; lia.
      * intros t Ht. by rewrite Hu, lookup_insert_ne.
  - exists q, (end_request (status_errno (q_status q)) tag w).
    assert (status_errno (q_status q) <> 0) as Hs0.
    { unfold kstatus_ok in Hst. rewrite !elem_of_cons, elem_of_nil in Hst. unfold status_errno.
      pose proof queue_kstatus_distinct as Hd0. destruct_and! Hd0.
      assert (0 < EIO /\ 0 < EBUSY) as [? ?] by (unfold EIO, EBUSY; lia).
      zcase; simpl; try lia; intuition congruence. }
    assert (forall r, w_reqs (end_request r tag w) = w_reqs w /\ w_km (end_request r tag w) = w_km w /\
              w_wq (end_request r tag w) = w_wq w) as Hend
      by (intros r; unfold end_request; by destruct (_ || _)).
    destruct (Hend (status_errno (q_status q))) as (Er & Ek & Ew).
    split.
    { unfold ubbd_queue_workfn. rewrite He. cbn [deref obind].
      destruct (Z.eqb_spec (status_errno (q_status q)) 0); done. }
    split.
    + eapply dev_inv_step; eauto.
      * intros es0 F0 Hq0 _. exists es0. eapply queue_inv_same; try done. apply Hq0.
      * intros j qj t Hj Hqj Ht. rewrite Er. split; [done|]. intros Ht'.
        by apply (di_tags _ _ _ Hd i j q qj t).
      * intros t e0 Ht. rewrite Er. by apply Hrq.
    + split_and!; try done; [lia|auto|]. intros t _. by rewrite Er.
Qed.

(** *** Flushing the works *)

(** Queue by queue: the status stays, and a queue that is not running keeps
    its inflight requests. *)
Definition same_status (qs qs' : list ubbd_queue) : Prop :=
  length qs' = length qs /\
  forall i q, qs !! i = Some q -> exists q', qs' !! i = Some q' /\ q_status q' = q_status q /\
    (q_status q <> UBBD_QUEUE_KSTATUS_RUNNING -> q_inflight q' = q_inflight q).

Lemma same_status_refl qs : same_status qs qs.
Proof. split; [done|]. intros i q ?. by exists q. Qed.

Lemma same_status_trans qs1 qs2 qs3 :
  same_status qs1 qs2 -> same_status qs2 qs3 -> same_status qs1 qs3.
Proof.
  intros [E1 H1] [E2 H2]. split; [congruence|]. intros i q Hi.
  destruct (H1 i q Hi) as (q2 & Hi2 & Es2 & Hin2). destruct (H2 i q2 Hi2) as (q3 & Hi3 & Es3 & Hin3).
  exists q3. split_and!; [done|congruence|]. intros Hn. rewrite Hin3, Hin2; congruence.
Qed.

Lemma same_status_insert qs i q q' :
  qs !! i = Some q -> q_status q' = q_status q ->
  (q_status q <> UBBD_QUEUE_KSTATUS_RUNNING -> q_inflight q' = q_inflight q) ->
  same_status qs (<[i := q']> qs).
Proof.
  intros Hi Hs Hin. split; [apply length_insert|]. intros j qj Hj.
  destruct (decide (i = j)) as [<-|Hne].
  - rewrite list_lookup_insert_eq by (by eapply lookup_lt_Some). simplify_eq. eauto.
  - rewrite list_lookup_insert_ne by done. eauto.
Qed.

(** The remaining works stay good after one of them has run. *)
Lemma works_ok_step qs w FB tag tags i q q' w' :
  works_ok qs w FB (tag :: tags) -> qs !! i = Some q ->
  q_req_tid q' <= q_req_tid q + 1 ->
  (forall t, t ∈ q_inflight q' -> t ∈ q_inflight q \/ t = tag) ->
  (forall t, t <> tag -> w_reqs w' !! t = w_reqs w !! t) ->
  works_ok (<[i := q']> qs) w' FB tags.
Proof.
  intros [Hnd Hea Ht] Hi Htid Hin Hr. apply NoDup_cons in Hnd as [Hnt Hnd].
  assert (i < length qs)%nat by (by eapply lookup_lt_Some).
  split; [done| |].
  - intros t Htin. assert (t <> tag) as Hne by (intros ->; done).
    destruct (Hea t ltac:(by apply elem_of_cons; right)) as [(e & op & k & qk & He & Hq & Hk & Hop & Hp & Ho) Hf].
    split.
    + destruct (decide (i = k)) as [<-|Hik].
      * exists e, op, i, q'. rewrite Hr, list_lookup_insert_eq by done. by split_and!.
      * exists e, op, k, qk. rewrite Hr, list_lookup_insert_ne by done. by split_and!.
    + intros m qm. destruct (decide (i = m)) as [<-|Him].
      * rewrite list_lookup_insert_eq by done. intros [= <-] Htq.
        destruct (Hin t Htq) as [Hx|Hx]; [by apply (Hf i q)|done].
      * rewrite list_lookup_insert_ne by done. apply Hf.
  - intros k qk. simpl in Ht. destruct (decide (i = k)) as [<-|Hik].
    + rewrite list_lookup_insert_eq by done. intros [= <-]. specialize (Ht i q Hi). lia.
    + rewrite list_lookup_insert_ne by done. intros Hk. specialize (Ht k qk Hk). lia.
Qed.

Lemma run_works_spec FB tags : forall qs w,
  dev_inv qs w FB -> works_ok qs w FB tags ->
  exists qs' w', run_works tags qs w = Ok (qs', w') /\ dev_inv qs' w' FB /\
    w_wq w' = w_wq w /\ same_status qs qs'.
Proof.
  induction tags as [|tag tags IH]; intros qs w Hd Hw; cbn [run_works].
  { exists qs, w. split_and!; try done. apply same_status_refl. }
  destruct (wo_each _ _ _ _ Hw tag ltac:(apply elem_of_cons; by left))
    as [(e & op & i & q & He & Hq & Hi & Hop & Hp & Ho) Hf].
  rewrite He. cbn [deref obind]. rewrite Hq. cbn [deref obind]. rewrite Nat2Z.id, Hi.
  cbn [deref obind]. pose proof (wo_tids _ _ _ _ Hw i q Hi) as Ht. simpl in Ht.
  destruct (work_step qs w FB tag e op i q Hd Hi He Hop Hp Ho Hf ltac:(lia))
    as (q' & w' & E & Hd' & Es & Ew & Et & Hin & Hr & Hnr). rewrite E. cbn [obind].
  destruct (IH _ _ Hd' (works_ok_step _ _ _ _ _ _ _ _ _ Hw Hi Et Hin Hr))
    as (qs2 & w2 & E2 & Hd2 & Ew2 & Hs2).
  exists qs2, w2. split_and!; [done|done|congruence|].
  eapply same_status_trans; [|done]. by eapply same_status_insert.
Qed.

Lemma works_ok_nil qs w FB :
  (forall i q, qs !! i = Some q -> q_req_tid q < 2 ^ 64) -> works_ok qs w FB [].
Proof.
  intros H. split; [constructor|intros t Ht; by apply elem_of_nil in Ht|].
  intros i q Hi. specialize (H i q Hi). simpl. lia.
Qed.

Lemma dev_inv_tids qs w FB i q : dev_inv qs w FB -> qs !! i = Some q -> q_req_tid q < 2 ^ 64.
Proof. intros Hd Hi. destruct (di_member _ _ _ Hd i q Hi) as [(? & ? & [] & _) _ _]. lia. Qed.

Lemma dev_inv_ext qs w w' FB :
  w_reqs w' = w_reqs w -> w_km w' = w_km w -> dev_inv qs w FB -> dev_inv qs w' FB.
Proof.
  intros Er Ek [Hm Ht]. split; [|done]. intros i q Hi.
  destruct (Hm i q Hi) as [(es & F & Hq & HFB & Ho) Hr Hs]. split; [|by rewrite Er|done].
  exists es, F. split_and!; try done. eapply queue_inv_same; try done. apply Hq.
Qed.

(** A queue whose status is set. *)
Lemma set_status_inv qs w FB i q s :
  dev_inv qs w FB -> qs !! i = Some q -> kstatus_ok s ->
  dev_inv (<[i := set_q_status s q]> qs) w FB.
Proof.
  intros Hd Hi Hs. eapply dev_inv_step; eauto.
  - intros es F Hq _. exists es. eapply queue_inv_same; try done. apply Hq.
  - intros j qj t Hj Hqj Ht. split; [done|]. intros Ht'.
    by apply (di_tags _ _ _ Hd i j q qj t).
  - apply (di_member _ _ _ Hd i q Hi).
Qed.

Lemma set_status_works qs w FB i q s tags :
  works_ok qs w FB tags -> qs !! i = Some q -> works_ok (<[i := set_q_status s q]> qs) w FB tags.
Proof.
  intros [Hnd Hea Ht] Hi. assert (i < length qs)%nat by (by eapply lookup_lt_Some).
  assert (forall k qk, <[i := set_q_status s q]> qs !! k = Some qk ->
            exists qo, qs !! k = Some qo /\ q_inflight qk = q_inflight qo /\ q_req_tid qk = q_req_tid qo) as Hk.
  { intros k qk. destruct (decide (i = k)) as [<-|].
    - rewrite list_lookup_insert_eq by done. intros [= <-]. by exists q.
    - rewrite list_lookup_insert_ne by done. eauto. }
  split; [done| |].
  - intros t Hin. destruct (Hea t Hin) as [(e & op & k & qk & He & Hq & Hkk & Hop & Hp & Ho) Hf]. split.
    + destruct (decide (i = k)) as [<-|].
      * exists e, op, i, (set_q_status s q). rewrite list_lookup_insert_eq by done. by split_and!.
      * exists e, op, k, qk. rewrite list_lookup_insert_ne by done. by split_and!.
    + intros m qm Hx. destruct (Hk m qm Hx) as (qo & Hqo & -> & _). by apply (Hf m).
  - intros k qk Hx. destruct (Hk k qk Hx) as (qo & Hqo & _ & ->). by apply (Ht k).
Qed.

(** The flush: every pending work runs, none is left. *)
Lemma flush_spec qs w FB :
  dev_inv qs w FB -> works_ok qs w FB (w_wq w) ->
  exists qs' w', flush_workqueue qs w = Ok (qs', w') /\ dev_inv qs' w' FB /\ w_wq w' = [] /\
    same_status qs qs'.
Proof.
  intros Hd Hw. unfold flush_workqueue.
  destruct (run_works_spec FB (w_wq w) qs (set_w_wq [] w)) as (qs' & w' & E & Hd' & Ew & Hs).
  - by eapply dev_inv_ext; [..|exact Hd].
  - destruct Hw as [Hnd Hea Ht]. split; [done| |done]. intros t Hin. by destruct (Hea t Hin).
  - exists qs', w'. by split_and!.
Qed.

(** *** Removing queues *)

Lemma end_step qs w FB i q ret :
  dev_inv qs w FB -> qs !! i = Some q ->
  exists q' w', ubbd_queue_end_inflight_reqs q w ret = Ok (q', w') /\
    dev_inv (<[i := q']> qs) w' FB /\ q_inflight q' = [] /\ q_status q' = q_status q /\
    w_wq w' = w_wq w /\
    w_blk w' = w_blk w ++ map (fun t => BLK_END t (errno_to_blk_status ret)) (q_inflight q).
Proof.
  intros Hd Hi. destruct (di_member _ _ _ Hd i q Hi) as [(es & F & Hq & HFB & _) Hrq Hst].
  unfold ubbd_queue_end_inflight_reqs.
  destruct (queue_inv_list q w es F _ [] Hq) as [_ Hq1].
  destruct (end_inflight_list_spec ret F _ _ w es Hq1)
    as (q' & w' & es' & E & Hq' & Hin & Hs & Hb & Hw & _ & Hr & _).
  simpl in Hin, Hs. exists q', w'. split; [done|]. split; [|by split_and!].
  eapply dev_inv_step; eauto.
  - intros es0 F0 Hq0 _. destruct (queue_inv_list q w es0 F0 _ [] Hq0) as [_ Hq2].
    destruct (end_inflight_list_spec ret F0 _ _ w es0 Hq2) as (q1 & w1 & es1 & E1 & Hq3 & _).
    rewrite E in E1. injection E1 as <- <-. rewrite Hin. eauto.
  - intros j qj t Hj Hqj Ht. rewrite Hin. split; [|by intros ?%elem_of_nil].
    apply Hr. intros Ht'. by apply (di_tags _ _ _ Hd i j q qj t).
  - intros t e Ht. rewrite Hin in Ht. by apply elem_of_nil in Ht.
  - by rewrite Hs.
Qed.

Definition removed (force : bool) (q : ubbd_queue) : Prop :=
  q_status q = UBBD_QUEUE_KSTATUS_REMOVING /\ (force = true -> q_inflight q = []).

Lemma removing_not_running : UBBD_QUEUE_KSTATUS_REMOVING <> UBBD_QUEUE_KSTATUS_RUNNING.
Proof. pose proof queue_kstatus_distinct. intuition congruence. Qed.

Lemma remove_queue_spec force qs w FB i q :
  dev_inv qs w FB -> works_ok qs w FB (w_wq w) -> qs !! i = Some q ->
  exists qs' w' qi, remove_queue force i qs w = Ok (qs', w') /\ dev_inv qs' w' FB /\
    w_wq w' = [] /\ length qs' = length qs /\ qs' !! i = Some qi /\ removed force qi /\
    (forall j qj, j <> i -> qs !! j = Some qj -> removed force qj ->
       exists qj', qs' !! j = Some qj' /\ removed force qj').
Proof.
  intros Hd Hw Hi. unfold remove_queue. rewrite Hi. cbn [deref obind].
  assert (i < length qs)%nat as Hlen by (by eapply lookup_lt_Some).
  assert (kstatus_ok UBBD_QUEUE_KSTATUS_REMOVING) as Hk
    by (unfold kstatus_ok; rewrite !elem_of_cons; auto).
  destruct (flush_spec _ w FB (set_status_inv qs w FB i q _ Hd Hi Hk)
              (set_status_works _ _ _ _ _ _ _ Hw Hi)) as (qs1 & w1 & E1 & Hd1 & Ew1 & [El Hss]).
  rewrite E1. cbn [obind]. rewrite length_insert in El.
  destruct (Hss i (set_q_status UBBD_QUEUE_KSTATUS_REMOVING q)) as (q1 & Hi1 & Es1 & _);
    [by apply list_lookup_insert_eq|]. simpl in Es1.
  assert (forall j qj, j <> i -> qs !! j = Some qj -> removed force qj ->
            exists qj', qs1 !! j = Some qj' /\ removed force qj') as Hothers.
  { intros j qj Hne Hj [Hr1 Hr2]. destruct (Hss j qj) as (qj' & Hj' & Es & Hin);
      [by rewrite list_lookup_insert_ne|].
    exists qj'. split; [done|]. split; [congruence|]. intros Hf. rewrite Hin; [auto|].
    rewrite Hr1. apply removing_not_running. }
  destruct force; [|exists qs1, w1, q1; split_and!; try done].
  rewrite Hi1. cbn [deref obind].
  destruct (end_step qs1 w1 FB i q1 (- EIO) Hd1 Hi1) as (q2 & w2 & E2 & Hd2 & Hin2 & Es2 & Ew2 & _).
  rewrite E2. cbn [obind]. exists (<[i := q2]> qs1), w2, q2. split_and!; try done; try congruence.
  - by rewrite length_insert.
  - apply list_lookup_insert_eq. lia.
  - split; [congruence|done].
  - intros j qj Hne Hj Hr. rewrite list_lookup_insert_ne by done. by apply (Hothers j qj).
Qed.

Lemma remove_queues_from_spec force FB n : forall i qs w,
  dev_inv qs w FB -> works_ok qs w FB (w_wq w) -> (i + n = length qs)%nat ->
  (forall j qj, (j < i)%nat -> qs !! j = Some qj -> removed force qj) ->
  exists qs' w', remove_queues_from force n i qs w = Ok (qs', w') /\ dev_inv qs' w' FB /\
    (0 < n -> w_wq w' = [])%nat /\ length qs' = length qs /\ Forall (removed force) qs'.
Proof.
  induction n as [|n IH]; intros i qs w Hd Hw Hn Hdone; cbn [remove_queues_from].
  { exists qs, w. split_and!; try done; [lia|]. apply Forall_lookup. intros j qj Hj.
    apply (Hdone j); [|done]. apply lookup_lt_Some in Hj. lia. }
  destruct (lookup_lt_is_Some_2 qs i ltac:(lia)) as [q Hi].
  destruct (remove_queue_spec force qs w FB i q Hd Hw Hi)
    as (qs1 & w1 & q1 & E1 & Hd1 & Ew1 & El1 & Hi1 & Hr1 & Ho1). rewrite E1. cbn [obind].
  destruct (IH (S i) qs1 w1 Hd1) as (qs2 & w2 & E2 & Hd2 & Ew2 & El2 & Hall).
  - rewrite Ew1. apply works_ok_nil. intros j qj Hj. by eapply dev_inv_tids.
  - lia.
  - intros j qj Hj Hqj. destruct (decide (j = i)) as [->|Hne]; [congruence|].
    destruct (lookup_lt_is_Some_2 qs j ltac:(lia)) as [qo Hqo].
    destruct (Ho1 j qo Hne Hqo (Hdone j qo ltac:(lia) Hqo)) as (qj' & Hqj' & Hr). congruence.
  - exists qs2, w2. split_and!; [done|done| |lia|done]. intros _. destruct n as [|n].
    + cbn [remove_queues_from] in E2. congruence.
    + apply Ew2. lia.
Qed.

(** *** Stopping a queue *)

Lemma remove_disk_status_spec d :
  (d_status d = UBBD_DEV_KSTATUS_RUNNING -> is_Some (d_disk d)) ->
  exists k', remove_disk_status d = Ok (set_d_disk k' (set_d_status UBBD_DEV_KSTATUS_REMOVING d)) /\
    forall k, k' = Some k -> d_status d = UBBD_DEV_KSTATUS_RUNNING -> dk_phase k = DISK_DELETED.
Proof.
  intros Hdisk. unfold remove_disk_status.
  destruct (Z.eqb_spec (d_status d) UBBD_DEV_KSTATUS_RUNNING) as [Es|Es].
  - destruct (Hdisk Es) as [k Ek]. unfold del_gendisk. simpl d_disk. rewrite Ek. cbn [deref obind].
    eexists. split; [done|]. by intros ? [= <-].
  - exists (d_disk d). split; [by destruct d|done].
Qed.

Lemma find_running_spec qs : forall i r,
  find_running qs i = Some r ->
  exists k q, r = i + Z.of_nat k /\ qs !! k = Some q /\ q_status q = UBBD_QUEUE_KSTATUS_RUNNING /\
    forall j qj, (j < k)%nat -> qs !! j = Some qj -> q_status qj <> UBBD_QUEUE_KSTATUS_RUNNING.
Proof.
  induction qs as [|q qs IH]; intros i r; simpl; [done|].
  destruct (Z.eqb_spec (q_status q) UBBD_QUEUE_KSTATUS_RUNNING) as [E|E].
  - intros [= <-]. exists 0%nat, q. split_and!; [lia|done|done|lia].
  - intros H. destruct (IH _ _ H) as (k & q' & -> & Hk & Hs & Hb).
    exists (S k), q'. split_and!; [lia|done|done|]. intros [|j] qj Hj Hq; simpl in Hq.
    + by injection Hq as <-.
    + apply (Hb j); [lia|done].
Qed.

Lemma find_running_first qs : forall i k q,
  qs !! k = Some q -> q_status q = UBBD_QUEUE_KSTATUS_RUNNING ->
  (forall j qj, (j < k)%nat -> qs !! j = Some qj -> q_status qj <> UBBD_QUEUE_KSTATUS_RUNNING) ->
  find_running qs i = Some (i + Z.of_nat k).
Proof.
  induction qs as [|q0 qs IH]; intros i k q Hk Hs Hb; [by rewrite lookup_nil in Hk|]. simpl.
  destruct k as [|k]; simpl in Hk.
  - injection Hk as ->. rewrite Hs, Z.eqb_refl. f_equal. lia.
  - pose proof (Hb 0%nat q0 ltac:(lia) eq_refl) as Hn. apply Z.eqb_neq in Hn. rewrite Hn.
    rewrite (IH (i + 1) k q Hk Hs); [f_equal; lia|].
    intros j qj Hj Hqj. apply (Hb (S j) qj); [lia|done].
Qed.
End lemmas.
