(* ===== verification/DeviceProps.v ===== *)
(** * Properties of the management operations

    The theorems about [src/src/ubbd_dev.c], each with a witness on a device
    of two queues. *)

From S2P Require Import Prelude Abi Ring Pages Request Queue QueueProps Kring KringMap Device DeviceInv.

Section properties.
Context `{L : UbbdAbiLaws} `{KL : KernelApiLaws} `{ML : KernelMemLaws}.

(** C16: a forced removal of the disk goes through and leaves nothing behind, on
    a device whose every queue a backend has opened.  From any state such queues
    can be in (requests inflight, works pending, queues running, stopping or
    stopped) it does not fault ([dev_inv] has the inode the open left in each
    queue; without it the release of data pages above the reserve dereferences
    NULL, [release_without_backend_faults]); afterwards every queue is
    removing and has no inflight request, no work is pending, the invariant of
    the queues holds, the device is removing and a disk that was running has
    been deleted from the system. *)
Theorem forced_removal_ends_everything (d : ubbd_device) (w : world) (FB : gset Z) :
  dev_inv (d_queues d) w FB -> works_ok (d_queues d) w FB (w_wq w) -> d_queues d <> [] ->
  (d_status d = UBBD_DEV_KSTATUS_RUNNING -> is_Some (d_disk d)) ->
  exists d' w', ubbd_dev_remove_disk d true w = Ok (d', w') /\
    dev_inv (d_queues d') w' FB /\ w_wq w' = [] /\ length (d_queues d') = length (d_queues d) /\
    Forall (fun q => q_status q = UBBD_QUEUE_KSTATUS_REMOVING /\ q_inflight q = []) (d_queues d') /\
    d_status d' = UBBD_DEV_KSTATUS_REMOVING /\
    (if decide (d_status d = UBBD_DEV_KSTATUS_RUNNING)
     then exists k, d_disk d' = Some k /\ dk_phase k = DISK_DELETED
     else d_disk d' = d_disk d).
Proof.
  intros Hd Hw Hne Hdisk. unfold ubbd_dev_remove_disk, ubbd_dev_remove_queues.
  destruct (remove_queues_from_spec true FB (length (d_queues d)) 0 (d_queues d) w Hd Hw eq_refl)
    as (qs' & w' & E & Hd' & Ew & El & Hall); [lia|].
  rewrite E. cbn [obind]. unfold remove_disk_status. simpl d_status.
  assert (Forall (fun q => q_status q = UBBD_QUEUE_KSTATUS_REMOVING /\ q_inflight q = []) qs') as Hq.
  { eapply Forall_impl; [exact Hall|]. intros q [? ?]. auto. }
  assert (w_wq w' = []) as Hwq by (apply Ew; destruct (d_queues d); simpl; done || lia).
  destruct (Z.eqb_spec (d_status d) UBBD_DEV_KSTATUS_RUNNING) as [Es|Es].
  - destruct (Hdisk Es) as [k Hk]. unfold del_gendisk. simpl d_disk. rewrite Hk. cbn [deref obind].
    do 2 eexists. split; [done|]. simpl. split_and!; try done. rewrite decide_True by done. eauto.
  - do 2 eexists. split; [done|]. simpl. split_and!; try done. by rewrite decide_False.
Qed.

(** C29: stopping a running queue.  The pending works of the device are flushed
    first (those of this queue are requeued, the others submitted); the queue
    is stopped at once when it has nothing inflight and stopping otherwise (the
    completion loop stops it when the last request leaves); the other queues
    keep their status; and the hardware context is pointed at the first queue
    that was running when the command came. *)
Theorem stop_queue_correct (d : ubbd_device) (i : nat) (q : ubbd_queue) (w : world) (FB : gset Z) :
  dev_inv (d_queues d) w FB -> works_ok (d_queues d) w FB (w_wq w) ->
  d_status d = UBBD_DEV_KSTATUS_RUNNING -> Z.of_nat (length (d_queues d)) < 2 ^ 31 ->
  d_queues d !! i = Some q -> q_status q = UBBD_QUEUE_KSTATUS_RUNNING ->
  exists d' w' q', ubbd_dev_stop_queue d (Z.of_nat i) w = Ok (0, d', w') /\
    dev_inv (d_queues d') w' FB /\ w_wq w' = [] /\
    d_queues d' !! i = Some q' /\ q_inflight q' = q_inflight q /\
    q_status q' = (if decide (q_inflight q = []) then UBBD_QUEUE_KSTATUS_STOPPED
                   else UBBD_QUEUE_KSTATUS_STOPPING) /\
    (forall j qj, j <> i -> d_queues d !! j = Some qj ->
       exists qj', d_queues d' !! j = Some qj' /\ q_status qj' = q_status qj) /\
    (forall r0, d_hctx d !! i = Some (Some r0) -> d_hctx d' !! i = Some (find_running_queue d)).
Proof.
  intros Hd Hw Hs Hlen Hi Hq. assert (i < length (d_queues d))%nat as Hlt by (by eapply lookup_lt_Some).
  unfold ubbd_dev_stop_queue, bad_queue_id. rewrite Hs, Z.eqb_refl. cbn [negb].
  rewrite u32_small by lia. destruct (Z.leb_spec (Z.of_nat (length (d_queues d))) (Z.of_nat i)); [lia|].
  rewrite Nat2Z.id. unfold queue_stop. rewrite Hi. cbn [deref obind]. rewrite Hq.
  pose proof queue_kstatus_distinct as Hdist. destruct_and! Hdist.
  assert (forall a b : Z, a <> b -> (a =? b) = false) as Hne by (intros; by apply Z.eqb_neq).
  rewrite !Hne, Z.eqb_refl by done. cbn [orb negb].
  set (d1 := match d_hctx d !! i with Some (Some _) => _ | _ => d end).
  assert (d_queues d1 = d_queues d) as Edq
    by (unfold d1; destruct (d_hctx d !! i) as [[r0|]|]; [destruct (find_running_queue d)|..]; done).
  rewrite Edq.
  assert (kstatus_ok UBBD_QUEUE_KSTATUS_STOPPING /\ kstatus_ok UBBD_QUEUE_KSTATUS_STOPPED) as [Hk1 Hk2]
    by (unfold kstatus_ok; rewrite !elem_of_cons; auto 10).
  destruct (flush_spec _ w FB (set_status_inv _ _ _ i q _ Hd Hi Hk1) (set_status_works _ _ _ _ _ _ _ Hw Hi))
    as (qs' & w' & E & Hd' & Ew & [El Hss]).
  rewrite E. cbn [obind]. rewrite length_insert in El.
  destruct (Hss i (set_q_status UBBD_QUEUE_KSTATUS_STOPPING q)) as (q1 & Hi1 & Es1 & Hin1);
    [by apply list_lookup_insert_eq|]. simpl in Es1, Hin1. specialize (Hin1 ltac:(done)).
  rewrite Hi1. cbn [deref obind]. do 3 eexists. split; [done|]. cbn [d_queues set_d_queues].
  split_and!.
  - case_bool_decide; [by apply set_status_inv|by rewrite list_insert_id].
  - done.
  - apply list_lookup_insert_eq. lia.
  - case_bool_decide; done.
  - rewrite Hin1. case_bool_decide; [by rewrite decide_True|by rewrite decide_False].
  - intros j qj Hj Hqj. destruct (Hss j qj) as (qj' & Hj' & Es' & _);
      [by rewrite list_lookup_insert_ne|].
    exists qj'. by rewrite list_lookup_insert_ne.
  - intros r0 Hr0. cbn [d_hctx set_d_queues]. unfold d1. rewrite Hr0.
    unfold find_running_queue at 1 2.
    destruct (find_running (d_queues d) 0) as [r|] eqn:Er.
    + cbn [d_hctx set_d_hctx]. apply list_lookup_insert_eq. by eapply lookup_lt_Some.
    + exfalso. assert (forall qs k, find_running qs k = None ->
        forall j qj, qs !! j = Some qj -> q_status qj <> UBBD_QUEUE_KSTATUS_RUNNING) as Hnone.
      { clear. induction qs as [|q0 qs IH]; intros k Hf j qj Hj; [by rewrite lookup_nil in Hj|].
        simpl in Hf. destruct (Z.eqb_spec (q_status q0) UBBD_QUEUE_KSTATUS_RUNNING); [done|].
        destruct j as [|j]; simpl in Hj; [by injection Hj as <-|by apply (IH (k + 1) Hf j)]. }
      by apply (Hnone _ _ Er i q Hi).
Qed.

(** The redirection may not redirect.  The search for a running queue runs
    before the queue is marked as stopping, so when no queue before it is
    running it finds the queue itself: the context of the stopped queue stays
    on the stopped queue, although other queues are running, and the requests
    it serves are refused from then on. *)
Theorem stop_queue_may_keep_route (d : ubbd_device) (i : nat) (q : ubbd_queue) (w : world) (FB : gset Z)
    (r0 : Z) :
  dev_inv (d_queues d) w FB -> works_ok (d_queues d) w FB (w_wq w) ->
  d_queues d !! i = Some q -> q_status q = UBBD_QUEUE_KSTATUS_RUNNING ->
  (forall j qj, (j < i)%nat -> d_queues d !! j = Some qj -> q_status qj <> UBBD_QUEUE_KSTATUS_RUNNING) ->
  d_hctx d !! i = Some (Some r0) ->
  exists ret d' w', queue_stop d i w = Ok (ret, d', w') /\ ret = 0 /\
    d_hctx d' !! i = Some (Some (Z.of_nat i)).
Proof.
  intros Hd Hw Hi Hq Hfirst Hh. unfold queue_stop. rewrite Hi. cbn [deref obind]. rewrite Hq.
  pose proof queue_kstatus_distinct as Hdist. destruct_and! Hdist.
  assert (forall a b : Z, a <> b -> (a =? b) = false) as Hne by (intros; by apply Z.eqb_neq).
  rewrite !Hne, Z.eqb_refl by done. cbn [orb negb]. rewrite Hh.
  unfold find_running_queue. rewrite (find_running_first _ 0 i q Hi Hq Hfirst).
  cbn [d_queues set_d_hctx].
  assert (kstatus_ok UBBD_QUEUE_KSTATUS_STOPPING) as Hk1 by (unfold kstatus_ok; rewrite !elem_of_cons; auto).
  destruct (flush_spec _ w FB (set_status_inv _ _ _ i q _ Hd Hi Hk1) (set_status_works _ _ _ _ _ _ _ Hw Hi))
    as (qs' & w' & E & _ & _ & [El Hss]).
  rewrite E. cbn [obind].
  destruct (Hss i (set_q_status UBBD_QUEUE_KSTATUS_STOPPING q)) as (q1 & Hi1 & _);
    [apply list_lookup_insert_eq; by eapply lookup_lt_Some|].
  rewrite Hi1. cbn [deref obind]. do 3 eexists. split; [done|]. split; [done|].
  cbn [d_hctx set_d_queues set_d_hctx]. apply list_lookup_insert_eq. by eapply lookup_lt_Some.
Qed.

(** No queue id reaches outside the array.  The [int] from the message is
    compared with the unsigned number of queues: any id that is not an index,
    negative ones included, is refused with -EINVAL by both commands, and the
    device is unchanged. *)
Theorem bad_queue_ids_refused (d : ubbd_device) (queue_id : Z) (w : world) :
  Z.of_nat (length (d_queues d)) <= 2 ^ 31 -> - 2 ^ 31 <= queue_id < 2 ^ 31 ->
  ~ 0 <= queue_id < Z.of_nat (length (d_queues d)) ->
  ubbd_dev_stop_queue d queue_id w = Ok (- EINVAL, d, w) /\
  ubbd_dev_start_queue d queue_id = Ok (- EINVAL, d).
Proof.
  intros Hn Hr Hbad. unfold ubbd_dev_stop_queue, ubbd_dev_start_queue.
  assert (bad_queue_id d queue_id = true) as ->.
  { unfold bad_queue_id. apply Z.leb_le. destruct (Z.ltb_spec queue_id 0).
    - unfold u32. replace (queue_id mod 2 ^ 32) with (queue_id + 2 ^ 32); [lia|].
      apply (Z.mod_unique _ _ (-1)); lia.
    - rewrite u32_small by lia. lia. }
  by destruct (negb _).
Qed.

(** Starting a stopped or stopping queue makes it run and gives its
    hardware context back to it, whichever queue the context had been pointed
    at; a queue being removed is never started again. *)
Theorem start_queue_correct (d : ubbd_device) (i : nat) (q : ubbd_queue) :
  d_status d = UBBD_DEV_KSTATUS_RUNNING -> Z.of_nat (length (d_queues d)) < 2 ^ 31 ->
  d_queues d !! i = Some q ->
  (q_status q = UBBD_QUEUE_KSTATUS_REMOVING -> ubbd_dev_start_queue d (Z.of_nat i) = Ok (- EINVAL, d)) /\
  (q_status q = UBBD_QUEUE_KSTATUS_STOPPING \/ q_status q = UBBD_QUEUE_KSTATUS_STOPPED ->
   exists d', ubbd_dev_start_queue d (Z.of_nat i) = Ok (0, d') /\
     d_queues d' = <[i := set_q_status UBBD_QUEUE_KSTATUS_RUNNING q]> (d_queues d) /\
     (forall r, d_hctx d !! i = Some (Some r) -> d_hctx d' !! i = Some (Some (Z.of_nat i))) /\
     (forall j, j <> i -> d_hctx d' !! j = d_hctx d !! j)).
Proof.
  intros Hs Hlen Hi. assert (i < length (d_queues d))%nat as Hlt by (by eapply lookup_lt_Some).
  unfold ubbd_dev_start_queue, bad_queue_id. rewrite Hs, Z.eqb_refl. cbn [negb].
  rewrite u32_small by lia. destruct (Z.leb_spec (Z.of_nat (length (d_queues d))) (Z.of_nat i)); [lia|].
  rewrite Nat2Z.id. unfold queue_start. rewrite Hi. cbn [deref obind].
  pose proof queue_kstatus_distinct as Hdist. destruct_and! Hdist.
  assert (forall a b : Z, a <> b -> (b =? a) = false) as Hne by (intros; apply Z.eqb_neq; auto).
  split; [intros ->; by rewrite Hne, Z.eqb_refl by done|].
  intros Hst. assert ((q_status q =? UBBD_QUEUE_KSTATUS_RUNNING) = false /\
                      (q_status q =? UBBD_QUEUE_KSTATUS_REMOVING) = false) as [-> ->].
  { destruct Hst as [-> | ->]; split; apply Z.eqb_neq; auto. }
  cbn [d_hctx set_d_queues].
  destruct (d_hctx d !! i) as [[r|]|] eqn:Eh.
  - destruct (Z.eqb_spec r (Z.of_nat i)) as [->|Hr]; cbn [negb].
    + eexists. split; [done|]. by split_and!.
    + eexists. split; [done|]. cbn [d_queues d_hctx set_d_queues set_d_hctx]. split_and!; [done| |].
      * intros r' _. apply list_lookup_insert_eq. by eapply lookup_lt_Some.
      * intros j Hj. by apply list_lookup_insert_ne.
  - eexists. split; [done|]. by split_and!.
  - eexists. split; [done|]. by split_and!.
Qed.

(** The reserve never exceeds the pages, overflow or not. *)
Lemma reserve_bound (percent n : Z) :
  0 <= percent <= 100 -> 0 <= n < 2 ^ 32 -> 0 <= data_pages_reserve percent n <= n.
Proof.
  intros Hp Hn. unfold data_pages_reserve.
  pose proof (Z.mod_pos_bound (percent * n) (2 ^ 32) ltac:(lia)) as Hm.
  pose proof (Z.mod_le (percent * n) (2 ^ 32) ltac:(nia) ltac:(lia)) as Hle.
  fold (u32 (percent * n)) in Hm, Hle.
  split; [apply Z.div_pos; lia|]. apply Z.div_le_upper_bound; nia.
Qed.

(** The reserve is a percentage only without overflow.  The 32-bit product
    makes the reserve of a queue equal to the percentage of its pages exactly
    when percentage times pages stays below 2^32 (57 million pages at the
    default of 75 percent); then it is at most the number of pages. *)
Theorem reserve_exact_iff (percent n : Z) :
  0 <= percent <= 100 -> 0 <= n < 2 ^ 32 ->
  (data_pages_reserve percent n = percent * n / 100 <-> percent * n < 2 ^ 32) /\
  0 <= data_pages_reserve percent n <= n.
Proof.
  intros Hp Hn. split; [|by apply reserve_bound]. unfold data_pages_reserve.
  assert (0 <= percent * n <= 100 * n) by nia.
  pose proof (Z.mod_pos_bound (percent * n) (2 ^ 32) ltac:(lia)) as Hm.
  pose proof (Z.mod_le (percent * n) (2 ^ 32) ltac:(lia) ltac:(lia)) as Hle.
  fold (u32 (percent * n)) in Hm, Hle. split.
  - intros E. destruct (Z.ltb_spec (percent * n) (2 ^ 32)) as [|Hge]; [done|]. exfalso.
    pose proof (Z.div_mod (percent * n) (2 ^ 32) ltac:(lia)) as Hdm.
    fold (u32 (percent * n)) in Hdm.
    assert (1 <= percent * n / 2 ^ 32) by (apply Z.div_le_lower_bound; lia).
    assert (u32 (percent * n) + 2 ^ 32 <= percent * n) as Hlt by nia.
    pose proof (Z.div_le_mono _ _ 100 ltac:(lia) Hlt).
    assert (u32 (percent * n) / 100 < (u32 (percent * n) + 2 ^ 32) / 100); [|lia].
    apply Z.lt_le_trans with ((u32 (percent * n) + 1 * 100) / 100).
    + rewrite Z.div_add by lia. lia.
    + apply Z.div_le_mono; lia.
  - intros Hlt. by rewrite u32_small by lia.
Qed.

(** Configuring the reserve changes nothing else.  A percentage above 100
    or a device that is not running is refused and leaves the device as it
    was; otherwise every queue keeps its invariant, its pages and its requests
    and only its reserve is set, to a value of at most its number of pages. *)
Theorem config_reserve_correct (d : ubbd_device) (percnt size : Z) :
  0 <= percnt < 2 ^ 32 ->
  let opts := mk_config UBBD_DEV_CONFIG_FLAG_DP_RESERVE percnt size in
  exists ret d', ubbd_dev_config d opts = Ok (ret, d') /\
    (ret = - EINVAL <-> d_status d <> UBBD_DEV_KSTATUS_RUNNING \/ 100 < percnt) /\
    (ret = - EINVAL -> d' = d) /\
    (ret <> - EINVAL -> ret = 0 /\ d_disk d' = d_disk d /\
       forall i q, d_queues d !! i = Some q -> exists q', d_queues d' !! i = Some q' /\
         (forall w es F l, queue_inv q w es F l ->
            queue_inv q' w es F l /\ data_pages_reserved (q_pool q') <= data_pages (q_pool q')) /\
         data_bitmap (q_pool q') = data_bitmap (q_pool q) /\ q_inflight q' = q_inflight q).
Proof.
  intros Hp opts. unfold ubbd_dev_config. simpl co_flags. simpl co_dp_reserve_percnt.
  assert (0 < EINVAL) by (unfold EINVAL; lia).
  destruct (Z.eqb_spec (d_status d) UBBD_DEV_KSTATUS_RUNNING) as [Es|Es]; cbn [negb].
  2: { do 2 eexists. split; [done|]. split_and!; [naive_solver|done|done]. }
  change (Z.land UBBD_DEV_CONFIG_FLAG_DP_RESERVE UBBD_DEV_CONFIG_FLAG_DP_RESERVE =? 0) with false.
  change (Z.land UBBD_DEV_CONFIG_FLAG_DP_RESERVE UBBD_DEV_CONFIG_FLAG_DEV_SIZE =? 0) with true.
  cbn [negb andb]. destruct (Z.ltb_spec 100 percnt).
  { do 2 eexists. split; [done|]. split_and!; [|done|done]. split; [by right|done]. }
  do 2 eexists. split; [done|]. split_and!; [split; [lia|intros [?|?]; [done|lia]]|lia|].
  intros _. split; [done|]. split; [done|]. intros i q Hi. simpl.
  exists (set_queue_reserve percnt q). rewrite list_lookup_fmap, Hi. split; [done|].
  split; [|done]. intros w es F l Hq. split.
  - eapply queue_inv_frame; eauto; try apply Hq; simpl.
    + destruct (qi_pool _ _ _ _ _ Hq). by split.
    + pose proof (qi_tid _ _ _ _ _ Hq). lia.
    + intros t e _ He. split_and!; [done|auto|by apply entries_kept_refl].
  - simpl. pose proof (pl_size _ _ _ _ (qi_pool _ _ _ _ _ Hq)).
    apply reserve_bound; lia.
Qed.
End properties.

(** ** Witnesses *)

(** Two running queues; a read of queue 0 waits on the work queue. *)
Definition demo_device : ubbd_device :=
  mk_dev demo_abi 0 [demo_queue 1; demo_queue 1] [Some 0; Some 1]
    (Some (mk_disk DISK_ADDED 2048 false (mk_limits false false 0 0 0 0))) 1048576 0 0 2 0 1 true false.

Definition demo_pending_world : world :=
  mk_world demo_kernel demo_mem
    {[7 := mk_rq_entry (demo_rq REQ_OP_READ) (Some 0) (zeroed_ubbd_request UBBD_OP_READ)]} [7] []
    (demo_foreign, []) (fun p o => p + o).

Lemma demo_device_queue i q : d_queues demo_device !! i = Some q -> q = demo_queue 1.
Proof. destruct i as [|[|i]]; simpl; intros H; [by injection H|by injection H|done]. Qed.

Lemma demo_device_inv : dev_inv (d_queues demo_device) demo_pending_world demo_foreign.
Proof.
  split.
  - intros i q Hi. apply demo_device_queue in Hi as ->. split.
    + exists [], demo_foreign. split.
      * apply (queue_inv_frame (demo_queue 1) demo_read_world [] demo_foreign []); try done.
        -- apply demo_queue_inv.
        -- constructor.
        -- apply (qi_ring _ _ _ _ _ (demo_queue_inv 1 REQ_OP_READ (zeroed_ubbd_request UBBD_OP_READ))).
        -- intros t e Ht. by apply elem_of_nil in Ht.
      * split; [done|]. intros j q' pg _ Hj [k Hk]. apply demo_device_queue in Hj as ->. done.
    + intros t e Ht. by apply elem_of_nil in Ht.
    + by left.
  - intros i j qi qj t Hi _ _ Ht. apply demo_device_queue in Hi as ->. by apply elem_of_nil in Ht.
Qed.

Lemma demo_device_works : works_ok (d_queues demo_device) demo_pending_world demo_foreign [7].
Proof.
  split.
  - apply NoDup_singleton.
  - intros tag Ht. apply list_elem_of_singleton in Ht as ->. split.
    + exists (mk_rq_entry (demo_rq REQ_OP_READ) (Some 0) (zeroed_ubbd_request UBBD_OP_READ)),
        UBBD_OP_READ, 0%nat, (demo_queue 1).
      split_and!; try done. apply demo_rq_ok.
    + intros i q Hi. apply demo_device_queue in Hi as ->. by intros Ht%elem_of_nil.
  - intros i q Hi. apply demo_device_queue in Hi as ->. simpl. lia.
Qed.

Lemma forced_removal_ends_everything_witness :
  exists d' w', ubbd_dev_remove_disk demo_device true demo_pending_world = Ok (d', w') /\ w_wq w' = [].
Proof.
  destruct (forced_removal_ends_everything demo_device demo_pending_world demo_foreign
    demo_device_inv demo_device_works ltac:(discriminate) ltac:(simpl; eauto))
    as (d' & w' & E & _ & Hw & _).
  exists d', w'. split; [exact E|exact Hw].
Defined.

Lemma stop_queue_correct_witness :
  exists d' w' q', ubbd_dev_stop_queue demo_device 1 demo_pending_world = Ok (0, d', w') /\
    d_queues d' !! 1%nat = Some q' /\ q_status q' = 3.
Proof.
  destruct (stop_queue_correct demo_device 1 (demo_queue 1) demo_pending_world demo_foreign
    demo_device_inv demo_device_works eq_refl ltac:(simpl; lia) eq_refl eq_refl)
    as (d' & w' & q' & E & _ & _ & Hq & _ & Hs & _).
  exists d', w', q'. split; [exact E|]. split; [exact Hq|exact Hs].
Defined.

(** Queue 0 is stopped while queue 1 runs: its context stays on queue 0. *)
Lemma stop_queue_may_keep_route_witness :
  exists ret d' w', queue_stop demo_device 0 demo_pending_world = Ok (ret, d', w') /\ ret = 0 /\
    d_hctx d' !! 0%nat = Some (Some 0).
Proof.
  apply (stop_queue_may_keep_route demo_device 0 (demo_queue 1) demo_pending_world demo_foreign 0
    demo_device_inv demo_device_works); try reflexivity. intros j qj Hj. lia.
Defined.

Lemma bad_queue_ids_refused_witness :
  ubbd_dev_stop_queue demo_device (-1) demo_pending_world = Ok (- EINVAL, demo_device, demo_pending_world) /\
  ubbd_dev_start_queue demo_device 2 = Ok (- EINVAL, demo_device).
Proof.
  split; [apply (bad_queue_ids_refused demo_device (-1) demo_pending_world)
         |apply (bad_queue_ids_refused demo_device 2 demo_pending_world)]; simpl; lia.
Defined.

Definition demo_stopped_device : ubbd_device := set_d_queues [demo_queue 3; demo_queue 1] demo_device.

Lemma start_queue_correct_witness :
  exists d', ubbd_dev_start_queue demo_stopped_device 0 = Ok (0, d') /\
    d_queues d' = [demo_queue 1; demo_queue 1].
Proof.
  destruct (start_queue_correct demo_stopped_device 0 (demo_queue 3)) as [_ H]; try reflexivity.
  destruct H as (d' & E & Hq & _); [by right|]. exists d'. split; [exact E|exact Hq].
Defined.

Lemma reserve_exact_iff_witness : data_pages_reserve 75 262144 = 75 * 262144 / 100.
Proof. apply (reserve_exact_iff 75 262144); lia. Defined.

Lemma config_reserve_correct_witness :
  exists ret d', ubbd_dev_config demo_device (mk_config UBBD_DEV_CONFIG_FLAG_DP_RESERVE 50 0) = Ok (ret, d') /\
    ret <> - EINVAL.
Proof.
  destruct (config_reserve_correct demo_device 50 0 ltac:(lia)) as (ret & d' & E & Hr & _).
  exists ret, d'. split; [exact E|]. intros H. apply Hr in H as [H|H]; [by apply H|lia].
Defined.
