(* ===== verification/DataPath.v ===== *)
(** * The data of a request, end to end

    The way of the data between a bio of the block layer and the backend, over
    [ubbd_req.c] (data pages, copies, iovecs) and [ubbd_kring.c] (the fault
    handler behind the mapping): what the backend reads through the iovecs of a
    submission entry is the data of the write, and what it writes through them
    is the data of the read, as lists of bytes. *)

From S2P Require Import Prelude Abi Ring Pages Request Queue QueueProps Kring KringMap Device DeviceInv.

(** ** Bytes at locations *)

(** A page and an offset in it. *)
Definition loc : Type := (Z * Z)%type.

Definition load (m : memory) (l : loc) : Z := m l.1 l.2.
Definition store (m : memory) (lv : loc * Z) : memory :=
  fun p o => if (p =? lv.1.1) && (o =? lv.1.2) then lv.2 else m p o.
Definition store_all (locs : list loc) (data : list Z) (m : memory) : memory :=
  foldl store m (zip locs data).

(** The bytes of a list of segments, in order. *)
Definition seg_locs (page : Z) (bv : bio_vec) : list loc := pair page <$> seqZ (bv_offset bv) (bv_len bv).
Definition bio_locs (segs : list bio_vec) : list loc := segs ≫= fun bv => seg_locs (bv_page bv) bv.
Definition bio_bytes (m : memory) (segs : list bio_vec) : list Z := load m <$> bio_locs segs.

(** The same bytes in data pages: one page per segment. *)
Definition page_locs (pgs : list Z) (segs : list bio_vec) : list loc := concat (zip_with seg_locs pgs segs).

Lemma elem_of_seg_locs page bv l : l ∈ seg_locs page bv <-> l.1 = page /\ in_seg bv l.2.
Proof.
  unfold seg_locs, in_seg. rewrite list_elem_of_fmap. destruct l as [p o]. simpl. split.
  - intros (o' & [= -> ->] & Ho). apply elem_of_seqZ in Ho. done.
  - intros [-> Ho]. exists o. split; [done|]. apply elem_of_seqZ. lia.
Qed.

Lemma seg_locs_nodup page bv : NoDup (seg_locs page bv).
Proof. apply NoDup_fmap; [by intros ?? [= ->]|apply NoDup_seqZ]. Qed.

Lemma page_locs_in pgs segs l : l ∈ page_locs pgs segs -> l.1 ∈ pgs.
Proof.
  revert segs. induction pgs as [|pg pgs IH]; intros [|bv segs]; unfold page_locs; cbn [zip_with concat];
    try (intros Hin; by apply elem_of_nil in Hin).
  rewrite elem_of_app, elem_of_cons, elem_of_seg_locs. intros [[-> _]|H]; [by left|right]. by apply (IH segs).
Qed.

Lemma page_locs_nodup pgs segs : NoDup pgs -> NoDup (page_locs pgs segs).
Proof.
  revert segs. induction pgs as [|pg pgs IH]; intros [|bv segs] Hnd; unfold page_locs; simpl; try constructor.
  apply NoDup_cons in Hnd as [Hni Hnd]. apply NoDup_app. split_and!.
  - apply seg_locs_nodup.
  - intros l Hl Hin. apply elem_of_seg_locs in Hl as [<- _]. by apply Hni, (page_locs_in _ segs).
  - by apply IH.
Qed.

(** Storing at distinct locations, then loading. *)
Lemma store_other lvs m l : l ∉ lvs.*1 -> load (foldl store m lvs) l = load m l.
Proof.
  revert m. induction lvs as [|[l' v] lvs IH]; intros m Hni; [done|]. cbn [foldl].
  rewrite fmap_cons, not_elem_of_cons in Hni. destruct Hni as [Hne Hni]. rewrite IH by done.
  unfold load, store. simpl. destruct (Z.eqb_spec l.1 l'.1), (Z.eqb_spec l.2 l'.2); try done.
  exfalso. apply Hne. destruct l, l'. simpl in *. by subst.
Qed.

Lemma store_all_load locs data m : NoDup locs -> length data = length locs ->
  load (store_all locs data m) <$> locs = data.
Proof.
  unfold store_all. revert data m. induction locs as [|l locs IH]; intros [|v data] m Hnd Hl; try done.
  apply NoDup_cons in Hnd as [Hni Hnd]. injection Hl as Hl. rewrite fmap_cons. cbn [zip zip_with foldl]. f_equal.
  - rewrite store_other.
    + unfold load, store. simpl. by rewrite !Z.eqb_refl.
    + rewrite fst_zip by lia. done.
  - by apply IH.
Qed.

(** A copy, segment by segment, is a copy of the bytes. *)
Lemma bytes_copied m m' pgs segs : length pgs = length segs ->
  (forall j bv pg o, segs !! j = Some bv -> pgs !! j = Some pg -> in_seg bv o -> m' pg o = m (bv_page bv) o) ->
  load m' <$> page_locs pgs segs = bio_bytes m segs.
Proof.
  revert pgs. induction segs as [|bv segs IH]; intros [|pg pgs] Hl H; try done.
  unfold page_locs, bio_bytes, bio_locs. cbn [zip_with concat]. rewrite bind_cons, !fmap_app. f_equal.
  - unfold seg_locs. rewrite <- !list_fmap_compose. apply list_fmap_ext. intros i o Ho. simpl.
    apply (H 0%nat bv pg o eq_refl eq_refl). apply list_elem_of_lookup_2, elem_of_seqZ in Ho. unfold in_seg. lia.
  - apply IH; [by injection Hl|]. intros j b p o Hb Hp. by apply (H (S j)).
Qed.

(** ** The backend at its mapping *)

Section backend.
Context `{A : UbbdAbi} `{K : KernelApi}.

(** Where an address of the mapping of a queue leads: a page fault gives the
    page. *)
Definition backend_loc (p : data_pool) (x : Z) : option loc :=
  match ubbd_vma_fault p (x / PAGE_SIZE) with
  | FAULT_DATA pg => Some (pg, x mod PAGE_SIZE)
  | _ => None
  end.

(** The addresses of an iovec, and what the backend reads and writes through
    those of an entry. *)
Definition iov_addresses (iov : list (Z * Z)) : list Z := iov ≫= fun x => Z.add x.1 <$> seqZ 0 x.2.

Definition backend_reads (p : data_pool) (iov : list (Z * Z)) (m : memory) : option (list Z) :=
  locs ← mapM (backend_loc p) (iov_addresses iov); Some (load m <$> locs).

Definition backend_fills (p : data_pool) (iov : list (Z * Z)) (data : list Z) (m : memory) : option memory :=
  locs ← mapM (backend_loc p) (iov_addresses iov); Some (store_all locs data m).
End backend.

(** The segments a bio may have: each within a page. *)
Definition seg_in_page `{K : KernelApi} (bv : bio_vec) : Prop :=
  0 <= bv_offset bv /\ 0 <= bv_len bv /\ bv_offset bv + bv_len bv <= PAGE_SIZE.

Section proofs.
Context `{L : UbbdAbiLaws} `{KL : KernelApiLaws} `{ML : KernelMemLaws}.
Implicit Types (p : data_pool) (q : ubbd_queue) (w : world) (F : gset Z).

Lemma mapM_app_Some {X Y} (f : X -> option Y) l1 l2 k1 k2 :
  mapM f l1 = Some k1 -> mapM f l2 = Some k2 -> mapM f (l1 ++ l2) = Some (k1 ++ k2).
Proof. rewrite !mapM_Some. apply Forall2_app. Qed.

(** One iovec: the bytes of the segment, in its data page. *)
Lemma iov_locs p i pg bv :
  layout_ok p -> 0 <= i < 2 ^ 32 -> data_pages_array p !! i = Some pg -> seg_in_page bv ->
  mapM (backend_loc p) (Z.add (iov_of (data_off p) i bv).1 <$> seqZ 0 (bv_len bv)) = Some (seg_locs pg bv).
Proof.
  intros Hl Hi Hpg (H0 & H1 & H2). apply mapM_Some. unfold seg_locs.
  apply Forall2_fmap. replace (seqZ (bv_offset bv) (bv_len bv)) with (Z.add (bv_offset bv) <$> seqZ 0 (bv_len bv)).
  2: { rewrite fmap_add_seqZ. f_equal. lia. }
  apply Forall2_fmap_r. apply Forall_Forall2_diag. apply Forall_seqZ. intros k Hk.
  pose proof PAGE_SIZE_bound. destruct (lo_align _ Hl) as [c Hc].
  pose proof (iov_address_eq p i bv (bv_offset bv + k) Hl Hi ltac:(lia)) as Ea. unfold iov_address in Ea.
  unfold backend_loc. replace ((iov_of (data_off p) i bv).1 + k) with (data_off p + i * PAGE_SIZE + (bv_offset bv + k)) by lia.
  rewrite Hc. replace (c * PAGE_SIZE + i * PAGE_SIZE + (bv_offset bv + k))
    with (bv_offset bv + k + (c + i) * PAGE_SIZE) by lia.
  rewrite Z.div_add, Z.mod_add, Z.div_small, Z.mod_small, Z.add_0_l by lia.
  pose proof (fault_data p i Hl Hi) as Hf. rewrite Hc, Z.div_mul, Hpg in Hf by lia. by rewrite Hf.
Qed.

(** All the iovecs of a request. *)
Lemma request_locs p pis segs :
  layout_ok p -> data_pages p < 2 ^ 32 ->
  (forall i pg, data_pages_array p !! i = Some pg -> 0 <= i < data_pages p) ->
  Forall (fun i => is_Some (data_pages_array p !! i)) pis -> length pis = length segs ->
  Forall seg_in_page segs ->
  mapM (backend_loc p) (iov_addresses (zip_with (iov_of (data_off p)) pis segs)) =
    Some (page_locs (pages_of (data_pages_array p) pis) segs).
Proof.
  intros Hl Hsz Hk. revert segs. induction pis as [|i pis IH]; intros [|bv segs] Hp Hlen Hs; try done.
  apply Forall_cons in Hp as [[pg Hpg] Hp]. apply Forall_cons in Hs as [Hs0 Hs].
  unfold iov_addresses, page_locs. cbn [zip_with pages_of map]. rewrite bind_cons, Hpg. cbn [default zip_with concat].
  apply mapM_app_Some; [|apply IH; [done|by injection Hlen|done]].
  apply (iov_locs p i pg bv); try done. pose proof (Hk i pg Hpg). lia.
Qed.
End proofs.

(** ** Requests *)

Section requests.
Context `{L : UbbdAbiLaws} `{KL : KernelApiLaws} `{ML : KernelMemLaws}.
Implicit Types (q : ubbd_queue) (w : world) (F : gset Z).

(** The submission entry of an inflight request. *)
Definition entry_of q w (tag : Z) (b : se_body) : Prop :=
  tag ∈ q_inflight q /\
  exists e se, w_reqs w !! tag = Some e /\ ur_se (e_pdu e) = Some se /\ bodies (q_ring q) !! se = Some b /\
    se_priv_data b = ur_req_tid (e_pdu e).

(** The data pages of an inflight request, segment by segment. *)
Definition request_pages q (e : rq_entry) : list Z :=
  pages_of (data_pages_array (q_pool q)) (req_pis (e_pdu e)).

Lemma inflight_locs q w es F l e :
  queue_inv q w es F l -> inflight_ok q es F e -> layout_ok (q_pool q) ->
  Forall seg_in_page (data_segs (e_rq e)) ->
  mapM (backend_loc (q_pool q))
      (iov_addresses (zip_with (iov_of (data_off (q_pool q))) (req_pis (e_pdu e)) (data_segs (e_rq e)))) =
    Some (page_locs (request_pages q e) (data_segs (e_rq e))).
Proof.
  intros Hq He Hl Hs. pose proof (qi_pool _ _ _ _ _ Hq) as Hp. pose proof (pl_size _ _ _ _ Hp).
  apply request_locs; try done; [lia|apply (pl_keys _ _ _ _ Hp)| |].
  - eapply Forall_impl; [apply (io_bits _ _ _ _ He)|]. intros i Hi. by apply (pl_bits _ _ _ _ Hp).
  - destruct (inflight_mapped _ _ _ _ _ _ Hq He) as (_ & _ & _ & Hlen). unfold pages_of in Hlen.
    by rewrite length_map in Hlen.
Qed.

(** What a read or write has once it is submitted. *)
Record submitted q w q' w' (tag : Z) (e : rq_entry) F (b : se_body) : Prop := {
  sm_entry : entry_of q' w' tag b;
  sm_offset : se_offset b = u64 (Z.shiftl (rq_pos (e_rq e)) SECTOR_SHIFT);
  sm_len : se_len b = rq_bytes (e_rq e);
  sm_state : exists u es', w_reqs w' !! tag = Some (mk_rq_entry (e_rq e) (Some (q_index q)) u) /\
    queue_inv q' w' es' F (q_inflight q') /\
    inflight_ok q' es' F (mk_rq_entry (e_rq e) (Some (q_index q)) u) /\
    mapM (backend_loc (q_pool q')) (iov_addresses (se_iov b)) =
      Some (page_locs (request_pages q' (mk_rq_entry (e_rq e) (Some (q_index q)) u)) (data_segs (e_rq e))) /\
    (rq_op (e_rq e) = REQ_OP_WRITE -> data_written (e_rq e) u (q_pool q') (w_mem w) (w_mem w'));
}.

Lemma submitted_spec q w (tag : Z) (e : rq_entry) es F (op : ubbd_op) :
  queue_inv q w es F (q_inflight q) -> tag ∉ q_inflight q ->
  q_status q = UBBD_QUEUE_KSTATUS_RUNNING -> q_req_tid q + 1 < 2 ^ 64 ->
  w_reqs w !! tag = Some e -> op_of_req_op (rq_op (e_rq e)) = Some op -> rq_ok (e_rq e) F ->
  layout_ok (q_pool q) -> Forall seg_in_page (data_segs (e_rq e)) ->
  exists w1 q' w', ubbd_queue_rq q w tag = Ok (BLK_STS_OK, w1) /\ ubbd_queue_workfn q w1 tag = Ok (q', w') /\
    q_status q' = UBBD_QUEUE_KSTATUS_RUNNING /\
    (tag ∈ q_inflight q' -> exists b, submitted q w q' w' tag e F b).
Proof.
  intros Hq Hni Hst Htid He Hop Hok Hlay Hseg.
  destruct (queue_rq_spec q w tag e es F _ op Hq Hni Hst He Hop) as (w1 & E1 & _ & _ & Em & He1 & _ & Hq1).
  destruct (workfn_spec q w1 tag _ es F _ op Hq1 ltac:(done) Hni Hst Htid He1 Hop eq_refl Hok)
    as (q' & w' & E2 & Hres).
  exists w1, q', w'. split_and!; [done|done| |].
  { by rewrite (proj1 (workfn_frame _ _ _ _ _ E2)). }
  intros Hin. destruct Hres as [u se pads Ei _ _ Er Et Ese _ Hq' Hb _ Hdw Hdo|ret u _ Ei|u _ _ Ei];
    [|by rewrite Ei in Hin|by rewrite Ei in Hin].
  simpl e_rq in *. simpl e_q in *. set (e' := mk_rq_entry (e_rq e) (Some (q_index q)) u) in *.
  assert (w_reqs w' !! tag = Some e') as He' by (rewrite Er; apply lookup_insert_eq).
  rewrite <- Ei in Hq'. destruct (qi_live _ _ _ _ _ Hq' tag Hin) as (e2 & He2 & Hio).
  rewrite He' in He2. injection He2 as <-.
  assert (layout_ok (q_pool q')) as Hlay' by (destruct Hlay; split; by rewrite Hdo).
  exists (body_of (data_off (q_pool q)) (e_rq e) u). split; [|done|done|].
  - split; [done|]. exists e', se. by split_and!.
  - exists u. eexists. split_and!; [done|exact Hq'|exact Hio| |by rewrite <- Em].
    rewrite <- Hdo. apply (inflight_locs q' w' _ F _ e' Hq' Hio Hlay' Hseg).
Qed.

(** The pages of a request and the segments of its bios go together. *)
Lemma pages_lookup q w es F l (e : rq_entry) (j : nat) pg :
  queue_inv q w es F l -> inflight_ok q es F e -> request_pages q e !! j = Some pg ->
  exists v, req_pis (e_pdu e) !! j = Some v /\ data_pages_array (q_pool q) !! v = Some pg.
Proof.
  intros Hq He Hj. unfold request_pages, pages_of in Hj. rewrite list_lookup_fmap in Hj.
  destruct (req_pis (e_pdu e) !! j) as [v|] eqn:Ev; [|done]. exists v. split; [done|].
  pose proof (io_bits _ _ _ _ He) as Hb. rewrite Forall_forall in Hb.
  destruct (pl_bits _ _ _ _ (qi_pool _ _ _ _ _ Hq) v) as [pg' Hpg]; [by apply Hb; eapply list_elem_of_lookup_2|].
  simpl in Hj. rewrite Hpg in Hj. by injection Hj as ->.
Qed.

(** C12: a write reaches the backend.  A write accepted by [ubbd_queue_rq] and run
    by [ubbd_queue_workfn] on a running queue either does not get on the list
    of inflight requests, or has an entry in the command ring with its id, the
    byte offset and length of the request, and iovecs through which the
    backend, following its mapping fault by fault, reads exactly the bytes of
    the bios, in order. *)
Theorem write_reaches_backend q w (tag : Z) (e : rq_entry) es F :
  queue_inv q w es F (q_inflight q) -> tag ∉ q_inflight q ->
  q_status q = UBBD_QUEUE_KSTATUS_RUNNING -> q_req_tid q + 1 < 2 ^ 64 ->
  w_reqs w !! tag = Some e -> rq_op (e_rq e) = REQ_OP_WRITE -> rq_ok (e_rq e) F ->
  layout_ok (q_pool q) -> Forall seg_in_page (concat (rq_bio (e_rq e))) ->
  exists w1 q' w', ubbd_queue_rq q w tag = Ok (BLK_STS_OK, w1) /\ ubbd_queue_workfn q w1 tag = Ok (q', w') /\
    (tag ∈ q_inflight q' -> exists b, entry_of q' w' tag b /\
       se_offset b = u64 (Z.shiftl (rq_pos (e_rq e)) SECTOR_SHIFT) /\ se_len b = rq_bytes (e_rq e) /\
       backend_reads (q_pool q') (se_iov b) (w_mem w') = Some (bio_bytes (w_mem w) (concat (rq_bio (e_rq e))))).
Proof.
  intros Hq Hni Hst Htid He Hop Hok Hlay Hseg.
  assert (data_segs (e_rq e) = concat (rq_bio (e_rq e))) as Eds by (unfold data_segs; by rewrite Hop).
  rewrite <- Eds in *.
  destruct (submitted_spec q w tag e es F UBBD_OP_WRITE) as (w1 & q' & w' & E1 & E2 & _ & Hs); try done.
  { by rewrite Hop. }
  exists w1, q', w'. split_and!; [done|done|]. intros Hin. destruct (Hs Hin) as [b [Hb Ho Hl (u & es' & He' & Hq' & Hio & Hlocs & Hdw)]].
  exists b. split_and!; [done..|]. unfold backend_reads. rewrite Hlocs. cbn. f_equal.
  apply bytes_copied.
  - by destruct (inflight_mapped _ _ _ _ _ _ Hq' Hio) as (_ & _ & _ & ?).
  - intros j bv pg o Hbv Hpg Hseg'. destruct (pages_lookup _ _ _ _ _ _ j pg Hq' Hio Hpg) as (v & Hv & Ha).
    by apply (Hdw Hop j bv v pg o).
Qed.

(** The backend leaves the command ring alone. *)
Definition same_cmd (r r' : ring) : Prop :=
  hdrs r' = hdrs r /\ bodies r' = bodies r /\ cmdr_size (sb r') = cmdr_size (sb r) /\
  cmd_head (sb r') = cmd_head (sb r) /\ cmd_tail (sb r') = cmd_tail (sb r).

Lemma same_cmd_wf r r' es : same_cmd r r' -> ring_wf r es -> ring_wf r' es.
Proof. intros (E1 & E2 & E3 & E4 & E5) []. by split; rewrite ?E1, ?E3, ?E4, ?E5. Qed.

(** The completion of a read whose pages hold [data]. *)
Lemma read_completed q w (tag : Z) e es F (m : memory) (r : ring) (c : ubbd_ce) (fuel : nat) :
  queue_inv q w es F (q_inflight q) -> q_status q = UBBD_QUEUE_KSTATUS_RUNNING ->
  tag ∈ q_inflight q -> w_reqs w !! tag = Some e -> rq_op (e_rq e) = REQ_OP_READ ->
  segs_disjoint (data_segs (e_rq e)) -> compr_wf r [c] -> same_cmd (q_ring q) r ->
  ce_priv_data c = ur_req_tid (e_pdu e) ->
  exists q2 w2, ubbd_queue_complete (S (S fuel)) (set_q_ring r q) (set_w_mem m w) = Ok (q2, w2) /\
    bio_bytes (w_mem w2) (data_segs (e_rq e)) = load m <$> page_locs (request_pages q e) (data_segs (e_rq e)) /\
    w_blk w2 = w_blk w ++ [BLK_END tag (errno_to_blk_status (ce_result c))].
Proof.
  intros Hq Hst Hin He Hop Hd Hc Hcmd Ht. set (q1 := set_q_ring r q). set (w1 := set_w_mem m w).
  assert (queue_inv q1 w1 es F (q_inflight q1)) as Hq1.
  { apply (queue_inv_same q q1 w w1 es F); try done; [|apply Hcmd].
    by apply (same_cmd_wf (q_ring q)), (qi_ring _ _ _ _ _ Hq). }
  pose proof (find_by_tid q1 w1 es F (q_inflight q1) tag e Hq1 Hin He) as Ef. rewrite <- Ht in Ef.
  destruct (complete_again_match (S fuel) q1 w1 es F c [] _ Hq1 Hc Ef)
    as (e0 & m2 & q2 & w2 & es2 & He0 & Hok & Em & E & Hcp & _ & Hc2). cbn [fst] in *.
  change (w_reqs w1) with (w_reqs w) in He0. rewrite He in He0. injection He0 as <-.
  exists q2, w2. split; [|split].
  - unfold ubbd_queue_complete. change (q_status q1) with (q_status q). rewrite Hst.
    rewrite (proj2 (Z.eqb_neq _ _) (not_eq_sym removing_not_running)), E. cbn [complete_again].
    by destruct (get_complete_entry_spec _ _ Hc2) as [-> _].
  - rewrite (cp_mem _ _ _ _ _ _ _ Hcp). change (w_mem (set_w_mem m2 w1)) with m2.
    unfold read_back in Em. rewrite bool_decide_eq_true_2 in Em by done.
    destruct (read_copy_spec q1 w1 es F _ e (w_mem w1) Hq1 Hok Hop Hd) as (m3 & Em3 & Hdr).
    rewrite Em in Em3. injection Em3 as <-. symmetry. apply bytes_copied.
    + by destruct (inflight_mapped _ _ _ _ _ _ Hq1 Hok) as (_ & _ & _ & ?).
    + intros j bv pg o Hbv Hpg Ho. destruct (pages_lookup q1 _ _ _ _ _ j pg Hq1 Hok Hpg) as (v & Hv & Ha).
      symmetry. by apply (Hdr j bv v pg o).
  - by rewrite (cp_blk _ _ _ _ _ _ _ Hcp).
Qed.

Lemma page_locs_length pgs segs : length pgs = length segs -> length (page_locs pgs segs) = length (bio_locs segs).
Proof.
  revert pgs. induction segs as [|bv segs IH]; intros [|pg pgs] Hl; try done.
  unfold page_locs, bio_locs. cbn [zip_with concat]. rewrite bind_cons, !length_app. f_equal.
  - unfold seg_locs. by rewrite !length_fmap.
  - apply IH. by injection Hl.
Qed.

(** C13: a read delivers what the backend put in its pages.  A read accepted by
    [ubbd_queue_rq] and run by [ubbd_queue_workfn] either does not get on the
    list of inflight requests, or has an entry with its id, byte offset and
    length, such that: the backend can fill its iovecs with any bytes of that
    length, and finds them there; and when it then names the id in a
    completion entry, [ubbd_queue_complete] leaves in the bios exactly the
    bytes that the iovecs show, in order, and ends the request with the
    entry's result. *)
Theorem read_comes_from_backend q w (tag : Z) (e : rq_entry) es F :
  queue_inv q w es F (q_inflight q) -> tag ∉ q_inflight q ->
  q_status q = UBBD_QUEUE_KSTATUS_RUNNING -> q_req_tid q + 1 < 2 ^ 64 ->
  w_reqs w !! tag = Some e -> rq_op (e_rq e) = REQ_OP_READ -> rq_ok (e_rq e) F ->
  layout_ok (q_pool q) -> Forall seg_in_page (concat (rq_bio (e_rq e))) ->
  segs_disjoint (concat (rq_bio (e_rq e))) ->
  exists w1 q' w', ubbd_queue_rq q w tag = Ok (BLK_STS_OK, w1) /\ ubbd_queue_workfn q w1 tag = Ok (q', w') /\
    (tag ∈ q_inflight q' -> exists b, entry_of q' w' tag b /\
       se_offset b = u64 (Z.shiftl (rq_pos (e_rq e)) SECTOR_SHIFT) /\ se_len b = rq_bytes (e_rq e) /\
       (forall data, length data = length (bio_locs (concat (rq_bio (e_rq e)))) ->
          exists m, backend_fills (q_pool q') (se_iov b) data (w_mem w') = Some m /\
            backend_reads (q_pool q') (se_iov b) m = Some data) /\
       (forall data m r c fuel,
          backend_reads (q_pool q') (se_iov b) m = Some data -> compr_wf r [c] -> same_cmd (q_ring q') r ->
          ce_priv_data c = se_priv_data b ->
          exists q2 w2, ubbd_queue_complete (S (S fuel)) (set_q_ring r q') (set_w_mem m w') = Ok (q2, w2) /\
            bio_bytes (w_mem w2) (concat (rq_bio (e_rq e))) = data /\
            w_blk w2 = w_blk w' ++ [BLK_END tag (errno_to_blk_status (ce_result c))])).
Proof.
  intros Hq Hni Hst Htid He Hop Hok Hlay Hseg Hd.
  assert (data_segs (e_rq e) = concat (rq_bio (e_rq e))) as Eds by (unfold data_segs; by rewrite Hop).
  rewrite <- Eds in *.
  destruct (submitted_spec q w tag e es F UBBD_OP_READ) as (w1 & q' & w' & E1 & E2 & Hst' & Hs); try done.
  { by rewrite Hop. }
  exists w1, q', w'. split_and!; [done|done|]. intros Hin.
  destruct (Hs Hin) as [b [Hb Ho Hl (u & es' & He' & Hq' & Hio & Hlocs & _)]].
  set (e' := mk_rq_entry (e_rq e) (Some (q_index q)) u) in *.
  destruct (inflight_mapped _ _ _ _ _ _ Hq' Hio) as (_ & Hnd & _ & Hlen).
  exists b. split_and!; [done..| |].
  - intros data Hdl. unfold backend_fills, backend_reads. rewrite Hlocs. cbn. eexists. split; [done|]. f_equal.
    apply store_all_load; [by apply page_locs_nodup|]. by rewrite page_locs_length.
  - intros data m r c fuel Hrd Hcr Hcmd Ht. unfold backend_reads in Hrd. rewrite Hlocs in Hrd. injection Hrd as <-.
    destruct Hb as (_ & e2 & se & He2 & _ & _ & Htid'). rewrite He' in He2. injection He2 as <-.
    apply (read_completed q' w' tag e' es' F); try done. by rewrite Ht.
Qed.
End requests.

(** ** Witnesses *)

(** A submission on the demo queue, and what it leaves. *)
Definition demo_submit (w : world) : ubbd_queue * world :=
  match ubbd_queue_rq (demo_queue 1) w 7 with
  | Ok (_, w1) => match ubbd_queue_workfn (demo_queue 1) w1 7 with Ok r => r | Fault _ => (demo_queue 1, w) end
  | Fault _ => (demo_queue 1, w)
  end.

Lemma demo_submit_eq w w1 q' w' :
  ubbd_queue_rq (demo_queue 1) w 7 = Ok (0, w1) -> ubbd_queue_workfn (demo_queue 1) w1 7 = Ok (q', w') ->
  demo_submit w = (q', w').
Proof. unfold demo_submit. by intros -> ->. Qed.

Lemma demo_pool_layout : layout_ok demo_pool.
Proof. split; simpl; [lia|]. by exists 4. Qed.

Lemma demo_seg_in_page : Forall seg_in_page (concat (rq_bio (demo_rq REQ_OP_READ))).
Proof. repeat constructor; vm_compute; congruence. Qed.

Definition demo_write_world : world := demo_world REQ_OP_WRITE (zeroed_ubbd_request UBBD_OP_WRITE).
Definition demo_write : rq_entry := demo_entry REQ_OP_WRITE (zeroed_ubbd_request UBBD_OP_WRITE).

Lemma write_reaches_backend_witness :
  exists q' w' b, demo_submit demo_write_world = (q', w') /\ entry_of q' w' 7 b /\
    backend_reads (q_pool q') (se_iov b) (w_mem w') =
      Some (bio_bytes (w_mem demo_write_world) [mk_bio_vec 900 512 1024]).
Proof.
  destruct (write_reaches_backend (demo_queue 1) demo_write_world 7 demo_write [] demo_foreign
    (demo_queue_inv _ _ _) ltac:(set_solver) eq_refl ltac:(simpl; lia) eq_refl eq_refl (demo_rq_ok _)
    demo_pool_layout demo_seg_in_page) as (w1 & q' & w' & E1 & E2 & H).
  pose proof (demo_submit_eq _ _ _ _ E1 E2) as E.
  destruct H as (b & Hb & _ & _ & Hr).
  - change (7 ∈ q_inflight (q', w').1). rewrite <- E. apply (bool_decide_unpack _). vm_compute. exact I.
  - exists q', w', b. split; [exact E|split; [exact Hb|exact Hr]].
Defined.

Lemma read_comes_from_backend_witness :
  exists q' w' b m q2 w2, demo_submit demo_read_world = (q', w') /\
    backend_fills (q_pool q') (se_iov b) (repeat 5 1024) (w_mem w') = Some m /\
    ubbd_queue_complete 2 (demo_post 16 {[0 := mk_ce 1 0]} q') (set_w_mem m w') = Ok (q2, w2) /\
    bio_bytes (w_mem w2) [mk_bio_vec 900 512 1024] = repeat 5 1024.
Proof.
  destruct (read_comes_from_backend (demo_queue 1) demo_read_world 7 demo_read [] demo_foreign
    (demo_queue_inv _ _ _) ltac:(set_solver) eq_refl ltac:(simpl; lia) eq_refl eq_refl (demo_rq_ok _)
    demo_pool_layout demo_seg_in_page) as (w1 & q' & w' & E1 & E2 & H).
  { intros [|[]] [|[]] b1 b2 o H1 H2 Hne; try discriminate. by destruct Hne. }
  pose proof (demo_submit_eq _ _ _ _ E1 E2) as E.
  destruct H as (b & Hb & _ & _ & Hf & Hc).
  { change (7 ∈ q_inflight (q', w').1). rewrite <- E. apply (bool_decide_unpack _). vm_compute. exact I. }
  destruct (Hf (repeat 5 1024) eq_refl) as (m & Em & Er).
  destruct (Hc (repeat 5 1024) m (q_ring (demo_post 16 {[0 := mk_ce 1 0]} q')) (mk_ce 1 0) 0%nat Er) as (q2 & w2 & E3 & Hd & _).
  - replace q' with (demo_submit demo_read_world).1 by (by rewrite E).
    split; [vm_compute; reflexivity|vm_compute; split; congruence|].
    eapply compr_cons; [vm_compute; congruence|vm_compute; reflexivity|]. vm_compute. constructor.
  - by split_and!.
  - destruct Hb as (_ & e & se & He & _ & _ & ->).
    assert ((fun e => ur_req_tid (e_pdu e)) <$> (w_reqs (demo_submit demo_read_world).2 !! 7) = Some 1) as Ht
      by (vm_compute; reflexivity).
    rewrite E in Ht. cbn [snd] in Ht. rewrite He in Ht. by injection Ht as <-.
  - exists q', w', b, m, q2, w2. split; [exact E|split; [exact Em|split; [exact E3|exact Hd]]].
Defined.
