(* ===== verification/Operation.v ===== *)
(** * A device in operation

    The queues of a device under any interleaving of what happens to them: the
    block layer hands over requests ([ubbd_queue_rq]), the work queue runs the
    pending works in any order ([ubbd_queue_workfn]), the backend posts
    completions and writes data pages, the driver completes
    ([ubbd_queue_complete]), requests time out ([ubbd_timeout]), and the manager
    stops, starts, configures and removes.

    [flow] says what an operation does to the requests as a whole: none appears,
    none disappears without an event to the block layer. *)

From S2P Require Import Prelude Abi Ring Pages Request Balance Queue Kring Device DeviceInv.

(** ** The machine *)

Section machine.
Context `{A : UbbdAbi} `{K : KernelApi} `{M : KernelMem}.

(** The device, the world of its queues, and the requests that
    [ubbd_queue_rq] refused after starting them: the block layer ends these
    itself, from the status it got. *)
Record io : Type := mk_io {
  io_dev : ubbd_device;
  io_world : world;
  io_refused : list Z;
}.

Inductive io_op : Type :=
| IOSubmit (hctx : nat) (tag : Z) (rq : request)
| IOWork (k : nat)
| IOBackend (i : nat) (r : ring)
| IOData (m : memory)
| IOComplete (i : nat)
| IOStop (queue_id : Z)
| IOStart (queue_id : Z)
| IOConfig (opts : ubbd_dev_config_opts)
| IORemoveDisk (force : bool)
| IOTimeout (rq : request).

(** A request of the block layer: its pdu is not initialised. *)
Definition blk_request (tag : Z) (rq : request) (w : world) : world :=
  set_w_reqs (<[tag := mk_rq_entry rq None (zeroed_ubbd_request ubbd_op_zero)]> (w_reqs w)) w.

Definition starts (l : list blk_event) : list Z :=
  omap (fun e => match e with BLK_START t => Some t | _ => None end) l.
Definition ends (l : list blk_event) : list Z :=
  omap (fun e => match e with BLK_END t _ | BLK_REQUEUE t => Some t | _ => None end) l.

(** The rounds [ubbd_queue_complete] may need. *)
Definition compr_fuel : nat := Z.to_nat COMPR_SIZE.

Definition io_step (op : io_op) (s : io) : outcome io :=
  let d := io_dev s in
  let w := io_world s in
  match op with
  | IOSubmit hctx tag rq =>
      let* h := deref (d_hctx d !! hctx) OUT_OF_BOUNDS in
      let* r := deref h NULL_DEREF in
      let* q := deref (d_queues d !! Z.to_nat r) OUT_OF_BOUNDS in
      let* '(_, w') := ubbd_queue_rq q (blk_request tag rq w) tag in
      let started := starts (drop (length (w_blk w)) (w_blk w')) in
      let queued := drop (length (w_wq w)) (w_wq w') in
      Ok (mk_io d w' (io_refused s ++ filter (fun t => t ∉ queued) started))
  | IOWork k =>
      let* tag := deref (w_wq w !! k) OUT_OF_BOUNDS in
      let* '(qs, w) := run_works [tag] (d_queues d) (set_w_wq (delete k (w_wq w)) w) in
      Ok (mk_io (set_d_queues qs d) w (io_refused s))
  | IOBackend i r =>
      let* q := deref (d_queues d !! i) OUT_OF_BOUNDS in
      Ok (mk_io (set_d_queues (<[i := set_q_ring r q]> (d_queues d)) d) w (io_refused s))
  | IOData m => Ok (mk_io d (set_w_mem m w) (io_refused s))
  | IOComplete i =>
      let* q := deref (d_queues d !! i) OUT_OF_BOUNDS in
      let* '(q, w) := ubbd_queue_complete compr_fuel q w in
      Ok (mk_io (set_d_queues (<[i := q]> (d_queues d)) d) w (io_refused s))
  | IOStop queue_id =>
      let* '(_, d, w) := ubbd_dev_stop_queue d queue_id w in Ok (mk_io d w (io_refused s))
  | IOStart queue_id =>
      let* '(_, d) := ubbd_dev_start_queue d queue_id in Ok (mk_io d w (io_refused s))
  | IOConfig opts =>
      let* '(_, d) := ubbd_dev_config d opts in Ok (mk_io d w (io_refused s))
  | IORemoveDisk force =>
      let* '(d, w) := ubbd_dev_remove_disk d force w in Ok (mk_io d w (io_refused s))
  | IOTimeout rq =>
      let* '(_, d, w) := ubbd_timeout d w rq in Ok (mk_io d w (io_refused s))
  end.

(** What the backend may do to the shared ring: append completion entries where
    there is room for them.  The command ring is the driver's. *)
Record backend_step (r r' : ring) : Prop := {
  bs_hdrs : hdrs r' = hdrs r;
  bs_bodies : bodies r' = bodies r;
  bs_cmd : cmdr_size (sb r') = cmdr_size (sb r) /\ cmd_head (sb r') = cmd_head (sb r) /\
    cmd_tail (sb r') = cmd_tail (sb r);
  bs_compr cs : compr_wf r cs -> exists new, compr_wf r' (cs ++ new);
}.

(** A tag is free when no work and no queue has it. *)
Definition tag_free (s : io) (tag : Z) : Prop :=
  (tag ∉ w_wq (io_world s)) /\ (forall i q, d_queues (io_dev s) !! i = Some q -> tag ∉ q_inflight q).

(** [FB]: the pages of the block layer. *)
Definition io_can (FB : gset Z) (op : io_op) (s : io) : Prop :=
  match op with
  | IOSubmit hctx tag rq =>
      (exists r, d_hctx (io_dev s) !! hctx = Some (Some r)) /\ tag_free s tag /\ rq_ok rq FB
  | IOWork k => (k < length (w_wq (io_world s)))%nat
  | IOBackend i r => exists q, d_queues (io_dev s) !! i = Some q /\ backend_step (q_ring q) r
  | IOComplete i => (i < length (d_queues (io_dev s)))%nat
  | IOStop id | IOStart id => - 2 ^ 31 <= id < 2 ^ 31
  | _ => True
  end.

Definition is_submit (op : io_op) : bool := match op with IOSubmit _ _ _ => true | _ => false end.

(** A running device at rest: created, opened by its backend, its disk added,
    every hardware context on a queue. *)
Record io_start (FB : gset Z) (s : io) : Prop := {
  is_inv : dev_inv (d_queues (io_dev s)) (io_world s) FB;
  is_rest : forall i q, d_queues (io_dev s) !! i = Some q -> q_index q = Z.of_nat i /\
    q_inflight q = [] /\ q_req_tid q = 0 /\ exists cs, compr_wf (q_ring q) cs;
  is_hctx : forall i r, d_hctx (io_dev s) !! i = Some (Some r) -> 0 <= r < Z.of_nat (length (d_queues (io_dev s)));
  is_len : Z.of_nat (length (d_queues (io_dev s))) < 2 ^ 31;
  is_disk : d_status (io_dev s) = UBBD_DEV_KSTATUS_RUNNING -> is_Some (d_disk (io_dev s));
  is_quiet : w_wq (io_world s) = [] /\ w_blk (io_world s) = [] /\ io_refused s = [];
}.

(** [io_reach FB n s]: [s] is reached with [n] submissions. *)
Inductive io_reach (FB : gset Z) : Z -> io -> Prop :=
| io_reach_start s : io_start FB s -> io_reach FB 0 s
| io_reach_next n s op s' :
    io_reach FB n s -> io_can FB op s -> io_step op s = Ok s' ->
    io_reach FB (if is_submit op then n + 1 else n) s'.
End machine.

(** ** The flow of requests *)

Section flow.
Context `{L : UbbdAbiLaws} `{KL : KernelApiLaws} `{ML : KernelMemLaws}.
Implicit Types (q : ubbd_queue) (qs : list ubbd_queue) (w : world) (e : rq_entry).

Definition inflight_all qs : list Z := concat (map q_inflight qs).

Definition compr_ok (r : ring) : Prop := exists cs, compr_wf r cs.

(** From queues [qs] with the works [tags] pending to [qs'] with [tags']. *)
Record flow (tags : list Z) qs w (tags' : list Z) qs' w' : Prop := {
  fl_len : length qs' = length qs;
  fl_each i q' : qs' !! i = Some q' -> exists q, qs !! i = Some q /\ q_fixed q' = q_fixed q /\
    (compr_ok (q_ring q) -> compr_ok (q_ring q')) /\
    q_req_tid q' + Z.of_nat (length tags') <= q_req_tid q + Z.of_nat (length tags);
  fl_reqs t : t ∉ tags ++ inflight_all qs -> w_reqs w' !! t = w_reqs w !! t;
  fl_pages : outside_all qs' w' = outside_all qs w;
  fl_blk : exists evs, w_blk w' = w_blk w ++ evs /\ starts evs = [] /\
    ends evs ++ tags' ++ inflight_all qs' ≡ₚ tags ++ inflight_all qs;
}.

Lemma flow_refl tags qs w : flow tags qs w tags qs w.
Proof. split; [done| |done|done|by exists []; rewrite app_nil_r]. intros i q Hi. exists q. split_and!; done || lia. Qed.

Lemma starts_app l1 l2 : starts (l1 ++ l2) = starts l1 ++ starts l2.
Proof. apply omap_app. Qed.
Lemma ends_app l1 l2 : ends (l1 ++ l2) = ends l1 ++ ends l2.
Proof. apply omap_app. Qed.

Lemma flow_trans t1 qs1 w1 t2 qs2 w2 t3 qs3 w3 :
  flow t1 qs1 w1 t2 qs2 w2 -> flow t2 qs2 w2 t3 qs3 w3 -> flow t1 qs1 w1 t3 qs3 w3.
Proof.
  intros [L1 E1 R1 G1 (v1 & B1 & S1 & P1)] [L2 E2 R2 G2 (v2 & B2 & S2 & P2)]. split; [congruence| | |congruence|].
  - intros i q3 H3. destruct (E2 i q3 H3) as (q2 & H2 & I2 & C2 & T2).
    destruct (E1 i q2 H2) as (q1 & H1 & I1 & C1 & T1). exists q1. split_and!; [done|congruence|auto|lia].
  - intros t Ht. rewrite R2, R1; [done|done|]. intros Hin. apply Ht. rewrite <- P1. apply elem_of_app. by right.
  - exists (v1 ++ v2). rewrite B2, B1, <- app_assoc, starts_app, ends_app, S1, S2. split_and!; try done.
    rewrite <- P1, <- P2. by rewrite <- app_assoc.
Qed.

Lemma inflight_all_insert qs i q q' :
  qs !! i = Some q -> inflight_all (<[i := q']> qs) ++ q_inflight q ≡ₚ inflight_all qs ++ q_inflight q'.
Proof.
  intros Hi. rewrite <- (take_drop_middle qs i q Hi) at 2.
  rewrite insert_take_drop by (by eapply lookup_lt_Some). unfold inflight_all.
  rewrite !map_app, !concat_app. simpl. rewrite <- !app_assoc. f_equiv.
  rewrite (Permutation_app_comm (q_inflight q')), (Permutation_app_comm (q_inflight q)), <- !app_assoc.
  f_equiv. apply Permutation_app_comm.
Qed.

Lemma elem_of_inflight_all qs i q t : qs !! i = Some q -> t ∈ q_inflight q -> t ∈ inflight_all qs.
Proof.
  intros Hi Ht. unfold inflight_all. rewrite <- (take_drop_middle qs i q Hi), map_app, concat_app. simpl.
  rewrite !elem_of_app. auto.
Qed.

(** One queue changes. *)
Lemma flow_queue tags tags' qs w i q q' w' evs :
  qs !! i = Some q -> q_fixed q' = q_fixed q -> (compr_ok (q_ring q) -> compr_ok (q_ring q')) ->
  (length tags' <= length tags)%nat ->
  q_req_tid q' + Z.of_nat (length tags') <= q_req_tid q + Z.of_nat (length tags) ->
  (forall t, t ∉ tags -> t ∉ q_inflight q -> w_reqs w' !! t = w_reqs w !! t) ->
  outside q' w' = outside q w -> w_blk w' = w_blk w ++ evs -> starts evs = [] ->
  ends evs ++ tags' ++ q_inflight q' ≡ₚ tags ++ q_inflight q ->
  flow tags qs w tags' (<[i := q']> qs) w'.
Proof.
  intros Hi Hx Hc Hl Ht Hr Hg Hb Hs Hp.
  split; [apply length_insert| | |by apply (insert_balanced _ _ q)|exists evs; split_and!; try done].
  - intros j qj Hj. apply list_lookup_insert_Some in Hj as [(<- & <- & _)|(Hne & Hj)].
    + by exists q.
    + exists qj. split_and!; done || lia.
  - intros t Hni. apply not_elem_of_app in Hni as [Hn1 Hn2]. apply Hr; [done|]. intros Hin. apply Hn2.
    by apply (elem_of_inflight_all _ i q).
  - apply (Permutation_app_inv_r (q_inflight q)). rewrite <- !app_assoc, inflight_all_insert by done.
    rewrite (Permutation_app_comm (inflight_all qs)), (Permutation_app_comm (inflight_all qs)).
    rewrite !app_assoc. f_equiv. rewrite <- !app_assoc. done.
Qed.
End flow.

(** ** What each operation lets flow *)

Section operations.
Context `{L : UbbdAbiLaws} `{KL : KernelApiLaws} `{ML : KernelMemLaws}.
Implicit Types (q : ubbd_queue) (qs : list ubbd_queue) (w : world) (e : rq_entry) (r : ring).

Lemma same_compr_refl r : same_compr r r.
Proof. done. Qed.

Lemma same_compr_trans r1 r2 r3 : same_compr r1 r2 -> same_compr r2 r3 -> same_compr r1 r3.
Proof. intros (?&?&?&?) (?&?&?&?). repeat split; congruence. Qed.

Lemma same_compr_ok r r' : same_compr r r' -> compr_ok r -> compr_ok r'.
Proof. intros Hs [cs Hc]. exists cs. by eapply same_compr_wf. Qed.

Lemma insert_padding_compr r n : same_compr r (insert_padding r n).
Proof. unfold insert_padding. by destruct (_ <=? _). Qed.

Lemma se_init_compr r rq u : same_compr r (queue_req_se_init r rq u).1.
Proof. done. Qed.

Lemma data_init_compr r doff rq u r' : queue_req_data_init r doff rq u = Ok r' -> same_compr r r'.
Proof.
  unfold queue_req_data_init. destruct (negb _); intros H; inv_oks; done.
Qed.

Lemma end_request_blk ret tag w : exists ev,
  w_blk (end_request ret tag w) = w_blk w ++ [ev] /\ starts [ev] = [] /\ ends [ev] = [tag] /\
  w_wq (end_request ret tag w) = w_wq w.
Proof. unfold end_request. destruct (_ || _); eexists; by split_and!. Qed.

Lemma workfn_effect q w tag q' w' :
  ubbd_queue_workfn q w tag = Ok (q', w') -> tag ∉ q_inflight q ->
  same_compr (q_ring q) (q_ring q') /\
  exists evs, w_blk w' = w_blk w ++ evs /\ starts evs = [] /\ ends evs ++ q_inflight q' ≡ₚ tag :: q_inflight q.
Proof.
  unfold ubbd_queue_workfn. intros H Hni. inv_ok H.
  assert (forall ret x, w_blk x = w_blk w -> exists evs, w_blk (end_request ret tag x) = w_blk w ++ evs /\
    starts evs = [] /\ ends evs ++ q_inflight q ≡ₚ tag :: q_inflight q) as Hend.
  { intros ret x Ex. destruct (end_request_blk ret tag x) as (ev & Eb & Es & Ee & _).
    exists [ev]. by rewrite Eb, Ex, Ee. }
  destruct (negb (status_errno _ =? 0)); [injection H as <- <-; auto using same_compr_refl|].
  inv_ok H. destruct r0 as [[[r2 u2] q2] w2].
  destruct (prepare_frame _ _ _ _ _ _ _ _ E0) as ([p ->] & _ & _ & Hb).
  destruct (negb (r2 =? 0)); [injection H as <- <-; split; [done|by apply Hend]|].
  cbv zeta in H. destruct (negb (submit_ring_space_enough _ _)).
  { injection H as <- <-. split; [done|]. cbn [q_inflight set_q_inflight set_q_pool].
    rewrite list_del_app by done. by apply Hend. }
  destruct (queue_req_se_init _ _ _) as [r3 u3] eqn:Er. inv_ok H. injection H as <- <-. split.
  - simpl. apply data_init_compr in E1.
    eapply same_compr_trans; [apply insert_padding_compr|].
    eapply same_compr_trans; [|exact (conj (proj1 E1) (conj (proj1 (proj2 E1)) (proj2 (proj2 E1))))].
    simpl in Er. by rewrite <- (f_equal fst Er : _ = r3).
  - exists []. simpl. rewrite app_nil_r, Hb. split_and!; try done. by rewrite Permutation_app_comm.
Qed.

(** Works leave the pending list one by one. *)
Lemma run_works_flow FB rest tags : forall qs w qs' w',
  dev_inv qs w FB -> works_ok qs w FB tags -> run_works tags qs w = Ok (qs', w') ->
  flow (tags ++ rest) qs w rest qs' w'.
Proof.
  induction tags as [|tag tags IH]; intros qs w qs' w' Hd Hw E; cbn [run_works] in E.
  { injection E as <- <-. apply flow_refl. }
  destruct (wo_each _ _ _ _ Hw tag ltac:(apply elem_of_cons; by left))
    as [(e & op & i & q & He & Hq & Hi & Hop & Hp & Ho) Hf].
  rewrite He in E. cbn [deref obind] in E. rewrite Hq in E. cbn [deref obind] in E.
  rewrite Nat2Z.id, Hi in E. cbn [deref obind] in E.
  pose proof (wo_tids _ _ _ _ Hw i q Hi) as Ht. simpl in Ht.
  destruct (work_step qs w FB tag e op i q Hd Hi He Hop Hp Ho Hf ltac:(lia))
    as (q' & w1 & E1 & Hd' & Es & Ew & Et & Hin & Hr & Hnr). rewrite E1 in E. cbn [obind] in E.
  destruct (workfn_effect _ _ _ _ _ E1 (Hf i q Hi)) as (Hc & evs & Hb & Hs & Hpm).
  destruct (workfn_frame _ _ _ _ _ E1) as (_ & Hx & _ & _).
  eapply flow_trans; [|by eapply IH; [..|exact E]; [|by eapply works_ok_step]].
  eapply (flow_queue _ _ _ _ i q q' w1 evs); try done.
  - by apply same_compr_ok.
  - simpl. lia.
  - simpl. lia.
  - intros t Hnt _. apply Hr. intros ->. apply Hnt. by left.
  - by eapply workfn_balanced.
  - rewrite (Permutation_app_comm (tags ++ rest)), app_assoc, Hpm. simpl.
    by rewrite Permutation_app_comm.
Qed.
End operations.

(** ** Completion *)

Section completion.
Context `{L : UbbdAbiLaws} `{KL : KernelApiLaws} `{ML : KernelMemLaws}.
Implicit Types (q : ubbd_queue) (qs : list ubbd_queue) (w : world) (e : rq_entry) (r : ring).

(** The slots of the pending entries are all different from the head, so there
    are fewer of them than slots in the ring. *)
Lemma compr_chain_slots m size off cs h :
  0 < size -> 0 <= off < size -> compr_chain m size off cs h ->
  h = (off + Z.of_nat (length cs) * sizeof_ubbd_ce) mod size /\
  forall k, (k < length cs)%nat -> (off + Z.of_nat k * sizeof_ubbd_ce) mod size <> h.
Proof.
  intros Hs Hoff Hc. induction Hc as [h|off c cs h Hne Hm Hc IH].
  - simpl. split; [by rewrite Z.add_0_r, Z.mod_small|lia].
  - destruct IH as [Eh Hk]; [by apply Z.mod_pos_bound|].
    assert (forall n, ((off + sizeof_ubbd_ce) mod size + Z.of_nat n * sizeof_ubbd_ce) mod size =
              (off + Z.of_nat (S n) * sizeof_ubbd_ce) mod size) as En
      by (intros n; rewrite Z.add_mod_idemp_l by lia; f_equal; lia).
    split; [cbn [length]; by rewrite <- En|]. intros [|k] Hlt.
    + by rewrite Z.add_0_r, Z.mod_small.
    + simpl in Hlt. rewrite <- En. apply Hk. lia.
Qed.

Lemma compr_length r cs : compr_wf r cs -> (length cs < compr_fuel)%nat.
Proof.
  intros [_ Ht Hc]. pose proof compr_size_bound. pose proof sizeof_ce_pos. pose proof sizeof_ce_le.
  assert (0 < COMPR_SIZE) as Hpos by lia. destruct (compr_chain_slots _ _ _ _ _ Hpos Ht Hc) as [Eh Hk].
  destruct compr_size_align as [N HN].
  assert (0 < N) by nia. assert (N <= COMPR_SIZE) by nia.
  unfold compr_fuel. enough (Z.of_nat (length cs) < N) by lia.
  destruct (Z.ltb_spec (Z.of_nat (length cs)) N) as [|Hge]; [done|].
  exfalso. apply (Hk (length cs - Z.to_nat N)%nat); [lia|]. rewrite Eh.
  rewrite Nat2Z.inj_sub, Z2Nat.id by lia.
  replace (compr_tail (sb r) + Z.of_nat (length cs) * sizeof_ubbd_ce)
    with (compr_tail (sb r) + (Z.of_nat (length cs) - N) * sizeof_ubbd_ce + 1 * COMPR_SIZE) by lia.
  by rewrite Z.mod_add by lia.
Qed.

Lemma find_inflight_in w l tid tag : find_inflight w l tid = Some tag -> tag ∈ l.
Proof.
  induction l as [|t l IH]; [done|]. simpl. rewrite elem_of_cons.
  destruct (w_reqs w !! t) as [e|]; [destruct (_ =? tid); [intros [= <-]; by left|]|]; auto.
Qed.

(** What the completion of a queue leaves alone. *)
Record others_kept q w q' w' : Prop := {
  ok_wq : w_wq w' = w_wq w;
  ok_tid : q_req_tid q' = q_req_tid q;
  ok_index : q_fixed q' = q_fixed q;
  ok_sub t : t ∈ q_inflight q' -> t ∈ q_inflight q;
  ok_reqs t : (t ∉ q_inflight q) \/ t ∈ q_inflight q' -> w_reqs w' !! t = w_reqs w !! t;
}.

Lemma others_kept_trans q1 w1 q2 w2 q3 w3 :
  others_kept q1 w1 q2 w2 -> others_kept q2 w2 q3 w3 -> others_kept q1 w1 q3 w3.
Proof.
  intros [A1 B1 I1 C1 D1] [A2 B2 I2 C2 D2]. split; [congruence..|auto|].
  intros t Ht. rewrite D2 by (destruct Ht; auto). apply D1. destruct Ht; auto.
Qed.

Lemma fetch_frame q w tid o q' : fetch_inflight_req q w tid = (o, q') ->
  q_req_tid q' = q_req_tid q /\ q_fixed q' = q_fixed q /\
  match o with
  | None => q_inflight q' = q_inflight q
  | Some tag => tag ∈ q_inflight q /\ q_inflight q' = list_del tag (q_inflight q)
  end.
Proof.
  unfold fetch_inflight_req. destruct (find_inflight _ _ _) as [tag|] eqn:Ef.
  - apply find_inflight_in in Ef. destruct (_ && _); by intros [= <- <-].
  - by intros [= <- <-].
Qed.

Lemma complete_one_frame q w tag ret q' w' :
  complete_inflight_req q w tag ret = Ok (q', w') ->
  w_wq w' = w_wq w /\ q_req_tid q' = q_req_tid q /\ q_fixed q' = q_fixed q /\
  q_inflight q' = q_inflight q /\ forall t, t <> tag -> w_reqs w' !! t = w_reqs w !! t.
Proof.
  unfold complete_inflight_req. intros H. inv_oks. simpl. split_and!; try done.
  intros t Ht. by rewrite lookup_insert_ne.
Qed.

Lemma complete_again_frame fuel : forall q w q' w',
  complete_again fuel q w = Ok (q', w') -> others_kept q w q' w'.
Proof.
  induction fuel as [|fuel IH]; intros q w q' w' H; [done|]. cbn [complete_again] in H.
  destruct (get_complete_entry (q_ring q)) as [off|]; [|by injection H as <- <-].
  set (q1 := set_q_ring _ q) in H. inv_ok H. rename r into ce.
  destruct (fetch_inflight_req q1 w (ce_priv_data ce)) as [[tag|] q2] eqn:Ef;
    destruct (fetch_frame _ _ _ _ _ Ef) as (Et & Hx & Hi).
  - destruct Hi as [Hin Hi]. inv_ok H. inv_ok H. inv_ok H. destruct r1 as [q3 w3].
    destruct (complete_one_frame _ _ _ _ _ _ E2) as (Ew & Et3 & Hx3 & Hi3 & Hr3).
    apply (others_kept_trans _ _ q3 w3); [|by apply IH]. split; [done|by rewrite Et3, Et|by rewrite Hx3, Hx|..].
    + intros t. rewrite Hi3, Hi, elem_of_list_del. by intros [? _].
    + intros t Ht. rewrite Hi3, Hi, elem_of_list_del in Ht. apply Hr3.
      destruct Ht as [Ht|[_ ?]]; [|done]. intros ->. by apply Ht.
  - apply (others_kept_trans _ _ q2 w); [|by apply IH]. split; try done. intros t. by rewrite Hi.
Qed.

Lemma starts_end {X} (f : X -> Z) (g : X -> blk_status_t) l : starts (map (fun p => BLK_END (f p) (g p)) l) = [].
Proof. by induction l. Qed.
Lemma ends_end {X} (f : X -> Z) (g : X -> blk_status_t) l : ends (map (fun p => BLK_END (f p) (g p)) l) = map f l.
Proof. induction l as [|x l IH]; [done|]. simpl. by f_equal. Qed.

(** Completing one queue of a device. *)
Lemma complete_step qs w FB i q :
  dev_inv qs w FB -> qs !! i = Some q -> compr_ok (q_ring q) ->
  exists q' w', ubbd_queue_complete compr_fuel q w = Ok (q', w') /\
    dev_inv (<[i := q']> qs) w' FB /\ others_kept q w q' w' /\
    forall tags, flow tags qs w tags (<[i := q']> qs) w'.
Proof.
  intros Hd Hi [cs Hc]. unfold ubbd_queue_complete.
  destruct (q_status q =? UBBD_QUEUE_KSTATUS_REMOVING).
  { exists q, w. rewrite list_insert_id by done. split_and!; try done. intros. apply flow_refl. }
  pose proof (compr_length _ _ Hc) as Hf.
  destruct (di_member _ _ _ Hd i q Hi) as [(es & F & Hq & HFB & _) Hrq Hst].
  destruct (complete_again_spec F cs compr_fuel q w es Hq Hc Hf) as (q' & w' & E & [R1 R2 R3 R4 R5 R6]).
  pose proof (complete_again_frame _ _ _ _ _ E) as Hk. pose proof Hk as [Kw Kt Kx Ks Kr].
  exists q', w'. split_and!; try done.
  - eapply dev_inv_step; eauto.
    + intros es0 F0 Hq0 _.
      destruct (complete_again_spec F0 cs compr_fuel q w es0 Hq0 Hc Hf) as (q1 & w1 & E1 & [R _ _ _ _ _]).
      rewrite E in E1. by injection E1 as <- <-.
    + intros j qj t Hj Hqj Ht. assert (t ∉ q_inflight q) as Hn
        by (intros Ht'; by apply (di_tags _ _ _ Hd i j q qj t)).
      split; [apply Kr; by left|]. intros Ht'. by apply Hn, Ks.
    + intros t e Ht. rewrite Kr by auto. apply Hrq. by apply Ks.
    + rewrite R5. case_bool_decide; [done|].
      destruct (stop_if_eq q (q_inflight q')) as [-> | ->]; [done|].
      unfold kstatus_ok. rewrite !elem_of_cons. auto.
  - intros tags. eapply flow_queue; eauto.
    + intros _. by exists [].
    + lia.
    + by eapply complete_again_balanced.
    + apply starts_end.
    + rewrite ends_end. pose proof (abs_complete_partition cs (view w (q_inflight q))) as Hp.
      rewrite view_fst in Hp. specialize (Hp (qi_nodup _ _ _ _ _ Hq)).
      rewrite <- R3, view_fst in Hp.
      etransitivity; [apply Permutation_app_swap_app|by apply Permutation_app_head].
Qed.
End completion.

(** ** Flushing, ending, removing *)

Section removal.
Context `{L : UbbdAbiLaws} `{KL : KernelApiLaws} `{ML : KernelMemLaws}.
Implicit Types (q : ubbd_queue) (qs : list ubbd_queue) (w : world) (e : rq_entry) (r : ring).

Lemma advance_compr fuel : forall r r', advance_cmd_ring fuel r = Ok r' -> same_compr r r'.
Proof.
  induction fuel as [|fuel IH]; intros r r' H; [done|]. simpl in H.
  destruct (get_oldest_se r); [|by injection H as <-]. inv_ok H.
  destruct (ubbd_se_hdr_flags_test _ _); [|by injection H as <-].
  apply IH in H. by eapply same_compr_trans; [|exact H].
Qed.

Lemma complete_one_compr q w tag ret q' w' :
  complete_inflight_req q w tag ret = Ok (q', w') -> same_compr (q_ring q) (q_ring q').
Proof.
  unfold complete_inflight_req, se_flags_set. intros H. inv_oks. simpl.
  match goal with H : advance_cmd_ring _ _ = Ok _ |- _ => apply advance_compr in H as (?&?&?&?) end.
  by repeat split.
Qed.

Lemma end_inflight_frame ret tmp : forall q w q' w',
  end_inflight_list tmp q w ret = Ok (q', w') ->
  same_compr (q_ring q) (q_ring q') /\ q_req_tid q' = q_req_tid q /\ q_fixed q' = q_fixed q /\
  forall t, t ∉ tmp -> w_reqs w' !! t = w_reqs w !! t.
Proof.
  induction tmp as [|t tmp IH]; intros q w q' w' H; cbn [end_inflight_list] in H; [by injection H as <- <-|].
  inv_ok H. destruct r as [q1 w1]. destruct (IH _ _ _ _ H) as (Hc & Ht & Hx & Hr).
  pose proof (complete_one_compr _ _ _ _ _ _ E).
  destruct (complete_one_frame _ _ _ _ _ _ E) as (_ & Ht1 & Hx1 & _ & Hr1).
  split_and!; [by eapply same_compr_trans|congruence..|]. intros t' Hn. rewrite not_elem_of_cons in Hn.
  rewrite Hr, Hr1; naive_solver.
Qed.

Lemma end_flow qs w FB i q ret q' w' tags :
  dev_inv qs w FB -> qs !! i = Some q -> ubbd_queue_end_inflight_reqs q w ret = Ok (q', w') ->
  flow tags qs w tags (<[i := q']> qs) w'.
Proof.
  intros Hd Hi E. destruct (end_step qs w FB i q ret Hd Hi) as (q1 & w1 & E1 & _ & Hin & _ & _ & Hb).
  rewrite E in E1. injection E1 as <- <-. unfold ubbd_queue_end_inflight_reqs in E.
  destruct (end_inflight_frame _ _ _ _ _ _ E) as (Hc & Ht & Hx & Hr). simpl in Hc, Ht, Hx.
  eapply flow_queue; [done|done|by apply same_compr_ok|done|lia|by intros t _; apply Hr|by apply (end_list_balanced _ _ _ _ _ _ E)|exact Hb|apply (starts_end (fun t => t))|].
  rewrite (ends_end (fun t => t)), map_id, Hin, app_nil_r. apply Permutation_app_comm.
Qed.

Lemma flush_flow qs w FB qs' w' :
  dev_inv qs w FB -> works_ok qs w FB (w_wq w) -> flush_workqueue qs w = Ok (qs', w') ->
  flow (w_wq w) qs w [] qs' w'.
Proof.
  intros Hd [Hnd Hea Ht] E. rewrite <- (app_nil_r (w_wq w)).
  assert (works_ok qs (set_w_wq [] w) FB (w_wq w)) as Hw
    by (split; [done| |done]; intros t Hin; by destruct (Hea t Hin)).
  destruct (run_works_flow FB [] (w_wq w) qs (set_w_wq [] w) qs' w') as [F1 F2 F3 F4 F5]; [|done..|by split].
  by eapply dev_inv_ext; [..|exact Hd].
Qed.

Lemma set_status_flow tags qs w i q s :
  qs !! i = Some q -> flow tags qs w tags (<[i := set_q_status s q]> qs) w.
Proof.
  intros Hi. apply (flow_queue _ _ _ _ i q _ _ []); try done.
  by rewrite app_nil_r.
Qed.

Lemma remove_queue_flow force qs w FB i q qs' w' :
  dev_inv qs w FB -> works_ok qs w FB (w_wq w) -> qs !! i = Some q ->
  remove_queue force i qs w = Ok (qs', w') -> flow (w_wq w) qs w [] qs' w'.
Proof.
  intros Hd Hw Hi E. unfold remove_queue in E. rewrite Hi in E. cbn [deref obind] in E.
  assert (kstatus_ok UBBD_QUEUE_KSTATUS_REMOVING) as Hk
    by (unfold kstatus_ok; rewrite !elem_of_cons; auto).
  pose proof (set_status_inv qs w FB i q _ Hd Hi Hk) as Hd1.
  pose proof (set_status_works _ _ _ _ _ UBBD_QUEUE_KSTATUS_REMOVING _ Hw Hi) as Hw1.
  destruct (flush_spec _ w FB Hd1 Hw1) as (qs1 & w1 & E1 & Hd2 & _ & _).
  rewrite E1 in E. cbn [obind] in E.
  assert (flow (w_wq w) qs w [] qs1 w1) as Hf.
  { eapply flow_trans; [by apply set_status_flow|by eapply flush_flow]. }
  destruct force; [|by injection E as <- <-].
  inv_ok E. destruct (qs1 !! i) as [q1|] eqn:Ei; [|done]. injection E0 as <-.
  inv_ok E. destruct r as [q2 w2]. injection E as <- <-.
  eapply flow_trans; [exact Hf|by eapply end_flow].
Qed.

Lemma remove_queues_flow force FB n : forall i qs w qs' w',
  dev_inv qs w FB -> works_ok qs w FB (w_wq w) -> (i + n = length qs)%nat ->
  remove_queues_from force n i qs w = Ok (qs', w') -> flow (w_wq w) qs w (w_wq w') qs' w'.
Proof.
  induction n as [|n IH]; intros i qs w qs' w' Hd Hw Hn E; cbn [remove_queues_from] in E.
  { injection E as <- <-. apply flow_refl. }
  destruct (lookup_lt_is_Some_2 qs i ltac:(lia)) as [q Hi].
  destruct (remove_queue_spec force qs w FB i q Hd Hw Hi)
    as (qs1 & w1 & q1 & E1 & Hd1 & Ew1 & El1 & _). rewrite E1 in E. cbn [obind] in E.
  pose proof (remove_queue_flow _ _ _ _ _ _ _ _ Hd Hw Hi E1) as Hf. rewrite <- Ew1 in Hf.
  eapply flow_trans; [exact Hf|]. eapply (IH (S i) qs1 w1); [exact Hd1| |lia|exact E].
  rewrite Ew1. apply works_ok_nil. intros j qj Hj. by eapply dev_inv_tids.
Qed.

(** Stopping a queue goes through, whatever its status. *)
Lemma queue_stop_step d i q w FB :
  dev_inv (d_queues d) w FB -> works_ok (d_queues d) w FB (w_wq w) -> d_queues d !! i = Some q ->
  exists ret d' w', queue_stop d i w = Ok (ret, d', w') /\
    dev_inv (d_queues d') w' FB /\ (w_wq w' = [] \/ d_queues d' = d_queues d /\ w' = w) /\
    flow (w_wq w) (d_queues d) w (w_wq w') (d_queues d') w' /\
    d_disk d' = d_disk d /\ d_status d' = d_status d /\
    (d_hctx d' = d_hctx d \/ exists k, find_running_queue d = Some k /\ d_hctx d' = <[i := Some k]> (d_hctx d)).
Proof.
  intros Hd Hw Hi. unfold queue_stop. rewrite Hi. cbn [deref obind].
  destruct ((q_status q =? _) || _).
  { do 3 eexists. split; [done|]. split_and!; auto using flow_refl. }
  destruct (negb _).
  { do 3 eexists. split; [done|]. split_and!; auto using flow_refl. }
  set (d1 := match d_hctx d !! i with Some (Some _) => _ | _ => d end).
  assert (d_queues d1 = d_queues d /\ d_disk d1 = d_disk d /\ d_status d1 = d_status d /\
    (d_hctx d1 = d_hctx d \/ exists k, find_running_queue d = Some k /\ d_hctx d1 = <[i := Some k]> (d_hctx d)))
    as (Edq & Edk & Eds & Edh).
  { unfold d1. destruct (d_hctx d !! i) as [[r0|]|]; [destruct (find_running_queue d) eqn:Ef|..];
      split_and!; eauto. }
  rewrite Edq.
  assert (kstatus_ok UBBD_QUEUE_KSTATUS_STOPPING /\ kstatus_ok UBBD_QUEUE_KSTATUS_STOPPED) as [Hk1 Hk2]
    by (unfold kstatus_ok; rewrite !elem_of_cons; auto 10).
  pose proof (set_status_inv _ _ _ i q _ Hd Hi Hk1) as Hd1.
  pose proof (set_status_works _ _ _ _ _ UBBD_QUEUE_KSTATUS_STOPPING _ Hw Hi) as Hw1.
  destruct (flush_spec _ w FB Hd1 Hw1) as (qs' & w' & E & Hd' & Ew & [El _]).
  rewrite E. cbn [obind]. rewrite length_insert in El.
  assert (i < length (d_queues d))%nat as Hlt by (by eapply lookup_lt_Some).
  destruct (lookup_lt_is_Some_2 qs' i ltac:(lia)) as [q1 Hi1]. rewrite Hi1. cbn [deref obind].
  assert (flow (w_wq w) (d_queues d) w [] qs' w') as Hf.
  { eapply flow_trans; [by apply set_status_flow|by eapply flush_flow]. }
  do 3 eexists. split; [done|]. cbn [d_queues set_d_queues d_disk d_hctx d_status]. rewrite Ew.
  split_and!; auto.
  - case_bool_decide; [by apply set_status_inv|by rewrite list_insert_id].
  - case_bool_decide; [|by rewrite list_insert_id]. eapply flow_trans; [exact Hf|by apply set_status_flow].
Qed.
End removal.
