(* ===== verification/OperationProps.v ===== *)
(** * Properties of a device in operation

    The invariant of [Operation] and its preservation by every step, the
    safety theorem and the conservation of requests, with witnesses. *)

From S2P Require Import Prelude Abi Ring Pages Request Balance Queue QueueProps Kring KringMap Device DeviceInv DeviceProps.
From S2P Require Import Operation.

(** ** The invariant *)

Section invariant.
Context `{A : UbbdAbi} `{K : KernelApi} `{M : KernelMem}.

(** Every started request is pending, inflight, ended (or requeued), or was
    refused. *)
Definition ledger (refused : list Z) (qs : list ubbd_queue) (w : world) : Prop :=
  starts (w_blk w) ≡ₚ ends (w_blk w) ++ refused ++ w_wq w ++ inflight_all qs.

Record io_inv (FB : gset Z) (n : Z) (s : io) : Prop := {
  ii_dev : dev_inv (d_queues (io_dev s)) (io_world s) FB;
  ii_works : works_ok (d_queues (io_dev s)) (io_world s) FB (w_wq (io_world s));
  ii_count i q : d_queues (io_dev s) !! i = Some q ->
    q_req_tid q + Z.of_nat (length (w_wq (io_world s))) <= n;
  ii_index i q : d_queues (io_dev s) !! i = Some q -> q_index q = Z.of_nat i;
  ii_compr i q : d_queues (io_dev s) !! i = Some q -> compr_ok (q_ring q);
  ii_hctx i r : d_hctx (io_dev s) !! i = Some (Some r) -> 0 <= r < Z.of_nat (length (d_queues (io_dev s)));
  ii_len : Z.of_nat (length (d_queues (io_dev s))) < 2 ^ 31;
  ii_disk : d_status (io_dev s) = UBBD_DEV_KSTATUS_RUNNING -> is_Some (d_disk (io_dev s));
  ii_ledger : ledger (io_refused s) (d_queues (io_dev s)) (io_world s);
}.

(** The requests a device holds. *)
Definition held (s : io) : list Z := w_wq (io_world s) ++ inflight_all (d_queues (io_dev s)).

(** What a step on a device leaves alone: the number, the indices and the CPUs
    of its queues, every request that is neither [new] nor held, and the pages
    allocated outside its pools. *)
Record io_moves (new : list Z) (s s' : io) : Prop := {
  im_len : length (d_queues (io_dev s')) = length (d_queues (io_dev s));
  im_fixed i q' : d_queues (io_dev s') !! i = Some q' ->
    exists q, d_queues (io_dev s) !! i = Some q /\ q_fixed q' = q_fixed q;
  im_held t : t ∈ held s' -> t ∈ new ++ held s;
  im_reqs t : t ∉ new ++ held s -> w_reqs (io_world s') !! t = w_reqs (io_world s) !! t;
  im_pages : outside_all (d_queues (io_dev s')) (io_world s') = outside_all (d_queues (io_dev s)) (io_world s);
}.

Definition new_tags (op : io_op) : list Z := match op with IOSubmit _ tag _ => [tag] | _ => [] end.
End invariant.

Section lemmas.
Context `{L : UbbdAbiLaws} `{KL : KernelApiLaws} `{ML : KernelMemLaws}.
Implicit Types (q : ubbd_queue) (qs : list ubbd_queue) (w : world) (e : rq_entry) (d : ubbd_device) (s : io).

Lemma ledger_flow refused qs w qs' w' :
  ledger refused qs w -> flow (w_wq w) qs w (w_wq w') qs' w' -> ledger refused qs' w'.
Proof.
  unfold ledger. intros Hl [_ _ _ _ (evs & -> & Hs & Hp)].
  rewrite starts_app, ends_app, Hs, app_nil_r, <- app_assoc, Hl. apply Permutation_app_head.
  rewrite (Permutation_app_swap_app (ends evs)). by apply Permutation_app_head.
Qed.

Lemma flow_moves refused refused' d w d' w' :
  flow (w_wq w) (d_queues d) w (w_wq w') (d_queues d') w' ->
  io_moves [] (mk_io d w refused) (mk_io d' w' refused').
Proof.
  intros [Fl Fe Fr Fg (evs & _ & _ & Fp)]. split; simpl; try done.
  - intros i q' Hi. destruct (Fe i q' Hi) as (q & ? & ? & _). eauto.
  - intros t Ht. unfold held in *. simpl in *. rewrite <- Fp, !elem_of_app. rewrite elem_of_app in Ht. auto.
Qed.

Lemma moves_refl s : io_moves [] s s.
Proof. split; eauto. Qed.

Lemma inv_same FB n s :
  io_inv FB n s ->
  io_inv FB n (mk_io (io_dev s) (io_world s) (io_refused s)) /\
  io_moves [] s (mk_io (io_dev s) (io_world s) (io_refused s)).
Proof. intros Hi. destruct s. split; [done|apply moves_refl]. Qed.

(** A step that lets its requests flow keeps the invariant, if it keeps the
    queues and the pending works good. *)
Lemma inv_flow FB n s d' w' :
  io_inv FB n s -> dev_inv (d_queues d') w' FB ->
  works_ok (d_queues d') w' FB (w_wq w') ->
  flow (w_wq (io_world s)) (d_queues (io_dev s)) (io_world s) (w_wq w') (d_queues d') w' ->
  (forall i r, d_hctx d' !! i = Some (Some r) -> 0 <= r < Z.of_nat (length (d_queues d'))) ->
  (d_status d' = UBBD_DEV_KSTATUS_RUNNING -> is_Some (d_disk d')) ->
  io_inv FB n (mk_io d' w' (io_refused s)) /\ io_moves [] s (mk_io d' w' (io_refused s)).
Proof.
  intros [] Hd Hw Hf Hh Hk. split; [|destruct s; by apply flow_moves].
  pose proof Hf as [Fl Fe _ _ _]. split; try done; simpl.
  - intros i q' Hi. destruct (Fe i q' Hi) as (q & Hq & _ & _ & Ht). specialize (ii_count0 i q Hq). lia.
  - intros i q' Hi. destruct (Fe i q' Hi) as (q & Hq & [= -> _] & _). by apply ii_index0.
  - intros i q' Hi. destruct (Fe i q' Hi) as (q & Hq & _ & Hc & _). eauto.
  - lia.
  - by eapply ledger_flow.
Qed.

(** Works that an operation on the queues does not concern. *)
Lemma works_kept qs w qs' w' FB tags :
  works_ok qs w FB tags -> length qs' = length qs ->
  (forall t, t ∈ tags -> w_reqs w' !! t = w_reqs w !! t) ->
  (forall i q', qs' !! i = Some q' -> exists q, qs !! i = Some q /\ q_req_tid q' <= q_req_tid q /\
     forall t, t ∈ q_inflight q' -> t ∈ q_inflight q) ->
  works_ok qs' w' FB tags.
Proof.
  intros [Hnd Hea Ht] El Hr Hq. split; [done| |].
  - intros t Hin. destruct (Hea t Hin) as [(e & op & i & q & He & Hqi & Hi & Hop & Hp & Ho) Hf]. split.
    + assert (is_Some (qs' !! i)) as [q' Hi']
        by (apply lookup_lt_is_Some; rewrite El; by eapply lookup_lt_Some).
      exists e, op, i, q'. rewrite Hr by done. by split_and!.
    + intros j q' Hj Hin'. destruct (Hq j q' Hj) as (q0 & H0 & _ & Hs). by apply (Hf j q0 H0), Hs.
  - intros i q' Hi. destruct (Hq i q' Hi) as (q & H0 & Hle & _). specialize (Ht i q H0). lia.
Qed.

(** An insertion of a queue that keeps its requests. *)
Lemma works_kept_insert qs w w' FB tags i q q' :
  works_ok qs w FB tags -> qs !! i = Some q -> q_req_tid q' = q_req_tid q ->
  (forall t, t ∈ q_inflight q' -> t ∈ q_inflight q) ->
  (forall t, t ∈ tags -> w_reqs w' !! t = w_reqs w !! t) ->
  works_ok (<[i := q']> qs) w' FB tags.
Proof.
  intros Hw Hi Et Hs Hr. eapply works_kept; [exact Hw|apply length_insert|done|].
  intros j qj Hj. apply list_lookup_insert_Some in Hj as [(<- & <- & _)|(_ & Hj)].
  - exists q. split_and!; done || lia.
  - exists qj. split_and!; done || lia.
Qed.

(** Without works there is nothing to keep. *)
Lemma works_none qs w FB w' : dev_inv qs w FB -> w_wq w' = [] -> works_ok qs w FB (w_wq w').
Proof. intros Hd ->. apply works_ok_nil. intros i q Hi. by eapply dev_inv_tids. Qed.

(** ** Submission *)

(** A request nobody has changes hands. *)
Lemma dev_inv_reqs qs w FB w' tag :
  dev_inv qs w FB -> (forall i q, qs !! i = Some q -> tag ∉ q_inflight q) ->
  (forall t, t <> tag -> w_reqs w' !! t = w_reqs w !! t) -> w_km w' = w_km w ->
  dev_inv qs w' FB.
Proof.
  intros [Hm Ht] Hni Hr Ek. split; [|done]. intros i q Hi.
  assert (forall t, t ∈ q_inflight q -> w_reqs w' !! t = w_reqs w !! t) as Hr'
    by (intros t Hin; apply Hr; intros ->; by apply (Hni i q Hi)).
  destruct (Hm i q Hi) as [(es & F & Hq & HF & Ho) Hrq Hs]. split; [|intros t e Hin; rewrite Hr' by done; by apply Hrq|done].
  exists es, F. split_and!; try done. eapply queue_inv_frame; try done; try apply Hq.
  - rewrite Ek. apply Hq.
  - pose proof (qi_tid _ _ _ _ _ Hq). lia.
  - intros t e Hin He. rewrite Hr' by done. split_and!; [done|auto|by apply entries_kept_refl].
Qed.

Lemma queue_rq_cases q w tag e :
  w_reqs w !! tag = Some e ->
  (exists st, ubbd_queue_rq q w tag = Ok (st, w)) \/
  (exists st, op_of_req_op (rq_op (e_rq e)) = None /\ ubbd_queue_rq q w tag = Ok (st,
     add_blk (BLK_START tag) (set_w_reqs (<[tag := mk_rq_entry (e_rq e) None (zeroed_ubbd_request ubbd_op_zero)]> (w_reqs w)) w))) \/
  (exists st op w', op_of_req_op (rq_op (e_rq e)) = Some op /\ ubbd_queue_rq q w tag = Ok (st, w') /\
     w_reqs w' !! tag = Some (ubbd_req_init q op (e_rq e)) /\
     (forall t, t <> tag -> w_reqs w' !! t = w_reqs w !! t) /\ w_km w' = w_km w /\
     w_wq w' = w_wq w ++ [tag] /\ w_blk w' = w_blk w ++ [BLK_START tag]).
Proof.
  intros He. unfold ubbd_queue_rq. rewrite He. cbn [deref obind].
  destruct (_ && _); [eauto|]. destruct (_ && _); [eauto|].
  destruct (op_of_req_op _) as [op|]; [|right; left; eauto].
  right; right. do 3 eexists. split; [done|]. split; [done|]. simpl. split_and!; try done.
  - apply lookup_insert_eq.
  - intros t Ht. by rewrite !lookup_insert_ne.
Qed.
End lemmas.

(** ** The steps *)

Section steps.
Context `{L : UbbdAbiLaws} `{KL : KernelApiLaws} `{ML : KernelMemLaws}.
Implicit Types (q : ubbd_queue) (qs : list ubbd_queue) (w : world) (e : rq_entry) (d : ubbd_device) (s : io).

Lemma drop_snoc {X} (l : list X) x : drop (length l) (l ++ [x]) = [x].
Proof. by rewrite drop_app_length. Qed.

(** The works pending survive the arrival of a request they do not name. *)
Lemma works_other qs w w' FB tags tag :
  works_ok qs w FB tags -> tag ∉ tags -> (forall t, t <> tag -> w_reqs w' !! t = w_reqs w !! t) ->
  works_ok qs w' FB tags.
Proof.
  intros Hw Hni Hr. eapply works_kept; [exact Hw|done| |].
  - intros t Ht. apply Hr. by intros ->.
  - intros i q Hi. exists q. split_and!; done || lia.
Qed.

Lemma arrival_moves s w' refused tag :
  (forall t, t ∈ w_wq w' -> t ∈ w_wq (io_world s) \/ t = tag) ->
  (forall t, t <> tag -> w_reqs w' !! t = w_reqs (io_world s) !! t) ->
  live (w_km w') = live (w_km (io_world s)) -> io_moves [tag] s (mk_io (io_dev s) w' refused).
Proof.
  intros Hw Hr Hl. split; simpl; [done|eauto| | |unfold outside_all; by rewrite Hl].
  - intros t. unfold held. simpl. rewrite elem_of_cons, !elem_of_app. intros [Ht|Ht]; [|auto].
    destruct (Hw t Ht); auto.
  - intros t Ht. apply Hr. rewrite not_elem_of_cons in Ht. naive_solver.
Qed.

Lemma submit_step FB n s hctx tag rq :
  io_inv FB n s -> n + 1 < 2 ^ 64 -> io_can FB (IOSubmit hctx tag rq) s ->
  exists s', io_step (IOSubmit hctx tag rq) s = Ok s' /\ io_inv FB (n + 1) s' /\ io_moves [tag] s s'.
Proof.
  intros [Hd Hw Hn Hx Hc Hh Hl Hk Hg] Hb ([r Hr] & [Hnw Hni] & Hok).
  unfold io_step. rewrite Hr. cbn [deref obind].
  specialize (Hh hctx r Hr) as Hrb.
  destruct (lookup_lt_is_Some_2 (d_queues (io_dev s)) (Z.to_nat r) ltac:(lia)) as [q Hq].
  rewrite Hq. cbn [deref obind].
  set (w := io_world s) in *. set (w1 := blk_request tag rq w).
  assert (w_reqs w1 !! tag = Some (mk_rq_entry rq None (zeroed_ubbd_request ubbd_op_zero))) as He
    by apply lookup_insert_eq.
  assert (forall t, t <> tag -> w_reqs w1 !! t = w_reqs w !! t) as Hr1
    by (intros t Ht; by apply lookup_insert_ne).
  destruct (queue_rq_cases q w1 tag _ He) as [[st E]|[(st & Eop & E)|(st & op & w' & Eop & E & He' & Hr' & Ek & Ew & Eb)]];
    rewrite E; cbn [obind]; (eexists; split; [reflexivity|]).
  - change (w_blk w1) with (w_blk w). change (w_wq w1) with (w_wq w). rewrite !drop_all. simpl.
    rewrite app_nil_r. split; [|by apply arrival_moves; auto]. split; try done; simpl.
    + by eapply dev_inv_reqs.
    + by eapply works_other.
    + intros i qi Hi. specialize (Hn i qi Hi). lia.
  - simpl w_blk. simpl w_wq. rewrite drop_snoc, drop_all. simpl. rewrite filter_cons_True by set_solver.
    rewrite filter_nil. split.
    2: { apply arrival_moves; [auto| |done]. intros t Ht. simpl. by rewrite !lookup_insert_ne. }
    split; try done; simpl.
    + eapply dev_inv_reqs; [exact Hd|exact Hni| |done]. intros t Ht. simpl. rewrite !lookup_insert_ne by done. done.
    + eapply works_other; [exact Hw|done|]. intros t Ht. simpl. rewrite !lookup_insert_ne by done. done.
    + intros i qi Hi. specialize (Hn i qi Hi). lia.
    + unfold ledger in *. simpl. rewrite starts_app, ends_app. simpl. rewrite app_nil_r, Hg.
      rewrite <- (app_assoc (io_refused s)). simpl.
      rewrite (Permutation_app_comm _ [tag]). simpl. rewrite <- !Permutation_middle. done.
  - change (w_blk w1) with (w_blk w) in Eb. change (w_wq w1) with (w_wq w) in Ew.
    rewrite Eb, Ew, !drop_snoc. simpl.
    rewrite filter_cons_False, filter_nil, app_nil_r by set_solver.
    assert (forall t, t <> tag -> w_reqs w' !! t = w_reqs w !! t) as Hr2
      by (intros t Ht; rewrite Hr', Hr1 by done; done).
    split.
    2: { apply arrival_moves; [|done|by rewrite Ek]. intros t. rewrite Ew, elem_of_app, list_elem_of_singleton. done. }
    split; try done; simpl.
    + by eapply dev_inv_reqs.
    + rewrite Ew. destruct (works_other _ _ w' FB _ tag Hw Hnw Hr2) as [Hnd Hea Ht]. split.
      * apply NoDup_app. split_and!; [done|set_solver|apply NoDup_singleton].
      * intros t. rewrite elem_of_app, list_elem_of_singleton. intros [Hin| ->]; [by apply Hea|].
        split; [|done]. exists (ubbd_req_init q op rq), op, (Z.to_nat r), q.
        split_and!; try done. simpl. by rewrite (Hx _ _ Hq).
      * intros i qi Hi. rewrite length_app. simpl. specialize (Hn i qi Hi). lia.
    + intros i qi Hi. rewrite Ew, length_app. simpl. specialize (Hn i qi Hi). lia.
    + unfold ledger in *. rewrite Eb, Ew, starts_app, ends_app. simpl. rewrite app_nil_r, Hg.
      rewrite (Permutation_app_comm _ [tag]). simpl. rewrite <- (app_assoc (w_wq w)). simpl.
      rewrite !app_assoc. rewrite <- Permutation_middle. by rewrite <- !app_assoc.
Qed.

(** The pending works run in any order. *)
Lemma works_ok_perm qs w FB tags tags' : tags ≡ₚ tags' -> works_ok qs w FB tags -> works_ok qs w FB tags'.
Proof.
  intros Hp [Hnd Hea Ht]. split; [by rewrite <- Hp|intros t Hin; apply Hea; by rewrite Hp|].
  intros i q Hi. rewrite <- Hp. by apply (Ht i).
Qed.

Lemma works_ok_world qs w w' FB tags : w_reqs w' = w_reqs w -> works_ok qs w FB tags -> works_ok qs w' FB tags.
Proof.
  intros Er [Hnd Hea Ht]. split; [done| |done]. intros t Hin. destruct (Hea t Hin) as [He Hf].
  split; [by rewrite Er|done].
Qed.

Lemma work_run_step FB n s k :
  io_inv FB n s -> n < 2 ^ 64 -> io_can FB (IOWork k) s ->
  exists s', io_step (IOWork k) s = Ok s' /\ io_inv FB n s' /\ io_moves [] s s'.
Proof.
  intros Hi Hb Hlt. pose proof Hi as [Hd Hw _ _ _ Hh _ Hk _]. simpl in Hlt. unfold io_step.
  set (w := io_world s) in *. set (qs := d_queues (io_dev s)) in *.
  destruct (lookup_lt_is_Some_2 _ _ Hlt) as [tag Htag]. rewrite Htag. cbn [deref obind].
  pose proof (delete_Permutation _ _ _ Htag) as Hp. set (rest := delete k (w_wq w)) in *.
  assert (works_ok qs (set_w_wq rest w) FB (tag :: rest)) as Hw1
    by (eapply works_ok_world; [|eapply works_ok_perm; [exact Hp|exact Hw]]; done).
  assert (dev_inv qs (set_w_wq rest w) FB) as Hd1 by (by eapply dev_inv_ext; [..|exact Hd]).
  assert (works_ok qs (set_w_wq rest w) FB [tag]) as Hw2.
  { destruct Hw1 as [Hnd Hea Ht]. split; [apply NoDup_singleton| |].
    - intros t ->%list_elem_of_singleton. apply Hea. by left.
    - intros i q Hq. specialize (Ht i q Hq). simpl in *. lia. }
  cbn [run_works].
  destruct (wo_each _ _ _ _ Hw1 tag ltac:(by left)) as [(e & op & i & q & He & Hq & Hiq & Hop & Hpd & Ho) Hf].
  destruct (run_works_spec FB [tag] qs _ Hd1 Hw2) as (qs' & w' & E & Hd' & Ew & _).
  pose proof (run_works_flow FB rest [tag] _ _ _ _ Hd1 Hw2 E) as Hfl.
  cbn [run_works] in E. rewrite E. cbn [obind]. eexists. split; [done|].
  apply (inv_flow FB n s (set_d_queues qs' (io_dev s)) w'); try done; simpl; rewrite ?Ew; simpl.
  - rewrite He in E. cbn [deref obind] in E. rewrite Hq in E. cbn [deref obind] in E.
    rewrite Nat2Z.id, Hiq in E. cbn [deref obind] in E.
    pose proof (wo_tids _ _ _ _ Hw1 i q Hiq) as Ht. simpl in Ht.
    destruct (work_step qs (set_w_wq rest w) FB tag e op i q Hd1 Hiq He Hop Hpd Ho Hf ltac:(lia))
      as (q' & w2 & E2 & _ & _ & _ & Et & Hin & Hr & _).
    rewrite E2 in E. cbn [obind] in E. injection E as <- <-. by eapply works_ok_step.
  - destruct Hfl as [F1 F2 Fr Fg (evs & F3 & F4 & F5)].
    split; [done| |intros t Hnt; apply Fr; by rewrite <- (Hp : w_wq (io_world s) ≡ₚ _)|exact Fg|exists evs; split_and!; try done; by rewrite F5, (Hp : w_wq (io_world s) ≡ₚ _)].
    intros j qj Hj. destruct (F2 j qj Hj) as (q0 & H0 & Hx0 & Hc0 & Ht0). exists q0. split_and!; try done.
    by rewrite (Hp : w_wq (io_world s) ≡ₚ _).
  - destruct Hfl as [F1 _ _ _ _]. intros j r Hj. rewrite F1. by apply (Hh j).
Qed.

(** The backend and the completion. *)
Lemma backend_inv FB n s i r :
  io_inv FB n s -> io_can FB (IOBackend i r) s ->
  exists s', io_step (IOBackend i r) s = Ok s' /\ io_inv FB n s' /\ io_moves [] s s'.
Proof.
  intros Hi (q & Hq & [B1 B2 (B3 & B4 & B5) B6]). pose proof Hi as [Hd Hw Hn Hx Hc Hh Hl Hk Hg].
  unfold io_step. rewrite Hq. cbn [deref obind]. eexists. split; [done|].
  destruct (Hc i q Hq) as [cs Hcs]. destruct (B6 cs Hcs) as [new Hnew].
  apply (inv_flow FB n s (set_d_queues (<[i := set_q_ring r q]> (d_queues (io_dev s))) (io_dev s)) (io_world s));
    try done; simpl.
  - eapply dev_inv_step; eauto.
    + intros es F Hqi _. exists es. eapply queue_inv_same; try done.
      destruct (qi_ring _ _ _ _ _ Hqi) as [W1 W2 W3 W4 W5]. simpl.
      split; rewrite ?B3, ?B4, ?B5, ?B1; done.
    + intros j qj t Hj Hqj Ht. split; [done|]. intros Ht'. by apply (di_tags _ _ _ Hd i j q qj t).
    + apply (di_member _ _ _ Hd i q Hq).
    + apply (di_member _ _ _ Hd i q Hq).
  - by eapply works_kept_insert.
  - apply (flow_queue _ _ _ _ i q _ _ []); try done; [by exists (cs ++ new)|by rewrite app_nil_r].
  - rewrite length_insert. exact Hh.
Qed.

Lemma complete_inv FB n s i :
  io_inv FB n s -> io_can FB (IOComplete i) s ->
  exists s', io_step (IOComplete i) s = Ok s' /\ io_inv FB n s' /\ io_moves [] s s'.
Proof.
  intros Hi Hlt. pose proof Hi as [Hd Hw Hn Hx Hc Hh Hl Hk Hg]. simpl in Hlt.
  unfold io_step. destruct (lookup_lt_is_Some_2 _ _ Hlt) as [q Hq]. rewrite Hq. cbn [deref obind].
  destruct (complete_step _ _ FB i q Hd Hq (Hc i q Hq)) as (q' & w' & E & Hd' & [K1 K2 K3 K4 K5] & Hf).
  rewrite E. cbn [obind]. eexists. split; [done|].
  apply (inv_flow FB n s (set_d_queues (<[i := q']> (d_queues (io_dev s))) (io_dev s)) w'); try done;
    simpl; rewrite ?K1; try done.
  - eapply works_kept_insert; eauto. intros t Ht. apply K5. left.
    by apply (wk_fresh _ _ _ _ (wo_each _ _ _ _ Hw t Ht) i q).
  - rewrite length_insert. exact Hh.
Qed.
End steps.

(** ** The manager *)

Section manager.
Context `{L : UbbdAbiLaws} `{KL : KernelApiLaws} `{ML : KernelMemLaws}.
Implicit Types (q : ubbd_queue) (qs : list ubbd_queue) (w : world) (e : rq_entry) (d : ubbd_device) (s : io).

Lemma bad_id_spec d id :
  Z.of_nat (length (d_queues d)) < 2 ^ 31 -> - 2 ^ 31 <= id < 2 ^ 31 -> bad_queue_id d id = false ->
  exists q, d_queues d !! Z.to_nat id = Some q.
Proof.
  unfold bad_queue_id. intros Hl Hid Hb. apply Z.leb_gt in Hb. apply lookup_lt_is_Some.
  destruct (Z.ltb_spec id 0).
  - unfold u32 in Hb. rewrite <- (Z.mod_add id 1), Z.mod_small in Hb; lia.
  - rewrite u32_small in Hb by lia. lia.
Qed.

Lemma stop_step FB n s id :
  io_inv FB n s -> io_can FB (IOStop id) s ->
  exists s', io_step (IOStop id) s = Ok s' /\ io_inv FB n s' /\ io_moves [] s s'.
Proof.
  intros Hi Hid. pose proof Hi as [Hd Hw Hn Hx Hc Hh Hl Hk Hg]. unfold io_step, ubbd_dev_stop_queue.
  destruct (negb _); [cbn [obind]; eexists; split; [done|]; by apply inv_same|].
  destruct (bad_queue_id _ _) eqn:Eb; [cbn [obind]; eexists; split; [done|]; by apply inv_same|].
  destruct (bad_id_spec _ _ Hl Hid Eb) as [q Hq].
  destruct (queue_stop_step _ _ q _ FB Hd Hw Hq) as (ret & d' & w' & E & Hd' & Hwq & Hf & Ek & Es & Eh).
  rewrite E. cbn [obind]. eexists. split; [done|]. apply inv_flow; try done.
  - destruct Hwq as [Ew|[-> ->]]; [by apply works_none|done].
  - rewrite (fl_len _ _ _ _ _ _ Hf). intros j r. destruct Eh as [-> |(k & Ek' & ->)]; [apply Hh|].
    intros Hj. apply list_lookup_insert_Some in Hj as [(_ & [= ->] & _)|(_ & Hj)]; [|by apply (Hh j)].
    destruct (find_running_spec _ _ _ Ek') as (k & q' & -> & Hk' & _).
    apply lookup_lt_Some in Hk'. lia.
  - by rewrite Ek, Es.
Qed.

Lemma start_step FB n s id :
  io_inv FB n s -> io_can FB (IOStart id) s ->
  exists s', io_step (IOStart id) s = Ok s' /\ io_inv FB n s' /\ io_moves [] s s'.
Proof.
  intros Hi Hid. pose proof Hi as [Hd Hw Hn Hx Hc Hh Hl Hk Hg]. unfold io_step, ubbd_dev_start_queue.
  destruct (negb _); [cbn [obind]; eexists; split; [done|]; by apply inv_same|].
  destruct (bad_queue_id _ _) eqn:Eb; [cbn [obind]; eexists; split; [done|]; by apply inv_same|].
  destruct (bad_id_spec _ _ Hl Hid Eb) as [q Hq]. set (i := Z.to_nat id) in *.
  unfold queue_start. rewrite Hq. cbn [deref obind].
  destruct (_ =? _); [cbn [obind]; eexists; split; [done|]; by apply inv_same|].
  destruct (_ =? _); [cbn [obind]; eexists; split; [done|]; by apply inv_same|].
  assert (i < length (d_queues (io_dev s)))%nat as Hlt by (by eapply lookup_lt_Some).
  assert (kstatus_ok UBBD_QUEUE_KSTATUS_RUNNING) as Hk1 by (unfold kstatus_ok; rewrite !elem_of_cons; auto).
  assert (forall h, (forall j r, h !! j = Some (Some r) -> 0 <= r < Z.of_nat (length (d_queues (io_dev s)))) ->
    io_inv FB n (mk_io (set_d_hctx h (set_d_queues
      (<[i := set_q_status UBBD_QUEUE_KSTATUS_RUNNING q]> (d_queues (io_dev s))) (io_dev s)))
      (io_world s) (io_refused s)) /\
    io_moves [] s (mk_io (set_d_hctx h (set_d_queues
      (<[i := set_q_status UBBD_QUEUE_KSTATUS_RUNNING q]> (d_queues (io_dev s))) (io_dev s)))
      (io_world s) (io_refused s))) as Hset.
  { intros h Hh'. apply inv_flow; simpl; try done.
    - by apply set_status_inv.
    - by apply set_status_works.
    - by apply set_status_flow.
    - by rewrite length_insert. }
  cbn [d_hctx set_d_queues]. pose proof (Hset _ Hh) as Hsame. unfold set_d_hctx at 1 in Hsame.
  destruct (d_hctx (io_dev s) !! i) as [[r|]|]; [destruct (negb _)|..]; cbn [obind];
    (eexists; split; [done|]); try exact Hsame.
  apply Hset. intros j r' Hj. apply list_lookup_insert_Some in Hj as [(_ & [= <-] & _)|(_ & Hj)]; [lia|by apply (Hh j)].
Qed.

(** A change of the queues the invariant does not see. *)
Lemma dev_inv_map f qs w FB :
  (forall q, q_inflight (f q) = q_inflight q /\ q_status (f q) = q_status q /\
     data_pages_array (q_pool (f q)) = data_pages_array (q_pool q) /\
     forall es F l, queue_inv q w es F l -> queue_inv (f q) w es F l) ->
  dev_inv qs w FB -> dev_inv (map f qs) w FB.
Proof.
  intros Hf [Hm Ht]. split.
  - intros i q' Hi. apply list_lookup_fmap_Some in Hi as (q & -> & Hi).
    destruct (Hf q) as (E1 & E2 & E3 & E4). destruct (Hm i q Hi) as [(es & F & Hq & HF & Ho) Hr Hs].
    split; rewrite ?E1, ?E2; try done. exists es, F. split_and!; [by apply E4|done|].
    intros j q' pg Hj Hqj Hown. apply list_lookup_fmap_Some in Hqj as (qj & -> & Hqj).
    apply (Ho j qj pg Hj Hqj). unfold owns in *. by rewrite (proj1 (proj2 (proj2 (Hf qj)))) in Hown.
  - intros i j qi qj t Hi Hj. apply list_lookup_fmap_Some in Hi as (qi0 & -> & Hi).
    apply list_lookup_fmap_Some in Hj as (qj0 & -> & Hj).
    rewrite (proj1 (Hf qi0)), (proj1 (Hf qj0)). by apply Ht.
Qed.

Lemma reserve_queue_inv p q w es F l : queue_inv q w es F l -> queue_inv (set_queue_reserve p q) w es F l.
Proof.
  intros Hq. eapply queue_inv_frame; eauto; try apply Hq; simpl.
  - destruct (qi_pool _ _ _ _ _ Hq). by split.
  - pose proof (qi_tid _ _ _ _ _ Hq). lia.
  - intros t e _ He. split_and!; [done|auto|by apply entries_kept_refl].
Qed.

(** The reserves of all queues change; the requests do not move. *)
Lemma reserve_flow p tags qs w : flow tags qs w tags (map (set_queue_reserve p) qs) w.
Proof.
  split; [apply length_map| | |unfold outside_all; by rewrite pages_in_map|].
  - intros i q' Hi. apply list_lookup_fmap_Some in Hi as (q & -> & Hi). exists q. split_and!; done || simpl; lia.
  - done.
  - exists []. rewrite app_nil_r. split_and!; try done. simpl. unfold inflight_all. by rewrite map_map.
Qed.

Lemma config_step FB n s opts :
  io_inv FB n s -> exists s', io_step (IOConfig opts) s = Ok s' /\ io_inv FB n s' /\ io_moves [] s s'.
Proof.
  intros Hi. pose proof Hi as [Hd Hw Hn Hx Hc Hh Hl Hk Hg]. unfold io_step, ubbd_dev_config.
  destruct (Z.eqb_spec (d_status (io_dev s)) UBBD_DEV_KSTATUS_RUNNING) as [Es|_]; cbn [negb];
    [|cbn [obind]; eexists; split; [done|]; by apply inv_same].
  destruct (_ && _); [cbn [obind]; eexists; split; [done|]; by apply inv_same|].
  set (d1 := if negb _ then set_d_queues _ _ else _).
  assert (d_disk d1 = d_disk (io_dev s)) as Ek by (unfold d1; by destruct (negb _)).
  assert (forall k, is_Some k -> io_inv FB n (mk_io (set_d_disk k d1) (io_world s) (io_refused s)) /\
    io_moves [] s (mk_io (set_d_disk k d1) (io_world s) (io_refused s))) as Hd1.
  { intros k Hks. unfold d1. destruct (negb _); [|by apply inv_flow; simpl; auto using flow_refl].
    apply inv_flow; simpl; try done.
    - apply dev_inv_map; [|done]. intros q. split_and!; try done. intros. by apply reserve_queue_inv.
    - eapply works_kept; [exact Hw|apply length_map|done|]. intros j q' Hj.
      apply list_lookup_fmap_Some in Hj as (q & -> & Hj). exists q. split_and!; done || simpl; lia.
    - apply reserve_flow.
    - by rewrite length_map. }
  destruct (Hk Es) as [k Hks]. rewrite Hks in Ek.
  destruct (negb (Z.land (co_flags opts) UBBD_DEV_CONFIG_FLAG_DEV_SIZE =? 0)); cbn [obind].
  - rewrite Ek. cbn [deref obind]. eexists. split; [done|]. by apply Hd1.
  - eexists. split; [done|]. replace d1 with (set_d_disk (Some k) d1); [by apply Hd1|].
    rewrite <- Ek. by destruct d1.
Qed.

Lemma remove_disk_queues d force w d' w' :
  ubbd_dev_remove_disk d force w = Ok (d', w') ->
  ubbd_dev_remove_queues d force w = Ok (set_d_queues (d_queues d') d, w') /\
  remove_disk_status (set_d_queues (d_queues d') d) = Ok d'.
Proof.
  unfold ubbd_dev_remove_disk, ubbd_dev_remove_queues. intros H. inv_ok H. destruct r as [d1 w1]. inv_ok E.
  destruct r as [qs w2]. injection E as <- <-. inv_ok H. injection H as <- <-.
  assert (d_queues r = qs) as <-; [|by rewrite E0]. unfold remove_disk_status, del_gendisk in E.
  destruct (_ =? _); [inv_oks|injection E as <-]; done.
Qed.

(** A removal leaves no work, and no request if it is forced. *)
Lemma remove_disk_idle FB d force w d' w' :
  dev_inv (d_queues d) w FB -> works_ok (d_queues d) w FB (w_wq w) ->
  ubbd_dev_remove_disk d force w = Ok (d', w') ->
  w_wq w' = [] /\ (force = true -> inflight_all (d_queues d') = []).
Proof.
  intros Hd Hw H. apply remove_disk_queues in H as [H _]. unfold ubbd_dev_remove_queues in H.
  destruct (remove_queues_from_spec force FB (length (d_queues d)) 0 _ _ Hd Hw eq_refl)
    as (qs' & w2 & E & _ & Ew & _ & Hall); [lia|]. rewrite E in H. injection H as Eq <-. rewrite <- Eq. split.
  - destruct (d_queues d) as [|q0 qs0] eqn:Eqs; [|by apply Ew; simpl; lia].
    cbn [length remove_queues_from] in E. injection E as _ <-. destruct (w_wq w) as [|t l]; [done|].
    destruct (wk_entry _ _ _ _ (wo_each _ _ _ _ Hw t ltac:(by left))) as (e & op & i & q & _ & _ & Hiq & _).
    by rewrite lookup_nil in Hiq.
  - intros ->. unfold inflight_all. clear -Hall. induction Hall as [|q qs' [_ Hq] _ IH]; [done|].
    simpl. rewrite Hq by done. exact IH.
Qed.

Lemma io_remove_disk_step FB n s force :
  io_inv FB n s -> exists d' w', ubbd_dev_remove_disk (io_dev s) force (io_world s) = Ok (d', w') /\
    io_inv FB n (mk_io d' w' (io_refused s)) /\ io_moves [] s (mk_io d' w' (io_refused s)) /\
    w_wq w' = [] /\ (force = true -> inflight_all (d_queues d') = []).
Proof.
  intros Hi. pose proof Hi as [Hd Hw Hn Hx Hc Hh Hl Hk Hg].
  assert (exists d' w', ubbd_dev_remove_disk (io_dev s) force (io_world s) = Ok (d', w') /\
    io_inv FB n (mk_io d' w' (io_refused s)) /\ io_moves [] s (mk_io d' w' (io_refused s))) as
    (d' & w' & E & Hi' & Hm).
  { unfold ubbd_dev_remove_disk, ubbd_dev_remove_queues.
    destruct (remove_queues_from_spec force FB (length (d_queues (io_dev s))) 0 _ _ Hd Hw eq_refl)
      as (qs' & w' & E & Hd' & Ew & El & Hall); [lia|].
    pose proof (remove_queues_flow force FB _ 0 _ _ _ _ Hd Hw eq_refl E) as Hf. rewrite E. cbn [obind].
    destruct (remove_disk_status_spec (set_d_queues qs' (io_dev s)) Hk) as (k' & Ek & _). rewrite Ek.
    cbn [obind]. do 2 eexists. split; [done|]. apply inv_flow; simpl; try done.
    - destruct (w_wq w') as [|t l] eqn:Et; [apply works_ok_nil; intros i q Hq; by eapply dev_inv_tids|].
      destruct (remove_disk_idle FB (io_dev s) force (io_world s)
        (set_d_disk k' (set_d_status UBBD_DEV_KSTATUS_REMOVING (set_d_queues qs' (io_dev s)))) w' Hd Hw) as [Ew' _];
        [|congruence]. unfold ubbd_dev_remove_disk, ubbd_dev_remove_queues. rewrite E. cbn [obind]. by rewrite Ek.
    - by rewrite El.
    - intros Es. destruct dev_kstatus_distinct as (_ & _ & _ & _ & _ & Hne). by destruct Hne. }
  exists d', w'. destruct (remove_disk_idle _ _ _ _ _ _ Hd Hw E). by split_and!.
Qed.

Lemma io_step_inv FB n s op :
  io_inv FB n s -> n < 2 ^ 64 -> (if is_submit op then n + 1 else n) < 2 ^ 64 -> io_can FB op s ->
  exists s', io_step op s = Ok s' /\ io_inv FB (if is_submit op then n + 1 else n) s' /\
    io_moves (new_tags op) s s'.
Proof.
  intros Hi Hn Hb Hc. destruct op as [hctx tag rq|k|i r|m|i|id|id|opts|force|rq].
  - by apply submit_step.
  - by apply work_run_step.
  - by apply backend_inv.
  - eexists. split; [done|]. split; [|split; simpl; eauto]. destruct Hi as [Hd Hw]. split; try done; simpl.
    + by eapply dev_inv_ext; [..|exact Hd].
    + by eapply works_ok_world; [|exact Hw].
  - by apply complete_inv.
  - by apply stop_step.
  - by apply start_step.
  - by apply config_step.
  - destruct (io_remove_disk_step FB n s force Hi) as (d' & w' & E & Hi' & Hm & _). unfold io_step.
    rewrite E. cbn [obind]. eauto.
  - unfold io_step, ubbd_timeout. destruct (_ =? _).
    + cbn [obind]. eexists. split; [done|]. by apply inv_same.
    + destruct (io_remove_disk_step FB n s true Hi) as (d' & w' & E & Hi' & Hm & _). rewrite E.
      cbn [obind]. eauto.
Qed.

Lemma io_start_inv FB s : io_start FB s -> io_inv FB 0 s.
Proof.
  intros [Hd Hr Hh Hl Hk (Ew & Eb & Ef)]. split; try done.
  - rewrite Ew. apply works_ok_nil. intros i q Hi. by eapply dev_inv_tids.
  - intros i q Hi. rewrite Ew. destruct (Hr i q Hi) as (_ & _ & -> & _). done.
  - intros i q Hi. by destruct (Hr i q Hi).
  - intros i q Hi. by destruct (Hr i q Hi) as (_ & _ & _ & ?).
  - unfold ledger. rewrite Ew, Eb, Ef. simpl. unfold inflight_all.
    assert (Forall (fun q => q_inflight q = []) (d_queues (io_dev s))) as Hq.
    { apply Forall_lookup. intros i q Hi. by destruct (Hr i q Hi) as (_ & ? & _). }
    clear -Hq. induction Hq as [|q qs Hq _ IH]; [done|]. simpl. by rewrite Hq.
Qed.

Lemma io_reach_inv FB n s : io_reach FB n s -> n < 2 ^ 64 -> io_inv FB n s.
Proof.
  induction 1 as [s Hs|n s op s' Hr IH Hc E]; intros Hn; [by apply io_start_inv|].
  assert (n < 2 ^ 64) as Hn' by (destruct (is_submit op); lia).
  destruct (io_step_inv FB n s op (IH Hn') Hn' Hn Hc) as (s2 & E2 & Hi & _). congruence.
Qed.
End manager.

(** ** Properties *)

Section properties.
Context `{L : UbbdAbiLaws} `{KL : KernelApiLaws} `{ML : KernelMemLaws}.
Implicit Types (s : io).

(** The requests the driver holds are distinct. *)
Lemma held_nodup FB n s :
  io_inv FB n s -> NoDup (w_wq (io_world s) ++ inflight_all (d_queues (io_dev s))).
Proof.
  intros [Hd [Hnd Hea _] _ _ _ _ _ _ _].
  assert (forall t, t ∈ inflight_all (d_queues (io_dev s)) ->
    exists i q, d_queues (io_dev s) !! i = Some q /\ t ∈ q_inflight q) as Hin.
  { intros t Ht. unfold inflight_all in Ht. apply list_elem_of_In, in_concat in Ht as (l & Hl & Ht).
    apply in_map_iff in Hl as (q & <- & Hq). apply list_elem_of_In, list_elem_of_lookup in Hq as [i Hi].
    exists i, q. split; [done|by apply list_elem_of_In]. }
  apply NoDup_app. split_and!; [done| |].
  - intros t Ht Ht'. destruct (Hin t Ht') as (i & q & Hi & Hq). by apply (wk_fresh _ _ _ _ (Hea t Ht) i q).
  - clear Hea Hin. destruct Hd as [Hm Ht]. unfold inflight_all.
    assert (forall i q, d_queues (io_dev s) !! i = Some q -> NoDup (q_inflight q)) as Hq
      by (intros i q Hi; destruct (Hm i q Hi) as [(es & F & [] & _) _ _]; done).
    clear Hm. induction (d_queues (io_dev s)) as [|q qs IH]; [constructor|]. simpl. apply NoDup_app. split_and!.
    + by apply (Hq 0%nat).
    + intros t H1 H2. apply list_elem_of_In, in_concat in H2 as (l & Hl & Hx).
      apply in_map_iff in Hl as (q' & <- & Hq'). apply list_elem_of_In, list_elem_of_lookup in Hq' as [i Hi].
      apply list_elem_of_In in Hx. by apply (Ht 0%nat (S i) q q' t).
    + apply IH.
      * intros i j qi qj t Hi Hj Hne. apply (Ht (S i) (S j)); [done..|lia].
      * intros i q' Hi. by apply (Hq (S i)).
Qed.

(** A device in operation never faults.  From a running device at rest,
    after any interleaving of submissions on any hardware context, pending
    works in any order, completions posted by the backend, completion runs,
    stops, starts, configurations, disk removals and timeouts, every operation
    that can happen next goes through (no NULL or stale pointer, no access
    outside an array, no exhausted fuel), for up to 2^64 - 1 submissions; and the
    queues satisfy their invariants together, so no data page and no request is
    shared between two of them. *)
Theorem device_io_safe (FB : gset Z) (n : Z) (s : io) (op : io_op) :
  io_reach FB n s -> n + 1 < 2 ^ 64 -> io_can FB op s ->
  (exists s', io_step op s = Ok s' /\ dev_inv (d_queues (io_dev s')) (io_world s') FB) /\
  dev_inv (d_queues (io_dev s)) (io_world s) FB /\
  NoDup (w_wq (io_world s) ++ inflight_all (d_queues (io_dev s))).
Proof.
  intros Hr Hn Hc. assert (io_inv FB n s) as Hi by (apply io_reach_inv; [done|lia]). split_and!.
  - destruct (io_step_inv FB n s op Hi) as (s' & E & Hi' & _); [lia|destruct (is_submit op); lia|done|].
    exists s'. split; [done|apply Hi'].
  - apply Hi.
  - by apply (held_nodup FB n).
Qed.

(** No request is lost or ended twice.  In every reachable state the
    requests the driver has started (as a multiset) are exactly those it has
    ended or given back for requeueing, those it refused with a status, those
    waiting for a work and those inflight; and after a forced removal of the
    disk, or a timeout, nothing waits: everything that was started has been
    ended, given back or refused. *)
Theorem no_request_lost (FB : gset Z) (n : Z) (s : io) :
  io_reach FB n s -> n < 2 ^ 64 ->
  starts (w_blk (io_world s)) ≡ₚ
    ends (w_blk (io_world s)) ++ io_refused s ++
    w_wq (io_world s) ++ concat (map q_inflight (d_queues (io_dev s))) /\
  (forall op, op = IORemoveDisk true \/ (exists rq, op = IOTimeout rq /\ rq_timeout rq <> UINT_MAX) ->
   exists s', io_step op s = Ok s' /\
     starts (w_blk (io_world s')) ≡ₚ ends (w_blk (io_world s')) ++ io_refused s').
Proof.
  intros Hr Hn. pose proof (io_reach_inv FB n s Hr Hn) as Hi. split; [apply (ii_ledger _ _ _ Hi)|].
  intros op Hop. destruct (io_remove_disk_step FB n s true Hi) as (d' & w' & E & Hi' & _ & Hw & Hf).
  specialize (Hf eq_refl).
  exists (mk_io d' w' (io_refused s)). split.
  - destruct Hop as [-> |(rq & -> & Hrq)]; unfold io_step, ubbd_timeout; [by rewrite E|].
    apply Z.eqb_neq in Hrq. by rewrite Hrq, E.
  - pose proof (ii_ledger _ _ _ Hi') as Hl. unfold ledger in Hl. simpl in *.
    by rewrite Hw, Hf, !app_nil_r in Hl.
Qed.
End properties.

(** ** Witnesses *)

(** One queue, at rest. *)
Definition demo_io : io :=
  mk_io (set_d_hctx [Some 0] (set_d_queues [demo_queue 1] demo_device))
    (mk_world demo_kernel demo_mem ∅ [] [] (demo_foreign, []) (fun p o => p + o)) [].

Lemma demo_io_queue i q : d_queues (io_dev demo_io) !! i = Some q -> i = 0%nat /\ q = demo_queue 1.
Proof. destruct i as [|i]; simpl; intros H; [by injection H as <-|done]. Qed.

Lemma demo_io_start : io_start demo_foreign demo_io.
Proof.
  split.
  - split.
    + intros i q [-> ->]%demo_io_queue. split.
      * exists [], demo_foreign. split_and!.
        -- apply (queue_inv_frame (demo_queue 1) demo_read_world [] demo_foreign []); try done.
           ++ apply demo_queue_inv.
           ++ constructor.
           ++ apply (qi_ring _ _ _ _ _ (demo_queue_inv 1 REQ_OP_READ (zeroed_ubbd_request UBBD_OP_READ))).
           ++ intros t e Ht. by apply elem_of_nil in Ht.
        -- done.
        -- intros j q' pg Hj [-> _]%demo_io_queue. done.
      * intros t e Ht. by apply elem_of_nil in Ht.
      * by left.
    + intros i j qi qj t [-> ->]%demo_io_queue [-> ->]%demo_io_queue Hne. done.
  - intros i q [-> ->]%demo_io_queue. split_and!; try done. exists []. split; try done. constructor.
  - intros [|i] r H; simpl in H; [|done]. injection H as <-. simpl. lia.
  - simpl. lia.
  - eexists. reflexivity.
  - done.
Qed.

(** A read has arrived. *)
Definition demo_io1 : io :=
  match io_step (IOSubmit 0 7 (demo_rq REQ_OP_READ)) demo_io with Ok s => s | Fault _ => demo_io end.

Lemma demo_io1_reach : io_reach demo_foreign 1 demo_io1.
Proof.
  apply (io_reach_next demo_foreign 0 demo_io (IOSubmit 0 7 (demo_rq REQ_OP_READ)) demo_io1).
  - apply io_reach_start, demo_io_start.
  - split; [by exists 0|]. split; [|apply demo_rq_ok]. split; [by intros ?%elem_of_nil|].
    intros i q [-> ->]%demo_io_queue. by intros ?%elem_of_nil.
  - reflexivity.
Qed.

Lemma device_io_safe_witness : exists s', io_step (IOWork 0) demo_io1 = Ok s'.
Proof.
  destruct (device_io_safe demo_foreign 1 demo_io1 (IOWork 0) demo_io1_reach ltac:(lia)) as [(s' & E & _) _].
  - apply Nat.lt_0_1.
  - exists s'. exact E.
Defined.

Lemma no_request_lost_witness :
  exists s', io_step (IORemoveDisk true) demo_io1 = Ok s' /\
    starts (w_blk (io_world s')) ≡ₚ ends (w_blk (io_world s')) ++ io_refused s'.
Proof.
  apply (no_request_lost demo_foreign 1 demo_io1 demo_io1_reach ltac:(lia)). left. reflexivity.
Defined.
