(* ===== verification/Threads.v ===== *)
(** * The threads of one queue

    The handlers of [src/src/ubbd_req.c] cut at their locks.  A [task] is a
    thread inside [ubbd_queue_rq], [ubbd_queue_workfn], [ubbd_queue_complete],
    [ubbd_queue_end_inflight_reqs], [queue_stop] or [ubbd_dev_remove_queues]
    with what it holds in local variables; [task_step] runs it to the end of
    its next section (the code under [pages_mutex], [inflight_reqs_lock],
    [cmdr_lock], [compr_lock] or [state_lock], or the code between two of them
    that touches only what the thread owns).  [conc_step] interleaves any
    number of threads with the block layer and the backend.

    Where the code under a lock stores what another thread reads without that
    lock, it is cut again: the id of a request ([req_tid], stored under
    [cmdr_lock], read under [inflight_reqs_lock]), its entry ([se]) and the
    status ([STOPPED] stored under [inflight_reqs_lock], the status read and
    stored elsewhere).  The thread then keeps the lock between two of its
    sections ([holds_lock]) and no section that takes it ([takes_lock]) may run
    meanwhile.  The updates of the counter [data_pages_allocated] are taken
    with the section they are in. *)

From S2P Require Import Prelude Abi Ring Pages Request Queue Operation.

(** ** Threads *)

(** Where [complete_inflight_req] returns to: the [again] loop of a completer,
    or the private list of [ubbd_queue_end_inflight_reqs]. *)
Inductive return_to : Type :=
| RAgain
| RList (tmp : list Z) (ret : Z).

Inductive task : Type :=
(* ubbd_queue_rq, past its status test *)
| QStarting (tag : Z)
(* ubbd_queue_workfn *)
| WStart (tag : Z)
| WRunning (tag : Z)                  (* the status test passed *)
| WPage (tag : Z) (segs : list bio_vec) (k : nat) (new_page : option Z)
| WAlloc (tag : Z) (segs : list bio_vec) (k : nat)   (* allocates, no mutex *)
| WUndo (tag : Z) (k : nat) (ret : Z) (* gives [k] indices back *)
| WCopy (tag : Z)
| WPrepared (tag : Z)
| WListed (tag : Z)                   (* on [inflight_reqs], not submitted *)
| WNumbered (tag : Z)                 (* has [req_tid], [cmdr_lock] held *)
| WEntered (tag : Z)                  (* has [se], [cmdr_lock] held *)
| WNoRoom (tag : Z)
(* ubbd_queue_complete *)
| CStart
| CAgain
| CEntry (off : Z)                    (* an entry below [compr_tail] *)
| CStore (tag : Z) (off : Z)          (* found it [STOPPING] and the list empty *)
| CFetched (tag : Z) (off : Z)
(* complete_inflight_req *)
| FMark (tag : Z) (ret : Z) (r : return_to)
| FRelease (tag : Z) (k : nat) (ret : Z) (r : return_to)  (* [k] indices are back *)
| FAdvance (r : return_to)
(* ubbd_queue_end_inflight_reqs, queue_stop, ubbd_dev_remove_queues *)
| EList (tmp : list Z) (ret : Z)
| SFlush                              (* stopping: waits for the works *)
| RFlush (force : bool)               (* removing: waits for the works *)
| RSplice.

(** The locks a thread keeps between two sections, and those its next section
    takes and gives back. *)
Inductive lock : Type := CMDR_LOCK | INFLIGHT_LOCK.

#[export] Instance lock_eq_dec : EqDecision lock.
Proof. solve_decision. Defined.

Definition holds_lock (t : task) : option lock :=
  match t with
  | WNumbered _ | WEntered _ => Some CMDR_LOCK
  | CStore _ _ => Some INFLIGHT_LOCK
  | _ => None
  end.

Definition takes_lock (t : task) : option lock :=
  match t with
  | WListed _ | FAdvance _ => Some CMDR_LOCK
  | WPrepared _ | WNoRoom _ | CEntry _ | SFlush | RSplice => Some INFLIGHT_LOCK
  | _ => None
  end.

Definition return_task (r : return_to) : task :=
  match r with RAgain => CAgain | RList tmp ret => EList tmp ret end.

Section code.
Context `{A : UbbdAbi} `{K : KernelApi} `{M : KernelMem}.

(** [if (new_page) __ubbd_release_page(ubbd_q, new_page)] *)
Definition drop_new_page (new_page : option Z) (p : data_pool) (km : kmem) : data_pool * kmem :=
  match new_page with
  | Some page => __ubbd_release_page p km page
  | None => (p, km)
  end.

(** *** [ubbd_queue_rq] past the status test *)
Definition rq_section (tag : Z) (q : ubbd_queue) (w : world) : outcome (option task * ubbd_queue * world) :=
  let* e := deref (w_reqs w !! tag) WILD_ACCESS in
  let req := e_rq e in
  let w := set_w_reqs
    (<[tag := mk_rq_entry req None (zeroed_ubbd_request ubbd_op_zero)]> (w_reqs w)) w in
  let w := add_blk (BLK_START tag) w in
  match op_of_req_op (rq_op req) with
  | None => Ok (None, q, w)
  | Some op =>
      let w := set_w_reqs (<[tag := ubbd_req_init q op req]> (w_reqs w)) w in
      let w := set_w_wq (w_wq w ++ [tag]) w in
      Ok (None, q, w)
  end.

(** *** [ubbd_queue_workfn] *)

(** The status test. *)
Definition work_start (tag : Z) (q : ubbd_queue) (w : world) : outcome (option task * ubbd_queue * world) :=
  let* e := deref (w_reqs w !! tag) WILD_ACCESS in
  let ret := status_errno (q_status q) in
  if negb (ret =? 0) then Ok (None, q, end_request ret tag w)
  else Ok (Some (WRunning tag), q, w).

(** [queue_req_prepare] up to the pages: the segment count and room for the
    indices. *)
Definition prepare_section (tag : Z) (q : ubbd_queue) (w : world) : outcome (option task * ubbd_queue * world) :=
  let* e := deref (w_reqs w !! tag) WILD_ACCESS in
  let* segs := ubbd_req_segments (e_pdu e) (rq_bio (e_rq e)) in
  let u := set_pi_cnt segs (e_pdu e) in
  let '(ret, u, km) :=
    if UBBD_REQ_INLINE_PI_MAX <? ur_pi_cnt u then ubbd_req_pi_alloc u (w_km w)
    else (0, u, w_km w) in
  let w := put_pdu tag e u (set_w_km km w) in
  if negb (ret =? 0) then Ok (None, q, end_request ret tag w)
  else if negb (ur_pi_cnt u =? 0) then
    match rq_bio (e_rq e) with
    | [] => Fault NULL_DEREF
    | bio => Ok (Some (WPage tag (concat bio) 0 None), q, w)
    end
  else Ok (Some (WCopy tag), q, w).

(** One turn of [ubbd_get_data_pages] under [pages_mutex]. *)
Definition page_section (tag : Z) (segs : list bio_vec) (k : nat) (new_page : option Z)
    (q : ubbd_queue) (w : world) : outcome (option task * ubbd_queue * world) :=
  match segs with
  | [] =>
      let '(p, km) := drop_new_page new_page (q_pool q) (w_km w) in
      Ok (Some (WCopy tag), set_q_pool p q, set_w_km km w)
  | bv :: segs' =>
      match get_page_locked (q_pool q) (w_km w) new_page with
      | L_NO_SPACE =>
          let '(p, km) := drop_new_page new_page (q_pool q) (w_km w) in
          Ok (Some (WUndo tag k (- ENOMEM)), set_q_pool p q, set_w_km km w)
      | L_GOT page_index p km new_page =>
          let* e := deref (w_reqs w !! tag) WILD_ACCESS in
          let* u := ubbd_req_set_pi (e_pdu e) (Z.of_nat k) page_index in
          Ok (Some (WPage tag segs' (S k) new_page), set_q_pool p q, put_pdu tag e u (set_w_km km w))
      | L_STORE_FAILED ret page p km =>
          let '(p, km) := __ubbd_release_page p km page in
          Ok (Some (WUndo tag k ret), set_q_pool p q, set_w_km km w)
      | L_NEED_PAGE => Ok (Some (WAlloc tag segs k), q, w)
      end
  end.

(** [new_page = ubbd_alloc_page(ubbd_q)], the mutex dropped. *)
Definition alloc_section (tag : Z) (segs : list bio_vec) (k : nat) (q : ubbd_queue) (w : world)
  : outcome (option task * ubbd_queue * world) :=
  match ubbd_alloc_page (q_pool q) (w_km w) with
  | (None, p, km) => Ok (Some (WUndo tag k (- ENOMEM)), set_q_pool p q, set_w_km km w)
  | (Some new_page, p, km) =>
      Ok (Some (WPage tag segs k (Some new_page)), set_q_pool p q, set_w_km km w)
  end.

(** [while (bvec_index > 0) ubbd_release_page(...)], one page a time; then the
    array is freed and the request ended. *)
Definition undo_section (tag : Z) (k : nat) (ret : Z) (q : ubbd_queue) (w : world)
  : outcome (option task * ubbd_queue * world) :=
  let* e := deref (w_reqs w !! tag) WILD_ACCESS in
  let u := e_pdu e in
  match k with
  | O =>
      let* km := kfree_pi u (w_km w) in
      let u := match ur_pi u with PI_ARRAY _ => set_pi PI_FREED u | _ => u end in
      Ok (None, q, end_request ret tag (put_pdu tag e u (set_w_km km w)))
  | S k =>
      let* '(p, km) := ubbd_release_page (q_pool q) (w_km w) u (Z.of_nat k) in
      Ok (Some (WUndo tag k ret), set_q_pool p q, set_w_km km w)
  end.

Definition copy_section (tag : Z) (q : ubbd_queue) (w : world) : outcome (option task * ubbd_queue * world) :=
  let* e := deref (w_reqs w !! tag) WILD_ACCESS in
  if bool_decide (rq_op (e_rq e) = REQ_OP_WRITE) then
    let* m := copy_data_to_ubbdreq (data_pages_array (q_pool q)) (e_pdu e) (rq_bio (e_rq e)) (w_mem w) in
    Ok (Some (WPrepared tag), q, set_w_mem m w)
  else Ok (Some (WPrepared tag), q, w).

(** Under [inflight_reqs_lock]. *)
Definition list_section (tag : Z) (q : ubbd_queue) (w : world) : outcome (option task * ubbd_queue * world) :=
  Ok (Some (WListed tag), set_q_inflight (q_inflight q ++ [tag]) q, w).

(** Takes [cmdr_lock]: no room, or padding and the id of the request. *)
Definition number_section (tag : Z) (q : ubbd_queue) (w : world) : outcome (option task * ubbd_queue * world) :=
  let* e := deref (w_reqs w !! tag) WILD_ACCESS in
  let u := e_pdu e in
  let command_size := ubbd_get_cmd_size u in
  if negb (submit_ring_space_enough (q_ring q) command_size)
  then Ok (Some (WNoRoom tag), q, w)
  else
    let q := set_q_ring (insert_padding (q_ring q) command_size) q in
    let q := set_q_req_tid (u64 (q_req_tid q + 1)) q in
    Ok (Some (WNumbered tag), q, put_pdu tag e (set_req_tid (q_req_tid q) u) w).

(** [queue_req_se_init], which ends with [ubbd_req->se = se]. *)
Definition enter_section (tag : Z) (q : ubbd_queue) (w : world) : outcome (option task * ubbd_queue * world) :=
  let* e := deref (w_reqs w !! tag) WILD_ACCESS in
  let '(r, u) := queue_req_se_init (q_ring q) (e_rq e) (e_pdu e) in
  Ok (Some (WEntered tag), set_q_ring r q, put_pdu tag e u w).

(** The iovecs and the head; gives [cmdr_lock] back and notifies. *)
Definition publish_section (tag : Z) (q : ubbd_queue) (w : world) : outcome (option task * ubbd_queue * world) :=
  let* e := deref (w_reqs w !! tag) WILD_ACCESS in
  let* r := queue_req_data_init (q_ring q) (data_off (q_pool q)) (e_rq e) (e_pdu e) in
  let r := UPDATE_CMDR_HEAD u64 (ubbd_get_cmd_size (e_pdu e)) r in
  let q := set_q_ring r q in
  Ok (None, set_q_event (s32 (q_event q + 1)) q, w).

(** Under [inflight_reqs_lock] again, then [end_request]. *)
Definition no_room_section (tag : Z) (q : ubbd_queue) (w : world) : outcome (option task * ubbd_queue * world) :=
  Ok (None, set_q_inflight (list_del tag (q_inflight q)) q, end_request (- ENOMEM) tag w).

(** *** [ubbd_queue_complete] *)

(** The status test. *)
Definition complete_section (q : ubbd_queue) (w : world) : outcome (option task * ubbd_queue * world) :=
  if q_status q =? UBBD_QUEUE_KSTATUS_REMOVING then Ok (None, q, w) else Ok (Some CAgain, q, w).

(** Under [compr_lock]: the tail moves past the entry, which is read later. *)
Definition entry_section (q : ubbd_queue) (w : world) : outcome (option task * ubbd_queue * world) :=
  match get_complete_entry (q_ring q) with
  | None => Ok (None, q, w)
  | Some off =>
      Ok (Some (CEntry off), set_q_ring (UPDATE_COMPR_TAIL u64 sizeof_ubbd_ce (q_ring q)) q, w)
  end.

(** Takes [inflight_reqs_lock]: [fetch_inflight_req] up to the store of
    [STOPPED]. *)
Definition fetch_section (off : Z) (q : ubbd_queue) (w : world) : outcome (option task * ubbd_queue * world) :=
  let* ce := deref (ces (q_ring q) !! off) WILD_ACCESS in
  match find_inflight w (q_inflight q) (ce_priv_data ce) with
  | None => Ok (Some CAgain, q, w)
  | Some tag =>
      let q := set_q_inflight (list_del tag (q_inflight q)) q in
      if (q_status q =? UBBD_QUEUE_KSTATUS_STOPPING) && bool_decide (q_inflight q = [])
      then Ok (Some (CStore tag off), q, w)
      else Ok (Some (CFetched tag off), q, w)
  end.

(** The store, whatever the status is by now; gives the lock back. *)
Definition store_section (tag off : Z) (q : ubbd_queue) (w : world) : outcome (option task * ubbd_queue * world) :=
  Ok (Some (CFetched tag off), set_q_status UBBD_QUEUE_KSTATUS_STOPPED q, w).

(** The data of a read; [ce->result] is read for the call that follows. *)
Definition read_section (tag off : Z) (q : ubbd_queue) (w : world) : outcome (option task * ubbd_queue * world) :=
  let* e := deref (w_reqs w !! tag) WILD_ACCESS in
  let* m :=
    if bool_decide (rq_op (e_rq e) = REQ_OP_READ) then
      copy_data_from_ubbdreq (data_pages_array (q_pool q)) (e_pdu e) (rq_bio (e_rq e)) (w_mem w)
    else Ok (w_mem w) in
  let* ce := deref (ces (q_ring q) !! off) WILD_ACCESS in
  Ok (Some (FMark tag (ce_result ce) RAgain), q, set_w_mem m w).

(** *** [complete_inflight_req] *)

Definition mark_section (tag ret : Z) (r : return_to) (q : ubbd_queue) (w : world)
  : outcome (option task * ubbd_queue * world) :=
  let* e := deref (w_reqs w !! tag) WILD_ACCESS in
  let* se := deref (ur_se (e_pdu e)) NULL_DEREF in
  let* rg := se_flags_set se UBBD_SE_HDR_DONE (q_ring q) in
  Ok (Some (FRelease tag 0 ret r), set_q_ring rg q, w).

(** [ubbd_req_release], one page a time; then the array is freed and the
    request ended. *)
Definition release_section (tag : Z) (k : nat) (ret : Z) (r : return_to) (q : ubbd_queue) (w : world)
  : outcome (option task * ubbd_queue * world) :=
  let* e := deref (w_reqs w !! tag) WILD_ACCESS in
  let u := e_pdu e in
  if bool_decide (k < Z.to_nat (ur_pi_cnt u))%nat then
    let* '(p, km) := ubbd_release_page (q_pool q) (w_km w) u (Z.of_nat k) in
    Ok (Some (FRelease tag (S k) ret r), set_q_pool p q, set_w_km km w)
  else
    let* km := kfree_pi u (w_km w) in
    let w := put_pdu tag e (set_pi PI_NULL u) (set_w_km km w) in
    Ok (Some (FAdvance r), q, add_blk (BLK_END tag (errno_to_blk_status ret)) w).

(** Under [cmdr_lock]. *)
Definition advance_section (r : return_to) (q : ubbd_queue) (w : world)
  : outcome (option task * ubbd_queue * world) :=
  let* rg := advance_cmd_ring (Z.to_nat CMDR_SIZE) (q_ring q) in
  Ok (Some (return_task r), set_q_ring rg q, w).

(** *** [ubbd_queue_end_inflight_reqs] *)

(** Under [inflight_reqs_lock]: the whole list becomes a private one. *)
Definition splice_section (q : ubbd_queue) (w : world) : outcome (option task * ubbd_queue * world) :=
  Ok (Some (EList (q_inflight q) (- EIO)), set_q_inflight [] q, w).

(** One turn of its loop, up to the call. *)
Definition first_section (tmp : list Z) (ret : Z) (q : ubbd_queue) (w : world)
  : outcome (option task * ubbd_queue * world) :=
  match tmp with
  | [] => Ok (None, q, w)
  | tag :: tmp => Ok (Some (FMark tag ret (RList tmp ret)), q, w)
  end.

(** *** [queue_stop] and [ubbd_dev_remove_queues], their flush over *)

(** Under [inflight_reqs_lock]. *)
Definition stopped_section (q : ubbd_queue) (w : world) : outcome (option task * ubbd_queue * world) :=
  Ok (None, if bool_decide (q_inflight q = []) then set_q_status UBBD_QUEUE_KSTATUS_STOPPED q else q, w).

Definition removed_section (force : bool) (q : ubbd_queue) (w : world)
  : outcome (option task * ubbd_queue * world) :=
  Ok (if force then Some RSplice else None, q, w).

(** *** The next section of a thread *)

Definition task_step (t : task) (q : ubbd_queue) (w : world) : outcome (option task * ubbd_queue * world) :=
  match t with
  | QStarting tag => rq_section tag q w
  | WStart tag => work_start tag q w
  | WRunning tag => prepare_section tag q w
  | WPage tag segs k new_page => page_section tag segs k new_page q w
  | WAlloc tag segs k => alloc_section tag segs k q w
  | WUndo tag k ret => undo_section tag k ret q w
  | WCopy tag => copy_section tag q w
  | WPrepared tag => list_section tag q w
  | WListed tag => number_section tag q w
  | WNumbered tag => enter_section tag q w
  | WEntered tag => publish_section tag q w
  | WNoRoom tag => no_room_section tag q w
  | CStart => complete_section q w
  | CAgain => entry_section q w
  | CEntry off => fetch_section off q w
  | CStore tag off => store_section tag off q w
  | CFetched tag off => read_section tag off q w
  | FMark tag ret r => mark_section tag ret r q w
  | FRelease tag k ret r => release_section tag k ret r q w
  | FAdvance r => advance_section r q w
  | EList tmp ret => first_section tmp ret q w
  | SFlush => stopped_section q w
  | RFlush force => removed_section force q w
  | RSplice => splice_section q w
  end.

(** A thread on its own, for at most [n] sections. *)
Fixpoint run_task (n : nat) (t : task) (q : ubbd_queue) (w : world) : outcome (option task * ubbd_queue * world) :=
  match n with
  | O => Ok (Some t, q, w)
  | S n =>
      let* '(o, q, w) := task_step t q w in
      match o with
      | Some t => run_task n t q w
      | None => Ok (None, q, w)
      end
  end.

(** ** The machine *)

(** [c_refused]: requests started and then refused by [ubbd_queue_rq]. *)
Record conc : Type := mk_conc {
  c_q : ubbd_queue;
  c_w : world;
  c_tasks : list task;
  c_refused : list Z;
}.

Inductive conc_op : Type :=
| OpSubmit (tag : Z) (rq : request)   (* the block layer calls [ubbd_queue_rq] *)
| OpWork (k : nat)                    (* the work queue starts a pending work *)
| OpComplete                          (* the backend calls the driver *)
| OpBackend (r : ring)
| OpData (m : memory)
| OpStop                              (* [queue_stop] *)
| OpStart                             (* [queue_start] *)
| OpRemove (force : bool)             (* [ubbd_dev_remove_queues] on this queue *)
| OpTask (k : nat).

Definition set_task (k : nat) (o : option task) (ts : list task) : list task :=
  match o with Some t => <[k := t]> ts | None => delete k ts end.

(** A request [QStarting] has started but not queued was refused. *)
Definition newly_refused (t : task) (w w' : world) : list Z :=
  match t with
  | QStarting tag => if bool_decide (w_wq w' = w_wq w) then [tag] else []
  | _ => []
  end.

(** [queue_stop] up to its flush, [queue_start], and [ubbd_dev_remove_queues] on
    one queue up to its flush.  The queue of the hardware context, which the
    first two also set, is a field of the device ([Device]). *)
Definition stop_section (q : ubbd_queue) : ubbd_queue * list task :=
  if q_status q =? UBBD_QUEUE_KSTATUS_RUNNING
  then (set_q_status UBBD_QUEUE_KSTATUS_STOPPING q, [SFlush])
  else (q, []).

Definition start_section (q : ubbd_queue) : ubbd_queue :=
  if (q_status q =? UBBD_QUEUE_KSTATUS_RUNNING) || (q_status q =? UBBD_QUEUE_KSTATUS_REMOVING) then q
  else set_q_status UBBD_QUEUE_KSTATUS_RUNNING q.

Definition remove_section (force : bool) (q : ubbd_queue) : ubbd_queue * list task :=
  (set_q_status UBBD_QUEUE_KSTATUS_REMOVING q, [RFlush force]).

Definition conc_step (op : conc_op) (c : conc) : outcome conc :=
  let q := c_q c in
  let w := c_w c in
  let ts := c_tasks c in
  match op with
  | OpSubmit tag rq =>
      let w := blk_request tag rq w in
      if negb (status_errno (q_status q) =? 0) then Ok (mk_conc q w ts (c_refused c))
      else Ok (mk_conc q w (ts ++ [QStarting tag]) (c_refused c))
  | OpWork k =>
      let* tag := deref (w_wq w !! k) OUT_OF_BOUNDS in
      Ok (mk_conc q (set_w_wq (delete k (w_wq w)) w) (ts ++ [WStart tag]) (c_refused c))
  | OpComplete =>
      if q_status q =? UBBD_QUEUE_KSTATUS_REMOVING then Ok c
      else Ok (mk_conc q w (ts ++ [CStart]) (c_refused c))
  | OpBackend r => Ok (mk_conc (set_q_ring r q) w ts (c_refused c))
  | OpData m => Ok (mk_conc q (set_w_mem m w) ts (c_refused c))
  | OpStop =>
      let '(q, new) := stop_section q in Ok (mk_conc q w (ts ++ new) (c_refused c))
  | OpStart => Ok (mk_conc (start_section q) w ts (c_refused c))
  | OpRemove force =>
      let '(q, new) := remove_section force q in Ok (mk_conc q w (ts ++ new) (c_refused c))
  | OpTask k =>
      let* t := deref (ts !! k) OUT_OF_BOUNDS in
      let* '(o, q', w') := task_step t q w in
      Ok (mk_conc q' w' (set_task k o ts) (c_refused c ++ newly_refused t w w'))
  end.

Fixpoint conc_run (ops : list conc_op) (c : conc) : outcome conc :=
  match ops with
  | [] => Ok c
  | op :: ops => let* c := conc_step op c in conc_run ops c
  end.
End code.
