(* ===== verification/ThreadsInv.v ===== *)
(** * What the threads of a queue own

    A state of [Threads] is read as a list of [holding]s: each request that is
    somewhere in the driver, with how far it is.  [holds q w es F H] says that
    the holdings [H] share nothing: no tag, no page index, no page on its way
    into the pool, no ring entry.  [holds_step] is the frame rule every section
    is proved with. *)

From S2P Require Import Prelude Abi Ring Pages Request Queue Operation Threads.

Section holdings.
Context `{A : UbbdAbi} `{K : KernelApi} `{M : KernelMem}.

(** [todo]: the segments still without a page, when more are being taken.
    [HReady] is prepared, [HList] on [inflight_reqs] and being submitted, [HSub]
    submitted. *)
Inductive holding : Type :=
| HNew (tag : Z)
| HWork (tag : Z)
| HPages (tag : Z) (k : nat) (todo : option nat) (new_page : option Z)
| HReady (tag : Z)
| HList (tag : Z)
| HSub (tag : Z)
| HRel (tag : Z) (k : nat).

Definition htag (h : holding) : Z :=
  match h with
  | HNew tag | HWork tag | HPages tag _ _ _ | HReady tag | HList tag | HSub tag | HRel tag _ => tag
  end.

(** The page allocated for the request and not yet in the pool. *)
Definition hnew (h : holding) : list Z :=
  match h with HPages _ _ _ (Some page) => [page] | _ => [] end.

Definition pdu_of (w : world) (tag : Z) : option ubbd_request := e_pdu <$> w_reqs w !! tag.

Definition pis_of (w : world) (tag : Z) : list Z := default [] (req_pis <$> pdu_of w tag).
Definition slots_of (w : world) (tag : Z) : list Z := default [] (pi_slots <$> pdu_of w tag).

(** The page indices the request owns. *)
Definition hbits (w : world) (h : holding) : list Z :=
  match h with
  | HNew _ | HWork _ => []
  | HPages tag k _ _ => take k (slots_of w tag)
  | HReady tag | HList tag | HSub tag => pis_of w tag
  | HRel tag k => drop k (pis_of w tag)
  end.

Definition hse (w : world) (h : holding) : option Z :=
  match h with HSub tag => pdu_of w tag ≫= ur_se | _ => None end.

(** The id of a request that has one: [memset] left 0. *)
Definition named_tid (u : ubbd_request) : option Z :=
  if ur_req_tid u =? 0 then None else Some (ur_req_tid u).

Definition htid (w : world) (h : holding) : option Z :=
  match h with HList tag | HSub tag => pdu_of w tag ≫= named_tid | _ => None end.

(** A request with room for an index per segment. *)
Record req_ready (F : gset Z) (e : rq_entry) : Prop := {
  rr_rq : rq_ok (e_rq e) F;
  rr_op : op_of_req_op (rq_op (e_rq e)) = Some (ur_op (e_pdu e));
  rr_cnt : ur_pi_cnt (e_pdu e) = Z.of_nat (n_segs (e_rq e));
  rr_wf : req_wf (e_pdu e) (n_segs (e_rq e));
}.

(** Its unfinished entry, which names it, is in the ring. *)
Record req_submitted (q : ubbd_queue) (es : list entry) (e : rq_entry) : Prop := {
  rs_tid : 1 <= ur_req_tid (e_pdu e) <= q_req_tid q;
  rs_se : exists se hd b,
    ur_se (e_pdu e) = Some se /\ (se, hd) ∈ es /\ entry_done (se, hd) = false /\
    bodies (q_ring q) !! se = Some b /\ se_priv_data b = ur_req_tid (e_pdu e);
}.

(** Nothing in the ring names it yet: [memset] left the id 0 and [se] NULL. *)
Definition unsubmitted (u : ubbd_request) : Prop := ur_req_tid u = 0 /\ ur_se u = None.

Definition todo_ok (k n : nat) (todo : option nat) : Prop :=
  match todo with Some l => (k + l = n)%nat | None => (k <= n)%nat end.

Definition entry_ok (q : ubbd_queue) (es : list entry) (F : gset Z) (h : holding) (e : rq_entry) : Prop :=
  match h with
  | HNew _ => rq_ok (e_rq e) F
  | HWork _ => rq_ok (e_rq e) F /\
      exists op, op_of_req_op (rq_op (e_rq e)) = Some op /\ e_pdu e = zeroed_ubbd_request op
  | HPages _ k todo _ =>
      req_ready F e /\ todo_ok k (n_segs (e_rq e)) todo /\ unsubmitted (e_pdu e)
  | HReady _ => req_ready F e /\ unsubmitted (e_pdu e)
  | HList _ => req_ready F e /\ 0 <= ur_req_tid (e_pdu e) <= q_req_tid q
  | HSub _ => req_ready F e /\ req_submitted q es e
  | HRel _ k => req_ready F e /\ (k <= n_segs (e_rq e))%nat
  end.

Definition holding_ok (q : ubbd_queue) (w : world) (es : list entry) (F : gset Z) (h : holding) : Prop :=
  exists e, w_reqs w !! htag h = Some e /\ entry_ok q es F h e.

Record holds (q : ubbd_queue) (w : world) (es : list entry) (F : gset Z) (H : list holding) : Prop := {
  hd_pool : pool_inv (q_pool q) (w_km w) (list_to_set (H ≫= hnew)) F;
  hd_inode : is_Some (q_inode (q_pool q));
  hd_ring : ring_wf (q_ring q) es;
  hd_tid : 0 <= q_req_tid q < 2 ^ 64;
  hd_tags : NoDup (htag <$> H);
  hd_new : NoDup (H ≫= hnew);
  hd_bits : NoDup (H ≫= hbits w);
  hd_used : Forall (fun i => i ∈ data_bitmap (q_pool q)) (H ≫= hbits w);
  hd_ok : Forall (holding_ok q w es F) H;
  hd_se : NoDup (omap (hse w) H);
  hd_tids : NoDup (omap (htid w) H);
}.

(** [Some] entries of submitted requests survive with their bodies. *)
Definition kept (q q' : ubbd_queue) (es es' : list entry) (se : Z) : Prop :=
  forall hd, (se, hd) ∈ es -> entry_done (se, hd) = false ->
    (se, hd) ∈ es' /\ bodies (q_ring q') !! se = bodies (q_ring q) !! se.
End holdings.

Section frame.
Context `{L : UbbdAbiLaws} `{KL : KernelApiLaws} `{ML : KernelMemLaws}.
Implicit Types (q : ubbd_queue) (w : world) (es : list entry) (F : gset Z) (H : list holding).

#[export] Instance holds_perm q w es F : Proper (Permutation ==> iff) (holds q w es F).
Proof.
  enough (forall H1 H2, H1 ≡ₚ H2 -> holds q w es F H1 -> holds q w es F H2) as Hi.
  { intros H1 H2 E. split; by apply Hi. }
  intros H1 H2 E [Hp Hi Hr Ht Hta Hn Hb Hu Ho Hs Htd].
  assert ((list_to_set (H2 ≫= hnew) : gset Z) = list_to_set (H1 ≫= hnew)) as En
    by (apply list_to_set_perm_L; by rewrite E).
  split; rewrite <- ?E, ?En; done.
Qed.

(** Tags, entries and bits of a holding read only the entry of its request. *)
Lemma holding_frame w w' h :
  w_reqs w' !! htag h = w_reqs w !! htag h ->
  hbits w' h = hbits w h /\ hse w' h = hse w h /\ htid w' h = htid w h.
Proof.
  intros E. destruct h; simpl in *; unfold pis_of, slots_of, pdu_of; by rewrite ?E.
Qed.

Lemma holding_ok_frame q w es F h q' w' es' :
  holding_ok q w es F h -> w_reqs w' !! htag h = w_reqs w !! htag h ->
  q_req_tid q <= q_req_tid q' -> (forall se, hse w h = Some se -> kept q q' es es' se) ->
  holding_ok q' w' es' F h.
Proof.
  intros (e & He & Hok) E Ht Hk. exists e. rewrite E. split; [done|].
  destruct h; simpl in *; try done; [split; [apply Hok|destruct Hok; lia]|].
  destruct Hok as [Hr [H1 (se & hd & b & E1 & E2 & E3 & E4 & E5)]].
  split; [done|]. split; [lia|].
  destruct (Hk se ltac:(unfold pdu_of; rewrite He; simpl; done) hd E2 E3) as [? Hb].
  exists se, hd, b. rewrite Hb. by split_and!.
Qed.

(** Ids given out are at most [ubbd_q->req_tid]. *)
Lemma holding_tid q w es F h e t :
  w_reqs w !! htag h = Some e -> entry_ok q es F h e -> htid w h = Some t -> t <= q_req_tid q.
Proof.
  intros He Hok. destruct h; try done; simpl in *; unfold pdu_of, named_tid; rewrite He; simpl;
    (destruct (_ =? 0); [done|]); intros [= <-]; [|destruct Hok as [_ [? _]]; lia].
  destruct Hok; lia.
Qed.

(** A list whose elements are elsewhere, joined to one that stays. *)
Lemma NoDup_app_swap {T} (l1 l1' l2 : list T) (P : T -> Prop) :
  NoDup (l1 ++ l2) -> NoDup l1' -> (forall x, x ∈ l2 -> P x) ->
  (forall x, x ∈ l1' -> x ∈ l1 \/ ~ P x) -> NoDup (l1' ++ l2).
Proof.
  rewrite !NoDup_app. intros (_ & Hd & H2) H1 HP Hs. split_and!; [done| |done].
  intros x Hx Hx2. destruct (Hs x Hx) as [Hin|Hn]; [by apply (Hd x)|by apply Hn, HP].
Qed.

Lemma bind_ext {X Y} (f g : X -> list Y) (l : list X) : (forall x, x ∈ l -> f x = g x) -> l ≫= f = l ≫= g.
Proof.
  induction l as [|x l IH]; intros E; [done|]. rewrite !bind_cons, E by (by left).
  f_equal. apply IH. intros y Hy. apply E. by right.
Qed.

Lemma omap_ext' {X Y} (f g : X -> option Y) (l : list X) : (forall x, x ∈ l -> f x = g x) -> omap f l = omap g l.
Proof.
  induction l as [|x l IH]; intros E; [done|]. cbn [omap list_omap]. rewrite E by (by left).
  rewrite IH; [done|]. intros y Hy. apply E. by right.
Qed.

(** The frame rule: the holdings [hs] become [hs']; the others keep their
    requests, indices and entries. *)
Lemma holds_step q w es F hs H q' w' es' hs' :
  holds q w es F (hs ++ H) ->
  pool_inv (q_pool q') (w_km w') (list_to_set ((hs' ++ H) ≫= hnew)) F ->
  is_Some (q_inode (q_pool q')) ->
  ring_wf (q_ring q') es' -> q_req_tid q <= q_req_tid q' < 2 ^ 64 ->
  NoDup (htag <$> (hs' ++ H)) -> NoDup ((hs' ++ H) ≫= hnew) ->
  (forall t, t ∉ (htag <$> hs) -> w_reqs w' !! t = w_reqs w !! t) ->
  (forall i, i ∈ data_bitmap (q_pool q) -> i ∉ (hs ≫= hbits w) -> i ∈ data_bitmap (q_pool q')) ->
  NoDup (hs' ≫= hbits w') ->
  (forall i, i ∈ hs' ≫= hbits w' -> i ∈ data_bitmap (q_pool q') /\
     (i ∈ hs ≫= hbits w \/ i ∉ data_bitmap (q_pool q))) ->
  (forall se, se ∉ omap (hse w) hs -> kept q q' es es' se) ->
  Forall (holding_ok q' w' es' F) hs' ->
  NoDup (omap (hse w') hs') -> NoDup (omap (htid w') hs') ->
  (forall se, se ∈ omap (hse w') hs' -> se ∈ omap (hse w) hs \/ se ∉ es.*1) ->
  (forall t, t ∈ omap (htid w') hs' -> t ∈ omap (htid w) hs \/ q_req_tid q < t) ->
  holds q' w' es' F (hs' ++ H).
Proof.
  intros [Hp Hi Hr Ht Hta Hn Hb Hu Ho Hs Htd] Hp' Hi' Hr' Ht' Hta' Hn' Hreq Hbit Hnb Hb' Hk Ho' Hns Hnt Hs' Htd'.
  assert (forall h, h ∈ H -> w_reqs w' !! htag h = w_reqs w !! htag h) as HE.
  { intros h Hh. apply Hreq. rewrite fmap_app in Hta. apply NoDup_app in Hta as (_ & Hd & _).
    intros Hin. apply (Hd _ Hin). by apply list_elem_of_fmap_2. }
  assert (forall h, h ∈ H -> hbits w' h = hbits w h /\ hse w' h = hse w h /\ htid w' h = htid w h) as HF
    by (intros h Hh; apply holding_frame; auto).
  rewrite bind_app in Hb, Hu. rewrite omap_app in Hs, Htd. apply Forall_app in Hu as [Hu1 Hu2].
  apply Forall_app in Ho as [Ho1 Ho2].
  assert (H ≫= hbits w' = H ≫= hbits w) as Eb by (apply bind_ext; intros h Hh; apply HF, Hh).
  rewrite Forall_forall in Ho2.
  split; try done; [lia|..].
  - rewrite bind_app, Eb. apply (NoDup_app_swap _ _ _ (fun i => i ∈ data_bitmap (q_pool q)) Hb Hnb).
    + by apply Forall_forall.
    + intros i Hin. apply Hb', Hin.
  - rewrite bind_app, Eb. apply Forall_app. split; [apply Forall_forall; intros i Hin; apply Hb', Hin|].
    rewrite Forall_forall in Hu2 |- *. intros i Hin. apply Hbit; [auto|].
    apply NoDup_app in Hb as (_ & Hd & _). intros Hin1. by apply (Hd i).
  - apply Forall_app. split; [done|]. apply Forall_forall. intros h Hh.
    apply (holding_ok_frame q w es F h); [auto|auto|lia|]. intros se Hse. apply Hk.
    apply NoDup_app in Hs as (_ & Hd & _). intros Hin. apply (Hd se Hin).
    apply list_elem_of_omap. eauto.
  - rewrite omap_app, (omap_ext' _ (hse w) H) by (intros h Hh; apply HF, Hh).
    apply (NoDup_app_swap _ _ _ (fun se => se ∈ es.*1) Hs Hns); [|done].
    intros se. rewrite list_elem_of_omap. intros (h & Hh & Ese).
    destruct (Ho2 h Hh) as (e & He & Hok). destruct h; try done. simpl in *. unfold pdu_of in Ese.
    rewrite He in Ese. simpl in Ese. destruct Hok as [_ [_ (se' & hd & b & E1 & E2 & _)]]. simplify_eq.
    apply list_elem_of_fmap. by exists (se, hd).
  - rewrite omap_app, (omap_ext' _ (htid w) H) by (intros h Hh; apply HF, Hh).
    apply (NoDup_app_swap _ _ _ (fun t => t <= q_req_tid q) Htd Hnt).
    + intros t. rewrite list_elem_of_omap. intros (h & Hh & Et).
      destruct (Ho2 h Hh) as (e & He & Hok). eapply holding_tid; [done|done|done].
    + intros t Hin. destruct (Htd' t Hin) as [|]; [by left|right; lia].
Qed.
End frame.

(** ** Changes of one holding *)

Section changes.
Context `{L : UbbdAbiLaws} `{KL : KernelApiLaws} `{ML : KernelMemLaws}.
Implicit Types (q : ubbd_queue) (w : world) (es : list entry) (F : gset Z) (H : list holding) (h : holding).

(** Requests on the list or submitted are the ones with an entry or an id. *)
Definition is_sub h : bool := match h with HList _ | HSub _ => true | _ => false end.

Lemma not_sub w h : is_sub h = false -> hse w h = None /\ htid w h = None.
Proof. by destruct h. Qed.

Lemma omap_not_sub w h : is_sub h = false -> omap (hse w) [h] = [] /\ omap (htid w) [h] = [].
Proof. intros Hs. destruct (not_sub w h Hs) as [E1 E2]. cbn. by rewrite E1, E2. Qed.

Lemma kept_refl q q' es se : bodies (q_ring q') = bodies (q_ring q) -> kept q q' es es se.
Proof. intros E hd ? _. by rewrite E. Qed.

Lemma holds_lookup q w es F h H : holds q w es F (h :: H) -> holding_ok q w es F h.
Proof. intros Hh. pose proof (hd_ok _ _ _ _ _ Hh) as Ho. by apply Forall_cons in Ho as [? _]. Qed.

Lemma holds_bit q w es F h H i :
  holds q w es F (h :: H) -> i ∈ hbits w h -> i ∈ data_bitmap (q_pool q).
Proof.
  intros Hh Hi. pose proof (hd_used _ _ _ _ _ Hh) as Hu. rewrite bind_cons, Forall_app in Hu.
  destruct Hu as [Hu _]. rewrite Forall_forall in Hu. auto.
Qed.

Lemma holds_bits_nodup q w es F h H : holds q w es F (h :: H) -> NoDup (hbits w h).
Proof.
  intros Hh. pose proof (hd_bits _ _ _ _ _ Hh) as Hb. rewrite bind_cons in Hb.
  by apply NoDup_app in Hb as (? & _).
Qed.

Lemma omap_one {X Y} (f : X -> option Y) (x : X) y : y ∈ omap f [x] <-> f x = Some y.
Proof.
  rewrite list_elem_of_omap. split; [|intros E; exists x; split; [by left|done]].
  intros (x' & Hin & E). by apply list_elem_of_singleton in Hin as ->.
Qed.

Lemma NoDup_omap_one {X Y} (f : X -> option Y) (x : X) : NoDup (omap f [x]).
Proof. cbn. destruct (f x); [apply NoDup_singleton|constructor]. Qed.

Lemma bind_one {X Y} (f : X -> list Y) (x : X) : [x] ≫= f = f x.
Proof. rewrite bind_cons. apply app_nil_r. Qed.

(** The frame rule for one holding. *)
Lemma holds_step1 q w es F h H q' w' es' h' :
  holds q w es F (h :: H) -> htag h' = htag h ->
  pool_inv (q_pool q') (w_km w') (list_to_set (hnew h' ++ H ≫= hnew)) F ->
  is_Some (q_inode (q_pool q')) ->
  ring_wf (q_ring q') es' -> q_req_tid q <= q_req_tid q' < 2 ^ 64 ->
  NoDup (hnew h' ++ H ≫= hnew) ->
  (forall t, t <> htag h -> w_reqs w' !! t = w_reqs w !! t) ->
  (forall i, i ∈ data_bitmap (q_pool q) -> i ∉ hbits w h -> i ∈ data_bitmap (q_pool q')) ->
  NoDup (hbits w' h') ->
  (forall i, i ∈ hbits w' h' -> i ∈ data_bitmap (q_pool q') /\
     (i ∈ hbits w h \/ i ∉ data_bitmap (q_pool q))) ->
  (forall se, hse w h <> Some se -> kept q q' es es' se) ->
  holding_ok q' w' es' F h' ->
  (forall se, hse w' h' = Some se -> hse w h = Some se \/ se ∉ es.*1) ->
  (forall t, htid w' h' = Some t -> htid w h = Some t \/ q_req_tid q < t) ->
  holds q' w' es' F (h' :: H).
Proof.
  intros Hh Ht Hp Hi Hr Htd Hn Hw Hb Hnd Hb' Hk Ho Hs Hs'.
  apply (holds_step q w es F [h] H q' w' es' [h']); cbn [app]; rewrite ?bind_one, ?bind_cons; try done.
  - cbn [fmap list_fmap]. rewrite Ht. apply Hh.
  - intros t Hni. apply Hw. intros ->. apply Hni. by left.
  - intros se Hni. apply Hk. intros E. apply Hni. by apply omap_one.
  - by constructor.
  - apply NoDup_omap_one.
  - apply NoDup_omap_one.
  - intros se. rewrite !omap_one. auto.
  - intros t. rewrite !omap_one. auto.
Qed.

(** The holdings do not see the status, the lists, the memory or the
    completion ring. *)
Lemma holds_same q w es F H q' w' :
  holds q w es F H -> q_pool q' = q_pool q -> q_req_tid q' = q_req_tid q ->
  ring_wf (q_ring q') es -> bodies (q_ring q') = bodies (q_ring q) ->
  w_reqs w' = w_reqs w -> w_km w' = w_km w -> holds q' w' es F H.
Proof.
  intros Hh Ep Et Hr Eb Ew Ek.
  apply (holds_step q w es F [] H q' w' es []); cbn [app]; rewrite ?Ep, ?Ek, ?Et; try done; try apply Hh.
  - pose proof (hd_tid _ _ _ _ _ Hh). lia.
  - intros t _. by rewrite Ew.
  - constructor.
  - intros i Hi. by apply elem_of_nil in Hi.
  - intros se _. by apply kept_refl.
  - constructor.
  - constructor.
  - intros se Hi. by apply elem_of_nil in Hi.
  - intros se Hi. by apply elem_of_nil in Hi.
Qed.

(** The request of one holding moves on; the pool and the ring stay. *)
Lemma holds_req q w es F h H w' h' e :
  holds q w es F (h :: H) -> (forall t, t <> htag h -> w_reqs w' !! t = w_reqs w !! t) ->
  live (w_km w') = live (w_km w) -> htag h' = htag h -> hnew h' = hnew h -> is_sub h' = false ->
  w_reqs w' !! htag h = Some e -> entry_ok q es F h' e -> hbits w' h' = hbits w h ->
  holds q w' es F (h' :: H).
Proof.
  intros Hh Hw Hk Ht Hn Hs He Hok Hb. destruct (not_sub w' h' Hs) as [Es Et].
  apply (holds_step1 q w es F h H); rewrite ?Hn, ?Hb, ?Es, ?Et; try done; try apply Hh.
  - pose proof (hd_pool _ _ _ _ _ Hh) as Hp. rewrite bind_cons in Hp. by eapply pool_inv_km.
  - pose proof (hd_tid _ _ _ _ _ Hh). lia.
  - by eapply holds_bits_nodup.
  - intros i Hi. split; [by eapply holds_bit|by left].
  - exists e. by rewrite Ht.
Qed.

(** A holding that owns nothing new leaves; whatever indices it had stay set. *)
Lemma holds_drop q w es F h H w' :
  holds q w es F (h :: H) -> (forall t, t <> htag h -> w_reqs w' !! t = w_reqs w !! t) ->
  live (w_km w') = live (w_km w) -> hnew h = [] -> holds q w' es F H.
Proof.
  intros Hh Hw Hk Hn.
  pose proof (hd_pool _ _ _ _ _ Hh) as Hp. pose proof (hd_new _ _ _ _ _ Hh) as Hnd.
  rewrite bind_cons, Hn in Hp, Hnd.
  apply (holds_step q w es F [h] H q w' es []); cbn [app]; try apply Hh; try done.
  - by eapply pool_inv_km.
  - pose proof (hd_tid _ _ _ _ _ Hh). lia.
  - pose proof (hd_tags _ _ _ _ _ Hh) as Hta. by apply NoDup_cons in Hta as [_ ?].
  - intros t Hni. apply Hw. intros ->. apply Hni. by left.
  - constructor.
  - intros i Hi. by apply elem_of_nil in Hi.
  - constructor.
  - constructor.
  - intros se Hi. by apply elem_of_nil in Hi.
  - intros se Hi. by apply elem_of_nil in Hi.
Qed.

(** A request that nothing in the driver had. *)
Lemma holds_new q w es F H w' tag e :
  holds q w es F H -> tag ∉ (htag <$> H) -> (forall t, t <> tag -> w_reqs w' !! t = w_reqs w !! t) ->
  w_km w' = w_km w -> w_reqs w' !! tag = Some e -> rq_ok (e_rq e) F ->
  holds q w' es F (HNew tag :: H).
Proof.
  intros Hh Hni Hw Hk He Hok. pose proof Hh as [Hp Hi Hr Ht Hta Hn Hb Hu Ho Hs Htd].
  assert (forall h, h ∈ H -> w_reqs w' !! htag h = w_reqs w !! htag h) as HE.
  { intros h Hin. apply Hw. intros E. apply Hni. rewrite <- E. by apply list_elem_of_fmap_2. }
  assert (H ≫= hbits w' = H ≫= hbits w) as Eb by (apply bind_ext; intros h Hin; apply holding_frame; auto).
  split; rewrite ?Hk; try done.
  - cbn [fmap list_fmap htag]. by constructor.
  - rewrite bind_cons. simpl. by rewrite Eb.
  - rewrite bind_cons. simpl. by rewrite Eb.
  - constructor; [exists e; by split|]. rewrite Forall_forall in Ho |- *. intros h Hin.
    apply (holding_ok_frame q w es F h); [auto|auto|lia|]. intros se _. by apply kept_refl.
  - cbn. rewrite (omap_ext' _ (hse w) H) by (intros h Hin; apply holding_frame; auto). done.
  - cbn. rewrite (omap_ext' _ (htid w) H) by (intros h Hin; apply holding_frame; auto). done.
Qed.
End changes.

(** ** The invariant of the machine *)

Section machine.
Context `{A : UbbdAbi} `{K : KernelApi} `{M : KernelMem}.

Definition return_holdings (r : return_to) : list holding :=
  match r with RAgain => [] | RList tmp _ => map HSub tmp end.

(** Requests of a thread; those on [inflight_reqs] are the list's. *)
Definition task_holdings (t : task) : list holding :=
  match t with
  | QStarting tag => [HNew tag]
  | WStart tag | WRunning tag => [HWork tag]
  | WPage tag segs k new_page => [HPages tag k (Some (length segs)) new_page]
  | WAlloc tag segs k => [HPages tag k (Some (length segs)) None]
  | WUndo tag k _ => [HPages tag k None None]
  | WCopy tag | WPrepared tag => [HReady tag]
  | CStore tag _ | CFetched tag _ => [HSub tag]
  | FMark tag _ r => HSub tag :: return_holdings r
  | FRelease tag k _ r => HRel tag k :: return_holdings r
  | FAdvance r => return_holdings r
  | EList tmp _ => map HSub tmp
  | WListed _ | WNumbered _ | WEntered _ | WNoRoom _ | CStart | CAgain | CEntry _ | SFlush | RFlush _ | RSplice => []
  end.

Definition next_holdings (o : option task) : list holding :=
  match o with Some t => task_holdings t | None => [] end.

(** Threads whose request is on [inflight_reqs] and not submitted. *)
Definition task_listed (t : task) : list Z :=
  match t with WListed tag | WNumbered tag | WEntered tag | WNoRoom tag => [tag] | _ => [] end.
Definition listed (ts : list task) : list Z := ts ≫= task_listed.

Definition inflight_holdings (ls : list Z) (l : list Z) : list holding :=
  map (fun t => if decide (t ∈ ls) then HList t else HSub t) l.

Definition holdings (c : conc) : list holding :=
  map HWork (w_wq (c_w c)) ++ inflight_holdings (listed (c_tasks c)) (q_inflight (c_q c)) ++
    (c_tasks c ≫= task_holdings).

(** Works past their status test: [flush_workqueue] waits for them. *)
Definition working (t : task) : bool :=
  match t with
  | WRunning _ | WPage _ _ _ _ | WAlloc _ _ _ | WUndo _ _ _ | WCopy _ | WPrepared _ | WListed _
  | WNumbered _ | WEntered _ | WNoRoom _ => true
  | _ => false
  end.
Definition is_work (t : task) : bool := match t with WStart _ => true | t => working t end.

Definition stopping (t : task) : bool := match t with SFlush => true | _ => false end.
Definition removing (t : task) : bool := match t with RFlush _ | RSplice => true | _ => false end.
Definition splicing (t : task) : bool := match t with RSplice => true | _ => false end.

(** A completer may still store [STOPPED] over [REMOVING]. *)
Definition removed_status (q : ubbd_queue) : Prop :=
  q_status q = UBBD_QUEUE_KSTATUS_REMOVING \/ q_status q = UBBD_QUEUE_KSTATUS_STOPPED.

(** What a thread needs besides the requests it holds. *)
Definition task_ok (q : ubbd_queue) (t : task) : Prop :=
  match t with
  | CEntry off | CStore _ off | CFetched _ off => is_Some (ces (q_ring q) !! off)
  | RFlush _ | RSplice => removed_status q
  | _ => True
  end.

(** There are [n] free bytes at the head, before the end of the ring. *)
Definition room_for (r : ring) (n : Z) : Prop :=
  exists es, ring_wf r es /\ cmd_head (sb r) + n <= CMDR_SIZE /\
    total es + n <= CMDR_SIZE - CMDR_RESERVED.

(** The thread that holds [cmdr_lock]: the id of its request is the last one
    given out, and the entry is at the head, first without and then with its
    header and its body. *)
Record numbered (q : ubbd_queue) (u : ubbd_request) : Prop := {
  nb_tid : ur_req_tid u = q_req_tid q;
  nb_pos : 1 <= q_req_tid q;
  nb_room : room_for (q_ring q) (ubbd_get_cmd_size u);
}.

Record entered (q : ubbd_queue) (u : ubbd_request) : Prop := {
  en_numbered : numbered q u;
  en_se : ur_se u = Some (cmd_head (sb (q_ring q)));
  en_hdr : exists hd, hdrs (q_ring q) !! cmd_head (sb (q_ring q)) = Some hd /\
    ubbd_se_hdr_get_len hd = ubbd_get_cmd_size u /\ entry_done (cmd_head (sb (q_ring q)), hd) = false;
  en_body : exists b, bodies (q_ring q) !! cmd_head (sb (q_ring q)) = Some b /\
    se_priv_data b = ur_req_tid u /\ length (se_iov b) = Z.to_nat (ur_pi_cnt u);
}.

(** How far the submission of a request on the list is. *)
Definition entering_ok (q : ubbd_queue) (w : world) (t : task) : Prop :=
  match t with
  | WListed tag | WNoRoom tag => exists e, w_reqs w !! tag = Some e /\ unsubmitted (e_pdu e)
  | WNumbered tag => exists e, w_reqs w !! tag = Some e /\ numbered q (e_pdu e) /\ ur_se (e_pdu e) = None
  | WEntered tag => exists e, w_reqs w !! tag = Some e /\ entered q (e_pdu e)
  | _ => True
  end.

Definition holds_cmdr (t : task) : bool := bool_decide (holds_lock t = Some CMDR_LOCK).

(** Requests started and not ended. *)
Definition started_tag (h : holding) : list Z := match h with HNew _ => [] | h => [htag h] end.
Definition live_tags (c : conc) : list Z := holdings c ≫= started_tag.

(** The kernel has at most this many threads. *)
Definition PID_MAX_LIMIT : Z := 2 ^ 22.

Record conc_inv (F : gset Z) (c : conc) : Prop := {
  cv_holds : exists es, holds (c_q c) (c_w c) es F (holdings c);
  cv_listed : NoDup (listed (c_tasks c)) /\ listed (c_tasks c) ⊆ q_inflight (c_q c);
  cv_compr : exists cs, compr_wf (q_ring (c_q c)) cs;
  cv_enter : Forall (entering_ok (c_q c) (c_w c)) (c_tasks c);
  cv_cmdr : (length (filter (fun t => holds_cmdr t = true) (c_tasks c)) <= 1)%nat;
  cv_tasks : Forall (task_ok (c_q c)) (c_tasks c);
  cv_splice : Exists (fun t => splicing t = true) (c_tasks c) ->
    Forall (fun t => working t = false) (c_tasks c);
  cv_few : Z.of_nat (length (c_tasks c)) <= PID_MAX_LIMIT;
  cv_ledger : starts (w_blk (c_w c)) ≡ₚ ends (w_blk (c_w c)) ++ c_refused c ++ live_tags c;
}.

(** ** What may happen *)

(** The work queue is flushed once no work is pending or running. *)
Definition flushed (c : conc) : Prop :=
  w_wq (c_w c) = [] /\ Forall (fun t => is_work t = false) (c_tasks c).

(** [state_lock]: held by [queue_stop] while it waits. *)
Definition state_lock_free (c : conc) : Prop := Forall (fun t => stopping t = false) (c_tasks c).

(** The backend appends completion entries, with any ids, and may write over
    slots the driver has consumed, even those it has yet to read. *)
Record backend_writes (r r' : ring) : Prop := {
  bw_step : backend_step r r';
  bw_keeps off : is_Some (ces r !! off) -> is_Some (ces r' !! off);
}.

(** A section that takes a lock waits for the thread that holds it. *)
Definition lock_free (l : lock) (ts : list task) : Prop := Forall (fun t => holds_lock t <> Some l) ts.

(** The entry the completer stands on does not name a request that a work is
    still submitting: its id is not the 0 of a request that has none yet, nor
    one given out under [cmdr_lock] and not published. *)
Definition names_submitted (q : ubbd_queue) (w : world) (ts : list task) (off : Z) : Prop :=
  forall ce tag, ces (q_ring q) !! off = Some ce ->
    find_inflight w (q_inflight q) (ce_priv_data ce) = Some tag -> tag ∉ listed ts.

(** The manager's commands run one at a time ([genl_mutex]): none starts a
    queue while a removal runs. *)
Definition conc_can (F : gset Z) (op : conc_op) (c : conc) : Prop :=
  match op with OpTask _ => True | _ => Z.of_nat (length (c_tasks c)) < PID_MAX_LIMIT end /\
  match op with
  | OpSubmit tag rq => (tag ∉ (htag <$> holdings c)) /\ rq_ok rq F
  | OpWork k => (k < length (w_wq (c_w c)))%nat
  | OpBackend r => backend_writes (q_ring (c_q c)) r
  | OpComplete | OpData _ => True
  | OpStop | OpRemove _ => state_lock_free c
  | OpStart => state_lock_free c /\ Forall (fun t => removing t = false) (c_tasks c)
  | OpTask k =>
      exists t, c_tasks c !! k = Some t /\ q_req_tid (c_q c) + 1 < 2 ^ 64 /\
        (stopping t || removing t && negb (splicing t) = true -> flushed c) /\
        (forall l, takes_lock t = Some l -> lock_free l (c_tasks c)) /\
        (forall off, t = CEntry off -> names_submitted (c_q c) (c_w c) (c_tasks c) off)
  end.

(** A queue at rest: nothing inflight, nothing pending, no completion. *)
Record conc_start (F : gset Z) (c : conc) : Prop := {
  cs_queue : exists es, queue_inv (c_q c) (c_w c) es F [];
  cs_rest : q_inflight (c_q c) = [] /\ w_wq (c_w c) = [] /\ w_blk (c_w c) = [] /\ c_tasks c = [] /\ c_refused c = [];
  cs_compr : exists cs, compr_wf (q_ring (c_q c)) cs;
}.

Inductive conc_reach (F : gset Z) : conc -> Prop :=
| conc_reach_start c : conc_start F c -> conc_reach F c
| conc_reach_next c op c' : conc_reach F c -> conc_can F op c -> conc_step op c = Ok c' -> conc_reach F c'.
End machine.
