(* ===== verification/ThreadsStep.v ===== *)
(** * What each section does to what its thread owns

    One lemma per section of [Threads.task_step]: it does not fault, and it
    turns the holdings of the thread before into those of the thread after
    ([plain_step]), whatever the other threads hold. *)

From S2P Require Import Prelude Abi Ring Pages Request Queue Operation Threads ThreadsInv.

Section effects.
Context `{A : UbbdAbi} `{K : KernelApi} `{M : KernelMem}.

Definition next_listed (o : option task) : list Z :=
  match o with Some t => task_listed t | None => [] end.

(** Threads that need nothing besides their requests. *)
Definition plain (t : task) : bool :=
  match t with CEntry _ | CStore _ _ | CFetched _ _ | SFlush | RFlush _ | RSplice => false | _ => true end.

(** Sections under [cmdr_lock]. *)
Definition cmdr_section (t : task) : bool :=
  match t with WListed _ | WNumbered _ | WEntered _ | FAdvance _ => true | _ => false end.

(** What a section other than those on [inflight_reqs] leaves alone. *)
Record sec_effect (t : task) (o : option task) (q : ubbd_queue) (w : world) (q' : ubbd_queue) (w' : world)
  : Prop := {
  ef_inflight : q_inflight q' = q_inflight q;
  ef_status : q_status q' = q_status q;
  ef_compr : same_compr (q_ring q) (q_ring q');
  ef_wq : w_wq w' = w_wq w;
  ef_blk : exists evs, w_blk w' = w_blk w ++ evs /\ starts evs = [] /\
    ends evs ++ (next_holdings o ≫= started_tag) ≡ₚ task_holdings t ≫= started_tag;
  ef_listed : next_listed o = task_listed t;
  ef_plain t' : o = Some t' -> plain t' = true /\
    (working t' = true -> working t = true \/ ~ removed_status q);
  ef_enter : match o with Some t' => entering_ok q' w' t' | None => True end;
  ef_cmdr : match o with Some t' => implb (holds_cmdr t') (cmdr_section t) = true | None => True end;
}.

(** [t] runs its section next to any other holdings [H]. *)
Definition plain_step (F : gset Z) (t : task) (q : ubbd_queue) (w : world) (H : list holding) : Prop :=
  exists o q' w' es', task_step t q w = Ok (o, q', w') /\
    holds q' w' es' F (next_holdings o ++ H) /\ sec_effect t o q w q' w'.

(** Few pages are on their way into the pool at a time. *)
Definition few (H : list holding) : Prop := Z.of_nat (length (H ≫= hnew)) <= PID_MAX_LIMIT.
End effects.

(** ** Preparation *)

Section prepare.
Context `{L : UbbdAbiLaws} `{KL : KernelApiLaws} `{ML : KernelMemLaws}.
Implicit Types (q : ubbd_queue) (w : world) (es : list entry) (F : gset Z) (H : list holding).

(** The effect of a section that calls nothing of the block layer. *)
Lemma effect_silent t o q w q' w' :
  q_inflight q' = q_inflight q -> q_status q' = q_status q -> same_compr (q_ring q) (q_ring q') ->
  w_wq w' = w_wq w -> w_blk w' = w_blk w ->
  next_holdings o ≫= started_tag = task_holdings t ≫= started_tag ->
  next_listed o = task_listed t ->
  (forall t', o = Some t' -> plain t' = true /\
    (working t' = true -> working t = true \/ ~ removed_status q)) ->
  match o with Some t' => entering_ok q' w' t' | None => True end ->
  match o with Some t' => implb (holds_cmdr t') (cmdr_section t) = true | None => True end ->
  sec_effect t o q w q' w'.
Proof.
  intros E1 E2 E3 E4 E5 E6 E7 E8 E9 E10. split; try done. exists []. rewrite app_nil_r, E5, E6. done.
Qed.

(** ... and of one that ends its only request. *)
Lemma effect_end t q w q' w' w1 tag ret :
  q_inflight q' = q_inflight q -> q_status q' = q_status q -> same_compr (q_ring q) (q_ring q') ->
  w_wq w1 = w_wq w -> w_blk w1 = w_blk w -> w' = end_request ret tag w1 ->
  task_holdings t ≫= started_tag = [tag] -> task_listed t = [] ->
  sec_effect t None q w q' w'.
Proof.
  intros E1 E2 E3 E4 E5 -> E6 E7. destruct (end_request_blk ret tag w1) as (ev & Hb & Hs & He & Hw).
  split; try done; [by rewrite Hw|]. exists [ev]. by rewrite Hb, E5, He, E6.
Qed.

Lemma end_request_reqs ret tag w : w_reqs (end_request ret tag w) = w_reqs w /\ w_km (end_request ret tag w) = w_km w.
Proof. unfold end_request. by destruct (_ || _). Qed.

Lemma put_pdu_ne tag e u w t : t <> tag -> w_reqs (put_pdu tag e u w) !! t = w_reqs w !! t.
Proof. intros Hne. simpl. by rewrite lookup_insert_ne by done. Qed.

Lemma put_pdu_eq tag e u w : w_reqs (put_pdu tag e u w) !! tag = Some (mk_rq_entry (e_rq e) (e_q e) u).
Proof. apply lookup_insert_eq. Qed.

Lemma pis_of_eq w tag e : w_reqs w !! tag = Some e ->
  pis_of w tag = req_pis (e_pdu e) /\ slots_of w tag = pi_slots (e_pdu e).
Proof. intros E. unfold pis_of, slots_of, pdu_of. by rewrite E. Qed.

(** Work does not start on a queue that is being removed. *)
Lemma running_not_removed q : status_errno (q_status q) = 0 -> ~ removed_status q.
Proof.
  pose proof queue_kstatus_distinct as Hd. destruct_and! Hd.
  intros E [Hs|Hs]; revert E; unfold status_errno; rewrite Hs, (proj2 (Z.eqb_neq _ UBBD_QUEUE_KSTATUS_RUNNING))
    by congruence; cbn [negb].
  - by rewrite Z.eqb_refl.
  - by rewrite (proj2 (Z.eqb_neq _ UBBD_QUEUE_KSTATUS_REMOVING)), (Z.eqb_refl UBBD_QUEUE_KSTATUS_STOPPED), orb_true_r by congruence.
Qed.

Lemma work_start_ok q w es F tag H : holds q w es F (HWork tag :: H) -> plain_step F (WStart tag) q w H.
Proof.
  intros Hh. destruct (holds_lookup _ _ _ _ _ _ Hh) as (e & He & _). simpl in He.
  unfold plain_step. cbn [task_step]. unfold work_start. rewrite He. cbn [deref obind].
  destruct (Z.eqb_spec (status_errno (q_status q)) 0) as [E|Hne]; cbn [negb].
  - exists (Some (WRunning tag)), q, w, es. split_and!; [done|exact Hh|]. apply effect_silent; try done.
    intros t' [= <-]. split; [done|]. intros _. right. by apply running_not_removed.
  - exists None, q, (end_request (status_errno (q_status q)) tag w), es.
    destruct (end_request_reqs (status_errno (q_status q)) tag w) as [Er Ek].
    split_and!; [done| |by eapply effect_end].
    apply (holds_drop q w es F (HWork tag) H); rewrite ?Er, ?Ek; done.
Qed.

Lemma pi_alloc_same u km :
  let '(_, u', _) := if UBBD_REQ_INLINE_PI_MAX <? ur_pi_cnt u then ubbd_req_pi_alloc u km else (0, u, km) in
  ur_req_tid u' = ur_req_tid u /\ ur_se u' = ur_se u.
Proof.
  destruct (_ <? _); [|done]. unfold ubbd_req_pi_alloc. destruct ubbd_req_need_fault; [done|].
  by destruct (kcalloc _ km) as [[|] ?].
Qed.

Lemma prepare_ok q w es F tag H : holds q w es F (HWork tag :: H) -> plain_step F (WRunning tag) q w H.
Proof.
  intros Hh. destruct (holds_lookup _ _ _ _ _ _ Hh) as (e & He & Hok & op & Hop & Hpdu). simpl in He.
  unfold plain_step. cbn [task_step]. unfold prepare_section. rewrite He. cbn [deref obind]. rewrite Hpdu.
  destruct (req_segments_spec (e_rq e) op (zeroed_ubbd_request op) F Hop Hok eq_refl)
    as (Eseg & Hn16 & Hds & _). rewrite Eseg. cbn [obind].
  set (u0 := set_pi_cnt _ _).
  pose proof (prepare_alloc u0 (w_km w) eq_refl eq_refl ltac:(simpl; lia)) as Hal.
  pose proof (pi_alloc_same u0 (w_km w)) as Htid.
  destruct (if UBBD_REQ_INLINE_PI_MAX <? ur_pi_cnt u0 then _ else _) as [[ret u] km].
  destruct Hal as (Hlv & Hopu & Hcnt & Hret). simpl in Hcnt, Htid, Hopu.
  set (w1 := put_pdu tag e u (set_w_km km w)).
  assert (forall t, t <> tag -> w_reqs w1 !! t = w_reqs w !! t) as Hw1
    by (intros t; apply (put_pdu_ne tag e u (set_w_km km w))).
  destruct Hret as [->|[-> Hw]].
  { exists None, q, (end_request (- ENOMEM) tag w1), es.
    destruct (end_request_reqs (- ENOMEM) tag w1) as [Er Ek].
    split_and!; [done| |by apply (effect_end _ _ _ _ _ w1 tag (- ENOMEM))].
    apply (holds_drop q w es F (HWork tag) H); rewrite ?Er, ?Ek; done. }
  cbn [negb Z.eqb]. rewrite Hcnt in *. rewrite Nat2Z.id in Hw.
  assert (req_ready F (mk_rq_entry (e_rq e) (e_q e) u)) as Hrr.
  { split; simpl; try done. by rewrite Hopu. }
  destruct (Z.eqb_spec (Z.of_nat (n_segs (e_rq e))) 0) as [Hz|Hz]; cbn [negb].
  - exists (Some (WCopy tag)), q, w1, es. split_and!; [done| |].
    2: { apply effect_silent; try done. intros t' [= <-]. split; [done|]. by left. }
    apply (holds_req q w es F (HWork tag) H w1 (HReady tag) (mk_rq_entry (e_rq e) (e_q e) u)); try done.
    + apply put_pdu_eq.
    + simpl. rewrite (proj1 (pis_of_eq w1 tag _ (put_pdu_eq _ _ _ _))). simpl.
      unfold req_pis. by rewrite Hcnt, Hz.
  - assert (n_segs (e_rq e) <> 0%nat) as Hnz by lia. specialize (Hds Hnz).
    destruct (rq_bio (e_rq e)) as [|b bio] eqn:Eb; [exfalso; apply Hnz; unfold n_segs; by rewrite Hds|].
    exists (Some (WPage tag (concat (b :: bio)) 0 None)), q, w1, es. split_and!; [done| |].
    2: { apply effect_silent; try done. intros t' [= <-]. split; [done|]. by left. }
    apply (holds_req q w es F (HWork tag) H w1 (HPages tag 0 (Some (length (concat (b :: bio)))) None)
             (mk_rq_entry (e_rq e) (e_q e) u)); try done.
    + apply put_pdu_eq.
    + cbn [entry_ok todo_ok]. split_and!; [done| |done]. unfold n_segs. simpl e_rq. by rewrite Hds.
Qed.
End prepare.

(** ** Data pages *)

Section pages.
Context `{L : UbbdAbiLaws} `{KL : KernelApiLaws} `{ML : KernelMemLaws}.
Implicit Types (q : ubbd_queue) (w : world) (es : list entry) (F : gset Z) (H : list holding)
  (h : holding) (p : data_pool) (km : kmem).

Lemma held_app new (X : list Z) :
  (list_to_set (match new with Some page => [page] | None => [] end ++ X) : gset Z) =
    held_of new ∪ list_to_set X.
Proof. rewrite list_to_set_app_L. destruct new; simpl; set_solver. Qed.

Lemma few_size H : few H -> Z.of_nat (size (list_to_set (H ≫= hnew) : gset Z)) < 2 ^ 30.
Proof.
  unfold few, PID_MAX_LIMIT. intros Hf.
  assert (size (list_to_set (H ≫= hnew) : gset Z) <= length (H ≫= hnew))%nat; [|lia].
  generalize (H ≫= hnew). intros l. induction l as [|x l IH]; [done|].
  change (list_to_set (x :: l)) with ({[x]} ∪ list_to_set l : gset Z).
  rewrite size_union_alt, size_singleton. cbn [length].
  assert (size (list_to_set l ∖ {[x]} : gset Z) <= size (list_to_set l : gset Z))%nat
    by (apply subseteq_size; set_solver). lia.
Qed.

Lemma hd_new_disj q w es F tag k todo new H :
  holds q w es F (HPages tag k todo new :: H) ->
  pool_inv (q_pool q) (w_km w) (held_of new ∪ list_to_set (H ≫= hnew)) F /\
  held_of new ## (list_to_set (H ≫= hnew) : gset Z) /\ NoDup (H ≫= hnew).
Proof.
  intros Hh. pose proof (hd_pool _ _ _ _ _ Hh) as Hp. pose proof (hd_new _ _ _ _ _ Hh) as Hn.
  rewrite bind_cons in Hp, Hn. simpl hnew in Hp, Hn. rewrite held_app in Hp.
  split; [done|]. apply NoDup_app in Hn as (_ & Hd & ?). split; [|done].
  destruct new as [pg|]; simpl in *; [|set_solver]. intros x Hx Hx'.
  apply elem_of_singleton in Hx as ->. apply (Hd pg); [by left|]. by apply elem_of_list_to_set in Hx'.
Qed.

(** The pool changes under one holding whose request stays. *)
Lemma holds_pool q w es F h H p km h' e :
  holds q w es F (h :: H) -> htag h' = htag h -> is_sub h' = false ->
  pool_inv p km (list_to_set (hnew h' ++ H ≫= hnew)) F -> same_config (q_pool q) p ->
  NoDup (hnew h' ++ H ≫= hnew) ->
  (forall i, i ∈ data_bitmap (q_pool q) -> i ∉ hbits w h -> i ∈ data_bitmap p) ->
  NoDup (hbits w h') -> (forall i, i ∈ hbits w h' -> i ∈ data_bitmap p /\ i ∈ hbits w h) ->
  w_reqs w !! htag h = Some e -> entry_ok q es F h' e ->
  holds (set_q_pool p q) (set_w_km km w) es F (h' :: H).
Proof.
  intros Hh Ht Hs Hp Hc Hn Hb Hnd Hb' He Hok.
  assert (hbits (set_w_km km w) h' = hbits w h') as Eb by (by apply holding_frame).
  destruct (not_sub (set_w_km km w) h' Hs) as [Es Et].
  apply (holds_step1 q w es F h H); rewrite ?Eb, ?Es, ?Et; try done; try apply Hh.
  - destruct Hc as (_ & _ & _ & Ei). simpl. rewrite Ei. apply Hh.
  - pose proof (hd_tid _ _ _ _ _ Hh). simpl. lia.
  - intros i Hi. destruct (Hb' i Hi). split; [done|by left].
  - exists e. rewrite Ht. split; [done|]. by destruct h'.
Qed.

(** The new page goes back. *)
Lemma drop_new_ok q w es F tag k todo todo' new H e :
  holds q w es F (HPages tag k todo new :: H) -> few H ->
  w_reqs w !! tag = Some e -> todo_ok k (n_segs (e_rq e)) todo' ->
  let '(p, km) := drop_new_page new (q_pool q) (w_km w) in
  holds (set_q_pool p q) (set_w_km km w) es F (HPages tag k todo' None :: H).
Proof.
  intros Hh Hf He Hto. destruct (hd_new_disj _ _ _ _ _ _ _ _ _ Hh) as (Hp & Hd & Hn).
  destruct (holds_lookup _ _ _ _ _ _ Hh) as (e' & He' & Hr & _ & Ht). simpl in He'. simplify_eq.
  assert (forall p km, pool_inv p km (list_to_set (H ≫= hnew)) F -> same_config (q_pool q) p ->
    data_bitmap p = data_bitmap (q_pool q) ->
    holds (set_q_pool p q) (set_w_km km w) es F (HPages tag k todo' None :: H)) as Hgo.
  { intros p km Hp' Hc Hb. apply (holds_pool q w es F (HPages tag k todo new) H p km (HPages tag k todo' None) e);
      rewrite ?Hb; try done.
    - by apply (holds_bits_nodup _ _ _ _ _ _ Hh).
    - intros i Hi. split; [by apply (holds_bit _ _ _ _ _ _ i Hh)|done]. }
  unfold drop_new_page. destruct new as [pg|]; simpl in *.
  - unfold __ubbd_release_page. apply Hgo; [|by split_and!|done].
    apply release_held_inv; [done| |by apply few_size]. set_solver.
  - apply Hgo; [by rewrite (left_id_L ∅ (∪)) in Hp|by split_and!|done].
Qed.

Lemma alloc_ok q w es F tag segs k H :
  holds q w es F (HPages tag k (Some (length segs)) None :: H) -> few H ->
  plain_step F (WAlloc tag segs k) q w H.
Proof.
  intros Hh Hf. destruct (hd_new_disj _ _ _ _ _ _ _ _ _ Hh) as (Hp & Hd & Hn).
  destruct (holds_lookup _ _ _ _ _ _ Hh) as (e & He & Hr & Hto & Ht). simpl in He, Hp, Hto.
  rewrite (left_id_L ∅ (∪)) in Hp. unfold plain_step. cbn [task_step]. unfold alloc_section.
  destruct (ubbd_alloc_page (q_pool q) (w_km w)) as [[r p] km] eqn:EA.
  destruct (alloc_page_inv _ _ _ _ _ _ _ Hp (few_size _ Hf) EA) as (Eb & Ea & Hr' & Hpp).
  assert (same_config (q_pool q) p) as Hc by (destruct Hpp as [->|[n ->]]; by split_and!).
  assert (forall new todo, todo_ok k (n_segs (e_rq e)) todo ->
    pool_inv p km (list_to_set ((match new with Some page => [page] | None => [] end) ++ H ≫= hnew)) F ->
    NoDup ((match new with Some page => [page] | None => [] end) ++ H ≫= hnew) ->
    holds (set_q_pool p q) (set_w_km km w) es F (HPages tag k todo new :: H)) as Hgo.
  { intros new todo Hto' Hp' Hn'.
    apply (holds_pool q w es F (HPages tag k (Some (length segs)) None) H p km (HPages tag k todo new) e);
      rewrite ?Eb; try done.
    - by apply (holds_bits_nodup _ _ _ _ _ _ Hh).
    - intros i Hi. split; [by apply (holds_bit _ _ _ _ _ _ i Hh)|done]. }
  destruct r as [pg|].
  - exists (Some (WPage tag segs k (Some pg))). do 3 eexists. split; [done|]. destruct Hr' as [Hni Hp'].
    split.
    + apply Hgo; [done|by rewrite (held_app (Some pg))|]. apply NoDup_cons. split; [|done].
      intros Hin. apply Hni. by apply elem_of_list_to_set.
    + apply effect_silent; try done. intros t' [= <-]. split; [done|]. by left.
  - exists (Some (WUndo tag k (- ENOMEM))). do 3 eexists. split; [done|]. split.
    + apply Hgo; [simpl; lia|done|done].
    + apply effect_silent; try done. intros t' [= <-]. split; [done|]. by left.
Qed.

(** The locked section takes an index. *)
Lemma page_got q w es F tag k l new H e i p km new' :
  holds q w es F (HPages tag k (Some (S l)) new :: H) -> w_reqs w !! tag = Some e ->
  0 <= i < data_pages (q_pool q) -> i ∉ data_bitmap (q_pool q) ->
  data_bitmap p = {[i]} ∪ data_bitmap (q_pool q) ->
  pool_inv p km (held_of new' ∪ list_to_set (H ≫= hnew)) F -> same_config (q_pool q) p ->
  new' = new \/ new' = None ->
  exists u, ubbd_req_set_pi (e_pdu e) (Z.of_nat k) i = Ok u /\
    holds (set_q_pool p q) (put_pdu tag e u (set_w_km km w)) es F (HPages tag (S k) (Some l) new' :: H).
Proof.
  intros Hh He Hi Hni Hb Hp Hc Hnew. destruct (hd_new_disj _ _ _ _ _ _ _ _ _ Hh) as (Hp0 & Hd & Hn).
  destruct (holds_lookup _ _ _ _ _ _ Hh) as (e' & He' & Hr & Hto & Ht). simpl in He', Hto. simplify_eq.
  destruct Hr as [Hrq Hop Hcnt Hw]. pose proof (pl_size _ _ _ _ Hp0) as Hsz.
  destruct (set_pi_spec (e_pdu e) (n_segs (e_rq e)) k i Hw ltac:(lia) ltac:(lia))
    as (u & Eu & Hsl & Hwu & Hou & Htu & Hcu & Hsu & _).
  exists u. split; [done|].
  assert (NoDup (hnew (HPages tag (S k) (Some l) new') ++ H ≫= hnew)) as Hnd.
  { destruct Hnew as [->| ->]; [|done]. pose proof (hd_new _ _ _ _ _ Hh) as Hx. by rewrite bind_cons in Hx. }
  assert (hbits (put_pdu tag e u (set_w_km km w)) (HPages tag (S k) (Some l) new') =
    hbits w (HPages tag k (Some (S l)) new) ++ [i]) as Eb.
  { simpl hbits. rewrite (proj2 (pis_of_eq w tag e He)).
    rewrite (proj2 (pis_of_eq _ tag _ (put_pdu_eq tag e u (set_w_km km w)))). simpl e_pdu.
    rewrite Hsl, take_insert_snoc; [done|]. destruct Hw as (_ & ? & _). lia. }
  assert (forall j, j ∈ hbits w (HPages tag k (Some (S l)) new) -> j ∈ data_bitmap (q_pool q)) as Hu
    by (intros j; apply (holds_bit _ _ _ _ _ _ j Hh)).
  apply (holds_step1 q w es F (HPages tag k (Some (S l)) new) H); rewrite ?Eb; try done; try apply Hh.
  - simpl hnew. by rewrite held_app.
  - destruct Hc as (_ & _ & _ & Ei). simpl. rewrite Ei. apply Hh.
  - pose proof (hd_tid _ _ _ _ _ Hh). simpl. lia.
  - intros t Hne. by apply (put_pdu_ne tag e u (set_w_km km w)).
  - intros j Hj _. simpl. rewrite Hb. by apply elem_of_union_r.
  - apply NoDup_app. split_and!; [by apply (holds_bits_nodup _ _ _ _ _ _ Hh)| |apply NoDup_singleton].
    intros j Hj Hji. apply list_elem_of_singleton in Hji as ->. by apply Hni, Hu.
  - intros j. rewrite elem_of_app, list_elem_of_singleton. simpl q_pool. rewrite Hb, elem_of_union, elem_of_singleton.
    intros [Hj| ->]; [|by auto]. split; [right; by apply Hu|by left].
  - exists (mk_rq_entry (e_rq e) (e_q e) u). split; [apply put_pdu_eq|]. simpl. destruct Ht as [Ht1 Ht2]. split_and!; [|lia|split; congruence].
    split; simpl; try done; congruence.
Qed.

Lemma page_ok q w es F tag segs k new H :
  holds q w es F (HPages tag k (Some (length segs)) new :: H) -> few H ->
  plain_step F (WPage tag segs k new) q w H.
Proof.
  intros Hh Hf. destruct (hd_new_disj _ _ _ _ _ _ _ _ _ Hh) as (Hp & Hd & Hn).
  destruct (holds_lookup _ _ _ _ _ _ Hh) as (e & He & Hr & Hto & Ht). simpl in He, Hto.
  unfold plain_step. cbn [task_step]. unfold page_section. destruct segs as [|bv segs].
  { pose proof (drop_new_ok q w es F tag k _ (Some 0%nat) new H e Hh Hf He Hto) as Hdr.
    destruct (drop_new_page _ _ _) as [p km]. exists (Some (WCopy tag)), (set_q_pool p q), (set_w_km km w), es.
    split; [done|]. split.
    - apply (holds_req (set_q_pool p q) (set_w_km km w) es F (HPages tag k (Some 0%nat) None) H
               (set_w_km km w) (HReady tag) e); try done.
      simpl hbits. destruct (pis_of_eq (set_w_km km w) tag e He) as [-> ->]. unfold req_pis.
      rewrite (rr_cnt _ _ Hr), Nat2Z.id. simpl in Hto. by replace k with (n_segs (e_rq e)) by lia.
    - apply effect_silent; try done. intros t' [= <-]. split; [done|]. by left. }
  pose proof (get_page_locked_spec (q_pool q) (w_km w) (list_to_set (H ≫= hnew)) F new Hp Hd) as Hl.
  destruct (get_page_locked (q_pool q) (w_km w) new) as [|i p km new'|ret pg p km|].
  - pose proof (drop_new_ok q w es F tag k _ None new H e Hh Hf He ltac:(simpl in *; lia)) as Hdr.
    destruct (drop_new_page _ _ _) as [p km]. exists (Some (WUndo tag k (- ENOMEM))). do 3 eexists.
    split_and!; [done|exact Hdr|]. apply effect_silent; try done. intros t' [= <-]. split; [done|]. by left.
  - destruct Hl as (Hi & Hni & Hb & Hp' & Hc & Hnew & _). rewrite He. cbn [deref obind].
    destruct (page_got q w es F tag k (length segs) new H e i p km new' Hh He Hi Hni Hb Hp' Hc Hnew)
      as (u & -> & Hh'). cbn [obind]. exists (Some (WPage tag segs (S k) new')). do 3 eexists.
    split_and!; [done|exact Hh'|]. apply effect_silent; try done. intros t' [= <-]. split; [done|]. by left.
  - destruct Hl as (-> & Hneg & -> & Hp'). unfold __ubbd_release_page.
    exists (Some (WUndo tag k ret)). do 3 eexists. split; [done|]. split.
    + apply (holds_pool q w es F (HPages tag k (Some (length (bv :: segs))) (Some pg)) H _ _
               (HPages tag k None None) e); try done.
      * apply release_held_inv; [done| |by apply few_size]. simpl in Hd. set_solver.
      * by apply (holds_bits_nodup _ _ _ _ _ _ Hh).
      * intros i Hi. split; [by apply (holds_bit _ _ _ _ _ _ i Hh)|done].
      * simpl in Hto |- *. split_and!; [done|lia|done].
    + apply effect_silent; try done. intros t' [= <-]. split; [done|]. by left.
  - subst new. exists (Some (WAlloc tag (bv :: segs) k)), q, w, es. split_and!; [done|exact Hh|].
    apply effect_silent; try done. intros t' [= <-]. split; [done|]. by left.
Qed.
End pages.

(** ** Giving indices back *)

Section release.
Context `{L : UbbdAbiLaws} `{KL : KernelApiLaws} `{ML : KernelMemLaws}.
Implicit Types (q : ubbd_queue) (w : world) (es : list entry) (F : gset Z) (H : list holding)
  (h : holding) (p : data_pool) (km : kmem).

Lemma holds_release q w es F h H h' e i v :
  holds q w es F (h :: H) -> few H -> w_reqs w !! htag h = Some e -> htag h' = htag h ->
  hnew h = [] -> hnew h' = [] -> is_sub h' = false -> entry_ok q es F h' e ->
  req_wf (e_pdu e) (n_segs (e_rq e)) -> (i < n_segs (e_rq e))%nat -> Z.of_nat (n_segs (e_rq e)) < 2 ^ 16 ->
  pi_slots (e_pdu e) !! i = Some v -> hbits w h ≡ₚ v :: hbits w h' ->
  exists p km, ubbd_release_page (q_pool q) (w_km w) (e_pdu e) (Z.of_nat i) = Ok (p, km) /\
    holds (set_q_pool p q) (set_w_km km w) es F (h' :: H).
Proof.
  intros Hh Hf He Ht Hn Hn' Hs Hok Hw Hi H16 Hv Hb.
  pose proof (hd_pool _ _ _ _ _ Hh) as Hp. rewrite bind_cons, Hn in Hp. cbn [app] in Hp.
  pose proof (hd_new _ _ _ _ _ Hh) as Hnd. rewrite bind_cons, Hn in Hnd. cbn [app] in Hnd.
  pose proof (holds_bits_nodup _ _ _ _ _ _ Hh) as Hbn. rewrite Hb in Hbn. apply NoDup_cons in Hbn as [Hnv Hbn].
  assert (v ∈ data_bitmap (q_pool q)) as Hvb by (apply (holds_bit _ _ _ _ _ _ v Hh); rewrite Hb; by left).
  destruct (pl_bits _ _ _ _ Hp v Hvb) as [pg Hpg]. pose proof (pl_keys _ _ _ _ Hp _ _ Hpg).
  pose proof (pl_size _ _ _ _ Hp).
  destruct (release_page_spec (q_pool q) (w_km w) _ F (e_pdu e) _ i v Hp (few_size _ Hf) Hw Hi Hv
              ltac:(lia) (hd_inode _ _ _ _ _ Hh) ltac:(lia)) as (p & km & E & Hbm & Hp' & Hc & _).
  exists p, km. split; [done|].
  apply (holds_pool q w es F h H p km h' e); rewrite ?Hn', ?Hbm; try done.
  - intros j Hj Hnj. apply elem_of_difference. split; [done|]. intros Hjv.
    apply elem_of_singleton in Hjv as ->. apply Hnj. rewrite Hb. by left.
  - intros j Hj. assert (j ∈ hbits w h) as Hjh by (rewrite Hb; by right). split; [|done].
    apply elem_of_difference. split; [by apply (holds_bit _ _ _ _ _ _ j Hh)|].
    intros Hjv. by apply elem_of_singleton in Hjv as ->.
Qed.

Lemma ready_16 F e : req_ready F e -> Z.of_nat (n_segs (e_rq e)) < 2 ^ 16.
Proof.
  intros [Hrq Hop _ _]. by destruct (req_segments_spec (e_rq e) _ (e_pdu e) F Hop Hrq eq_refl) as (_ & ? & _).
Qed.

Lemma kfree_pi_ok u km n : req_wf u n -> exists km', kfree_pi u km = Ok km' /\ live km' = live km.
Proof.
  intros (_ & _ & Hf). unfold kfree_pi. destruct (ur_pi u); [by eauto| |done].
  exists (kfree km). split; [done|apply kfree_live].
Qed.

Lemma undo_ok q w es F tag k ret H :
  holds q w es F (HPages tag k None None :: H) -> few H -> plain_step F (WUndo tag k ret) q w H.
Proof.
  intros Hh Hf. destruct (holds_lookup _ _ _ _ _ _ Hh) as (e & He & Hr & Hto & Ht). simpl in He, Hto.
  pose proof (rr_wf _ _ Hr) as Hw.
  unfold plain_step. cbn [task_step]. unfold undo_section. rewrite He. cbn [deref obind].
  destruct k as [|k].
  - destruct (kfree_pi_ok (e_pdu e) (w_km w) _ Hw) as (km & -> & Hlv). cbn [obind].
    set (w1 := put_pdu _ _ _ _). exists None, q, (end_request ret tag w1), es.
    destruct (end_request_reqs ret tag w1) as [Er Ek].
    split_and!; [done| |by apply (effect_end _ _ _ _ _ w1 tag ret)].
    apply (holds_drop q w es F (HPages tag 0 None None) H); rewrite ?Er, ?Ek; try done.
    intros t. apply (put_pdu_ne tag e _ (set_w_km km w)).
  - destruct (lookup_lt_is_Some_2 (pi_slots (e_pdu e)) k) as [v Hv]; [destruct Hw as (_ & ? & _); lia|].
    destruct (holds_release q w es F (HPages tag (S k) None None) H (HPages tag k None None) e k v)
      as (p & km & -> & Hh'); try done.
    + simpl. split_and!; [done|lia|done].
    + by apply (ready_16 F).
    + simpl. rewrite (proj2 (pis_of_eq w tag e He)), (take_S_r _ _ _ Hv).
      apply Permutation_sym, Permutation_cons_append.
    + cbn [obind]. exists (Some (WUndo tag k ret)). do 3 eexists. split_and!; [done|exact Hh'|].
      apply effect_silent; try done. intros t' [= <-]. split; [done|]. by left.
Qed.

(** The indices of a holding with all its pages. *)
Lemma ready_bits q w es F tag h H e :
  holds q w es F (h :: H) -> hbits w h = pis_of w tag -> w_reqs w !! tag = Some e -> req_ready F e ->
  req_wf (e_pdu e) (Z.to_nat (ur_pi_cnt (e_pdu e))) /\ NoDup (req_pis (e_pdu e)) /\
  Forall (fun i => i ∈ data_bitmap (q_pool q)) (req_pis (e_pdu e)).
Proof.
  intros Hh Hb He Hr. rewrite (proj1 (pis_of_eq w tag e He)) in Hb. split_and!.
  - rewrite (rr_cnt _ _ Hr), Nat2Z.id. apply Hr.
  - rewrite <- Hb. by apply (holds_bits_nodup _ _ _ _ _ _ Hh).
  - rewrite <- Hb. apply Forall_forall. intros i. apply (holds_bit _ _ _ _ _ _ i Hh).
Qed.

Lemma holds_mem q w es F H m : holds q w es F H -> holds q (set_w_mem m w) es F H.
Proof. intros Hh. apply (holds_same q w es F H); try done. apply Hh. Qed.

Lemma copy_ok q w es F tag H : holds q w es F (HReady tag :: H) -> plain_step F (WCopy tag) q w H.
Proof.
  intros Hh. destruct (holds_lookup _ _ _ _ _ _ Hh) as (e & He & Hr & Ht). simpl in He.
  unfold plain_step. cbn [task_step]. unfold copy_section. rewrite He. cbn [deref obind].
  assert (forall m, holds q (set_w_mem m w) es F (HReady tag :: H) /\
    sec_effect (WCopy tag) (Some (WPrepared tag)) q w q (set_w_mem m w)) as Hgo.
  { intros m. split; [by apply holds_mem|]. apply effect_silent; try done.
    intros t' [= <-]. split; [done|]. by left. }
  destruct (bool_decide_reflect (rq_op (e_rq e) = REQ_OP_WRITE)) as [Hwr|_].
  - destruct (ready_bits q w es F tag (HReady tag) H e Hh eq_refl He Hr) as (Hw & Hnd & Hb).
    pose proof Hr as [Hrq Hop Hcnt _].
    destruct (req_segments_spec (e_rq e) _ (e_pdu e) F Hop Hrq eq_refl) as (_ & _ & Hds & Hnz).
    destruct (copy_to_prepared (q_pool q) (w_km w) _ F (e_pdu e) (e_rq e) (w_mem w) (hd_pool _ _ _ _ _ Hh) Hw
                Hcnt Hnd Hb Hrq (Hds (Hnz Hwr)) (Hnz Hwr)) as (m & -> & _). cbn [obind].
    exists (Some (WPrepared tag)). do 3 eexists. split; [done|]. apply Hgo.
  - exists (Some (WPrepared tag)), q, w, es. split; [done|]. pose proof (Hgo (w_mem w)) as Hx.
    by rewrite set_w_mem_id in Hx.
Qed.
End release.

(** ** Completion *)

Section completion.
Context `{L : UbbdAbiLaws} `{KL : KernelApiLaws} `{ML : KernelMemLaws}.
Implicit Types (q : ubbd_queue) (w : world) (es : list entry) (F : gset Z) (H : list holding)
  (h : holding) (p : data_pool) (km : kmem) (r : return_to).

(** The ring moves under the holdings. *)
Lemma holds_ring q w es es' F H rg :
  holds q w es F H -> ring_wf rg es' -> (forall se, kept q (set_q_ring rg q) es es' se) ->
  holds (set_q_ring rg q) w es' F H.
Proof.
  intros Hh Hr Hk. apply (holds_step q w es F [] H (set_q_ring rg q) w es' []); cbn [app];
    try done; try apply Hh.
  - pose proof (hd_tid _ _ _ _ _ Hh). simpl. lia.
  - constructor.
  - intros i Hi. by apply elem_of_nil in Hi.
  - constructor.
  - constructor.
  - intros se Hi. by apply elem_of_nil in Hi.
  - intros se Hi. by apply elem_of_nil in Hi.
Qed.

Lemma mark_ok q w es F tag ret r H :
  holds q w es F (HSub tag :: return_holdings r ++ H) -> plain_step F (FMark tag ret r) q w H.
Proof.
  intros Hh. destruct (holds_lookup _ _ _ _ _ _ Hh) as (e & He & Hr & [_ (se & hd & b & Ese & Hin & Hnd & _)]).
  simpl in He. unfold plain_step. cbn [task_step]. unfold mark_section. rewrite He. cbn [deref obind].
  rewrite Ese. cbn [deref obind]. pose proof (hd_ring _ _ _ _ _ Hh) as Hrg.
  pose proof (chain_lookup _ _ _ _ _ _ (wf_chain _ _ Hrg) Hin) as Hhd. simpl in Hhd.
  destruct (se_flags_set_wf (q_ring q) es se hd Hrg Hhd) as [Ef Hr1]. rewrite Ef. cbn [obind].
  exists (Some (FRelease tag 0 ret r)). do 2 eexists. exists (mark_done se es). split; [done|]. split.
  2: { apply effect_silent; try done. intros t' [= <-]. split; [done|]. by left. }
  apply (holds_step1 q w es F (HSub tag) (return_holdings r ++ H)); try done; try apply Hh.
  - pose proof (hd_tid _ _ _ _ _ Hh). simpl. lia.
  - simpl. rewrite drop_0. by apply (holds_bits_nodup _ _ _ _ _ _ Hh).
  - simpl. rewrite drop_0. intros i Hi. split; [by apply (holds_bit _ _ _ _ _ _ i Hh)|by left].
  - intros se' Hne hd' Hin' _. split; [|done]. apply mark_done_keeps; [done|]. simpl. intros ->.
    apply Hne. simpl. unfold pdu_of. by rewrite He.
  - exists e. simpl. split; [done|]. split; [done|lia].
Qed.

Lemma release_ok q w es F tag k ret r H :
  holds q w es F (HRel tag k :: return_holdings r ++ H) -> few H -> plain_step F (FRelease tag k ret r) q w H.
Proof.
  intros Hh Hf. destruct (holds_lookup _ _ _ _ _ _ Hh) as (e & He & Hr & Hk). simpl in He.
  pose proof (rr_wf _ _ Hr) as Hw. pose proof (rr_cnt _ _ Hr) as Hcnt.
  assert (few (return_holdings r ++ H)) as Hf'.
  { unfold few. rewrite bind_app. destruct r as [|tmp ?]; [done|]. simpl return_holdings.
    replace (map HSub tmp ≫= hnew) with ([] : list Z); [done|].
    clear. induction tmp as [|t tmp IH]; [done|]. cbn [map]. by rewrite bind_cons. }
  unfold plain_step. cbn [task_step]. unfold release_section. rewrite He. cbn [deref obind].
  rewrite Hcnt, Nat2Z.id. destruct (bool_decide_reflect (k < n_segs (e_rq e))%nat) as [Hlt|Hge].
  - destruct (lookup_lt_is_Some_2 (pi_slots (e_pdu e)) k) as [v Hv]; [destruct Hw as (_ & ? & _); lia|].
    destruct (holds_release q w es F (HRel tag k) (return_holdings r ++ H) (HRel tag (S k)) e k v)
      as (p & km & -> & Hh'); try done.
    + by apply (ready_16 F).
    + simpl. rewrite (proj1 (pis_of_eq w tag e He)). rewrite (drop_S (req_pis (e_pdu e)) v k); [done|].
      unfold req_pis. rewrite Hcnt, Nat2Z.id. by rewrite lookup_take_lt.
    + cbn [obind]. exists (Some (FRelease tag (S k) ret r)). do 3 eexists. split_and!; [done|exact Hh'|].
      apply effect_silent; try done. intros t' [= <-]. split; [done|]. by left.
  - destruct (kfree_pi_ok (e_pdu e) (w_km w) _ Hw) as (km & -> & Hlv). cbn [obind].
    exists (Some (FAdvance r)). do 3 eexists. split; [done|]. split.
    + apply (holds_drop q w es F (HRel tag k) (return_holdings r ++ H)); try done.
      intros t. apply (put_pdu_ne tag e _ (set_w_km km w)).
    + split; try done.
      * eexists. split; [done|]. split; [done|]. cbn [next_holdings task_holdings]. by rewrite bind_cons.
      * intros t' [= <-]. split; [done|]. by left.
Qed.

Lemma advance_ok q w es F r H :
  holds q w es F (return_holdings r ++ H) -> plain_step F (FAdvance r) q w H.
Proof.
  intros Hh. unfold plain_step. cbn [task_step]. unfold advance_section.
  pose proof (hd_ring _ _ _ _ _ Hh) as Hrg.
  destruct (advance_cmd_ring_wf es (Z.to_nat CMDR_SIZE) _ Hrg) as (t & E & Hr2).
  { by apply (ring_fuel_enough _ _ Hrg). }
  rewrite E. cbn [obind]. exists (Some (return_task r)). do 2 eexists. exists (drop_done es). split; [done|]. split.
  - replace (next_holdings (Some (return_task r))) with (return_holdings r) by (by destruct r).
    apply (holds_ring q w es _ F _ _ Hh Hr2). intros se hd Hin Hd. split; [|done]. by apply drop_done_keeps.
  - apply effect_silent; try done; [by destruct r|by destruct r| |by destruct r|by destruct r].
    intros t' [= <-]. split; [by destruct r|]. by destruct r.
Qed.

Lemma list_next_ok q w es F tmp ret H :
  holds q w es F (map HSub tmp ++ H) -> plain_step F (EList tmp ret) q w H.
Proof.
  intros Hh. unfold plain_step. destruct tmp as [|tag tmp]; cbn [task_step].
  - exists None, q, w, es. split_and!; [done|exact Hh|]. by apply effect_silent.
  - exists (Some (FMark tag ret (RList tmp ret))), q, w, es. split_and!; [done|exact Hh|].
    apply effect_silent; try done. intros t' [= <-]. split; [done|]. by left.
Qed.

(** The data of a read is copied out of pages the request owns. *)
Lemma read_data_ok q w es F tag h H e :
  holds q w es F (h :: H) -> hbits w h = pis_of w tag -> w_reqs w !! tag = Some e -> req_ready F e ->
  exists m, (if bool_decide (rq_op (e_rq e) = REQ_OP_READ) then
      copy_data_from_ubbdreq (data_pages_array (q_pool q)) (e_pdu e) (rq_bio (e_rq e)) (w_mem w)
    else Ok (w_mem w)) = Ok m.
Proof.
  intros Hh Hb He Hr. destruct (bool_decide_reflect (rq_op (e_rq e) = REQ_OP_READ)) as [Hrd|_]; [|by eauto].
  destruct (ready_bits q w es F tag h H e Hh Hb He Hr) as (Hw & Hnd & Hbt).
  destruct (pages_of_ok (q_pool q) (w_km w) _ F (e_pdu e) (hd_pool _ _ _ _ _ Hh) Hw Hnd Hbt)
    as (Hm & _ & _ & Hl). rewrite (rr_cnt _ _ Hr), Nat2Z.id in Hl.
  unfold copy_data_from_ubbdreq. pose proof (rqo_data _ _ (rr_rq _ _ Hr) (or_introl Hrd)) as Hne.
  destruct (rq_bio (e_rq e)) as [|b bio] eqn:Eb; [done|].
  apply (copy_from_segs_ok _ _ _ 0 (w_mem w) _ Hm). rewrite Hl. unfold n_segs, data_segs. by rewrite Hrd, Eb.
Qed.

Lemma read_ok q w es F tag off H :
  holds q w es F (HSub tag :: H) -> is_Some (ces (q_ring q) !! off) -> plain_step F (CFetched tag off) q w H.
Proof.
  intros Hh [ce Hce]. destruct (holds_lookup _ _ _ _ _ _ Hh) as (e & He & Hr & _). simpl in He.
  unfold plain_step. cbn [task_step]. unfold read_section. rewrite He. cbn [deref obind]. rewrite Hce.
  destruct (read_data_ok q w es F tag (HSub tag) H e Hh eq_refl He Hr) as [m ->].
  cbn [deref obind]. exists (Some (FMark tag (ce_result ce) RAgain)), q, (set_w_mem m w), es. split; [done|]. split.
  - by apply holds_mem.
  - apply effect_silent; try done. intros t' [= <-]. split; [done|]. by left.
Qed.

End completion.

(** ** Submission *)

Section submission.
Context `{L : UbbdAbiLaws} `{KL : KernelApiLaws} `{ML : KernelMemLaws}.
Implicit Types (q : ubbd_queue) (w : world) (es : list entry) (F : gset Z) (H : list holding) (h : holding).

Lemma put_pdu_id tag e w : w_reqs w !! tag = Some e -> put_pdu tag e (e_pdu e) w = w.
Proof.
  intros E. destruct w, e. unfold put_pdu, set_w_reqs. simpl in *. f_equal. by apply insert_id.
Qed.

Lemma room_det r es n : ring_wf r es -> room_for r n ->
  cmd_head (sb r) + n <= CMDR_SIZE /\ total es + n <= CMDR_SIZE - CMDR_RESERVED.
Proof. intros Hr (es' & Hr' & ?). by rewrite (ring_wf_det r es es' Hr Hr'). Qed.

Lemma ready_size F e : req_ready F e ->
  0 < ubbd_get_cmd_size (e_pdu e) < 2 ^ 22 /\ (UBBD_OP_ALIGN_SIZE | ubbd_get_cmd_size (e_pdu e)).
Proof. intros Hr. pose proof (ready_16 F e Hr). apply get_cmd_size_bound. rewrite (rr_cnt _ _ Hr). lia. Qed.

(** The request of the thread that holds [cmdr_lock] moves on. *)
Lemma holds_list q w es F tag H e q' es' u h :
  holds q w es F (HList tag :: H) -> w_reqs w !! tag = Some e -> req_pis u = req_pis (e_pdu e) ->
  q_pool q' = q_pool q -> q_req_tid q <= q_req_tid q' < 2 ^ 64 ->
  ring_wf (q_ring q') es' -> (forall se, kept q q' es es' se) ->
  (h = HList tag \/ h = HSub tag /\ forall se, ur_se u = Some se -> se ∉ es.*1) ->
  entry_ok q' es' F h (mk_rq_entry (e_rq e) (e_q e) u) ->
  (forall t, named_tid u = Some t -> named_tid (e_pdu e) = Some t \/ q_req_tid q < t) ->
  holds q' (put_pdu tag e u w) es' F (h :: H).
Proof.
  intros Hh He Hpi Ep Ht Hr Hk Hhs Hok Htid.
  set (w' := put_pdu tag e u w). pose proof (put_pdu_eq tag e u w : w_reqs w' !! tag = _) as He'.
  assert (htag h = tag /\ hnew h = [] /\ hbits w' h = hbits w (HList tag) /\ htid w' h = named_tid u)
    as (E1 & E2 & E3 & E4).
  { assert (pis_of w' tag = pis_of w tag) as Eb
      by (rewrite (proj1 (pis_of_eq w tag e He)), (proj1 (pis_of_eq w' tag _ He')); done).
    assert (pdu_of w' tag ≫= named_tid = named_tid u) as Et by (unfold pdu_of; by rewrite He').
    destruct Hhs as [->|[-> _]]; by split_and!. }
  apply (holds_step1 q w es F (HList tag) H); rewrite ?E2, ?E3, ?E4, ?Ep; try done; try apply Hh.
  - intros t Hne. by apply put_pdu_ne.
  - by apply (holds_bits_nodup _ _ _ _ _ _ Hh).
  - intros i Hi. split; [by apply (holds_bit _ _ _ _ _ _ i Hh)|by left].
  - exists (mk_rq_entry (e_rq e) (e_q e) u). by rewrite E1.
  - intros se Hse. right. destruct Hhs as [->|[-> Hn]]; [done|]. apply Hn.
    simpl in Hse. unfold pdu_of in Hse. by rewrite He' in Hse.
  - intros t Hn. simpl. unfold pdu_of. rewrite He. by apply Htid.
Qed.

(** The prepared request goes on the list, still without an id. *)
Lemma holds_ready_list q w es F tag H : holds q w es F (HReady tag :: H) -> holds q w es F (HList tag :: H).
Proof.
  intros Hh. destruct (holds_lookup _ _ _ _ _ _ Hh) as (e & He & Hr & Ht0 & _). simpl in He.
  apply (holds_step1 q w es F (HReady tag) H); try done; try apply Hh.
  - pose proof (hd_tid _ _ _ _ _ Hh). lia.
  - by apply (holds_bits_nodup _ _ _ _ _ _ Hh).
  - intros i Hi. split; [by apply (holds_bit _ _ _ _ _ _ i Hh)|by left].
  - exists e. split; [done|]. split; [done|]. pose proof (hd_tid _ _ _ _ _ Hh). lia.
  - intros t. simpl. unfold pdu_of. rewrite He. simpl. unfold named_tid. by rewrite Ht0.
Qed.

Lemma number_ok q w es F tag H e :
  holds q w es F (HList tag :: H) -> w_reqs w !! tag = Some e -> unsubmitted (e_pdu e) ->
  q_req_tid q + 1 < 2 ^ 64 ->
  exists o q' w' es', number_section tag q w = Ok (o, q', w') /\ holds q' w' es' F (HList tag :: H) /\
    sec_effect (WListed tag) o q w q' w' /\ next_listed o = [tag].
Proof.
  intros Hh He [Ht0 Hse] Htid. destruct (holds_lookup _ _ _ _ _ _ Hh) as (e' & He' & Hr & _). simpl in He'.
  simplify_eq. unfold number_section. rewrite He. cbn [deref obind].
  destruct (submit_ring_space_enough (q_ring q) (ubbd_get_cmd_size (e_pdu e))) eqn:Esp; cbn [negb].
  2: { exists (Some (WNoRoom tag)), q, w, es. split_and!; [done|done| |done].
       apply effect_silent; try done; [|by exists e]. intros t' [= <-]. split; [done|by left]. }
  pose proof (hd_tid _ _ _ _ _ Hh) as Htr. destruct (ready_size F e Hr) as [Hsz _].
  assert (0 < ubbd_get_cmd_size (e_pdu e) < 2 ^ 31) as Hsz' by lia.
  destruct (insert_padding_wf (q_ring q) es _ (hd_ring _ _ _ _ _ Hh) Hsz' Esp)
    as (pads & Hwf & Hfit & Htot & _ & Hbod & _).
  assert (u64 (q_req_tid q + 1) = q_req_tid q + 1) as Eu by (apply u64_small; lia).
  exists (Some (WNumbered tag)). do 2 eexists. exists (es ++ pads). split; [done|]. split_and!; [| |done].
  - apply (holds_list q w es F tag H e); simpl; rewrite ?Eu; try done; [lia|..].
    + intros se hd Hin _. split; [apply elem_of_app; by left|]. by apply (Hbod (se, hd)).
    + by left.
    + split; [by destruct Hr; split|lia].
    + intros t. unfold named_tid. simpl. destruct (_ =? 0); [done|]. intros [= <-]. right. lia.
  - apply effect_silent; try done; [apply insert_padding_compr|intros t' [= <-]; split; [done|by left]|].
    eexists. split; [apply put_pdu_eq|]. split; [|done]. split; simpl; rewrite ?Eu; [done|lia|].
    by exists (es ++ pads).
Qed.

Lemma enter_ok q w es F tag H :
  holds q w es F (HList tag :: H) -> entering_ok q w (WNumbered tag) ->
  exists q' w', enter_section tag q w = Ok (Some (WEntered tag), q', w') /\
    holds q' w' es F (HList tag :: H) /\ sec_effect (WNumbered tag) (Some (WEntered tag)) q w q' w'.
Proof.
  intros Hh (e & He & [Htid Hpos Hroom] & Hse).
  destruct (holds_lookup _ _ _ _ _ _ Hh) as (e' & He' & Hr & _). simpl in He'. simplify_eq.
  unfold enter_section. rewrite He. cbn [deref obind]. unfold queue_req_se_init, get_submit_entry.
  pose proof (hd_ring _ _ _ _ _ Hh) as Hrg. pose proof (hd_tid _ _ _ _ _ Hh) as Htr.
  destruct (room_det _ _ _ Hrg Hroom) as [Hfit Htot]. destruct (ready_size F e Hr) as [Hsz _].
  pose proof cmdr_reserved_bound. destruct (ring_wf_head _ _ Hrg) as (_ & Hhb & _).
  set (n := ubbd_get_cmd_size (e_pdu e)) in *.
  assert (forall en, en ∈ es -> en.1 <> cmd_head (sb (q_ring q)) /\ outside (cmd_head (sb (q_ring q))) n en.1 = true)
    as Hfree.
  { intros en Hen. split; [apply (free_space_ne _ es n)|apply (free_space_outside _ es)]; done || lia. }
  do 2 eexists. split; [done|]. set (r1 := put_body _ _ _).
  assert (ring_wf r1 es) as Hr1.
  { apply (ring_wf_keep (q_ring q)); [done|done|]. intros en Hen. destruct (Hfree en Hen) as [Hne Ho].
    simpl. rewrite lookup_insert_ne by done. by apply lookup_ring_memset. }
  split.
  - apply (holds_list q w es F tag H e); try done; [simpl; lia| |by left|split; [by destruct Hr; split|simpl; lia]|by auto].
    intros se hd Hin _. destruct (Hfree _ Hin) as [Hne Ho]. split; [done|]. simpl in Hne |- *.
    rewrite lookup_insert_ne by done. by apply (lookup_ring_memset _ _ (q_ring q)).
  - apply effect_silent; try done; [intros t' [= <-]; split; [done|by left]|].
    eexists. split; [apply put_pdu_eq|]. split; simpl; rewrite ?lookup_insert_eq; try done.
    + split; [done|done|]. by exists es.
    + eexists. split; [done|]. split; [apply (hdr_get_set_len _ n); [lia|apply (ready_size F e Hr)]|].
      unfold entry_done. simpl. rewrite hdr_flags_set_len, hdr_flags_set_op. apply hdr_zeroed_not_done.
    + eexists. split; [done|]. split; [done|]. apply length_replicate.
Qed.

Lemma publish_ok q w es F tag H :
  holds q w es F (HList tag :: H) -> entering_ok q w (WEntered tag) ->
  exists q' es', publish_section tag q w = Ok (None, q', w) /\
    holds q' w es' F (HSub tag :: H) /\ q_inflight q' = q_inflight q /\ q_status q' = q_status q /\
    same_compr (q_ring q) (q_ring q').
Proof.
  intros Hh (e & He & [[Htid Hpos Hroom] Hse (hd & Hhd & Hlen & Hnd) (b & Hb & Hp & Hl)]).
  destruct (holds_lookup _ _ _ _ _ _ Hh) as (e' & He' & Hr & _). simpl in He'. simplify_eq.
  pose proof (hd_ring _ _ _ _ _ Hh) as Hrg. pose proof (hd_tid _ _ _ _ _ Hh) as Htr.
  destruct (room_det _ _ _ Hrg Hroom) as [Hfit Htot]. destruct (ready_size F e Hr) as [Hsz Hal].
  pose proof Hr as [Hrq Hop Hcnt Hw]. rewrite Hcnt, Nat2Z.id in Hl. pose proof cmdr_reserved_bound.
  set (head := cmd_head (sb (q_ring q))) in *.
  destruct (data_init_ok (q_ring q) (data_off (q_pool q)) (e_rq e) _ (e_pdu e) F head b Hop Hrq eq_refl Hcnt Hw Hse Hb Hl)
    as (r1 & b1 & E & Hsb & Hces & Hhds & Hbod & Hb1 & Hp1).
  unfold publish_section. rewrite He. cbn [deref obind]. rewrite E. cbn [obind].
  assert (cmd_head (sb r1) = head) as Eh by (by rewrite Hsb).
  assert (ring_wf (UPDATE_CMDR_HEAD u64 (ubbd_get_cmd_size (e_pdu e)) r1) (es ++ [(head, hd)])) as Hwf.
  { rewrite <- Eh. apply ring_extend; rewrite ?Hhds, ?Eh; try done; [|lia|intros x Hx; apply u64_small; lia].
    apply (ring_wf_keep (q_ring q)); [done|done|]. intros; by rewrite Hhds. }
  eexists. exists (es ++ [(head, hd)]). split; [done|]. split.
  2: { split_and!; try done; repeat split; simpl; by rewrite ?Hsb, ?Hces. }
  assert (forall en, en ∈ es -> en.1 <> head) as Hne
    by (intros en Hen; apply (free_space_ne _ es (ubbd_get_cmd_size (e_pdu e))); done || lia).
  rewrite <- (put_pdu_id tag e w He) at 1.
  apply (holds_list q w es F tag H e); try done; [| |right; split; [done|]| |by auto].
  - simpl. lia.
  - intros se hd' Hin _. split; [apply elem_of_app; by left|]. simpl. apply Hbod. by apply (Hne (se, hd')).
  - rewrite Hse. intros se [= <-] Hin. apply list_elem_of_fmap in Hin as (en & Een & Hen). by apply (Hne en Hen).
  - split; [by split|]. split; simpl; [lia|]. exists head, hd, b1. split_and!; try done; [|congruence].
    rewrite elem_of_app, list_elem_of_singleton. auto.
Qed.
End submission.

(** ** What a section leaves to the others *)

Section sections.
Context `{A : UbbdAbi} `{K : KernelApi} `{M : KernelMem}.
Implicit Types (q : ubbd_queue) (w : world) (t : task).

(** The request whose entry of the table a section may write. *)
Definition task_tag (t : task) : option Z :=
  match t with
  | QStarting tag | WStart tag | WRunning tag | WPage tag _ _ _ | WAlloc tag _ _ | WUndo tag _ _
  | WCopy tag | WPrepared tag | WListed tag | WNumbered tag | WEntered tag | WNoRoom tag
  | CStore tag _ | CFetched tag _ | FMark tag _ _ | FRelease tag _ _ _ => Some tag
  | CStart | CAgain | CEntry _ | FAdvance _ | EList _ _ | SFlush | RFlush _ | RSplice => None
  end.

(** Threads that wait for the work queue. *)
Definition waiting (t : task) : bool := stopping t || removing t && negb (splicing t).

(** Only the driver's part of one request changes. *)
Definition reqs_step (o : option Z) (w w' : world) : Prop :=
  w_reqs w' = w_reqs w \/
  exists tag e x u, o = Some tag /\ w_reqs w !! tag = Some e /\
    w_reqs w' = <[tag := mk_rq_entry (e_rq e) x u]> (w_reqs w).

Definition same_cmd (r r' : ring) : Prop :=
  cmdr_size (sb r') = cmdr_size (sb r) /\ cmd_head (sb r') = cmd_head (sb r) /\
  cmd_tail (sb r') = cmd_tail (sb r) /\ hdrs r' = hdrs r /\ bodies r' = bodies r.

(** Outside [cmdr_lock] the command ring changes by the flag of an entry. *)
Definition cmd_step (t : task) (q : ubbd_queue) (w : world) (r' : ring) : Prop :=
  same_cmd (q_ring q) r' \/
  exists tag ret rt e se, t = FMark tag ret rt /\ w_reqs w !! tag = Some e /\ ur_se (e_pdu e) = Some se /\
    se_flags_set se UBBD_SE_HDR_DONE (q_ring q) = Ok r'.

Record step_frame (t : task) (q : ubbd_queue) (w : world) (o : option task) (q' : ubbd_queue) (w' : world)
  : Prop := {
  sf_reqs : reqs_step (task_tag t) w w';
  sf_next : match o with Some t' => waiting t' = false | None => True end;
  sf_ids : 0 <= q_req_tid q -> q_req_tid q + 1 < 2 ^ 64 -> q_req_tid q' <= q_req_tid q + 1;
  sf_cmd : cmdr_section t = false -> q_req_tid q' = q_req_tid q /\ cmd_step t q w (q_ring q');
}.

Lemma deref_some {X} (o : option X) f x : deref o f = Ok x -> o = Some x.
Proof. destruct o; [by intros [= ->]|done]. Qed.

(** The branches of a section that returns. *)
Local Ltac branches H :=
  repeat (cbv zeta in H; lazymatch type of H with
    | obind _ _ = Ok _ => inv_ok H
    | match ?x with _ => _ end = Ok _ => let E := fresh "E" in destruct x eqn:E; try done
    end);
  injection H as <- <- <-.

Local Ltac reqs_done :=
  first [ by left
        | left; by rewrite (proj1 (end_request_reqs _ _ _))
        | right; do 4 eexists; split_and!; [done|by eapply deref_some|done]
        | right; do 4 eexists; split_and!; [done|by eapply deref_some|by rewrite (proj1 (end_request_reqs _ _ _))]
        | right; do 4 eexists; split_and!; [done|by eapply deref_some|by simpl; rewrite insert_insert_eq] ].

Local Ltac ids_done := intros; simpl; first [lia | rewrite u64_small; lia].

Lemma task_frame t q w o q' w' : task_step t q w = Ok (o, q', w') -> step_frame t q w o q' w'.
Proof.
  assert (forall r, same_cmd r r) as Hrefl by (by repeat split).
  destruct t; cbn [task_step]; intros H.
  all: unfold rq_section, work_start, prepare_section, page_section, alloc_section, undo_section, copy_section,
    list_section, number_section, enter_section, publish_section, no_room_section, complete_section,
    entry_section, fetch_section, store_section, read_section, mark_section, release_section, advance_section,
    splice_section, first_section, stopped_section, removed_section in H.
  all: branches H.
  all: split; cbn [task_tag].
  all: try reqs_done; try ids_done; try (intros; split; [done|by left]); try done;
    try (by destruct r); try (by destruct force); try (by destruct (bool_decide _); simpl; lia).
  - intros _. split; [done|]. right. do 5 eexists. split_and!; [done|by eapply deref_some..|done].
  - destruct (bool_decide _); intros _; (split; [done|by left]).
Qed.
End sections.
