(* ===== verification/ThreadsLock.v ===== *)
(** * One thread next to the others

    The state seen from one thread ([rest]: what everything else holds), and the
    thread that holds [cmdr_lock]: at most one does, and what it knows of the
    ring and of its request ([entering_ok]) survives every section the other
    threads may run meanwhile ([entering_step]). *)

From S2P Require Import Prelude Abi Ring Pages Request Queue Operation Threads ThreadsInv ThreadsStep.

Section lists.
Context `{L : UbbdAbiLaws} `{KL : KernelApiLaws} `{ML : KernelMemLaws}.
Implicit Types (ts : list task) (H : list holding).

Definition next_tasks (o : option task) : list task := match o with Some t => [t] | None => [] end.

Lemma set_task_perm ts k t o : ts !! k = Some t -> set_task k o ts ≡ₚ next_tasks o ++ delete k ts.
Proof.
  intros Hk. destruct o as [t'|]; simpl; [|done].
  rewrite insert_take_drop by (by eapply lookup_lt_Some). rewrite delete_take_drop.
  by rewrite Permutation_middle.
Qed.

Lemma inflight_holdings_ext ls ls' l :
  (forall t, t ∈ l -> t ∈ ls <-> t ∈ ls') -> inflight_holdings ls l = inflight_holdings ls' l.
Proof.
  intros E. apply map_ext_in. intros t Ht. apply list_elem_of_In in Ht.
  destruct (decide (t ∈ ls)) as [H1|H1], (decide (t ∈ ls')) as [H2|H2]; try done.
  - by apply E in H1.
  - by apply E in H2.
Qed.

Lemma inflight_tags ls l : htag <$> inflight_holdings ls l = l.
Proof.
  induction l as [|t l IH]; [done|]. cbn [inflight_holdings map fmap list_fmap]. f_equal; [|exact IH].
  by destruct (decide _).
Qed.

Lemma inflight_started ls l : inflight_holdings ls l ≫= started_tag = l.
Proof.
  induction l as [|t l IH]; [done|]. cbn [inflight_holdings map]. rewrite bind_cons.
  change (map _ l) with (inflight_holdings ls l). rewrite IH. by destruct (decide _).
Qed.

Lemma works_started l : map HWork l ≫= started_tag = l.
Proof. induction l as [|t l IH]; [done|]. cbn [map]. by rewrite bind_cons, IH. Qed.

Lemma works_new l : map HWork l ≫= hnew = [].
Proof. induction l as [|t l IH]; [done|]. cbn [map]. by rewrite bind_cons, IH. Qed.

Lemma inflight_new ls l : inflight_holdings ls l ≫= hnew = [].
Proof.
  induction l as [|t l IH]; [done|]. cbn [inflight_holdings map]. rewrite bind_cons.
  change (map _ l) with (inflight_holdings ls l). rewrite IH. by destruct (decide _).
Qed.

Lemma subs_new l : map HSub l ≫= hnew = [].
Proof. induction l as [|t l IH]; [done|]. cbn [map]. by rewrite bind_cons, IH. Qed.

Lemma task_new t : (length (task_holdings t ≫= hnew) <= 1)%nat.
Proof.
  assert (forall r, return_holdings r ≫= hnew = []) as Hr by (intros [|]; [done|apply subs_new]).
  destruct t as [| | |? ? ? [|]| | | | | | | | | | | | | |? ? r|? ? ? r|r|l ?| | |];
    cbn [task_holdings]; rewrite ?bind_cons, ?Hr, ?subs_new; simpl; lia.
Qed.

(** What the rest of the queue holds next to one thread. *)
Definition rest (q : ubbd_queue) (w : world) (ls : list Z) ts : list holding :=
  map HWork (w_wq w) ++ inflight_holdings ls (q_inflight q) ++ (ts ≫= task_holdings).

Lemma rest_few q w ls ts : Z.of_nat (length ts) <= PID_MAX_LIMIT -> few (rest q w ls ts).
Proof.
  intros Hl. unfold few, rest. rewrite !bind_app, works_new, inflight_new. cbn [app].
  enough (length ((ts ≫= task_holdings) ≫= hnew) <= length ts)%nat by lia.
  clear Hl. induction ts as [|t ts IH]; [done|]. rewrite bind_cons, bind_app, length_app.
  pose proof (task_new t). cbn [length]. lia.
Qed.

Lemma holdings_cons q w t ts rf :
  holdings (mk_conc q w (t :: ts) rf) ≡ₚ task_holdings t ++ rest q w (listed (t :: ts)) ts.
Proof.
  unfold holdings, rest. cbn [c_q c_w c_tasks]. rewrite bind_cons.
  rewrite (Permutation_app_swap_app (inflight_holdings _ _) (task_holdings t)).
  apply Permutation_app_swap_app.
Qed.

Lemma holdings_next q w o ts rf ls :
  listed (next_tasks o ++ ts) = ls ->
  holdings (mk_conc q w (next_tasks o ++ ts) rf) ≡ₚ next_holdings o ++ rest q w ls ts.
Proof.
  intros <-. destruct o as [t|]; [apply holdings_cons|done].
Qed.

Lemma live_tags_eq q w ts rf :
  live_tags (mk_conc q w ts rf) = w_wq w ++ q_inflight q ++ ((ts ≫= task_holdings) ≫= started_tag).
Proof.
  unfold live_tags, holdings. by rewrite !bind_app, works_started, inflight_started.
Qed.

(** The order of the threads does not matter. *)
Lemma conc_inv_perm F q w ts ts' rf :
  ts ≡ₚ ts' -> conc_inv F (mk_conc q w ts rf) -> conc_inv F (mk_conc q w ts' rf).
Proof.
  intros E [(es & Hh) [Hl1 Hl2] Hc Hen Hcm Ht Hs Hf Hb]. cbn [c_q c_w c_tasks c_refused] in *.
  assert (listed ts ≡ₚ listed ts') as El by (unfold listed; by rewrite E).
  split; cbn [c_q c_w c_tasks c_refused]; try done.
  - exists es. enough (holdings (mk_conc q w ts rf) ≡ₚ holdings (mk_conc q w ts' rf)) as <- by done.
    unfold holdings. cbn [c_q c_w c_tasks].
    rewrite (inflight_holdings_ext (listed ts) (listed ts')) by (intros t _; by rewrite El). by rewrite E.
  - split; [by rewrite <- El|]. intros t. rewrite <- El. apply Hl2.
  - by rewrite <- E.
  - by rewrite <- E.
  - by rewrite <- E.
  - by rewrite <- E.
  - by rewrite <- E.
  - rewrite Hb, !live_tags_eq, E. done.
Qed.

Lemma inv_holds F q w t ts rf :
  conc_inv F (mk_conc q w (t :: ts) rf) ->
  exists es, holds q w es F (task_holdings t ++ rest q w (listed (t :: ts)) ts).
Proof. intros [(es & Hh) _ _ _ _ _ _ _ _]. exists es. by rewrite <- (holdings_cons q w t ts rf). Qed.

Lemma inv_few F q w t ts rf ls : conc_inv F (mk_conc q w (t :: ts) rf) -> few (rest q w ls ts).
Proof. intros Hc. apply rest_few. pose proof (cv_few _ _ Hc) as Hf. simpl in Hf. lia. Qed.

Lemma inv_listed F q w t ts rf :
  conc_inv F (mk_conc q w (t :: ts) rf) ->
  NoDup (task_listed t ++ listed ts) /\ task_listed t ++ listed ts ⊆ q_inflight q.
Proof. intros Hc. exact (cv_listed _ _ Hc). Qed.

Lemma list_del_perm tag l : tag ∈ l -> NoDup l -> l ≡ₚ tag :: list_del tag l.
Proof.
  intros Hin Hnd. induction l as [|x l IH]; [by apply elem_of_nil in Hin|].
  apply NoDup_cons in Hnd as [Hx Hnd]. unfold list_del in *. destruct (decide (x = tag)) as [->|Hne].
  - rewrite filter_cons_False by auto. f_equiv. clear -Hx.
    induction l as [|y l IH]; [done|]. apply not_elem_of_cons in Hx as [Hy Hx].
    rewrite filter_cons_True by auto. f_equiv. by apply IH.
  - rewrite filter_cons_True by done. apply elem_of_cons in Hin as [->|Hin]; [done|].
    rewrite Permutation_swap. f_equiv. by apply IH.
Qed.

(** One request of the list. *)
Lemma inflight_split ls l tag : tag ∈ l -> NoDup l ->
  inflight_holdings ls l ≡ₚ
    (if decide (tag ∈ ls) then HList tag else HSub tag) :: inflight_holdings ls (list_del tag l).
Proof.
  intros Hin Hnd. unfold inflight_holdings. rewrite (list_del_perm tag l Hin Hnd) at 1. done.
Qed.

Lemma inflight_cons_del tag ls l : inflight_holdings (tag :: ls) (list_del tag l) = inflight_holdings ls (list_del tag l).
Proof.
  apply inflight_holdings_ext. intros t Ht. apply elem_of_list_del in Ht as [_ Ht].
  rewrite elem_of_cons. by split; [intros [|]|auto].
Qed.

Lemma rest_tags q w ls ts : htag <$> rest q w ls ts = w_wq w ++ q_inflight q ++ (htag <$> (ts ≫= task_holdings)).
Proof.
  unfold rest. rewrite !fmap_app, inflight_tags. f_equal.
  induction (w_wq w) as [|t l IH]; [done|]. cbn [map fmap list_fmap]. by f_equal.
Qed.

Lemma holds_inflight q w es F H ls ts :
  holds q w es F (H ++ rest q w ls ts) -> NoDup (q_inflight q) /\
  (forall h, h ∈ H -> htag h ∉ q_inflight q).
Proof.
  intros Hh. pose proof (hd_tags _ _ _ _ _ Hh) as Hta. rewrite fmap_app, rest_tags in Hta.
  apply NoDup_app in Hta as (_ & Hd & Hta). apply NoDup_app in Hta as (_ & _ & Hta).
  apply NoDup_app in Hta as (Hta & _). split; [done|]. intros h Hin Hf.
  apply (Hd (htag h)); [by apply list_elem_of_fmap_2|]. rewrite !elem_of_app. auto.
Qed.

(** Bringing one request of the list to the front of the holdings. *)
Lemma rest_split q w ls ts tag : tag ∈ q_inflight q -> NoDup (q_inflight q) ->
  rest q w ls ts ≡ₚ (if decide (tag ∈ ls) then HList tag else HSub tag) ::
    rest (set_q_inflight (list_del tag (q_inflight q)) q) w ls ts.
Proof.
  intros Hin Hnd. unfold rest. simpl q_inflight. rewrite (inflight_split ls _ tag Hin Hnd).
  cbn [app]. symmetry. apply Permutation_middle.
Qed.

End lists.

(** ** The holder of [cmdr_lock] *)

Section lock.
Context `{L : UbbdAbiLaws} `{KL : KernelApiLaws} `{ML : KernelMemLaws}.
Implicit Types (q : ubbd_queue) (w : world) (es : list entry) (F : gset Z) (H : list holding) (t : task) (ts : list task) (r : ring).

Lemma room_cmd_step t q w r' n : cmd_step t q w r' -> room_for (q_ring q) n ->
  room_for r' n /\ cmd_head (sb r') = cmd_head (sb (q_ring q)) /\ bodies r' = bodies (q_ring q).
Proof.
  intros [(E1 & E2 & E3 & E4 & E5)|(tag & ret & rt & e & se & _ & _ & _ & Ef)] (es & Hr & Hfit & Htot).
  - rewrite E2. split; [|done]. exists es. rewrite E2. split; [|done].
    destruct Hr. split; rewrite ?E1, ?E2, ?E3, ?E4; done.
  - unfold se_flags_set in Ef. inv_ok Ef. apply deref_some in E. injection Ef as <-.
    destruct (se_flags_set_wf _ _ _ _ Hr E) as [_ Hr']. split; [|done].
    exists (mark_done se es). by rewrite total_mark_done.
Qed.

Lemma numbered_step t q w q' u : cmd_step t q w (q_ring q') -> q_req_tid q' = q_req_tid q ->
  numbered q u -> numbered q' u.
Proof.
  intros Hs Et [H1 H2 H3]. split; rewrite ?Et; [done|done|]. by apply (room_cmd_step t q w (q_ring q')).
Qed.

(** A completer marks an entry of the ring, not the one being written. *)
Lemma entered_step F q w es t H q' u :
  cmd_step t q w (q_ring q') -> q_req_tid q' = q_req_tid q -> 0 < ubbd_get_cmd_size u ->
  holds q w es F (task_holdings t ++ H) -> entered q u -> entered q' u.
Proof.
  intros Hs Et Hpos Hh [Hn Hse (hd & Hhd & Hlen & Hnd) Hb].
  destruct (room_cmd_step t q w (q_ring q') _ Hs (nb_room _ _ Hn)) as (_ & Eh & Eb).
  split; rewrite ?Eh, ?Eb; [by apply (numbered_step t q w)|done| |done].
  exists hd. split; [|done].
  destruct Hs as [(_ & _ & _ & -> & _)|(tag & ret & rt & e & se & -> & He & Ese & Ef)]; [done|].
  destruct (room_det _ _ _ (hd_ring _ _ _ _ _ Hh) (nb_room _ _ Hn)) as [Hfit Htot].
  cbn [task_holdings app] in Hh.
  destruct (holds_lookup _ _ _ _ _ _ Hh) as (e' & He' & _ & [_ (se' & hd' & b & Ese' & Hin & _)]).
  simpl in He'. simplify_eq. unfold se_flags_set in Ef. inv_ok Ef. injection Ef as <-. simpl.
  rewrite lookup_insert_ne; [done|]. pose proof cmdr_reserved_bound.
  apply (free_space_ne _ es (ubbd_get_cmd_size u) (se, hd') (hd_ring _ _ _ _ _ Hh)); done || lia.
Qed.

(** What the block layer, the backend and the manager do leaves it alone. *)
Lemma entering_keep q w q' w' t :
  q_req_tid q' = q_req_tid q -> same_cmd (q_ring q) (q_ring q') ->
  (forall tag, task_listed t = [tag] -> w_reqs w' !! tag = w_reqs w !! tag) ->
  entering_ok q w t -> entering_ok q' w' t.
Proof.
  intros Et Hs Hr. assert (forall u, numbered q u -> numbered q' u) as Hn
    by (intros u; apply (numbered_step CStart q w); [by left|done]).
  destruct t; try done; cbn [entering_ok]; rewrite (Hr _ eq_refl); try done.
  - intros (e & He & Hu & ?). exists e. auto.
  - destruct Hs as (_ & Eh & _ & Ehd & Eb). intros (e & He & [Hu Hse Hhd Hb]). exists e. split; [done|].
    split; rewrite ?Eh, ?Ehd, ?Eb; auto.
Qed.

(** Threads submit different requests. *)
Lemma own_tag_listed F q w t ts rf tag tag' :
  conc_inv F (mk_conc q w (t :: ts) rf) -> task_tag t = Some tag -> tag' ∈ listed ts -> tag' <> tag.
Proof.
  intros Hc Ht Hin ->. destruct (inv_holds _ _ _ _ _ _ Hc) as (es & Hh).
  destruct (inv_listed _ _ _ _ _ _ Hc) as [Hl1 Hl2]. destruct (holds_inflight _ _ _ _ _ _ _ Hh) as [_ Hni].
  apply NoDup_app in Hl1 as (_ & Hd & _).
  assert (tag ∈ q_inflight q) as Hi by (apply Hl2, elem_of_app; by right).
  destruct t; try discriminate Ht; injection Ht as ->;
    first [ by apply (Hd tag); [left|]
          | by apply (Hni (HNew tag)); [left|] | by apply (Hni (HWork tag)); [left|]
          | by eapply (Hni (HPages tag _ _ _)); [left|] | by apply (Hni (HReady tag)); [left|]
          | by apply (Hni (HSub tag)); [left|] | by eapply (Hni (HRel tag _)); [left|] ].
Qed.

Lemma listed_ready F q w ts rf tag e :
  conc_inv F (mk_conc q w ts rf) -> tag ∈ listed ts -> w_reqs w !! tag = Some e -> req_ready F e.
Proof.
  intros Hc Hin He. destruct (cv_holds _ _ Hc) as [es Hh]. pose proof (hd_ok _ _ _ _ _ Hh) as Hok.
  rewrite Forall_forall in Hok. destruct (Hok (HList tag)) as (e' & He' & Hr & _).
  - unfold holdings. cbn [c_q c_w c_tasks]. rewrite !elem_of_app. right. left.
    unfold inflight_holdings. apply list_elem_of_fmap. exists tag. rewrite decide_True by done.
    split; [done|]. by apply (cv_listed _ _ Hc).
  - simpl in He'. by simplify_eq.
Qed.

Lemma cmdr_alone F q w t ts rf :
  conc_inv F (mk_conc q w (t :: ts) rf) -> holds_cmdr t = true -> Forall (fun t => holds_cmdr t = false) ts.
Proof.
  intros Hc Ht. pose proof (cv_cmdr _ _ Hc) as Hl. cbn [c_tasks] in Hl. rewrite filter_cons_True in Hl by done.
  cbn [length] in Hl. apply Forall_forall. intros t' Hin. apply not_true_is_false. intros Ht'.
  assert (t' ∈ filter (fun t => holds_cmdr t = true) ts) as Hf by (by apply list_elem_of_filter).
  destruct (filter _ ts); [by apply elem_of_nil in Hf|simpl in Hl; lia].
Qed.

Lemma no_holder ts : Forall (fun t => holds_cmdr t = false) ts -> filter (fun t => holds_cmdr t = true) ts = [].
Proof. induction 1 as [|t ts Ht _ IH]; [done|]. rewrite filter_cons_False; [done|]. by rewrite Ht. Qed.

(** The section of one thread, for the submissions of all. *)
Lemma entering_step F q w t ts rf o q' w' :
  conc_inv F (mk_conc q w (t :: ts) rf) -> task_step t q w = Ok (o, q', w') ->
  (cmdr_section t = true -> Forall (fun t => holds_cmdr t = false) ts) ->
  match o with Some t' => entering_ok q' w' t' | None => True end ->
  match o with Some t' => implb (holds_cmdr t') (cmdr_section t) = true | None => True end ->
  Forall (entering_ok q' w') (next_tasks o ++ ts) /\
  (length (filter (fun t => holds_cmdr t = true) (next_tasks o ++ ts)) <= 1)%nat.
Proof.
  intros Hc E Hlk Ho Hcm. destruct (task_frame _ _ _ _ _ _ E) as [Hrq _ _ Hcmd]. split.
  - apply Forall_app. split; [destruct o; by repeat constructor|].
    pose proof (cv_enter _ _ Hc) as Hen. cbn [c_q c_w c_tasks] in Hen. apply Forall_cons in Hen as [_ Hen].
    rewrite Forall_forall in Hen |- *. intros t' Hin. specialize (Hen t' Hin).
    assert (forall tag', task_listed t' = [tag'] -> tag' ∈ listed ts /\ w_reqs w' !! tag' = w_reqs w !! tag') as Hsame.
    { intros tag' El. assert (tag' ∈ listed ts) as Hli
        by (apply list_elem_of_bind; exists t'; rewrite El; split; [by left|done]).
      split; [done|]. destruct Hrq as [->|(tag & e & x & u & Et & _ & ->)]; [done|].
      apply lookup_insert_ne. intros <-. by apply (own_tag_listed _ _ _ _ _ _ _ _ Hc Et Hli). }
    assert (holds_cmdr t' = true -> cmdr_section t = false) as Hno.
    { intros Ht'. apply not_true_is_false. intros Ht. specialize (Hlk Ht). rewrite Forall_forall in Hlk.
      by rewrite (Hlk t' Hin) in Ht'. }
    destruct (inv_holds _ _ _ _ _ _ Hc) as (es & Hh).
    destruct t'; try done; destruct (Hsame _ eq_refl) as [Hli Hr]; cbn [entering_ok] in *; rewrite Hr; [done| | |done];
      destruct (Hcmd (Hno eq_refl)) as [Et Hs]; destruct Hen as (e & He & Hen); exists e; (split; [done|]).
    + destruct Hen as [Hen ?]. split; [|done]. by apply (numbered_step t q w).
    + eapply (entered_step F q w es t); [done|done| |done|done].
      apply (ready_size F). apply (listed_ready F q w (t :: ts) rf tag); [done| |done].
      unfold listed. rewrite bind_cons. apply elem_of_app. by right.
  - pose proof (cv_cmdr _ _ Hc) as Hl. cbn [c_tasks] in Hl. rewrite filter_app, length_app.
    assert (forall t0 l, length (filter (fun t => holds_cmdr t = true) l) <=
      length (filter (fun t => holds_cmdr t = true) (t0 :: l)))%nat as Hle
      by (intros t0 l; rewrite filter_cons; destruct (decide _); simpl; lia).
    specialize (Hle t ts). destruct o as [t'|]; cbn [next_tasks]; [|simpl; lia].
    rewrite filter_cons. destruct (decide (holds_cmdr t' = true)) as [Ht'|]; [|simpl; lia].
    rewrite Ht' in Hcm. specialize (Hlk Hcm).
    rewrite (no_holder ts Hlk). simpl. lia.
Qed.
End lock.
