(* ===== verification/ThreadsRun.v ===== *)
(** * The invariant of the threads

    Every step of [Threads.conc_step] that can happen returns a state, and the
    state satisfies [conc_inv] again: first the sections of the threads, then
    what the block layer, the backend and the manager do. *)

From S2P Require Import Prelude Abi Ring Pages Request Queue Operation Threads ThreadsInv ThreadsStep ThreadsLock.

(** ** Sections that touch only what their thread owns *)

Section tasks.
Context `{L : UbbdAbiLaws} `{KL : KernelApiLaws} `{ML : KernelMemLaws}.
Implicit Types (q : ubbd_queue) (w : world) (es : list entry) (F : gset Z) (H : list holding) (ts : list task).

(** The section of the first thread returns, and the invariant holds again. *)
Definition task_goal F q w t ts (rf : list Z) : Prop :=
  exists o q' w', task_step t q w = Ok (o, q', w') /\
    conc_inv F (mk_conc q' w' (next_tasks o ++ ts) (rf ++ newly_refused t w w')).

Lemma same_compr_wf_ex r r' : same_compr r r' -> (exists cs, compr_wf r cs) -> exists cs, compr_wf r' cs.
Proof. intros Hs [cs Hc]. exists cs. by apply (same_compr_wf r). Qed.

Lemma task_ok_same q q' t :
  q_status q' = q_status q -> ces (q_ring q') = ces (q_ring q) -> task_ok q t -> task_ok q' t.
Proof. intros E1 E2. destruct t; simpl; unfold removed_status; rewrite ?E1, ?E2; done. Qed.

Lemma next_tasks_length o : (length (next_tasks o) <= 1)%nat.
Proof. destruct o; simpl; lia. Qed.

(** No splicing thread runs with a work past its status test. *)
Lemma splice_next F q w t ts rf o :
  conc_inv F (mk_conc q w (t :: ts) rf) ->
  (forall t', o = Some t' -> splicing t' = false /\
    (working t' = true -> working t = true \/ ~ removed_status q)) ->
  Exists (fun t => splicing t = true) (next_tasks o ++ ts) ->
  Forall (fun t => working t = false) (next_tasks o ++ ts).
Proof.
  intros Hc Ho Hx.
  assert (Exists (fun t => splicing t = true) ts) as Hts.
  { apply Exists_app in Hx as [Hx|]; [|done]. destruct o as [t'|]; [|by apply Exists_nil in Hx].
    destruct (Ho t' eq_refl) as [E _]. apply Exists_cons in Hx as [Hx|Hx]; [congruence|by apply Exists_nil in Hx]. }
  pose proof (cv_splice _ _ Hc (Exists_cons_tl _ Hts)) as Hw. simpl in Hw.
  apply Forall_cons in Hw as [Hw1 Hw2]. apply Forall_app. split; [|done].
  destruct o as [t'|]; [|constructor]. constructor; [|constructor].
  destruct (Ho t' eq_refl) as [_ Hw']. destruct (working t'); [|done]. exfalso.
  destruct (Hw' eq_refl) as [|Hs]; [congruence|]. apply Hs.
  apply Exists_exists in Hts as (x & Hx1 & Hx2). pose proof (cv_tasks _ _ Hc) as Hto. simpl in Hto.
  apply Forall_cons in Hto as [_ Hto]. rewrite Forall_forall in Hto. specialize (Hto x Hx1).
  by destruct x.
Qed.

Lemma plain_inv F q w t ts rf :
  conc_inv F (mk_conc q w (t :: ts) rf) -> (forall w', newly_refused t w w' = []) ->
  (cmdr_section t = true -> Forall (fun t => holds_cmdr t = false) ts) ->
  plain_step F t q w (rest q w (listed (t :: ts)) ts) -> task_goal F q w t ts rf.
Proof.
  intros Hc Hnr Hlk (o & q' & w' & es' & E & Hh & [Ei Es Ec Ew (evs & Eb & Est & Een) El Ep Een' Ecm]).
  destruct (entering_step F q w t ts rf o q' w' Hc E Hlk Een' Ecm) as [Hen Hcm].
  exists o, q', w'. split; [done|]. rewrite Hnr, app_nil_r.
  assert (listed (next_tasks o ++ ts) = listed (t :: ts)) as Elist.
  { unfold listed. rewrite bind_cons, bind_app, <- El. destruct o; simpl; [by rewrite app_nil_r|done]. }
  assert (rest q' w' (listed (t :: ts)) ts = rest q w (listed (t :: ts)) ts) as Erest
    by (unfold rest; by rewrite Ew, Ei).
  split; cbn [c_q c_w c_tasks c_refused].
  - exists es'. rewrite (holdings_next q' w' o ts rf _ Elist), Erest. done.
  - rewrite Elist, Ei. apply (cv_listed _ _ Hc).
  - apply (same_compr_wf_ex (q_ring q)); [done|]. apply (cv_compr _ _ Hc).
  - done.
  - done.
  - pose proof (cv_tasks _ _ Hc) as Ht. simpl in Ht. apply Forall_cons in Ht as [_ Ht].
    apply Forall_app. split.
    + destruct o as [t'|]; [|constructor]. constructor; [|constructor].
      destruct (Ep t' eq_refl) as [Hp _]. by destruct t'.
    + eapply Forall_impl; [exact Ht|]. intros x. apply task_ok_same; [done|apply Ec].
  - apply (splice_next _ _ _ _ _ _ _ Hc). intros t' E'. destruct (Ep t' E') as [Hp ?]. split; [by destruct t'|done].
  - pose proof (cv_few _ _ Hc) as Hf. simpl in Hf. rewrite length_app. pose proof (next_tasks_length o). lia.
  - pose proof (cv_ledger _ _ Hc) as Hl. simpl in Hl. rewrite live_tags_eq, bind_cons, bind_app in Hl.
    rewrite Eb, starts_app, ends_app, Est, app_nil_r, Hl, live_tags_eq, bind_app, bind_app, Ew, Ei, <- Een.
    replace (next_tasks o ≫= task_holdings) with (next_holdings o) by (destruct o; simpl; [by rewrite app_nil_r|done]).
    rewrite <- !app_assoc. apply Permutation_app_head.
    rewrite (Permutation_app_swap_app (ends evs) rf). apply Permutation_app_head.
    rewrite (Permutation_app_swap_app (ends evs) (w_wq w)). apply Permutation_app_head.
    by rewrite (Permutation_app_swap_app (ends evs) (q_inflight q)).
Qed.

(** The invariant after a section of the first thread. *)
Lemma goal_intro F q w t ts rf q' w' o rf' :
  conc_inv F (mk_conc q w (t :: ts) rf) -> task_step t q w = Ok (o, q', w') ->
  rf' = rf ++ newly_refused t w w' ->
  (cmdr_section t = true -> Forall (fun t => holds_cmdr t = false) ts) ->
  match o with Some t' => entering_ok q' w' t' | None => True end ->
  match o with Some t' => implb (holds_cmdr t') (cmdr_section t) = true | None => True end ->
  (exists es', holds q' w' es' F (holdings (mk_conc q' w' (next_tasks o ++ ts) rf'))) ->
  NoDup (listed (next_tasks o ++ ts)) -> listed (next_tasks o ++ ts) ⊆ q_inflight q' ->
  (exists cs, compr_wf (q_ring q') cs) ->
  Forall (task_ok q') (next_tasks o ++ ts) ->
  (forall t', o = Some t' -> splicing t' = false /\
    (working t' = true -> working t = true \/ ~ removed_status q)) ->
  starts (w_blk w') ≡ₚ ends (w_blk w') ++ rf' ++ live_tags (mk_conc q' w' (next_tasks o ++ ts) rf') ->
  task_goal F q w t ts rf.
Proof.
  intros Hc E -> Hlk Hen Hcm Hh Hl1 Hl2 Hcw Hto Ho Hb.
  destruct (entering_step F q w t ts rf o q' w' Hc E Hlk Hen Hcm) as [Hen' Hcm'].
  exists o, q', w'. split; [done|]. split; cbn [c_q c_w c_tasks c_refused]; try done.
  - by apply (splice_next F q w t ts rf o).
  - pose proof (cv_few _ _ Hc) as Hf. simpl in Hf. rewrite length_app. pose proof (next_tasks_length o). lia.
Qed.

(** The other threads do not see what leaves the status and the entries. *)
Lemma tasks_same F q w t ts rf q' o :
  conc_inv F (mk_conc q w (t :: ts) rf) -> q_status q' = q_status q -> ces (q_ring q') = ces (q_ring q) ->
  (forall t', o = Some t' -> task_ok q' t') -> Forall (task_ok q') (next_tasks o ++ ts).
Proof.
  intros Hc E1 E2 Ho. apply Forall_app. split.
  - destruct o as [t'|]; [|constructor]. constructor; [by apply Ho|constructor].
  - pose proof (cv_tasks _ _ Hc) as Ht. simpl in Ht. apply Forall_cons in Ht as [_ Ht].
    eapply Forall_impl; [exact Ht|]. intros x. by apply task_ok_same.
Qed.

(** [ubbd_queue_rq] starts the request and queues its work, or refuses it. *)
Lemma starting_inv F q w tag ts rf :
  conc_inv F (mk_conc q w (QStarting tag :: ts) rf) -> task_goal F q w (QStarting tag) ts rf.
Proof.
  intros Hc. destruct (inv_holds _ _ _ _ _ _ Hc) as (es & Hh). cbn [task_holdings app] in Hh.
  destruct (holds_lookup _ _ _ _ _ _ Hh) as (e & He & Hok). simpl in He, Hok.
  destruct (inv_listed _ _ _ _ _ _ Hc) as [Hl1 Hl2]. cbn [task_listed app] in Hl1, Hl2.
  pose proof (cv_ledger _ _ Hc) as Hl. simpl in Hl. rewrite live_tags_eq in Hl.
  rewrite bind_cons in Hl. cbn [task_holdings app] in Hl. rewrite bind_cons in Hl. cbn [started_tag app] in Hl.
  pose proof (eq_refl : task_step (QStarting tag) q w = rq_section tag q w) as E.
  unfold rq_section at 1 in E. rewrite He in E. cbn [deref obind] in E.
  destruct (op_of_req_op (rq_op (e_rq e))) as [op|] eqn:Eop;
    match type of E with _ = Ok (_, _, ?x) => set (w' := x) in E end.
  - apply (goal_intro F q w (QStarting tag) ts rf q w' None rf Hc); cbn [next_tasks app]; try done.
    + cbn [newly_refused]. rewrite bool_decide_eq_false_2; [by rewrite app_nil_r|].
      intros Ew. apply (f_equal length) in Ew. simpl in Ew. rewrite length_app in Ew. simpl in Ew. lia.
    + exists es. rewrite (holdings_next q w' None ts rf (listed ts)) by done.
      cbn [next_holdings app]. unfold rest. simpl w_wq. rewrite map_app. cbn [map].
      rewrite <- app_assoc. cbn [app]. rewrite <- Permutation_middle.
      apply (holds_req q w es F (HNew tag) _ w' (HWork tag) (ubbd_req_init q op (e_rq e)) Hh); try done.
      * intros t Hne. simpl. by rewrite !lookup_insert_ne.
      * simpl. by rewrite lookup_insert_eq.
      * simpl. split; [done|]. by exists op.
    + by apply (cv_compr _ _ Hc).
    + by apply (tasks_same _ _ _ _ _ _ _ None Hc).
    + simpl w_blk. rewrite starts_app, ends_app, Hl, live_tags_eq. simpl w_wq. cbn [next_tasks app].
      cbn [starts ends omap list_omap]. rewrite app_nil_r, <- !app_assoc.
      do 3 apply Permutation_app_head. rewrite (Permutation_app_comm [tag]).
      by rewrite <- !app_assoc.
  - apply (goal_intro F q w (QStarting tag) ts rf q w' None (rf ++ [tag]) Hc); cbn [next_tasks app]; try done.
    + cbn [newly_refused]. by rewrite bool_decide_eq_true_2.
    + exists es. rewrite (holdings_next q w' None ts (rf ++ [tag]) (listed ts)) by done.
      cbn [next_holdings app].
      apply (holds_drop q w es F (HNew tag) _ w' Hh); try done.
      intros t Hne. simpl. by rewrite !lookup_insert_ne.
    + by apply (cv_compr _ _ Hc).
    + by apply (tasks_same _ _ _ _ _ _ _ None Hc).
    + simpl w_blk. rewrite starts_app, ends_app, Hl, live_tags_eq. cbn [next_tasks app].
      cbn [starts ends omap list_omap]. rewrite app_nil_r, <- !app_assoc.
      do 2 apply Permutation_app_head. rewrite (Permutation_app_comm [tag]). by rewrite <- !app_assoc.
Qed.
End tasks.

(** ** Sections on [inflight_reqs] *)

Section inflight.
Context `{L : UbbdAbiLaws} `{KL : KernelApiLaws} `{ML : KernelMemLaws}.
Implicit Types (q : ubbd_queue) (w : world) (es : list entry) (F : gset Z) (H : list holding) (ts : list task).

Lemma list_inv F q w tag ts rf :
  conc_inv F (mk_conc q w (WPrepared tag :: ts) rf) -> task_goal F q w (WPrepared tag) ts rf.
Proof.
  intros Hc. destruct (inv_holds _ _ _ _ _ _ Hc) as (es & Hh).
  destruct (inv_listed _ _ _ _ _ _ Hc) as [Hl1 Hl2]. cbn [task_listed app] in Hl1, Hl2.
  destruct (holds_inflight _ _ _ _ [HReady tag] _ _ Hh) as [Hnd Hni].
  specialize (Hni (HReady tag) ltac:(by left)). simpl in Hni.
  destruct (holds_lookup _ _ _ _ _ _ Hh) as (e & He & _ & Hun). simpl in He.
  set (q' := set_q_inflight (q_inflight q ++ [tag]) q).
  assert (listed (WListed tag :: ts) = tag :: listed ts) as El by done.
  apply (goal_intro F q w (WPrepared tag) ts rf q' w (Some (WListed tag)) rf Hc);
    [done|by rewrite app_nil_r|done|by exists e|done|..].
  - exists es. rewrite (holdings_next q' w _ ts rf _ eq_refl). cbn [next_tasks app next_holdings task_holdings].
    rewrite (rest_split q' w _ ts tag).
    2: { simpl. apply elem_of_app. right. by left. }
    2: { simpl. apply NoDup_app. split_and!; [done| |apply NoDup_singleton].
         intros x Hx Hxt. by apply list_elem_of_singleton in Hxt as ->. }
    rewrite El, decide_True by (by left).
    apply (holds_same q w es F); try done; [|apply Hh].
    replace (rest _ w (tag :: listed ts) ts) with (rest q w (listed ts) ts).
    { by apply holds_ready_list. }
    unfold rest. simpl q_inflight. rewrite list_del_app by done.
    rewrite (inflight_holdings_ext (tag :: listed ts) (listed ts)); [done|].
    intros t Ht. rewrite elem_of_cons. split; [intros [->|]; done|auto].
  - cbn [next_tasks app]. rewrite El. constructor; [|done]. intros Hin. by apply Hni, Hl2.
  - cbn [next_tasks app]. rewrite El. simpl. intros t. rewrite elem_of_cons, elem_of_app.
    intros [->|Ht]; [right; by left|left; by apply Hl2].
  - apply (cv_compr _ _ Hc).
  - apply (tasks_same _ _ _ _ _ _ _ _ Hc); try done. by intros t' [= <-].
  - intros t' [= <-]. split; [done|]. by left.
  - pose proof (cv_ledger _ _ Hc) as Hl. simpl in Hl. rewrite live_tags_eq in *.
    cbn [next_tasks app] in *. rewrite !bind_cons in *. cbn [task_holdings app] in *.
    rewrite bind_cons in Hl. cbn [started_tag htag] in Hl. rewrite Hl. simpl q_inflight.
    rewrite <- !app_assoc. done.
Qed.

(** The request of a submitting thread, in front of the rest. *)
Lemma listed_split F q w t tag ts rf :
  conc_inv F (mk_conc q w (t :: ts) rf) -> task_listed t = [tag] -> task_holdings t = [] ->
  exists es, holds q w es F (HList tag :: rest (set_q_inflight (list_del tag (q_inflight q)) q) w (tag :: listed ts) ts) /\
    tag ∈ q_inflight q /\ NoDup (q_inflight q) /\ (tag ∉ listed ts) /\ NoDup (listed ts) /\
    listed ts ⊆ q_inflight q.
Proof.
  intros Hc El Eh. destruct (inv_holds _ _ _ _ _ _ Hc) as (es & Hh). rewrite Eh in Hh. cbn [app] in Hh.
  destruct (inv_listed _ _ _ _ _ _ Hc) as [Hl1 Hl2]. rewrite El in Hl1, Hl2. cbn [app] in Hl1, Hl2.
  apply NoDup_cons in Hl1 as [Hnl Hl1]. destruct (holds_inflight q w es F [] _ _ Hh) as [Hnd _].
  assert (tag ∈ q_inflight q) as Hin by (apply Hl2; by left).
  exists es. split_and!; try done; [|intros t' Ht'; apply Hl2; by right].
  assert (listed (t :: ts) = tag :: listed ts) as Els by (unfold listed; by rewrite bind_cons, El).
  rewrite (rest_split q w _ ts tag Hin Hnd), Els, decide_True in Hh by (by left). exact Hh.
Qed.

(** A section under [cmdr_lock] before the last: the request stays on the list. *)
Lemma submitting_plain F q w t tag ts rf :
  conc_inv F (mk_conc q w (t :: ts) rf) -> task_listed t = [tag] -> task_holdings t = [] ->
  (forall es H, holds q w es F (HList tag :: H) -> exists o q' w' es', task_step t q w = Ok (o, q', w') /\
     holds q' w' es' F (HList tag :: H) /\ sec_effect t o q w q' w' /\ next_listed o = [tag]) ->
  plain_step F t q w (rest q w (listed (t :: ts)) ts).
Proof.
  intros Hc El Eh Hst. destruct (listed_split F q w t tag ts rf Hc El Eh) as (es & Hh & Hin & Hnd & _).
  destruct (Hst es _ Hh) as (o & q' & w' & es' & E & Hh' & Hef & Ho). exists o, q', w', es'.
  split_and!; [done| |done].
  assert (next_holdings o = []) as -> by (destruct o as [t'|]; [by destruct t'; simpl in *; simplify_eq|done]).
  assert (listed (t :: ts) = tag :: listed ts) as Els by (unfold listed; by rewrite bind_cons, El).
  cbn [app]. by rewrite (rest_split q w _ ts tag Hin Hnd), Els, decide_True by (by left).
Qed.

(** The last one: the request is submitted. *)
Lemma publish_inv F q w tag ts rf :
  conc_inv F (mk_conc q w (WEntered tag :: ts) rf) -> task_goal F q w (WEntered tag) ts rf.
Proof.
  intros Hc. destruct (listed_split F q w _ tag ts rf Hc eq_refl eq_refl) as (es & Hh & Hin & Hnd & Hnl & Hl1 & Hl2).
  pose proof (cv_enter _ _ Hc) as Hen. cbn [c_q c_w c_tasks] in Hen. apply Forall_cons in Hen as [Hen _].
  destruct (publish_ok q w es F tag _ Hh Hen) as (q' & es' & E & Hh' & Ei & Es & Ec).
  apply (goal_intro F q w (WEntered tag) ts rf q' w None rf Hc); cbn [next_tasks app]; try done.
  - by rewrite app_nil_r.
  - intros _. by apply (cmdr_alone _ _ _ _ _ _ Hc).
  - exists es'. rewrite (holdings_next q' w None ts rf _ eq_refl). cbn [next_tasks app next_holdings].
    rewrite (rest_split q' w _ ts tag), decide_False by (rewrite ?Ei; done).
    unfold rest in Hh' |- *. simpl q_inflight in Hh' |- *. by rewrite inflight_cons_del, <- Ei in Hh'.
  - by rewrite Ei.
  - apply (same_compr_wf_ex (q_ring q)); [done|]. apply (cv_compr _ _ Hc).
  - apply (tasks_same _ _ _ _ _ _ _ None Hc); [done|apply Ec|done].
  - pose proof (cv_ledger _ _ Hc) as Hl. simpl in Hl. rewrite live_tags_eq in *.
    rewrite bind_cons in Hl. cbn [task_holdings app] in Hl. by rewrite Ei.
Qed.

Lemma no_room_inv F q w tag ts rf :
  conc_inv F (mk_conc q w (WNoRoom tag :: ts) rf) -> task_goal F q w (WNoRoom tag) ts rf.
Proof.
  intros Hc. destruct (listed_split F q w _ tag ts rf Hc eq_refl eq_refl) as (es & Hh & Hin & Hnd & Hnl & Hl1 & Hl2).
  set (q' := set_q_inflight _ q) in *. set (w' := end_request (- ENOMEM) tag w).
  destruct (end_request_reqs (- ENOMEM) tag w) as [Er Ek].
  destruct (end_request_blk (- ENOMEM) tag w) as (ev & Eb & Est & Een & Ew). fold w' in Er, Ek, Eb, Ew.
  apply (goal_intro F q w (WNoRoom tag) ts rf q' w' None rf Hc); cbn [next_tasks app];
    [done|by rewrite app_nil_r|done|done|done|..].
  - exists es. rewrite (holdings_next q' w' None ts rf _ eq_refl). cbn [next_tasks app next_holdings].
    apply (holds_same q w' es F); try done; [|apply Hh].
    replace (rest q' w' (listed ts) ts) with (rest q' w (tag :: listed ts) ts).
    + apply (holds_drop q w es F (HList tag) _ w' Hh); rewrite ?Er, ?Ek; done.
    + unfold rest. simpl q_inflight. by rewrite Ew, inflight_cons_del.
  - done.
  - simpl. intros t Ht. apply elem_of_list_del. split; [by apply Hl2|]. by intros ->.
  - apply (cv_compr _ _ Hc).
  - by apply (tasks_same _ _ _ _ _ _ _ None Hc).
  - done.
  - pose proof (cv_ledger _ _ Hc) as Hl. simpl in Hl. rewrite live_tags_eq in *.
    rewrite bind_cons in Hl. cbn [task_holdings app] in Hl.
    rewrite Eb, starts_app, ends_app, Est, Een, app_nil_r, Hl, Ew. simpl q_inflight.
    rewrite (list_del_perm tag (q_inflight q) Hin Hnd) at 1. rewrite <- !app_assoc.
    apply Permutation_app_head. rewrite (Permutation_app_swap_app [tag] rf). apply Permutation_app_head.
    rewrite (Permutation_app_swap_app [tag] (w_wq w)). by apply Permutation_app_head.
Qed.
End inflight.

(** ** Completers, and the ends of stopping and removing *)

Section completers.
Context `{L : UbbdAbiLaws} `{KL : KernelApiLaws} `{ML : KernelMemLaws}.
Implicit Types (q : ubbd_queue) (w : world) (es : list entry) (F : gset Z) (H : list holding) (ts : list task).

Lemma entry_inv F q w ts rf :
  conc_inv F (mk_conc q w (CAgain :: ts) rf) -> task_goal F q w CAgain ts rf.
Proof.
  intros Hc. destruct (inv_holds _ _ _ _ _ _ Hc) as (es & Hh). cbn [task_holdings app] in Hh.
  destruct (cv_compr _ _ Hc) as [cs Hcs]. simpl in Hcs.
  destruct (get_complete_entry_spec _ _ Hcs) as [Eg Hce].
  destruct cs as [|c cs].
  - apply plain_inv; [done|done|done|]. exists None, q, w, es. cbn [task_step]. unfold entry_section. rewrite Eg.
    split_and!; [done|exact Hh|]. by apply effect_silent.
  - set (q' := set_q_ring (UPDATE_COMPR_TAIL u64 sizeof_ubbd_ce (q_ring q)) q).
    apply (goal_intro F q w CAgain ts rf q' w (Some (CEntry (compr_tail (sb (q_ring q))))) rf Hc);
      [cbn [task_step]; unfold entry_section; by rewrite Eg|by rewrite app_nil_r|done|done|done|..].
    + exists es. rewrite (holdings_next q' w _ ts rf _ eq_refl).
      apply (holds_same q w es F); try done. apply ring_wf_compr_tail, Hh.
    + apply (inv_listed _ _ _ _ _ _ Hc).
    + apply (inv_listed _ _ _ _ _ _ Hc).
    + exists cs. apply (compr_pop _ _ _ _ Hcs sizeof_ce_le). intros. apply u64_small. lia.
    + apply (tasks_same _ _ _ _ _ _ _ _ Hc); [done|done|]. intros t' [= <-]. simpl. by exists c.
    + intros t' [= <-]. split; [done|]. by left.
    + exact (cv_ledger _ _ Hc).
Qed.

Lemma find_inflight_tid w l tid tag : find_inflight w l tid = Some tag ->
  tag ∈ l /\ exists e, w_reqs w !! tag = Some e /\ ur_req_tid (e_pdu e) = tid.
Proof.
  induction l as [|t l IH]; [done|]. simpl. rewrite elem_of_cons. destruct (w_reqs w !! t) as [e|] eqn:E.
  - destruct (Z.eqb_spec (ur_req_tid (e_pdu e)) tid) as [Et|]; [|intros Hf; destruct (IH Hf); auto].
    intros [= <-]. split; [by left|]. by exists e.
  - intros Hf. destruct (IH Hf); auto.
Qed.

(** A status that does not undo a removal is not seen by the threads. *)
Lemma task_ok_stop q q' t : ces (q_ring q') = ces (q_ring q) ->
  q_status q' = q_status q \/ removed_status q' -> task_ok q t -> task_ok q' t.
Proof. intros E [Es|Es]; [by apply task_ok_same|]. destruct t; simpl; rewrite ?E; done. Qed.

Lemma fetch_inv F q w off ts rf :
  conc_inv F (mk_conc q w (CEntry off :: ts) rf) -> names_submitted q w ts off ->
  task_goal F q w (CEntry off) ts rf.
Proof.
  intros Hc Hns. destruct (inv_holds _ _ _ _ _ _ Hc) as (es & Hh). cbn [task_holdings app] in Hh.
  destruct (inv_listed _ _ _ _ _ _ Hc) as [Hl1 Hl2]. cbn [task_listed app] in Hl1, Hl2.
  pose proof (cv_tasks _ _ Hc) as Hto. simpl in Hto. apply Forall_cons in Hto as [[ce Hce] Hto].
  destruct (holds_inflight q w es F [] _ _ Hh) as [Hnd _].
  assert (task_step (CEntry off) q w = fetch_section off q w) as E by done.
  unfold fetch_section in E. rewrite Hce in E. cbn [deref obind] in E.
  destruct (find_inflight _ _ _) as [tag|] eqn:Ef.
  2: { apply plain_inv; [done|done|done|]. exists (Some CAgain), q, w, es. split_and!; [done|exact Hh|].
       apply effect_silent; try done. intros t' [= <-]. split; [done|]. by left. }
  destruct (find_inflight_tid _ _ _ _ Ef) as (Hin & _). pose proof (Hns ce tag Hce Ef) as Hnl.
  set (q1 := set_q_inflight (list_del tag (q_inflight q)) q) in *.
  assert (exists t', task_step (CEntry off) q w = Ok (Some t', q1, w) /\ (t' = CStore tag off \/ t' = CFetched tag off))
    as (t' & E' & Ht') by (rewrite E; destruct (_ && _); eauto).
  assert (listed (t' :: ts) = listed ts /\ task_holdings t' = [HSub tag] /\ holds_cmdr t' = false) as (El & Eh & Ehc)
    by (by destruct Ht' as [->| ->]).
  apply (goal_intro F q w (CEntry off) ts rf q1 w (Some t') rf Hc); cbn [next_tasks app]; rewrite ?El.
  - done.
  - by rewrite app_nil_r.
  - done.
  - by destruct Ht' as [->| ->].
  - by rewrite Ehc.
  - exists es. rewrite (holdings_next q1 w (Some t') ts rf _ El). cbn [next_holdings]. rewrite Eh.
    apply (holds_same q w es F); try done; [|apply Hh].
    change (listed (CEntry off :: ts)) with (listed ts) in Hh.
    rewrite (rest_split q w _ ts tag Hin Hnd), decide_False in Hh by done. exact Hh.
  - done.
  - intros t Ht. apply elem_of_list_del. split; [by apply Hl2|]. by intros ->.
  - apply (cv_compr _ _ Hc).
  - constructor; [destruct Ht' as [->| ->]; by exists ce|]. eapply Forall_impl; [exact Hto|].
    intros x. by apply task_ok_same.
  - intros x [= <-]. destruct Ht' as [->| ->]; (split; [done|by left]).
  - pose proof (cv_ledger _ _ Hc) as Hl. simpl in Hl. rewrite live_tags_eq in *. cbn [next_tasks app] in *.
    rewrite !bind_cons in *. cbn [task_holdings app] in *. rewrite Eh. cbn [app]. rewrite bind_cons. cbn [started_tag htag].
    rewrite Hl, (list_del_perm tag (q_inflight q) Hin Hnd) at 1.
    do 3 apply Permutation_app_head. apply Permutation_middle.
Qed.

(** A completer or [queue_stop] stores [STOPPED]. *)
Lemma stop_tasks F q w t ts rf o :
  conc_inv F (mk_conc q w (t :: ts) rf) -> (forall t' q', o = Some t' -> task_ok q t -> ces (q_ring q') = ces (q_ring q) -> task_ok q' t') ->
  Forall (task_ok (set_q_status UBBD_QUEUE_KSTATUS_STOPPED q)) (next_tasks o ++ ts).
Proof.
  intros Hc Ho. pose proof (cv_tasks _ _ Hc) as Hto. simpl in Hto. apply Forall_cons in Hto as [Ht Hto].
  apply Forall_app. split.
  - destruct o as [t'|]; [|constructor]. constructor; [by apply (Ho t')|constructor].
  - eapply Forall_impl; [exact Hto|]. intros x. apply task_ok_stop; [done|]. right. by right.
Qed.

Lemma store_inv F q w tag off ts rf :
  conc_inv F (mk_conc q w (CStore tag off :: ts) rf) -> task_goal F q w (CStore tag off) ts rf.
Proof.
  intros Hc. destruct (inv_holds _ _ _ _ _ _ Hc) as (es & Hh).
  set (q' := set_q_status UBBD_QUEUE_KSTATUS_STOPPED q).
  apply (goal_intro F q w (CStore tag off) ts rf q' w (Some (CFetched tag off)) rf Hc);
    [done|by rewrite app_nil_r|done|done|done|..].
  - exists es. rewrite (holdings_next q' w _ ts rf _ eq_refl). apply (holds_same q w es F); try done. apply Hh.
  - apply (inv_listed _ _ _ _ _ _ Hc).
  - apply (inv_listed _ _ _ _ _ _ Hc).
  - apply (cv_compr _ _ Hc).
  - apply (stop_tasks F q w (CStore tag off) ts rf (Some (CFetched tag off)) Hc). intros t' x [= <-] Ht Ec. simpl in *. by rewrite Ec.
  - intros t' [= <-]. split; [done|]. by left.
  - exact (cv_ledger _ _ Hc).
Qed.

Lemma stop_inv F q w ts rf :
  conc_inv F (mk_conc q w (SFlush :: ts) rf) -> task_goal F q w SFlush ts rf.
Proof.
  intros Hc. destruct (inv_holds _ _ _ _ _ _ Hc) as (es & Hh).
  set (q' := if bool_decide (q_inflight q = []) then set_q_status UBBD_QUEUE_KSTATUS_STOPPED q else q).
  assert (q_inflight q' = q_inflight q /\ q_pool q' = q_pool q /\ q_req_tid q' = q_req_tid q /\
    q_ring q' = q_ring q) as (Ei & Ep & Etd & Er) by (unfold q'; by destruct (bool_decide _)).
  apply (goal_intro F q w SFlush ts rf q' w None rf Hc); cbn [next_tasks app];
    [done|by rewrite app_nil_r|done|done|done|..].
  - exists es. rewrite (holdings_next q' w None ts rf _ eq_refl).
    apply (holds_same q w es F); rewrite ?Er; try done; [|apply Hh].
    replace (rest q' w _ ts) with (rest q w (listed ts) ts); [exact Hh|]. unfold rest. by rewrite Ei.
  - apply (inv_listed _ _ _ _ _ _ Hc).
  - rewrite Ei. apply (inv_listed _ _ _ _ _ _ Hc).
  - rewrite Er. apply (cv_compr _ _ Hc).
  - unfold q'. destruct (bool_decide _); [by apply (stop_tasks F q w SFlush ts rf None Hc)|].
    by apply (tasks_same _ _ _ _ _ _ _ None Hc).
  - done.
  - pose proof (cv_ledger _ _ Hc) as Hl. simpl in Hl. rewrite live_tags_eq in *. by rewrite Ei.
Qed.

(** Past the flush no work is past its status test. *)
Lemma remove_flush_inv F q w force ts rf :
  conc_inv F (mk_conc q w (RFlush force :: ts) rf) -> Forall (fun t => is_work t = false) ts ->
  task_goal F q w (RFlush force) ts rf.
Proof.
  intros Hc Hfl. destruct force.
  2: { apply plain_inv; [done|done|done|]. destruct (inv_holds _ _ _ _ _ _ Hc) as (es & Hh).
       exists None, q, w, es. split_and!; [done|exact Hh|]. by apply effect_silent. }
  pose proof (cv_tasks _ _ Hc) as Hto. simpl in Hto. apply Forall_cons in Hto as [Hst Hto].
  exists (Some RSplice), q, w. split; [done|]. cbn [newly_refused next_tasks app]. rewrite app_nil_r.
  destruct Hc as [Hh Hl Hcw Hen Hcm _ _ Hf Hb]. split; try done; cbn [c_tasks].
  - apply Forall_cons in Hen as [_ Hen]. by constructor.
  - by constructor.
  - intros _. constructor; [done|]. eapply Forall_impl; [exact Hfl|]. by intros [].
Qed.

Lemma no_works_listed ts : Forall (fun t => working t = false) ts -> listed ts = [].
Proof.
  induction 1 as [|t ts Ht _ IH]; [done|]. unfold listed in *. rewrite bind_cons, IH, app_nil_r. by destruct t.
Qed.

Lemma splice_inv F q w ts rf :
  conc_inv F (mk_conc q w (RSplice :: ts) rf) -> task_goal F q w RSplice ts rf.
Proof.
  intros Hc. destruct (inv_holds _ _ _ _ _ _ Hc) as (es & Hh). cbn [task_holdings app] in Hh.
  pose proof (cv_splice _ _ Hc (Exists_cons_hd (fun t => splicing t = true) RSplice ts eq_refl)) as Hw. simpl in Hw.
  pose proof (no_works_listed _ Hw) as El0. apply Forall_cons in Hw as [_ Hw].
  pose proof (no_works_listed _ Hw) as El.
  set (q' := set_q_inflight [] q).
  apply (goal_intro F q w RSplice ts rf q' w (Some (EList (q_inflight q) (- EIO))) rf Hc);
    [done|by rewrite app_nil_r|done|done|done|..].
  - exists es. rewrite (holdings_next q' w _ ts rf _ eq_refl). cbn [next_tasks app next_holdings task_holdings].
    apply (holds_same q w es F); try done; [|apply Hh].
    rewrite El0 in Hh. unfold rest in *. simpl q_inflight. cbn [inflight_holdings map app].
    replace (inflight_holdings [] (q_inflight q)) with (map HSub (q_inflight q)) in Hh.
    + by rewrite (Permutation_app_swap_app (map HSub _)).
    + apply map_ext. intros t. rewrite decide_False; [done|]. apply not_elem_of_nil.
  - cbn [next_tasks app]. change (listed (EList (q_inflight q) (- EIO) :: ts)) with (listed ts). rewrite El. constructor.
  - cbn [next_tasks app]. change (listed (EList (q_inflight q) (- EIO) :: ts)) with (listed ts). rewrite El.
    intros t Ht. by apply elem_of_nil in Ht.
  - apply (cv_compr _ _ Hc).
  - apply (tasks_same _ _ _ _ _ _ _ _ Hc); try done. by intros t' [= <-].
  - intros t' [= <-]. split; [done|]. by left.
  - pose proof (cv_ledger _ _ Hc) as Hl. simpl in Hl. rewrite live_tags_eq in *. cbn [next_tasks app] in *.
    rewrite !bind_cons in *. cbn [task_holdings app] in *. rewrite bind_app. simpl q_inflight. cbn [app].
    replace (map HSub (q_inflight q) ≫= started_tag) with (q_inflight q); [done|].
    clear. induction (q_inflight q) as [|t l IH]; [done|]. cbn [map]. rewrite bind_cons. simpl. by f_equal.
Qed.

(** Sections outside [inflight_reqs], the rings' tails and the flushes. *)
Definition own_section (t : task) : bool :=
  match t with
  | QStarting _ | WPrepared _ | WEntered _ | WNoRoom _ | CAgain | CEntry _ | CStore _ _ | SFlush | RFlush _ | RSplice => false
  | _ => true
  end.

Lemma task_plain F q w t ts rf :
  conc_inv F (mk_conc q w (t :: ts) rf) -> own_section t = true -> q_req_tid q + 1 < 2 ^ 64 ->
  plain_step F t q w (rest q w (listed (t :: ts)) ts).
Proof.
  intros Hc Ho Htid. pose proof (cv_enter _ _ Hc) as Hen. cbn [c_q c_w c_tasks] in Hen. apply Forall_cons in Hen as [Hen _].
  destruct (inv_holds _ _ _ _ _ _ Hc) as (es & Hh).
  pose proof (inv_few _ _ _ _ _ _ (listed (t :: ts)) Hc) as Hfew.
  pose proof (cv_tasks _ _ Hc) as Hto. simpl in Hto. apply Forall_cons in Hto as [Hto _].
  destruct t; try discriminate Ho; cbn [task_holdings app] in Hh.
  - by apply (work_start_ok q w es).
  - by apply (prepare_ok q w es).
  - by apply (page_ok q w es).
  - by apply (alloc_ok q w es).
  - by apply (undo_ok q w es).
  - by apply (copy_ok q w es).
  - destruct Hen as (e & He & Hun). apply (submitting_plain F q w _ tag ts rf Hc eq_refl eq_refl).
    intros es1 H1 Hh1. by apply (number_ok q w es1 F tag H1 e).
  - apply (submitting_plain F q w _ tag ts rf Hc eq_refl eq_refl). intros es1 H1 Hh1.
    destruct (enter_ok q w es1 F tag H1 Hh1 Hen) as (q1 & w1 & E1 & ? & ?).
    by exists (Some (WEntered tag)), q1, w1, es1.
  - unfold plain_step. cbn [task_step]. unfold complete_section.
    destruct (_ =? _); [exists None, q, w, es|exists (Some CAgain), q, w, es]; (split_and!; [done|exact Hh|]);
      apply effect_silent; try done. intros t' [= <-]. split; [done|]. by left.
  - by apply (read_ok q w es).
  - by apply (mark_ok q w es).
  - by apply (release_ok q w es).
  - by apply (advance_ok q w es).
  - by apply (list_next_ok q w es).
Qed.

(** Every section of every thread. *)
Lemma task_inv F q w t ts rf :
  conc_inv F (mk_conc q w (t :: ts) rf) -> q_req_tid q + 1 < 2 ^ 64 ->
  (stopping t || removing t && negb (splicing t) = true -> Forall (fun t => is_work t = false) ts) ->
  (takes_lock t = Some CMDR_LOCK -> Forall (fun t => holds_cmdr t = false) ts) ->
  (forall off, t = CEntry off -> names_submitted q w ts off) ->
  task_goal F q w t ts rf.
Proof.
  intros Hc Htid Hfl Hlk Hns. destruct (own_section t) eqn:Ho.
  { apply plain_inv; [done|by destruct t| |by apply (task_plain F q w t ts rf)].
    intros Hcs. destruct t; try done; (by apply Hlk) || by apply (cmdr_alone _ _ _ _ _ _ Hc). }
  destruct t; try discriminate Ho.
  - by apply starting_inv.
  - by apply list_inv.
  - by apply publish_inv.
  - by apply no_room_inv.
  - by apply entry_inv.
  - apply fetch_inv; [done|]. by apply Hns.
  - by apply store_inv.
  - by apply stop_inv.
  - apply remove_flush_inv; [done|]. by apply Hfl.
  - by apply splice_inv.
Qed.
End completers.

(** ** Every step *)

Section steps.
Context `{L : UbbdAbiLaws} `{KL : KernelApiLaws} `{ML : KernelMemLaws}.
Implicit Types (q : ubbd_queue) (w : world) (es : list entry) (F : gset Z) (H : list holding) (ts : list task).

Lemma names_submitted_delete q w ts k t off :
  ts !! k = Some t -> names_submitted q w ts off -> names_submitted q w (delete k ts) off.
Proof.
  intros Hk Hns ce tag Hce Hf Hin. apply (Hns ce tag Hce Hf). unfold listed.
  rewrite (delete_Permutation ts k t Hk), bind_cons. apply elem_of_app. by right.
Qed.

Lemma task_step_inv F c k :
  conc_inv F c -> conc_can F (OpTask k) c -> exists c', conc_step (OpTask k) c = Ok c' /\ conc_inv F c'.
Proof.
  destruct c as [q w ts rf]. intros Hc (_ & t & Hk & Htid & Hfl & Hlk & Hns). simpl in Hk, Htid, Hfl, Hlk, Hns.
  pose proof (delete_Permutation ts k t Hk) as Hp.
  destruct (task_inv F q w t (delete k ts) rf) as (o & q' & w' & E & Hc').
  - by apply (conc_inv_perm F q w ts).
  - done.
  - intros Hs. destruct (Hfl Hs) as [_ Hw]. simpl in Hw. rewrite Hp in Hw. by apply Forall_cons in Hw as [_ ?].
  - intros Hl. specialize (Hlk _ Hl). unfold lock_free in Hlk. rewrite Hp in Hlk.
    apply Forall_cons in Hlk as [_ Hlk]. eapply Forall_impl; [exact Hlk|]. intros x Hx. by apply bool_decide_eq_false.
  - intros off ->. by apply (names_submitted_delete q w ts k (CEntry off)), Hns.
  - cbn [conc_step c_q c_w c_tasks]. rewrite Hk. cbn [deref obind]. rewrite E. cbn [obind].
    eexists. split; [done|]. eapply conc_inv_perm; [|exact Hc']. symmetry. exact (set_task_perm ts k t o Hk).
Qed.

Lemma not_listed t : task_listed t = [] -> (forall q w, entering_ok q w t) /\ holds_cmdr t = false.
Proof. by destruct t. Qed.

(** A thread that holds nothing arrives. *)
Lemma add_task_inv F q w ts rf t :
  conc_inv F (mk_conc q w ts rf) -> Z.of_nat (length ts) < PID_MAX_LIMIT ->
  task_holdings t = [] -> task_listed t = [] -> working t = false -> splicing t = false -> task_ok q t ->
  conc_inv F (mk_conc q w (ts ++ [t]) rf).
Proof.
  intros Hc Hlen Hh Hl Hw Hs Ht. apply (conc_inv_perm F q w (t :: ts)); [by rewrite Permutation_app_comm|].
  destruct Hc as [(es & Hho) Hli Hcw Hen Hcm Hto Hsp Hf Hb]. cbn [c_q c_w c_tasks c_refused] in *.
  assert (listed (t :: ts) = listed ts) as El by (unfold listed; by rewrite bind_cons, Hl).
  destruct (not_listed t Hl) as [He Hcd].
  split; cbn [c_q c_w c_tasks c_refused]; try done.
  - exists es. unfold holdings in *. cbn [c_q c_w c_tasks] in *. by rewrite El, bind_cons, Hh.
  - by rewrite El.
  - by constructor.
  - by rewrite filter_cons_False by (by rewrite Hcd).
  - by constructor.
  - intros Hx. constructor; [done|]. apply Hsp. apply Exists_cons in Hx as [Hx|]; [congruence|done].
  - simpl. lia.
  - rewrite live_tags_eq in *. by rewrite bind_cons, Hh.
Qed.

Lemma entering_all q w q' w' ts :
  q_req_tid q' = q_req_tid q -> same_cmd (q_ring q) (q_ring q') ->
  (forall tag, tag ∈ listed ts -> w_reqs w' !! tag = w_reqs w !! tag) ->
  Forall (entering_ok q w) ts -> Forall (entering_ok q' w') ts.
Proof.
  intros Et Hs Hr Hen. rewrite Forall_forall in Hen |- *. intros t Ht.
  apply (entering_keep q w); [done|done| |by apply Hen]. intros tag El. apply Hr.
  apply list_elem_of_bind. exists t. rewrite El. split; [by left|done].
Qed.

Lemma status_inv F q w ts rf st :
  conc_inv F (mk_conc q w ts rf) -> Forall (task_ok (set_q_status st q)) ts ->
  conc_inv F (mk_conc (set_q_status st q) w ts rf).
Proof.
  intros [(es & Hho) Hli Hcw Hen Hcm Hto Hsp Hf Hb] Ht. split; try done.
  - exists es. apply (holds_same q w es F); try done. apply Hho.
  - by apply (entering_all q w); [|repeat split|..].
Qed.

Lemma submit_step_inv F c tag rq :
  conc_inv F c -> conc_can F (OpSubmit tag rq) c ->
  exists c', conc_step (OpSubmit tag rq) c = Ok c' /\ conc_inv F c'.
Proof.
  destruct c as [q w ts rf]. intros Hc (Hlen & Hni & Hrq). simpl in Hlen.
  destruct Hc as [(es & Hho) Hli Hcw Hen Hcm Hto Hsp Hf Hb]. cbn [c_q c_w c_tasks c_refused] in *.
  set (w' := blk_request tag rq w).
  assert (holds q w' es F (HNew tag :: holdings (mk_conc q w ts rf))) as Hnew.
  { eapply (holds_new q w es F _ w' tag _ Hho Hni).
    - intros t Hne. unfold w', blk_request. simpl. by rewrite lookup_insert_ne.
    - done.
    - apply lookup_insert_eq.
    - done. }
  assert (Forall (entering_ok q w') ts) as Hen'.
  { apply (entering_all q w); [done|by repeat split| |done]. intros t Hin. unfold w', blk_request. simpl.
    apply lookup_insert_ne. intros ->. apply Hni. unfold holdings. cbn [c_q c_w c_tasks].
    rewrite !fmap_app, inflight_tags, !elem_of_app. right. left. by apply Hli. }
  cbn [conc_step c_q c_w c_tasks c_refused]. fold w'.
  destruct (negb _); eexists; (split; [done|]).
  - split; try done. exists es. by apply (holds_drop q w' es F (HNew tag)).
  - apply (conc_inv_perm F q w' (QStarting tag :: ts)); [by rewrite Permutation_app_comm|].
    split; cbn [c_q c_w c_tasks c_refused]; try done.
    + exists es. by rewrite holdings_cons.
    + by constructor.
    + by constructor.
    + intros Hx. constructor; [done|]. apply Hsp. by apply Exists_cons in Hx as [Hx|].
    + simpl. lia.
    + rewrite live_tags_eq in *. rewrite bind_cons. cbn [task_holdings app]. by rewrite bind_cons.
Qed.

Lemma work_step_inv F c k :
  conc_inv F c -> conc_can F (OpWork k) c -> exists c', conc_step (OpWork k) c = Ok c' /\ conc_inv F c'.
Proof.
  destruct c as [q w ts rf]. intros Hc (Hlen & Hk). simpl in Hlen, Hk.
  destruct Hc as [(es & Hho) Hli Hcw Hen Hcm Hto Hsp Hf Hb]. cbn [c_q c_w c_tasks c_refused] in *.
  destruct (lookup_lt_is_Some_2 (w_wq w) k Hk) as [tag Htag].
  cbn [conc_step c_q c_w c_tasks c_refused]. rewrite Htag. cbn [deref obind]. eexists. split; [done|].
  set (w' := set_w_wq (delete k (w_wq w)) w).
  apply (conc_inv_perm F q w' (WStart tag :: ts)); [by rewrite Permutation_app_comm|].
  pose proof (delete_Permutation (w_wq w) k tag Htag) as Hp.
  split; cbn [c_q c_w c_tasks c_refused]; try done.
  - exists es. rewrite holdings_cons. apply (holds_same q w es F); try done; [|apply Hho].
    unfold holdings in Hho. cbn [c_q c_w c_tasks] in Hho. rewrite Hp in Hho. exact Hho.
  - constructor; [done|]. by apply (entering_all q w); [|repeat split|..].
  - by constructor.
  - intros Hx. constructor; [done|]. apply Hsp. by apply Exists_cons in Hx as [Hx|].
  - simpl. lia.
  - rewrite live_tags_eq in *. rewrite bind_cons. cbn [task_holdings app]. rewrite bind_cons. cbn [started_tag htag].
    change (w_blk w') with (w_blk w). change (w_wq w') with (delete k (w_wq w)). rewrite Hb, Hp at 1. do 2 apply Permutation_app_head.
    rewrite (Permutation_app_swap_app (q_inflight q) [tag]). apply Permutation_middle.
Qed.

Lemma backend_step_inv F c r :
  conc_inv F c -> conc_can F (OpBackend r) c -> exists c', conc_step (OpBackend r) c = Ok c' /\ conc_inv F c'.
Proof.
  destruct c as [q w ts rf]. intros Hc (_ & [Hb Hk]). eexists. split; [done|].
  destruct Hc as [(es & Hho) Hli [cs Hcw] Hen Hcm Hto Hsp Hf Hbk]. cbn [c_q c_w c_tasks c_refused] in *.
  split; cbn [c_q c_w c_tasks c_refused]; try done.
  - exists es. apply (holds_same q w es F); try done; [|apply Hb].
    destruct Hb as [E1 _ (E2 & E3 & E4) _]. pose proof (hd_ring _ _ _ _ _ Hho) as [? ? ? ? ?].
    split; simpl; rewrite ?E1, ?E2, ?E3, ?E4; done.
  - destruct (bs_compr _ _ Hb cs Hcw) as [new ?]. by eexists.
  - destruct Hb as [E1 E1' (E2 & E3 & E4) _]. apply (entering_all q w); done.
  - eapply Forall_impl; [exact Hto|]. intros []; simpl; auto.
Qed.

Lemma running_errno q : q_status q = UBBD_QUEUE_KSTATUS_RUNNING -> status_errno (q_status q) = 0.
Proof. intros ->. unfold status_errno. by rewrite Z.eqb_refl. Qed.

(** Every step that can happen returns, and keeps the invariant. *)
Lemma conc_step_inv F c op :
  conc_inv F c -> conc_can F op c -> exists c', conc_step op c = Ok c' /\ conc_inv F c'.
Proof.
  intros Hc Hcan. destruct op as [tag rq|k| |r|m| | |force|k].
  - by apply submit_step_inv.
  - by apply work_step_inv.
  - destruct c as [q w ts rf]. destruct Hcan as [Hlen _]. cbn [conc_step c_q c_w c_tasks c_refused] in *.
    destruct (_ =? _); eexists; (split; [done|]); [done|]. by apply add_task_inv.
  - by apply backend_step_inv.
  - destruct c as [q w ts rf]. eexists. split; [done|].
    destruct Hc as [(es & Hho) Hli Hcw Hen Hcm Hto Hsp Hf Hb]. split; try done. exists es. by apply holds_mem.
  - destruct c as [q w ts rf]. destruct Hcan as [Hlen Hlk]. cbn [conc_step c_q c_w c_tasks c_refused] in *.
    unfold stop_section. destruct (Z.eqb_spec (q_status q) UBBD_QUEUE_KSTATUS_RUNNING) as [Est|]; eexists;
      (split; [done|]); [|by rewrite app_nil_r]. apply add_task_inv; try done.
    apply status_inv; [done|]. eapply Forall_impl; [apply (cv_tasks _ _ Hc)|]. intros x. simpl.
    destruct x; simpl; try done; intros Hst; by destruct (running_not_removed q (running_errno q Est)).
  - destruct c as [q w ts rf]. cbn [conc_step c_q c_w c_tasks c_refused] in *.
    destruct Hcan as (_ & _ & Hrm). simpl in Hrm.
    eexists. split; [done|]. unfold start_section. destruct (_ || _); [done|].
    apply status_inv; [done|]. pose proof (cv_tasks _ _ Hc) as Hto. simpl in Hto. rewrite Forall_forall in *.
    intros x Hx. specialize (Hto x Hx). specialize (Hrm x Hx). by destruct x.
  - destruct c as [q w ts rf]. destruct Hcan as [Hlen Hlk]. eexists. split; [done|].
    cbn [c_q c_w c_tasks c_refused] in *. apply add_task_inv; try done.
    + apply status_inv; [done|]. eapply Forall_impl; [apply (cv_tasks _ _ Hc)|]. intros x.
      apply task_ok_stop; [done|]. right. by left.
    + by left.
  - by apply task_step_inv.
Qed.

Lemma conc_start_inv F c : conc_start F c -> conc_inv F c.
Proof.
  destruct c as [q w ts rf]. intros [(es & Hq) (Hi & Hw & Hb & Ht & Hr) Hcw].
  cbn [c_q c_w c_tasks c_refused] in *. subst ts rf.
  split; cbn [c_q c_w c_tasks c_refused]; try done.
  - exists es. unfold holdings. cbn [c_q c_w c_tasks]. rewrite Hi, Hw.
    destruct Hq as [Hp Hino Hrg Htd _ _ _]. split; try done; constructor.
  - split; [constructor|]. intros t Hin. by apply elem_of_nil in Hin.
  - simpl. lia.
  - rewrite live_tags_eq, Hb, Hw, Hi. done.
Qed.

Lemma conc_reach_inv F c : conc_reach F c -> conc_inv F c.
Proof.
  induction 1 as [c Hs|c op c' _ Hc Hcan E]; [by apply conc_start_inv|].
  destruct (conc_step_inv F c op Hc Hcan) as (c1 & E1 & Hc1). rewrite E in E1. by injection E1 as ->.
Qed.

Lemma started_nodup H : NoDup (htag <$> H) -> NoDup (H ≫= started_tag).
Proof.
  induction H as [|h H IH]; [constructor|]. cbn [fmap list_fmap]. intros Hn. apply NoDup_cons in Hn as [Hni Hn].
  rewrite bind_cons. specialize (IH Hn).
  assert (htag h ∉ (H ≫= started_tag)) as Hnx.
  { intros Hx. apply list_elem_of_bind in Hx as (h' & Hx & Hin). apply Hni.
    apply list_elem_of_fmap. exists h'. split; [|done]. destruct h'; simpl in Hx |- *;
      (by apply elem_of_nil in Hx) || (by apply list_elem_of_singleton in Hx). }
  destruct h; simpl; [done|..]; by constructor.
Qed.
End steps.
