(* ===== verification/ThreadsSeq.v ===== *)
(** * A thread on its own runs the handler

    The sections of [Threads] put back together: a thread that no other
    interrupts computes exactly what the handler of [Request] it was cut from
    does. *)

From S2P Require Import Prelude Abi Ring Pages Request Queue Operation Threads.

Section alone.
Context `{A : UbbdAbi} `{K : KernelApi} `{M : KernelMem}.
Implicit Types (q : ubbd_queue) (w : world) (t : task) (u : ubbd_request).

(** The thread ends, in this state. *)
Definition finishes t q w q' w' : Prop := exists n, run_task n t q w = Ok (None, q', w').

Lemma finish_none t q w q' w' : task_step t q w = Ok (None, q', w') -> finishes t q w q' w'.
Proof. intros E. exists 1%nat. simpl. by rewrite E. Qed.

Lemma finish_step t q w t1 q1 w1 q' w' :
  task_step t q w = Ok (Some t1, q1, w1) -> finishes t1 q1 w1 q' w' -> finishes t q w q' w'.
Proof. intros E [n H]. exists (S n). simpl. by rewrite E. Qed.

Lemma run_task_mono n t q w q' w' : run_task n t q w = Ok (None, q', w') ->
  forall m, (n <= m)%nat -> run_task m t q w = Ok (None, q', w').
Proof.
  revert t q w. induction n as [|n IH]; intros t q w E m Hm; [done|].
  destruct m as [|m]; [lia|]. simpl in *. destruct (task_step t q w) as [[[[t1|] q1] w1]|]; simpl in *; try done.
  apply IH; [done|lia].
Qed.

Lemma finishes_unique t q w q1 w1 q2 w2 :
  finishes t q w q1 w1 -> finishes t q w q2 w2 -> q1 = q2 /\ w1 = w2.
Proof.
  intros [n1 E1] [n2 E2]. pose proof (run_task_mono _ _ _ _ _ _ E1 (n1 + n2) ltac:(lia)) as H1.
  pose proof (run_task_mono _ _ _ _ _ _ E2 (n1 + n2) ltac:(lia)) as H2. rewrite H1 in H2. by injection H2.
Qed.

(** The request of the thread, rewritten as it goes. *)
Lemma put_put tag e e' u u' w km : e_rq e' = e_rq e -> e_q e' = e_q e ->
  put_pdu tag e' u' (set_w_km km (put_pdu tag e u w)) = put_pdu tag e u' (set_w_km km w).
Proof.
  intros E1 E2. unfold put_pdu, set_w_reqs, set_w_km. simpl. rewrite E1, E2. by rewrite insert_insert_eq.
Qed.

Lemma put_again tag e u u' w :
  put_pdu tag (mk_rq_entry (e_rq e) (e_q e) u) u' (put_pdu tag e u w) = put_pdu tag e u' w.
Proof. unfold put_pdu, set_w_reqs. simpl. by rewrite insert_insert_eq. Qed.

Lemma put_get tag e u w : w_reqs (put_pdu tag e u w) !! tag = Some (mk_rq_entry (e_rq e) (e_q e) u).
Proof. apply lookup_insert_eq. Qed.

(** *** Pages *)

Lemma store_failed_nonzero p km new ret pg p' km' :
  get_page_locked p km new = L_STORE_FAILED ret pg p' km' -> ret <> 0.
Proof.
  unfold get_page_locked. destruct (_ =? data_pages p); [done|]. destruct (data_pages_array p !! _); [done|].
  destruct new as [page|]; [|done]. destruct (ubbd_xa_store_page _ _ _ _) as [[r p1] km1].
  destruct (Z.eqb_spec r 0); [done|]. by intros [= <- _ _ _].
Qed.

Section request.
Variables (tag : Z) (e : rq_entry) (q0 : ubbd_queue) (w0 : world).

(** The state of the preparing thread: the pool and the allocator, the pdu. *)
Definition at_q (p : data_pool) : ubbd_queue := set_q_pool p q0.
Definition at_w (km : kmem) (u : ubbd_request) : world := put_pdu tag e u (set_w_km km w0).

Lemma at_get km u : w_reqs (at_w km u) !! tag = Some (mk_rq_entry (e_rq e) (e_q e) u).
Proof. apply put_get. Qed.

Lemma at_put km u km' u' :
  put_pdu tag (mk_rq_entry (e_rq e) (e_q e) u) u' (set_w_km km' (at_w km u)) = at_w km' u'.
Proof. unfold at_w. by rewrite put_put. Qed.

(** The thread once the page loop has failed with [ret]. *)
Definition failing (k : nat) (ret : Z) (st : gdp_state) (u : ubbd_request) q' w' : Prop :=
  let '(p, km) := drop_new_page (g_new_page st) (g_pool st) (g_km st) in
  finishes (WUndo tag k ret) (at_q p) (at_w km u) q' w'.

Lemma one_page_run fuel bv segs k u q' w' : forall st r st',
  get_one_page fuel st = Ok (r, st') ->
  match r with
  | inl ret => ret <> 0 /\ (failing k ret st' u q' w' ->
      finishes (WPage tag (bv :: segs) k (g_new_page st)) (at_q (g_pool st)) (at_w (g_km st) u) q' w')
  | inr i => forall u', ubbd_req_set_pi u (Z.of_nat k) i = Ok u' ->
      finishes (WPage tag segs (S k) (g_new_page st')) (at_q (g_pool st')) (at_w (g_km st') u') q' w' ->
      finishes (WPage tag (bv :: segs) k (g_new_page st)) (at_q (g_pool st)) (at_w (g_km st) u) q' w'
  end.
Proof.
  induction fuel as [|fuel IH]; intros [p km new] r st' H; [done|]. cbn [get_one_page g_pool g_km g_new_page] in *.
  destruct (get_page_locked p km new) as [|i p1 km1 new1|ret pg p1 km1|] eqn:El.
  - injection H as <- <-. split; [done|]. unfold failing. cbn [g_pool g_km g_new_page]. intros Hf.
    destruct (drop_new_page new p km) as [p1 km1] eqn:Ed.
    eapply finish_step; [|exact Hf]. cbn [task_step]. unfold page_section.
    change (q_pool (at_q p)) with p. change (w_km (at_w km u)) with km. rewrite El, Ed. done.
  - injection H as <- <-. cbn [g_pool g_km g_new_page]. intros u' Hu Hf.
    eapply finish_step; [|exact Hf]. cbn [task_step]. unfold page_section.
    change (q_pool (at_q p)) with p. change (w_km (at_w km u)) with km.
    rewrite El, at_get. cbn [deref obind e_pdu]. rewrite Hu. cbn [obind]. by rewrite at_put.
  - pose proof (store_failed_nonzero _ _ _ _ _ _ _ El) as Hnz.
    destruct (__ubbd_release_page p1 km1 pg) as [p2 km2] eqn:Er. injection H as <- <-. split; [done|].
    unfold failing. cbn [g_pool g_km g_new_page drop_new_page]. intros Hf.
    eapply finish_step; [|exact Hf]. cbn [task_step]. unfold page_section.
    change (q_pool (at_q p)) with p. change (w_km (at_w km u)) with km. rewrite El, Er. done.
  - destruct (ubbd_alloc_page p km) as [[[pg|] p1] km1] eqn:Ea.
    + assert (forall q1 w1, finishes (WPage tag (bv :: segs) k (Some pg)) (at_q p1) (at_w km1 u) q1 w1 ->
        finishes (WPage tag (bv :: segs) k new) (at_q p) (at_w km u) q1 w1) as Hgo.
      { intros q1 w1 Hf. eapply (finish_step _ _ _ (WAlloc tag (bv :: segs) k) (at_q p) (at_w km u)).
        - cbn [task_step]. unfold page_section. change (q_pool (at_q p)) with p.
          change (w_km (at_w km u)) with km. by rewrite El.
        - eapply finish_step; [|exact Hf]. cbn [task_step]. unfold alloc_section.
          change (q_pool (at_q p)) with p. change (w_km (at_w km u)) with km. by rewrite Ea. }
      specialize (IH _ _ _ H). cbn [g_pool g_km g_new_page] in IH. destruct r as [ret|i].
      * destruct IH as [Hnz IH]. split; [done|]. auto.
      * intros u' Hu Hf. by apply Hgo, (IH u').
    + injection H as <- <-. split; [done|]. unfold failing. cbn [g_pool g_km g_new_page drop_new_page]. intros Hf.
      eapply (finish_step _ _ _ (WAlloc tag (bv :: segs) k) (at_q p) (at_w km u)).
      * cbn [task_step]. unfold page_section. change (q_pool (at_q p)) with p.
        change (w_km (at_w km u)) with km. by rewrite El.
      * eapply finish_step; [|exact Hf]. cbn [task_step]. unfold alloc_section.
        change (q_pool (at_q p)) with p. change (w_km (at_w km u)) with km. by rewrite Ea.
Qed.

Lemma segs_run fuel q' w' segs : forall k u st ret u' n st',
  get_segs fuel segs u (Z.of_nat k) st = Ok (ret, u', n, st') ->
  if ret =? 0 then
    (let '(p, km) := drop_new_page (g_new_page st') (g_pool st') (g_km st') in
     finishes (WCopy tag) (at_q p) (at_w km u') q' w') ->
    finishes (WPage tag segs k (g_new_page st)) (at_q (g_pool st)) (at_w (g_km st) u) q' w'
  else failing (Z.to_nat n) ret st' u' q' w' ->
    finishes (WPage tag segs k (g_new_page st)) (at_q (g_pool st)) (at_w (g_km st) u) q' w'.
Proof.
  induction segs as [|bv segs IH]; intros k u st ret u' n st' H; cbn [get_segs] in H.
  { injection H as <- <- <- <-. cbn [Z.eqb].
    destruct (drop_new_page _ _ _) as [p km] eqn:Ed. intros Hf. eapply finish_step; [|exact Hf].
    cbn [task_step]. unfold page_section. change (q_pool (at_q (g_pool st))) with (g_pool st).
    change (w_km (at_w (g_km st) u)) with (g_km st). by rewrite Ed. }
  inv_ok H. destruct r as [r st1].
  pose proof (one_page_run fuel bv segs k u q' w' st r st1 E) as Hone. destruct r as [ret1|i].
  - injection H as <- <- <- <-. destruct Hone as [Hnz Hone]. rewrite (proj2 (Z.eqb_neq ret1 0) Hnz).
    by rewrite Nat2Z.id.
  - inv_ok H. rename r into u1. specialize (Hone u1 E0).
    replace (Z.of_nat k + 1) with (Z.of_nat (S k)) in H by lia.
    specialize (IH (S k) u1 st1 ret u' n st' H). destruct (ret =? 0); auto.
Qed.

Lemma undo_run ret q' w' u : forall n p km p' km',
  release_pages_down n p km u = Ok (p', km') ->
  finishes (WUndo tag 0 ret) (at_q p') (at_w km' u) q' w' ->
  finishes (WUndo tag n ret) (at_q p) (at_w km u) q' w'.
Proof.
  induction n as [|n IH]; intros p km p' km' H Hf; cbn [release_pages_down] in H.
  { by injection H as <- <-. }
  inv_ok H. destruct r as [p1 km1]. eapply finish_step; [|by eapply IH].
  cbn [task_step]. unfold undo_section. rewrite at_get. cbn [deref obind e_pdu].
  change (q_pool (at_q p)) with p. change (w_km (at_w km u)) with km. by rewrite E.
Qed.

(** The end of a failed preparation. *)
Lemma undo_end p km km' u ret :
  kfree_pi u km = Ok km' ->
  finishes (WUndo tag 0 ret) (at_q p) (at_w km u) (at_q p)
    (end_request ret tag (at_w km' (match ur_pi u with PI_ARRAY _ => set_pi PI_FREED u | _ => u end))).
Proof.
  intros E. apply finish_none. cbn [task_step]. unfold undo_section. rewrite at_get. cbn [deref obind e_pdu].
  change (w_km (at_w km u)) with km. rewrite E. cbn [obind]. by rewrite at_put.
Qed.

(** [ubbd_get_data_pages] and what follows it in [queue_req_prepare]. *)
Lemma pages_run fuel p km u bio ret u' p' km' q' w' :
  ubbd_get_data_pages fuel p km u bio = Ok (ret, u', p', km') ->
  (if ret =? 0 then finishes (WCopy tag) (at_q p') (at_w km' u') q' w'
   else finishes (WUndo tag 0 ret) (at_q p') (at_w km' u') q' w') ->
  finishes (WPage tag (concat bio) 0 None) (at_q p) (at_w km u) q' w'.
Proof.
  unfold ubbd_get_data_pages. destruct bio as [|b bio]; [done|]. intros H Hf.
  inv_ok H. destruct r as [[[ret1 u1] n] st1].
  pose proof (segs_run fuel q' w' _ 0 u (mk_gdp p km None) ret1 u1 n st1 E) as Hs.
  cbn [g_pool g_km g_new_page] in Hs. unfold failing, drop_new_page in Hs.
  destruct (match g_new_page st1 with Some page => _ | None => _ end) as [p1 km1].
  destruct (ret1 =? 0) eqn:Er.
  - injection H as <- <- <- <-. rewrite Z.eqb_refl in Hf. auto.
  - inv_ok H. destruct r as [p2 km2]. injection H as <- <- <- <-. rewrite Er in Hf.
    apply Hs. by eapply undo_run.
Qed.
End request.
End alone.

(** *** The handlers *)

Section handlers.
Context `{A : UbbdAbi} `{K : KernelApi} `{M : KernelMem}.
Implicit Types (q : ubbd_queue) (w : world) (t : task) (u : ubbd_request) (r : return_to).

(** From the copy on, the request is prepared. *)
Definition submit_tail tag (e : rq_entry) u q w : outcome (ubbd_queue * world) :=
  let q := set_q_inflight (q_inflight q ++ [tag]) q in
  let command_size := ubbd_get_cmd_size u in
  if negb (submit_ring_space_enough (q_ring q) command_size) then
    let q := set_q_inflight (list_del tag (q_inflight q)) q in
    Ok (q, end_request (- ENOMEM) tag (put_pdu tag e u w))
  else
    let r := insert_padding (q_ring q) command_size in
    let q := set_q_req_tid (u64 (q_req_tid q + 1)) q in
    let u := set_req_tid (q_req_tid q) u in
    let '(r, u) := queue_req_se_init r (e_rq e) u in
    let* r := queue_req_data_init r (data_off (q_pool q)) (e_rq e) u in
    let r := UPDATE_CMDR_HEAD u64 (ubbd_get_cmd_size u) r in
    let q := set_q_ring r q in
    let q := set_q_event (s32 (q_event q + 1)) q in
    Ok (q, put_pdu tag e u w).

Lemma submit_run tag e u q w q' w' :
  submit_tail tag e u q w = Ok (q', w') -> finishes (WPrepared tag) q (put_pdu tag e u w) q' w'.
Proof.
  unfold submit_tail. intros H. eapply finish_step; [done|].
  set (q1 := set_q_inflight _ q) in *.
  destruct (submit_ring_space_enough (q_ring q1) (ubbd_get_cmd_size u)) eqn:Esp; cbn [negb] in H.
  - eapply finish_step.
    { cbn [task_step]. unfold number_section. rewrite put_get. cbn [deref obind e_pdu e_rq].
      change (q_ring (set_q_inflight _ q)) with (q_ring q1). rewrite Esp. cbn [negb]. reflexivity. }
    rewrite put_again. destruct (queue_req_se_init _ _ _) as [r1 u1] eqn:Ese.
    inv_ok H. injection H as <- <-. eapply finish_step.
    { cbn [task_step]. unfold enter_section. rewrite put_get. cbn [deref obind e_pdu e_rq].
      simpl q_ring in Ese |- *. simpl q_req_tid in Ese |- *. rewrite Ese. reflexivity. }
    rewrite put_again. apply finish_none. cbn [task_step]. unfold publish_section. rewrite put_get.
    cbn [deref obind e_pdu e_rq]. simpl in E |- *. by rewrite E.
  - injection H as <- <-.
    eapply (finish_step _ _ _ (WNoRoom tag) q1 (put_pdu tag e u w)); [|by apply finish_none].
    cbn [task_step]. unfold number_section. rewrite put_get. cbn [deref obind e_pdu].
    change (q_ring (set_q_inflight _ q)) with (q_ring q1). by rewrite Esp.
Qed.

Lemma copy_run tag e u q w q' w' :
  (let* w2 := (if bool_decide (rq_op (e_rq e) = REQ_OP_WRITE) then
      let* m := copy_data_to_ubbdreq (data_pages_array (q_pool q)) u (rq_bio (e_rq e)) (w_mem w) in
      Ok (set_w_mem m w)
    else Ok w) in submit_tail tag e u q w2) = Ok (q', w') ->
  finishes (WCopy tag) q (put_pdu tag e u w) q' w'.
Proof.
  intros H. inv_ok H. apply (finish_step _ _ _ (WPrepared tag) q (put_pdu tag e u r)); [|by apply submit_run].
  cbn [task_step]. unfold copy_section. rewrite put_get. cbn [deref obind e_pdu e_rq].
  destruct (bool_decide _).
  - inv_ok E. injection E as <-. change (w_mem (put_pdu tag e u w)) with (w_mem w). rewrite E0. done.
  - by injection E as <-.
Qed.

Lemma workfn_finishes tag q w q' w' :
  ubbd_queue_workfn q w tag = Ok (q', w') -> finishes (WStart tag) q w q' w'.
Proof.
  unfold ubbd_queue_workfn. intros H. inv_ok H. rename r into e.
  assert (w_reqs w !! tag = Some e) as He by (by destruct (w_reqs w !! tag); [injection E as ->|]). clear E.
  cbv zeta in H. destruct (status_errno (q_status q) =? 0) eqn:E0; cbn [negb] in H.
  2: { injection H as <- <-. apply finish_none.
       cbn [task_step]. unfold work_start. rewrite He. cbn [deref obind].
       by rewrite E0. }
  eapply (finish_step _ _ _ (WRunning tag) q w).
  { cbn [task_step]. unfold work_start. rewrite He. cbn [deref obind]. by rewrite E0. }
  inv_ok H. destruct r as [[[ret u] q1] w1]. unfold queue_req_prepare in E. inv_ok E. rename r into segs.
  destruct (if UBBD_REQ_INLINE_PI_MAX <? _ then _ else _) as [[ret0 u0] km0] eqn:Eal.
  assert (forall o qx wx, (let w2 := put_pdu tag e u0 (set_w_km km0 w) in
      if negb (ret0 =? 0) then Ok (None, q, end_request ret0 tag w2)
      else if negb (ur_pi_cnt u0 =? 0) then
        match rq_bio (e_rq e) with
        | [] => Fault NULL_DEREF
        | bio => Ok (Some (WPage tag (concat bio) 0 None), q, w2)
        end
      else Ok (Some (WCopy tag), q, w2)) = Ok (o, qx, wx) -> task_step (WRunning tag) q w = Ok (o, qx, wx)) as Hstep.
  { intros o qx wx Hx. cbn [task_step]. unfold prepare_section. rewrite He. cbn [deref obind].
    rewrite E1. cbn [obind]. rewrite Eal. exact Hx. }
  destruct (ret0 =? 0) eqn:Er0; cbn [negb] in E, Hstep.
  2: { injection E as <- <- <- <-. rewrite Er0 in H. injection H as <- <-. by apply finish_none, Hstep. }
  inv_ok E. destruct r as [[[ret1 u1] p1] km1]. destruct (ur_pi_cnt u0 =? 0) eqn:Ecnt; cbn [negb] in E2, Hstep.
  - injection E2 as <- <- <- <-. cbn [Z.eqb negb] in E.
    eapply finish_step; [by apply Hstep|]. apply copy_run. rewrite set_q_pool_id in E.
    destruct (bool_decide _).
    + inv_ok E. injection E as <- <- <- <-. cbn [Z.eqb negb] in H.
      change (w_mem (set_w_km km0 (set_w_km km0 w))) with (w_mem w) in E2.
      change (w_mem (set_w_km km0 w)) with (w_mem w). rewrite E2. exact H.
    + injection E as <- <- <- <-. exact H.
  - destruct (rq_bio (e_rq e)) as [|b bio] eqn:Eb; [done|]. rewrite <- Eb in *.
    eapply finish_step; [apply Hstep; by rewrite Eb|]. rewrite <- Eb.
    replace q with (at_q q (q_pool q)) by (destruct q; done).
    eapply (pages_run tag e q w _ _ _ _ _ _ _ _ _ _ _ E2).
    destruct (ret1 =? 0) eqn:Er1; cbn [negb] in E.
    + apply copy_run. destruct (bool_decide _).
      * inv_ok E. injection E as <- <- <- <-. cbn [Z.eqb negb] in H.
        change (w_mem (set_w_km km1 w)) with (w_mem w). change (q_pool (at_q q p1)) with p1.
        simpl in E3. rewrite E3. exact H.
      * injection E as <- <- <- <-. exact H.
    + inv_ok E. injection E as <- <- <- <-. rewrite Er1 in H. cbn [negb] in H. injection H as <- <-.
      exact (undo_end tag e q w p1 km1 r u1 ret1 E3).
Qed.

(** *** Completion *)

Lemma pages_up_run tag e u ret rt q' w' q0 w0 : e_pdu e = u ->
  w_reqs w0 !! tag = Some e ->
  forall n i p km p' km', release_pages_up n (Z.of_nat i) p km u = Ok (p', km') ->
  (i + n = Z.to_nat (ur_pi_cnt u))%nat ->
  finishes (FRelease tag (Z.to_nat (ur_pi_cnt u)) ret rt) (set_q_pool p' q0) (set_w_km km' w0) q' w' ->
  finishes (FRelease tag i ret rt) (set_q_pool p q0) (set_w_km km w0) q' w'.
Proof.
  intros <- He. induction n as [|n IH]; intros i p km p' km' H Hi Hf; cbn [release_pages_up] in H.
  { injection H as <- <-. by replace i with (Z.to_nat (ur_pi_cnt (e_pdu e))) by lia. }
  inv_ok H. destruct r as [p1 km1]. replace (Z.of_nat i + 1) with (Z.of_nat (S i)) in H by lia.
  eapply finish_step; [|eapply (IH (S i)); [exact H|lia|exact Hf]].
  cbn [task_step]. unfold release_section. change (w_reqs (set_w_km km w0)) with (w_reqs w0). rewrite He.
  cbn [deref obind]. rewrite bool_decide_eq_true_2 by lia.
  change (q_pool (set_q_pool p q0)) with p. change (w_km (set_w_km km w0)) with km. by rewrite E.
Qed.

Lemma complete_run tag ret rt q w q1 w1 q' w' :
  complete_inflight_req q w tag ret = Ok (q1, w1) -> finishes (return_task rt) q1 w1 q' w' ->
  finishes (FMark tag ret rt) q w q' w'.
Proof.
  unfold complete_inflight_req. intros H Hf. inv_ok H. rename r into e.
  assert (w_reqs w !! tag = Some e) as He by (by destruct (w_reqs w !! tag); [injection E as ->|]). clear E.
  inv_ok H. rename r into se. inv_ok H. rename r into rg. inv_ok H. destruct r as [[p km] u].
  inv_ok H. rename r into rg2. injection H as <- <-.
  eapply finish_step.
  { cbn [task_step]. unfold mark_section. rewrite He. cbn [deref obind]. rewrite E. cbn [obind]. by rewrite E0. }
  unfold ubbd_req_release in E1. inv_ok E1. destruct r as [p1 km1]. inv_ok E1. injection E1 as <- <- <-.
  change (set_q_ring rg q) with (set_q_ring rg q).
  assert (set_q_ring rg q = set_q_pool (q_pool q) (set_q_ring rg q)) as -> by (by destruct q).
  assert (w = set_w_km (w_km w) w) as -> by (by destruct w).
  change 0%nat with (Z.to_nat 0). change (w_km (set_w_km (w_km w) w)) with (w_km w) in *.
  eapply (pages_up_run tag e _ ret rt _ _ _ _ eq_refl He (Z.to_nat (ur_pi_cnt (e_pdu e))) 0).
  - exact E3.
  - lia.
  - eapply finish_step.
    { cbn [task_step]. unfold release_section. change (w_reqs (set_w_km km1 w)) with (w_reqs w). rewrite He.
      cbn [deref obind]. rewrite bool_decide_eq_false_2 by lia.
      change (w_km (set_w_km km1 w)) with km1. by rewrite E4. }
    eapply finish_step; [|exact Hf]. cbn [task_step]. unfold advance_section.
    change (q_ring (set_q_pool p1 (set_q_ring rg q))) with rg. by rewrite E2.
Qed.

Lemma list_finishes ret tmp : forall q w q' w',
  end_inflight_list tmp q w ret = Ok (q', w') -> finishes (EList tmp ret) q w q' w'.
Proof.
  induction tmp as [|tag tmp IH]; intros q w q' w' H; cbn [end_inflight_list] in H.
  { injection H as <- <-. by apply finish_none. }
  inv_ok H. destruct r as [q1 w1]. eapply finish_step; [done|].
  eapply (complete_run tag ret (RList tmp ret)); [exact E|]. by apply IH.
Qed.

Lemma end_inflight_finishes q w q' w' :
  ubbd_queue_end_inflight_reqs q w (- EIO) = Ok (q', w') -> finishes RSplice q w q' w'.
Proof. intros H. eapply finish_step; [done|]. by apply list_finishes. Qed.

(** [fetch_inflight_req] found a request, and may have stopped the queue. *)
Lemma fetch_run off ce q w tag q1 q' w' :
  deref (ces (q_ring q) !! off) WILD_ACCESS = Ok ce ->
  fetch_inflight_req q w (ce_priv_data ce) = (Some tag, q1) ->
  finishes (CFetched tag off) q1 w q' w' -> finishes (CEntry off) q w q' w'.
Proof.
  intros E Ef Hf. revert Ef. unfold fetch_inflight_req. destruct (find_inflight _ _ _) as [tag0|] eqn:Efi; [|done].
  intros [= -> <-]. cbv zeta in Hf.
  destruct ((q_status _ =? UBBD_QUEUE_KSTATUS_STOPPING) && bool_decide _) eqn:Eb;
    (eapply finish_step; [cbn [task_step]; unfold fetch_section; rewrite E; cbn [obind]; rewrite Efi; simpl in Eb |- *; by rewrite Eb|]).
  - eapply finish_step; [done|exact Hf].
  - exact Hf.
Qed.

Lemma again_finishes fuel : forall q w q' w',
  complete_again fuel q w = Ok (q', w') -> finishes CAgain q w q' w'.
Proof.
  induction fuel as [|fuel IH]; intros q w q' w' H; [done|]. cbn [complete_again] in H.
  destruct (get_complete_entry (q_ring q)) as [off|] eqn:Eg.
  2: { injection H as <- <-. apply finish_none. cbn [task_step]. unfold entry_section. by rewrite Eg. }
  eapply finish_step; [cbn [task_step]; unfold entry_section; by rewrite Eg|].
  set (q1 := set_q_ring _ q) in *. inv_ok H. rename r into ce.
  destruct (fetch_inflight_req q1 w (ce_priv_data ce)) as [[tag|] q2] eqn:Ef.
  2: { eapply finish_step; [|by apply IH]. cbn [task_step]. unfold fetch_section. rewrite E. cbn [obind].
       revert Ef. unfold fetch_inflight_req. destruct (find_inflight _ _ _); [done|]. by intros [= <-]. }
  apply (fetch_run off ce q1 w tag q2); [done|done|].
  assert (ces (q_ring q2) = ces (q_ring q1)) as Ec.
  { revert Ef. unfold fetch_inflight_req. destruct (find_inflight _ _ _); [|done].
    destruct (_ && _); by intros [= _ <-]. }
  inv_ok H. rename r into e. inv_ok H. rename r into m. inv_ok H. destruct r as [q3 w3].
  eapply (finish_step _ _ _ (FMark tag (ce_result ce) RAgain) q2 (set_w_mem m w)).
  { cbn [task_step]. unfold read_section. rewrite E0. cbn [obind]. rewrite E1. cbn [obind]. rewrite Ec, E. done. }
  eapply (complete_run tag (ce_result ce) RAgain); [exact E2|]. by apply IH.
Qed.

Lemma complete_finishes fuel q w q' w' :
  ubbd_queue_complete fuel q w = Ok (q', w') -> finishes CStart q w q' w'.
Proof.
  unfold ubbd_queue_complete. intros H. destruct (q_status q =? UBBD_QUEUE_KSTATUS_REMOVING) eqn:Es.
  - injection H as <- <-. apply finish_none. cbn [task_step]. unfold complete_section. by rewrite Es.
  - eapply finish_step; [cbn [task_step]; unfold complete_section; by rewrite Es|]. by apply (again_finishes fuel).
Qed.

Lemma rq_finishes tag q w sts w' :
  status_errno (q_status q) = 0 -> ubbd_queue_rq q w tag = Ok (sts, w') -> finishes (QStarting tag) q w q w'.
Proof.
  intros Hs H. unfold ubbd_queue_rq in H. apply finish_none. cbn [task_step]. unfold rq_section.
  inv_ok H. rewrite E. cbn [obind]. unfold status_errno in Hs.
  assert (- EIO <> 0) as N1 by done. assert (- EBUSY <> 0) as N2 by done.
  destruct (negb (q_status q =? UBBD_QUEUE_KSTATUS_RUNNING)); cbn [andb] in H.
  - destruct (q_status q =? UBBD_QUEUE_KSTATUS_REMOVING); [done|]. destruct (_ || _); [done|].
    destruct (op_of_req_op _); by injection H as _ <-.
  - destruct (op_of_req_op _); by injection H as _ <-.
Qed.
End handlers.
