(* ===== verification/ThreadsTerm.v ===== *)
(** * Every thread ends

    A weight for the threads, the requests on the list and the completion
    entries that are waiting, which every section makes smaller, whichever
    thread runs it: no interleaving keeps the threads of a queue running for
    ever.  The threads that wait for the work queue wait only for works, so
    every state can be drained. *)

From S2P Require Import Prelude Abi Ring Pages Request Queue Operation Threads ThreadsInv ThreadsStep ThreadsLock ThreadsRun.

(** ** The requests themselves do not change *)

Section requests.
Context `{A : UbbdAbi} `{K : KernelApi} `{M : KernelMem}.
Implicit Types (q : ubbd_queue) (w : world) (t : task).

(** The request of the block layer behind a tag. *)
Definition rq_of (w : world) (tag : Z) : option request := e_rq <$> w_reqs w !! tag.

Definition same_rqs (w w' : world) : Prop := forall tag, rq_of w' tag = rq_of w tag.

Lemma task_rqs t q w o q' w' : task_step t q w = Ok (o, q', w') -> same_rqs w w'.
Proof.
  intros E t'. destruct (task_frame _ _ _ _ _ _ E) as [[Ew|(tag & e & x & u & _ & He & Ew)] _ _ _];
    unfold rq_of; rewrite Ew; [done|].
  destruct (decide (t' = tag)) as [->|Hne]; [by rewrite lookup_insert_eq, He|by rewrite lookup_insert_ne].
Qed.
End requests.

(** ** Weights *)

Section weights.
Context `{A : UbbdAbi} `{K : KernelApi} `{M : KernelMem}.
Implicit Types (q : ubbd_queue) (w : world) (t : task) (ts : list task).

(** Segments of the request: its pages are taken and given back one a time. *)
Definition segs_of w (tag : Z) : nat :=
  match rq_of w tag with Some rq => length (concat (rq_bio rq)) | None => 0 end.

(** A submitted request: fetched, perhaps the last of a stopping queue, marked,
    released and its entry advanced. *)
Definition sub_weight w (tag : Z) : nat := segs_of w tag + 5.

Definition work_weight w (tag : Z) : nat := sub_weight w tag + 4 * segs_of w tag + 12.

Definition return_weight w (r : return_to) : nat :=
  match r with RAgain => 1 | RList tmp _ => S (sum_list_with (sub_weight w) tmp) end.

(** A segment costs at most the section that takes its page, the one that
    allocates it, and another turn. *)
Definition task_weight w t : nat :=
  match t with
  | QStarting tag => work_weight w tag + 1
  | WStart tag => sub_weight w tag + 4 * segs_of w tag + 11
  | WRunning tag => sub_weight w tag + 4 * segs_of w tag + 10
  | WPage tag segs k new =>
      sub_weight w tag + 7 + 4 * length segs + k + match new with None => 2 | Some _ => 0 end
  | WAlloc tag segs k => sub_weight w tag + 8 + 4 * length segs + k
  | WUndo tag k _ => k + 1
  | WCopy tag => sub_weight w tag + 6
  | WPrepared tag => sub_weight w tag + 5
  | WListed tag => sub_weight w tag + 4
  | WNumbered tag => sub_weight w tag + 2
  | WEntered tag => sub_weight w tag + 1
  | WNoRoom _ => 1
  | CStart => 2
  | CAgain => 1
  | CEntry _ => 2
  | CStore tag _ => segs_of w tag + 6
  | CFetched tag _ => segs_of w tag + 5
  | FMark tag _ r => segs_of w tag + 3 + return_weight w r
  | FRelease tag k _ r => (segs_of w tag - k) + 2 + return_weight w r
  | FAdvance r => 1 + return_weight w r
  | EList tmp _ => S (sum_list_with (sub_weight w) tmp)
  | SFlush => 1
  | RFlush _ => 3
  | RSplice => 2
  end.

(** Requests on the list without an entry are counted with their thread. *)
Definition inflight_weight w (ls l : list Z) : nat :=
  sum_list_with (fun tag => if decide (tag ∈ ls) then 0%nat else sub_weight w tag) l.

Definition conc_weight (c : conc) (cs : list ubbd_ce) : nat :=
  sum_list_with (work_weight (c_w c)) (w_wq (c_w c)) +
  inflight_weight (c_w c) (listed (c_tasks c)) (q_inflight (c_q c)) +
  sum_list_with (task_weight (c_w c)) (c_tasks c) + 2 * length cs.

(** [weighs c n]: the weight of the state with what waits in its completion
    ring. *)
Definition weighs (c : conc) (n : nat) : Prop :=
  exists cs, compr_wf (q_ring (c_q c)) cs /\ n = conc_weight c cs.

Lemma sum_ext {X} (f g : X -> nat) l : (forall x, x ∈ l -> f x = g x) -> sum_list_with f l = sum_list_with g l.
Proof.
  induction l as [|x l IH]; intros E; [done|]. simpl. rewrite (E x) by (by left). f_equal. apply IH.
  intros y Hy. apply E. by right.
Qed.

Lemma segs_same w w' tag : same_rqs w w' -> segs_of w' tag = segs_of w tag.
Proof. intros E. unfold segs_of. by rewrite E. Qed.

Lemma sub_same w w' tag : same_rqs w w' -> sub_weight w' tag = sub_weight w tag.
Proof. intros E. unfold sub_weight. by rewrite (segs_same w w'). Qed.

Lemma work_same w w' tag : same_rqs w w' -> work_weight w' tag = work_weight w tag.
Proof. intros E. unfold work_weight. by rewrite (sub_same w w'), (segs_same w w'). Qed.

Lemma return_same w w' r : same_rqs w w' -> return_weight w' r = return_weight w r.
Proof.
  intros E. destruct r; simpl; [done|]. f_equal. apply sum_ext. intros t _. by apply sub_same.
Qed.

Lemma task_weight_same w w' t : same_rqs w w' -> task_weight w' t = task_weight w t.
Proof.
  intros E. destruct t; cbn [task_weight]; rewrite ?(work_same w w'), ?(sub_same w w'), ?(segs_same w w'),
    ?(return_same w w') by done; try done. f_equal. apply sum_ext. intros t _. by apply sub_same.
Qed.

Lemma inflight_same w w' ls l : same_rqs w w' -> inflight_weight w' ls l = inflight_weight w ls l.
Proof. intros E. apply sum_ext. intros t _. destruct (decide _); [done|]. by apply sub_same. Qed.

Lemma inflight_ext w ls ls' l : (forall i : Z, i ∈ l -> i ∈ ls <-> i ∈ ls') -> inflight_weight w ls l = inflight_weight w ls' l.
Proof.
  intros E. apply sum_ext. intros i Hi. specialize (E i Hi).
  destruct (decide (i ∈ ls)), (decide (i ∈ ls')); tauto.
Qed.

Lemma inflight_del w ls l tag : tag ∈ l -> NoDup l ->
  inflight_weight w ls l = ((if decide (tag ∈ ls) then 0 else sub_weight w tag) + inflight_weight w ls (list_del tag l))%nat.
Proof. intros Hin Hnd. unfold inflight_weight. by rewrite (list_del_perm tag l Hin Hnd) at 1. Qed.
End weights.

(** ** Every section makes the weight smaller *)

Section decrease.
Context `{L : UbbdAbiLaws} `{KL : KernelApiLaws} `{ML : KernelMemLaws}.
Implicit Types (q : ubbd_queue) (w : world) (es : list entry) (F : gset Z) (t : task) (ts : list task).

Definition next_weight w (o : option task) : nat := match o with Some t => task_weight w t | None => 0%nat end.

Lemma segs_of_eq w tag e : w_reqs w !! tag = Some e -> segs_of w tag = length (concat (rq_bio (e_rq e))).
Proof. intros E. unfold segs_of, rq_of. by rewrite E. Qed.

Lemma n_segs_le rq : (n_segs rq <= length (concat (rq_bio rq)))%nat.
Proof. unfold n_segs, data_segs. destruct (rq_op rq); simpl; lia. Qed.

Lemma locked_new p km new i p' km' new' :
  get_page_locked p km new = L_GOT i p' km' new' -> new' = new \/ new' = None.
Proof.
  unfold get_page_locked. destruct (_ =? data_pages p); [done|].
  destruct (data_pages_array p !! _); [intros [= _ _ _ <-]; by left|].
  destruct new; [|done]. destruct (ubbd_xa_store_page _ _ _ _) as [[r ?] ?].
  destruct (r =? 0); [intros [= _ _ _ <-]; by right|done].
Qed.

Lemma locked_need p km new : get_page_locked p km new = L_NEED_PAGE -> new = None.
Proof.
  unfold get_page_locked. destruct (_ =? data_pages p); [done|]. destruct (data_pages_array p !! _); [done|].
  destruct new; [|done]. destruct (ubbd_xa_store_page _ _ _ _) as [[r ?] ?]. by destruct (r =? 0).
Qed.

Lemma own_weight F q w t ts rf o q' w' :
  conc_inv F (mk_conc q w (t :: ts) rf) -> own_section t = true ->
  task_step t q w = Ok (o, q', w') -> (next_weight w o < task_weight w t)%nat.
Proof.
  intros Hc Ho. destruct t as [tag|tag|tag|tag segs k new|tag segs k|tag k ret|tag|tag|tag|tag|tag|tag| | |off|tag off|
    tag off|tag ret r|tag k ret r|r|[|tag tmp] ret| |force|]; try discriminate Ho; cbn [task_step]; intros H.
  - unfold work_start in H. inv_ok H. destruct (negb _); injection H as <- <- <-; simpl; lia.
  - unfold prepare_section in H. inv_ok H. apply deref_some in E. inv_ok H.
    destruct (if UBBD_REQ_INLINE_PI_MAX <? _ then _ else _) as [[ret u] km]. cbv zeta in H.
    destruct (negb (ret =? 0)); [injection H as <- <- <-; simpl; lia|].
    destruct (negb _); [|injection H as <- <- <-; simpl; lia].
    pose proof (segs_of_eq _ _ _ E) as Es.
    destruct (rq_bio (e_rq r)) as [|b bio]; [done|]. injection H as <- <- <-. cbn [next_weight task_weight].
    rewrite Es. cbn [concat]. lia.
  - unfold page_section in H. destruct segs as [|bv segs].
    { destruct (drop_new_page _ _ _). injection H as <- <- <-. simpl. lia. }
    destruct (get_page_locked _ _ _) as [|i p km new'|ret pg p km|] eqn:El.
    + destruct (drop_new_page _ _ _). injection H as <- <- <-. simpl. lia.
    + inv_ok H. inv_ok H. injection H as <- <- <-. cbn [next_weight task_weight length].
      destruct (locked_new _ _ _ _ _ _ _ El) as [->| ->]; destruct new; lia.
    + destruct (__ubbd_release_page _ _ _). injection H as <- <- <-. simpl. lia.
    + injection H as <- <- <-. rewrite (locked_need _ _ _ El). cbn [next_weight task_weight]. lia.
  - unfold alloc_section in H. destruct (ubbd_alloc_page _ _) as [[[pg|] p] km]; injection H as <- <- <-; simpl; lia.
  - unfold undo_section in H. inv_ok H. destruct k as [|k].
    + inv_ok H. injection H as <- <- <-. simpl. lia.
    + inv_ok H. destruct r0 as [p km]. injection H as <- <- <-. simpl. lia.
  - unfold copy_section in H. inv_ok H. destruct (bool_decide _); [inv_ok H|]; injection H as <- <- <-; simpl; lia.
  - unfold number_section in H. inv_ok H. destruct (negb _); injection H as <- <- <-; simpl; lia.
  - unfold enter_section in H. inv_ok H. destruct (queue_req_se_init _ _ _). injection H as <- <- <-. simpl. lia.
  - unfold complete_section in H. destruct (_ =? _); injection H as <- <- <-; simpl; lia.
  - unfold read_section in H. inv_ok H. inv_ok H. inv_ok H. injection H as <- <- <-. simpl. lia.
  - unfold mark_section in H. inv_ok H. inv_ok H. inv_ok H. injection H as <- <- <-. cbn [next_weight task_weight]. lia.
  - unfold release_section in H. inv_ok H. apply deref_some in E. rename r0 into e.
    destruct (inv_holds _ _ _ _ _ _ Hc) as (es & Hh). cbn [task_holdings app] in Hh.
    destruct (holds_lookup _ _ _ _ _ _ Hh) as (e' & He' & Hr & _). simpl in He'. simplify_eq.
    pose proof (segs_of_eq _ _ _ E) as Es. pose proof (n_segs_le (e_rq e)). rewrite (rr_cnt _ _ Hr), Nat2Z.id in H.
    destruct (bool_decide_reflect (k < n_segs (e_rq e))%nat).
    + inv_ok H. destruct r0 as [p km]. injection H as <- <- <-. cbn [next_weight task_weight]. lia.
    + inv_ok H. injection H as <- <- <-. cbn [next_weight task_weight]. lia.
  - unfold advance_section in H. inv_ok H. injection H as <- <- <-. destruct r; cbn [next_weight return_task task_weight return_weight]; lia.
  - injection H as <- <- <-. simpl. lia.
  - injection H as <- <- <-. cbn [next_weight task_weight return_weight sum_list_with]. unfold sub_weight. lia.
Qed.

(** [drops q w t q' w' o ts]: the weight of the state after the section of [t]. *)
Definition drops q w t q' w' o ts rf rf' : Prop :=
  forall n, weighs (mk_conc q w (t :: ts) rf) n ->
    exists n', weighs (mk_conc q' w' (next_tasks o ++ ts) rf') n' /\ (n' < n)%nat.

Lemma listed_next_tasks o ts : listed (next_tasks o ++ ts) = next_listed o ++ listed ts.
Proof. unfold listed. rewrite bind_app. destruct o; simpl; [by rewrite app_nil_r|done]. Qed.

Lemma sum_next w o ts :
  sum_list_with (task_weight w) (next_tasks o ++ ts) = (next_weight w o + sum_list_with (task_weight w) ts)%nat.
Proof. destruct o; done. Qed.

(** The weight moves as these four parts do. *)
Lemma drops_intro q w t q' w' o ts rf rf' :
  same_rqs w w' ->
  (forall cs, compr_wf (q_ring q) cs -> exists cs', compr_wf (q_ring q') cs' /\
    (sum_list_with (work_weight w) (w_wq w') +
     inflight_weight w (next_listed o ++ listed ts) (q_inflight q') + next_weight w o + 2 * length cs' <
     sum_list_with (work_weight w) (w_wq w) +
     inflight_weight w (task_listed t ++ listed ts) (q_inflight q) + task_weight w t + 2 * length cs)%nat) ->
  drops q w t q' w' o ts rf rf'.
Proof.
  intros Hs Hx n (cs & Hcs & ->). destruct (Hx cs Hcs) as (cs' & Hcs' & Hlt).
  exists (conc_weight (mk_conc q' w' (next_tasks o ++ ts) rf') cs'). split; [by exists cs'|].
  unfold conc_weight. cbn [c_q c_w c_tasks]. rewrite listed_next_tasks, (inflight_same w w') by done.
  rewrite (sum_ext (work_weight w') (work_weight w)) by (intros; by apply work_same).
  rewrite (sum_ext (task_weight w') (task_weight w)) by (intros; by apply task_weight_same).
  rewrite sum_next. change (listed (t :: ts)) with (task_listed t ++ listed ts). cbn [sum_list_with]. lia.
Qed.

Lemma own_drops F q w t ts rf o q' w' rf' :
  conc_inv F (mk_conc q w (t :: ts) rf) -> own_section t = true -> q_req_tid q + 1 < 2 ^ 64 ->
  task_step t q w = Ok (o, q', w') -> drops q w t q' w' o ts rf rf'.
Proof.
  intros Hc Ho Htid E.
  destruct (task_plain F q w t ts rf Hc Ho Htid) as (o1 & q1 & w1 & es & E1 & _ & [Ei _ Ec Ew _ El _ _ _]).
  rewrite E in E1. injection E1 as <- <- <-. apply drops_intro; [by eapply task_rqs|].
  intros cs Hcs. exists cs. split; [by apply (same_compr_wf (q_ring q))|]. rewrite Ew, Ei, El.
  pose proof (own_weight F q w t ts rf o q' w' Hc Ho E). lia.
Qed.
End decrease.

(** ** The sections on the lists and the rings' tails *)

Section special.
Context `{L : UbbdAbiLaws} `{KL : KernelApiLaws} `{ML : KernelMemLaws}.
Implicit Types (q : ubbd_queue) (w : world) (es : list entry) (F : gset Z) (t : task) (ts : list task).

Lemma listed_inflight F q w t ts rf : conc_inv F (mk_conc q w (t :: ts) rf) ->
  NoDup (q_inflight q) /\ (forall h, h ∈ task_holdings t -> htag h ∉ q_inflight q).
Proof.
  intros Hc. destruct (inv_holds _ _ _ _ _ _ Hc) as (es & Hh). by apply (holds_inflight q w es F _ _ _ Hh).
Qed.

Lemma special_drops F q w t ts rf o q' w' rf' :
  conc_inv F (mk_conc q w (t :: ts) rf) -> own_section t = false ->
  (forall off, t = CEntry off -> names_submitted q w ts off) ->
  task_step t q w = Ok (o, q', w') -> drops q w t q' w' o ts rf rf'.
Proof.
  intros Hc Ho Hns E. apply drops_intro; [by eapply task_rqs|].
  destruct (listed_inflight _ _ _ _ _ _ Hc) as [Hnd Hni].
  destruct (inv_listed _ _ _ _ _ _ Hc) as [Hl1 Hl2].
  destruct t as [tag|tag|tag|tag segs k new|tag segs k|tag k ret|tag|tag|tag|tag|tag|tag| | |off|tag off|
    tag off|tag ret r|tag k ret r|r|tmp ret| |force|]; try discriminate Ho; intros cs Hcs; cbn [task_listed app] in *.
  - (* QStarting *)
    cbn [task_step] in E. unfold rq_section in E. inv_ok E.
    destruct (op_of_req_op _); injection E as <- <- <-; exists cs; (split; [done|]); cbn [next_weight task_weight];
      simpl w_wq; rewrite ?sum_list_with_app; cbn [sum_list_with next_listed app]; lia.
  - (* WPrepared *)
    injection E as <- <- <-. exists cs. split; [done|]. cbn [next_listed task_listed app next_weight task_weight].
    simpl q_inflight. specialize (Hni (HReady tag) ltac:(by left)). simpl in Hni.
    unfold inflight_weight at 1. rewrite sum_list_with_app. cbn [sum_list_with].
    rewrite decide_True by (by left).
    change (sum_list_with (fun i => if decide (i ∈ tag :: listed ts) then 0%nat else sub_weight w i) (q_inflight q))
      with (inflight_weight w (tag :: listed ts) (q_inflight q)).
    rewrite (inflight_ext w (tag :: listed ts) (listed ts)); [lia|].
    intros i Hi. rewrite elem_of_cons. split; [intros [->|]; done|auto].
  - (* WEntered *)
    destruct (listed_split F q w _ tag ts rf Hc eq_refl eq_refl) as (es & Hh & Hin & _ & Hnl & _).
    pose proof (cv_enter _ _ Hc) as Hen. cbn [c_q c_w c_tasks] in Hen. apply Forall_cons in Hen as [Hen _].
    destruct (publish_ok q w es F tag _ Hh Hen) as (q1 & es1 & E1 & _ & Ei & _ & Ec).
    cbn [task_step] in E. rewrite E in E1. injection E1 as -> -> ->.
    exists cs. split; [by apply (same_compr_wf (q_ring q))|]. rewrite Ei.
    cbn [next_listed app next_weight task_weight]. rewrite !(inflight_del w _ (q_inflight q) tag Hin Hnd), decide_False, decide_True by (done || by left).
    rewrite (inflight_ext w (tag :: listed ts) (listed ts)); [lia|].
    intros i Hi. apply elem_of_list_del in Hi as [_ Hi]. rewrite elem_of_cons. split; [intros [|]; done|auto].
  - (* WNoRoom *)
    apply NoDup_cons in Hl1 as [Hnl Hl1]. assert (tag ∈ q_inflight q) as Hin by (apply Hl2; by left).
    injection E as <- <- <-. exists cs. split; [done|]. cbn [next_listed app next_weight task_weight].
    destruct (end_request_blk (- ENOMEM) tag w) as (ev & _ & _ & _ & ->). simpl q_inflight.
    rewrite (inflight_del w (tag :: listed ts) (q_inflight q) tag Hin Hnd), decide_True by (by left).
    rewrite (inflight_ext w (tag :: listed ts) (listed ts)); [lia|].
    intros i Hi. apply elem_of_list_del in Hi as [_ Hi]. rewrite elem_of_cons. split; [intros [|]; done|auto].
  - (* CAgain *)
    cbn [task_step] in E. unfold entry_section in E. destruct (get_complete_entry_spec _ _ Hcs) as [Eg _].
    rewrite Eg in E. destruct cs as [|c cs]; injection E as <- <- <-.
    + exists []. split; [done|]. cbn [next_listed app next_weight task_weight]. lia.
    + exists cs. split.
      * apply (compr_pop _ _ _ _ Hcs sizeof_ce_le). intros. apply u64_small. lia.
      * cbn [next_listed task_listed app next_weight task_weight length]. simpl q_inflight. lia.
  - (* CEntry *)
    cbn [task_step] in E. unfold fetch_section in E. inv_ok E. rename r into ce. apply deref_some in E0.
    destruct (find_inflight _ _ _) as [tag|] eqn:Ef.
    2: { injection E as <- <- <-. exists cs. split; [done|]. cbn [next_listed task_listed app next_weight task_weight]. lia. }
    destruct (find_inflight_tid _ _ _ _ Ef) as (Hin & _). pose proof (Hns off eq_refl ce tag E0 Ef) as Hnl.
    exists cs. cbv zeta in E. rewrite (inflight_del w (listed ts) (q_inflight q) tag Hin Hnd), decide_False by done.
    destruct (_ && _); injection E as <- <- <-; (split; [done|]);
      cbn [next_listed task_listed app next_weight task_weight]; simpl q_inflight; unfold sub_weight; lia.
  - (* CStore *)
    injection E as <- <- <-. exists cs. split; [done|]. cbn [next_listed task_listed app next_weight task_weight].
    simpl q_inflight. lia.
  - (* SFlush *)
    unfold stopped_section in E. injection E as <- <- <-. exists cs. set (q1 := if bool_decide _ then _ else q).
    assert (q_inflight q1 = q_inflight q /\ q_ring q1 = q_ring q) as [-> ->] by (unfold q1; by destruct (bool_decide _)).
    split; [done|]. cbn [next_listed app next_weight task_weight]. lia.
  - (* RFlush *)
    unfold removed_section in E. injection E as <- <- <-. exists cs. split; [done|]. destruct force; cbn [next_listed task_listed app next_weight task_weight]; lia.
  - (* RSplice *)
    unfold splice_section in E. injection E as <- <- <-. exists cs. split; [done|]. cbn [next_listed task_listed app next_weight task_weight].
    pose proof (cv_splice _ _ Hc (Exists_cons_hd (fun t => splicing t = true) RSplice ts eq_refl)) as Hw. simpl in Hw.
    apply Forall_cons in Hw as [_ Hw]. rewrite (no_works_listed _ Hw). simpl q_inflight.
    replace (inflight_weight w [] (q_inflight q)) with (sum_list_with (sub_weight w) (q_inflight q)).
    + unfold inflight_weight. cbn [sum_list_with]. lia.
    + apply sum_ext. intros i _. rewrite decide_False; [done|]. apply not_elem_of_nil.
Qed.

Lemma weighs_perm q w ts ts' rf rf' n : ts ≡ₚ ts' -> weighs (mk_conc q w ts rf) n -> weighs (mk_conc q w ts' rf') n.
Proof.
  intros E (cs & Hcs & ->). exists cs. split; [done|]. unfold conc_weight. cbn [c_q c_w c_tasks].
  rewrite (inflight_ext w (listed ts) (listed ts')) by (intros i _; unfold listed; by rewrite E). by rewrite E.
Qed.

(** What the driver does on its own: works start and threads run. *)
Definition driver_op (op : conc_op) : bool := match op with OpWork _ | OpTask _ => true | _ => false end.

Lemma driver_op_drops F c op c' n :
  conc_inv F c -> conc_can F op c -> driver_op op = true -> conc_step op c = Ok c' -> weighs c n ->
  exists n', weighs c' n' /\ (n' < n)%nat.
Proof.
  destruct c as [q w ts rf]. intros Hc Hcan Hop E Hn. destruct op as [|k| | | | | | |k]; try discriminate Hop.
  - cbn [conc_step c_q c_w c_tasks c_refused] in E. inv_ok E. apply deref_some in E0. injection E as <-.
    destruct Hn as (cs & Hcs & ->). eexists. split; [by exists cs|]. unfold conc_weight. cbn [c_q c_w c_tasks].
    set (w' := set_w_wq _ w). assert (same_rqs w w') as Hs by done.
    assert (listed (ts ++ [WStart r]) = listed ts) as -> by (unfold listed; rewrite bind_app; apply app_nil_r).
    rewrite (inflight_same w w'), (sum_ext (work_weight w') (work_weight w)),
      (sum_ext (task_weight w') (task_weight w)) by (done || (intros; by apply work_same) || (intros; by apply task_weight_same)).
    change (w_wq w') with (delete k (w_wq w)). rewrite (delete_Permutation (w_wq w) k r E0) at 2.
    rewrite sum_list_with_app. cbn [sum_list_with task_weight]. unfold work_weight. lia.
  - destruct Hcan as (_ & t & Hk & Htid & _ & _ & Hns). simpl in Hk, Htid, Hns.
    cbn [conc_step c_q c_w c_tasks c_refused] in E. rewrite Hk in E. cbn [deref obind] in E. inv_ok E.
    destruct r as [[o q1] w1]. injection E as <-.
    pose proof (delete_Permutation ts k t Hk) as Hp.
    assert (conc_inv F (mk_conc q w (t :: delete k ts) rf)) as Hc' by (by apply (conc_inv_perm F q w ts)).
    assert (drops q w t q1 w1 o (delete k ts) rf (rf ++ newly_refused t w w1)) as Hd.
    { destruct (own_section t) eqn:Ho; [by apply (own_drops F)|]. apply (special_drops F); [done|done| |done].
      intros off ->. by apply (names_submitted_delete q w ts k (CEntry off)), Hns. }
    destruct (Hd n (weighs_perm q w ts _ rf rf n Hp Hn)) as (n' & Hn' & Hlt). exists n'. split; [|done].
    eapply weighs_perm; [|exact Hn']. symmetry. exact (set_task_perm ts k t o Hk).
Qed.
End special.

(** ** Every state can be drained *)

Section drain.
Context `{L : UbbdAbiLaws} `{KL : KernelApiLaws} `{ML : KernelMemLaws}.
Implicit Types (q : ubbd_queue) (w : world) (es : list entry) (F : gset Z) (t : task) (ts : list task).

Inductive conc_runs F : list conc_op -> conc -> conc -> Prop :=
| runs_nil c : conc_runs F [] c c
| runs_cons op ops c c1 c2 :
    conc_can F op c -> conc_step op c = Ok c1 -> conc_runs F ops c1 c2 -> conc_runs F (op :: ops) c c2.

Lemma runs_bounded F ops c c' n :
  conc_runs F ops c c' -> conc_inv F c -> Forall (fun op => driver_op op = true) ops -> weighs c n ->
  (length ops <= n)%nat.
Proof.
  intros Hr. revert n. induction Hr as [c|op ops c c1 c2 Hcan E Hr IH]; intros n Hc Ho Hn; [simpl; lia|].
  apply Forall_cons in Ho as [Ho1 Ho]. destruct (conc_step_inv F c op Hc Hcan) as (c1' & E' & Hc1).
  rewrite E in E'. injection E' as <-.
  destruct (driver_op_drops F c op c1 n Hc Hcan Ho1 E Hn) as (n1 & Hn1 & Hlt).
  specialize (IH n1 Hc1 Ho Hn1). simpl. lia.
Qed.

(** A thread can be started, or one can run. *)
Definition room ts : Prop :=
  Z.of_nat (length ts) < PID_MAX_LIMIT \/ Exists (fun t => waiting t = false) ts.

Lemma length_set_task k t o ts : ts !! k = Some t -> (length (set_task k o ts) <= length ts)%nat.
Proof.
  intros Hk. destruct o; simpl; [by rewrite length_insert|]. rewrite length_delete by (by rewrite Hk; eauto). lia.
Qed.

(** What [conc_can] asks of the thread itself. *)
Definition runnable (c : conc) t : Prop :=
  (waiting t = true -> flushed c) /\
  (forall l, takes_lock t = Some l -> lock_free l (c_tasks c)) /\
  (forall off, t = CEntry off -> names_submitted (c_q c) (c_w c) (c_tasks c) off).

(** Some thread can run: one that holds a lock, else a work, else any that does
    not wait for the works; without works every id is published or unknown. *)
Lemma some_runnable c :
  (exists k t, c_tasks c !! k = Some t /\ waiting t = false /\ runnable c t) \/
  Forall (fun t => waiting t = true) (c_tasks c).
Proof.
  assert (forall P : task -> Prop, Exists P (c_tasks c) -> exists k t, c_tasks c !! k = Some t /\ P t) as Hex.
  { intros P Hx. apply Exists_exists in Hx as (t & Hin & Hp). apply list_elem_of_lookup in Hin as [k ?]. eauto. }
  destruct (decide (Exists (fun t => holds_lock t <> None) (c_tasks c))) as [Hx|Hno].
  { left. destruct (Hex _ Hx) as (k & t & Hk & Ht). exists k, t. split_and!; [done|by destruct t|].
    split_and!; [by destruct t|by destruct t|by intros off ->]. }
  apply not_Exists_Forall in Hno; [|apply _].
  assert (forall l, lock_free l (c_tasks c)) as Hlf.
  { intros l. eapply Forall_impl; [exact Hno|]. intros t Ht E. apply Ht. by rewrite E. }
  destruct (decide (Exists (fun t => working t = true) (c_tasks c))) as [Hx|Hnw].
  { left. destruct (Hex _ Hx) as (k & t & Hk & Ht). exists k, t.
    split_and!; [done|by destruct t|]. split_and!; [by destruct t|done|by intros off ->]. }
  apply not_Exists_Forall in Hnw; [|apply _].
  assert (listed (c_tasks c) = []) as El.
  { apply no_works_listed. eapply Forall_impl; [exact Hnw|]. intros t. apply not_true_is_false. }
  destruct (decide (Exists (fun t => waiting t = false) (c_tasks c))) as [Hx|Hall].
  { left. destruct (Hex _ Hx) as (k & t & Hk & Ht). exists k, t. split_and!; [done|done|].
    split_and!; [congruence|done|]. intros off _ ce tag _ _. rewrite El. apply not_elem_of_nil. }
  right. apply not_Exists_Forall in Hall; [|apply _]. eapply Forall_impl; [exact Hall|].
  intros t. apply not_false_is_true.
Qed.

(** The weight pays for the ids that are still to be given out. *)
Definition next_state F (c : conc) (n : nat) : Prop :=
  exists op c' n', driver_op op = true /\ conc_can F op c /\ conc_step op c = Ok c' /\ conc_inv F c' /\
    weighs c' n' /\ (n' < n)%nat /\ q_req_tid (c_q c') + Z.of_nat n' < 2 ^ 64 /\ room (c_tasks c').

Lemma driver_next F c n op :
  conc_inv F c -> weighs c n -> q_req_tid (c_q c) + Z.of_nat n < 2 ^ 64 -> driver_op op = true -> conc_can F op c ->
  (forall c', conc_step op c = Ok c' -> q_req_tid (c_q c') <= q_req_tid (c_q c) + 1 /\ room (c_tasks c')) ->
  next_state F c n.
Proof.
  intros Hc Hn Htid Ho Hcan Hx. destruct (conc_step_inv F c op Hc Hcan) as (c' & E & Hc').
  destruct (driver_op_drops F c op c' n Hc Hcan Ho E Hn) as (n' & Hn' & Hlt). destruct (Hx c' E) as [Ht Hr].
  exists op, c', n'. split_and!; try done. lia.
Qed.

Lemma weighs_pos c n : weighs c n -> c_tasks c <> [] -> (0 < n)%nat.
Proof.
  intros (cs & _ & ->) Hne. unfold conc_weight. destruct (c_tasks c) as [|t ts]; [done|].
  cbn [sum_list_with]. assert (0 < task_weight (c_w c) t)%nat; [|lia].
  destruct t as [| | |? ? ? []| | | | | | | | | | | | | |? ? []|? ? ? []|[]| | | |]; cbn [task_weight return_weight]; lia.
Qed.

Lemma run_next F c n k t :
  conc_inv F c -> weighs c n -> q_req_tid (c_q c) + Z.of_nat n < 2 ^ 64 ->
  c_tasks c !! k = Some t -> runnable c t -> next_state F c n.
Proof.
  intros Hc Hn Htid Hk (Hw & Hlk & Hns). destruct (cv_holds _ _ Hc) as [es Hh].
  pose proof (hd_tid _ _ _ _ _ Hh) as H0.
  assert (0 < n)%nat as Hpos by (apply (weighs_pos c); [done|]; intros E; by rewrite E in Hk).
  apply (driver_next F c n (OpTask k)); try done.
  - split; [done|]. exists t. split_and!; try done. lia.
  - intros c' E. cbn [conc_step] in E. rewrite Hk in E. cbn [deref obind] in E. inv_ok E.
    destruct r as [[o q1] w1]. injection E as <-. cbn [c_q c_tasks].
    destruct (task_frame _ _ _ _ _ _ E0) as [_ Hnw Hids _]. split; [apply Hids; lia|].
    destruct o as [t'|]; [right|left].
    + apply Exists_exists. exists t'. split; [|done]. simpl.
      apply (list_elem_of_lookup_2 _ k). apply list_lookup_insert_eq. by eapply lookup_lt_Some.
    + pose proof (cv_few _ _ Hc). simpl. rewrite length_delete by (by rewrite Hk; eauto).
      pose proof (lookup_lt_Some _ _ _ Hk). lia.
Qed.

(** The step the driver takes: a thread that can run, else a pending work,
    else a thread whose flush is over. *)
Lemma drain_step F c n :
  conc_inv F c -> weighs c n -> q_req_tid (c_q c) + Z.of_nat n < 2 ^ 64 -> room (c_tasks c) ->
  (c_tasks c = [] /\ w_wq (c_w c) = []) \/ next_state F c n.
Proof.
  intros Hc Hn Htid Hroom. destruct (some_runnable c) as [(k & t & Hk & _ & Hrun)|Hall].
  { right. by apply (run_next F c n k t). }
  destruct Hroom as [Hlen|Hx].
  2: { exfalso. apply Exists_exists in Hx as (t & Hin & Hw). rewrite Forall_forall in Hall.
       by rewrite (Hall t Hin) in Hw. }
  destruct (w_wq (c_w c)) as [|tag l] eqn:Ewq.
  - destruct (c_tasks c) as [|t ts] eqn:Et; [by left|right]. rewrite <- Et in *.
    assert (c_tasks c !! 0%nat = Some t) as Hk by (by rewrite Et).
    apply (run_next F c n 0%nat t); [done..|]. split_and!.
    + intros _. split; [done|]. eapply Forall_impl; [exact Hall|]. by intros [].
    + intros l _. eapply Forall_impl; [exact Hall|]. by intros [].
    + intros off ->. rewrite Forall_forall in Hall. by specialize (Hall (CEntry off) (list_elem_of_lookup_2 _ _ _ Hk)).
  - right. apply (driver_next F c n (OpWork 0)); try done.
    + split; [done|]. rewrite Ewq. simpl. lia.
    + intros c' E. cbn [conc_step] in E. rewrite Ewq in E. cbn in E. injection E as <-. cbn [c_q c_tasks].
      split; [lia|]. right. apply Exists_app. right. by constructor.
Qed.

Lemma drained F n : forall c,
  conc_inv F c -> weighs c n -> q_req_tid (c_q c) + Z.of_nat n < 2 ^ 64 -> room (c_tasks c) ->
  exists ops c', Forall (fun op => driver_op op = true) ops /\ conc_runs F ops c c' /\ conc_inv F c' /\
    c_tasks c' = [] /\ w_wq (c_w c') = [].
Proof.
  induction (lt_wf n) as [n _ IH]. intros c Hc Hn Htid Hroom.
  destruct (drain_step F c n Hc Hn Htid Hroom) as [[Ht Hw]|(op & c1 & n1 & Ho & Hcan & E & Hc1 & Hn1 & Hlt & Htid1 & Hr1)].
  - exists [], c. split_and!; try done. constructor.
  - destruct (IH n1 Hlt c1 Hc1 Hn1 Htid1 Hr1) as (ops & c2 & Hops & Hrun & ?).
    exists (op :: ops), c2. split_and!; try tauto; [by constructor|]. by econstructor.
Qed.
End drain.
