(* ===== verification/ThreadsProps.v ===== *)
(** * Properties of the threads of a queue

    The theorems about the handlers of [src/src/ubbd_req.c] running at the same
    time, with witnesses on concrete interleavings. *)

From S2P Require Import Prelude Abi Ring Pages Request Queue QueueProps Operation Threads ThreadsInv ThreadsStep.
From S2P Require Import ThreadsLock ThreadsRun ThreadsSeq ThreadsTerm.

Section properties.
Context `{L : UbbdAbiLaws} `{KL : KernelApiLaws} `{ML : KernelMemLaws}.
Implicit Types (F : gset Z) (c : conc).


(** C4: a thread that no other interrupts computes what the handler it was cut
    from does: the sections of [ubbd_queue_rq], [ubbd_queue_workfn],
    [ubbd_queue_complete] and [ubbd_queue_end_inflight_reqs], run one after the
    other, end in the state the sequential handler returns, and in no other. *)
Theorem handlers_are_schedules (q : ubbd_queue) (w : world) :
  (forall tag sts w', status_errno (q_status q) = 0 -> ubbd_queue_rq q w tag = Ok (sts, w') ->
     forall q2 w2, finishes (QStarting tag) q w q2 w2 <-> q2 = q /\ w2 = w') /\
  (forall tag q' w', ubbd_queue_workfn q w tag = Ok (q', w') ->
     forall q2 w2, finishes (WStart tag) q w q2 w2 <-> q2 = q' /\ w2 = w') /\
  (forall fuel q' w', ubbd_queue_complete fuel q w = Ok (q', w') ->
     forall q2 w2, finishes CStart q w q2 w2 <-> q2 = q' /\ w2 = w') /\
  (forall q' w', ubbd_queue_end_inflight_reqs q w (- EIO) = Ok (q', w') ->
     forall q2 w2, finishes RSplice q w q2 w2 <-> q2 = q' /\ w2 = w').
Proof.
  assert (forall t q' w', finishes t q w q' w' ->
    forall q2 w2, finishes t q w q2 w2 <-> q2 = q' /\ w2 = w') as Hu.
  { intros t q' w' Hf q2 w2. split; [|by intros [-> ->]]. intros Hf2. by eapply finishes_unique. }
  split_and!.
  - intros tag sts w' Hs E. apply Hu. by eapply rq_finishes.
  - intros tag q' w' E. apply Hu. by apply workfn_finishes.
  - intros fuel q' w' E. apply Hu. by eapply complete_finishes.
  - intros q' w' E. apply Hu. by apply end_inflight_finishes.
Qed.

(** C5: the threads always end.  From every reachable state there is a bound on
    the number of steps the driver takes on its own, whatever the schedule; and
    unless the 64-bit ids or the threads run out, the driver can always
    finish: some schedule ends every thread and every pending work, the threads
    that wait for the work queue included. *)
Theorem threads_end F c :
  conc_reach F c ->
  (exists n, weighs c n) /\
  forall n, weighs c n ->
    (forall ops c', Forall (fun op => driver_op op = true) ops -> conc_runs F ops c c' -> (length ops <= n)%nat) /\
    (q_req_tid (c_q c) + Z.of_nat n < 2 ^ 64 -> Z.of_nat (length (c_tasks c)) < PID_MAX_LIMIT ->
     exists ops c', Forall (fun op => driver_op op = true) ops /\ conc_runs F ops c c' /\
       c_tasks c' = [] /\ w_wq (c_w c') = []).
Proof.
  intros Hr. pose proof (conc_reach_inv F c Hr) as Hc. destruct (cv_compr _ _ Hc) as [cs Hcs].
  split; [by exists (conc_weight c cs), cs|]. intros n Hn. split.
  - intros ops c' Ho Hruns. by apply (runs_bounded F ops c c').
  - intros Htid Hlen. destruct (drained F _ c Hc Hn Htid (or_introl Hlen)) as (ops & c' & ? & ? & _ & ? & ?).
    by exists ops, c'.
Qed.

(** A request on the list is submitted, unless a work is still submitting it. *)
Lemma inflight_entry F q w ts rf : conc_inv F (mk_conc q w ts rf) ->
  forall t, t ∈ q_inflight q -> exists e, w_reqs w !! t = Some e /\ req_ready F e /\
    (t ∉ listed ts -> 1 <= ur_req_tid (e_pdu e)) /\
    (if decide (t ∈ listed ts) then HList t else HSub t) ∈ holdings (mk_conc q w ts rf).
Proof.
  intros Hc t Ht. destruct (cv_holds _ _ Hc) as [es Hh].
  pose proof (hd_ok _ _ _ _ _ Hh) as Hok. rewrite Forall_forall in Hok.
  assert ((if decide (t ∈ listed ts) then HList t else HSub t) ∈ holdings (mk_conc q w ts rf)) as Hin.
  { unfold holdings. cbn [c_q c_w c_tasks]. rewrite !elem_of_app. right. left.
    unfold inflight_holdings. apply list_elem_of_fmap. by exists t. }
  destruct (Hok _ Hin) as (e & He & Hx). exists e.
  destruct (decide (t ∈ listed ts)); simpl in He, Hx; destruct Hx as [H1 H2]; split_and!; try done.
  intros _. destruct H2 as [H2 _]. lia.
Qed.

(** A work submits each listed request, and has come so far. *)
Lemma listed_entering F c tag : conc_inv F c -> tag ∈ listed (c_tasks c) ->
  exists t, t ∈ c_tasks c /\ task_listed t = [tag] /\ entering_ok (c_q c) (c_w c) t.
Proof.
  intros Hc Hin. apply list_elem_of_bind in Hin as (t & Hin & Ht). exists t. split; [done|].
  pose proof (cv_enter _ _ Hc) as Hen. rewrite Forall_forall in Hen. split; [|by apply Hen].
  destruct t; simpl in Hin |- *; (by apply elem_of_nil in Hin) || (by apply list_elem_of_singleton in Hin as ->).
Qed.

(** The ids up to here are published: the holder of [cmdr_lock] still enters
    the last one. *)
Definition published c : Z :=
  q_req_tid (c_q c) - Z.of_nat (length (filter (fun t => holds_cmdr t = true) (c_tasks c))).

(** A completion entry with a published id finds a submitted request, or none. *)
Theorem published_ids_named F c off :
  conc_reach F c ->
  (forall ce, ces (q_ring (c_q c)) !! off = Some ce -> 1 <= ce_priv_data ce <= published c) ->
  names_submitted (c_q c) (c_w c) (c_tasks c) off.
Proof.
  intros Hr Hp ce tag Hce Hf Hin. specialize (Hp ce Hce). pose proof (conc_reach_inv F c Hr) as Hc.
  destruct (find_inflight_tid _ _ _ _ Hf) as (_ & e & He & Et).
  destruct (listed_entering F c tag Hc Hin) as (t & Ht & El & Hen).
  assert (holds_cmdr t = true -> ur_req_tid (e_pdu e) = q_req_tid (c_q c) -> False) as Hlast.
  { intros Hh E. unfold published in Hp.
    assert (t ∈ filter (fun t => holds_cmdr t = true) (c_tasks c)) as Hf' by (by apply list_elem_of_filter).
    destruct (filter _ _); [by apply elem_of_nil in Hf'|]. simpl in Hp. lia. }
  destruct t; simpl in El; simplify_eq; destruct Hen as (e' & He' & Hen); simplify_eq.
  - destruct Hen as [E _]. lia.
  - destruct Hen as [[E _ _] _]. by apply Hlast.
  - destruct Hen as [[E _ _] _ _ _]. by apply Hlast.
  - destruct Hen as [E _]. lia.
Qed.

Lemma omap_nodup_inj {X Y} (f : X -> option Y) l x y v :
  NoDup (omap f l) -> x ∈ l -> y ∈ l -> f x = Some v -> f y = Some v -> x = y.
Proof.
  intros Hnd Hx Hy Ex Ey. apply elem_of_Permutation in Hx as [l' E]. rewrite E in Hnd, Hy.
  apply elem_of_cons in Hy as [Hy|Hy]; [done|]. cbn in Hnd. rewrite Ex in Hnd.
  apply NoDup_cons in Hnd as [Hni _]. destruct Hni. apply list_elem_of_omap. by exists y.
Qed.

Lemma find_some w l tag tid : tag ∈ l -> (exists e, w_reqs w !! tag = Some e /\ ur_req_tid (e_pdu e) = tid) ->
  exists tag', find_inflight w l tid = Some tag'.
Proof.
  intros Hin (e & He & Ht). induction l as [|t l IH]; [by apply elem_of_nil in Hin|]. simpl.
  apply elem_of_cons in Hin as [<-|Hin].
  - rewrite He, Ht, Z.eqb_refl. by eexists.
  - destruct (w_reqs w !! t) as [e'|]; [destruct (_ =? tid); eauto|eauto].
Qed.

(** A completer finds a request whose [se] is NULL: it copies the data of a read
    and dereferences it. *)
Lemma null_entry_faults F q w ts rf j off ce tag e :
  conc_inv F (mk_conc q w ts rf) -> ts !! j = Some (CEntry off) -> forall r, ces r !! off = Some ce ->
  find_inflight w (q_inflight q) (ce_priv_data ce) = Some tag -> w_reqs w !! tag = Some e ->
  ur_se (e_pdu e) = None ->
  exists n, (n = 3 \/ q_status q = UBBD_QUEUE_KSTATUS_STOPPING /\ n = 4)%nat /\
    conc_run (OpBackend r :: repeat (OpTask j) n) (mk_conc q w ts rf) = Fault NULL_DEREF.
Proof.
  intros Hc Hj r Hce Hf He Hse. destruct (find_inflight_tid _ _ _ _ Hf) as (Hin & _).
  destruct (cv_holds _ _ Hc) as [es Hh]. pose proof (lookup_lt_Some _ _ _ Hj) as Hlt.
  assert (exists m, (if bool_decide (rq_op (e_rq e) = REQ_OP_READ) then
      copy_data_from_ubbdreq (data_pages_array (q_pool q)) (e_pdu e) (rq_bio (e_rq e)) (w_mem w)
    else Ok (w_mem w)) = Ok m) as [m Em].
  { destruct (holds_inflight q w es F [] (listed ts) ts Hh) as [Hnd _].
    change (holds q w es F (rest q w (listed ts) ts)) in Hh.
    rewrite (rest_split q w (listed ts) ts tag Hin Hnd) in Hh.
    destruct (inflight_entry F q w ts rf Hc tag Hin) as (e' & He' & Hr & _). simplify_eq.
    destruct (decide _); by apply (read_data_ok q w es F tag _ _ e Hh). }
  set (q1 := set_q_inflight (list_del tag (q_inflight q)) (set_q_ring r q)).
  assert (forall q2 ts2 rf2, q_ring q2 = r -> q_pool q2 = q_pool q -> ts2 !! j = Some (CFetched tag off) ->
    conc_run (repeat (OpTask j) 2) (mk_conc q2 w ts2 rf2) = Fault NULL_DEREF) as Hend.
  { intros q2 ts2 rf2 Er Ep Hj2. pose proof (lookup_lt_Some _ _ _ Hj2).
    cbn [repeat conc_run conc_step c_q c_w c_tasks]. rewrite Hj2. cbn [deref obind task_step]. unfold read_section.
    rewrite He. cbn [deref obind]. rewrite Ep, Em. cbn [obind]. rewrite Er, Hce. cbn [deref obind set_task c_q c_w c_tasks].
    rewrite list_lookup_insert_eq by done. cbn [deref obind task_step]. unfold mark_section. simpl w_reqs.
    rewrite He. cbn [deref obind]. by rewrite Hse. }
  assert (exists t, task_step (CEntry off) (set_q_ring r q) w = Ok (Some t, q1, w) /\
    (t = CFetched tag off \/ q_status q = UBBD_QUEUE_KSTATUS_STOPPING /\ t = CStore tag off)) as (t & E & Ht).
  { cbn [task_step]. unfold fetch_section. simpl q_ring. rewrite Hce. cbn [deref obind].
    change (q_inflight (set_q_ring r q)) with (q_inflight q). rewrite Hf. fold q1. cbv beta iota zeta.
    change (q_status q1) with (q_status q).
    destruct (Z.eqb_spec (q_status q) UBBD_QUEUE_KSTATUS_STOPPING); [destruct (bool_decide (q_inflight q1 = []))|];
      cbn [andb]; eauto. }
  assert (forall k, conc_run (OpBackend r :: repeat (OpTask j) (S k)) (mk_conc q w ts rf) =
    conc_run (repeat (OpTask j) k) (mk_conc q1 w (<[j := t]> ts) (rf ++ []))) as Hfirst.
  { intros k. cbn [repeat conc_run conc_step c_q c_w c_tasks obind]. rewrite Hj. cbn [deref obind]. rewrite E. done. }
  destruct Ht as [->|[Hst ->]].
  - exists 3%nat. split; [by left|]. rewrite Hfirst. apply Hend; [done|done|]. by apply list_lookup_insert_eq.
  - exists 4%nat. split; [by right|]. rewrite Hfirst.
    change (repeat (OpTask j) 3) with (OpTask j :: repeat (OpTask j) 2).
    cbn [conc_run conc_step c_q c_w c_tasks]. rewrite list_lookup_insert_eq by done. cbn [deref obind task_step].
    unfold store_section. cbn [obind set_task]. rewrite list_insert_insert_eq.
    apply Hend; [done|done|]. by apply list_lookup_insert_eq.
Qed.

(** C38: a completion entry that names a request a work has not finished
    submitting crashes the driver.  Either its id is 0 and a work stands between
    [list_add_tail] and the assignment of the id: the request on the list still
    has the id 0 of [memset] and a NULL [se].  Or it is the id the next request
    gets and the work stands between the assignment of [req_tid] and that of
    [se].  In both cases [complete_inflight_req] dereferences the NULL [se],
    in the third section of the completer from its look-up of the id, the
    fourth if the queue is stopping. *)
Theorem early_completion_faults F c j tag off r ce :
  conc_reach F c -> c_tasks c !! j = Some (CEntry off) -> ces r !! off = Some ce ->
  WListed tag ∈ c_tasks c /\ ce_priv_data ce = 0 \/
  WNumbered tag ∈ c_tasks c /\ ce_priv_data ce = q_req_tid (c_q c) ->
  exists n, (n = 3 \/ q_status (c_q c) = UBBD_QUEUE_KSTATUS_STOPPING /\ n = 4)%nat /\
    conc_run (OpBackend r :: repeat (OpTask j) n) c = Fault NULL_DEREF.
Proof.
  intros Hr Hj Hce Hx. pose proof (conc_reach_inv F c Hr) as Hc. destruct c as [q w ts rf].
  cbn [c_q c_w c_tasks c_refused] in *. pose proof (cv_listed _ _ Hc) as [_ Hl2]. cbn [c_q c_tasks] in Hl2.
  pose proof (cv_enter _ _ Hc) as Hen. cbn [c_q c_w c_tasks] in Hen. rewrite Forall_forall in Hen.
  assert (tag ∈ listed ts) as Hlt by (apply list_elem_of_bind; destruct Hx as [[Hin _]|[Hin _]];
    [exists (WListed tag)|exists (WNumbered tag)]; (split; [by left|done])).
  assert (exists e, w_reqs w !! tag = Some e /\ ur_req_tid (e_pdu e) = ce_priv_data ce /\ ur_se (e_pdu e) = None /\
    (ce_priv_data ce = 0 \/ 1 <= ce_priv_data ce)) as (e & He & Et & Hse & Hid).
  { destruct Hx as [[Hin E]|[Hin E]]; specialize (Hen _ Hin); simpl in Hen; destruct Hen as (e & He & Hen); exists e.
    - destruct Hen as [E1 E2]. split_and!; [done|congruence|done|by left].
    - destruct Hen as [[E1 E2 _] E3]. split_and!; [done|congruence|done|right; lia]. }
  destruct (find_some w (q_inflight q) tag (ce_priv_data ce) (Hl2 _ Hlt)) as [tag' Hf]; [by exists e|].
  destruct (find_inflight_tid _ _ _ _ Hf) as (Hin' & e' & He' & Et').
  apply (null_entry_faults F q w ts rf j off ce tag' e' Hc Hj r Hce Hf He').
  destruct (inflight_entry F q w ts rf Hc tag' Hin') as (e0 & He0 & _ & Hns & Hh'). simplify_eq.
  destruct Hid as [Hz|Hpos].
  - destruct (decide (tag' ∈ listed ts)) as [Hlt'|Hnl]; [|specialize (Hns Hnl); lia].
    destruct (listed_entering F _ tag' Hc Hlt') as (t & _ & El & Hent). cbn [c_q c_w] in Hent.
    destruct t; simpl in El; simplify_eq; destruct Hent as (e1 & He1 & Hent); simplify_eq;
      [by destruct Hent|destruct Hent as [[? ? _] _]; lia|destruct Hent as [[? ? _] _ _ _]; lia|by destruct Hent].
  - destruct (inflight_entry F q w ts rf Hc tag (Hl2 _ Hlt)) as (_ & _ & _ & _ & Hh). rewrite decide_True in Hh by done.
    destruct (cv_holds _ _ Hc) as [es Hhd]. pose proof (hd_tids _ _ _ _ _ Hhd) as Hnd. cbn [c_w] in Hnd.
    assert (forall t e1, w_reqs w !! t = Some e1 -> ur_req_tid (e_pdu e1) = ce_priv_data ce ->
      pdu_of w t ≫= named_tid = Some (ce_priv_data ce)) as Hn.
    { intros t e1 He1 E1. unfold pdu_of. rewrite He1. simpl. unfold named_tid. rewrite E1.
      destruct (Z.eqb_spec (ce_priv_data ce) 0); [lia|done]. }
    assert (htag (if decide (tag' ∈ listed ts) then HList tag' else HSub tag') = htag (HList tag)) as Etag.
    { f_equal. apply (omap_nodup_inj _ _ _ _ (ce_priv_data ce) Hnd Hh' Hh); [|by apply (Hn tag e)].
      destruct (decide _); by apply (Hn tag' e'). }
    destruct (decide _); simpl in Etag; simplify_eq; done.
Qed.
End properties.

(** ** Witnesses

    Schedules of the demo queue, checked by evaluation. *)

Section runs.
Context `{A : UbbdAbi} `{K : KernelApi} `{M : KernelMem}.

Definition flushed_b (c : conc) : bool :=
  bool_decide (w_wq (c_w c) = []) && forallb (fun t => negb (is_work t)) (c_tasks c).

Definition names_b (q : ubbd_queue) (w : world) (ts : list task) (off : Z) : bool :=
  match ces (q_ring q) !! off with
  | Some ce =>
      match find_inflight w (q_inflight q) (ce_priv_data ce) with
      | Some tag => bool_decide (tag ∉ listed ts)
      | None => true
      end
  | None => true
  end.

(** [conc_can], as a test, except for what it asks of a request and of the
    backend. *)
Definition can_b (op : conc_op) (c : conc) : bool :=
  match op with
  | OpTask _ => true
  | _ => Z.of_nat (length (c_tasks c)) <? PID_MAX_LIMIT
  end &&
  match op with
  | OpSubmit tag _ => bool_decide (tag ∉ (htag <$> holdings c))
  | OpWork k => (k <? length (w_wq (c_w c)))%nat
  | OpBackend _ => false
  | OpComplete | OpData _ => true
  | OpStop | OpRemove _ => forallb (fun t => negb (stopping t)) (c_tasks c)
  | OpStart => forallb (fun t => negb (stopping t) && negb (removing t)) (c_tasks c)
  | OpTask k =>
      match c_tasks c !! k with
      | Some t => (q_req_tid (c_q c) + 1 <? 2 ^ 64) &&
          (negb (stopping t || removing t && negb (splicing t)) || flushed_b c) &&
          match takes_lock t with
          | Some l => forallb (fun t' => negb (bool_decide (holds_lock t' = Some l))) (c_tasks c)
          | None => true
          end &&
          match t with CEntry off => names_b (c_q c) (c_w c) (c_tasks c) off | _ => true end
      | None => false
      end
  end.

Fixpoint run_b (ops : list conc_op) (c : conc) : option conc :=
  match ops with
  | [] => Some c
  | op :: ops => if can_b op c then match conc_step op c with Ok c' => run_b ops c' | Fault _ => None end else None
  end.

Lemma flushed_spec c : flushed_b c = true -> flushed c.
Proof.
  intros H. apply andb_true_iff in H as [H1 H2]. apply bool_decide_eq_true in H1. split; [done|].
  apply Forall_forall. intros t Ht. rewrite forallb_forall in H2.
  apply negb_true_iff, H2. by apply list_elem_of_In.
Qed.

Definition op_rq_ok (F : gset Z) (op : conc_op) : Prop :=
  match op with OpSubmit _ rq => rq_ok rq F | _ => True end.

Lemma forallb_Forall {X} (f : X -> bool) (P : X -> Prop) l :
  (forall x, f x = true -> P x) -> forallb f l = true -> Forall P l.
Proof.
  intros Hf H. apply Forall_forall. intros x Hx. rewrite forallb_forall in H. by apply Hf, H, list_elem_of_In.
Qed.

Lemma names_spec q w ts off : names_b q w ts off = true -> names_submitted q w ts off.
Proof. unfold names_b. intros H ce tag Hce Hf. rewrite Hce, Hf in H. by apply bool_decide_eq_true in H. Qed.

Lemma can_task_spec F k c : can_b (OpTask k) c = true -> conc_can F (OpTask k) c.
Proof.
  intros H. split; [done|]. unfold can_b in H. cbn [andb] in H. destruct (c_tasks c !! k) as [t|] eqn:E; [|done].
  rewrite !andb_true_iff in H. destruct H as (((H2 & H3) & H4) & H5). exists t.
  split_and!; [done|by apply Z.ltb_lt| | |].
  - intros Hw. rewrite Hw in H3. by apply flushed_spec.
  - intros l El. rewrite El in H4. revert H4. apply forallb_Forall. intros x Hx.
    by apply negb_true_iff, bool_decide_eq_false in Hx.
  - intros off ->. by apply names_spec.
Qed.

Lemma can_spec F op c : can_b op c = true -> op_rq_ok F op -> conc_can F op c.
Proof.
  intros H Hrq. destruct op as [tag rq|k| | | | | |force|k]; [..|by apply can_task_spec];
    apply andb_true_iff in H as [H1 H2]; (split; [by apply Z.ltb_lt|]); try done.
  - apply bool_decide_eq_true in H2. by split.
  - by apply Nat.ltb_lt.
  - revert H2. apply forallb_Forall. intros x. apply negb_true_iff.
  - split; revert H2; apply forallb_Forall; intros x Hx; apply andb_true_iff in Hx as [Hx1 Hx2];
      by apply negb_true_iff.
  - revert H2. apply forallb_Forall. intros x. apply negb_true_iff.
Qed.

Lemma run_runs F ops c c' :
  run_b ops c = Some c' -> Forall (op_rq_ok F) ops -> conc_runs F ops c c'.
Proof.
  revert c. induction ops as [|op ops IH]; intros c H Hf; [injection H as <-; constructor|].
  simpl in H. apply Forall_cons in Hf as [Ho Hf]. destruct (can_b op c) eqn:Ec; [|done].
  destruct (conc_step op c) as [c1|] eqn:Es; [|done].
  econstructor; [by apply can_spec|done|by apply IH].
Qed.

Lemma runs_reach F ops c c' : conc_runs F ops c c' -> conc_reach F c -> conc_reach F c'.
Proof. induction 1 as [|op ops c c1 c2 Hcan E _ IH]; intros Hr; [done|]. by eapply IH, conc_reach_next. Qed.

Lemma run_reach F ops c c' :
  conc_reach F c -> run_b ops c = Some c' -> Forall (op_rq_ok F) ops -> conc_reach F c'.
Proof. intros Hr H Hf. by eapply runs_reach; [apply run_runs|]. Qed.
End runs.

(** The backend's next completion, over whatever is in the slot. *)
Definition post_ce (ce : ubbd_ce) (r : ring) : ring :=
  let s := sb r in
  mk_ring demo_abi
    (mk_sb (sb_magic s) (sb_version s) (sb_info_off s) (sb_info_size s) (sb_cmdr_off s)
       (cmdr_size s) (cmd_head s) (cmd_tail s) (sb_compr_off s) (compr_size s)
       ((compr_head s + sizeof_ubbd_ce) mod compr_size s) (compr_tail s))
    (hdrs r) (bodies r) (<[compr_head s := ce]> (ces r)).

Lemma post_ce_writes ce r : compr_wf r [] -> backend_writes r (post_ce ce r).
Proof.
  intros [Hs Ht Hc]. assert (compr_head (sb r) = compr_tail (sb r)) as Eh by (by inversion Hc).
  assert (compr_size (sb r) = 128) as Hs' by exact Hs.
  assert (0 <= compr_tail (sb r) < 128) as Ht' by exact Ht. split.
  - split; try done. intros cs [_ _ Hc']. exists [ce].
    replace cs with (@nil ubbd_ce) by (inversion Hc'; subst; congruence).
    split; [exact Hs|exact Ht|]. simpl. rewrite Hs', Eh. change sizeof_ubbd_ce with 16. change COMPR_SIZE with 128.
    apply compr_cons; [|by rewrite lookup_insert_eq|apply compr_nil].
    intros E. Z.div_mod_to_equations. lia.
  - intros off [c Hc']. simpl. destruct (decide (off = compr_head (sb r))) as [->|Hne].
    + rewrite lookup_insert_eq. by eexists.
    + rewrite lookup_insert_ne by done. by eexists.
Qed.

(** A queue with the requests of tags 7 and 8. *)
Definition conc0 : conc := mk_conc (demo_queue 1) demo_read_world [] [].

Lemma conc0_reach : conc_reach demo_foreign conc0.
Proof.
  apply conc_reach_start. split.
  - exists []. apply demo_queue_inv.
  - by split_and!.
  - exists []. split; [reflexivity|simpl; lia|constructor].
Qed.

Definition get {X} (o : option X) (d : X) : X := match o with Some x => x | None => d end.
Definition has {X} (o : option X) : bool := match o with Some _ => true | None => false end.

Lemma get_some {X} (o : option X) d : has o = true -> o = Some (get o d).
Proof. by destruct o. Qed.

Definition run (ops : list conc_op) (c : conc) : conc := get (run_b ops c) c.
Definition post (ce : ubbd_ce) (c : conc) : conc :=
  mk_conc (set_q_ring (post_ce ce (q_ring (c_q c))) (c_q c)) (c_w c) (c_tasks c) (c_refused c).

Lemma sched_reach ops c : conc_reach demo_foreign c -> has (run_b ops c) = true ->
  Forall (op_rq_ok demo_foreign) ops -> conc_reach demo_foreign (run ops c).
Proof. intros Hr Hb Hf. by apply (run_reach _ ops c); [|apply get_some|]. Qed.

(** No completion waits. *)
Definition no_ces (r : ring) : bool :=
  (compr_size (sb r) =? 128) && (0 <=? compr_tail (sb r)) && (compr_tail (sb r) <? 128) &&
  (compr_head (sb r) =? compr_tail (sb r)).

Lemma compr_empty r : no_ces r = true -> compr_wf r [].
Proof.
  unfold no_ces. intros Hq. rewrite !andb_true_iff in Hq. destruct Hq as (((H1 & H2) & H3) & H4).
  apply Z.eqb_eq in H1. apply Z.leb_le in H2. apply Z.ltb_lt in H3. apply Z.eqb_eq in H4.
  split; [exact H1|exact (conj H2 H3)|rewrite H4; constructor].
Qed.

(** It can post one more, and a thread can start. *)
Definition quiet (c : conc) : bool :=
  no_ces (q_ring (c_q c)) && (Z.of_nat (length (c_tasks c)) <? PID_MAX_LIMIT).

Lemma post_reach ce c : conc_reach demo_foreign c -> quiet c = true -> conc_reach demo_foreign (post ce c).
Proof.
  unfold quiet. intros Hr Hq. apply andb_true_iff in Hq as [Hw Hl]. apply compr_empty in Hw. apply Z.ltb_lt in Hl.
  apply (conc_reach_next _ c (OpBackend (post_ce ce (q_ring (c_q c))))); [done| |done].
  split; [done|]. by apply post_ce_writes.
Qed.

Definition submit_ops (tag : Z) : list conc_op :=
  [OpSubmit tag (demo_rq REQ_OP_READ); OpTask 0; OpWork 0].

Lemma ops_ok ops : forallb (fun op => match op with OpSubmit _ _ => false | _ => true end) ops = true ->
  Forall (op_rq_ok demo_foreign) ops.
Proof.
  induction ops as [|op ops IH]; intros H; [constructor|]. apply andb_true_iff in H as [H1 H2].
  constructor; [by destruct op|by apply IH].
Qed.

Lemma submit_ops_ok tag ops :
  forallb (fun op => match op with OpSubmit _ _ => false | _ => true end) ops = true ->
  Forall (op_rq_ok demo_foreign) (submit_ops tag ++ ops).
Proof.
  intros H. apply Forall_app. split; [|by apply ops_ok].
  constructor; [apply demo_rq_ok|]. by apply ops_ok.
Qed.

(** Tag 7 is on the list without an entry; the backend has posted a stray id
    and a completer is about to read it. *)
Definition conc_listed : conc := run (submit_ops 7 ++ repeat (OpTask 0) 8) conc0.
Definition conc_stray : conc := run [OpComplete; OpTask 1; OpTask 1] (post (mk_ce 5 0) conc_listed).

Lemma conc_stray_reach : conc_reach demo_foreign conc_stray.
Proof.
  apply sched_reach; [|vm_compute; reflexivity|by apply ops_ok].
  apply post_reach; [|vm_compute; reflexivity].
  apply (sched_reach _ conc0); [apply conc0_reach|vm_compute; reflexivity|by apply submit_ops_ok].
Qed.

Lemma conc_stray_tasks : c_tasks conc_stray = [WListed 7; CEntry 0].
Proof. vm_compute. reflexivity. Qed.

(** One section later it has its id, 1, and no entry. *)
Definition conc_guessed : conc := run [OpTask 0] conc_stray.

Lemma conc_guessed_reach : conc_reach demo_foreign conc_guessed.
Proof. apply sched_reach; [apply conc_stray_reach|vm_compute; reflexivity|by apply ops_ok]. Qed.

Lemma conc_guessed_tasks : c_tasks conc_guessed = [WNumbered 7; CEntry 0] /\ q_req_tid (c_q conc_guessed) = 1.
Proof. split; vm_compute; reflexivity. Qed.

(** The queue is stopped while the work of tag 8 is past its status test; the
    completion of tag 7, the only request on the list, arrives before it lists
    its request. *)
Definition conc_stopping : conc :=
  run (submit_ops 8 ++ [OpTask 0; OpStop]) (run (submit_ops 7 ++ repeat (OpTask 0) 11) conc0).
Definition conc_stopped : conc :=
  run ([OpComplete] ++ repeat (OpTask 2) 9 ++ repeat (OpTask 0) 10) (post (mk_ce 1 0) conc_stopping).

Lemma conc_stopped_reach : conc_reach demo_foreign conc_stopped.
Proof.
  apply sched_reach; [|vm_compute; reflexivity|by apply ops_ok].
  apply post_reach; [|vm_compute; reflexivity].
  apply sched_reach; [|vm_compute; reflexivity|by apply submit_ops_ok].
  apply (sched_reach _ conc0); [apply conc0_reach|vm_compute; reflexivity|by apply submit_ops_ok].
Qed.

(** C39: a queue can be [STOPPED] with a request inflight.  [fetch_inflight_req]
    takes an empty list for the end of the stop, while [queue_stop] still waits
    for works that passed their status test before it: such a work then submits
    its request to a queue whose status is already [STOPPED], and nothing
    looks again.  The state below is reached with no thread left. *)
Theorem stopped_with_inflight :
  exists c, conc_reach demo_foreign c /\ c_tasks c = [] /\ w_wq (c_w c) = [] /\
    q_status (c_q c) = UBBD_QUEUE_KSTATUS_STOPPED /\ q_inflight (c_q c) = [8].
Proof.
  exists conc_stopped. split; [apply conc_stopped_reach|]. split_and!; vm_compute; reflexivity.
Qed.

(** The completer of the last request of a stopping queue has read [STOPPING]
    and is about to store [STOPPED]. *)
Definition conc_storing : conc :=
  run ([OpComplete] ++ repeat (OpTask 0) 3)
    (post (mk_ce 1 0) (run [OpStop; OpTask 0] (run (submit_ops 7 ++ repeat (OpTask 0) 11) conc0))).

Lemma conc_storing_reach : conc_reach demo_foreign conc_storing.
Proof.
  apply sched_reach; [|vm_compute; reflexivity|by apply ops_ok].
  apply post_reach; [|vm_compute; reflexivity].
  apply sched_reach; [|vm_compute; reflexivity|by apply ops_ok].
  apply (sched_reach _ conc0); [apply conc0_reach|vm_compute; reflexivity|by apply submit_ops_ok].
Qed.

Lemma runs_get F ops c : has (run_b ops c) = true -> Forall (op_rq_ok F) ops -> conc_runs F ops c (run ops c).
Proof. intros H. by apply run_runs, get_some. Qed.

(** A removal can be overwritten: [fetch_inflight_req] reads [STOPPING], the
    removal stores [REMOVING], and the store of [STOPPED] follows.  The removal
    ends with the queue [STOPPED]: [ubbd_queue_rq] and the works then hand
    requests back for another try instead of failing them. *)
Theorem removal_overwritten :
  exists c0 ops c, conc_reach demo_foreign c0 /\ Forall (fun op => driver_op op = true) ops /\
    conc_runs demo_foreign (OpRemove true :: ops) c0 c /\ c_tasks c = [] /\
    q_status (c_q c) = UBBD_QUEUE_KSTATUS_STOPPED.
Proof.
  exists conc_storing, (repeat (OpTask 0) 10), (run (OpRemove true :: repeat (OpTask 0) 10) conc_storing).
  split_and!; [apply conc_storing_reach|by repeat constructor| | |]; [|vm_compute; reflexivity..].
  apply runs_get; [vm_compute; reflexivity|by apply ops_ok].
Qed.


Lemma conc_stray_weighs : weighs conc_stray (conc_weight conc_stray []).
Proof.
  exists []. split; [|reflexivity]. apply (compr_empty (q_ring (c_q conc_stray))). vm_compute. reflexivity.
Qed.

Lemma threads_end_witness :
  exists ops c', conc_runs demo_foreign ops conc_stray c' /\ c_tasks c' = [] /\ w_wq (c_w c') = [].
Proof.
  destruct (proj2 (threads_end demo_foreign conc_stray conc_stray_reach) _ conc_stray_weighs) as [_ H].
  destruct H as (ops & c' & _ & Hr & Ht & Hw); [vm_compute; reflexivity|vm_compute; reflexivity|].
  exists ops, c'. split; [exact Hr|split; [exact Ht|exact Hw]].
Defined.

(** The backend writes [0] over the id of the entry a completer stands on. *)
Definition zero_ring : ring :=
  let r := q_ring (c_q conc_stray) in mk_ring demo_abi (sb r) (hdrs r) (bodies r) (<[0 := mk_ce 0 0]> (ces r)).

(** ... or [1], the id the request has by then been given. *)
Definition guess_ring : ring :=
  let r := q_ring (c_q conc_guessed) in mk_ring demo_abi (sb r) (hdrs r) (bodies r) (<[0 := mk_ce 1 0]> (ces r)).

Lemma early_completion_faults_witness :
  (exists n, conc_run (OpBackend zero_ring :: repeat (OpTask 1) n) conc_stray = Fault NULL_DEREF) /\
  (exists n, conc_run (OpBackend guess_ring :: repeat (OpTask 1) n) conc_guessed = Fault NULL_DEREF).
Proof.
  split.
  - destruct (early_completion_faults demo_foreign conc_stray 1 7 0 zero_ring (mk_ce 0 0)) as (n & _ & E).
    + apply conc_stray_reach.
    + rewrite conc_stray_tasks. reflexivity.
    + vm_compute. reflexivity.
    + left. split; [rewrite conc_stray_tasks; left|reflexivity].
    + exists n. exact E.
  - destruct (early_completion_faults demo_foreign conc_guessed 1 7 0 guess_ring (mk_ce 1 0)) as (n & _ & E).
    + apply conc_guessed_reach.
    + rewrite (proj1 conc_guessed_tasks). reflexivity.
    + vm_compute. reflexivity.
    + right. split; [rewrite (proj1 conc_guessed_tasks); left|rewrite (proj2 conc_guessed_tasks); reflexivity].
    + exists n. exact E.
Defined.

Lemma handlers_are_schedules_witness : finishes (WStart 7) (demo_queue 1) demo_read_world demo_queue1 demo_world1.
Proof.
  apply (proj1 (proj2 (handlers_are_schedules (demo_queue 1) demo_read_world)) 7 _ _ demo_run_eq).
  split; reflexivity.
Defined.
