(* ===== verification/Debugfs.v ===== *)
(** * The debugfs files of a device

    Models [src/src/ubbd_debugfs.c]: the directory tree a device has under
    [ubbd/devices], the open and release of its files, which hold a reference
    to the device, what reading and writing them gives, and the optional
    statistics of the requests ([ubbd_req_stats] of [src/src/ubbd_req.c]). *)

From stdpp Require Import strings pretty.
From S2P Require Import Prelude Abi Ring Pages Request Queue Kring Device.

(** ** The file system *)

(** What a [struct dentry *] of the driver is: debugfs answers an error pointer
    when it cannot create an entry, and accepts it back. *)
Inductive dptr : Type := DP_NULL | DP_ERR | DP (i : Z).

(** An entry: the directories above it, its name, and for a file its
    [i_private], the address of a device and the index of a queue. *)
Record dnode : Type := mk_dnode {
  dn_path : list Z;
  dn_name : string;
  dn_file : option (Z * Z);
}.

(** The directories above an entry created in [parent]. *)
Definition path_in (v : gmap Z dnode) (parent : dptr) : option (list Z) :=
  match parent with
  | DP_NULL => Some []
  | DP_ERR => None
  | DP j => n ← v !! j; Some (j :: dn_path n)
  end.

(** An entry goes with all that is below it. *)
Definition remove_tree (p : dptr) (v : gmap Z dnode) : gmap Z dnode :=
  match p with
  | DP i => filter (fun kv => kv.1 <> i /\ i ∉ dn_path kv.2) v
  | _ => v
  end.

Class DebugfsApi := {
  dfs : Type;
  dfs_view : dfs -> gmap Z dnode;
  (** name, [i_private] for a file, parent *)
  debugfs_create : string -> option (Z * Z) -> dptr -> dfs -> dptr * dfs;
  debugfs_remove : dptr -> dfs -> dfs;
}.

Class DebugfsLaws `(F : DebugfsApi) : Prop := {
  (** a creation fails and changes nothing, or adds one entry *)
  debugfs_create_spec name file parent s :
    match debugfs_create name file parent s with
    | (DP i, s') =>
        dfs_view s !! i = None /\
        exists path, path_in (dfs_view s) parent = Some path /\
          dfs_view s' = <[i := mk_dnode path name file]> (dfs_view s)
    | (DP_ERR, s') => dfs_view s' = dfs_view s
    | (DP_NULL, _) => False
    end;
  debugfs_remove_spec p s : dfs_view (debugfs_remove p s) = remove_tree p (dfs_view s);
}.

(** A file system that creates whenever the parent exists. *)
Definition next_id (v : gmap Z dnode) : Z := 1 + foldr Z.max 0 (elements (dom v)).

Lemma next_id_fresh v : v !! next_id v = None.
Proof.
  apply not_elem_of_dom. rewrite <- elem_of_elements. unfold next_id.
  assert (forall l : list Z, forall x, x ∈ l -> x <= foldr Z.max 0 l) as Hm.
  { induction l as [|y l IH]; intros x Hx; [by apply not_elem_of_nil in Hx|].
    simpl. apply elem_of_cons in Hx as [->|Hx]; [lia|]. specialize (IH _ Hx). lia. }
  intros Hin. apply Hm in Hin. lia.
Qed.

#[export] Instance demo_debugfs : DebugfsApi := {|
  dfs := gmap Z dnode;
  dfs_view s := s;
  debugfs_create name file parent s :=
    match path_in s parent with
    | Some path => (DP (next_id s), <[next_id s := mk_dnode path name file]> s)
    | None => (DP_ERR, s)
    end;
  debugfs_remove := remove_tree;
|}.

#[export] Instance demo_debugfs_laws : DebugfsLaws demo_debugfs.
Proof.
  split; [|done]. intros name file parent s. simpl. destruct (path_in s parent) eqn:E; [|done].
  split; [apply next_id_fresh|eauto].
Qed.

(** ** The entries of a device *)

Section code.
Context `{A : UbbdAbi} `{K : KernelApi} `{M : KernelMem} `{F : DebugfsApi}.

(** The pointers in [struct ubbd_queue] and [struct ubbd_device]. *)
Record q_dentries : Type := mk_qd {
  q_debugfs_d : dptr;
  q_debugfs_status_f : dptr;
  q_debugfs_req_stats_f : dptr;
}.

Record dev_dentries : Type := mk_dd {
  dev_debugfs_d : dptr;
  dev_debugfs_queues_d : dptr;
  dd_qs : list q_dentries;
}.

Definition DEV_NAME (dev_id : Z) : string := ("ubbd" +:+ pretty dev_id)%string.

(** [snprintf] into a buffer of 8 bytes. *)
Definition queue_id_buf (i : Z) : string := String.substring 0 7 (pretty i).

(** One round of the loop of [ubbd_debugfs_add_dev]; [stats] says whether
    [UBBD_REQUEST_STATS] is defined. *)
Definition add_queue_files (stats : bool) (queues_d : dptr) (h i : Z) (s : dfs) : q_dentries * dfs :=
  let '(d, s) := debugfs_create (queue_id_buf i) None queues_d s in
  let '(f, s) := debugfs_create "status" (Some (h, i)) d s in
  if stats then
    let '(g, s) := debugfs_create "req_stats" (Some (h, i)) d s in (mk_qd d f g, s)
  else (mk_qd d f DP_NULL, s).

Fixpoint add_queues_files (stats : bool) (queues_d : dptr) (h i : Z) (todo : nat) (s : dfs)
  : list q_dentries * dfs :=
  match todo with
  | O => ([], s)
  | S todo =>
      let '(qd, s) := add_queue_files stats queues_d h i s in
      let '(l, s) := add_queues_files stats queues_d h (i + 1) todo s in
      (qd :: l, s)
  end.

Definition ubbd_debugfs_add_dev (stats : bool) (devices : dptr) (h dev_id : Z) (num_queues : nat)
    (s : dfs) : dev_dentries * dfs :=
  let '(d, s) := debugfs_create (DEV_NAME dev_id) None devices s in
  let '(qd, s) := debugfs_create "queues" None d s in
  let '(l, s) := add_queues_files stats qd h 0 num_queues s in
  (mk_dd d qd l, s).

(** Remove, and set the pointer to NULL. *)
Definition ubbd_debugfs_remove (p : dptr) (s : dfs) : dptr * dfs := (DP_NULL, debugfs_remove p s).

Definition remove_queue_files (stats : bool) (qd : q_dentries) (s : dfs) : q_dentries * dfs :=
  let '(g, s) :=
    if stats then ubbd_debugfs_remove (q_debugfs_req_stats_f qd) s
    else (q_debugfs_req_stats_f qd, s) in
  let '(f, s) := ubbd_debugfs_remove (q_debugfs_status_f qd) s in
  let '(d, s) := ubbd_debugfs_remove (q_debugfs_d qd) s in
  (mk_qd d f g, s).

Fixpoint remove_queues_files (stats : bool) (l : list q_dentries) (s : dfs) : list q_dentries * dfs :=
  match l with
  | [] => ([], s)
  | qd :: l =>
      let '(qd, s) := remove_queue_files stats qd s in
      let '(l, s) := remove_queues_files stats l s in
      (qd :: l, s)
  end.

Definition ubbd_debugfs_remove_dev (stats : bool) (dd : dev_dentries) (s : dfs) : dev_dentries * dfs :=
  let '(l, s) := remove_queues_files stats (dd_qs dd) s in
  let '(q, s) := ubbd_debugfs_remove (dev_debugfs_queues_d dd) s in
  let '(d, s) := ubbd_debugfs_remove (dev_debugfs_d dd) s in
  (mk_dd d q l, s).

(** The directories of the driver, [ubbd_debugfs_root] and
    [ubbd_debugfs_devices]. *)
Definition ubbd_debugfs_init (s : dfs) : dptr * dptr * dfs :=
  let '(root, s) := debugfs_create "ubbd" None DP_NULL s in
  let '(devices, s) := debugfs_create "devices" None root s in
  (root, devices, s).

Definition ubbd_debugfs_cleanup (root devices : dptr) (s : dfs) : dptr * dptr * dfs :=
  let '(devices, s) := ubbd_debugfs_remove devices s in
  let '(root, s) := ubbd_debugfs_remove root s in
  (root, devices, s).

(** ** The files *)

Definition ubbd_dev_get_unless_zero (d : ubbd_device) : bool * ubbd_device :=
  if d_kref d =? 0 then (false, d) else (true, ubbd_dev_get d).

(** [ubbd_q_status_open]; the arguments are whether the parent directory has
    an inode, whether the entry is still linked and what [single_open] returns.
    [None]: the device lost its last reference. *)
Definition ubbd_q_status_open (parent_ok positive : bool) (single_open : Z) (d : ubbd_device)
  : Z * option ubbd_device :=
  let ret := - ESTALE in
  if negb parent_ok then (ret, Some d)
  else
    let '(ret, d) :=
      if positive then
        let '(got, d) := ubbd_dev_get_unless_zero d in (if got then 0 else ret, d)
      else (ret, d) in
    if ret =? 0 then
      let ret := single_open in
      if negb (ret =? 0) then (ret, ubbd_dev_put d) else (ret, Some d)
    else (ret, Some d).

Definition dev_attr_release (d : ubbd_device) : option ubbd_device := ubbd_dev_put d.

(** The three numbers [ubbd_q_status_show] prints: %u, %d, %d. *)
Definition ubbd_q_status_show (q : ubbd_queue) : Z * Z * Z :=
  (u32 (data_pages (q_pool q)), s32 (data_pages_reserved (q_pool q)),
   s32 (data_pages_allocated (q_pool q))).

(** ** The statistics of the requests (with [UBBD_REQUEST_STATS]) *)

(** Times are [ktime_t], that is [s64]; the count is [u64]. *)
Record req_stats : Type := mk_stats {
  stats_reqs : Z;
  start_to_prepare : Z;
  start_to_submit : Z;
  start_to_complete : Z;
  start_to_release : Z;
}.

(** What a request carries when it is done. *)
Record req_times : Type := mk_times {
  rt_start_kt : Z;
  rt_prepare : Z;
  rt_submit : Z;
  rt_complete : Z;
  rt_release : Z;
}.

Definition ktime_add (a b : Z) : Z := s64 (a + b).

Definition ubbd_req_stats (r : req_times) (st : req_stats) : req_stats :=
  if rt_start_kt r =? 0 then st
  else
    mk_stats (u64 (stats_reqs st + 1))
      (ktime_add (start_to_prepare st) (rt_prepare r))
      (ktime_add (start_to_submit st) (rt_submit r))
      (ktime_add (start_to_complete st) (rt_complete r))
      (ktime_add (start_to_release st) (rt_release r)).

(** [do_div] divides a [u64] by its second argument cut to 32 bits. *)
Definition do_div (n base : Z) : outcome Z :=
  if u32 base =? 0 then Fault DIV_BY_ZERO else Ok (n / u32 base).

(** The numbers printed: %llu for the count, %lld for the averages. *)
Definition ubbd_q_req_stats_show (st : req_stats) : outcome (list Z) :=
  let n := stats_reqs st in
  let p := u64 (start_to_prepare st) in
  let s := u64 (start_to_submit st) in
  let c := u64 (start_to_complete st) in
  let r := u64 (start_to_release st) in
  if negb (n =? 0) then
    let* p := do_div p n in
    let* s := do_div s n in
    let* c := do_div c n in
    let* r := do_div r n in
    Ok [n; s64 p; s64 s; s64 c; s64 r]
  else Ok [n; s64 p; s64 s; s64 c; s64 r].

(** The write looks at one byte, if it can be copied; 'r' or 'R' resets. *)
Definition ubbd_q_req_stats_write (byte : option Z) (cnt : Z) (st : req_stats) : Z * req_stats :=
  match byte with
  | None => (- EFAULT, st)
  | Some b =>
      if (b =? 114) || (b =? 82) then (cnt, mk_stats 0 0 0 0 0) else (cnt, st)
  end.
End code.

(** ** Trees over a base

    [over base S v]: the tree [v] is [base] with entries of [S] added, and no
    entry of [base] is below one of [S]. *)

Section tree.
Implicit Types (v base : gmap Z dnode) (S : gset Z).

(** No path mentions an entry that does not exist. *)
Definition tree_closed v : Prop := forall i n j, v !! i = Some n -> j ∈ dn_path n -> j ∈ dom v.

Record over base S v : Prop := {
  ov_base : base ⊆ v;
  ov_dom : dom v ⊆ dom base ∪ S;
  ov_new : S ## dom base;
}.

Definition ids (p : dptr) : gset Z := match p with DP i => {[i]} | _ => ∅ end.

Lemma over_refl base : over base ∅ base.
Proof. split; set_solver. Qed.

Lemma over_empty base v : over base ∅ v -> v = base.
Proof.
  intros [Hb Hd _]. apply map_eq. intros i. destruct (base !! i) as [n|] eqn:E.
  - by apply (lookup_weaken base v).
  - apply not_elem_of_dom. apply not_elem_of_dom in E. set_solver.
Qed.

Lemma over_insert base S v i n : over base S v -> v !! i = None -> over base ({[i]} ∪ S) (<[i := n]> v).
Proof.
  intros [Hb Hd Hn] Hi. split.
  - by apply insert_subseteq_r; [apply (lookup_weaken_None base v)|].
  - rewrite dom_insert. set_solver.
  - assert (i ∉ dom base) by (apply not_elem_of_dom; by apply (lookup_weaken_None base v)). set_solver.
Qed.

Lemma over_remove base S S' p v :
  tree_closed base -> over base S' v -> S' ⊆ ids p ∪ S -> ids p ## dom base -> S ## dom base ->
  over base S (remove_tree p v).
Proof.
  intros Hc [Hb Hd Hn] HS Hp HnS. destruct p as [| |i]; simpl in *; [split; set_solver..|].
  split; [|set_unfold|done].
  - apply map_subseteq_spec. intros j n Hj. apply map_lookup_filter_Some.
    split; [by apply (lookup_weaken base v)|]. simpl.
    assert (j ∈ dom base) by (by apply elem_of_dom_2 in Hj). split; [set_solver|].
    intros Hin. pose proof (Hc _ _ _ Hj Hin). set_solver.
  - intros x Hx. apply elem_of_dom in Hx as [n Hx]. apply map_lookup_filter_Some in Hx as [Hx [Hne _]].
    apply elem_of_dom_2 in Hx. specialize (Hd x Hx). specialize (HS x). set_solver.
Qed.
End tree.

(** ** Creation and removal *)

Section props.
Context `{A : UbbdAbi} `{K : KernelApi} `{M : KernelMem} `{FL : DebugfsLaws}.
Implicit Types (base : gmap Z dnode) (S : gset Z) (s : dfs) (p : dptr).

Definition q_ids (qd : q_dentries) : gset Z :=
  ids (q_debugfs_d qd) ∪ ids (q_debugfs_status_f qd) ∪ ids (q_debugfs_req_stats_f qd).
Fixpoint qs_ids (l : list q_dentries) : gset Z :=
  match l with [] => ∅ | qd :: l => q_ids qd ∪ qs_ids l end.
Definition dev_ids (dd : dev_dentries) : gset Z :=
  ids (dev_debugfs_d dd) ∪ ids (dev_debugfs_queues_d dd) ∪ qs_ids (dd_qs dd).

Definition links (v : gmap Z dnode) (p : dptr) (file : option (Z * Z)) : Prop :=
  forall i, p = DP i -> exists n, v !! i = Some n /\ dn_file n = file.

Lemma links_mono v v' p file : v ⊆ v' -> links v p file -> links v' p file.
Proof. intros Hs Hl i Hi. destruct (Hl i Hi) as (n & Hn & E). exists n. split; [by apply (lookup_weaken v v')|done]. Qed.

(** New entries are directories or files of [h] for queues [lo..hi-1]. *)
Definition news (h lo hi : Z) (v v' : gmap Z dnode) : Prop :=
  v ⊆ v' /\ forall i n q, v' !! i = Some n -> v !! i = None -> dn_file n = Some q ->
    q.1 = h /\ lo <= q.2 < hi.

Lemma news_refl h lo hi v : news h lo hi v v.
Proof. split; [done|congruence]. Qed.

Lemma news_trans h lo mid hi v1 v2 v3 :
  lo <= mid <= hi -> news h lo mid v1 v2 -> news h mid hi v2 v3 -> news h lo hi v1 v3.
Proof.
  intros Hm [S1 N1] [S2 N2]. split; [by transitivity v2|]. intros i n q H3 H1 Hf.
  destruct (v2 !! i) as [n2|] eqn:E2.
  - pose proof (lookup_weaken _ _ _ _ E2 S2) as E3. simplify_eq.
    destruct (N1 i n q E2 H1 Hf). split; [done|lia].
  - destruct (N2 i n q H3 E2 Hf). split; [done|lia].
Qed.

Lemma dentry_create_spec base S name file parent s p s' h lo hi :
  debugfs_create name file parent s = (p, s') -> over base S (dfs_view s) ->
  (forall q, file = Some q -> q.1 = h /\ lo <= q.2 < hi) ->
  over base (ids p ∪ S) (dfs_view s') /\ news h lo hi (dfs_view s) (dfs_view s') /\
  links (dfs_view s') p file.
Proof.
  intros E Ho Hq. pose proof (debugfs_create_spec name file parent s) as H. rewrite E in H.
  destruct p as [| |i]; [done| |].
  - rewrite H. split; [simpl; by rewrite union_empty_l_L|]. split; [apply news_refl|done].
  - destruct H as (Hi & path & _ & ->). split; [by apply over_insert|]. split; [split|].
    + by apply insert_subseteq.
    + intros j n q Hj Hn Hf. destruct (decide (i = j)) as [<-|].
      * rewrite lookup_insert_eq in Hj. simplify_eq. by apply Hq.
      * rewrite lookup_insert_ne in Hj by done. congruence.
    + intros j [= <-]. rewrite lookup_insert_eq. eauto.
Qed.

Definition q_linked (v : gmap Z dnode) (stats : bool) (h i : Z) (qd : q_dentries) : Prop :=
  links v (q_debugfs_status_f qd) (Some (h, i)) /\
  links v (q_debugfs_req_stats_f qd) (Some (h, i)) /\
  (stats = false -> q_debugfs_req_stats_f qd = DP_NULL).

Lemma q_linked_mono v v' stats h i qd : v ⊆ v' -> q_linked v stats h i qd -> q_linked v' stats h i qd.
Proof. intros Hs (H1 & H2 & H3). split_and!; eauto using links_mono. Qed.

Lemma add_queue_files_spec stats base S queues_d h i s qd s' :
  add_queue_files stats queues_d h i s = (qd, s') -> over base S (dfs_view s) ->
  over base (q_ids qd ∪ S) (dfs_view s') /\ news h i (i + 1) (dfs_view s) (dfs_view s') /\
  q_linked (dfs_view s') stats h i qd.
Proof.
  unfold add_queue_files. intros E Ho.
  destruct (debugfs_create _ _ queues_d s) as [d s1] eqn:E1.
  destruct (debugfs_create "status" _ d s1) as [f s2] eqn:E2.
  destruct (dentry_create_spec base S _ _ _ _ _ _ h i i E1 Ho ltac:(done)) as (O1 & N1 & L1).
  destruct (dentry_create_spec _ _ _ _ _ _ _ _ h i (i + 1) E2 O1 ltac:(intros q [= <-]; simpl; lia)) as (O2 & N2 & L2).
  assert (news h i (i + 1) (dfs_view s) (dfs_view s2)) as N by (eapply (news_trans _ _ i); [lia|done..]).
  destruct stats.
  - destruct (debugfs_create "req_stats" _ d s2) as [g s3] eqn:E3. simplify_eq.
    destruct (dentry_create_spec _ _ _ _ _ _ _ _ h i (i + 1) E3 O2 ltac:(intros q [= <-]; simpl; lia)) as (O3 & N3 & L3).
    split; [|split; [|split_and!]]; simpl; try done.
    + unfold q_ids. simpl. by replace (ids d ∪ ids f ∪ ids g ∪ S) with (ids g ∪ (ids f ∪ (ids d ∪ S))) by set_solver.
    + destruct N as [Ns N], N3 as [N3s N3]. split; [by transitivity (dfs_view s2)|].
      intros j n q Hj H0 Hf. destruct (dfs_view s2 !! j) as [n2|] eqn:Ej; [|by eapply N3].
      pose proof (lookup_weaken _ _ _ _ Ej N3s). simplify_eq. by eapply N.
    + eapply links_mono; [apply N3|done].
  - simplify_eq. split; [|split; [|split_and!]]; simpl; try done.
    unfold q_ids. simpl. by replace (ids d ∪ ids f ∪ ∅ ∪ S) with (ids f ∪ (ids d ∪ S)) by set_solver.
Qed.

Lemma add_queues_files_spec stats base queues_d h todo : forall S i s l s',
  add_queues_files stats queues_d h i todo s = (l, s') -> over base S (dfs_view s) ->
  over base (qs_ids l ∪ S) (dfs_view s') /\
  news h i (i + Z.of_nat todo) (dfs_view s) (dfs_view s') /\
  length l = todo /\
  forall j qd, l !! j = Some qd -> q_linked (dfs_view s') stats h (i + Z.of_nat j) qd.
Proof.
  induction todo as [|todo IH]; intros S i s l s' E Ho; simpl in E.
  - simplify_eq. simpl. rewrite union_empty_l_L. split_and!; try done. apply news_refl.
  - destruct (add_queue_files _ _ _ _ _) as [qd s1] eqn:E1.
    destruct (add_queues_files _ _ _ _ _ _) as [l1 s2] eqn:E2. simplify_eq.
    destruct (add_queue_files_spec _ _ _ _ _ _ _ _ _ E1 Ho) as (O1 & N1 & L1).
    destruct (IH _ _ _ _ _ E2 O1) as (O2 & N2 & Hl & L2). split_and!.
    + cbn [qs_ids]. by replace (q_ids qd ∪ qs_ids l1 ∪ S) with (qs_ids l1 ∪ (q_ids qd ∪ S)) by set_solver.
    + apply (news_trans _ _ (i + 1) _ _ (dfs_view s1)); [lia|done|].
      by replace (i + Z.of_nat (Datatypes.S todo)) with (i + 1 + Z.of_nat todo) by lia.
    + simpl. by rewrite Hl.
    + intros [|j] qd' Hj; simpl in Hj.
      * simplify_eq. replace (i + Z.of_nat 0) with i by lia. eapply q_linked_mono; [apply N2|done].
      * replace (i + Z.of_nat (Datatypes.S j)) with (i + 1 + Z.of_nat j) by lia. by apply L2.
Qed.

Lemma add_dev_files_spec stats devices h id num s dd s' :
  ubbd_debugfs_add_dev stats devices h id num s = (dd, s') ->
  over (dfs_view s) (dev_ids dd) (dfs_view s') /\
  news h 0 (Z.of_nat num) (dfs_view s) (dfs_view s') /\ length (dd_qs dd) = num /\
  forall j qd, dd_qs dd !! j = Some qd -> q_linked (dfs_view s') stats h (Z.of_nat j) qd.
Proof.
  unfold ubbd_debugfs_add_dev. intros E.
  destruct (debugfs_create _ _ devices s) as [d s1] eqn:E1.
  destruct (debugfs_create "queues" _ d s1) as [q s2] eqn:E2.
  destruct (add_queues_files _ _ _ _ _ s2) as [l s3] eqn:E3. simplify_eq.
  destruct (dentry_create_spec _ _ _ _ _ _ _ _ h 0 0 E1 (over_refl _) ltac:(done)) as (O1 & N1 & _).
  destruct (dentry_create_spec _ _ _ _ _ _ _ _ h 0 0 E2 O1 ltac:(done)) as (O2 & N2 & _).
  destruct (add_queues_files_spec _ _ _ _ _ _ _ _ _ _ E3 O2) as (O3 & N3 & Hl & L3).
  split_and!; simpl; try done.
  - unfold dev_ids. simpl.
    by replace (ids d ∪ ids q ∪ qs_ids l) with (qs_ids l ∪ (ids q ∪ (ids d ∪ ∅))) by set_solver.
  - apply (news_trans _ _ 0 _ _ (dfs_view s1)); [lia|done|].
    apply (news_trans _ _ 0 _ _ (dfs_view s2)); [lia|done|]. by rewrite Z.add_0_l in N3.
Qed.

Lemma over_removed base S p s :
  tree_closed base -> over base (ids p ∪ S) (dfs_view s) -> over base S (dfs_view (debugfs_remove p s)).
Proof.
  intros Hc Ho. rewrite debugfs_remove_spec. pose proof (ov_new _ _ _ Ho).
  eapply over_remove; [done|exact Ho|done|set_solver..].
Qed.

Lemma remove_queue_files_spec stats base S qd s qd' s' :
  tree_closed base -> (stats = false -> q_debugfs_req_stats_f qd = DP_NULL) ->
  remove_queue_files stats qd s = (qd', s') -> over base (q_ids qd ∪ S) (dfs_view s) ->
  over base S (dfs_view s') /\ qd' = mk_qd DP_NULL DP_NULL DP_NULL.
Proof.
  intros Hc Hs E Ho. unfold remove_queue_files, ubbd_debugfs_remove in E. unfold q_ids in Ho.
  destruct stats; simplify_eq.
  - split; [|done]. do 3 (apply over_removed; [done|]).
    by replace (ids (q_debugfs_req_stats_f qd) ∪ (ids (q_debugfs_status_f qd) ∪ (ids (q_debugfs_d qd) ∪ S)))
      with (ids (q_debugfs_d qd) ∪ ids (q_debugfs_status_f qd) ∪ ids (q_debugfs_req_stats_f qd) ∪ S) by set_solver.
  - rewrite Hs in * by done. split; [|done]. do 2 (apply over_removed; [done|]). simpl in Ho.
    by replace (ids (q_debugfs_status_f qd) ∪ (ids (q_debugfs_d qd) ∪ S))
      with (ids (q_debugfs_d qd) ∪ ids (q_debugfs_status_f qd) ∪ ∅ ∪ S) by set_solver.
Qed.

Lemma remove_queues_files_spec stats base l : forall S s l' s',
  tree_closed base -> Forall (fun qd => stats = false -> q_debugfs_req_stats_f qd = DP_NULL) l ->
  remove_queues_files stats l s = (l', s') -> over base (qs_ids l ∪ S) (dfs_view s) ->
  over base S (dfs_view s') /\ l' = replicate (length l) (mk_qd DP_NULL DP_NULL DP_NULL).
Proof.
  induction l as [|qd l IH]; intros S s l' s' Hc Hf E Ho; simpl in E.
  - simplify_eq. simpl in Ho. by rewrite union_empty_l_L in Ho.
  - apply Forall_cons in Hf as [Hq Hf].
    destruct (remove_queue_files _ _ _) as [qd1 s1] eqn:E1.
    destruct (remove_queues_files _ _ _) as [l1 s2] eqn:E2. simplify_eq.
    destruct (remove_queue_files_spec _ base (qs_ids l ∪ S) _ _ _ _ Hc Hq E1) as [O1 ->].
    { cbn [qs_ids] in Ho. by rewrite union_assoc_L. }
    destruct (IH _ _ _ _ Hc Hf E2 O1) as [O2 ->]. done.
Qed.

Definition no_dentries (n : nat) : dev_dentries :=
  mk_dd DP_NULL DP_NULL (replicate n (mk_qd DP_NULL DP_NULL DP_NULL)).

Lemma remove_dev_files_spec stats base dd s dd' s' :
  tree_closed base ->
  Forall (fun qd => stats = false -> q_debugfs_req_stats_f qd = DP_NULL) (dd_qs dd) ->
  ubbd_debugfs_remove_dev stats dd s = (dd', s') -> over base (dev_ids dd) (dfs_view s) ->
  dfs_view s' = base /\ dd' = no_dentries (length (dd_qs dd)).
Proof.
  intros Hc Hf E Ho. unfold ubbd_debugfs_remove_dev, ubbd_debugfs_remove in E.
  destruct (remove_queues_files _ _ _) as [l s1] eqn:E1. simplify_eq.
  destruct (remove_queues_files_spec _ base _
    (ids (dev_debugfs_queues_d dd) ∪ (ids (dev_debugfs_d dd) ∪ ∅)) _ _ _ Hc Hf E1) as [O1 ->].
  { unfold dev_ids in Ho.
    by replace (qs_ids (dd_qs dd) ∪ (ids (dev_debugfs_queues_d dd) ∪ (ids (dev_debugfs_d dd) ∪ ∅)))
      with (ids (dev_debugfs_d dd) ∪ ids (dev_debugfs_queues_d dd) ∪ qs_ids (dd_qs dd)) by set_solver. }
  split; [|done]. apply over_empty. by do 2 (apply over_removed; [done|]).
Qed.
End props.

(** ** Open files and the life of the device *)

Section machine.
Context `{A : UbbdAbi} `{K : KernelApi} `{M : KernelMem} `{F : DebugfsApi}.

(** The device and its queues: alive, without a reference but not yet torn down
    ([ubbd_dev_destroy] starts by removing the files), and freed. *)
Inductive dev_mem : Type :=
| Alive (d : ubbd_device)
| Dying (d : ubbd_device)
| Freed.

Record dbg : Type := mk_dbg {
  db_mem : dev_mem;
  db_dd : dev_dentries;
  db_fs : dfs;
  db_files : list Z;         (* the queue behind each open file *)
  db_refs : Z;               (* references held elsewhere *)
}.

Inductive dbg_op : Type :=
| DOpen (f : Z) (parent_ok : bool) (single_open : Z)
| DShow (j : nat)
| DRelease (j : nat)
| DGet
| DPut
| DDestroy.

Inductive dbg_ret : Type :=
| RRet (ret : Z)
| RShow (out : Z * Z * Z)
| RDone.

Definition touch (m : dev_mem) : outcome ubbd_device :=
  match m with Alive d | Dying d => Ok d | Freed => Fault WILD_ACCESS end.

Definition mem_after (d : ubbd_device) (o : option ubbd_device) : dev_mem :=
  match o with
  | Some d => if d_kref d =? 0 then Dying d else Alive d
  | None => Dying (set_d_kref 0 d)
  end.

Definition dbg_step (stats : bool) (op : dbg_op) (s : dbg) : outcome (dbg_ret * dbg) :=
  match op with
  | DOpen f parent_ok single_open =>
      let* n := deref (dfs_view (db_fs s) !! f) WILD_ACCESS in
      let* '(_, i) := deref (dn_file n) NULL_DEREF in
      let* d := touch (db_mem s) in
      let* _ := deref (d_queues d !! Z.to_nat i) OUT_OF_BOUNDS in
      let positive := bool_decide (is_Some (dfs_view (db_fs s) !! f)) in
      let '(ret, o) := ubbd_q_status_open parent_ok positive single_open d in
      Ok (RRet ret, mk_dbg (mem_after d o) (db_dd s) (db_fs s)
            (if ret =? 0 then db_files s ++ [i] else db_files s) (db_refs s))
  | DShow j =>
      let* i := deref (db_files s !! j) WILD_ACCESS in
      let* d := touch (db_mem s) in
      let* q := deref (d_queues d !! Z.to_nat i) OUT_OF_BOUNDS in
      Ok (RShow (ubbd_q_status_show q), s)
  | DRelease j =>
      let* i := deref (db_files s !! j) WILD_ACCESS in
      let* d := touch (db_mem s) in
      let* _ := deref (d_queues d !! Z.to_nat i) OUT_OF_BOUNDS in
      Ok (RDone, mk_dbg (mem_after d (dev_attr_release d)) (db_dd s) (db_fs s)
            (delete j (db_files s)) (db_refs s))
  | DGet =>
      let* d := touch (db_mem s) in
      Ok (RDone, mk_dbg (Alive (ubbd_dev_get d)) (db_dd s) (db_fs s) (db_files s) (db_refs s + 1))
  | DPut =>
      let* d := touch (db_mem s) in
      Ok (RDone, mk_dbg (mem_after d (ubbd_dev_put d)) (db_dd s) (db_fs s) (db_files s) (db_refs s - 1))
  | DDestroy =>
      let* _ := touch (db_mem s) in
      let '(dd, fs) := ubbd_debugfs_remove_dev stats (db_dd s) (db_fs s) in
      Ok (RDone, mk_dbg Freed dd fs (db_files s) (db_refs s))
  end.

(** debugfs calls the driver's open only for a file that is linked, and the
    removal waits for it; a holder of a reference may take another. *)
Definition dbg_can (h : Z) (op : dbg_op) (s : dbg) : Prop :=
  match op with
  | DOpen f _ _ => exists n i, dfs_view (db_fs s) !! f = Some n /\ dn_file n = Some (h, i)
  | DShow j | DRelease j => (j < length (db_files s))%nat
  | DGet | DPut => 0 < db_refs s
  | DDestroy => exists d, db_mem s = Dying d
  end.

(** The state [ubbd_dev_create] leaves at its end: one reference, and the files
    added to a file system that has none of this device. *)
Definition dbg_start (stats : bool) (h : Z) (s : dbg) : Prop :=
  exists d devices fs0,
    tree_closed (dfs_view fs0) /\
    (forall f n i, dfs_view fs0 !! f = Some n -> dn_file n <> Some (h, i)) /\
    d_kref d = 1 /\ db_mem s = Alive d /\ db_files s = [] /\ db_refs s = 1 /\
    ubbd_debugfs_add_dev stats devices h (d_dev_id d) (length (d_queues d)) fs0 = (db_dd s, db_fs s).

Inductive dbg_reach (stats : bool) (h : Z) : dbg -> Prop :=
| dbg_reach_start s : dbg_start stats h s -> dbg_reach stats h s
| dbg_reach_next s op r s' :
    dbg_reach stats h s -> dbg_can h op s -> dbg_step stats op s = Ok (r, s') -> dbg_reach stats h s'.
End machine.

Section safety.
Context `{A : UbbdAbi} `{K : KernelApi} `{M : KernelMem} `{FL : DebugfsLaws}.
Implicit Types (s : dbg) (d : ubbd_device).

(** The queues a device has, the files that may name them. *)
Record files_ok (stats : bool) (h n : Z) (s : dbg) : Prop := {
  fo_base : exists base, tree_closed base /\
    (forall f nd i, base !! f = Some nd -> dn_file nd <> Some (h, i)) /\
    over base (dev_ids (db_dd s)) (dfs_view (db_fs s));
  fo_stats : Forall (fun qd => stats = false -> q_debugfs_req_stats_f qd = DP_NULL) (dd_qs (db_dd s));
  fo_linked : forall f nd i, dfs_view (db_fs s) !! f = Some nd -> dn_file nd = Some (h, i) -> 0 <= i < n;
  fo_open : Forall (fun i => 0 <= i < n) (db_files s);
}.

Definition gone (h : Z) (s : dbg) : Prop :=
  db_files s = [] /\ db_refs s = 0 /\
  forall f nd i, dfs_view (db_fs s) !! f = Some nd -> dn_file nd <> Some (h, i).

Definition dbg_inv (stats : bool) (h : Z) (s : dbg) : Prop :=
  match db_mem s with
  | Alive d =>
      files_ok stats h (Z.of_nat (length (d_queues d))) s /\
      d_kref d = db_refs s + Z.of_nat (length (db_files s)) /\ 0 < d_kref d /\ 0 <= db_refs s
  | Dying d =>
      files_ok stats h (Z.of_nat (length (d_queues d))) s /\
      d_kref d = 0 /\ db_files s = [] /\ db_refs s = 0
  | Freed => gone h s
  end.

Lemma start_inv stats h s : dbg_start stats h s -> dbg_inv stats h s.
Proof.
  intros (d & devices & fs0 & Hc & Hb & Hk & Em & Ef & Er & E). unfold dbg_inv. rewrite Em, Ef, Er, Hk.
  destruct (add_dev_files_spec _ _ _ _ _ _ _ _ E) as (Ho & [_ Hn] & Hl & Hq).
  split; [|simpl; lia]. split.
  - by exists (dfs_view fs0).
  - apply Forall_lookup. intros j qd Hj. by apply (Hq j qd Hj).
  - intros f nd i Hf Hi. destruct (dfs_view fs0 !! f) as [n0|] eqn:E0.
    + pose proof (lookup_weaken _ _ _ _ E0 (ov_base _ _ _ Ho)). simplify_eq. by destruct (Hb f nd i).
    + by destruct (Hn f nd (h, i) Hf E0 Hi).
  - by rewrite Ef.
Qed.

(** A put by a holder, and what is left. *)
Lemma put_dbg stats h d dd fs files refs :
  files_ok stats h (Z.of_nat (length (d_queues d))) (mk_dbg (Alive d) dd fs files refs) ->
  d_kref d = refs + Z.of_nat (length files) + 1 -> 0 <= refs ->
  dbg_inv stats h (mk_dbg (mem_after d (ubbd_dev_put d)) dd fs files refs).
Proof.
  intros [H1 H2 H3 H4] Hk Hr. unfold mem_after, ubbd_dev_put, dbg_inv.
  destruct (Z.eqb_spec (d_kref d) 1); simpl.
  - split_and!; try done; [destruct files; simpl in *; [done|lia]|lia].
  - destruct (Z.eqb_spec (d_kref d - 1) 0); [lia|]. simpl. split_and!; try done; lia.
Qed.

Lemma files_ok_mem stats h n m m' dd fs files r r' :
  files_ok stats h n (mk_dbg m dd fs files r) -> files_ok stats h n (mk_dbg m' dd fs files r').
Proof. by intros [H1 H2 H3 H4]. Qed.

Lemma files_ok_queue stats h n s j i :
  files_ok stats h n s -> db_files s !! j = Some i -> 0 <= i < n.
Proof. intros Ho Hj. by apply (Forall_lookup_1 _ _ _ _ (fo_open _ _ _ _ Ho) Hj). Qed.

Lemma queue_at d i : 0 <= i < Z.of_nat (length (d_queues d)) -> exists q, d_queues d !! Z.to_nat i = Some q.
Proof. intros Hi. apply lookup_lt_is_Some. lia. Qed.

(** What an open does, according to the references of the device. *)
Lemma status_open_spec parent_ok single d :
  (d_kref d = 0 -> ubbd_q_status_open parent_ok true single d = (- ESTALE, Some d)) /\
  (0 < d_kref d ->
    ubbd_q_status_open parent_ok true single d =
      if parent_ok then (single, Some (if single =? 0 then ubbd_dev_get d else d)) else (- ESTALE, Some d)).
Proof.
  unfold ubbd_q_status_open, ubbd_dev_get_unless_zero. split; intros Hk.
  - rewrite Hk. by destruct parent_ok.
  - destruct parent_ok; [|done]. destruct (Z.eqb_spec (d_kref d) 0); [lia|]. simpl.
    destruct (Z.eqb_spec single 0) as [->|]; simpl; [done|].
    unfold ubbd_dev_put. simpl. destruct (Z.eqb_spec (d_kref d + 1) 1); [lia|].
    unfold ubbd_dev_get, set_d_kref. destruct d. simpl. do 3 f_equal. lia.
Qed.

Lemma open_step stats h f pok single s :
  dbg_inv stats h s -> dbg_can h (DOpen f pok single) s ->
  exists r s', dbg_step stats (DOpen f pok single) s = Ok (r, s') /\ dbg_inv stats h s'.
Proof.
  intros Hi (nd & i & Hf & Hn). unfold dbg_step. rewrite Hf. cbn [deref obind]. rewrite Hn. cbn [deref obind].
  destruct s as [m dd fs files refs]. unfold dbg_inv in Hi. simpl in *.
  destruct m as [d|d|]; cbn [touch obind].
  - destruct Hi as (Ho & Hk & Hp & Hr). pose proof (fo_linked _ _ _ _ Ho f nd i Hf Hn) as Hb.
    destruct (queue_at d i Hb) as [q Hq]. rewrite Hq. cbn [deref obind].
    rewrite (proj2 (status_open_spec pok single d) Hp).
    assert (mem_after d (Some d) = Alive d) as Em
      by (simpl; destruct (Z.eqb_spec (d_kref d) 0); [lia|done]).
    destruct pok; [destruct (Z.eqb_spec single 0) as [->|Hs]|]; do 2 eexists; (split; [reflexivity|]).
    + unfold mem_after, dbg_inv. simpl. destruct (Z.eqb_spec (d_kref d + 1) 0); [lia|]. simpl.
      rewrite length_app. simpl. split; [|lia]. destruct Ho as [H1 H2 H3 H4]. split; try done.
      simpl in *. apply Forall_app. split; [done|by constructor].
    + rewrite Em. by destruct (Z.eqb_spec single 0).
    + by rewrite Em.
  - destruct Hi as (Ho & Hk & -> & ->). pose proof (fo_linked _ _ _ _ Ho f nd i Hf Hn) as Hb.
    destruct (queue_at d i Hb) as [q Hq]. rewrite Hq. cbn [deref obind].
    rewrite (proj1 (status_open_spec pok single d) Hk). do 2 eexists. split; [reflexivity|].
    unfold mem_after, dbg_inv. rewrite Hk. simpl. done.
  - destruct Hi as (_ & _ & Hg). by destruct (Hg f nd i Hf).
Qed.

Lemma dbg_step_inv stats h op s :
  dbg_inv stats h s -> dbg_can h op s ->
  exists r s', dbg_step stats op s = Ok (r, s') /\ dbg_inv stats h s'.
Proof.
  intros Hi Hc. destruct op as [f pok single|j|j| | |]; [by apply open_step|..];
    destruct s as [m dd fs files refs]; unfold dbg_inv, gone in Hi; simpl in *.
  - destruct (lookup_lt_is_Some_2 files j Hc) as [i Hj]. rewrite Hj. cbn [deref obind].
    destruct m as [d|d|]; [|by destruct Hi as (_ & _ & -> & _)|by destruct Hi as (-> & _)].
    cbn [touch obind]. destruct Hi as (Ho & Hi).
    destruct (queue_at d i (files_ok_queue _ _ _ _ _ _ Ho Hj)) as [q ->]. cbn [deref obind]. by do 2 eexists.
  - destruct (lookup_lt_is_Some_2 files j Hc) as [i Hj]. rewrite Hj. cbn [deref obind].
    destruct m as [d|d|]; [|by destruct Hi as (_ & _ & -> & _)|by destruct Hi as (-> & _)].
    cbn [touch obind]. destruct Hi as (Ho & Hk & Hp & Hr).
    destruct (queue_at d i (files_ok_queue _ _ _ _ _ _ Ho Hj)) as [q ->]. cbn [deref obind].
    do 2 eexists. split; [done|]. apply put_dbg; [|rewrite length_delete by eauto; lia|done].
    destruct Ho as [H1 H2 H3 H4]. split; try done. simpl in *. by apply Forall_delete.
  - destruct m as [d|d|]; [|by destruct Hi as (_ & _ & _ & ->)|by destruct Hi as (_ & -> & _)].
    cbn [touch obind]. destruct Hi as (Ho & Hk & Hp & Hr). do 2 eexists. split; [done|].
    unfold dbg_inv. simpl. split; [by eapply files_ok_mem|lia].
  - destruct m as [d|d|]; [|by destruct Hi as (_ & _ & _ & ->)|by destruct Hi as (_ & -> & _)].
    cbn [touch obind]. destruct Hi as (Ho & Hk & Hp & Hr). do 2 eexists. split; [done|].
    apply put_dbg; [by eapply files_ok_mem|lia|lia].
  - destruct Hc as [d ->]. cbn [touch obind]. destruct Hi as (Ho & Hk & -> & ->).
    destruct Ho as [(base & Hcl & Hb & Hov) Hst Hln Hop].
    destruct (ubbd_debugfs_remove_dev stats dd fs) as [dd' fs'] eqn:E.
    destruct (remove_dev_files_spec _ _ _ _ _ _ Hcl Hst E Hov) as [Ev _].
    do 2 eexists. split; [done|]. unfold dbg_inv, gone. simpl. by rewrite Ev.
Qed.

Lemma dbg_reach_inv stats h s : dbg_reach stats h s -> dbg_inv stats h s.
Proof.
  induction 1 as [s Hs|s op r s' _ IH Hc E]; [by apply start_inv|].
  destruct (dbg_step_inv stats h op s IH Hc) as (r2 & s2 & E2 & Hi). congruence.
Qed.
End safety.

(** ** Statistics *)

Section stats.
Implicit Types (rs : list req_times) (st : req_stats).

Definition account rs st : req_stats := foldl (fun st r => ubbd_req_stats r st) st rs.

(** Requests that were started, with durations whose sum is a [ktime_t]. *)
Definition durations (f : req_times -> Z) rs : Prop :=
  Forall (fun r => 0 <= f r) rs /\ sumZ (map f rs) < 2 ^ 63.

Record measured rs : Prop := {
  ms_started : Forall (fun r => rt_start_kt r <> 0) rs;
  ms_prepare : durations rt_prepare rs;
  ms_submit : durations rt_submit rs;
  ms_complete : durations rt_complete rs;
  ms_release : durations rt_release rs;
  ms_count : Z.of_nat (length rs) < 2 ^ 64;
}.

Definition totals rs : req_stats :=
  mk_stats (Z.of_nat (length rs)) (sumZ (map rt_prepare rs)) (sumZ (map rt_submit rs))
    (sumZ (map rt_complete rs)) (sumZ (map rt_release rs)).

Lemma durations_snoc f rs r :
  durations f (rs ++ [r]) ->
  durations f rs /\ ktime_add (sumZ (map f rs)) (f r) = sumZ (map f (rs ++ [r])).
Proof.
  intros [Hf Hs]. apply Forall_app in Hf as [Hf Hr]. rewrite Forall_singleton in Hr.
  unfold durations, ktime_add. rewrite map_app, sumZ_app in *. cbn [map] in *.
  assert (sumZ [f r] = f r) as E1 by (unfold sumZ; cbn [foldr]; lia). rewrite E1 in *.
  assert (0 <= sumZ (map f rs)).
  { apply sumZ_nonneg, Forall_forall. intros x Hx. apply list_elem_of_fmap in Hx as (y & -> & Hy).
    by eapply Forall_forall in Hf. }
  split; [split; [done|lia]|]. apply s64_small. lia.
Qed.

Lemma account_totals rs : measured rs -> account rs (mk_stats 0 0 0 0 0) = totals rs.
Proof.
  induction rs as [|r rs IH] using rev_ind; [done|]. intros [H1 H2 H3 H4 H5 H6].
  apply Forall_app in H1 as [H1 Hr]. rewrite Forall_singleton in Hr. rewrite length_app in H6. simpl in H6.
  apply durations_snoc in H2 as [H2 E2], H3 as [H3 E3], H4 as [H4 E4], H5 as [H5 E5].
  unfold account in *. rewrite foldl_app. simpl. rewrite IH by (split; try done; lia).
  unfold ubbd_req_stats, totals. simpl. destruct (Z.eqb_spec (rt_start_kt r) 0); [done|].
  rewrite E2, E3, E4, E5. f_equal. rewrite length_app, u64_small by lia. simpl. lia.
Qed.

(** An average the way the show computes it. *)
Lemma average f rs :
  durations f rs -> 0 < Z.of_nat (length rs) < 2 ^ 32 ->
  do_div (u64 (sumZ (map f rs))) (Z.of_nat (length rs)) =
    Ok (sumZ (map f rs) / Z.of_nat (length rs)) /\
  s64 (sumZ (map f rs) / Z.of_nat (length rs)) = sumZ (map f rs) / Z.of_nat (length rs).
Proof.
  intros [Hf Hs] Hn.
  assert (0 <= sumZ (map f rs)).
  { apply sumZ_nonneg, Forall_forall. intros x Hx. apply list_elem_of_fmap in Hx as (y & -> & Hy).
    by eapply Forall_forall in Hf. }
  unfold do_div. rewrite u32_small, u64_small by lia.
  destruct (Z.eqb_spec (Z.of_nat (length rs)) 0); [lia|]. split; [done|]. apply s64_small.
  pose proof (Z.div_pos (sumZ (map f rs)) (Z.of_nat (length rs))).
  pose proof (Z.div_le_upper_bound (sumZ (map f rs)) (Z.of_nat (length rs)) (sumZ (map f rs))).
  nia.
Qed.
End stats.

(** ** Properties *)

Section properties.
Context `{A : UbbdAbi} `{K : KernelApi} `{M : KernelMem} `{FL : DebugfsLaws}.

(** The files of a device come and go with it.  Whatever debugfs refuses to
    create, [ubbd_debugfs_add_dev] leaves every other entry as it was, adds
    files only for queues of this device, and the files whose pointers it
    stores are linked and carry their queue; [ubbd_debugfs_remove_dev] then
    gives back exactly the tree there was before, and sets every pointer to
    NULL. *)
Theorem debugfs_add_remove_roundtrip (stats : bool) (devices : dptr) (h id : Z) (num : nat) (fs : dfs) :
  tree_closed (dfs_view fs) ->
  exists dd fs1 dd' fs2,
    ubbd_debugfs_add_dev stats devices h id num fs = (dd, fs1) /\
    dfs_view fs ⊆ dfs_view fs1 /\
    (forall f n q, dfs_view fs1 !! f = Some n -> dfs_view fs !! f = None -> dn_file n = Some q ->
       q.1 = h /\ 0 <= q.2 < Z.of_nat num) /\
    length (dd_qs dd) = num /\
    (forall j qd f, dd_qs dd !! j = Some qd -> q_debugfs_status_f qd = DP f ->
       exists n, dfs_view fs1 !! f = Some n /\ dn_file n = Some (h, Z.of_nat j)) /\
    ubbd_debugfs_remove_dev stats dd fs1 = (dd', fs2) /\
    dfs_view fs2 = dfs_view fs /\ dd' = no_dentries num.
Proof.
  intros Hc. destruct (ubbd_debugfs_add_dev stats devices h id num fs) as [dd fs1] eqn:E1.
  destruct (ubbd_debugfs_remove_dev stats dd fs1) as [dd' fs2] eqn:E2.
  destruct (add_dev_files_spec _ _ _ _ _ _ _ _ E1) as (Ho & [Hs Hn] & Hl & Hq).
  assert (Forall (fun qd => stats = false -> q_debugfs_req_stats_f qd = DP_NULL) (dd_qs dd)) as Hst
    by (apply Forall_lookup; intros j qd Hj; by apply (Hq j qd Hj)).
  destruct (remove_dev_files_spec _ _ _ _ _ _ Hc Hst E2 Ho) as [Ev ->].
  exists dd, fs1, (no_dentries (length (dd_qs dd))), fs2. split_and!; try done; [|by rewrite Hl].
  intros j qd f Hj. by apply (Hq j qd Hj).
Qed.

(** The driver's own directories come and go with the module, whichever of them
    debugfs refuses to create. *)
Theorem debugfs_init_cleanup_roundtrip (fs : dfs) :
  tree_closed (dfs_view fs) ->
  exists root devices fs1 fs2, ubbd_debugfs_init fs = (root, devices, fs1) /\
    dfs_view fs ⊆ dfs_view fs1 /\
    ubbd_debugfs_cleanup root devices fs1 = (DP_NULL, DP_NULL, fs2) /\ dfs_view fs2 = dfs_view fs.
Proof.
  intros Hc. unfold ubbd_debugfs_init, ubbd_debugfs_cleanup, ubbd_debugfs_remove.
  destruct (debugfs_create "ubbd" None DP_NULL fs) as [root fs0] eqn:E1.
  destruct (debugfs_create "devices" None root fs0) as [devices fs1] eqn:E2.
  destruct (dentry_create_spec _ _ _ _ _ _ _ _ 0 0 0 E1 (over_refl _)) as (H1 & _); [done|].
  destruct (dentry_create_spec _ _ _ _ _ _ _ _ 0 0 0 E2 H1) as (H2 & _); [done|].
  do 4 eexists. split; [done|]. split; [apply H2|]. split; [done|]. rewrite !debugfs_remove_spec.
  pose proof (ov_new _ _ _ H2). apply over_empty.
  eapply (over_remove _ ∅ (ids root ∪ ∅) root); [done| |set_solver..].
  eapply over_remove; [done|exact H2|set_solver..].
Qed.

(** C25: debugfs files never touch a freed device.  In every state reached from
    a created device by opens, reads and releases of its files, references taken
    and dropped elsewhere, and the destruction that follows the last one: the
    next operation does not fault, so a read of an open file always finds its
    queue; the references are those held elsewhere and one per open file; once
    the last one is gone no open succeeds, it returns -ESTALE; and once the
    device is freed no file names it. *)
Theorem debugfs_no_use_after_free (stats : bool) (h : Z) (s : dbg) (op : dbg_op) :
  dbg_reach stats h s -> dbg_can h op s ->
  (exists r s', dbg_step stats op s = Ok (r, s')) /\
  match db_mem s with
  | Alive d => d_kref d = db_refs s + Z.of_nat (length (db_files s)) /\ 0 < d_kref d
  | Dying d =>
      db_files s = [] /\ db_refs s = 0 /\
      forall f pok single r s',
        dbg_step stats (DOpen f pok single) s = Ok (r, s') -> r = RRet (- ESTALE) /\ db_files s' = []
  | Freed =>
      db_files s = [] /\
      forall f n i, dfs_view (db_fs s) !! f = Some n -> dn_file n <> Some (h, i)
  end.
Proof.
  intros Hr Hc. pose proof (dbg_reach_inv _ _ _ Hr) as Hi. split.
  { destruct (dbg_step_inv _ _ _ _ Hi Hc) as (r & s' & E & _). eauto. }
  unfold dbg_inv in Hi. destruct (db_mem s) as [d|d|] eqn:Em.
  - tauto.
  - destruct Hi as (_ & Hk & Hf & Hrf). split_and!; try done. intros f pok single r s' E.
    unfold dbg_step in E. rewrite Em in E. inv_oks. simpl in E0. simplify_eq.
    rewrite bool_decide_true, (proj1 (status_open_spec pok single r1) Hk) in E by eauto.
    simpl in E. injection E as <- <-. by rewrite Hf.
  - by destruct Hi as (Hf & _ & Hn).
Qed.
End properties.

(** The averages of the request statistics.  After a reset, accounting any
    requests (fewer than 2^32, with durations whose sums fit a [ktime_t]) makes
    the file show their number and the exact average of each duration.  The
    show divides by the low 32 bits of the count: it divides by zero exactly
    when the count is a positive multiple of 2^32. *)
Theorem req_stats_average (rs : list req_times) (st0 st : req_stats) (cnt : Z) :
  measured rs -> 0 < Z.of_nat (length rs) < 2 ^ 32 -> 0 <= stats_reqs st < 2 ^ 64 ->
  let avg f := sumZ (map f rs) / Z.of_nat (length rs) in
  (exists st1, ubbd_q_req_stats_write (Some 114) cnt st0 = (cnt, st1) /\
     ubbd_q_req_stats_show (account rs st1) =
       Ok [Z.of_nat (length rs); avg rt_prepare; avg rt_submit; avg rt_complete; avg rt_release]) /\
  (ubbd_q_req_stats_show st = Fault DIV_BY_ZERO <-> 0 < stats_reqs st /\ stats_reqs st mod 2 ^ 32 = 0).
Proof.
  intros Hm Hn Hst avg. split.
  - eexists. split; [done|]. rewrite account_totals by done. unfold ubbd_q_req_stats_show, totals. simpl.
    destruct (Z.eqb_spec (Z.of_nat (length rs)) 0); [lia|]. simpl. destruct Hm as [_ H2 H3 H4 H5 _].
    destruct (average _ _ H2 Hn) as [-> E2]. simpl. destruct (average _ _ H3 Hn) as [-> E3]. simpl.
    destruct (average _ _ H4 Hn) as [-> E4]. simpl. destruct (average _ _ H5 Hn) as [-> E5]. simpl.
    by rewrite E2, E3, E4, E5.
  - unfold ubbd_q_req_stats_show, do_div. fold (u32 (stats_reqs st)).
    destruct (Z.eqb_spec (stats_reqs st) 0) as [E|E]; simpl.
    + split; [done|lia].
    + destruct (Z.eqb_spec (u32 (stats_reqs st)) 0) as [E'|E']; simpl; [split; [lia|done]|].
      split; [done|]. by intros [_ ?].
Qed.

(** ** Witnesses *)

Lemma demo_closed : tree_closed (∅ : gmap Z dnode).
Proof. intros i n j H. by rewrite lookup_empty in H. Qed.

Lemma debugfs_add_remove_roundtrip_witness :
  exists dd fs1 dd' fs2,
    ubbd_debugfs_add_dev (F := demo_debugfs) false DP_NULL 7 3 2 ∅ = (dd, fs1) /\
    ubbd_debugfs_remove_dev (F := demo_debugfs) false dd fs1 = (dd', fs2) /\
    fs2 = (∅ : gmap Z dnode).
Proof.
  destruct (debugfs_add_remove_roundtrip (F := demo_debugfs) false DP_NULL 7 3 2 ∅ demo_closed)
    as (dd & fs1 & dd' & fs2 & H1 & _ & _ & _ & _ & H2 & H3 & _).
  exists dd, fs1, dd', fs2. split; [exact H1|]. split; [exact H2|exact H3].
Defined.

Definition demo_dbg_dev : ubbd_device :=
  mk_dev demo_abi 3 [zeroed_queue 0] [None] None 0 0 0 0 0 1 false false.

Definition demo_dbg : dbg (F := demo_debugfs) :=
  let r := ubbd_debugfs_add_dev (F := demo_debugfs) false DP_NULL 7 3 1 ∅ in
  mk_dbg (F := demo_debugfs) (Alive demo_dbg_dev) r.1 r.2 [] 1.

(** The last reference has gone; the files are still linked. *)
Definition demo_dying : dbg (F := demo_debugfs) :=
  mk_dbg (F := demo_debugfs) (Dying (set_d_kref 0 demo_dbg_dev)) (db_dd demo_dbg) (db_fs demo_dbg) [] 0.

Lemma demo_dying_reach : dbg_reach (F := demo_debugfs) false 7 demo_dying.
Proof.
  eapply (dbg_reach_next (F := demo_debugfs) _ _ demo_dbg DPut RDone).
  - apply dbg_reach_start. exists demo_dbg_dev, DP_NULL, ∅. split_and!; try reflexivity.
    + exact demo_closed.
    + intros f n i H. simpl in H. by rewrite lookup_empty in H.
  - reflexivity.
  - reflexivity.
Qed.

Lemma debugfs_no_use_after_free_witness :
  exists r s', dbg_step (F := demo_debugfs) false DDestroy demo_dying = Ok (r, s').
Proof.
  apply (debugfs_no_use_after_free (F := demo_debugfs) false 7 demo_dying DDestroy demo_dying_reach).
  eexists. reflexivity.
Defined.

Definition demo_times : list req_times := [mk_times 1 10 20 30 40; mk_times 2 20 30 40 51].

Lemma demo_measured : measured demo_times.
Proof. split; try split; repeat constructor; simpl; try lia. Qed.

Lemma req_stats_average_witness :
  (exists st1, ubbd_q_req_stats_write (Some 114) 1 (mk_stats 9 9 9 9 9) = (1, st1) /\
     ubbd_q_req_stats_show (account demo_times st1) = Ok [2; 15; 25; 35; 45]) /\
  ubbd_q_req_stats_show (mk_stats (2 ^ 32) 1 1 1 1) = Fault DIV_BY_ZERO.
Proof.
  destruct (req_stats_average demo_times (mk_stats 9 9 9 9 9) (mk_stats (2 ^ 32) 1 1 1 1) 1 demo_measured)
    as [H1 H2]; [simpl; lia|simpl; lia|].
  split; [exact H1|]. apply H2. split; reflexivity.
Defined.
