(* ===== verification/Lifecycle.v ===== *)
(** * The life cycle of a device

    The state machine of [struct ubbd_device] over the commands of the
    management interface, the add-disk work, block-device opens and backend
    mappings: [ubbd_dev_add_disk], [ubbd_add_disk_fn], [ubbd_dev_remove_disk],
    [ubbd_dev_remove_dev] and the reference counts of [src/src/ubbd_dev.c]. *)

From S2P Require Import Prelude Abi Ring Pages Request Queue Kring Device.

(** ** The machine *)

Section machine.
Context `{A : UbbdAbi} `{K : KernelApi} `{M : KernelMem}.

(** The device ([None] once destroyed), the add-disk work in progress (with
    the disk to be added or not) and the live mappings of its queues. *)
Record life : Type := mk_life {
  lf_dev : option ubbd_device;
  lf_work : option bool;
  lf_maps : Z;
}.

Inductive life_op : Type :=
| LAddDisk
| LWorkBegin
| LWorkEnd (add_ret : Z)
| LRemoveDisk
| LRemoveDev
| LOpen
| LRelease
| LMap
| LUnmap.

(** A command finds the device in the list and holds a reference meanwhile. *)
Definition with_ref (d : ubbd_device) (f : ubbd_device -> outcome (option ubbd_device))
  : outcome (option ubbd_device) :=
  let* o := f (ubbd_dev_get d) in
  let* d := deref o WILD_ACCESS in
  Ok (ubbd_dev_put d).

Definition life_step (op : life_op) (s : life) : outcome life :=
  let* d := deref (lf_dev s) WILD_ACCESS in
  match op with
  | LAddDisk =>
      let* o := with_ref d (fun d => let* '(_, d) := ubbd_dev_add_disk d in Ok (Some d)) in
      Ok (mk_life o (lf_work s) (lf_maps s))
  | LWorkBegin =>
      let* '(b, d) := add_disk_begin d in Ok (mk_life (Some d) (Some b) (lf_maps s))
  | LWorkEnd r =>
      let* b := deref (lf_work s) WILD_ACCESS in
      let* o := add_disk_end b r d in Ok (mk_life o None (lf_maps s))
  | LRemoveDisk =>
      let* o := with_ref d (fun d => let* d := remove_disk_status d in Ok (Some d)) in
      Ok (mk_life o (lf_work s) (lf_maps s))
  | LRemoveDev =>
      let* o := with_ref d (fun d => let* '(_, o) := ubbd_dev_remove_dev d in Ok o) in
      Ok (mk_life o (lf_work s) (lf_maps s))
  | LOpen => Ok (mk_life (Some (ubbd_open d)) (lf_work s) (lf_maps s))
  | LRelease => Ok (mk_life (ubbd_release d) (lf_work s) (lf_maps s))
  | LMap => Ok (mk_life (Some (set_d_kref (ubbd_vma_open (d_kref d)) d)) (lf_work s) (lf_maps s + 1))
  | LUnmap => Ok (mk_life (ubbd_dev_put d) (lf_work s) (lf_maps s - 1))
  end.

(** When an operation can happen.  [patient]: the manager waits for the
    add-disk work to start before the next add or remove of the device. *)
Definition can (patient : bool) (op : life_op) (s : life) : Prop :=
  match lf_dev s with
  | None => False
  | Some d =>
      match op with
      | LAddDisk => d_in_list d = true /\ (patient = true -> d_work_pending d = false)
      | LWorkBegin => d_work_pending d = true /\ lf_work s = None /\ intrans d = false
      | LWorkEnd _ => lf_work s <> None
      | LRemoveDisk => d_in_list d = true /\ intrans d = false
      | LRemoveDev =>
          d_in_list d = true /\ intrans d = false /\ (patient = true -> d_work_pending d = false)
      | LOpen => exists k, d_disk d = Some k /\ dk_phase k = DISK_ADDED
      | LRelease => 0 < d_open_count d
      | LMap => True
      | LUnmap => 0 < lf_maps s
      end
  end.

(** A device as [ubbd_dev_add_dev] leaves it. *)
Definition prepared_device (d : ubbd_device) : Prop :=
  d_status d = UBBD_DEV_KSTATUS_PREPARED /\ d_kref d = 1 /\ d_open_count d = 0 /\
  d_in_list d = true /\ d_work_pending d = false /\ intrans d = false /\
  exists k, d_disk d = Some k /\ dk_phase k = DISK_ALLOCATED.

Inductive life_reach (patient : bool) : life -> Prop :=
| life_start d : prepared_device d -> life_reach patient (mk_life (Some d) None 0)
| life_next s op s' :
    life_reach patient s -> can patient op s -> life_step op s = Ok s' -> life_reach patient s'.
End machine.

(** ** The invariant *)

Section invariant.
Context `{A : UbbdAbi} `{K : KernelApi} `{M : KernelMem}.

Definition b2z (b : bool) : Z := if b then 1 else 0.
Definition work_ref (o : option bool) : Z := match o with Some _ => 1 | None => 0 end.

(** References, one per holder. *)
Definition holders (d : ubbd_device) (work : option bool) (maps : Z) : Z :=
  b2z (d_in_list d) + b2z (d_work_pending d) + work_ref work + d_open_count d + maps.

(** Status, disk and transition flag. *)
Inductive stage (d : ubbd_device) (work : option bool) : Prop :=
| stage_prepared k :
    d_status d = UBBD_DEV_KSTATUS_PREPARED -> d_in_list d = true ->
    d_disk d = Some k -> dk_phase k = DISK_ALLOCATED ->
    (intrans d = true <-> work = Some true) -> stage d work
| stage_running k :
    d_status d = UBBD_DEV_KSTATUS_RUNNING -> d_in_list d = true ->
    d_disk d = Some k -> dk_phase k = DISK_ADDED ->
    intrans d = false -> work <> Some true -> stage d work
| stage_removing k :
    d_status d = UBBD_DEV_KSTATUS_REMOVING -> d_in_list d = true ->
    d_disk d = Some k -> dk_phase k <> DISK_ADDED ->
    intrans d = false -> work <> Some true -> stage d work
| stage_unlisted :
    d_status d <> UBBD_DEV_KSTATUS_RUNNING -> d_in_list d = false -> d_disk d = None ->
    d_work_pending d = false -> intrans d = false -> work <> Some true -> stage d work.

Definition life_inv (s : life) : Prop :=
  match lf_dev s with
  | None => lf_work s = None /\ lf_maps s = 0
  | Some d =>
      d_kref d = holders d (lf_work s) (lf_maps s) /\ 0 < d_kref d /\
      0 <= d_open_count d /\ 0 <= lf_maps s /\ stage d (lf_work s)
  end.
End invariant.

Section lemmas.
Context `{L : UbbdAbiLaws} `{KL : KernelApiLaws} `{ML : KernelMemLaws}.
Implicit Types (d : ubbd_device) (s : life).

(** The transition flag. *)
Lemma flag_bit d : intrans d = Z.testbit (d_status_flags d) UBBD_DEV_KSTATUS_SHIFT.
Proof.
  unfold intrans, ubbd_dev_status_flags_test, UBBD_DEV_STATUS_FLAG_INTRANS.
  change (Z.shiftl 1 0) with (Z.ones 1). rewrite Z.land_ones by lia.
  pose proof dev_kstatus_shift.
  rewrite <- Z.bit0_mod, Z.shiftr_spec, Z.add_0_l by lia.
  by destruct (Z.testbit _ _).
Qed.

Lemma flag_mask_bit : Z.testbit (u32 (Z.shiftl UBBD_DEV_STATUS_FLAG_INTRANS UBBD_DEV_KSTATUS_SHIFT))
  UBBD_DEV_KSTATUS_SHIFT = true.
Proof.
  pose proof dev_kstatus_shift. unfold u32, UBBD_DEV_STATUS_FLAG_INTRANS.
  rewrite Z.mod_pow2_bits_low, Z.shiftl_spec by lia. by rewrite Z.sub_diag.
Qed.

Lemma intrans_set d : intrans (ubbd_dev_status_flags_set d UBBD_DEV_STATUS_FLAG_INTRANS) = true.
Proof. rewrite flag_bit. simpl. by rewrite Z.lor_spec, flag_mask_bit, orb_true_r. Qed.

Lemma intrans_clear d : intrans (ubbd_dev_status_flags_clear d UBBD_DEV_STATUS_FLAG_INTRANS) = false.
Proof.
  rewrite flag_bit. simpl. pose proof dev_kstatus_shift. unfold u32 at 1.
  rewrite Z.land_spec, Z.mod_pow2_bits_low, Z.lnot_spec, flag_mask_bit by lia. apply andb_false_r.
Qed.

Lemma put_spec d : 0 < d_kref d ->
  match ubbd_dev_put d with
  | None => d_kref d = 1
  | Some d' => d' = set_d_kref (d_kref d - 1) d /\ 1 < d_kref d
  end.
Proof. intros Hp. unfold ubbd_dev_put. destruct (Z.eqb_spec (d_kref d) 1); [done|]. split; [done|lia]. Qed.

Lemma stage_kref d work n : stage d work -> stage (set_d_kref n d) work.
Proof.
  intros [k|k|k|]; [eapply stage_prepared|eapply stage_running|eapply stage_removing|eapply stage_unlisted]; eauto.
Qed.

(** A put that releases one holder. *)
Lemma put_inv d work maps :
  d_kref d = holders d work maps + 1 -> 0 <= d_open_count d -> 0 <= maps -> stage d work ->
  life_inv (mk_life (ubbd_dev_put d) work maps).
Proof.
  intros Hk Ho Hm Hst. assert (0 <= holders d work maps) as Hh.
  { unfold holders, b2z, work_ref. repeat case_match; lia. }
  pose proof (put_spec d ltac:(lia)) as Hp. unfold life_inv. simpl.
  destruct (ubbd_dev_put d) as [d'|].
  - destruct Hp as [-> Hp]. split_and!; try done; simpl; [unfold holders in *; simpl; lia|lia|].
    by apply stage_kref.
  - unfold holders, b2z, work_ref in *. repeat case_match; split; done || lia.
Qed.

(** Each operation of a patient manager goes through and keeps the invariant. *)

Lemma add_disk_step s d :
  lf_dev s = Some d -> life_inv s -> can true LAddDisk s ->
  exists s', life_step LAddDisk s = Ok s' /\ life_inv s'.
Proof.
  unfold life_inv, can, life_step. intros ->. intros (Hk & Hp & Ho & Hm & Hst) [Hl Hw].
  specialize (Hw eq_refl). cbn [deref obind]. unfold with_ref, ubbd_dev_add_disk.
  cbn [d_status ubbd_dev_get set_d_kref].
  destruct (Z.eqb_spec (d_status d) UBBD_DEV_KSTATUS_PREPARED); cbn [negb obind deref].
  2: { eexists. split; [done|]. apply (put_inv (ubbd_dev_get d)); try done; [unfold holders in *; simpl in *; lia|].
    by apply stage_kref. }
  unfold queue_device_work. simpl d_work_pending. rewrite Hw. cbn [obind deref].
  eexists. split; [done|]. apply put_inv; try done.
  - simpl. unfold holders in *. simpl. rewrite Hw in Hk. simpl in Hk. lia.
  - destruct Hst as [k|k|k|? ? ? ?];
      [eapply (stage_prepared _ _ k)|eapply (stage_running _ _ k)|eapply (stage_removing _ _ k)|congruence];
      eauto.
Qed.

Lemma work_begin_step s d :
  lf_dev s = Some d -> life_inv s -> can true LWorkBegin s ->
  exists s', life_step LWorkBegin s = Ok s' /\ life_inv s'.
Proof.
  unfold life_inv, can, life_step. intros ->. intros (Hk & Hp & Ho & Hm & Hst) (Hw & Hn & Hi).
  cbn [deref obind]. unfold add_disk_begin. cbn [d_status set_d_work_pending].
  assert (holders (set_d_work_pending false d) (Some true) (lf_maps s) = holders d None (lf_maps s) /\
          holders (set_d_work_pending false d) (Some false) (lf_maps s) = holders d None (lf_maps s))
    as [Hh1 Hh2] by (unfold holders; simpl; rewrite Hw; simpl; lia).
  rewrite Hn in *.
  destruct (Z.eqb_spec (d_status d) UBBD_DEV_KSTATUS_PREPARED) as [E|E]; cbn [negb obind].
  - destruct Hst as [k Hs Hl Hd Hph _|k Hs|k Hs|_ _ _ Hw']; [| | |congruence];
      try (pose proof dev_kstatus_distinct; intuition congruence).
    simpl d_disk. rewrite Hd. cbn [deref obind]. eexists. split; [done|]. simpl.
    split_and!; try done; [unfold holders in *; simpl in *; lia|].
    apply (stage_prepared _ _ k); try done. split; [done|]. intros _.
    apply (intrans_set (set_d_work_pending false d)).
  - eexists. split; [done|]. simpl.
    split_and!; try done; [unfold holders in *; simpl in *; lia|].
    destruct Hst as [k|k|k|]; [done|apply (stage_running _ _ k)|apply (stage_removing _ _ k)|congruence];
      done.
Qed.

Lemma work_end_step s d r :
  lf_dev s = Some d -> life_inv s -> can true (LWorkEnd r) s ->
  exists s', life_step (LWorkEnd r) s = Ok s' /\ life_inv s'.
Proof.
  unfold life_inv, can, life_step. intros ->. intros (Hk & Hp & Ho & Hm & Hst) Hn.
  cbn [deref obind]. destruct (lf_work s) as [b|]; [|done]. cbn [deref obind].
  unfold add_disk_end. pose proof (intrans_clear d) as Hc.
  destruct (b && (r =? 0)) eqn:Er.
  - apply andb_true_iff in Er as [-> _]. destruct Hst as [k Hs Hl Hd Hph _|k ? ? ? ? ? Hx|k ? ? ? ? ? Hx|? ? ? ? ? Hx];
      [|by destruct Hx..].
    rewrite Hd. cbn [deref obind]. eexists. split; [done|]. apply put_inv; try done.
    + simpl. unfold holders in *. simpl in *. lia.
    + by eapply stage_running.
  - cbn [obind]. eexists. split; [done|]. apply put_inv; try done.
    + simpl. unfold holders in *. simpl in *. lia.
    + destruct Hst as [k|k|k|];
        [apply (stage_prepared _ _ k)|apply (stage_running _ _ k)|apply (stage_removing _ _ k)|apply stage_unlisted];
        try done. by rewrite Hc.
Qed.

Lemma remove_disk_step s d :
  lf_dev s = Some d -> life_inv s -> can true LRemoveDisk s ->
  exists s', life_step LRemoveDisk s = Ok s' /\ life_inv s'.
Proof.
  unfold life_inv, can, life_step. intros ->. intros (Hk & Hp & Ho & Hm & Hst) [Hl Hi].
  cbn [deref obind]. unfold with_ref, remove_disk_status. cbn [d_status ubbd_dev_get set_d_kref].
  pose proof dev_kstatus_distinct as Hdist.
  assert (forall d2 k, d_kref d2 = d_kref d + 1 -> d_open_count d2 = d_open_count d ->
            d_in_list d2 = d_in_list d -> d_work_pending d2 = d_work_pending d ->
            d_status d2 = UBBD_DEV_KSTATUS_REMOVING -> d_disk d2 = Some k -> dk_phase k <> DISK_ADDED ->
            intrans d2 = intrans d -> lf_work s <> Some true ->
            life_inv (mk_life (ubbd_dev_put d2) (lf_work s) (lf_maps s))) as Hput.
  { intros d2 k E1 E2 E3 E4 E5 E6 E7 E8 E9. apply put_inv; try done.
    - unfold holders in *. rewrite E1, E2, E3, E4. lia.
    - lia.
    - apply (stage_removing _ _ k); congruence. }
  destruct Hst as [k Hs _ Hd Hph Hit|k Hs _ Hd Hph _ Hx|k Hs _ Hd Hph _ Hx|_ Hl2]; [..|congruence];
    rewrite Hs.
  - destruct (Z.eqb_spec UBBD_DEV_KSTATUS_PREPARED UBBD_DEV_KSTATUS_RUNNING); [intuition congruence|].
    cbn [obind deref]. eexists. split; [done|]. apply (Hput _ k); try done; [congruence|].
    intros E. apply Hit in E. congruence.
  - rewrite Z.eqb_refl. unfold del_gendisk. simpl d_disk. rewrite Hd. cbn [obind deref].
    eexists. split; [done|].
    by apply (Hput _ (mk_disk DISK_DELETED (dk_capacity k) (dk_ro k) (dk_limits k))).
  - destruct (Z.eqb_spec UBBD_DEV_KSTATUS_REMOVING UBBD_DEV_KSTATUS_RUNNING); [intuition congruence|].
    cbn [obind deref]. eexists. split; [done|]. by apply (Hput _ k).
Qed.

Lemma remove_dev_step s d :
  lf_dev s = Some d -> life_inv s -> can true LRemoveDev s ->
  exists s', life_step LRemoveDev s = Ok s' /\ life_inv s'.
Proof.
  unfold life_inv, can, life_step. intros ->. intros (Hk & Hp & Ho & Hm & Hst) (Hl & Hi & Hw).
  specialize (Hw eq_refl). cbn [deref obind]. unfold with_ref, ubbd_dev_remove_dev.
  cbn [d_status ubbd_dev_get set_d_kref]. pose proof dev_kstatus_distinct as Hdist.
  destruct (negb (d_status d =? UBBD_DEV_KSTATUS_REMOVING) &&
            negb (d_status d =? UBBD_DEV_KSTATUS_PREPARED)) eqn:Eg; cbn [obind deref].
  { eexists. split; [done|]. apply (put_inv (ubbd_dev_get d)); try done; [unfold holders in *; simpl in *; lia|].
    by apply stage_kref. }
  assert (d_status d <> UBBD_DEV_KSTATUS_RUNNING) as Hnr.
  { intros E. rewrite E in Eg. apply andb_false_iff in Eg as [Eg|Eg]; apply negb_false_iff, Z.eqb_eq in Eg;
      intuition congruence. }
  assert (exists k, d_disk d = Some k) as [k Hd] by (destruct Hst; eauto; congruence).
  assert (lf_work s <> Some true) as Hnt
    by (destruct Hst as [? _ _ _ _ Hit| | |]; try done; intros E; apply Hit in E; congruence).
  unfold ubbd_free_disk. simpl d_disk. rewrite Hd. cbn [deref obind].
  unfold ubbd_dev_put at 1. simpl d_kref.
  destruct (Z.eqb_spec (d_kref d + 1) 1); [lia|]. cbn [deref obind].
  eexists. split; [done|]. apply put_inv; try done.
  - simpl. unfold holders in *. simpl. rewrite Hl in Hk. simpl in Hk. lia.
  - by apply stage_unlisted.
Qed.

Lemma life_step_inv s op :
  life_inv s -> can true op s -> exists s', life_step op s = Ok s' /\ life_inv s'.
Proof.
  intros Hi Hc. destruct (lf_dev s) as [d|] eqn:Ed; [|by unfold can in Hc; rewrite Ed in Hc].
  destruct op; eauto using add_disk_step, work_begin_step, work_end_step, remove_disk_step, remove_dev_step;
    unfold life_inv, can, life_step in *; rewrite Ed in *; destruct Hi as (Hk & Hp & Ho & Hm & Hst);
    cbn [deref obind]; (eexists; split; [reflexivity|]).
  - simpl. split_and!; [unfold holders in *; simpl; lia|lia|lia|lia|].
    destruct Hst as [k|k|k|];
      [apply (stage_prepared _ _ k)|apply (stage_running _ _ k)|apply (stage_removing _ _ k)|apply stage_unlisted];
      done.
  - apply put_inv; simpl; try lia; [unfold holders in *; simpl; lia|].
    destruct Hst as [k|k|k|];
      [apply (stage_prepared _ _ k)|apply (stage_running _ _ k)|apply (stage_removing _ _ k)|apply stage_unlisted];
      done.
  - simpl. unfold ubbd_vma_open. split_and!; [unfold holders in *; simpl; lia|lia|lia|lia|].
    by apply stage_kref.
  - apply put_inv; try done; [unfold holders in *; lia|lia].
Qed.

Lemma life_reach_inv s : life_reach true s -> life_inv s.
Proof.
  induction 1 as [d (Hs & Hk & Ho & Hl & Hw & Hi & k & Hd & Hph)|s op s' _ IH Hc E].
  - unfold life_inv. simpl. unfold holders. rewrite Hk, Ho, Hl, Hw. simpl. split_and!; try lia.
    apply (stage_prepared _ _ k); try done. rewrite Hi. done.
  - destruct (life_step_inv s op IH Hc) as (s2 & E2 & Hi). congruence.
Qed.
End lemmas.

(** ** Properties *)

Section properties.
Context `{L : UbbdAbiLaws} `{KL : KernelApiLaws} `{ML : KernelMemLaws}.

(** The life cycle is safe under a patient manager.  In every state
    reached from a prepared device by any sequence of add-disk commands and
    works (successful or not), disk removals, device removals, opens, closes,
    mappings and unmaps, in which the manager lets a queued add-disk work start
    before its next add or remove of the device: a further operation never
    faults; the references are exactly one per holder (the device list, the
    queued work, the running work, each open, each mapping), so the device is
    destroyed exactly when the last one goes; and an added disk implies a
    running device that is still listed, so no disk is freed while added. *)
Theorem lifecycle_safe (s : life) (op : life_op) :
  life_reach true s -> can true op s ->
  (exists s', life_step op s = Ok s') /\
  match lf_dev s with
  | None => lf_work s = None /\ lf_maps s = 0
  | Some d =>
      d_kref d = holders d (lf_work s) (lf_maps s) /\ 0 < d_kref d /\
      (forall k, d_disk d = Some k -> dk_phase k = DISK_ADDED ->
         d_status d = UBBD_DEV_KSTATUS_RUNNING /\ d_in_list d = true)
  end.
Proof.
  intros Hr Hc. pose proof (life_reach_inv s Hr) as Hi. split.
  - destruct (life_step_inv s op Hi Hc) as (s' & E & _). eauto.
  - unfold life_inv in Hi. destruct (lf_dev s) as [d|]; [|done].
    destruct Hi as (Hk & Hp & _ & _ & Hst). split_and!; try done.
    intros k Hd Hph. destruct Hst; simplify_eq; try done; congruence.
Qed.

(** C40: an impatient manager crashes the driver.  From a prepared device,
    removing the device while its add-disk work is still queued frees the disk
    and leaves the status prepared, so the work dereferences a NULL disk; and a
    second add-disk command re-initialises the work while it is queued. *)
Theorem impatient_manager_faults (d : ubbd_device) :
  prepared_device d ->
  (exists s1 s2, life_step LAddDisk (mk_life (Some d) None 0) = Ok s1 /\
     can false LRemoveDev s1 /\ life_step LRemoveDev s1 = Ok s2 /\
     can false LWorkBegin s2 /\ life_step LWorkBegin s2 = Fault NULL_DEREF) /\
  (exists s1, life_step LAddDisk (mk_life (Some d) None 0) = Ok s1 /\
     can false LAddDisk s1 /\ life_step LAddDisk s1 = Fault WILD_ACCESS).
Proof.
  intros (Hs & Hk & Ho & Hl & Hw & Hi & k & Hd & Hph).
  assert (life_step LAddDisk (mk_life (Some d) None 0) =
    Ok (mk_life (Some (set_d_kref 2 (set_d_work_pending true d))) None 0)) as E1.
  { unfold life_step, with_ref, ubbd_dev_add_disk, queue_device_work. cbn [deref obind lf_dev].
    cbn [d_status ubbd_dev_get set_d_kref]. rewrite Hs, Z.eqb_refl. cbn [negb d_work_pending].
    simpl. rewrite Hw. simpl. unfold ubbd_dev_put. simpl. rewrite Hk. done. }
  rewrite E1. split.
  - eexists _, (mk_life (Some (set_d_kref 1 (set_d_disk None (set_d_in_list false (set_d_work_pending true d))))) None 0).
    split; [done|]. split_and!; try done.
    + unfold life_step, with_ref, ubbd_dev_remove_dev, ubbd_free_disk. simpl. rewrite Hs, Z.eqb_refl.
      rewrite andb_false_r. simpl. rewrite Hd. done.
    + unfold life_step, add_disk_begin. simpl. rewrite Hs, Z.eqb_refl. done.
  - eexists. split; [done|]. split_and!; try done.
    unfold life_step, with_ref, ubbd_dev_add_disk, queue_device_work. simpl.
    rewrite Hs, Z.eqb_refl. done.
Qed.
End properties.

(** ** Witnesses *)

Definition demo_prepared : ubbd_device :=
  mk_dev demo_abi 0 [] [] (Some (mk_disk DISK_ALLOCATED 2048 false (mk_limits false false 0 0 0 0)))
    1048576 0 0 1 0 1 true false.

Lemma demo_prepared_ok : prepared_device demo_prepared.
Proof. repeat split. eexists. split; reflexivity. Qed.

(** The add-disk work of the demo device has succeeded. *)
Definition demo_step (op : life_op) (s : life) : life :=
  match life_step op s with Ok s' => s' | Fault _ => s end.
Definition demo_added : life := demo_step LAddDisk (mk_life (Some demo_prepared) None 0).
Definition demo_begun : life := demo_step LWorkBegin demo_added.
Definition demo_running : life := demo_step (LWorkEnd 0) demo_begun.

Lemma demo_step_reach op s :
  life_reach true s -> can true op s -> is_ok (life_step op s) = true -> life_reach true (demo_step op s).
Proof.
  intros Hr Hc Hok. apply (life_next true s op); [done..|]. unfold demo_step.
  by destruct (life_step op s).
Qed.

Lemma demo_running_reach : life_reach true demo_running.
Proof.
  apply demo_step_reach; [apply demo_step_reach; [apply demo_step_reach|..]|..].
  - apply life_start, demo_prepared_ok.
  - vm_compute. auto.
  - vm_compute. reflexivity.
  - vm_compute. auto.
  - vm_compute. reflexivity.
  - vm_compute. discriminate.
  - vm_compute. reflexivity.
Qed.

Lemma lifecycle_safe_witness : exists s', life_step LRemoveDisk demo_running = Ok s'.
Proof. apply (lifecycle_safe demo_running LRemoveDisk demo_running_reach). vm_compute. auto. Defined.

Lemma impatient_manager_faults_witness :
  exists s1 s2, life_step LAddDisk (mk_life (Some demo_prepared) None 0) = Ok s1 /\
    life_step LRemoveDev s1 = Ok s2 /\ life_step LWorkBegin s2 = Fault NULL_DEREF.
Proof.
  destruct (impatient_manager_faults demo_prepared demo_prepared_ok) as [(s1 & s2 & H1 & _ & H2 & _ & H3) _].
  exists s1, s2. split; [exact H1|]. split; [exact H2|exact H3].
Defined.
