(* ===== verification/Create.v ===== *)
(** * Creating and destroying devices

    Models the life of [struct ubbd_device] around its use, in
    [src/src/ubbd_dev.c]: [ubbd_queue_create] and [ubbd_queue_destroy] with the
    registration of the kring device, [ubbd_dev_create], [ubbd_dev_destroy],
    [ubbd_init_disk] and [ubbd_dev_add_dev], with every error exit.

    The driver-wide state is the id allocator, the kring devices, the objects
    allocated and not yet freed, and the references the module holds on
    itself. *)

From S2P Require Import Prelude Abi Ring Pages Request Queue Kring Device.

(** ** Objects *)

(** What a device allocates, by the address [h] of the device. *)
Inductive object : Type :=
| OBJ_DEV (h : Z)              (* the [kzalloc]ed device *)
| OBJ_QUEUES (h : Z)           (* its array of queues *)
| OBJ_BITMAP (h i : Z)         (* [data_bitmap] of queue [i] *)
| OBJ_SB (h i : Z)             (* the [vzalloc]ed rings of queue [i] *)
| OBJ_TASK_WQ (h : Z)
| OBJ_DEBUGFS (h : Z)          (* its debugfs directory *)
| OBJ_TAG_SET (h : Z)
| OBJ_DISK (h : Z).

#[export] Instance object_eq_dec : EqDecision object.
Proof. solve_decision. Defined.

#[export] Instance object_countable : Countable object.
Proof.
  refine (inj_countable'
    (fun o => match o with
              | OBJ_DEV h => (0, h, 0) | OBJ_QUEUES h => (1, h, 0)
              | OBJ_BITMAP h i => (2, h, i) | OBJ_SB h i => (3, h, i)
              | OBJ_TASK_WQ h => (4, h, 0) | OBJ_DEBUGFS h => (5, h, 0)
              | OBJ_TAG_SET h => (6, h, 0) | OBJ_DISK h => (7, h, 0)
              end)
    (fun t => let '(k, h, i) := t in
       if decide (k = 0) then OBJ_DEV h else if decide (k = 1) then OBJ_QUEUES h
       else if decide (k = 2) then OBJ_BITMAP h i else if decide (k = 3) then OBJ_SB h i
       else if decide (k = 4) then OBJ_TASK_WQ h else if decide (k = 5) then OBJ_DEBUGFS h
       else if decide (k = 6) then OBJ_TAG_SET h else OBJ_DISK h) _).
  by intros [].
Defined.

Definition owner (o : object) : Z :=
  match o with
  | OBJ_DEV h | OBJ_QUEUES h | OBJ_BITMAP h _ | OBJ_SB h _
  | OBJ_TASK_WQ h | OBJ_DEBUGFS h | OBJ_TAG_SET h | OBJ_DISK h => h
  end.

Record driver : Type := mk_driver {
  dv_ids : gset Z;             (* [ubbd_dev_id_ida] *)
  dv_kring : kring_state;
  dv_heap : gset object;
  dv_modrefs : Z;              (* [__module_get] minus [module_put] *)
}.

Definition set_dv_ids (x : gset Z) (s : driver) : driver :=
  mk_driver x (dv_kring s) (dv_heap s) (dv_modrefs s).
Definition set_dv_kring (x : kring_state) (s : driver) : driver :=
  mk_driver (dv_ids s) x (dv_heap s) (dv_modrefs s).
Definition set_dv_heap (x : gset object) (s : driver) : driver :=
  mk_driver (dv_ids s) (dv_kring s) x (dv_modrefs s).
Definition set_dv_modrefs (x : Z) (s : driver) : driver :=
  mk_driver (dv_ids s) (dv_kring s) (dv_heap s) x.

Definition halloc (o : object) (s : driver) : driver := set_dv_heap ({[o]} ∪ dv_heap s) s.

(** Freeing what is not allocated is a fault; freeing NULL does nothing. *)
Definition hfree (o : object) (s : driver) : outcome driver :=
  if decide (o ∈ dv_heap s) then Ok (set_dv_heap (dv_heap s ∖ {[o]}) s) else Fault DOUBLE_FREE.

Definition hfree_ptr (p : bool) (o : object) (s : driver) : outcome driver :=
  if p then hfree o s else Ok s.

(** The pointer fields of [struct ubbd_queue] and its [ubbd_kring_info]. *)
Record queue_parts : Type := mk_parts {
  qp_bitmap : bool;
  qp_sb : bool;
  qp_info : kring_info;
  qp_mem_size : Z;             (* [mem[0].size] *)
}.

Definition zeroed_parts : queue_parts := mk_parts false false (mk_info None NAME_NULL) 0.

(** [ida_alloc_range]: an unused id of the range, or a negative error number. *)
Class KernelIda := {
  ida_alloc_range : gset Z -> Z -> Z -> Z;
}.

Class KernelIdaLaws `(D : KernelIda) : Prop := {
  ida_alloc_range_fresh ids lo hi :
    0 <= ida_alloc_range ids lo hi ->
    lo <= ida_alloc_range ids lo hi <= hi /\ ida_alloc_range ids lo hi ∉ ids;
}.

#[export] Instance demo_ida : KernelIda := {|
  ida_alloc_range ids lo hi :=
    match find (fun i => bool_decide (i ∉ ids)) (seqZ lo (Z.min (hi - lo + 1) 64)) with
    | Some i => i
    | None => - ENOSPC
    end;
|}.

#[export] Instance demo_ida_laws : KernelIdaLaws demo_ida.
Proof.
  split. intros ids lo hi. simpl. destruct (find _ _) as [i|] eqn:E; [|done]. intros _.
  apply List.find_some in E as [Hin Hf]. apply list_elem_of_In, elem_of_seqZ in Hin.
  apply bool_decide_eq_true in Hf. split; [lia|done].
Qed.

Section code.
Context `{A : UbbdAbi} `{K : KernelApi} `{M : KernelMem} `{I : KernelIdr} `{D : KernelIda}.

Abbreviation slot := (ubbd_queue * queue_parts)%type.

(** ** Queues *)

(** What the kernel answers to the calls one queue makes. *)
Record queue_env : Type := mk_queue_env {
  qe_bitmap_ok : bool;         (* [bitmap_zalloc] *)
  qe_vzalloc_ok : bool;
  qe_kasprintf_ok : bool;
  qe_register : register_env;
}.

Definition ubbd_queue_create (env : queue_env) (h n : Z) (sl : slot) (s : driver)
  : outcome (Z * slot * driver) :=
  let '(q, parts) := sl in
  let i := q_index q in
  let p := q_pool q in
  let p := mk_pool (data_bitmap p) (data_pages_array p) n (data_pages_allocated p)
             (data_pages_reserve n UBBD_KRING_DATA_RESERVE_PERCENT) (data_off p) (q_inode p)
             (unmap_log p) in
  let q := set_q_pool p q in
  if ubbd_mgmt_need_fault then Ok (- ENOMEM, (q, parts), s)
  else
    let q := set_q_pool (set_array ∅ p) q in
    if negb (qe_bitmap_ok env) then Ok (- ENOMEM, (q, parts), s)
    else
      let q := set_q_pool (set_bitmap ∅ (q_pool q)) q in
      let s := halloc (OBJ_BITMAP h i) s in
      let parts := mk_parts true (qp_sb parts) (qp_info parts) (qp_mem_size parts) in
      let '(ret, q) := ubbd_queue_sb_init (qe_vzalloc_ok env) q in
      if negb (ret =? 0) then Ok (ret, (q, parts), s)
      else
        let s := halloc (OBJ_SB h i) s in
        let parts := mk_parts true true (qp_info parts) (u64 (Z.shiftl (q_mmap_pages q) PAGE_SHIFT)) in
        let* '(ret, info, ks) :=
          ubbd_queue_kring_init (qe_register env) (qe_kasprintf_ok env) i (qp_info parts) (dv_kring s) in
        let s := set_dv_kring ks s in
        let parts := mk_parts true true info (qp_mem_size parts) in
        if negb (ret =? 0) then Ok (ret, (q, parts), s)
        else
          let q := set_q_inflight [] q in
          let q := set_q_req_tid 0 q in
          let q := set_q_cpumask [] q in
          Ok (0, (set_q_status UBBD_QUEUE_KSTATUS_RUNNING q, parts), s).

(** [ubbd_queue_destroy]; [vfree], [bitmap_free] and [kfree] accept NULL. *)
Definition ubbd_queue_destroy (h i : Z) (sl : slot) (s : driver) (km : kmem)
  : outcome (driver * kmem) :=
  let '(q, parts) := sl in
  let* '(_, ks) := ubbd_queue_kring_destroy (qp_info parts) (dv_kring s) in
  let s := set_dv_kring ks s in
  let* s := hfree_ptr (qp_sb parts) (OBJ_SB h i) s in
  if qp_bitmap parts then
    let '(_, km) := ubbd_page_release (q_pool q) km in
    let* s := hfree (OBJ_BITMAP h i) s in
    Ok (s, km)
  else Ok (s, km).

(** The loop of [ubbd_dev_destroy_queues], from index [i]. *)
Fixpoint destroy_queues_from (h i : Z) (sls : list slot) (s : driver) (km : kmem)
  : outcome (driver * kmem) :=
  match sls with
  | [] => Ok (s, km)
  | sl :: sls =>
      let* '(s, km) := ubbd_queue_destroy h i sl s km in
      destroy_queues_from h (i + 1) sls s km
  end.

Definition ubbd_dev_destroy_queues (h : Z) (sls : list slot) (s : driver) (km : kmem)
  : outcome (driver * kmem) :=
  let* '(s, km) := destroy_queues_from h 0 sls s km in
  let* s := hfree (OBJ_QUEUES h) s in
  Ok (s, km).

Definition zeroed_slot (i : Z) : slot := (zeroed_queue i, zeroed_parts).

(** The loop of [ubbd_dev_create_queues], from index [i] with [todo] queues to
    go: it stops at the first error, leaving the rest of the array zeroed. *)
Fixpoint create_queues_from (envs : Z -> queue_env) (h n i : Z) (todo : nat) (s : driver)
  : outcome (Z * list slot * driver) :=
  match todo with
  | O => Ok (0, [], s)
  | S todo =>
      let* '(ret, sl, s) := ubbd_queue_create (envs i) h n (zeroed_slot i) s in
      if negb (ret =? 0) then Ok (ret, sl :: replicate todo (zeroed_slot 0), s)
      else
        let* '(ret, sls, s) := create_queues_from envs h n (i + 1) todo s in
        Ok (ret, sl :: sls, s)
  end.

Definition ubbd_dev_create_queues (kcalloc_ok : bool) (envs : Z -> queue_env) (h num n : Z)
    (s : driver) (km : kmem) : outcome (Z * list slot * driver * kmem) :=
  if negb kcalloc_ok then Ok (- ENOMEM, [], s, km)
  else
    let s := halloc (OBJ_QUEUES h) s in
    let* '(ret, sls, s) := create_queues_from envs h n 0 (Z.to_nat num) s in
    if negb (ret =? 0) then
      let* '(s, km) := ubbd_dev_destroy_queues h sls s km in
      Ok (ret, [], s, km)
    else Ok (0, sls, s, km).

(** ** Devices *)

Record ubbd_dev_add_opts : Type := mk_add_opts {
  ao_dev_features : Z;
  ao_device_size : Z;
  ao_data_pages : Z;
  ao_num_queues : Z;
  ao_io_timeout : Z;
}.

(** A device: its address, its fields, the parts of its queues, its minor and
    its timeout. *)
Record device_obj : Type := mk_dobj {
  o_h : Z;
  o_dev : ubbd_device;
  o_parts : list queue_parts;
  o_minor : Z;
  o_io_timeout : Z;
}.

Definition set_o_dev (d : ubbd_device) (o : device_obj) : device_obj :=
  mk_dobj (o_h o) d (o_parts o) (o_minor o) (o_io_timeout o).

Definition o_slots (o : device_obj) : list slot := zip (d_queues (o_dev o)) (o_parts o).

(** What the kernel answers while a device is created. *)
Record create_env : Type := mk_create_env {
  ve_kzalloc : option Z;       (* address of the device, or NULL *)
  ve_kcalloc_ok : bool;        (* the array of queues *)
  ve_queues : Z -> queue_env;
  ve_task_wq_ok : bool;
}.

(** [kref_init], [dev_node] initialised, no disk, nothing queued. *)
Definition __ubbd_dev_create (h : Z) : ubbd_device :=
  mk_dev _ 0 [] [] None 0 0 0 UBBD_DEV_KSTATUS_INIT 0 1 false false.

Definition set_d_dev_id (id : Z) (d : ubbd_device) : ubbd_device :=
  mk_dev _ id (d_queues d) (d_hctx d) (d_disk d) (d_dev_size d) (d_dev_features d) (d_open_count d)
    (d_status d) (d_status_flags d) (d_kref d) (d_in_list d) (d_work_pending d).

Definition set_d_config (size features : Z) (d : ubbd_device) : ubbd_device :=
  mk_dev _ (d_dev_id d) (d_queues d) (d_hctx d) (d_disk d) size features (d_open_count d)
    (d_status d) (d_status_flags d) (d_kref d) (d_in_list d) (d_work_pending d).

Definition ubbd_dev_create (env : create_env) (opts : ubbd_dev_add_opts) (s : driver) (km : kmem)
  : outcome (option device_obj * driver * kmem) :=
  if ubbd_mgmt_need_fault then Ok (None, s, km)
  else
    match ve_kzalloc env with
    | None => Ok (None, s, km)
    | Some h =>
        let s := halloc (OBJ_DEV h) s in
        let d := __ubbd_dev_create h in
        let id := ida_alloc_range (dv_ids s) 0 (minor_to_ubbd_dev_id (Z.shiftl 1 MINORBITS) - 1) in
        if id <? 0 then let* s := hfree (OBJ_DEV h) s in Ok (None, s, km)
        else
          let s := set_dv_ids ({[id]} ∪ dv_ids s) s in
          let* '(ret, sls, s, km) :=
            ubbd_dev_create_queues (ve_kcalloc_ok env) (ve_queues env) h (ao_num_queues opts)
              (ao_data_pages opts) s km in
          if negb (ret =? 0) then
            let s := set_dv_ids (dv_ids s ∖ {[id]}) s in
            let* s := hfree (OBJ_DEV h) s in Ok (None, s, km)
          else if negb (ve_task_wq_ok env) then
            let* '(s, km) := ubbd_dev_destroy_queues h sls s km in
            let s := set_dv_ids (dv_ids s ∖ {[id]}) s in
            let* s := hfree (OBJ_DEV h) s in Ok (None, s, km)
          else
            let s := halloc (OBJ_TASK_WQ h) s in
            let s := set_dv_modrefs (dv_modrefs s + 1) s in
            let s := halloc (OBJ_DEBUGFS h) s in
            let d := set_d_hctx (replicate (length sls) None) (set_d_queues sls.*1 (set_d_dev_id id d)) in
            Ok (Some (mk_dobj h d sls.*2 0 0), s, km)
    end.

Definition ubbd_dev_destroy (o : device_obj) (s : driver) (km : kmem) : outcome (driver * kmem) :=
  let h := o_h o in
  let* s := hfree (OBJ_DEBUGFS h) s in
  let* s := hfree (OBJ_TASK_WQ h) s in
  let* '(s, km) := ubbd_dev_destroy_queues h (o_slots o) s km in
  let s := set_dv_ids (dv_ids s ∖ {[d_dev_id (o_dev o)]}) s in
  let* s := hfree (OBJ_DEV h) s in
  Ok (set_dv_modrefs (dv_modrefs s - 1) s, km).

(** [ubbd_dev_put] on the device object: [ubbd_dev_release] destroys it. *)
Definition dev_put (o : device_obj) (s : driver) (km : kmem)
  : outcome (option device_obj * driver * kmem) :=
  match ubbd_dev_put (o_dev o) with
  | Some d => Ok (Some (set_o_dev d o), s, km)
  | None => let* '(s, km) := ubbd_dev_destroy o s km in Ok (None, s, km)
  end.

(** ** Disk *)

Record disk_env : Type := mk_disk_env {
  ke_tag_set : Z;              (* [blk_mq_alloc_tag_set] *)
  ke_alloc_disk : Z;           (* 0, or the error of [blk_mq_alloc_disk] *)
  ke_hctxs : list Z;           (* the hctx indices it initialises *)
  ke_default : queue_limits;   (* the limits of a new queue *)
  ke_cpus : list Z;            (* present CPUs *)
  ke_map : Z -> Z;             (* [mq_map]: CPU to hardware queue *)
  ke_commit : Z;               (* [queue_limits_commit_update_frozen] *)
}.

(** The hctx serves its own queue. *)
Definition ubbd_init_hctx (d : ubbd_device) (hctx_idx : Z) : outcome ubbd_device :=
  let* _ := deref (d_queues d !! Z.to_nat hctx_idx) OUT_OF_BOUNDS in
  Ok (set_d_hctx (<[Z.to_nat hctx_idx := Some hctx_idx]> (d_hctx d)) d).

Fixpoint init_hctxs (idxs : list Z) (d : ubbd_device) : outcome ubbd_device :=
  match idxs with
  | [] => Ok d
  | idx :: idxs => let* d := ubbd_init_hctx d idx in init_hctxs idxs d
  end.

Definition cpumask_set_cpu (cpu : Z) (m : list Z) : list Z :=
  if decide (cpu ∈ m) then m else m ++ [cpu].

Fixpoint ubbd_init_queue_cpumask (mq_map : Z -> Z) (cpus : list Z) (qs : list ubbd_queue)
  : outcome (list ubbd_queue) :=
  match cpus with
  | [] => Ok qs
  | cpu :: cpus =>
      let j := Z.to_nat (mq_map cpu) in
      let* q := deref (qs !! j) OUT_OF_BOUNDS in
      ubbd_init_queue_cpumask mq_map cpus
        (<[j := set_q_cpumask (cpumask_set_cpu cpu (q_cpumask q)) q]> qs)
  end.

(** The limits [ubbd_init_disk] leaves: no discard, no write zeroes. *)
Definition init_limits (l : queue_limits) : queue_limits :=
  mk_limits (lim_write_cache l) (lim_fua l) 0 0 (lim_max_discard_segments l) 0.

Definition ubbd_init_disk (env : disk_env) (h : Z) (d : ubbd_device) (s : driver)
  : outcome (Z * ubbd_device * driver) :=
  if ubbd_mgmt_need_fault then Ok (- ENOMEM, d, s)
  else if negb (ke_tag_set env =? 0) then Ok (ke_tag_set env, d, s)
  else
    let s := halloc (OBJ_TAG_SET h) s in
    if negb (ke_alloc_disk env =? 0) then
      let* s := hfree (OBJ_TAG_SET h) s in Ok (ke_alloc_disk env, d, s)
    else
      let s := halloc (OBJ_DISK h) s in
      let* d := init_hctxs (ke_hctxs env) d in
      let* qs := ubbd_init_queue_cpumask (ke_map env) (ke_cpus env) (d_queues d) in
      let d := set_d_queues qs d in
      Ok (0, set_d_disk (Some (mk_disk DISK_ALLOCATED 0 false (init_limits (ke_default env)))) d, s).

(** [ubbd_dev_device_setup]; the new limits replace the old ones only when the
    block layer accepts them. *)
Definition ubbd_dev_device_setup (env : disk_env) (o : device_obj) (s : driver)
  : outcome (Z * device_obj * driver) :=
  let d := o_dev o in
  let o := mk_dobj (o_h o) d (o_parts o) (ubbd_dev_id_to_minor (d_dev_id d)) (o_io_timeout o) in
  let* '(ret, d, s) := ubbd_init_disk env (o_h o) d s in
  let o := set_o_dev d o in
  if negb (ret =? 0) then Ok (ret, o, s)
  else
    let* k := deref (d_disk d) NULL_DEREF in
    let ro := negb (Z.land (d_dev_features d) UBBD_ATTR_FLAGS_ADD_READONLY =? 0) in
    let ret := ke_commit env in
    let lim := if ret =? 0 then ubbd_dev_device_limits (d_dev_features d) else dk_limits k in
    let k := mk_disk (dk_phase k) (d_dev_size d / SECTOR_SIZE) ro lim in
    Ok (ret, set_o_dev (set_d_disk (Some k) d) o, s).

(** [ubbd_free_disk] on the device object: the disk and its tag set. *)
Definition free_disk (o : device_obj) (s : driver) : outcome (device_obj * driver) :=
  let* d := ubbd_free_disk (o_dev o) in
  let* s := hfree (OBJ_DISK (o_h o)) s in
  let* s := hfree (OBJ_TAG_SET (o_h o)) s in
  Ok (set_o_dev d o, s).

Definition ubbd_dev_add_dev (env : create_env) (kenv : disk_env) (opts : ubbd_dev_add_opts)
    (s : driver) (km : kmem) : outcome ((Z + device_obj) * driver * kmem) :=
  let* '(r, s, km) := ubbd_dev_create env opts s km in
  match r with
  | None => Ok (inl (- ENOMEM), s, km)
  | Some o =>
      if ubbd_mgmt_need_fault then
        let* '(_, s, km) := dev_put o s km in Ok (inl (- ENOMEM), s, km)
      else
        let d := set_d_config (ao_device_size opts) (ao_dev_features opts) (o_dev o) in
        let o := mk_dobj (o_h o) d (o_parts o) (o_minor o) (ao_io_timeout opts) in
        let* '(ret, o, s) := ubbd_dev_device_setup kenv o s in
        if negb (ret =? 0) then
          let* '(_, s, km) := dev_put o s km in Ok (inl (- EINVAL), s, km)
        else
          let d := set_d_in_list true (set_d_status UBBD_DEV_KSTATUS_PREPARED (o_dev o)) in
          Ok (inr (set_o_dev d o), s, km)
  end.
End code.
