(* ===== verification/CreateInv.v ===== *)
(** * What creation leaves and destruction takes

    Lemmas on the loops of [Create]: the objects and the kring devices that a
    prefix of the queues holds, and that [ubbd_dev_destroy_queues] gives back
    exactly these, whatever step of the creation failed. *)

From S2P Require Import Prelude Abi Ring Pages Request Queue Kring KringMap Device Create.

(** ** Registered kring devices *)

(** One registered device more. *)
Definition kadd (hd m q : Z) (k : kring_state) : kring_state :=
  mk_kring (ks_class_registered k) (<[m := hd]> (ks_idr k))
    (<[hd := mk_kdev m (Some q) 1]> (ks_devs k)) (ks_files k) (ks_modrefs k).

Definition kfresh (hd m : Z) (k : kring_state) : Prop :=
  ks_devs k !! hd = None /\ ks_idr k !! m = None.

(** [kreg k infos k']: registering the devices of [infos], in order, takes [k]
    to [k']; an info without a device adds nothing. *)
Inductive kreg : kring_state -> list kring_info -> kring_state -> Prop :=
| kreg_nil k : kreg k [] k
| kreg_none k info infos k' :
    ki_dev info = None -> kreg k infos k' -> kreg k (info :: infos) k'
| kreg_some k info infos hd m q k' :
    ki_dev info = Some hd -> kfresh hd m k -> kreg (kadd hd m q k) infos k' ->
    kreg k (info :: infos) k'.

Lemma kring_state_eta k :
  mk_kring (ks_class_registered k) (ks_idr k) (ks_devs k) (ks_files k) (ks_modrefs k) = k.
Proof. by destruct k. Qed.

Lemma kadd_commute h1 m1 q1 h2 m2 q2 k :
  h1 <> h2 -> m1 <> m2 -> kadd h1 m1 q1 (kadd h2 m2 q2 k) = kadd h2 m2 q2 (kadd h1 m1 q1 k).
Proof.
  intros Hh Hm. unfold kadd. simpl. f_equal; by apply insert_insert_ne.
Qed.

Lemma kreg_app k1 k2 k3 l1 l2 : kreg k1 l1 k2 -> kreg k2 l2 k3 -> kreg k1 (l1 ++ l2) k3.
Proof. induction 1; intros H2; simpl; eauto using kreg. Qed.

(** Registering more devices keeps those that are there. *)
Lemma kreg_keeps k l k' hd d : kreg k l k' -> ks_devs k !! hd = Some d -> ks_devs k' !! hd = Some d.
Proof.
  induction 1 as [| |k info l hd' m q k' Hd [Hf Hf'] H IH]; auto. intros Hk. apply IH. simpl.
  rewrite lookup_insert_ne; [done|]. congruence.
Qed.

Lemma kreg_lookup k l k' info hd :
  kreg k l k' -> info ∈ l -> ki_dev info = Some hd -> is_Some (ks_devs k' !! hd).
Proof.
  induction 1 as [k|k info' l k' Hd H IH|k info' l hd' m q k' Hd Hf H IH].
  - by intros ?%elem_of_nil.
  - intros [->|Hin]%elem_of_cons; [congruence|auto].
  - intros [->|Hin]%elem_of_cons Hi; [|auto]. replace hd with hd' by congruence.
    eexists. apply (kreg_keeps _ _ _ _ _ H). simpl. by rewrite lookup_insert_eq.
Qed.

(** The first device of a registration can be taken out last. *)
Lemma kreg_kadd hd m q k k' l :
  kfresh hd m k -> kreg (kadd hd m q k) l k' ->
  exists k'', kreg k l k'' /\ kfresh hd m k'' /\ k' = kadd hd m q k''.
Proof.
  intros Hf H. remember (kadd hd m q k) as k1 eqn:E. revert k Hf E.
  induction H as [k1|k1 info l k' Hd H IH|k1 info l hd2 m2 q2 k' Hd Hf2 H IH]; intros k Hf E.
  - exists k. split; [constructor|done].
  - destruct (IH k Hf E) as (k'' & Hk & ?). exists k''. split; [by constructor|done].
  - subst k1. destruct Hf as [Hf1 Hf1']. destruct Hf2 as [Hf2 Hf2']. simpl in Hf2, Hf2'.
    apply lookup_insert_None in Hf2 as [Hf2 Hne]. apply lookup_insert_None in Hf2' as [Hf2' Hne'].
    destruct (IH (kadd hd2 m2 q2 k)) as (k'' & Hk & Hfr & ->).
    + split; simpl; apply lookup_insert_None; done.
    + apply kadd_commute; done.
    + exists k''. split; [|done]. by apply (kreg_some _ _ _ hd2 m2 q2).
Qed.

Section kring.
Context `{IL : KernelIdrLaws}.

Lemma unregister_kadd hd m q k name :
  kfresh hd m k ->
  ubbd_kring_unregister_device (mk_info (Some hd) name) (kadd hd m q k) = Ok k.
Proof.
  intros [Hh Hm]. unfold ubbd_kring_unregister_device, unregister_device_part, put_device.
  cbn [ki_dev kadd ks_devs]. rewrite lookup_insert_eq. cbn [deref obind kd_minor kd_info kd_refs].
  cbn [set_ks_devs ks_devs]. rewrite lookup_insert_eq. cbn [deref obind kd_refs].
  change (1 =? 1) with true. unfold ubbd_kring_free_minor, set_ks_idr, set_ks_devs. simpl.
  rewrite insert_insert_eq, delete_insert_id, delete_insert_id by done. f_equal. apply kring_state_eta.
Qed.

(** The registration of a queue's kring device: it registers one, or fails
    and leaves nothing. *)
Lemma kring_init_spec env ok q k :
  (forall hd, re_kzalloc env = Some hd -> ks_devs k !! hd = None) ->
  exists ret info k', ubbd_queue_kring_init env ok q (mk_info None NAME_NULL) k = Ok (ret, info, k') /\
    ki_name info <> NAME_FREED /\ kreg k [info] k' /\
    (ret = 0 -> exists hd, re_kzalloc env = Some hd /\ ki_dev info = Some hd /\
       ki_name info = NAME_LIVE /\ exists m, kfresh hd m k /\ k' = kadd hd m q k /\ 0 <= m < 2 ^ 20).
Proof.
  intros Hfr. unfold ubbd_queue_kring_init, __ubbd_kring_register_device.
  assert (kreg k [mk_info None NAME_NULL] k) by (apply kreg_none; [done|constructor]).
  assert (kreg k [mk_info None NAME_LIVE] k) by (apply kreg_none; [done|constructor]).
  destruct ok; cbn [negb]; [|by do 3 eexists].
  destruct (ks_class_registered k) eqn:Ec; cbn [negb]; [|by do 3 eexists].
  cbn [ki_name ki_dev]. rewrite bool_decide_false by done. cbn [orb].
  destruct (re_kzalloc env) as [hd|]; [|by do 3 eexists].
  specialize (Hfr hd eq_refl). unfold ubbd_kring_get_minor.
  set (m := idr_alloc _ _ _). destruct (Z.leb_spec 0 m) as [Hm|Hm].
  2: { destruct (Z.eqb_spec m (- ENOSPC)); [by do 3 eexists|].
    replace (m =? 0) with false by (symmetry; apply Z.eqb_neq; lia). cbn [negb].
    do 3 eexists. split; [done|]. split_and!; try done. lia. }
  destruct (idr_alloc_fresh _ _ _ Hm) as [Hr Hn]. fold m in Hr, Hn.
  change (0 =? 0) with true. cbn [negb]. cbn [set_ks_idr ks_devs].
  set (ret := if re_set_name env =? 0 then re_device_add env else re_set_name env).
  destruct (Z.eqb_spec ret 0) as [E|E]; cbn [negb].
  - do 3 eexists. split; [done|]. split; [done|].
    assert (kfresh hd m k) by done. split.
    + apply (kreg_some _ _ _ hd m q); [done|done|constructor].
    + intros _. exists hd. split_and!; try done. exists m. split_and!; try done.
      change KRING_MAX_DEVICES with (2 ^ 20) in Hr. lia.
  - unfold put_device, ubbd_kring_free_minor. cbn [set_ks_idr set_ks_devs ks_devs].
    rewrite lookup_insert_eq. cbn [deref obind kd_refs]. change (1 =? 1) with true. cbn [obind].
    do 3 eexists. split; [done|]. split; [done|]. split; [|done].
    apply kreg_none; [done|]. unfold set_ks_devs, set_ks_idr. simpl.
    rewrite !delete_insert_id by done. rewrite kring_state_eta. constructor.
Qed.

Lemma kring_destroy_spec info k k' l :
  ki_name info <> NAME_FREED -> kreg k (info :: l) k' ->
  exists info' k'', ubbd_queue_kring_destroy info k' = Ok (info', k'') /\ kreg k l k''.
Proof.
  intros Hn H. unfold ubbd_queue_kring_destroy, kfree_name. destruct info as [od name]. simpl in Hn.
  assert (exists info', kfree_name (mk_info od name) = Ok info' /\ ki_dev info' = od) as (info' & E & Ei).
  { unfold kfree_name. destruct name; simpl; eauto. done. }
  unfold kfree_name in E. rewrite E. cbn [obind]. destruct info' as [od' name']. simpl in Ei. subst od'.
  inversion H as [|? ? ? ? Hd Hk|? ? ? hd m q ? Hd Hf Hk]; subst; simpl in Hd; subst od.
  - eexists _, k'. split; [done|done].
  - destruct (kreg_kadd _ _ _ _ _ _ Hf Hk) as (k'' & Hk'' & Hf'' & ->).
    rewrite unregister_kadd by done. by eexists _, k''.
Qed.
End kring.

(** ** Objects of the queues *)

(** The objects of queue [i] of the device at [h], and of the queues from [i]. *)
Definition part_objs (h i : Z) (p : queue_parts) : gset object :=
  (if qp_bitmap p then {[OBJ_BITMAP h i]} else ∅) ∪ (if qp_sb p then {[OBJ_SB h i]} else ∅).

Fixpoint objs_from (h i : Z) (ps : list queue_parts) : gset object :=
  match ps with
  | [] => ∅
  | p :: ps => part_objs h i p ∪ objs_from h (i + 1) ps
  end.

(** The objects of queues of [h] of index at least [i]. *)
Definition queue_obj_from (h i : Z) (o : object) : Prop :=
  match o with
  | OBJ_BITMAP h' j | OBJ_SB h' j => h' = h /\ i <= j
  | _ => False
  end.

Lemma part_objs_from h i p o : o ∈ part_objs h i p -> queue_obj_from h i o.
Proof.
  unfold part_objs. destruct (qp_bitmap p), (qp_sb p); set_unfold; intros; destruct_or?; subst;
    done || (simpl; lia).
Qed.

Lemma part_objs_index h i p o : o ∈ part_objs h i p -> ~ queue_obj_from h (i + 1) o.
Proof.
  unfold part_objs. destruct (qp_bitmap p), (qp_sb p); set_unfold; intros; destruct_or?; subst;
    done || (simpl; lia).
Qed.

Lemma queue_obj_from_weaken h i j o : i <= j -> queue_obj_from h j o -> queue_obj_from h i o.
Proof. destruct o; simpl; intuition lia. Qed.

Lemma objs_from_spec h i ps o : o ∈ objs_from h i ps -> queue_obj_from h i o.
Proof.
  revert i. induction ps as [|p ps IH]; intros i; simpl; [set_solver|].
  rewrite elem_of_union. intros [Ho|Ho]; [by apply part_objs_from in Ho|].
  apply (queue_obj_from_weaken _ _ (i + 1)); [lia|auto].
Qed.

(** No object of a queue of [h] is in [H]. *)
Definition no_queue_objs (h : Z) (H : gset object) : Prop :=
  forall o, o ∈ H -> ~ queue_obj_from h 0 o.

Section code.
Context `{A : UbbdAbi} `{K : KernelApi} `{M : KernelMem} `{IL : KernelIdrLaws} `{D : KernelIda}.
Implicit Types (s : driver) (km : kmem).

(** Destroying frees no string twice, and gives no page back. *)
Definition slot_named (sl : ubbd_queue * queue_parts) : Prop := ki_name (qp_info sl.2) <> NAME_FREED.
Definition slot_clean (sl : ubbd_queue * queue_parts) : Prop :=
  data_pages_array (q_pool sl.1) = ∅ /\ slot_named sl.

(** The allocator after the destruction of queues. *)
Definition release_slot (sl : ubbd_queue * queue_parts) km : kmem :=
  if qp_bitmap sl.2 then (ubbd_page_release (q_pool sl.1) km).2 else km.
Definition release_slots (sls : list (ubbd_queue * queue_parts)) km : kmem :=
  foldl (fun km sl => release_slot sl km) km sls.

Definition same_ids s s' : Prop := dv_ids s' = dv_ids s /\ dv_modrefs s' = dv_modrefs s.

(** From [s], the queues [sls] of indices from [i] have been set up. *)
Record grown (h i : Z) (sls : list (ubbd_queue * queue_parts)) s s' : Prop := {
  gr_clean : Forall slot_clean sls;
  gr_heap : dv_heap s' = objs_from h i sls.*2 ∪ dv_heap s;
  gr_kring : kreg (dv_kring s) (qp_info <$> sls.*2) (dv_kring s');
  gr_same : same_ids s s';
}.

(** The same, for queues that may hold pages. *)
Record grown_named (h i : Z) (sls : list (ubbd_queue * queue_parts)) s s' : Prop := {
  gn_named : Forall slot_named sls;
  gn_heap : dv_heap s' = objs_from h i sls.*2 ∪ dv_heap s;
  gn_kring : kreg (dv_kring s) (qp_info <$> sls.*2) (dv_kring s');
  gn_same : same_ids s s';
}.

Lemma clean_named sls : Forall slot_clean sls -> Forall slot_named sls.
Proof. intros H. eapply Forall_impl; [exact H|]. by intros sl [_ ?]. Qed.

Lemma grown_weaken h i sls s s' : grown h i sls s s' -> grown_named h i sls s s'.
Proof. intros [Hc ? ? ?]. split; [by apply clean_named|done..]. Qed.

Lemma driver_eta s : mk_driver (dv_ids s) (dv_kring s) (dv_heap s) (dv_modrefs s) = s.
Proof. by destruct s. Qed.

Lemma page_release_empty (p : data_pool) km :
  data_pages_array p = ∅ -> (ubbd_page_release p km).2 = km.
Proof. intros E. unfold ubbd_page_release. simpl. by rewrite E, map_filter_empty, map_to_list_empty. Qed.

Lemma release_slots_clean sls km : Forall slot_clean sls -> release_slots sls km = km.
Proof.
  intros H. induction H as [|sl sls [Hp _] _ IH]; [done|]. unfold release_slots in *. cbn [foldl].
  unfold release_slot at 2. destruct (qp_bitmap sl.2); [|done]. by rewrite page_release_empty.
Qed.

Lemma hfree_own (o : object) s H :
  dv_heap s = {[o]} ∪ H -> o ∉ H -> hfree o s = Ok (set_dv_heap H s).
Proof.
  intros E Ho. unfold hfree. rewrite decide_True by set_solver. do 2 f_equal. set_solver.
Qed.

Lemma destroy_queue_spec h i sl infos s km H k :
  slot_named sl -> dv_heap s = part_objs h i sl.2 ∪ H ->
  (forall o, o ∈ part_objs h i sl.2 -> o ∉ H) -> kreg k (qp_info sl.2 :: infos) (dv_kring s) ->
  exists k', ubbd_queue_destroy h i sl s km =
      Ok (mk_driver (dv_ids s) k' H (dv_modrefs s), release_slot sl km) /\
    kreg k infos k'.
Proof.
  intros Hn Hh Hd Hk. unfold slot_named in Hn. unfold release_slot. destruct sl as [q parts]. cbn [fst snd] in *.
  unfold ubbd_queue_destroy.
  destruct (kring_destroy_spec _ _ _ _ Hn Hk) as (info' & k' & E & Hk').
  rewrite E. cbn [obind]. exists k'. split; [|done].
  destruct (ubbd_page_release (q_pool q) km) as [p' km'] eqn:Er. cbn [fst snd].
  assert (OBJ_SB h i <> OBJ_BITMAP h i) by done.
  unfold hfree_ptr. unfold part_objs in *. destruct (qp_sb parts), (qp_bitmap parts).
  - assert (OBJ_SB h i ∉ H) by (apply Hd; set_solver). assert (OBJ_BITMAP h i ∉ H) by (apply Hd; set_solver).
    rewrite (hfree_own _ _ ({[OBJ_BITMAP h i]} ∪ H)) by (simpl; rewrite ?Hh; set_solver). cbn [obind].
    by rewrite (hfree_own _ _ H) by (simpl; set_solver).
  - assert (OBJ_SB h i ∉ H) by (apply Hd; set_solver).
    by rewrite (hfree_own _ _ H) by (simpl; rewrite ?Hh; set_solver).
  - assert (OBJ_BITMAP h i ∉ H) by (apply Hd; set_solver). cbn [obind].
    by rewrite (hfree_own _ _ H) by (simpl; rewrite ?Hh; set_solver).
  - cbn [obind]. unfold set_dv_kring. do 3 f_equal. rewrite Hh. set_solver.
Qed.

Lemma destroy_queues_from_spec h i sls s km H k :
  0 <= i -> Forall slot_named sls -> dv_heap s = objs_from h i sls.*2 ∪ H -> no_queue_objs h H ->
  kreg k (qp_info <$> sls.*2) (dv_kring s) ->
  destroy_queues_from h i sls s km =
    Ok (mk_driver (dv_ids s) k H (dv_modrefs s), release_slots sls km).
Proof.
  intros Hi Hc. revert i s km Hi. induction Hc as [|sl sls Hsl Hc IH]; intros i s km Hi Hh Hno Hk; simpl in *.
  - inversion Hk; subst. rewrite (left_id_L ∅ (∪)) in Hh. by rewrite <- Hh, driver_eta.
  - destruct (destroy_queue_spec h i sl (qp_info <$> sls.*2) s km (objs_from h (i + 1) sls.*2 ∪ H) k)
      as (k' & E & Hk'); try done.
    + rewrite Hh. set_solver.
    + intros o Ho. pose proof (part_objs_from _ _ _ _ Ho) as Hf. rewrite not_elem_of_union. split.
      * intros Ho2. apply objs_from_spec in Ho2. by apply part_objs_index in Ho.
      * intros Ho2. apply (Hno o Ho2). by apply (queue_obj_from_weaken _ _ i).
    + rewrite E. cbn [obind]. rewrite (IH (i + 1)); try done. lia.
Qed.

(** ** Creation *)

(** A queue as [ubbd_queue_create] leaves it. *)
Definition ready_queue (i n : Z) : ubbd_queue :=
  mk_queue _ i [] 0
    (mk_pool ∅ ∅ n 0 (data_pages_reserve n UBBD_KRING_DATA_RESERVE_PERCENT) RING_SIZE None [])
    (mk_ring _ (mk_sb UBBD_MAGIC UBBD_SB_VERSION UBBD_INFO_OFF UBBD_INFO_SIZE CMDR_OFF CMDR_SIZE 0 0
                  COMPR_OFF COMPR_SIZE 0 0) ∅ ∅ ∅)
    (u64 (n + Z.shiftr RING_SIZE PAGE_SHIFT)) false UBBD_QUEUE_KSTATUS_RUNNING [] 0 0.

(** Its parts: everything is allocated and its kring device, found under its
    minor, has one reference. *)
Record ready_parts (i n : Z) (p : queue_parts) : Prop := {
  rp_bitmap : qp_bitmap p = true;
  rp_sb : qp_sb p = true;
  rp_name : ki_name (qp_info p) = NAME_LIVE;
  rp_dev : is_Some (ki_dev (qp_info p));
  rp_size : qp_mem_size p = u64 (Z.shiftl (u64 (n + Z.shiftr RING_SIZE PAGE_SHIFT)) PAGE_SHIFT);
}.

Definition slot_ready (n i : Z) (sl : ubbd_queue * queue_parts) : Prop :=
  sl.1 = ready_queue i n /\ ready_parts i n sl.2.

(** The addresses the kernel gives to the kring devices of the queues from
    [i] are unused. *)
Definition handles_fresh (envs : Z -> queue_env) (i : Z) (k : kring_state) : Prop :=
  forall j hd, i <= j -> re_kzalloc (qe_register (envs j)) = Some hd -> ks_devs k !! hd = None.

Definition handles_distinct (envs : Z -> queue_env) : Prop :=
  forall i j hd, re_kzalloc (qe_register (envs i)) = Some hd ->
    re_kzalloc (qe_register (envs j)) = Some hd -> i = j.

Lemma grown_nil h i s : grown h i [] s s.
Proof. split; try done; [simpl; set_solver|constructor]. Qed.

Lemma grown_cons h i sl sls s1 s2 s3 :
  grown h i [sl] s1 s2 -> grown h (i + 1) sls s2 s3 -> grown h i (sl :: sls) s1 s3.
Proof.
  intros [C1 H1 K1 [I1 M1]] [C2 H2 K2 [I2 M2]]. simpl in *. split; simpl.
  - constructor; [by inversion C1|done].
  - rewrite H2, H1. set_solver.
  - by apply (kreg_app _ _ _ [qp_info sl.2] _ K1 K2).
  - split; congruence.
Qed.

Lemma queue_create_spec env h n i s :
  (forall hd, re_kzalloc (qe_register env) = Some hd -> ks_devs (dv_kring s) !! hd = None) ->
  exists ret sl s', ubbd_queue_create env h n (zeroed_slot i) s = Ok (ret, sl, s') /\
    grown h i [sl] s s' /\
    (ret = 0 -> slot_ready n i sl /\
       forall hd, ks_devs (dv_kring s) !! hd = None -> re_kzalloc (qe_register env) <> Some hd ->
         ks_devs (dv_kring s') !! hd = None).
Proof.
  intros Hfr. unfold ubbd_queue_create, zeroed_slot, ubbd_mgmt_need_fault.
  assert (- ENOMEM <> 0) by done.
  assert (forall infos, infos = [mk_info None NAME_NULL] -> kreg (dv_kring s) infos (dv_kring s)) as Hk0.
  { intros ? ->. apply kreg_none; [done|constructor]. }
  destruct (qe_bitmap_ok env); cbn [negb].
  2: { do 3 eexists. split; [done|]. split; [|done]. split; try done.
    - by repeat constructor.
    - simpl. set_solver.
    - by apply Hk0. }
  unfold ubbd_queue_sb_init, ubbd_mgmt_need_fault. destruct (qe_vzalloc_ok env); cbn [negb].
  2: { do 3 eexists. split; [done|]. split; [|done]. split; try done.
    - by repeat constructor.
    - simpl. set_solver.
    - by apply Hk0. }
  destruct (kring_init_spec (qe_register env) (qe_kasprintf_ok env) i (dv_kring s) Hfr)
    as (ret & info & k' & E & Hn & Hk & H0).
  cbn -[ubbd_queue_kring_init]. rewrite E. cbn [obind].
  destruct (Z.eqb_spec ret 0) as [->|Hr]; cbn [negb].
  - do 3 eexists. split; [done|]. split.
    + split; try done; [by repeat constructor|simpl; set_solver].
    + intros _. destruct (H0 eq_refl) as (hd & Eh & Ed & El & m & [Hf1 Hf2] & -> & _). split.
      * split; [done|]. split; simpl; try done; by rewrite Ed.
      * intros hd' Hhd' Hne. simpl. apply lookup_insert_None. split; [done|congruence].
  - do 3 eexists. split; [done|]. split; [|done].
    split; try done; [by repeat constructor|simpl; set_solver].
Qed.

Lemma create_queues_from_spec envs h n i todo s :
  handles_fresh envs i (dv_kring s) -> handles_distinct envs ->
  exists ret sls s', create_queues_from envs h n i todo s = Ok (ret, sls, s') /\
    grown h i sls s s' /\
    (ret = 0 -> length sls = todo /\
       forall j sl, sls !! j = Some sl -> slot_ready n (i + Z.of_nat j) sl).
Proof.
  intros Hf Hd. revert i s Hf. induction todo as [|todo IH]; intros i s Hf; cbn [create_queues_from].
  { do 3 eexists. split; [done|]. split; [apply grown_nil|done]. }
  destruct (queue_create_spec (envs i) h n i s) as (ret & sl & s1 & E & Hg & Hr).
  { intros hd. apply Hf. lia. }
  rewrite E. cbn [obind]. destruct (Z.eqb_spec ret 0) as [->|Hne]; cbn [negb].
  - destruct (Hr eq_refl) as [Hsl Hnew]. destruct (IH (i + 1) s1) as (ret' & sls & s2 & E2 & Hg2 & Hr2).
    + intros j hd Hj Hj'. apply Hnew; [apply (Hf j); [lia|done]|].
      intros Hi. pose proof (Hd i j hd Hi Hj'). lia.
    + rewrite E2. cbn [obind]. do 3 eexists. split; [done|]. split; [by eapply grown_cons|].
      intros Hz. destruct (Hr2 Hz) as [Hl Hs]. split; [simpl; lia|].
      intros [|j] sl' Hj; simpl in Hj; [injection Hj as <-; by rewrite Z.add_0_r|].
      replace (i + Z.of_nat (S j)) with (i + 1 + Z.of_nat j) by lia. by apply Hs.
  - do 3 eexists. split; [done|]. split; [|done]. eapply grown_cons; [done|].
    clear - IL. generalize (i + 1). clear i. induction todo as [|todo IH]; intros i; simpl; [apply grown_nil|].
    eapply grown_cons; [|apply IH]. split; try done.
    + by repeat constructor.
    + simpl. set_solver.
    + apply kreg_none; [done|constructor].
Qed.

Lemma destroy_grown h sls s0 s1 s km H :
  grown_named h 0 sls s0 s1 -> dv_heap s = dv_heap s1 -> dv_kring s = dv_kring s1 ->
  dv_heap s0 = {[OBJ_QUEUES h]} ∪ H -> no_queue_objs h H -> OBJ_QUEUES h ∉ H ->
  ubbd_dev_destroy_queues h sls s km =
    Ok (mk_driver (dv_ids s) (dv_kring s0) H (dv_modrefs s), release_slots sls km).
Proof.
  intros [Hc Hh Hk _] Es Ek H0 Hno Hq. unfold ubbd_dev_destroy_queues.
  rewrite (destroy_queues_from_spec h 0 sls s km (dv_heap s0) (dv_kring s0)); try done.
  - cbn [obind]. by rewrite (hfree_own _ _ H) by done.
  - by rewrite Es.
  - rewrite H0. intros o Ho. apply elem_of_union in Ho as [Ho|Ho]; [|by apply Hno].
    apply elem_of_singleton in Ho as ->. by intros [].
  - by rewrite Ek.
Qed.

(** Queues that were only created hold no page. *)
Lemma destroy_clean h sls s0 s1 s km H :
  grown h 0 sls s0 s1 -> dv_heap s = dv_heap s1 -> dv_kring s = dv_kring s1 ->
  dv_heap s0 = {[OBJ_QUEUES h]} ∪ H -> no_queue_objs h H -> OBJ_QUEUES h ∉ H ->
  ubbd_dev_destroy_queues h sls s km =
    Ok (mk_driver (dv_ids s) (dv_kring s0) H (dv_modrefs s), km).
Proof.
  intros Hg E1 E2 H0 Hno Hq. rewrite (destroy_grown h sls s0 s1 s km H); try done; [|by apply grown_weaken].
  rewrite release_slots_clean; [done|apply Hg].
Qed.

(** ** CPUs and hardware contexts *)

Lemma elem_of_cpumask_set c c' m : c' ∈ cpumask_set_cpu c m <-> c' = c \/ c' ∈ m.
Proof.
  unfold cpumask_set_cpu. case_decide; [naive_solver|].
  rewrite elem_of_app, list_elem_of_singleton. naive_solver.
Qed.

Lemma length_cpumask_set c m : (length (cpumask_set_cpu c m) <= S (length m))%nat.
Proof. unfold cpumask_set_cpu. case_decide; [lia|]. rewrite length_app. simpl. lia. Qed.

(** Nothing but the masks changes, and each gains the CPUs mapped to it. *)
Lemma init_cpumask_spec mq_map cpus qs :
  Forall (fun c => 0 <= mq_map c < Z.of_nat (length qs)) cpus ->
  exists qs', ubbd_init_queue_cpumask mq_map cpus qs = Ok qs' /\ length qs' = length qs /\
    forall i q, qs !! i = Some q -> exists m, qs' !! i = Some (set_q_cpumask m q) /\
      (length m <= length (q_cpumask q) + length cpus)%nat /\
      forall c, c ∈ m <-> c ∈ q_cpumask q \/ (c ∈ cpus /\ mq_map c = Z.of_nat i).
Proof.
  revert qs. induction cpus as [|c cpus IH]; intros qs Hc; cbn [ubbd_init_queue_cpumask].
  { exists qs. split; [done|]. split; [done|]. intros i q Hi. exists (q_cpumask q). split.
    - rewrite Hi. by destruct q.
    - split; [lia|]. intros c. rewrite elem_of_nil. naive_solver. }
  apply Forall_cons in Hc as [Hc1 Hc].
  destruct (lookup_lt_is_Some_2 qs (Z.to_nat (mq_map c))) as [q0 Hq0]; [lia|].
  rewrite Hq0. cbn [deref obind].
  destruct (IH (<[Z.to_nat (mq_map c) := set_q_cpumask (cpumask_set_cpu c (q_cpumask q0)) q0]> qs))
    as (qs' & E & El & Hs).
  { eapply Forall_impl; [exact Hc|]. intros x Hx. simpl. by rewrite length_insert. }
  exists qs'. split; [done|]. split; [by rewrite El, length_insert|]. intros i q Hi.
  destruct (decide (i = Z.to_nat (mq_map c))) as [->|Hne].
  - replace q0 with q in * by congruence. clear Hq0.
    edestruct Hs as (m & Hm & Hlm & Hin).
    { apply list_lookup_insert_eq. by apply lookup_lt_Some in Hi. }
    exists m. split; [exact Hm|]. pose proof (length_cpumask_set c (q_cpumask q)). simpl in Hlm |- *.
    split; [lia|]. intros c'. rewrite Hin. simpl. rewrite elem_of_cpumask_set, elem_of_cons.
    rewrite Z2Nat.id by lia. naive_solver.
  - edestruct (Hs i q) as (m & Hm & Hlm & Hin); [by rewrite list_lookup_insert_ne|].
    exists m. split; [done|]. simpl. split; [lia|]. intros c'. rewrite Hin, elem_of_cons.
    assert (mq_map c <> Z.of_nat i) by lia. naive_solver.
Qed.

Lemma init_hctxs_spec idxs d :
  Forall (fun i => 0 <= i < Z.of_nat (length (d_queues d))) idxs ->
  length (d_hctx d) = length (d_queues d) ->
  exists hctx, init_hctxs idxs d = Ok (set_d_hctx hctx d) /\ length hctx = length (d_hctx d) /\
    forall i, hctx !! i = if decide (Z.of_nat i ∈ idxs) then Some (Some (Z.of_nat i)) else d_hctx d !! i.
Proof.
  revert d. induction idxs as [|j idxs IH]; intros d Hi Hl; cbn [init_hctxs].
  { exists (d_hctx d). split; [by destruct d|]. split; [done|]. intros i.
    rewrite decide_False by (by apply not_elem_of_nil). done. }
  apply Forall_cons in Hi as [Hj Hi]. unfold ubbd_init_hctx.
  destruct (lookup_lt_is_Some_2 (d_queues d) (Z.to_nat j)) as [q Hq]; [lia|].
  rewrite Hq. cbn [deref obind].
  destruct (IH (set_d_hctx (<[Z.to_nat j := Some j]> (d_hctx d)) d)) as (hctx & E & El & Hh); try done.
  { simpl. by rewrite length_insert. }
  exists hctx. rewrite E. split; [done|]. simpl in El. rewrite length_insert in El. split; [done|].
  intros i. rewrite Hh. simpl. destruct (decide (Z.of_nat i ∈ idxs)) as [Hin|Hnin].
  - by rewrite decide_True by (by right).
  - destruct (decide (Z.of_nat i = j)) as [<-|Hne].
    + rewrite decide_True by (by left). rewrite Nat2Z.id, list_lookup_insert_eq; [done|lia].
    + rewrite decide_False by (by rewrite not_elem_of_cons). rewrite list_lookup_insert_ne; [done|lia].
Qed.

(** ** Devices *)

(** The addresses the allocator gives out are not in use. *)
Definition env_fresh (env : create_env) (s : driver) : Prop :=
  forall h, ve_kzalloc env = Some h ->
    (forall o, o ∈ dv_heap s -> owner o <> h) /\
    handles_fresh (ve_queues env) 0 (dv_kring s) /\ handles_distinct (ve_queues env).

(** The objects of a device that is up, its disk apart. *)
Definition device_objs (h : Z) (ps : list queue_parts) : gset object :=
  {[OBJ_DEBUGFS h; OBJ_TASK_WQ h]} ∪ (objs_from h 0 ps ∪ {[OBJ_QUEUES h; OBJ_DEV h]}).

(** [s] is [s0] with the device [o] up and the objects [X] of its disk. *)
Record up (s0 : driver) (o : device_obj) (s : driver) (X : gset object) : Prop := {
  up_owner x : x ∈ dv_heap s0 -> owner x <> o_h o;
  up_disk x : x ∈ X -> x = OBJ_TAG_SET (o_h o) \/ x = OBJ_DISK (o_h o);
  up_heap : dv_heap s = device_objs (o_h o) (o_parts o) ∪ (X ∪ dv_heap s0);
  up_kring : kreg (dv_kring s0) (qp_info <$> o_parts o) (dv_kring s);
  up_named : Forall slot_named (o_slots o);
  up_len : length (d_queues (o_dev o)) = length (o_parts o);
  up_id : d_dev_id (o_dev o) ∉ dv_ids s0;
  up_ids : dv_ids s = {[d_dev_id (o_dev o)]} ∪ dv_ids s0;
  up_modrefs : dv_modrefs s = dv_modrefs s0 + 1;
}.

Lemma o_slots_parts o :
  length (d_queues (o_dev o)) = length (o_parts o) -> (o_slots o).*2 = o_parts o.
Proof. intros H. unfold o_slots. apply snd_zip. lia. Qed.

Lemma destroy_up s0 o s X km :
  up s0 o s X ->
  ubbd_dev_destroy o s km = Ok (set_dv_heap (X ∪ dv_heap s0) s0, release_slots (o_slots o) km).
Proof.
  intros [Ho Hx Hh Hk Hc Hl Hi His Hm]. set (h := o_h o) in *. unfold ubbd_dev_destroy. fold h.
  assert (forall x, x ∈ X ∪ dv_heap s0 -> owner x <> h \/ x = OBJ_TAG_SET h \/ x = OBJ_DISK h) as HX.
  { intros x [Hin|Hin]%elem_of_union; [right; by apply Hx|left; by apply Ho]. }
  assert (forall x, owner x = h -> x <> OBJ_TAG_SET h -> x <> OBJ_DISK h -> x ∉ X ∪ dv_heap s0) as HnX.
  { intros x Hxo H1 H2 Hin. destruct (HX x Hin) as [?|[?|?]]; done. }
  assert (forall x, x ∈ objs_from h 0 (o_parts o) -> queue_obj_from h 0 x) as Hq
    by (intros x; apply objs_from_spec).
  set (Q := objs_from h 0 (o_parts o) ∪ {[OBJ_QUEUES h; OBJ_DEV h]}) in *.
  assert (OBJ_DEBUGFS h ∉ {[OBJ_TASK_WQ h]} ∪ (Q ∪ (X ∪ dv_heap s0))) as N1.
  { unfold Q. intros Hin. set_unfold in Hin. destruct_or?; try done; try by apply Hq in Hin.
    - apply (HnX (OBJ_DEBUGFS h)); [done..|set_solver].
    - apply (HnX (OBJ_DEBUGFS h)); [done..|set_solver]. }
  assert (OBJ_TASK_WQ h ∉ Q ∪ (X ∪ dv_heap s0)) as N2.
  { unfold Q. intros Hin. set_unfold in Hin. destruct_or?; try done; try by apply Hq in Hin.
    - apply (HnX (OBJ_TASK_WQ h)); [done..|set_solver].
    - apply (HnX (OBJ_TASK_WQ h)); [done..|set_solver]. }
  rewrite (hfree_own _ _ ({[OBJ_TASK_WQ h]} ∪ (Q ∪ (X ∪ dv_heap s0)))); [|..|exact N1].
  2: { rewrite Hh. unfold device_objs. fold Q. by rewrite <- !(assoc_L (∪)). }
  cbn [obind]. rewrite (hfree_own _ _ (Q ∪ (X ∪ dv_heap s0))) by done. cbn [obind].
  set (H := {[OBJ_DEV h]} ∪ (X ∪ dv_heap s0)).
  set (s1 := set_dv_heap ({[OBJ_QUEUES h]} ∪ H) s0).
  assert (OBJ_QUEUES h ∉ H) as N3.
  { unfold H. intros Hin. set_unfold in Hin. destruct Hin as [?|Hin]; [done|].
    apply (HnX (OBJ_QUEUES h)); [done..|set_solver]. }
  rewrite (destroy_grown h _ s1 (mk_driver (dv_ids s0) (dv_kring s) (Q ∪ (X ∪ dv_heap s0)) (dv_modrefs s0))
    _ km H); try done.
  - cbn [obind set_dv_heap dv_heap dv_ids dv_kring dv_modrefs set_dv_ids].
    rewrite (hfree_own _ _ (X ∪ dv_heap s0)).
    + cbn [obind]. unfold set_dv_heap, set_dv_modrefs, set_dv_ids. simpl. rewrite Hm, His.
      rewrite Z.add_simpl_r. do 3 f_equal. set_solver.
    + done.
    + by apply HnX.
  - split; try done.
    + cbn [dv_heap set_dv_heap s1]. rewrite o_slots_parts by done. unfold Q, H.
      by rewrite <- !(assoc_L (∪)).
    + simpl. by rewrite o_slots_parts.
  - unfold H. intros x Hin Hf. set_unfold in Hin. destruct Hin as [->|Hin]; [done|].
    apply (HnX x); [destruct x; simpl in Hf; naive_solver|destruct x; done..|set_solver].
Qed.

(** The fields that do not identify the device may change. *)
Lemma up_same s0 o o' s X :
  up s0 o s X -> o_h o' = o_h o -> o_parts o' = o_parts o -> d_dev_id (o_dev o') = d_dev_id (o_dev o) ->
  length (d_queues (o_dev o')) = length (d_queues (o_dev o)) -> up s0 o' s X.
Proof.
  intros Hu Eh Ep Ei El. pose proof (up_named _ _ _ _ Hu) as Hn.
  split; rewrite ?Eh, ?Ep, ?Ei, ?El; try apply Hu.
  apply Forall_lookup. intros i [q' p] Hi. unfold o_slots in Hi. rewrite Ep in Hi.
  apply lookup_zip_with_Some in Hi as (q1 & p1 & [= <- <-] & Hq1 & Hp1).
  destruct (lookup_lt_is_Some_2 (d_queues (o_dev o)) i) as [q Hq].
  { rewrite <- El. by eapply lookup_lt_Some. }
  rewrite Forall_lookup in Hn. apply (Hn i (q, p)). unfold o_slots. apply lookup_zip_with_Some. eauto.
Qed.

(** No queue of the device holds a page. *)
Definition no_pages (o : device_obj) : Prop :=
  Forall (fun q => data_pages_array (q_pool q) = ∅) (d_queues (o_dev o)).

Lemma no_pages_release s0 o s X km : up s0 o s X -> no_pages o -> release_slots (o_slots o) km = km.
Proof.
  intros Hu Hp. apply release_slots_clean. apply Forall_lookup. intros i [q p] Hi.
  pose proof (up_named _ _ _ _ Hu) as Hn. rewrite Forall_lookup in Hn. split; [|by apply (Hn i)].
  unfold o_slots in Hi. apply lookup_zip_with_Some in Hi as (q1 & p1 & [= <- <-] & Hq & _).
  unfold no_pages in Hp. rewrite Forall_lookup in Hp. by apply (Hp i).
Qed.

(** A device as [ubbd_dev_create] returns it. *)
Record just_created (env : create_env) (opts : ubbd_dev_add_opts) (o : device_obj) : Prop := {
  jc_h : ve_kzalloc env = Some (o_h o);
  jc_id : 0 <= d_dev_id (o_dev o) < 2 ^ 16;
  jc_len : length (d_queues (o_dev o)) = Z.to_nat (ao_num_queues opts);
  jc_ready i sl : o_slots o !! i = Some sl -> slot_ready (ao_data_pages opts) (Z.of_nat i) sl;
  jc_dev : o_dev o = set_d_hctx (replicate (length (d_queues (o_dev o))) None)
    (set_d_queues (d_queues (o_dev o)) (set_d_dev_id (d_dev_id (o_dev o)) (__ubbd_dev_create (o_h o))));
}.

Lemma just_created_parts env opts o i p :
  just_created env opts o -> length (d_queues (o_dev o)) = length (o_parts o) ->
  o_parts o !! i = Some p -> ready_parts (Z.of_nat i) (ao_data_pages opts) p.
Proof.
  intros Hj Hl Hp. destruct (lookup_lt_is_Some_2 (d_queues (o_dev o)) i) as [q Hi].
  { rewrite Hl. by eapply lookup_lt_Some. }
  apply (jc_ready _ _ _ Hj i (q, p)). unfold o_slots. apply lookup_zip_with_Some. eauto.
Qed.

Lemma just_created_queue env opts o i q :
  just_created env opts o -> length (d_queues (o_dev o)) = length (o_parts o) ->
  d_queues (o_dev o) !! i = Some q -> q = ready_queue (Z.of_nat i) (ao_data_pages opts).
Proof.
  intros Hj Hl Hi. destruct (lookup_lt_is_Some_2 (o_parts o) i) as [p Hp].
  { rewrite <- Hl. by eapply lookup_lt_Some. }
  apply (jc_ready _ _ _ Hj i (q, p)). unfold o_slots. apply lookup_zip_with_Some. eauto.
Qed.

Lemma just_created_no_pages env opts o :
  just_created env opts o -> length (d_queues (o_dev o)) = length (o_parts o) -> no_pages o.
Proof.
  intros Hj Hl. apply Forall_lookup. intros i q Hi. by rewrite (just_created_queue _ _ _ _ _ Hj Hl Hi).
Qed.

Lemma no_queue_objs_dev h (H : gset object) :
  (forall x, x ∈ H -> owner x <> h) -> no_queue_objs h ({[OBJ_DEV h]} ∪ H).
Proof.
  intros Ho x [Hin|Hin]%elem_of_union Hq; [apply elem_of_singleton in Hin as ->; done|].
  apply (Ho x Hin). destruct x; simpl in *; naive_solver.
Qed.

Lemma owner_not (H : gset object) h x : (forall y, y ∈ H -> owner y <> h) -> owner x = h -> x ∉ H.
Proof. intros Ho Hx Hin. by apply (Ho x). Qed.

Context `{DL : !KernelIdaLaws D}.

Lemma create_queues_spec kc envs h num n s km H :
  handles_fresh envs 0 (dv_kring s) -> handles_distinct envs ->
  dv_heap s = {[OBJ_DEV h]} ∪ H -> (forall x, x ∈ H -> owner x <> h) ->
  exists ret sls s', ubbd_dev_create_queues kc envs h num n s km = Ok (ret, sls, s', km) /\
    ((ret <> 0 /\ s' = s) \/
     (ret = 0 /\ grown h 0 sls (halloc (OBJ_QUEUES h) s) s' /\ length sls = Z.to_nat num /\
      forall j sl, sls !! j = Some sl -> slot_ready n (Z.of_nat j) sl)).
Proof.
  intros Hf Hd Hh Ho. unfold ubbd_dev_create_queues. destruct kc; cbn [negb].
  2: { do 3 eexists. split; [done|]. by left. }
  destruct (create_queues_from_spec envs h n 0 (Z.to_nat num) (halloc (OBJ_QUEUES h) s))
    as (ret & sls & s1 & E & Hg & Hr); [done..|].
  rewrite E. cbn [obind]. destruct (Z.eqb_spec ret 0) as [->|Hne]; cbn [negb].
  - destruct (Hr eq_refl) as [Hl Hs]. do 3 eexists. split; [done|]. right. done.
  - rewrite (destroy_clean h sls (halloc (OBJ_QUEUES h) s) s1 s1 km (dv_heap s)); try done.
    + cbn [obind]. do 3 eexists. split; [done|]. left. split; [done|].
      destruct Hg as [_ _ _ [-> ->]]. simpl. by rewrite driver_eta.
    + rewrite Hh. by apply no_queue_objs_dev.
    + rewrite Hh. intros [Hin|Hin]%elem_of_union; [by apply elem_of_singleton in Hin|].
      by apply (Ho _ Hin).
Qed.

Lemma create_spec env opts s km :
  env_fresh env s ->
  exists r s', ubbd_dev_create env opts s km = Ok (r, s', km) /\
    match r with
    | None => s' = s
    | Some o => up s o s' ∅ /\ just_created env opts o
    end.
Proof.
  intros Hf. unfold ubbd_dev_create, ubbd_mgmt_need_fault.
  destruct (ve_kzalloc env) as [h|] eqn:Eh; [|by do 2 eexists].
  destruct (Hf h Eh) as (Ho & Hk & Hd).
  assert (OBJ_DEV h ∉ dv_heap s) as Nd by (by eapply owner_not).
  assert (forall ids, set_dv_heap (dv_heap s) (mk_driver ids (dv_kring s) ({[OBJ_DEV h]} ∪ dv_heap s)
    (dv_modrefs s)) = mk_driver ids (dv_kring s) (dv_heap s) (dv_modrefs s)) as Eb by done.
  cbv zeta. set (id := ida_alloc_range _ _ _).
  destruct (Z.ltb_spec id 0) as [Hid|Hid].
  { rewrite (hfree_own _ _ (dv_heap s)) by done. cbn [obind]. do 2 eexists. split; [done|].
    unfold set_dv_heap, halloc. simpl. apply driver_eta. }
  destruct (ida_alloc_range_fresh _ _ _ Hid) as [Hr Hn]. fold id in Hr, Hn.
  change (minor_to_ubbd_dev_id (Z.shiftl 1 MINORBITS) - 1) with (2 ^ 16 - 1) in Hr.
  set (s1 := set_dv_ids _ _).
  assert (set_dv_ids (dv_ids s1 ∖ {[id]}) s1 = halloc (OBJ_DEV h) s) as Eids.
  { unfold s1, set_dv_ids, halloc, set_dv_heap. simpl. f_equal. simpl in Hn. set_solver. }
  destruct (create_queues_spec (ve_kcalloc_ok env) (ve_queues env) h (ao_num_queues opts)
    (ao_data_pages opts) s1 km (dv_heap s)) as (ret & sls & s2 & E & Hc); [done..|].
  rewrite E. cbn [obind]. destruct Hc as [[Hne ->]|(-> & Hg & Hl & Hs)].
  - rewrite (proj2 (Z.eqb_neq ret 0) Hne). cbn [negb]. rewrite Eids.
    rewrite (hfree_own _ _ (dv_heap s)) by done. cbn [obind]. do 2 eexists. split; [done|].
    unfold set_dv_heap, halloc. simpl. apply driver_eta.
  - change (0 =? 0) with true. cbn [negb]. destruct (ve_task_wq_ok env); cbn [negb].
    2: { rewrite (destroy_clean h sls (halloc (OBJ_QUEUES h) s1) s2 s2 km (dv_heap s1)); try done.
      - cbn [obind]. destruct Hg as [_ _ _ [Ei Em]]. rewrite Ei, Em.
        assert (mk_driver (dv_ids (halloc (OBJ_QUEUES h) s1)) (dv_kring (halloc (OBJ_QUEUES h) s1))
          (dv_heap s1) (dv_modrefs (halloc (OBJ_QUEUES h) s1)) = s1) as -> by done. rewrite Eids.
        rewrite (hfree_own _ _ (dv_heap s)) by done. cbn [obind]. do 2 eexists. split; [done|].
        unfold set_dv_heap, halloc. simpl. apply driver_eta.
      - by apply no_queue_objs_dev.
      - intros [Hin|Hin]%elem_of_union; [by apply elem_of_singleton in Hin|]. by apply (Ho _ Hin). }
    do 2 eexists. split; [done|]. simpl in Hn.
    assert (o_slots (mk_dobj h (set_d_hctx (replicate (length sls) None)
      (set_d_queues sls.*1 (set_d_dev_id id (__ubbd_dev_create h)))) sls.*2 0 0) = sls) as Esl
      by apply zip_fst_snd.
    destruct Hg as [Hcl Hh Hkr [Hi Hm]]. split.
    + split; simpl; try done; try (by rewrite ?length_fmap; try lia).
      * rewrite Hh. unfold device_objs. simpl. set_solver.
      * rewrite Esl. by apply clean_named.
      * by rewrite Hm.
    + split; simpl; try done; [lia|by rewrite length_fmap|by rewrite Esl|by rewrite length_fmap].
Qed.
End code.
