(* ===== verification/CreateProps.v ===== *)
(** * Properties of creation and destruction

    The theorems about [ubbd_queue_create], [ubbd_dev_create],
    [ubbd_dev_destroy] and [ubbd_dev_add_dev], each with a witness on a device
    of two queues. *)

From S2P Require Import Prelude Abi Ring Pages Request Queue PoolProps QueueProps Kring KringMap Device.
From S2P Require Import Lifecycle Create CreateInv.

Section properties.
Context `{AL : UbbdAbiLaws} `{KL : KernelApiLaws} `{ML : KernelMemLaws} `{IL : KernelIdrLaws}
  `{DL : KernelIdaLaws}.

(** A new queue, whatever its CPUs, is good once opened. *)
Lemma ready_queue_core (i n inode : Z) (m : list Z) (w : world) (F : gset Z) :
  0 <= n < 2 ^ 31 -> F ⊆ live (w_km w) ->
  let q' := ubbd_kring_dev_open inode (set_q_cpumask m (ready_queue i n)) in
  queue_inv q' w [] F [] /\ compr_wf (q_ring q') [].
Proof.
  intros Hn HF. pose proof cmdr_size_bound. pose proof cmdr_reserved_bound. pose proof compr_size_bound. split.
  - split; try done.
    + split; simpl; try done; [lia|by exists 0|constructor|]. change (total []) with 0. lia.
    + constructor.
    + intros t Ht. by apply elem_of_nil in Ht.
    + intros t1 t2 e1 e2 Ht. by apply elem_of_nil in Ht.
  - split; simpl; [done|lia|constructor].
Qed.

Lemma ready_queue_inv (i n inode : Z) (w : world) (F : gset Z) :
  0 <= n < 2 ^ 31 -> 0 <= RING_SIZE < 2 ^ 62 -> (PAGE_SIZE | RING_SIZE) -> F ⊆ live (w_km w) ->
  let q' := ubbd_kring_dev_open inode (ready_queue i n) in
  queue_inv q' w [] F [] /\ compr_wf (q_ring q') [] /\ q_inflight q' = [] /\
  q_status q' = UBBD_QUEUE_KSTATUS_RUNNING /\ layout_ok (q_pool q') /\
  q_mmap_pages q' * PAGE_SIZE = RING_SIZE + n * PAGE_SIZE.
Proof.
  intros Hn Hrs Hra HF. pose proof PAGE_SIZE_bound. pose proof page_shift_bound.
  destruct (ready_queue_core i n inode [] w F Hn HF) as [Hq Hc]. split_and!; try done. simpl. rewrite Z.shiftr_div_pow2 by lia. fold PAGE_SIZE. destruct Hra as [k Hkr].
    rewrite Hkr, Z.div_mul by lia. rewrite u64_small by nia. lia.
Qed.

(** C33: a queue that [ubbd_queue_create] reports as created is ready: once its
    kring device has been opened it satisfies the queue invariant with an empty
    command ring, an empty completion ring and nothing inflight, it is running,
    its rings and data pages are laid out as the fault handler reads them, its
    mapping has one page per ring page and data page, and the size it
    publishes for it in [mem[0]] is that many bytes. *)
Theorem created_queue_ready (env : queue_env) (h n i inode : Z) (s : driver) (w : world) (F : gset Z) :
  0 <= n < 2 ^ 31 -> 0 <= RING_SIZE < 2 ^ 62 -> (PAGE_SIZE | RING_SIZE) -> F ⊆ live (w_km w) ->
  (forall hd, re_kzalloc (qe_register env) = Some hd -> ks_devs (dv_kring s) !! hd = None) ->
  forall q parts s', ubbd_queue_create env h n (zeroed_slot i) s = Ok (0, (q, parts), s') ->
  let q' := ubbd_kring_dev_open inode q in
  queue_inv q' w [] F [] /\ compr_wf (q_ring q') [] /\ q_inflight q' = [] /\
  q_status q' = UBBD_QUEUE_KSTATUS_RUNNING /\ layout_ok (q_pool q') /\
  q_mmap_pages q' * PAGE_SIZE = RING_SIZE + n * PAGE_SIZE /\
  qp_mem_size parts = RING_SIZE + n * PAGE_SIZE.
Proof.
  intros Hn Hrs Hra HF Hfr q parts s' E.
  destruct (queue_create_spec env h n i s Hfr) as (ret & sl & s1 & E1 & _ & Hr).
  rewrite E in E1. injection E1 as <- <- <-. destruct (Hr eq_refl) as [[Eq Hp] _]. simpl in Eq, Hp. subst q.
  destruct (ready_queue_inv i n inode w F) as (H1 & H2 & H3 & H4 & H5 & H6); try done.
  split_and!; try done. rewrite (rp_size _ _ _ Hp). simpl in H6.
  pose proof PAGE_SIZE_bound. pose proof page_shift_bound.
  rewrite Z.shiftl_mul_pow2 by lia. fold PAGE_SIZE. rewrite H6. apply u64_small.
  assert (n * PAGE_SIZE < 2 ^ 31 * 2 ^ 16) by nia. lia.
Qed.

(** C17: [ubbd_dev_create] is all or nothing.  Whatever the kernel refuses (the
    device, the id, the array, any bitmap, ring, name, minor or kring device of
    any queue, the work queue) it does not fault; on failure the driver is
    exactly as before: ids, objects, kring devices and their minors, module
    references, pages.  On success the device has an id of its own, every queue
    is set up with its own index, and [ubbd_dev_destroy] brings the driver back
    to where it was. *)
Theorem create_all_or_nothing (env : create_env) (opts : ubbd_dev_add_opts) (s : driver) (km : kmem) :
  env_fresh env s ->
  exists r s', ubbd_dev_create env opts s km = Ok (r, s', km) /\
    match r with
    | None => s' = s
    | Some o =>
        (d_dev_id (o_dev o) ∉ dv_ids s) /\ 0 <= d_dev_id (o_dev o) < 2 ^ 16 /\
        dv_ids s' = {[d_dev_id (o_dev o)]} ∪ dv_ids s /\ dv_modrefs s' = dv_modrefs s + 1 /\
        length (d_queues (o_dev o)) = Z.to_nat (ao_num_queues opts) /\
        (forall i sl, o_slots o !! i = Some sl -> slot_ready (ao_data_pages opts) (Z.of_nat i) sl) /\
        ubbd_dev_destroy o s' km = Ok (s, km)
    end.
Proof.
  intros Hf. destruct (create_spec env opts s km Hf) as (r & s' & E & Hr).
  exists r, s'. split; [done|]. destruct r as [o|]; [|done]. destruct Hr as [Hu Hj].
  split_and!; try apply Hj; try apply Hu.
  rewrite (destroy_up s o s' ∅), (no_pages_release _ _ _ _ km Hu) by (done || (eapply just_created_no_pages; [exact Hj|apply Hu])).
  rewrite (left_id_L ∅ (∪)). by destruct s.
Qed.

(** What the block layer guarantees: its contexts and its map are of the
    hardware queues it was asked for. *)
Definition disk_env_ok (kenv : disk_env) (num : nat) : Prop :=
  Forall (fun i => 0 <= i < Z.of_nat num) (ke_hctxs kenv) /\
  Forall (fun c => 0 <= ke_map kenv c < Z.of_nat num) (ke_cpus kenv).

(** The objects of a disk. *)
Definition disk_objs (h : Z) : gset object := {[OBJ_DISK h; OBJ_TAG_SET h]}.

(** The queues of a device after the set-up of its disk. *)
Definition masks_set (kenv : disk_env) (qs qs' : list ubbd_queue) : Prop :=
  length qs' = length qs /\
  forall i q, qs !! i = Some q -> exists m, qs' !! i = Some (set_q_cpumask m q) /\
    (length m <= length (q_cpumask q) + length (ke_cpus kenv))%nat /\
    forall c, c ∈ m <-> c ∈ q_cpumask q \/ (c ∈ ke_cpus kenv /\ ke_map kenv c = Z.of_nat i).

Lemma init_disk_spec kenv s0 o s :
  up s0 o s ∅ -> disk_env_ok kenv (length (d_queues (o_dev o))) ->
  length (d_hctx (o_dev o)) = length (d_queues (o_dev o)) ->
  exists ret d s', ubbd_init_disk kenv (o_h o) (o_dev o) s = Ok (ret, d, s') /\
    ((ret <> 0 /\ d = o_dev o /\ s' = s /\ ~ (ke_tag_set kenv = 0 /\ ke_alloc_disk kenv = 0)) \/
     (ret = 0 /\ ke_tag_set kenv = 0 /\ ke_alloc_disk kenv = 0 /\ up s0 (set_o_dev d o) s' (disk_objs (o_h o)) /\
      exists hctx qs, masks_set kenv (d_queues (o_dev o)) qs /\
        (forall i, hctx !! i = if decide (Z.of_nat i ∈ ke_hctxs kenv) then Some (Some (Z.of_nat i))
                               else d_hctx (o_dev o) !! i) /\
        d = set_d_disk (Some (mk_disk DISK_ALLOCATED 0 false (init_limits (ke_default kenv))))
              (set_d_queues qs (set_d_hctx hctx (o_dev o))))).
Proof.
  intros Hu [Hh Hm] Hl. unfold ubbd_init_disk, ubbd_mgmt_need_fault.
  assert (OBJ_TAG_SET (o_h o) ∉ dv_heap s) as Nt.
  { rewrite (up_heap _ _ _ _ Hu). unfold device_objs. rewrite (left_id_L ∅ (∪)). intros Hin.
    set_unfold in Hin. destruct_or?; try done.
    - by apply objs_from_spec in Hin.
    - by apply (up_owner _ _ _ _ Hu _ Hin). }
  destruct (Z.eqb_spec (ke_tag_set kenv) 0) as [Et|Et]; cbn [negb].
  2: { do 3 eexists. split; [done|]. left. naive_solver. }
  destruct (Z.eqb_spec (ke_alloc_disk kenv) 0) as [Ed|Ed]; cbn [negb].
  2: { rewrite (hfree_own _ _ (dv_heap s)) by done. cbn [obind]. do 3 eexists. split; [done|]. left.
    unfold set_dv_heap, halloc. simpl. rewrite driver_eta. naive_solver. }
  destruct (init_hctxs_spec (ke_hctxs kenv) (o_dev o)) as (hctx & E1 & _ & Hhc); [done..|].
  rewrite E1. cbn [obind].
  destruct (init_cpumask_spec (ke_map kenv) (ke_cpus kenv) (d_queues (o_dev o))) as (qs & E2 & El & Hq);
    [done|].
  change (d_queues (set_d_hctx hctx (o_dev o))) with (d_queues (o_dev o)). rewrite E2. cbn [obind].
  do 3 eexists. split; [done|]. right. split_and!; try done.
  - apply (up_same _ o); try done.
    split; simpl; try apply Hu.
    + unfold disk_objs. set_solver.
    + rewrite (up_heap _ _ _ _ Hu). unfold disk_objs. set_solver.
  - by exists hctx, qs.
Qed.

Lemma dev_put_last s0 o s X km :
  up s0 o s X -> d_kref (o_dev o) = 1 ->
  dev_put o s km = Ok (None, set_dv_heap (X ∪ dv_heap s0) s0, release_slots (o_slots o) km).
Proof.
  intros Hu E. unfold dev_put, ubbd_dev_put. rewrite E. change (1 =? 1) with true.
  by rewrite (destroy_up s0 o s X) by done.
Qed.

(** A device that holds no page gives none back. *)
Lemma dev_put_clean s0 o s X km :
  up s0 o s X -> d_kref (o_dev o) = 1 -> no_pages o ->
  dev_put o s km = Ok (None, set_dv_heap (X ∪ dv_heap s0) s0, km).
Proof. intros Hu E Hp. by rewrite (dev_put_last s0 o s X), (no_pages_release s0 o s X). Qed.

(** The device that [ubbd_dev_add_dev] returns. *)
Record added (opts : ubbd_dev_add_opts) (kenv : disk_env) (o : device_obj) : Prop := {
  ad_prepared : prepared_device (o_dev o);
  ad_minor : minor_to_ubbd_dev_id (o_minor o) = d_dev_id (o_dev o) /\ 0 <= o_minor o < 2 ^ 20;
  ad_len : length (d_queues (o_dev o)) = Z.to_nat (ao_num_queues opts);
  ad_queue i q : d_queues (o_dev o) !! i = Some q -> exists m,
    q = set_q_cpumask m (ready_queue (Z.of_nat i) (ao_data_pages opts)) /\
    (length m <= length (ke_cpus kenv))%nat /\
    forall c, c ∈ m <-> c ∈ ke_cpus kenv /\ ke_map kenv c = Z.of_nat i;
  ad_parts i p : o_parts o !! i = Some p -> ready_parts (Z.of_nat i) (ao_data_pages opts) p;
  ad_hctx i : (i < Z.to_nat (ao_num_queues opts))%nat ->
    d_hctx (o_dev o) !! i = Some (if decide (Z.of_nat i ∈ ke_hctxs kenv) then Some (Z.of_nat i) else None);
  ad_mapped i r : d_hctx (o_dev o) !! i = Some (Some r) -> r = Z.of_nat i /\ r ∈ ke_hctxs kenv;
  ad_disk : d_disk (o_dev o) = Some (mk_disk DISK_ALLOCATED (ao_device_size opts / SECTOR_SIZE)
    (negb (Z.land (ao_dev_features opts) UBBD_ATTR_FLAGS_ADD_READONLY =? 0))
    (ubbd_dev_device_limits (ao_dev_features opts)));
  ad_timeout : o_io_timeout o = ao_io_timeout opts;
}.

Lemma minor_roundtrip id :
  0 <= id < 2 ^ 16 ->
  minor_to_ubbd_dev_id (ubbd_dev_id_to_minor id) = id /\ 0 <= ubbd_dev_id_to_minor id < 2 ^ 20.
Proof.
  intros Hid. unfold minor_to_ubbd_dev_id, ubbd_dev_id_to_minor, UBBD_SINGLE_MAJOR_PART_SHIFT.
  rewrite Z.shiftl_mul_pow2 by lia. rewrite s32_small by lia. rewrite Z.shiftr_div_pow2 by lia.
  rewrite Z.div_mul by lia. lia.
Qed.

Lemma intrans_zero d : d_status_flags d = 0 -> intrans d = false.
Proof. intros E. unfold intrans, ubbd_dev_status_flags_test. rewrite E. by rewrite Z.shiftr_0_l. Qed.

Lemma masks_set_ready kenv n qs qs' :
  masks_set kenv qs qs' -> (forall i q, qs !! i = Some q -> q = ready_queue (Z.of_nat i) n) ->
  forall i q, qs' !! i = Some q -> exists m, q = set_q_cpumask m (ready_queue (Z.of_nat i) n) /\
    (length m <= length (ke_cpus kenv))%nat /\ forall c, c ∈ m <-> c ∈ ke_cpus kenv /\ ke_map kenv c = Z.of_nat i.
Proof.
  intros [El Hq] Hr i q Hi. destruct (lookup_lt_is_Some_2 qs i) as [q0 Hi0].
  { rewrite <- El. by eapply lookup_lt_Some. }
  destruct (Hq _ _ Hi0) as (m & Hm & Hlm & Hin). exists m. rewrite (Hr _ _ Hi0) in Hm, Hlm, Hin.
  split; [congruence|]. split; [done|]. intros c. rewrite Hin. simpl. rewrite elem_of_nil. naive_solver.
Qed.

(** The result of [ubbd_dev_add_dev], on every path. *)
Lemma add_dev_spec (env : create_env) (kenv : disk_env) (opts : ubbd_dev_add_opts)
    (s : driver) (km : kmem) :
  env_fresh env s -> disk_env_ok kenv (Z.to_nat (ao_num_queues opts)) ->
  exists r s', ubbd_dev_add_dev env kenv opts s km = Ok (r, s', km) /\
    match r with
    | inr o => added opts kenv o /\ up s o s' (disk_objs (o_h o))
    | inl e => e < 0 /\ exists leaked, s' = set_dv_heap (leaked ∪ dv_heap s) s /\
        ((leaked = ∅ /\ ~ (ke_tag_set kenv = 0 /\ ke_alloc_disk kenv = 0 /\ ke_commit kenv <> 0)) \/
         (leaked = ∅ /\ exists s1, ubbd_dev_create env opts s km = Ok (None, s1, km)) \/
         (ke_tag_set kenv = 0 /\ ke_alloc_disk kenv = 0 /\ ke_commit kenv <> 0 /\
          exists h, ve_kzalloc env = Some h /\ leaked = disk_objs h))
    end.
Proof.
  intros Hf Hk. unfold ubbd_dev_add_dev. destruct (create_spec env opts s km Hf) as (r & s' & E & Hr).
  assert (forall s0, s0 = set_dv_heap (∅ ∪ dv_heap s0) s0) as Eid
    by (intros s0; rewrite (left_id_L ∅ (∪)); by destruct s0).
  rewrite E. cbn [obind]. destruct r as [o|].
  2: { subst s'. do 2 eexists. split; [done|]. split; [unfold ENOMEM; lia|]. exists ∅.
    split; [apply Eid|]. right; left. split; [done|]. by exists s. }
  destruct Hr as [Hu Hj]. unfold ubbd_mgmt_need_fault.
  set (o1 := mk_dobj (o_h o) (set_d_config (ao_device_size opts) (ao_dev_features opts) (o_dev o))
    (o_parts o) (o_minor o) (ao_io_timeout opts)).
  assert (forall mn t, up s (mk_dobj (o_h o) (o_dev o1) (o_parts o) mn t) s' ∅) as Hu1.
  { intros mn t. by apply (up_same _ o). }
  assert (no_pages o) as Hnp by (eapply just_created_no_pages; [exact Hj|apply Hu]).
  unfold ubbd_dev_device_setup.
  set (o2 := mk_dobj (o_h o1) (o_dev o1) (o_parts o1) (ubbd_dev_id_to_minor (d_dev_id (o_dev o1)))
    (o_io_timeout o1)).
  assert (d_kref (o_dev o1) = 1) as Ekref by (simpl; by rewrite (jc_dev _ _ _ Hj)).
  destruct (init_disk_spec kenv s o2 s') as (ret & d & s2 & E2 & Hr).
  { apply Hu1. }
  { simpl. by rewrite (jc_len _ _ _ Hj). }
  { simpl. rewrite (jc_dev _ _ _ Hj). simpl. by rewrite length_replicate. }
  match goal with |- context [ubbd_init_disk ?a ?b ?c ?e] =>
    change (ubbd_init_disk a b c e) with (ubbd_init_disk kenv (o_h o2) (o_dev o2) s') end.
  rewrite E2. cbn [obind].
  destruct Hr as [(Hne & -> & -> & Hno)|(-> & Et & Ed & Hu2 & hctx & qs & Hms & Hh & ->)].
  { rewrite (proj2 (Z.eqb_neq ret 0) Hne). cbn [negb obind]. rewrite (proj2 (Z.eqb_neq ret 0) Hne).
    cbn [negb]. rewrite (dev_put_clean s _ s' ∅); [|apply Hu1|exact Ekref|exact Hnp]. cbn [obind]. do 2 eexists. split; [done|].
    split; [unfold EINVAL; lia|]. exists ∅. split; [done|]. left. naive_solver. }
  change (0 =? 0) with true. cbn [negb o_dev set_o_dev d_disk set_d_disk deref obind].
  destruct (Z.eqb_spec (ke_commit kenv) 0) as [Ec|Ec]; cbn [negb].
  - do 2 eexists. split; [done|]. split.
    + pose proof (jc_dev _ _ _ Hj) as Ej. split; simpl; try done.
      * rewrite Ej. split_and!; try done; [by apply intrans_zero|by eexists].
      * apply minor_roundtrip, Hj.
      * destruct Hms as [-> _]. apply Hj.
      * eapply masks_set_ready; [exact Hms|]. intros i q Hi. eapply just_created_queue; try done. apply Hu.
      * intros i p Hp. apply (just_created_parts env opts o); [done|apply Hu|done].
      * intros i Hi. rewrite Hh. simpl. case_decide; [done|]. rewrite Ej. simpl.
        rewrite lookup_replicate_2; [done|]. by rewrite (jc_len _ _ _ Hj).
      * intros i r Hi. rewrite Hh in Hi. case_decide; [by injection Hi as <-|].
        simpl in Hi. rewrite Ej in Hi. by apply lookup_replicate in Hi as [? _].
    + by apply (up_same _ _ _ _ _ Hu2).
  - rewrite (dev_put_clean s _ s2 (disk_objs (o_h o))); [|..|exact Ekref|].
    + cbn [obind]. do 2 eexists. split; [done|]. split; [unfold EINVAL; lia|].
      eexists. split; [done|]. right; right. split_and!; try done. exists (o_h o).
      split; [apply Hj|done].
    + by apply (up_same _ _ _ _ _ Hu2).
    + apply Forall_lookup. intros i q Hi. simpl in Hi.
      destruct (masks_set_ready kenv (ao_data_pages opts) _ _ Hms) with (i := i) (q := q) as (m & -> & _);
        [|done|done]. intros j q0 Hj0. eapply just_created_queue; try done. apply Hu.
Qed.

(** C27: [ubbd_dev_add_dev] delivers a prepared device or an error.  It never
    faults.  The device it returns is in the state the life cycle starts from,
    with a minor that identifies it, every queue ready with exactly the CPUs
    mapped to it, every hardware context of the block layer on its own queue,
    and the capacity, read-only mark and limits the options ask for.  On an
    error everything is given back, with one exception: when the block layer
    refuses the limits, the disk and its tag set are left behind although the
    device is gone. *)
Theorem add_dev_prepares_or_unwinds (env : create_env) (kenv : disk_env) (opts : ubbd_dev_add_opts)
    (s : driver) (km : kmem) :
  env_fresh env s -> disk_env_ok kenv (Z.to_nat (ao_num_queues opts)) ->
  exists r s', ubbd_dev_add_dev env kenv opts s km = Ok (r, s', km) /\
    match r with
    | inr o => added opts kenv o /\ up s o s' (disk_objs (o_h o))
    | inl e => e < 0 /\ exists leaked, s' = set_dv_heap (leaked ∪ dv_heap s) s /\
        ((leaked = ∅ /\ ~ (ke_tag_set kenv = 0 /\ ke_alloc_disk kenv = 0 /\ ke_commit kenv <> 0)) \/
         (leaked = ∅ /\ exists s1, ubbd_dev_create env opts s km = Ok (None, s1, km)) \/
         (ke_tag_set kenv = 0 /\ ke_alloc_disk kenv = 0 /\ ke_commit kenv <> 0 /\
          exists h, ve_kzalloc env = Some h /\ leaked = disk_objs h))
    end.
Proof. apply add_dev_spec. Qed.
End properties.

(** ** Witnesses *)

Definition demo_queue_env (i : Z) : queue_env := mk_queue_env true true true (mk_register_env (Some (200 + i)) 0 0).
Definition demo_env : create_env := mk_create_env (Some 100) true demo_queue_env true.
Definition demo_driver : driver := mk_driver {[0]} (mk_kring true {[0 := 7]} {[7 := mk_kdev 0 (Some 3) 1]} ∅ 0)
  {[OBJ_DEV 7]} 1.
Definition demo_opts : ubbd_dev_add_opts := mk_add_opts 0 8192 4 2 30.
Definition demo_limits : queue_limits := mk_limits false false 0 0 1 0.
Definition demo_disk_env (commit : Z) : disk_env :=
  mk_disk_env 0 0 [0; 1] demo_limits [0; 1; 2] (fun c => c mod 2) commit.

Lemma demo_env_fresh : env_fresh demo_env demo_driver.
Proof.
  intros h [= <-]. split_and!.
  - intros o Ho. simpl in Ho. apply elem_of_singleton in Ho as ->. done.
  - intros j hd Hj [= <-]. simpl. apply lookup_singleton_None. lia.
  - intros i j hd [= <-] [= E]. lia.
Qed.

Lemma demo_disk_env_ok c : disk_env_ok (demo_disk_env c) 2.
Proof.
  split; simpl; [repeat constructor; lia|].
  repeat constructor; match goal with |- context [?a mod 2] => pose proof (Z.mod_pos_bound a 2) end; lia.
Qed.

Lemma created_queue_ready_witness :
  exists q parts s', ubbd_queue_create (demo_queue_env 0) 100 4 (zeroed_slot 0) demo_driver =
      Ok (0, (q, parts), s') /\
    queue_inv (ubbd_kring_dev_open 1 q) demo_read_world [] demo_foreign [].
Proof.
  do 3 eexists. split; [reflexivity|].
  eapply (created_queue_ready (demo_queue_env 0) 100 4 0 1 demo_driver demo_read_world demo_foreign);
    [lia|simpl; lia|by exists 4|done| |reflexivity].
  intros hd [= <-]. reflexivity.
Defined.

Lemma create_all_or_nothing_witness :
  exists o s', ubbd_dev_create demo_env demo_opts demo_driver demo_km = Ok (Some o, s', demo_km) /\
    ubbd_dev_destroy o s' demo_km = Ok (demo_driver, demo_km).
Proof.
  destruct (create_all_or_nothing demo_env demo_opts demo_driver demo_km demo_env_fresh)
    as (r & s' & E & Hr).
  assert (match ubbd_dev_create demo_env demo_opts demo_driver demo_km with
          | Ok (Some _, _, _) => true | _ => false end = true) as Eb by (vm_compute; reflexivity).
  rewrite E in Eb. destruct r as [o|]; [exists o, s'; split; [exact E|apply Hr]|discriminate Eb].
Defined.

Lemma add_dev_prepares_or_unwinds_witness :
  exists o s', ubbd_dev_add_dev demo_env (demo_disk_env 0) demo_opts demo_driver demo_km =
      Ok (inr o, s', demo_km) /\ added demo_opts (demo_disk_env 0) o.
Proof.
  destruct (add_dev_prepares_or_unwinds demo_env (demo_disk_env 0) demo_opts demo_driver demo_km
    demo_env_fresh (demo_disk_env_ok 0)) as (r & s' & E & Hr).
  assert (match ubbd_dev_add_dev demo_env (demo_disk_env 0) demo_opts demo_driver demo_km with
          | Ok (inr _, _, _) => true | _ => false end = true) as Eb by (vm_compute; reflexivity).
  rewrite E in Eb. destruct r as [e|o]; [discriminate Eb|exists o, s'; split; [exact E|apply Hr]].
Defined.
