(* ===== verification/AllocDisk.v ===== *)
(** * The disk of older kernels

    Models the [HAVE_ALLOC_DISK] variant of [ubbd_init_disk], [ubbd_free_disk]
    and [ubbd_add_disk] ([src/src/ubbd_dev.c] 322-453), built for kernels whose
    disks and request queues are allocated apart.  The objects are the tag set,
    the disk and its request queue with the references on it; the device is
    the one of [Device]. *)

From S2P Require Import Prelude Abi Ring Pages Request Queue PoolProps Kring Device Create CreateInv CreateProps.

(** ** Objects *)

(** [b_disk]: the disk, and whether [disk->queue] is set.  [b_queue]: the
    request queue, with its references. *)
Record blk_objs : Type := mk_blk {
  b_tag_set : bool;
  b_disk : option bool;
  b_queue : option Z;
}.

Definition no_blk : blk_objs := mk_blk false None None.

(** What [add_disk] and the release of a disk with its last reference do to the
    references of the disk's queue. *)
Class GendiskApi := {
  add_disk_refs : Z -> Z;
  disk_release_refs : Z -> Z;
}.

(** [add_disk] takes one, the release drops one. *)
Class GendiskLaws `(G : GendiskApi) : Prop := {
  add_disk_refs_spec r : add_disk_refs r = r + 1;
  disk_release_refs_spec r : disk_release_refs r = r - 1;
}.

#[export] Instance demo_gendisk : GendiskApi := {|
  add_disk_refs r := r + 1;
  disk_release_refs r := r - 1;
|}.

#[export] Instance demo_gendisk_laws : GendiskLaws demo_gendisk.
Proof. by split. Qed.

Section code.
Context `{A : UbbdAbi} `{K : KernelApi} `{M : KernelMem} `{G : GendiskApi}.

(** A queue goes with its last reference. *)
Definition queue_refs (f : Z -> Z) (b : blk_objs) : outcome blk_objs :=
  let* r := deref (b_queue b) WILD_ACCESS in
  let r := f r in
  if r <? 0 then Fault DOUBLE_FREE
  else Ok (mk_blk (b_tag_set b) (b_disk b) (if r =? 0 then None else Some r)).

Definition blk_get_queue : blk_objs -> outcome blk_objs := queue_refs (fun r => r + 1).
Definition blk_put_queue : blk_objs -> outcome blk_objs := queue_refs (fun r => r - 1).

Definition blk_mq_free_tag_set (b : blk_objs) : outcome blk_objs :=
  if b_tag_set b then Ok (mk_blk false (b_disk b) (b_queue b)) else Fault DOUBLE_FREE.

(** The driver holds the only reference of the disk. *)
Definition put_disk (b : blk_objs) : outcome blk_objs :=
  let* has_queue := deref (b_disk b) DOUBLE_FREE in
  let* b := if (has_queue : bool) then queue_refs disk_release_refs b else Ok b in
  Ok (mk_blk (b_tag_set b) None (b_queue b)).

(** [alloc_disk_ok]: [alloc_disk].  [ke_alloc_disk] is the error of
    [blk_mq_init_queue], which initialises the hctxs. *)
Definition ubbd_init_disk (alloc_disk_ok : bool) (env : disk_env) (d : ubbd_device) (b : blk_objs)
  : outcome (Z * ubbd_device * blk_objs) :=
  if ubbd_mgmt_need_fault then Ok (- ENOMEM, d, b)
  else if negb alloc_disk_ok then Ok (- ENOMEM, d, b)
  else
    let b := mk_blk (b_tag_set b) (Some false) (b_queue b) in
    if ubbd_mgmt_need_fault then let* b := put_disk b in Ok (- ENOMEM, d, b)
    else if negb (ke_tag_set env =? 0) then let* b := put_disk b in Ok (ke_tag_set env, d, b)
    else
      let b := mk_blk true (b_disk b) (b_queue b) in
      if ubbd_mgmt_need_fault then
        let* b := blk_mq_free_tag_set b in let* b := put_disk b in Ok (- ENOMEM, d, b)
      else if negb (ke_alloc_disk env =? 0) then
        let* b := blk_mq_free_tag_set b in let* b := put_disk b in Ok (ke_alloc_disk env, d, b)
      else
        let b := mk_blk true (b_disk b) (Some 1) in
        let* d := init_hctxs (ke_hctxs env) d in
        let* qs := ubbd_init_queue_cpumask (ke_map env) (ke_cpus env) (d_queues d) in
        let d := set_d_queues qs d in
        let* b := blk_get_queue b in
        let b := mk_blk (b_tag_set b) (Some true) (b_queue b) in
        Ok (0, set_d_disk (Some (mk_disk DISK_ALLOCATED 0 false (init_limits (ke_default env)))) d, b).

(** [blk_cleanup_queue] drops the reference of [blk_mq_init_queue]. *)
Definition ubbd_free_disk (d : ubbd_device) (b : blk_objs) : outcome (ubbd_device * blk_objs) :=
  let* _ := deref (d_disk d) NULL_DEREF in
  let* b := blk_put_queue b in
  let* b := blk_mq_free_tag_set b in
  let* b := put_disk b in
  Ok (set_d_disk None d, b).

Definition ubbd_add_disk (d : ubbd_device) (b : blk_objs) : outcome (Z * ubbd_device * blk_objs) :=
  let* k := deref (d_disk d) NULL_DEREF in
  let* b := queue_refs add_disk_refs b in
  let d := set_d_disk (Some (mk_disk DISK_ADDED (dk_capacity k) (dk_ro k) (dk_limits k))) d in
  let* b := blk_put_queue b in
  Ok (0, d, b).
End code.

(** ** Properties *)

Section properties.
Context `{L : UbbdAbiLaws} `{KL : KernelApiLaws} `{ML : KernelMemLaws} `{IL : KernelIdrLaws}
  `{DL : KernelIdaLaws} `{GL : GendiskLaws}.
Implicit Types (d : ubbd_device) (b : blk_objs).

(** A disk: its tag set, and two references on its queue. *)
Definition disk_held : blk_objs := mk_blk true (Some true) (Some 2).

Lemma queue_refs_ok f t k r r' :
  f r = r' -> 0 <= r' -> queue_refs f (mk_blk t k (Some r)) = Ok (mk_blk t k (if r' =? 0 then None else Some r')).
Proof. intros <- Hr. unfold queue_refs. cbn [b_queue deref obind]. by rewrite (proj2 (Z.ltb_ge _ _) Hr). Qed.

Lemma free_disk_held d k : d_disk d = Some k -> ubbd_free_disk d disk_held = Ok (set_d_disk None d, no_blk).
Proof.
  intros Hd. unfold ubbd_free_disk, disk_held, blk_put_queue, put_disk, blk_mq_free_tag_set. rewrite Hd. cbn [deref obind].
  rewrite (queue_refs_ok _ _ _ 2 1) by (done || lia). cbn [obind b_tag_set b_disk b_queue deref].
  change (1 =? 0) with false. cbv iota.
  rewrite (queue_refs_ok _ _ _ 1 0); [done| |lia]. by rewrite disk_release_refs_spec.
Qed.

Lemma add_disk_held d k :
  d_disk d = Some k ->
  ubbd_add_disk d disk_held =
    Ok (0, set_d_disk (Some (mk_disk DISK_ADDED (dk_capacity k) (dk_ro k) (dk_limits k))) d, disk_held).
Proof.
  intros Hd. unfold ubbd_add_disk, disk_held, blk_put_queue. rewrite Hd. cbn [deref obind].
  rewrite (queue_refs_ok _ _ _ 2 3); [|by rewrite add_disk_refs_spec|lia]. cbn [obind].
  change (3 =? 0) with false. cbv iota. by rewrite (queue_refs_ok _ _ _ 3 2) by (done || lia).
Qed.

Lemma init_disk_variant (alloc_ok : bool) (env : disk_env) (o : device_obj) (s0 s : driver) :
  up s0 o s ∅ -> disk_env_ok env (length (d_queues (o_dev o))) ->
  length (d_hctx (o_dev o)) = length (d_queues (o_dev o)) ->
  exists ret d b, ubbd_init_disk alloc_ok env (o_dev o) no_blk = Ok (ret, d, b) /\
    (if alloc_ok then exists s', Create.ubbd_init_disk env (o_h o) (o_dev o) s = Ok (ret, d, s')
     else ret = - ENOMEM) /\
    (ret <> 0 -> d = o_dev o /\ b = no_blk) /\
    (ret = 0 -> b = disk_held /\ exists k, d_disk d = Some k).
Proof.
  intros Hu Hk Hl. unfold ubbd_init_disk, ubbd_mgmt_need_fault. destruct alloc_ok; cbn [negb].
  2: { do 3 eexists. split; [done|]. split; [done|]. split; done. }
  destruct (init_disk_spec env s0 o s Hu Hk Hl) as (ret & d & s' & E & Hr).
  unfold Create.ubbd_init_disk, ubbd_mgmt_need_fault in E |- *.
  destruct (Z.eqb_spec (ke_tag_set env) 0) as [Et|Et]; cbn [negb] in E |- *.
  2: { do 3 eexists. split; [done|]. split; [eauto|]. done. }
  destruct (Z.eqb_spec (ke_alloc_disk env) 0) as [Ea|Ea]; cbn [negb] in E |- *.
  2: { do 3 eexists. split; [done|]. inv_ok E. rewrite E0. cbn [obind]. split; [eauto|]. done. }
  destruct Hr as [(_ & _ & _ & Hn)|(-> & _ & _ & _ & hctx & qs & _ & _ & Ed)]; [by destruct Hn|].
  inv_ok E. inv_ok E. rewrite E0. cbn [obind]. rewrite E1. cbn -[ubbd_free_disk ubbd_add_disk].
  injection E as E _.
  do 3 eexists. split; [done|]. split; [eauto|]. split; [done|]. intros _. split; [done|by eexists].
Qed.

(** C28: the two variants of the disk agree.  On a device just created, when
    [alloc_disk] succeeds the variant for older kernels returns what the other
    one returns and leaves the device the same; when it fails the variant
    returns -ENOMEM.  After an error the device is as it was and nothing of the
    block layer is held; after a success, freeing the disk, whether it has been
    added or not, gives everything back: nothing is freed twice or left
    behind. *)
Theorem alloc_disk_variant (alloc_ok : bool) (cenv : create_env) (env : disk_env) (opts : ubbd_dev_add_opts)
    (s s' : driver) (km km' : kmem) (o : device_obj) :
  env_fresh cenv s -> disk_env_ok env (Z.to_nat (ao_num_queues opts)) ->
  ubbd_dev_create cenv opts s km = Ok (Some o, s', km') ->
  exists ret d b, ubbd_init_disk alloc_ok env (o_dev o) no_blk = Ok (ret, d, b) /\
    (if alloc_ok then exists s2, Create.ubbd_init_disk env (o_h o) (o_dev o) s' = Ok (ret, d, s2)
     else ret = - ENOMEM) /\
    (ret <> 0 -> d = o_dev o /\ b = no_blk) /\
    (ret = 0 -> ubbd_free_disk d b = Ok (set_d_disk None d, no_blk) /\
       exists d1 b1, ubbd_add_disk d b = Ok (0, d1, b1) /\
         (exists k, d_disk d1 = Some k /\ dk_phase k = DISK_ADDED) /\
         ubbd_free_disk d1 b1 = Ok (set_d_disk None d, no_blk)).
Proof.
  intros Hf Hk E. destruct (create_spec cenv opts s km Hf) as (r & s1 & E1 & Hr). rewrite E in E1. injection E1 as <- <- ->.
  destruct Hr as [Hu Hj].
  destruct (init_disk_variant alloc_ok env o s s' Hu) as (ret & d & b & E2 & Hv & Herr & Hok).
  - by rewrite (jc_len _ _ _ Hj).
  - rewrite (jc_dev _ _ _ Hj). simpl. by rewrite length_replicate.
  - exists ret, d, b. split; [done|]. split; [done|]. split; [done|]. intros E0.
    destruct (Hok E0) as (-> & k & Hd). split; [by eapply free_disk_held|].
    do 2 eexists. split; [by eapply add_disk_held|]. split; [by eexists|]. by erewrite free_disk_held.
Qed.
End properties.

(** ** Witnesses *)

Definition demo_created : device_obj :=
  match ubbd_dev_create demo_env demo_opts demo_driver demo_km with
  | Ok (Some o, _, _) => o
  | _ => mk_dobj 0 (__ubbd_dev_create 0) [] 0 0
  end.

Lemma alloc_disk_variant_witness :
  exists d b, ubbd_init_disk true (demo_disk_env 0) (o_dev demo_created) no_blk = Ok (0, d, b) /\
    ubbd_free_disk d b = Ok (set_d_disk None d, no_blk).
Proof.
  destruct (create_spec demo_env demo_opts demo_driver demo_km demo_env_fresh) as (r & s1 & E & _).
  assert (r = Some demo_created) as ->.
  { assert (is_Some r) as [o ->].
    { assert (match ubbd_dev_create demo_env demo_opts demo_driver demo_km with Ok (Some _, _, _) => true | _ => false end
        = true) as Eb by (vm_compute; reflexivity).
      rewrite E in Eb. destruct r; [eauto|discriminate Eb]. }
    unfold demo_created. rewrite E. reflexivity. }
  destruct (alloc_disk_variant true demo_env (demo_disk_env 0) demo_opts demo_driver s1 demo_km demo_km demo_created
    demo_env_fresh (demo_disk_env_ok 0) E) as (ret & d & b & E1 & _ & _ & Hok).
  assert (match ubbd_init_disk true (demo_disk_env 0) (o_dev demo_created) no_blk with Ok (0, _, _) => true | _ => false end
    = true) as Eb by (vm_compute; reflexivity).
  rewrite E1 in Eb. assert (ret = 0) as -> by (destruct ret; [reflexivity|discriminate Eb..]).
  exists d, b. split; [exact E1|]. apply (Hok eq_refl).
Defined.
