(* ===== verification/Netlink.v ===== *)
(** * The management interface

    Models [src/src/ubbd_nl.c]: the messages the driver builds
    ([fill_ubbd_status], [fill_ubbd_list] and the size computations) and the
    handlers of the generic netlink commands, from the attributes of a request
    to the device operations and the reply.

    A handler runs to its end on the state of the whole driver: the list of
    devices, the devices that have left it but are still referenced, the
    driver-wide tables and the world the queues share. *)

From S2P Require Import Prelude Abi Ring Pages Request Queue Kring Device Create.

(** ** Messages *)

(** The attribute types and commands of [ubbd.h]. *)
Class UbbdAttrs := {
  UBBD_ATTR_RETVAL : Z;
  UBBD_ATTR_DEV_INFO : Z;
  UBBD_ATTR_DEV_LIST : Z;
  UBBD_STATUS_DEV_ID : Z;
  UBBD_STATUS_STATUS : Z;
  UBBD_STATUS_QUEUE_INFO : Z;
  UBBD_QUEUE_INFO_ITEM : Z;
  UBBD_QUEUE_INFO_KRING_ID : Z;
  UBBD_QUEUE_INFO_KRING_MAP_SIZE : Z;
  UBBD_QUEUE_INFO_B_PID : Z;
  UBBD_QUEUE_INFO_STATUS : Z;
  UBBD_QUEUE_INFO_CPU_LIST : Z;
  UBBD_QUEUE_INFO_CPU_ID : Z;
  UBBD_LIST_DEV_ID : Z;
  UBBD_CMD_ADD_DEV : Z;
  UBBD_CMD_STATUS : Z;
  UBBD_CMD_LIST : Z;
}.

(** The content of a message: attributes, and nests that open and close. *)
Inductive token : Type :=
| TAttr (ty v : Z)
| TOpen (ty : Z)
| TClose.

#[export] Instance token_eq_dec : EqDecision token.
Proof. solve_decision. Defined.

(** The message buffers of the kernel.  [skb_room] is the space left and
    [skb_toks] what a reader will find. *)
Class NetlinkApi := {
  skb : Type;
  nla_attr_size : Z -> Z;
  nla_total_size : Z -> Z;
  nla_total_size_64bit : Z -> Z;
  genlmsg_new : Z -> skb;                        (* when the allocation succeeds *)
  genlmsg_put_reply : Z -> skb -> option skb;
  nla_put : Z -> Z -> Z -> skb -> option skb;    (* type, payload size, value *)
  nla_put_64bit : Z -> Z -> skb -> option skb;
  nla_nest_start : Z -> skb -> option skb;
  nla_nest_end : skb -> skb;
  skb_room : skb -> Z;
  skb_toks : skb -> list token;
}.

Class NetlinkLaws `(N : NetlinkApi) : Prop := {
  nla_attr_size_spec n : 0 <= n -> nla_attr_size n = 4 + n;
  nla_total_size_spec n : 0 <= n -> nla_total_size n = (4 + n + 3) / 4 * 4;
  nla_total_size_64bit_spec n : 0 <= n -> nla_total_size n <= nla_total_size_64bit n <= nla_total_size n + 4;
  (** a fresh buffer takes its header and what it was sized for *)
  genlmsg_put_reply_spec n cmd : 0 <= n ->
    exists b, genlmsg_put_reply cmd (genlmsg_new n) = Some b /\ n <= skb_room b /\ skb_toks b = [];
  nla_put_spec ty n v b : 0 <= n -> nla_total_size n <= skb_room b ->
    exists b', nla_put ty n v b = Some b' /\
      skb_room b' = skb_room b - nla_total_size n /\ skb_toks b' = skb_toks b ++ [TAttr ty v];
  nla_put_64bit_spec ty v b : nla_total_size_64bit 8 <= skb_room b ->
    exists b', nla_put_64bit ty v b = Some b' /\
      skb_room b' = skb_room b - nla_total_size_64bit 8 /\ skb_toks b' = skb_toks b ++ [TAttr ty v];
  nla_nest_start_spec ty b : nla_total_size 0 <= skb_room b ->
    exists b', nla_nest_start ty b = Some b' /\
      skb_room b' = skb_room b - nla_total_size 0 /\ skb_toks b' = skb_toks b ++ [TOpen ty];
  nla_nest_end_spec b :
    skb_room (nla_nest_end b) = skb_room b /\ skb_toks (nla_nest_end b) = skb_toks b ++ [TClose];
}.

#[export] Instance demo_attrs : UbbdAttrs := {|
  UBBD_ATTR_RETVAL := 1; UBBD_ATTR_DEV_INFO := 2; UBBD_ATTR_DEV_LIST := 3;
  UBBD_STATUS_DEV_ID := 11; UBBD_STATUS_STATUS := 12; UBBD_STATUS_QUEUE_INFO := 13;
  UBBD_QUEUE_INFO_ITEM := 21; UBBD_QUEUE_INFO_KRING_ID := 22; UBBD_QUEUE_INFO_KRING_MAP_SIZE := 23;
  UBBD_QUEUE_INFO_B_PID := 24; UBBD_QUEUE_INFO_STATUS := 25; UBBD_QUEUE_INFO_CPU_LIST := 26;
  UBBD_QUEUE_INFO_CPU_ID := 27; UBBD_LIST_DEV_ID := 31;
  UBBD_CMD_ADD_DEV := 1; UBBD_CMD_STATUS := 5; UBBD_CMD_LIST := 8;
|}.

(** Buffers as their room and their tokens. *)
Definition demo_take (n : Z) (t : list token) (b : Z * list token) : option (Z * list token) :=
  if n <=? b.1 then Some (b.1 - n, b.2 ++ t) else None.

#[export] Instance demo_netlink : NetlinkApi := {|
  skb := Z * list token;
  nla_attr_size n := 4 + n;
  nla_total_size n := (4 + n + 3) / 4 * 4;
  nla_total_size_64bit n := (4 + n + 3) / 4 * 4;
  genlmsg_new n := (n, []);
  genlmsg_put_reply _ b := Some b;
  nla_put ty n v := demo_take ((4 + n + 3) / 4 * 4) [TAttr ty v];
  nla_put_64bit ty v := demo_take 12 [TAttr ty v];
  nla_nest_start ty := demo_take 4 [TOpen ty];
  nla_nest_end b := (b.1, b.2 ++ [TClose]);
  skb_room b := b.1;
  skb_toks b := b.2;
|}.

Lemma demo_take_spec n t b :
  n <= b.1 -> exists b', demo_take n t b = Some b' /\ b'.1 = b.1 - n /\ b'.2 = b.2 ++ t.
Proof. intros H. unfold demo_take. rewrite (proj2 (Z.leb_le _ _) H). by eexists. Qed.

#[export] Instance demo_netlink_laws : NetlinkLaws demo_netlink.
Proof.
  split; simpl; try done; intros; try lia; try (by apply demo_take_spec).
  exists (n, []). split_and!; simpl; lia || done.
Qed.

(** ** The driver as a whole *)

Section code.
Context `{A : UbbdAbi} `{K : KernelApi} `{M : KernelMem} `{I : KernelIdr} `{D : KernelIda}
  `{T : UbbdAttrs} `{N : NetlinkApi}.

(** A device with the works pending on its [task_wq]. *)
Abbreviation listed := (device_obj * list Z)%type.

Record system : Type := mk_system {
  sy_drv : driver;
  sy_list : list listed;       (* [ubbd_dev_list] *)
  sy_unlisted : list listed;   (* removed, still referenced *)
  sy_world : world;            (* its work list is that of no device *)
}.

(** ** Building messages *)

(** A filler writes into a buffer, or stops with an error number. *)
Definition filler : Type := skb -> outcome (Z + skb).

Definition fseq (f g : filler) : filler := fun b =>
  let* r := f b in
  match r with inl e => Ok (inl e) | inr b => g b end.

Definition fnil : filler := fun b => Ok (inr b).

Fixpoint fconcat (l : list filler) : filler :=
  match l with [] => fnil | f :: l => fseq f (fconcat l) end.

Definition or_emsgsize (o : option skb) : outcome (Z + skb) :=
  match o with Some b => Ok (inr b) | None => Ok (inl (- EMSGSIZE)) end.

Definition nla_put_s32 (ty v : Z) : filler := fun b => or_emsgsize (nla_put ty 4 v b).
Definition nla_put_u8 (ty v : Z) : filler := fun b => or_emsgsize (nla_put ty 1 v b).
Definition nla_put_u64_64bit (ty v : Z) : filler := fun b => or_emsgsize (nla_put_64bit ty v b).

(** A nest whose start is not checked: ending it writes through the pointer. *)
Definition nest_unchecked (ty : Z) (body : filler) : filler := fun b =>
  let start := nla_nest_start ty b in
  let* r := body (default b start) in
  match r with
  | inl e => Ok (inl e)
  | inr b => let* _ := deref start NULL_DEREF in Ok (inr (nla_nest_end b))
  end.

Definition nest_checked (ty : Z) (body : filler) : filler := fun b =>
  match nla_nest_start ty b with
  | None => Ok (inl (- EMSGSIZE))
  | Some b =>
      let* r := body b in
      match r with inl e => Ok (inl e) | inr b => Ok (inr (nla_nest_end b)) end
  end.

(** The result of the put of a CPU is not looked at. *)
Definition put_cpu (c : Z) : filler := fun b =>
  Ok (inr (default b (nla_put UBBD_QUEUE_INFO_CPU_ID 4 c b))).

Definition fill_queue_info_item (ks : kring_state) (sl : ubbd_queue * queue_parts) : filler :=
  let '(q, parts) := sl in
  nest_unchecked UBBD_QUEUE_INFO_ITEM (fun b =>
    let* hd := deref (ki_dev (qp_info parts)) NULL_DEREF in
    let* kd := deref (ks_devs ks !! hd) WILD_ACCESS in
    fconcat [
      nla_put_s32 UBBD_QUEUE_INFO_KRING_ID (kd_minor kd);
      nla_put_u64_64bit UBBD_QUEUE_INFO_KRING_MAP_SIZE (qp_mem_size parts);
      nla_put_s32 UBBD_QUEUE_INFO_B_PID (q_backend_pid q);
      nla_put_s32 UBBD_QUEUE_INFO_STATUS (q_status q);
      nest_unchecked UBBD_QUEUE_INFO_CPU_LIST (fconcat (map put_cpu (q_cpumask q)))] b).

Definition fill_ubbd_status_queue_info (ks : kring_state) (o : device_obj) : filler :=
  nest_unchecked UBBD_STATUS_QUEUE_INFO (fconcat (map (fill_queue_info_item ks) (o_slots o))).

(** An error of the queues is reported as -EMSGSIZE. *)
Definition fill_ubbd_status_detail (ks : kring_state) (o : device_obj) : filler :=
  fconcat [
    nla_put_s32 UBBD_STATUS_DEV_ID (d_dev_id (o_dev o));
    nla_put_u8 UBBD_STATUS_STATUS (d_status (o_dev o));
    fun b =>
      let* r := fill_ubbd_status_queue_info ks o b in
      match r with inl _ => Ok (inl (- EMSGSIZE)) | inr b => Ok (inr b) end].

Definition fill_ubbd_status (ks : kring_state) (o : device_obj) : filler :=
  if ubbd_mgmt_need_fault then fun _ => Ok (inl (- EMSGSIZE))
  else nest_checked UBBD_ATTR_DEV_INFO (fill_ubbd_status_detail ks o).

Definition fill_ubbd_list (ids : list Z) : filler :=
  nest_unchecked UBBD_ATTR_DEV_LIST (fconcat (map (nla_put_s32 UBBD_LIST_DEV_ID) ids)).

(** Sizes, in [size_t]. *)
Definition get_queue_msg_size (q : ubbd_queue) : Z :=
  let msg_size := nla_attr_size 4 in
  let msg_size := u64 (msg_size + (nla_attr_size 4 + nla_attr_size (8 + nla_attr_size 4))) in
  let msg_size := u64 (msg_size + nla_attr_size 4) in
  let msg_size := u64 (msg_size + nla_attr_size 4) in
  let cpulist_size := u64 (nla_attr_size 4 * Z.of_nat (length (q_cpumask q))) in
  u64 (msg_size + cpulist_size).

Definition get_status_msg_size (d : ubbd_device) : Z :=
  let msg_size := u64 (nla_attr_size 4 + nla_attr_size (1 + nla_attr_size 4)) in
  let msg_size := foldl (fun n q => u64 (n + get_queue_msg_size q)) msg_size (d_queues d) in
  nla_total_size msg_size.

(** What the kernel answers when a reply is built and sent. *)
Record reply_env : Type := mk_reply_env {
  ne_new_ok : bool;            (* [genlmsg_new] *)
  ne_reply : Z;                (* [genlmsg_reply] *)
}.

(** Header, body, return value, end: the message to send or the error. *)
Definition build_reply (cmd : Z) (body : filler) (b : skb) (no_head : Z) : outcome (Z + skb) :=
  match genlmsg_put_reply cmd b with
  | None => Ok (inl no_head)
  | Some b => fseq body (nla_put_s32 UBBD_ATTR_RETVAL 0) b
  end.

(** [ubbd_nl_reply_add_dev_done]: every failure before the reply is
    -EMSGSIZE.  The message is returned with the result. *)
Definition ubbd_nl_reply_add_dev_done (renv : reply_env) (ks : kring_state) (o : device_obj)
  : outcome (Z * option skb) :=
  let msg_size := get_status_msg_size (o_dev o) in
  let msg_size := u64 (msg_size + nla_total_size (nla_attr_size 4)) in
  let msg_size := u64 (msg_size + nla_total_size (nla_attr_size 4)) in
  if ubbd_mgmt_need_fault then Ok (- EMSGSIZE, None)
  else if negb (ne_new_ok renv) then Ok (- EMSGSIZE, None)
  else
    let* r := build_reply UBBD_CMD_ADD_DEV
                (nest_checked UBBD_ATTR_DEV_INFO (fill_ubbd_status_detail ks o))
                (genlmsg_new msg_size) (- EMSGSIZE) in
    match r with
    | inl _ => Ok (- EMSGSIZE, None)
    | inr b => Ok (ne_reply renv, Some b)
    end.

(** ** Requests *)

(** The attributes of [UBBD_ATTR_DEV_OPTS], and of a request.  The nested
    attributes are parsed by the kernel: an error number or the options. *)
Record dev_opts : Type := mk_dev_opts {
  op_dp_reserve : option Z;
  op_dev_size : option Z;
  op_data_pages : option Z;
  op_dev_queues : option Z;
  op_io_timeout : option Z;
}.

Record genl_attrs : Type := mk_attrs {
  at_dev_id : option Z;
  at_queue_id : option Z;
  at_flags : option Z;
  at_dev_opts : option (Z + dev_opts);
}.

(** [nla_get_*] reads through the pointer it is given. *)
Definition nla_get (o : option Z) : outcome Z := deref o NULL_DEREF.

(** The first device of the list with the id. *)
Fixpoint find_ubbd_dev (dev_id : Z) (l : list listed) : option nat :=
  match l with
  | [] => None
  | x :: l => if d_dev_id (o_dev x.1) =? dev_id then Some O else option_map S (find_ubbd_dev dev_id l)
  end.

(** [ubbd_dev_state_get_lock] retries until another thread has cleared
    INTRANS; a handler alone never gets the lock then. *)
Definition ubbd_dev_state_get_lock (d : ubbd_device) : outcome unit :=
  if intrans d then Fault OUT_OF_FUEL else Ok tt.

(** Where a device goes after a handler: back in its place, out of the list,
    or nowhere. *)
Definition put_back (i : nat) (ro : option device_obj) (wq : list Z) (s : driver) (w : world)
    (sy : system) : system :=
  match ro with
  | None => mk_system s (delete i (sy_list sy)) (sy_unlisted sy) w
  | Some o =>
      if d_in_list (o_dev o)
      then mk_system s (<[i := (o, wq)]> (sy_list sy)) (sy_unlisted sy) w
      else mk_system s (delete i (sy_list sy)) ((o, wq) :: sy_unlisted sy) w
  end.

Abbreviation dev_action :=
  (device_obj -> driver -> world -> outcome (Z * option device_obj * driver * world)).

(** [find_ubbd_dev] takes a reference, [ubbd_dev_put] drops it at the end. *)
Definition run_on (i : nat) (f : dev_action) (sy : system) : outcome (Z * system) :=
  let* '(o, wq) := deref (sy_list sy !! i) OUT_OF_BOUNDS in
  let o := set_o_dev (ubbd_dev_get (o_dev o)) o in
  let* '(ret, ro, s, w) := f o (sy_drv sy) (set_w_wq wq (sy_world sy)) in
  let* o := deref ro WILD_ACCESS in
  let* '(ro, s, km) := dev_put o s (w_km w) in
  Ok (ret, put_back i ro (w_wq w) s (set_w_wq (w_wq (sy_world sy)) (set_w_km km w)) sy).

Definition with_dev (dev_id : Z) (f : dev_action) (sy : system) : outcome (Z * option skb * system) :=
  match find_ubbd_dev dev_id (sy_list sy) with
  | None => Ok (- ENOENT, None, sy)
  | Some i => let* '(ret, sy) := run_on i f sy in Ok (ret, None, sy)
  end.

(** What the kernel answers during a request. *)
Record nl_env : Type := mk_nl_env {
  ne_create : create_env;
  ne_disk : disk_env;
  ne_nr_cpu_ids : Z;
  ne_renv : reply_env;
}.

Abbreviation handler := (nl_env -> genl_attrs -> system -> outcome (Z * option skb * system)).

(** [ubbd_dev_remove_dev] on the device object: the disk is freed with its tag
    set and the last reference destroys the device. *)
Definition remove_dev (o : device_obj) (s : driver) (km : kmem)
  : outcome (Z * option device_obj * driver * kmem) :=
  let* _ := ubbd_dev_state_get_lock (o_dev o) in
  let status := d_status (o_dev o) in
  if negb (status =? UBBD_DEV_KSTATUS_REMOVING) && negb (status =? UBBD_DEV_KSTATUS_PREPARED)
  then Ok (- EINVAL, Some o, s, km)
  else
    let o := set_o_dev (set_d_in_list false (o_dev o)) o in
    let* '(o, s) := free_disk o s in
    let* '(ro, s, km) := dev_put o s km in
    Ok (0, ro, s, km).

Definition UBBD_KRING_DATA_PAGES : Z := 256 * 1024.

(** The options of [handle_cmd_add_dev], with their defaults. *)
Definition add_dev_opts (env : nl_env) (features size : Z) (opts : dev_opts) : ubbd_dev_add_opts :=
  let num_queues := default 0 (op_dev_queues opts) in
  let num_queues := if num_queues =? 0 then ne_nr_cpu_ids env else num_queues in
  let data_pages := default UBBD_KRING_DATA_PAGES (op_data_pages opts) in
  let io_timeout := default 0 (op_io_timeout opts) in
  let io_timeout := if io_timeout =? 0 then UINT_MAX else io_timeout in
  mk_add_opts features size data_pages num_queues io_timeout.

Definition handle_cmd_add_dev : handler := fun env attrs sy =>
  match at_dev_opts attrs, at_flags attrs with
  | Some nest, Some dev_features =>
      match nest with
      | inl err => Ok (err, None, sy)
      | inr opts =>
          match op_dev_size opts with
          | None => Ok (- EINVAL, None, sy)
          | Some size =>
              let add_opts := add_dev_opts env dev_features size opts in
              if ubbd_mgmt_need_fault then Ok (- ENOMEM, None, sy)
              else
                let* '(r, s, km) :=
                  ubbd_dev_add_dev (ne_create env) (ne_disk env) add_opts (sy_drv sy)
                    (w_km (sy_world sy)) in
                let w := set_w_km km (sy_world sy) in
                match r with
                | inl err => Ok (err, None, mk_system s (sy_list sy) (sy_unlisted sy) w)
                | inr o =>
                    let sy := mk_system s (sy_list sy ++ [(o, [])]) (sy_unlisted sy) w in
                    let* '(ret, msg) := ubbd_nl_reply_add_dev_done (ne_renv env) (dv_kring s) o in
                    if ret =? 0 then Ok (0, msg, sy)
                    else
                      let* '(_, ro, s, km) := remove_dev o s km in
                      Ok (ret, None,
                          put_back (pred (length (sy_list sy))) ro [] s (set_w_km km w) sy)
                end
          end
      end
  | _, _ => Ok (- EINVAL, None, sy)
  end.

Definition handle_cmd_add_disk : handler := fun _ attrs sy =>
  let* dev_id := nla_get (at_dev_id attrs) in
  with_dev dev_id (fun o s w =>
    let* '(ret, d) := ubbd_dev_add_disk (o_dev o) in
    Ok (ret, Some (set_o_dev d o), s, w)) sy.

(** The retries of [ubbd_dev_state_get_lock] are inside [ubbd_dev_remove_disk],
    after the queues are removed; that removal neither reads nor changes the
    status of the device, so they are tested here before the call. *)
Definition handle_cmd_remove_disk : handler := fun _ attrs sy =>
  let* dev_id := nla_get (at_dev_id attrs) in
  let* remove_flags := nla_get (at_flags attrs) in
  let force := negb (Z.land remove_flags UBBD_ATTR_FLAGS_REMOVE_FORCE =? 0) in
  with_dev dev_id (fun o s w =>
    if negb force && negb (d_open_count (o_dev o) =? 0) then Ok (- EBUSY, Some o, s, w)
    else
      let* _ := ubbd_dev_state_get_lock (o_dev o) in
      let* '(d, w) := ubbd_dev_remove_disk (o_dev o) force w in
      Ok (0, Some (set_o_dev d o), s, w)) sy.

Definition handle_cmd_remove_dev : handler := fun _ attrs sy =>
  let* dev_id := nla_get (at_dev_id attrs) in
  with_dev dev_id (fun o s w =>
    let* '(ret, ro, s, km) := remove_dev o s (w_km w) in
    Ok (ret, ro, s, set_w_km km w)) sy.

(** The reference of [__find_ubbd_dev] is dropped on every path. *)
Definition handle_cmd_status : handler := fun env attrs sy =>
  match at_dev_id attrs with
  | None => Ok (- EINVAL, None, sy)
  | Some dev_id =>
      match find_ubbd_dev dev_id (sy_list sy) with
      | None => Ok (- ENOENT, None, sy)
      | Some i =>
          let* '(o, wq) := deref (sy_list sy !! i) OUT_OF_BOUNDS in
          let o := set_o_dev (ubbd_dev_get (o_dev o)) o in
          let msg_size := nla_total_size (nla_attr_size 4) in
          let msg_size := u64 (msg_size + get_status_msg_size (o_dev o)) in
          let msg_size := u64 (msg_size + nla_attr_size 4) in
          let* '(ret, msg) :=
            (if ubbd_mgmt_need_fault then Ok (- ENOMEM, None)
             else if negb (ne_new_ok (ne_renv env)) then Ok (- ENOMEM, None)
             else
               let* r := build_reply UBBD_CMD_STATUS (fill_ubbd_status (dv_kring (sy_drv sy)) o)
                           (genlmsg_new msg_size) (- ENOMEM) in
               match r with
               | inl err => Ok (err, None)
               | inr b => Ok (ne_reply (ne_renv env), Some b)
               end) in
          let* '(ro, s, km) := dev_put o (sy_drv sy) (w_km (sy_world sy)) in
          Ok (ret, msg, put_back i ro wq s (set_w_km km (sy_world sy)) sy)
      end
  end.

Definition handle_cmd_list : handler := fun env _ sy =>
  let ids := map (fun x => d_dev_id (o_dev x.1)) (sy_list sy) in
  let msg_size := nla_total_size (nla_attr_size 4) in
  let msg_size := u64 (msg_size + nla_total_size (nla_attr_size 4)) in
  let msg_size := foldl (fun n _ => u64 (n + nla_attr_size 4)) msg_size ids in
  if ubbd_mgmt_need_fault then Ok (- ENOMEM, None, sy)
  else if negb (ne_new_ok (ne_renv env)) then Ok (- ENOMEM, None, sy)
  else
    let* r := build_reply UBBD_CMD_LIST (fill_ubbd_list ids) (genlmsg_new msg_size) (- ENOMEM) in
    match r with
    | inl err => Ok (err, None, sy)
    | inr b => Ok (ne_reply (ne_renv env), Some b, sy)
    end.

(** The options of [handle_cmd_config]; a percentage above 100 stops it. *)
Definition config_opts (opts : dev_opts) : Z + ubbd_dev_config_opts :=
  let '(f1, percnt) :=
    match op_dp_reserve opts with
    | Some p => (UBBD_DEV_CONFIG_FLAG_DP_RESERVE, p)
    | None => (0, 0)
    end in
  if 100 <? percnt then inl (- EINVAL)
  else
    let '(f2, size) :=
      match op_dev_size opts with
      | Some n => (UBBD_DEV_CONFIG_FLAG_DEV_SIZE, n)
      | None => (0, 0)
      end in
    inr (mk_config (Z.lor f1 f2) percnt size).

Definition handle_cmd_config : handler := fun _ attrs sy =>
  match at_dev_id attrs, at_dev_opts attrs with
  | Some dev_id, Some nest =>
      with_dev dev_id (fun o s w =>
        match nest with
        | inl err => Ok (err, Some o, s, w)
        | inr opts =>
            match config_opts opts with
            | inl err => Ok (err, Some o, s, w)
            | inr co =>
                let* '(ret, d) := ubbd_dev_config (o_dev o) co in
                Ok (ret, Some (set_o_dev d o), s, w)
            end
        end) sy
  | _, _ => Ok (- EINVAL, None, sy)
  end.

Definition handle_cmd_queue_op : handler := fun _ attrs sy =>
  match at_dev_id attrs, at_queue_id attrs, at_flags attrs with
  | Some dev_id, Some queue_id, Some flags =>
      with_dev dev_id (fun o s w =>
        if negb (Z.land flags UBBD_ATTR_FLAGS_QUEUE_OP_STOP =? 0) then
          let* '(ret, d, w) := ubbd_dev_stop_queue (o_dev o) queue_id w in
          Ok (ret, Some (set_o_dev d o), s, w)
        else if negb (Z.land flags UBBD_ATTR_FLAGS_QUEUE_OP_START =? 0) then
          let* '(ret, d) := ubbd_dev_start_queue (o_dev o) queue_id in
          Ok (ret, Some (set_o_dev d o), s, w)
        else Ok (- EINVAL, Some o, s, w)) sy
  | _, _, _ => Ok (- EINVAL, None, sy)
  end.

(** The table of commands. *)
Inductive genl_cmd : Type :=
| CMD_ADD_DEV | CMD_ADD_DISK | CMD_REMOVE_DISK | CMD_REMOVE_DEV
| CMD_STATUS | CMD_CONFIG | CMD_QUEUE_OP | CMD_LIST.

Definition ubbd_genl_ops (cmd : genl_cmd) : handler :=
  match cmd with
  | CMD_ADD_DEV => handle_cmd_add_dev
  | CMD_ADD_DISK => handle_cmd_add_disk
  | CMD_REMOVE_DISK => handle_cmd_remove_disk
  | CMD_REMOVE_DEV => handle_cmd_remove_dev
  | CMD_STATUS => handle_cmd_status
  | CMD_CONFIG => handle_cmd_config
  | CMD_QUEUE_OP => handle_cmd_queue_op
  | CMD_LIST => handle_cmd_list
  end.
End code.
