(* ===== verification/NetlinkProps.v ===== *)
(** * Properties of the management interface

    The theorems about [src/src/ubbd_nl.c]: the replies are complete and fit
    the buffers sized for them, and each handler leaves the driver as its
    result says. *)

From S2P Require Import Prelude Abi Ring Pages Request Queue PoolProps QueueProps Kring KringMap Device.
From S2P Require Import DeviceInv DeviceProps Lifecycle Create CreateInv CreateProps Netlink.

(** ** Fillers *)

Section fillers.
Context `{A : UbbdAbi} `{K : KernelApi} `{T : UbbdAttrs} `{NL : NetlinkLaws}.

(** With [n] bytes of room, [f] writes the tokens [t]. *)
Definition writes (f : filler) (n : Z) (t : list token) : Prop :=
  forall b, n <= skb_room b -> exists b', f b = Ok (inr b') /\
    skb_room b - n <= skb_room b' /\ skb_toks b' = skb_toks b ++ t.

Lemma writes_nil : writes fnil 0 [].
Proof. intros b _. exists b. rewrite (right_id_L [] (++)). split_and!; done || lia. Qed.

Lemma writes_seq f g n m t u :
  0 <= m -> writes f n t -> writes g m u -> writes (fseq f g) (n + m) (t ++ u).
Proof.
  intros Hm Hf Hg b Hb. destruct (Hf b) as (b1 & E1 & R1 & T1); [lia|].
  destruct (Hg b1) as (b2 & E2 & R2 & T2); [lia|].
  exists b2. unfold fseq. rewrite E1. cbn [obind]. rewrite E2, T2, T1, (assoc_L (++)).
  split_and!; done || lia.
Qed.

Lemma writes_weaken f n m t : n <= m -> writes f n t -> writes f m t.
Proof.
  intros Hn Hf b Hb. destruct (Hf b) as (b1 & E1 & R1 & T1); [lia|]. exists b1. split_and!; done || lia.
Qed.

Lemma writes_cons f l n m t u :
  0 <= m -> writes f n t -> writes (fconcat l) m u -> writes (fconcat (f :: l)) (n + m) (t ++ u).
Proof. apply writes_seq. Qed.

Lemma writes_map {X} (F : X -> filler) (size : X -> Z) (toks : X -> list token) (l : list X) :
  Forall (fun x => 0 <= size x /\ writes (F x) (size x) (toks x)) l ->
  writes (fconcat (map F l)) (sumZ (map size l)) (concat (map toks l)).
Proof.
  induction 1 as [|x l [Hx Hw] Hl IH]; simpl; [apply writes_nil|].
  apply writes_seq; [|done|done]. apply sumZ_nonneg. apply Forall_map.
  eapply Forall_impl; [exact Hl|]. by intros y [Hy _].
Qed.

Lemma writes_put_s32 ty v : writes (nla_put_s32 ty v) 8 [TAttr ty v].
Proof.
  intros b Hb. pose proof (nla_total_size_spec 4) as E. change ((4 + 4 + 3) / 4 * 4) with 8 in E.
  destruct (nla_put_spec ty 4 v b) as (b' & E' & R & Tk); [lia|lia|].
  exists b'. unfold nla_put_s32. rewrite E'. split_and!; done || lia.
Qed.

Lemma writes_put_u8 ty v : writes (nla_put_u8 ty v) 8 [TAttr ty v].
Proof.
  intros b Hb. pose proof (nla_total_size_spec 1) as E. change ((4 + 1 + 3) / 4 * 4) with 8 in E.
  destruct (nla_put_spec ty 1 v b) as (b' & E' & R & Tk); [lia|lia|].
  exists b'. unfold nla_put_u8. rewrite E'. split_and!; done || lia.
Qed.

Lemma writes_put_u64 ty v : writes (nla_put_u64_64bit ty v) 16 [TAttr ty v].
Proof.
  intros b Hb. pose proof (nla_total_size_spec 8) as E. change ((4 + 8 + 3) / 4 * 4) with 12 in E.
  pose proof (nla_total_size_64bit_spec 8). destruct (nla_put_64bit_spec ty v b) as (b' & E' & R & Tk); [lia|].
  exists b'. unfold nla_put_u64_64bit. rewrite E'. split_and!; done || lia.
Qed.

Lemma writes_put_cpu c : writes (put_cpu c) 8 [TAttr UBBD_QUEUE_INFO_CPU_ID c].
Proof.
  intros b Hb. pose proof (nla_total_size_spec 4) as E. change ((4 + 4 + 3) / 4 * 4) with 8 in E.
  destruct (nla_put_spec UBBD_QUEUE_INFO_CPU_ID 4 c b) as (b' & E' & R & Tk); [lia|lia|].
  exists b'. unfold put_cpu. rewrite E'. split_and!; done || (simpl; lia).
Qed.

Lemma nest_start_spec ty b :
  4 <= skb_room b -> exists b', nla_nest_start ty b = Some b' /\
    skb_room b' = skb_room b - 4 /\ skb_toks b' = skb_toks b ++ [TOpen ty].
Proof.
  intros Hb. pose proof (nla_total_size_spec 0) as E. change ((4 + 0 + 3) / 4 * 4) with 4 in E.
  destruct (nla_nest_start_spec ty b) as (b' & E' & R & Tk); [lia|]. exists b'. rewrite <- E by lia. done.
Qed.

Lemma writes_nest_checked ty f n t :
  0 <= n -> writes f n t -> writes (nest_checked ty f) (4 + n) (TOpen ty :: t ++ [TClose]).
Proof.
  intros Hn Hf b Hb. unfold nest_checked. destruct (nest_start_spec ty b) as (b1 & -> & R1 & T1); [lia|].
  destruct (Hf b1) as (b2 & E2 & R2 & T2); [lia|]. rewrite E2. cbn [obind].
  destruct (nla_nest_end_spec b2) as [R3 T3]. eexists. split; [done|]. split; [lia|].
  rewrite T3, T2, T1. by rewrite <- !(assoc_L (++)).
Qed.

(** With enough room the unchecked start is not NULL. *)
Lemma writes_nest_unchecked ty f n t :
  0 <= n -> writes f n t -> writes (nest_unchecked ty f) (4 + n) (TOpen ty :: t ++ [TClose]).
Proof.
  intros Hn Hf b Hb. destruct (writes_nest_checked ty f n t Hn Hf b Hb) as (b' & E & R & Tk).
  unfold nest_checked in E. unfold nest_unchecked.
  destruct (nla_nest_start ty b) as [b1|]; [|discriminate E]. simpl.
  destruct (f b1) as [[e|b2]|]; cbn [obind deref] in *; eauto.
Qed.
End fillers.

Create HintDb writes.
#[export] Hint Resolve writes_nil writes_put_s32 writes_put_u8 writes_put_u64 writes_put_cpu : writes.

(** ** Status and list *)

Section replies.
Context `{AL : UbbdAbiLaws} `{KL : KernelApiLaws} `{ML : KernelMemLaws} `{IL : KernelIdrLaws}
  `{DL : KernelIdaLaws} `{T : UbbdAttrs} `{NL : NetlinkLaws}.
Implicit Types (ks : kring_state) (o : device_obj) (sy : system).

Definition queue_minor ks (p : queue_parts) : option Z :=
  hd ← ki_dev (qp_info p); kd ← ks_devs ks !! hd; Some (kd_minor kd).

Definition queue_tokens ks (sl : ubbd_queue * queue_parts) : list token :=
  TOpen UBBD_QUEUE_INFO_ITEM ::
    ([TAttr UBBD_QUEUE_INFO_KRING_ID (default 0 (queue_minor ks sl.2));
      TAttr UBBD_QUEUE_INFO_KRING_MAP_SIZE (qp_mem_size sl.2);
      TAttr UBBD_QUEUE_INFO_B_PID (q_backend_pid sl.1);
      TAttr UBBD_QUEUE_INFO_STATUS (q_status sl.1)] ++
     TOpen UBBD_QUEUE_INFO_CPU_LIST :: map (TAttr UBBD_QUEUE_INFO_CPU_ID) (q_cpumask sl.1) ++ [TClose]) ++
  [TClose].

(** What a status reply says: the device, its status, and of each queue its
    kring, its map size, its backend, its status and its CPUs. *)
Definition status_tokens ks o : list token :=
  (TOpen UBBD_ATTR_DEV_INFO ::
     ([TAttr UBBD_STATUS_DEV_ID (d_dev_id (o_dev o)); TAttr UBBD_STATUS_STATUS (d_status (o_dev o))] ++
      TOpen UBBD_STATUS_QUEUE_INFO :: concat (map (queue_tokens ks) (o_slots o)) ++ [TClose]) ++
   [TClose]) ++ [TAttr UBBD_ATTR_RETVAL 0].

Definition list_tokens (ids : list Z) : list token :=
  (TOpen UBBD_ATTR_DEV_LIST :: map (TAttr UBBD_LIST_DEV_ID) ids ++ [TClose]) ++ [TAttr UBBD_ATTR_RETVAL 0].

Definition item_size (q : ubbd_queue) : Z := 48 + 8 * Z.of_nat (length (q_cpumask q)).

(** The queues' kring devices exist. *)
Definition krings_live ks o : Prop := Forall (fun sl => is_Some (queue_minor ks sl.2)) (o_slots o).

Lemma concat_map_one {X} (f : X -> token) (l : list X) : concat (map (fun x => [f x]) l) = map f l.
Proof. induction l as [|x l IH]; simpl; congruence. Qed.

Lemma sumZ_const {X} c (l : list X) : sumZ (map (fun _ => c) l) = c * Z.of_nat (length l).
Proof. unfold sumZ. induction l as [|x l IH]; cbn [map foldr length]; lia. Qed.

Lemma writes_item ks sl :
  is_Some (queue_minor ks sl.2) -> writes (fill_queue_info_item ks sl) (item_size sl.1) (queue_tokens ks sl).
Proof.
  destruct sl as [q p]. unfold fill_queue_info_item, queue_tokens, item_size. cbn [fst snd].
  intros [m Hm]. rewrite Hm. unfold queue_minor in Hm.
  destruct (ki_dev (qp_info p)) as [hd|]; [|discriminate Hm]. simpl in Hm.
  destruct (ks_devs ks !! hd) as [kd|] eqn:Ekd; [|discriminate Hm]. injection Hm as <-.
  apply (writes_weaken _ (4 + (44 + 8 * Z.of_nat (length (q_cpumask q))))); [lia|].
  apply writes_nest_unchecked; [lia|]. cbn [deref obind].
  set (n := length (q_cpumask q)). change (default 0 (Some (kd_minor kd))) with (kd_minor kd).
  assert (writes (nest_unchecked UBBD_QUEUE_INFO_CPU_LIST (fconcat (map put_cpu (q_cpumask q))))
    (4 + 8 * Z.of_nat n) (TOpen UBBD_QUEUE_INFO_CPU_LIST ::
      map (TAttr UBBD_QUEUE_INFO_CPU_ID) (q_cpumask q) ++ [TClose])) as Hc.
  { apply writes_nest_unchecked; [lia|]. unfold n. rewrite <- sumZ_const, <- concat_map_one.
    apply writes_map. apply Forall_forall. intros c _. split; [lia|apply writes_put_cpu]. }
  apply (writes_weaken _ (8 + (16 + (8 + (8 + ((4 + 8 * Z.of_nat n) + 0)))))); [lia|].
  intros b Hb. rewrite Ekd. cbn [deref obind]. revert b Hb.
  match goal with |- forall b, ?n <= _ -> exists b', fconcat ?l b = _ /\ _ /\ skb_toks _ = _ ++ ?t =>
    change (writes (fconcat l) n t) end.
  rewrite <- (right_id_L [] (++) (TOpen UBBD_QUEUE_INFO_CPU_LIST :: _)).
  apply (writes_cons _ _ 8 _ [_]); [lia|auto with writes|].
  apply (writes_cons _ _ 16 _ [_]); [lia|auto with writes|].
  apply (writes_cons _ _ 8 _ [_]); [lia|auto with writes|].
  apply (writes_cons _ _ 8 _ [_]); [lia|auto with writes|].
  apply writes_cons; [lia|done|auto with writes].
Qed.

Lemma writes_detail ks o :
  krings_live ks o ->
  writes (fill_ubbd_status_detail ks o) (20 + sumZ (map (fun sl => item_size sl.1) (o_slots o)))
    ([TAttr UBBD_STATUS_DEV_ID (d_dev_id (o_dev o)); TAttr UBBD_STATUS_STATUS (d_status (o_dev o))] ++
     TOpen UBBD_STATUS_QUEUE_INFO :: concat (map (queue_tokens ks) (o_slots o)) ++ [TClose]).
Proof.
  intros Hl. set (n := sumZ _).
  assert (0 <= n) as Hn.
  { apply sumZ_nonneg, Forall_map, Forall_forall. intros sl _. unfold item_size. simpl. lia. }
  assert (writes (fill_ubbd_status_queue_info ks o) (4 + n) (TOpen UBBD_STATUS_QUEUE_INFO ::
    concat (map (queue_tokens ks) (o_slots o)) ++ [TClose])) as Hq.
  { apply writes_nest_unchecked; [done|]. apply (writes_map _ (fun sl => item_size sl.1)).
    eapply Forall_impl; [exact Hl|]. intros sl Hsl. split; [unfold item_size; lia|by apply writes_item]. }
  apply (writes_weaken _ (8 + (8 + ((4 + n) + 0)))); [lia|].
  unfold fill_ubbd_status_detail. rewrite <- (right_id_L [] (++) (TOpen UBBD_STATUS_QUEUE_INFO :: _)).
  apply (writes_cons _ _ 8 _ [_]); [lia|auto with writes|].
  apply (writes_cons _ _ 8 _ [_]); [lia|auto with writes|].
  apply writes_cons; [lia| |auto with writes].
  intros b Hb. destruct (Hq b Hb) as (b' & E & R & Tk). rewrite E. by exists b'.
Qed.

(** ** Sizes *)

(** What [get_queue_msg_size] counts for a queue, before any wrap. *)
Definition counted_size (q : ubbd_queue) : Z := 52 + 8 * Z.of_nat (length (q_cpumask q)).

(** No [size_t] wraps: true of any device that fits in memory. *)
Definition sizes_fit (qs : list ubbd_queue) : Prop := sumZ (map counted_size qs) < 2 ^ 60.

Lemma counted_nonneg (qs : list ubbd_queue) : 0 <= sumZ (map counted_size qs).
Proof. apply sumZ_nonneg, Forall_map, Forall_forall. intros q _. unfold counted_size. simpl. lia. Qed.

Lemma queue_msg_size_exact q : counted_size q < 2 ^ 60 -> get_queue_msg_size q = counted_size q.
Proof.
  unfold counted_size. intros H. unfold get_queue_msg_size. cbv zeta.
  rewrite !nla_attr_size_spec by (rewrite ?nla_attr_size_spec; lia).
  widths. lia.
Qed.

Lemma foldl_counted (qs : list ubbd_queue) n :
  0 <= n -> n + sumZ (map counted_size qs) < 2 ^ 60 ->
  foldl (fun n q => u64 (n + get_queue_msg_size q)) n qs = n + sumZ (map counted_size qs).
Proof.
  revert n. induction qs as [|q qs IH]; intros n Hn Hb; cbn [foldl]; [unfold sumZ; simpl; lia|].
  change (sumZ (map counted_size (q :: qs))) with (counted_size q + sumZ (map counted_size qs)) in *.
  pose proof (counted_nonneg qs). assert (0 <= counted_size q) by (unfold counted_size; lia).
  rewrite queue_msg_size_exact by lia. rewrite u64_small by lia. rewrite IH by lia. lia.
Qed.

Lemma status_msg_size_bound d :
  21 + sumZ (map counted_size (d_queues d)) < 2 ^ 60 ->
  25 + sumZ (map counted_size (d_queues d)) <= get_status_msg_size d < 2 ^ 61.
Proof.
  intros Hb. pose proof (counted_nonneg (d_queues d)). unfold get_status_msg_size. cbv zeta.
  rewrite !nla_attr_size_spec by (rewrite ?nla_attr_size_spec; lia).
  rewrite (u64_small (_ + _ + _)) by lia. rewrite foldl_counted by lia.
  rewrite nla_total_size_spec by lia.
  pose proof (Z_div_mod_eq_full (4 + (4 + 4 + (4 + (1 + (4 + 4))) + sumZ (map counted_size (d_queues d))) + 3) 4).
  pose proof (Z.mod_pos_bound (4 + (4 + 4 + (4 + (1 + (4 + 4))) + sumZ (map counted_size (d_queues d))) + 3) 4).
  lia.
Qed.

Lemma zip_items (qs : list ubbd_queue) (ps : list queue_parts) :
  sumZ (map (fun sl => item_size sl.1) (zip qs ps)) <= sumZ (map counted_size qs).
Proof.
  revert ps. induction qs as [|q qs IH]; intros [|p ps]; try done.
  - change (zip (q :: qs) []) with (@nil (ubbd_queue * queue_parts)). apply (counted_nonneg (q :: qs)).
  - change (item_size q + sumZ (map (fun sl => item_size sl.1) (zip qs ps)) <=
      counted_size q + sumZ (map counted_size qs)).
    specialize (IH ps). unfold item_size, counted_size in *. lia.
Qed.

Lemma build_reply_writes cmd f n t size no_head :
  0 <= n -> writes f n t -> n + 8 <= size ->
  exists b, build_reply cmd f (genlmsg_new size) no_head = Ok (inr b) /\
    skb_toks b = t ++ [TAttr UBBD_ATTR_RETVAL 0].
Proof.
  intros Hn Hf Hs. unfold build_reply.
  destruct (genlmsg_put_reply_spec size cmd) as (b & -> & R & Tk); [lia|].
  destruct (writes_seq f (nla_put_s32 UBBD_ATTR_RETVAL 0) n 8 t _ ltac:(lia) Hf
    (writes_put_s32 _ _) b) as (b' & E & _ & Tk'); [lia|].
  exists b'. rewrite Tk', Tk. done.
Qed.

(** The reference a reply takes is dropped: the driver is unchanged. *)
Lemma put_after_get sy i o wq :
  sy_list sy !! i = Some (o, wq) -> 0 < d_kref (o_dev o) -> d_in_list (o_dev o) = true ->
  dev_put (set_o_dev (ubbd_dev_get (o_dev o)) o) (sy_drv sy) (w_km (sy_world sy)) =
    Ok (Some o, sy_drv sy, w_km (sy_world sy)) /\
  put_back i (Some o) wq (sy_drv sy) (set_w_km (w_km (sy_world sy)) (sy_world sy)) sy = sy.
Proof.
  intros Hi Hk Hl. split.
  - unfold dev_put, ubbd_dev_put, ubbd_dev_get. simpl.
    rewrite (proj2 (Z.eqb_neq (d_kref (o_dev o) + 1) 1)) by lia.
    rewrite Z.add_simpl_r. destruct o as [h d ps mn t]. by destruct d.
  - unfold put_back. rewrite Hl. rewrite list_insert_id by done. destruct sy as [s l u w]. by destruct w.
Qed.

(** A status request, on every path behind the lookup. *)
Lemma status_reply_spec (env : nl_env) (attrs : genl_attrs) (sy : system) (dev_id : Z) (i : nat)
    (o : device_obj) (wq : list Z) :
  at_dev_id attrs = Some dev_id -> find_ubbd_dev dev_id (sy_list sy) = Some i ->
  sy_list sy !! i = Some (o, wq) -> 0 < d_kref (o_dev o) -> d_in_list (o_dev o) = true ->
  krings_live (dv_kring (sy_drv sy)) o -> 21 + sumZ (map counted_size (d_queues (o_dev o))) < 2 ^ 60 ->
  exists ret msg, handle_cmd_status env attrs sy = Ok (ret, msg, sy) /\
    (ne_new_ok (ne_renv env) = false -> ret = - ENOMEM /\ msg = None) /\
    (ne_new_ok (ne_renv env) = true -> ret = ne_reply (ne_renv env) /\
       exists b, msg = Some b /\ skb_toks b = status_tokens (dv_kring (sy_drv sy)) o).
Proof.
  intros Ha Hf Hi Hk Hl Hq Hb. unfold handle_cmd_status, ubbd_mgmt_need_fault.
  rewrite Ha, Hf, Hi. cbn [deref obind].
  destruct (put_after_get sy i o wq Hi Hk Hl) as [E1 E2].
  destruct (ne_new_ok (ne_renv env)); cbn [negb].
  2: { cbn [obind]. rewrite E1. cbn [obind]. rewrite E2. do 2 eexists. split; [done|]. done. }
  set (o1 := set_o_dev (ubbd_dev_get (o_dev o)) o) in *.
  pose proof (status_msg_size_bound (o_dev o1) Hb) as Hsz.
  pose proof (zip_items (d_queues (o_dev o)) (o_parts o)) as Hz.
  pose proof (counted_nonneg (d_queues (o_dev o))) as Hc0.
  assert (0 <= sumZ (map (fun sl => item_size sl.1) (o_slots o))) as Hi0.
  { apply sumZ_nonneg, Forall_map, Forall_forall. intros sl _. unfold item_size. simpl. lia. }
  change (d_queues (o_dev o1)) with (d_queues (o_dev o)) in Hsz.
  rewrite !nla_attr_size_spec by lia. rewrite nla_total_size_spec by lia.
  change ((4 + (4 + 4) + 3) / 4 * 4) with 12. rewrite (u64_small (12 + _)) by lia. rewrite u64_small by lia.
  destruct (build_reply_writes UBBD_CMD_STATUS (fill_ubbd_status (dv_kring (sy_drv sy)) o1)
    (4 + (20 + sumZ (map (fun sl => item_size sl.1) (o_slots o1)))) 
    (TOpen UBBD_ATTR_DEV_INFO :: ([TAttr UBBD_STATUS_DEV_ID (d_dev_id (o_dev o1));
       TAttr UBBD_STATUS_STATUS (d_status (o_dev o1))] ++ TOpen UBBD_STATUS_QUEUE_INFO ::
       concat (map (queue_tokens (dv_kring (sy_drv sy))) (o_slots o1)) ++ [TClose]) ++ [TClose])
    (12 + get_status_msg_size (o_dev o1) + (4 + 4)) (- ENOMEM)) as (b & E & Tk).
  - change (o_slots o1) with (o_slots o). lia.
  - unfold fill_ubbd_status, ubbd_mgmt_need_fault. apply writes_nest_checked; [|by apply writes_detail].
    change (o_slots o1) with (o_slots o). lia.
  - change (o_slots o1) with (o_slots o). unfold o_slots in *. lia.
  - rewrite E. cbn [obind]. rewrite E1. cbn [obind]. rewrite E2. do 2 eexists. split; [done|].
    split; [done|]. intros _. split; [done|]. exists b. split; [done|]. by rewrite Tk.
Qed.

(** C19: a status request is answered completely.  For a listed device whose
    queues have their kring devices, the size computed for the reply covers
    every attribute (the padding of the 64-bit one included), so no put fails
    and no nest start is NULL: when the buffer can be allocated the message
    holds the id and status of the device and, of every queue in order, its
    kring, map size, backend, status and all its CPUs, then the return value;
    the driver is unchanged and the reference taken is dropped. *)
Theorem status_reply_complete (env : nl_env) (attrs : genl_attrs) (sy : system) (dev_id : Z) (i : nat)
    (o : device_obj) (wq : list Z) :
  at_dev_id attrs = Some dev_id -> find_ubbd_dev dev_id (sy_list sy) = Some i ->
  sy_list sy !! i = Some (o, wq) -> 0 < d_kref (o_dev o) -> d_in_list (o_dev o) = true ->
  krings_live (dv_kring (sy_drv sy)) o -> 21 + sumZ (map counted_size (d_queues (o_dev o))) < 2 ^ 60 ->
  exists ret msg, handle_cmd_status env attrs sy = Ok (ret, msg, sy) /\
    (ne_new_ok (ne_renv env) = false -> ret = - ENOMEM /\ msg = None) /\
    (ne_new_ok (ne_renv env) = true -> ret = ne_reply (ne_renv env) /\
       exists b, msg = Some b /\ skb_toks b = status_tokens (dv_kring (sy_drv sy)) o).
Proof. apply status_reply_spec. Qed.

(** A list request is answered completely: the size computed covers the
    ids of all listed devices, in the order of the list, and the driver is
    unchanged. *)
Theorem list_reply_complete (env : nl_env) (attrs : genl_attrs) (sy : system) :
  8 * Z.of_nat (length (sy_list sy)) < 2 ^ 60 ->
  exists ret msg, handle_cmd_list env attrs sy = Ok (ret, msg, sy) /\
    (ne_new_ok (ne_renv env) = false -> ret = - ENOMEM /\ msg = None) /\
    (ne_new_ok (ne_renv env) = true -> ret = ne_reply (ne_renv env) /\
       exists b, msg = Some b /\ skb_toks b = list_tokens (map (fun x => d_dev_id (o_dev x.1)) (sy_list sy))).
Proof.
  intros Hb. unfold handle_cmd_list, ubbd_mgmt_need_fault.
  set (ids := map _ (sy_list sy)).
  assert (length ids = length (sy_list sy)) as El by apply length_map.
  destruct (ne_new_ok (ne_renv env)); cbn [negb]; [|do 2 eexists; split; [done|done]].
  rewrite !nla_attr_size_spec by lia. rewrite nla_total_size_spec by lia.
  change ((4 + (4 + 4) + 3) / 4 * 4) with 12.
  assert (forall l n, 0 <= n -> n + 8 * Z.of_nat (length l) < 2 ^ 62 ->
    foldl (fun n (_ : Z) => u64 (n + (4 + 4))) n l = n + 8 * Z.of_nat (length l)) as Hf.
  { induction l as [|x l IH]; intros n Hn Hl; cbn [foldl length] in *; [lia|].
    rewrite u64_small by lia. rewrite IH by lia. lia. }
  rewrite (u64_small (12 + 12)) by lia. rewrite Hf by lia.
  destruct (build_reply_writes UBBD_CMD_LIST (fill_ubbd_list ids) (4 + 8 * Z.of_nat (length ids))
    (TOpen UBBD_ATTR_DEV_LIST :: map (TAttr UBBD_LIST_DEV_ID) ids ++ [TClose])
    (12 + 12 + 8 * Z.of_nat (length ids)) (- ENOMEM)) as (b & E & Tk); [lia| |lia|].
  - apply writes_nest_unchecked; [lia|]. rewrite <- sumZ_const, <- concat_map_one. apply writes_map.
    apply Forall_forall. intros c _. split; [lia|apply writes_put_s32].
  - rewrite E. cbn [obind]. do 2 eexists. split; [done|]. split; [done|]. intros _. split; [done|].
    by exists b.
Qed.

(** ** Adding a device *)

Lemma added_krings opts kenv o s0 s X :
  added opts kenv o -> up s0 o s X -> krings_live (dv_kring s) o.
Proof.
  intros Ha Hu. unfold krings_live. apply Forall_lookup. intros i [q p] Hi. unfold o_slots in Hi.
  apply lookup_zip_with_Some in Hi as (q1 & p1 & [= <- <-] & Hq & Hp). simpl.
  destruct (rp_dev _ _ _ (ad_parts _ _ _ Ha i p Hp)) as [hd Ehd]. unfold queue_minor. rewrite Ehd. simpl.
  destruct (kreg_lookup _ _ _ (qp_info p) hd (up_kring _ _ _ _ Hu)) as [kd ->]; [|done|by eexists].
  apply list_elem_of_fmap_2. exact (list_elem_of_lookup_2 _ _ _ Hp).
Qed.

Lemma sumZ_le_const {X} (g : X -> Z) c (l : list X) :
  Forall (fun x => g x <= c) l -> sumZ (map g l) <= c * Z.of_nat (length l).
Proof.
  induction 1 as [|x l Hx Hl IH]; [unfold sumZ; simpl; lia|].
  change (g x + sumZ (map g l) <= c * Z.of_nat (S (length l))). lia.
Qed.

Lemma added_no_pages opts kenv o : added opts kenv o -> no_pages o.
Proof.
  intros Ha. apply Forall_lookup. intros i q Hi. by destruct (ad_queue _ _ _ Ha i q Hi) as (m & -> & _).
Qed.

(** The bytes counted for the queues of a new device. *)
Definition reply_fits (opts : ubbd_dev_add_opts) (kenv : disk_env) : Prop :=
  (52 + 8 * Z.of_nat (length (ke_cpus kenv))) * Z.of_nat (Z.to_nat (ao_num_queues opts)) < 2 ^ 59.

Lemma added_counted opts kenv o :
  added opts kenv o -> reply_fits opts kenv -> 21 + sumZ (map counted_size (d_queues (o_dev o))) < 2 ^ 60.
Proof.
  intros Ha Hf. unfold reply_fits in Hf.
  pose proof (sumZ_le_const counted_size (52 + 8 * Z.of_nat (length (ke_cpus kenv))) (d_queues (o_dev o))) as Hs.
  rewrite (ad_len _ _ _ Ha) in Hs. cut (sumZ (map counted_size (d_queues (o_dev o))) < 2 ^ 59); [lia|].
  eapply Z.le_lt_trans; [apply Hs|exact Hf]. apply Forall_lookup. intros i q Hi.
  destruct (ad_queue _ _ _ Ha i q Hi) as (m & -> & Hm & _). unfold counted_size. simpl. lia.
Qed.

Lemma add_done_reply renv opts kenv o s0 s X :
  added opts kenv o -> up s0 o s X -> reply_fits opts kenv ->
  exists ret msg, ubbd_nl_reply_add_dev_done renv (dv_kring s) o = Ok (ret, msg) /\
    (ret = 0 -> exists b, msg = Some b /\ skb_toks b = status_tokens (dv_kring s) o).
Proof.
  intros Ha Hu Hf. unfold ubbd_nl_reply_add_dev_done, ubbd_mgmt_need_fault.
  assert (- EMSGSIZE <> 0) by done.
  destruct (ne_new_ok renv); cbn [negb]; [|do 2 eexists; split; [done|done]].
  pose proof (added_counted _ _ _ Ha Hf) as Hb.
  pose proof (status_msg_size_bound (o_dev o) Hb) as Hsz.
  pose proof (zip_items (d_queues (o_dev o)) (o_parts o)) as Hz. fold (o_slots o) in Hz.
  assert (0 <= sumZ (map (fun sl => item_size sl.1) (o_slots o))) as Hi0.
  { apply sumZ_nonneg, Forall_map, Forall_forall. intros sl _. unfold item_size. simpl. lia. }
  pose proof (counted_nonneg (d_queues (o_dev o))).
  rewrite !nla_attr_size_spec by lia. rewrite nla_total_size_spec by lia.
  change ((4 + (4 + 4) + 3) / 4 * 4) with 12. rewrite (u64_small (get_status_msg_size _ + _)) by lia.
  rewrite u64_small by lia.
  pose proof (writes_nest_checked UBBD_ATTR_DEV_INFO _ (20 + sumZ (map (fun sl => item_size sl.1) (o_slots o))) _
    ltac:(lia) (writes_detail _ _ (added_krings _ _ _ _ _ _ Ha Hu))) as Hw.
  assert (0 <= 4 + (20 + sumZ (map (fun sl => item_size sl.1) (o_slots o)))) as Hn by lia.
  assert (4 + (20 + sumZ (map (fun sl => item_size sl.1) (o_slots o))) + 8 <=
    get_status_msg_size (o_dev o) + 12 + 12) as Hle by lia.
  destruct (build_reply_writes UBBD_CMD_ADD_DEV _ _ _ _ (- EMSGSIZE) Hn Hw Hle) as (b & E & Tk).
  rewrite E. cbn [obind]. do 2 eexists. split; [done|]. intros _. exists b. split; [done|]. by rewrite Tk.
Qed.

(** A device without its disk, out of the list. *)
Definition unlisted_obj (o : device_obj) : device_obj :=
  set_o_dev (set_d_disk None (set_d_in_list false (o_dev o))) o.

(** Removing a device that holds no page: its disk goes, then a reference. *)
Lemma remove_step s0 o s km k :
  up s0 o s (disk_objs (o_h o)) -> intrans (o_dev o) = false ->
  d_status (o_dev o) = UBBD_DEV_KSTATUS_PREPARED \/ d_status (o_dev o) = UBBD_DEV_KSTATUS_REMOVING ->
  d_disk (o_dev o) = Some k ->
  exists s1, up s0 (unlisted_obj o) s1 ∅ /\
    remove_dev o s km = (let* '(ro, s, km) := dev_put (unlisted_obj o) s1 km in Ok (0, ro, s, km)).
Proof.
  intros Hu Hi Hs Hk. unfold remove_dev, ubbd_dev_state_get_lock. rewrite Hi. cbn [obind].
  replace (negb (d_status (o_dev o) =? UBBD_DEV_KSTATUS_REMOVING) &&
    negb (d_status (o_dev o) =? UBBD_DEV_KSTATUS_PREPARED)) with false.
  2: { destruct Hs as [-> | ->]; rewrite Z.eqb_refl; by rewrite ?andb_false_r. }
  unfold free_disk, ubbd_free_disk. cbn [o_dev set_o_dev d_disk set_d_in_list o_h]. rewrite Hk.
  cbn [deref obind].
  assert (forall x, (x = OBJ_DISK (o_h o) \/ x = OBJ_TAG_SET (o_h o)) ->
    x ∉ device_objs (o_h o) (o_parts o) ∪ dv_heap s0) as Hn.
  { intros x Hx Hin. assert (owner x = o_h o) as Ho by (by destruct Hx as [-> | ->]).
    apply elem_of_union in Hin as [Hin|Hin]; [|by apply (up_owner _ _ _ _ Hu x)].
    unfold device_objs in Hin. set_unfold in Hin.
    destruct Hx as [-> | ->]; destruct_or?; try done; by apply objs_from_spec in Hin. }
  set (H0 := device_objs (o_h o) (o_parts o) ∪ dv_heap s0) in *.
  assert (OBJ_DISK (o_h o) <> OBJ_TAG_SET (o_h o)) by done.
  assert ((OBJ_DISK (o_h o) ∉ H0) /\ (OBJ_TAG_SET (o_h o) ∉ H0)) as [Hn1 Hn2] by (split; apply Hn; auto).
  rewrite (hfree_own _ _ ({[OBJ_TAG_SET (o_h o)]} ∪ H0)); [cbn [obind]| |set_solver].
  2: { rewrite (up_heap _ _ _ _ Hu). unfold H0, disk_objs. set_solver. }
  rewrite (hfree_own _ _ H0) by (simpl; set_solver). cbn [obind].
  eexists. split; [|done]. apply (up_same _ o); try done.
  destruct Hu. split; try done. simpl. by rewrite (left_id_L ∅ (∪)).
Qed.

Lemma remove_last s0 o s km k :
  up s0 o s (disk_objs (o_h o)) -> d_kref (o_dev o) = 1 -> intrans (o_dev o) = false ->
  d_status (o_dev o) = UBBD_DEV_KSTATUS_PREPARED \/ d_status (o_dev o) = UBBD_DEV_KSTATUS_REMOVING ->
  d_disk (o_dev o) = Some k -> no_pages o ->
  remove_dev o s km = Ok (0, None, s0, km).
Proof.
  intros Hu Hr Hi Hs Hk Hp. destruct (remove_step s0 o s km k Hu Hi Hs Hk) as (s1 & Hu1 & ->).
  rewrite (dev_put_clean s0 _ _ ∅) by done. cbn [obind]. rewrite (left_id_L ∅ (∪)). by destruct s0.
Qed.

Lemma put_back_last (l u : list (device_obj * list Z)) o s0 s w0 w :
  put_back (pred (length (l ++ [(o, [])]))) None [] s w (mk_system s0 (l ++ [(o, [])]) u w0) =
  mk_system s l u w.
Proof.
  unfold put_back. simpl. rewrite length_app. simpl. replace (pred (length l + 1)) with (length l) by lia.
  by rewrite delete_middle, (right_id_L [] (++)).
Qed.

Lemma set_w_km_same (w : world) : set_w_km (w_km w) w = w.
Proof. by destruct w. Qed.

(** The block layer refused the limits of the new disk. *)
Definition limits_refused (kenv : disk_env) : Prop :=
  ke_tag_set kenv = 0 /\ ke_alloc_disk kenv = 0 /\ ke_commit kenv <> 0.

Lemma add_dev_result env kenv opts s km :
  env_fresh env s -> disk_env_ok kenv (Z.to_nat (ao_num_queues opts)) ->
  exists r s', ubbd_dev_add_dev env kenv opts s km = Ok (r, s', km) /\
    match r with
    | inr o => added opts kenv o /\ up s o s' (disk_objs (o_h o))
    | inl e => e <> 0 /\ (s' = s \/ limits_refused kenv /\
        exists h, ve_kzalloc env = Some h /\ s' = set_dv_heap (disk_objs h ∪ dv_heap s) s)
    end.
Proof.
  intros Hf Hk. destruct (add_dev_spec env kenv opts s km Hf Hk) as (r & s' & E & Hr).
  exists r, s'. split; [done|]. destruct r as [e|o]; [|done].
  destruct Hr as (He & leaked & -> & Hl). split; [lia|].
  destruct Hl as [[-> _]|[[-> _]|(H1 & H2 & H3 & h & Hh & ->)]].
  - left. rewrite (left_id_L ∅ (∪)). by destruct s.
  - left. rewrite (left_id_L ∅ (∪)). by destruct s.
  - right. split; [done|]. by exists h.
Qed.

(** The add-dev command on every path behind its attribute checks. *)
Lemma add_dev_command_spec (env : nl_env) (attrs : genl_attrs) (sy : system)
    (features size : Z) (dopts : dev_opts) :
  at_flags attrs = Some features -> at_dev_opts attrs = Some (inr dopts) ->
  op_dev_size dopts = Some size ->
  let opts := add_dev_opts env features size dopts in
  env_fresh (ne_create env) (sy_drv sy) -> disk_env_ok (ne_disk env) (Z.to_nat (ao_num_queues opts)) ->
  reply_fits opts (ne_disk env) ->
  exists ret msg sy', handle_cmd_add_dev env attrs sy = Ok (ret, msg, sy') /\
    sy_world sy' = sy_world sy /\ sy_unlisted sy' = sy_unlisted sy /\
    (ret = 0 -> exists o b, sy_list sy' = sy_list sy ++ [(o, [])] /\ added opts (ne_disk env) o /\
       up (sy_drv sy) o (sy_drv sy') (disk_objs (o_h o)) /\
       msg = Some b /\ skb_toks b = status_tokens (dv_kring (sy_drv sy')) o) /\
    (ret <> 0 -> sy_list sy' = sy_list sy /\ msg = None /\
       (sy_drv sy' = sy_drv sy \/ limits_refused (ne_disk env) /\
          exists h, ve_kzalloc (ne_create env) = Some h /\
            sy_drv sy' = set_dv_heap (disk_objs h ∪ dv_heap (sy_drv sy)) (sy_drv sy))).
Proof.
  intros Hfl Hop Hsz opts Hf Hk Hfit. unfold handle_cmd_add_dev, ubbd_mgmt_need_fault.
  rewrite Hop, Hfl, Hsz. fold opts.
  destruct (add_dev_result (ne_create env) (ne_disk env) opts (sy_drv sy) (w_km (sy_world sy)) Hf Hk)
    as (r & s' & E & Hr).
  rewrite E. cbn [obind]. rewrite set_w_km_same. destruct r as [e|o].
  { destruct Hr as [He Hr]. do 3 eexists. split; [done|]. simpl. split_and!; try done. }
  destruct Hr as [Ha Hu]. cbv zeta.
  destruct (add_done_reply (ne_renv env) opts (ne_disk env) o _ _ _ Ha Hu Hfit) as (ret & msg & E2 & H0).
  rewrite E2. cbn [obind]. destruct (Z.eqb_spec ret 0) as [->|Hne].
  - destruct (H0 eq_refl) as (b & -> & Hb). do 3 eexists. split; [done|]. simpl. split_and!; try done.
    intros _. exists o, b. done.
  - destruct (ad_prepared _ _ _ Ha) as (Hst & Hkr & _ & _ & _ & Hin & k & Hdk & _).
    rewrite (remove_last (sy_drv sy) o s' (w_km (sy_world sy)) k) by eauto using added_no_pages. cbn [obind].
    rewrite set_w_km_same. do 3 eexists. split; [done|].
    cbn [sy_list sy_unlisted]. rewrite put_back_last. split_and!; try done. intros _. split_and!; auto.
Qed.

(** C18: the add-dev command is all or nothing, one leak apart.  With its
    attributes present it never faults; when it reports success the list has
    gained exactly the new device, prepared, and the reply describes it
    completely; when it reports an error, the reply could not be built or sent
    included, the list, the ids, the objects, the kring devices, the pages and
    the module references are what they were, except that when the limits of the
    queue are refused the disk and the tag set of the device stay allocated. *)
Theorem add_dev_command_all_or_nothing (env : nl_env) (attrs : genl_attrs) (sy : system)
    (features size : Z) (dopts : dev_opts) :
  at_flags attrs = Some features -> at_dev_opts attrs = Some (inr dopts) ->
  op_dev_size dopts = Some size ->
  let opts := add_dev_opts env features size dopts in
  env_fresh (ne_create env) (sy_drv sy) -> disk_env_ok (ne_disk env) (Z.to_nat (ao_num_queues opts)) ->
  reply_fits opts (ne_disk env) ->
  exists ret msg sy', handle_cmd_add_dev env attrs sy = Ok (ret, msg, sy') /\
    sy_world sy' = sy_world sy /\ sy_unlisted sy' = sy_unlisted sy /\
    (ret = 0 -> exists o b, sy_list sy' = sy_list sy ++ [(o, [])] /\ added opts (ne_disk env) o /\
       up (sy_drv sy) o (sy_drv sy') (disk_objs (o_h o)) /\
       msg = Some b /\ skb_toks b = status_tokens (dv_kring (sy_drv sy')) o) /\
    (ret <> 0 -> sy_list sy' = sy_list sy /\ msg = None /\
       (sy_drv sy' = sy_drv sy \/ limits_refused (ne_disk env) /\
          exists h, ve_kzalloc (ne_create env) = Some h /\
            sy_drv sy' = set_dv_heap (disk_objs h ∪ dv_heap (sy_drv sy)) (sy_drv sy))).
Proof. apply add_dev_command_spec. Qed.

Lemma find_app_fresh dev_id (l : list (device_obj * list Z)) x :
  (forall y, y ∈ l -> d_dev_id (o_dev y.1) <> dev_id) -> d_dev_id (o_dev x.1) = dev_id ->
  find_ubbd_dev dev_id (l ++ [x]) = Some (length l).
Proof.
  intros Hl Hx. induction l as [|y l IH]; simpl.
  - by rewrite Hx, Z.eqb_refl.
  - rewrite (proj2 (Z.eqb_neq _ _) (Hl y ltac:(by left))). rewrite IH; [done|].
    intros z Hz. apply Hl. by right.
Qed.

Lemma find_app_fresh_lookup (l : list (device_obj * list Z)) x : (l ++ [x]) !! length l = Some x.
Proof. by rewrite lookup_app_r, Nat.sub_diag by lia. Qed.

(** C26: adding a device and removing it brings everything back.  After a
    successful add-dev command, the remove-dev command for the id of the new
    device finds it (the id is new among the listed devices) and returns 0,
    and the state of the driver, its lists and its world are exactly those
    before the two commands. *)
Theorem add_remove_roundtrip (env env' : nl_env) (attrs attrs' : genl_attrs) (sy : system)
    (features size : Z) (dopts : dev_opts) :
  at_flags attrs = Some features -> at_dev_opts attrs = Some (inr dopts) ->
  op_dev_size dopts = Some size ->
  let opts := add_dev_opts env features size dopts in
  env_fresh (ne_create env) (sy_drv sy) -> disk_env_ok (ne_disk env) (Z.to_nat (ao_num_queues opts)) ->
  reply_fits opts (ne_disk env) ->
  (forall x, x ∈ sy_list sy -> d_dev_id (o_dev x.1) ∈ dv_ids (sy_drv sy)) ->
  forall msg sy1 o, handle_cmd_add_dev env attrs sy = Ok (0, msg, sy1) ->
  last (sy_list sy1) = Some (o, []) -> at_dev_id attrs' = Some (d_dev_id (o_dev o)) ->
  handle_cmd_remove_dev env' attrs' sy1 = Ok (0, None, sy).
Proof.
  intros Hfl Hop Hsz opts Hf Hk Hfit Hids msg sy1 o Hadd Hlast Hid.
  destruct (add_dev_command_spec env attrs sy features size dopts Hfl Hop Hsz Hf Hk Hfit)
    as (ret & msg' & sy' & E & Ew & Eu & H0 & _).
  rewrite Hadd in E. injection E as <- <- <-. destruct (H0 eq_refl) as (o' & b & El & Ha & Hu & _).
  rewrite El, last_snoc in Hlast. injection Hlast as ->.
  destruct (ad_prepared _ _ _ Ha) as (Hst & Hkr & _ & Hil & _ & Hin & k & Hdk & _).
  unfold handle_cmd_remove_dev, with_dev. rewrite Hid. cbn [nla_get deref obind].
  rewrite El. rewrite (find_app_fresh (d_dev_id (o_dev o))); [| |done].
  2: { intros x Hx Heq. apply (up_id _ _ _ _ Hu). rewrite <- Heq. by apply Hids. }
  unfold run_on. rewrite El, find_app_fresh_lookup. cbn [deref obind].
  set (o1 := set_o_dev (ubbd_dev_get (o_dev o)) o).
  assert (up (sy_drv sy) o1 (sy_drv sy1) (disk_objs (o_h o1))) as Hu1
    by (by apply (up_same _ o)).
  rewrite Ew. change (w_km (set_w_wq [] (sy_world sy))) with (w_km (sy_world sy)).
  destruct (remove_step _ _ _ (w_km (sy_world sy)) k Hu1) as (s1 & Hu2 & ->); [done|by left|done|].
  unfold dev_put at 1, ubbd_dev_put. simpl d_kref. rewrite Hkr. change (1 + 1 =? 1) with false.
  cbn [obind deref]. rewrite (dev_put_clean (sy_drv sy) _ s1 ∅).
  - cbn [obind]. rewrite (left_id_L ∅ (∪)). unfold put_back. rewrite El, Eu, delete_middle.
    rewrite (right_id_L [] (++)). do 2 f_equal. destruct sy as [s l u w]. simpl. by destruct s, w.
  - by apply (up_same _ _ _ _ _ Hu2).
  - done.
  - exact (added_no_pages _ _ _ Ha).
Qed.

(** A command for a device that is not listed, or without its attributes,
    is refused without effect: -ENOENT for an unknown id in every command that
    names a device, -EINVAL when the attribute tests fail; and a negative
    parse result of the nested options is returned as it is. *)
Theorem commands_refused (env : nl_env) (attrs : genl_attrs) (sy : system) :
  (forall dev_id features q no, at_dev_id attrs = Some dev_id -> find_ubbd_dev dev_id (sy_list sy) = None ->
     at_flags attrs = Some features -> at_queue_id attrs = Some q -> at_dev_opts attrs = Some no ->
     forall cmd, cmd <> CMD_ADD_DEV -> cmd <> CMD_LIST ->
       ubbd_genl_ops cmd env attrs sy = Ok (- ENOENT, None, sy)) /\
  (at_dev_id attrs = None -> forall cmd, cmd = CMD_STATUS \/ cmd = CMD_CONFIG \/ cmd = CMD_QUEUE_OP ->
     ubbd_genl_ops cmd env attrs sy = Ok (- EINVAL, None, sy)) /\
  (at_flags attrs = None \/ at_dev_opts attrs = None ->
     ubbd_genl_ops CMD_ADD_DEV env attrs sy = Ok (- EINVAL, None, sy)) /\
  (forall features err, at_flags attrs = Some features -> at_dev_opts attrs = Some (inl err) ->
     ubbd_genl_ops CMD_ADD_DEV env attrs sy = Ok (err, None, sy)).
Proof.
  split_and!.
  - intros dev_id features q no Hd Hf Hfl Hq Ho cmd H1 H2.
    destruct cmd; try done; simpl;
      unfold handle_cmd_add_disk, handle_cmd_remove_disk, handle_cmd_remove_dev, handle_cmd_status,
        handle_cmd_config, handle_cmd_queue_op; rewrite ?Hd, ?Hfl, ?Hq, ?Ho; cbn [nla_get deref obind];
      unfold with_dev; by rewrite Hf.
  - intros Hd cmd [-> | [-> | ->]]; simpl; unfold handle_cmd_status, handle_cmd_config, handle_cmd_queue_op;
      by rewrite Hd.
  - intros [H | H]; simpl; unfold handle_cmd_add_dev; rewrite H; [|done]. by destruct (at_dev_opts attrs).
  - intros features err Hfl Ho. simpl. unfold handle_cmd_add_dev. by rewrite Hfl, Ho.
Qed.

(** C37: three commands read attributes they have not checked for: without the
    device id, add-disk, remove-disk and remove-dev dereference NULL, and so
    does remove-disk without its flags, whatever the state of the driver. *)
Theorem unchecked_attributes_fault (env : nl_env) (attrs : genl_attrs) (sy : system) :
  (at_dev_id attrs = None -> forall cmd, cmd = CMD_ADD_DISK \/ cmd = CMD_REMOVE_DISK \/ cmd = CMD_REMOVE_DEV ->
     ubbd_genl_ops cmd env attrs sy = Fault NULL_DEREF) /\
  (at_flags attrs = None -> ubbd_genl_ops CMD_REMOVE_DISK env attrs sy = Fault NULL_DEREF).
Proof.
  split.
  - intros Hd cmd [-> | [-> | ->]]; simpl;
      unfold handle_cmd_add_disk, handle_cmd_remove_disk, handle_cmd_remove_dev; by rewrite Hd.
  - intros Hf. simpl. unfold handle_cmd_remove_disk. rewrite Hf. by destruct (at_dev_id attrs).
Qed.

(** The remove-disk command.  While the disk is open and the flags do not
    force it, it is refused with -EBUSY and nothing changes.  Otherwise it
    succeeds, from any state of the queues: the device is marked as being
    removed and so is every queue, a disk that was running has been deleted,
    under force no request is left inflight, the invariant of the queues holds,
    the reference taken is dropped and no other device is touched. *)
Theorem remove_disk_command (env : nl_env) (attrs : genl_attrs) (sy : system) (dev_id flags : Z) (i : nat)
    (o : device_obj) (wq : list Z) (FB : gset Z) :
  let w := set_w_wq wq (sy_world sy) in
  let force := negb (Z.land flags UBBD_ATTR_FLAGS_REMOVE_FORCE =? 0) in
  at_dev_id attrs = Some dev_id -> at_flags attrs = Some flags ->
  find_ubbd_dev dev_id (sy_list sy) = Some i -> sy_list sy !! i = Some (o, wq) ->
  0 < d_kref (o_dev o) -> d_in_list (o_dev o) = true -> intrans (o_dev o) = false ->
  dev_inv (d_queues (o_dev o)) w FB -> works_ok (d_queues (o_dev o)) w FB wq ->
  (d_status (o_dev o) = UBBD_DEV_KSTATUS_RUNNING -> is_Some (d_disk (o_dev o))) ->
  exists ret sy', handle_cmd_remove_disk env attrs sy = Ok (ret, None, sy') /\
    (force = false /\ d_open_count (o_dev o) <> 0 -> ret = - EBUSY /\ sy' = sy) /\
    (force = true \/ d_open_count (o_dev o) = 0 -> ret = 0 /\ sy_drv sy' = sy_drv sy /\
       sy_unlisted sy' = sy_unlisted sy /\
       exists o' wq' w', sy_list sy' = <[i := (o', wq')]> (sy_list sy) /\
         dev_inv (d_queues (o_dev o')) w' FB /\ sy_world sy' = set_w_wq (w_wq (sy_world sy)) w' /\
         d_kref (o_dev o') = d_kref (o_dev o) /\ d_status (o_dev o') = UBBD_DEV_KSTATUS_REMOVING /\
         Forall (removed force) (d_queues (o_dev o')) /\
         (forall k, d_disk (o_dev o') = Some k -> d_status (o_dev o) = UBBD_DEV_KSTATUS_RUNNING ->
            dk_phase k = DISK_DELETED)).
Proof.
  intros w force Hid Hfl Hfind Hi Hk Hl Hin Hd Hw Hdisk. unfold handle_cmd_remove_disk, with_dev.
  rewrite Hid, Hfl. cbn [nla_get deref obind]. fold force. rewrite Hfind. unfold run_on. rewrite Hi.
  cbn [deref obind]. set (o1 := set_o_dev (ubbd_dev_get (o_dev o)) o).
  change (d_open_count (o_dev o1)) with (d_open_count (o_dev o)). fold w.
  destruct (negb force && negb (d_open_count (o_dev o) =? 0)) eqn:Eb; cbn [obind deref].
  { change (w_km w) with (w_km (sy_world sy)).
    destruct (put_after_get sy i o wq Hi Hk Hl) as [E1 E2]. fold o1 in E1. rewrite E1. cbn [obind].
    do 2 eexists. split; [done|]. apply andb_true_iff in Eb as [Eb1 Eb2].
    apply negb_true_iff in Eb1, Eb2. apply Z.eqb_neq in Eb2. split; [|intros [?|?]; congruence].
    intros _. split; [done|]. refine (eq_trans _ E2). unfold w. f_equal. }
  unfold ubbd_dev_state_get_lock. change (intrans (o_dev o1)) with (intrans (o_dev o)). rewrite Hin.
  cbn [obind]. unfold ubbd_dev_remove_disk, ubbd_dev_remove_queues.
  change (d_queues (o_dev o1)) with (d_queues (o_dev o)).
  destruct (remove_queues_from_spec force FB (length (d_queues (o_dev o))) 0 (d_queues (o_dev o)) w Hd Hw
    eq_refl) as (qs' & w' & E & Hd' & _ & El & Hall); [lia|].
  rewrite E. cbn [obind].
  destruct (remove_disk_status_spec (set_d_queues qs' (o_dev o1)) Hdisk) as (k' & -> & Hk').
  cbn [obind deref]. unfold dev_put, ubbd_dev_put. simpl d_kref.
  rewrite (proj2 (Z.eqb_neq (d_kref (o_dev o) + 1) 1)) by lia. cbn [obind].
  do 2 eexists. split; [done|]. rewrite set_w_km_same. unfold put_back. simpl d_in_list. rewrite Hl.
  simpl. split.
  { intros [-> Ho]. apply Z.eqb_neq in Ho. by rewrite Ho in Eb. }
  intros _. split_and!; try done. do 3 eexists. split; [done|]. simpl. split_and!; try done. lia.
Qed.
End replies.

(** ** Witnesses *)

Definition demo_nl_env (reply : Z) : nl_env := mk_nl_env demo_env (demo_disk_env 0) 2 (mk_reply_env true reply).
Definition demo_add_attrs : genl_attrs :=
  mk_attrs None None (Some 0) (Some (inr (mk_dev_opts None (Some 8192) (Some 4) None None))).
Definition demo_dev_attrs (id flags : Z) : genl_attrs := mk_attrs (Some id) (Some 0) (Some flags) (Some (inl 0)).
Definition demo_sys : system := mk_system demo_driver [] [] demo_read_world.

(** The driver after an add-dev command. *)
Definition demo_sys1 : system :=
  match handle_cmd_add_dev (demo_nl_env 0) demo_add_attrs demo_sys with
  | Ok (_, _, sy) => sy
  | Fault _ => demo_sys
  end.
Definition demo_o : device_obj :=
  match sy_list demo_sys1 with
  | x :: _ => x.1
  | [] => mk_dobj 0 (__ubbd_dev_create 0) [] 0 0
  end.

Lemma demo_disk_fits : reply_fits (add_dev_opts (demo_nl_env 0) 0 8192 (mk_dev_opts None (Some 8192) (Some 4) None None))
  (demo_disk_env 0).
Proof. vm_compute. reflexivity. Qed.

Lemma demo_add_eq :
  exists msg, handle_cmd_add_dev (demo_nl_env 0) demo_add_attrs demo_sys = Ok (0, msg, demo_sys1).
Proof.
  assert (match handle_cmd_add_dev (demo_nl_env 0) demo_add_attrs demo_sys with
          | Ok (r, _, _) => r | Fault _ => 1 end = 0) as E by (vm_compute; reflexivity).
  unfold demo_sys1. destruct (handle_cmd_add_dev _ _ demo_sys) as [[[r msg] sy]|]; [|discriminate E].
  exists msg. by rewrite E.
Qed.

Lemma demo_last : last (sy_list demo_sys1) = Some (demo_o, []).
Proof.
  assert (match sy_list demo_sys1 with [(_, [])] => true | _ => false end = true) as E
    by (vm_compute; reflexivity).
  unfold demo_o. destruct (sy_list demo_sys1) as [|[o wq] [|]]; simpl in *; try discriminate E.
  - destruct wq; [done|discriminate E].
  - destruct wq; discriminate E.
Qed.

Lemma demo_krings_live : krings_live (dv_kring (sy_drv demo_sys1)) demo_o.
Proof. apply (bool_decide_unpack _). vm_compute. exact I. Qed.

Lemma status_reply_complete_witness :
  exists b, handle_cmd_status (demo_nl_env 0) (demo_dev_attrs 1 0) demo_sys1 = Ok (0, Some b, demo_sys1) /\
    skb_toks b = status_tokens (dv_kring (sy_drv demo_sys1)) demo_o.
Proof.
  destruct (status_reply_complete (demo_nl_env 0) (demo_dev_attrs 1 0) demo_sys1 1 0 demo_o [])
    as (ret & msg & E & _ & H).
  - reflexivity.
  - vm_compute. reflexivity.
  - vm_compute. reflexivity.
  - vm_compute. reflexivity.
  - vm_compute. reflexivity.
  - apply demo_krings_live.
  - vm_compute. reflexivity.
  - destruct (H eq_refl) as (-> & b & -> & Hb). exists b. split; [exact E|exact Hb].
Defined.

Lemma list_reply_complete_witness :
  exists b, handle_cmd_list (demo_nl_env 0) demo_add_attrs demo_sys1 = Ok (0, Some b, demo_sys1) /\
    skb_toks b = list_tokens [1].
Proof.
  destruct (list_reply_complete (demo_nl_env 0) demo_add_attrs demo_sys1) as (ret & msg & E & _ & H).
  - vm_compute. reflexivity.
  - destruct (H eq_refl) as (-> & b & -> & Hb). exists b. split; [exact E|exact Hb].
Defined.

(** The reply of this one cannot be sent. *)
Lemma add_dev_command_all_or_nothing_witness :
  exists msg sy', handle_cmd_add_dev (demo_nl_env (- ENOMEM)) demo_add_attrs demo_sys = Ok (- ENOMEM, msg, sy') /\
    sy_list sy' = [] /\ sy_drv sy' = demo_driver.
Proof.
  destruct (add_dev_command_all_or_nothing (demo_nl_env (- ENOMEM)) demo_add_attrs demo_sys 0 8192
    (mk_dev_opts None (Some 8192) (Some 4) None None) eq_refl eq_refl eq_refl demo_env_fresh
    (demo_disk_env_ok 0) demo_disk_fits) as (ret & msg & sy' & E & _ & _ & _ & H).
  assert (match handle_cmd_add_dev (demo_nl_env (- ENOMEM)) demo_add_attrs demo_sys with
          | Ok (r, _, _) => r | Fault _ => 0 end = - ENOMEM) as Er by (vm_compute; reflexivity).
  rewrite E in Er. subst ret. exists msg, sy'. split; [exact E|].
  destruct H as (H1 & _ & H2); [discriminate|]. split; [exact H1|].
  destruct H2 as [H2|[[_ [_ H2]] _]]; [exact H2|]. contradiction H2. reflexivity.
Defined.

Lemma add_remove_roundtrip_witness :
  handle_cmd_remove_dev (demo_nl_env 0) (demo_dev_attrs 1 0) demo_sys1 = Ok (0, None, demo_sys).
Proof.
  destruct demo_add_eq as [msg E].
  apply (add_remove_roundtrip (demo_nl_env 0) (demo_nl_env 0) demo_add_attrs (demo_dev_attrs 1 0) demo_sys 0 8192
    (mk_dev_opts None (Some 8192) (Some 4) None None) eq_refl eq_refl eq_refl demo_env_fresh
    (demo_disk_env_ok 0) demo_disk_fits (fun x Hx => match not_elem_of_nil x Hx with end) msg demo_sys1 demo_o E).
  - exact demo_last.
  - vm_compute. reflexivity.
Defined.

Lemma commands_refused_witness :
  ubbd_genl_ops CMD_QUEUE_OP (demo_nl_env 0) (demo_dev_attrs 9 0) demo_sys1 = Ok (- ENOENT, None, demo_sys1).
Proof.
  apply (proj1 (commands_refused (demo_nl_env 0) (demo_dev_attrs 9 0) demo_sys1) 9 0 0 (inl 0));
    [reflexivity|vm_compute; reflexivity|reflexivity..|discriminate|discriminate].
Defined.

Lemma unchecked_attributes_fault_witness :
  ubbd_genl_ops CMD_REMOVE_DEV (demo_nl_env 0) demo_add_attrs demo_sys1 = Fault NULL_DEREF.
Proof.
  apply (proj1 (unchecked_attributes_fault (demo_nl_env 0) demo_add_attrs demo_sys1)); [reflexivity|].
  right. right. reflexivity.
Defined.

(** A running device of two queues, with a read waiting on its work queue. *)
Definition demo_running_sys : system :=
  mk_system demo_driver [(mk_dobj 100 demo_device [] 0 30, [7])] [] demo_pending_world.

Lemma remove_disk_command_witness :
  exists sy', handle_cmd_remove_disk (demo_nl_env 0) (demo_dev_attrs 0 UBBD_ATTR_FLAGS_REMOVE_FORCE)
      demo_running_sys = Ok (0, None, sy') /\
    exists o' wq', sy_list sy' = [(o', wq')] /\ d_kref (o_dev o') = 1.
Proof.
  destruct (remove_disk_command (demo_nl_env 0) (demo_dev_attrs 0 UBBD_ATTR_FLAGS_REMOVE_FORCE)
    demo_running_sys 0 UBBD_ATTR_FLAGS_REMOVE_FORCE 0 (mk_dobj 100 demo_device [] 0 30) [7] demo_foreign
    eq_refl eq_refl eq_refl eq_refl eq_refl eq_refl eq_refl demo_device_inv demo_device_works
    ltac:(simpl; eauto)) as (ret & sy' & E & _ & H).
  destruct H as (-> & _ & _ & o' & wq' & w' & El & _ & _ & Ek & _); [left; reflexivity|].
  exists sy'. split; [exact E|]. exists o', wq'. split; [exact El|exact Ek].
Defined.
