(* ===== verification/GenlOps.v ===== *)
(** * The command tables of [ubbd_nl.c] (671-817)

    The three declarations of [ubbd_genl_ops], one per form of the kernel's
    generic netlink, as the lists they are: every build offers the same
    commands, each once, to the administrator only, with the handlers that
    [Netlink.ubbd_genl_ops] dispatches to. *)

From S2P Require Import Prelude Abi Request Kring Create Netlink.

#[export] Instance genl_cmd_eq_dec : EqDecision genl_cmd.
Proof. solve_decision. Defined.

#[export] Program Instance genl_cmd_finite : finite.Finite genl_cmd := {
  finite.enum := [CMD_ADD_DEV; CMD_ADD_DISK; CMD_REMOVE_DISK; CMD_REMOVE_DEV;
    CMD_STATUS; CMD_CONFIG; CMD_QUEUE_OP; CMD_LIST]
}.
Next Obligation. by apply (bool_decide_unpack _). Qed.
Next Obligation. intros []; by apply (bool_decide_unpack _). Qed.

Section tables.
Context `{A : UbbdAbi} `{K : KernelApi} `{M : KernelMem} `{I : KernelIdr} `{D : KernelIda}
  `{T : UbbdAttrs} `{N : NetlinkApi}.

(** An entry: what the core validates, whether it asks for CAP_NET_ADMIN
    ([GENL_ADMIN_PERM]), and the handler. *)
Inductive validation : Type :=
| GENL_DONT_VALIDATE_STRICT
| GENL_DONT_VALIDATE_DUMP.

Record genl_op : Type := mk_genl_op {
  op_cmd : genl_cmd;
  op_validate : list validation;
  op_admin : bool;
  op_doit : nl_env -> genl_attrs -> system -> outcome (Z * option skb * system);
}.

Definition small_ops : list genl_op :=
  [mk_genl_op CMD_ADD_DEV [] true handle_cmd_add_dev;
   mk_genl_op CMD_ADD_DISK [] true handle_cmd_add_disk;
   mk_genl_op CMD_REMOVE_DISK [] true handle_cmd_remove_disk;
   mk_genl_op CMD_REMOVE_DEV [] true handle_cmd_remove_dev;
   mk_genl_op CMD_STATUS [] true handle_cmd_status;
   mk_genl_op CMD_CONFIG [] true handle_cmd_config;
   mk_genl_op CMD_QUEUE_OP [] true handle_cmd_queue_op;
   mk_genl_op CMD_LIST [] true handle_cmd_list].

Definition validate_ops : list genl_op :=
  let v := [GENL_DONT_VALIDATE_STRICT; GENL_DONT_VALIDATE_DUMP] in
  [mk_genl_op CMD_ADD_DEV v true handle_cmd_add_dev;
   mk_genl_op CMD_ADD_DISK v true handle_cmd_add_disk;
   mk_genl_op CMD_REMOVE_DISK v true handle_cmd_remove_disk;
   mk_genl_op CMD_REMOVE_DEV v true handle_cmd_remove_dev;
   mk_genl_op CMD_STATUS v true handle_cmd_status;
   mk_genl_op CMD_CONFIG v true handle_cmd_config;
   mk_genl_op CMD_QUEUE_OP v true handle_cmd_queue_op;
   mk_genl_op CMD_LIST v true handle_cmd_list].

Definition plain_ops : list genl_op :=
  [mk_genl_op CMD_ADD_DEV [] true handle_cmd_add_dev;
   mk_genl_op CMD_ADD_DISK [] true handle_cmd_add_disk;
   mk_genl_op CMD_REMOVE_DISK [] true handle_cmd_remove_disk;
   mk_genl_op CMD_REMOVE_DEV [] true handle_cmd_remove_dev;
   mk_genl_op CMD_STATUS [] true handle_cmd_status;
   mk_genl_op CMD_CONFIG [] true handle_cmd_config;
   mk_genl_op CMD_QUEUE_OP [] true handle_cmd_queue_op;
   mk_genl_op CMD_LIST [] true handle_cmd_list].

(** The three builds: [HAVE_GENL_SMALL_OPS], [HAVE_GENL_VALIDATE]. *)
Definition genl_ops (small validate : bool) : list genl_op :=
  if small then small_ops else if validate then validate_ops else plain_ops.

(** In every build each command has exactly one entry, asks for the
    administrator, and has the handler [ubbd_genl_ops] dispatches to. *)
Theorem genl_ops_same (small validate : bool) :
  NoDup (op_cmd <$> genl_ops small validate) /\
  (forall cmd, exists op, op ∈ genl_ops small validate /\ op_cmd op = cmd) /\
  Forall (fun op => op_admin op = true /\ op_doit op = ubbd_genl_ops (op_cmd op)) (genl_ops small validate).
Proof.
  assert (op_cmd <$> genl_ops small validate = finite.enum genl_cmd) as E by (by destruct small, validate).
  split_and!.
  - rewrite E. apply finite.NoDup_enum.
  - intros cmd. pose proof (finite.elem_of_enum cmd) as Hin. rewrite <- E in Hin.
    apply list_elem_of_fmap in Hin as (op & -> & Hop). by exists op.
  - destruct small, validate; by repeat constructor.
Qed.
End tables.
