(* ===== verification/System.v ===== *)
(** * The driver as a whole

    One machine for all the devices of the driver: the netlink commands
    ([ubbd_genl_ops]), the background events of a device's life (its add-disk
    work, opens, mappings), the opens and mappings of its queues by
    backends and the requests in operation.  Each step runs the handlers of
    [Netlink], [Lifecycle], [Kring] and [Operation] on the shared state [system]: the list
    of devices, the devices that have left it, the driver's tables and objects,
    the request table, the page allocator and the memory.

    The last reference of a device destroys it ([ubbd_dev_release]), whichever
    step drops it. *)

From S2P Require Import Prelude Abi Ring Pages Request Queue Kring Device DeviceInv Operation OperationProps Lifecycle.
From S2P Require Import Create CreateInv CreateProps Netlink NetlinkProps.

(** ** The machine *)

Section machine.
Context `{A : UbbdAbi} `{K : KernelApi} `{M : KernelMem} `{I : KernelIdr} `{D : KernelIda}
  `{T : UbbdAttrs} `{N : NetlinkApi}.

Abbreviation listed := (device_obj * list Z)%type.

(** The add-disk work in progress and the mappings of each device, by its
    address; the requests refused after their start, as in [Operation]. *)
Record sys : Type := mk_sys {
  s_sys : system;
  s_life : Z -> option bool * Z;
  s_refused : list Z;
}.

Definition set_life (h : Z) (v : option bool * Z) (f : Z -> option bool * Z) : Z -> option bool * Z :=
  fun h' => if decide (h' = h) then v else f h'.

(** What a backend does to a queue through its kring device. *)
Inductive user_act : Type :=
| UserOpen (inode : Z)
| UserBackend (b : bool) (pid : Z).

Inductive sys_op : Type :=
| SCmd (cmd : genl_cmd) (env : nl_env) (attrs : genl_attrs)
| SLife (h : Z) (op : life_op)
| SIo (h : Z) (op : io_op)
| SUser (h : Z) (i : nat) (a : user_act).

(** *** Running something on the device at an address *)

Definition find_obj (h : Z) (l : list listed) : option (nat * listed) :=
  list_find (fun x => o_h x.1 = h) l.

(** What the device becomes ([None] once destroyed), and the shared state. *)
Definition on_obj (h : Z) (f : listed -> driver -> world -> outcome (option listed * driver * world))
    (sy : system) : outcome system :=
  match find_obj h (sy_list sy) with
  | Some (i, x) =>
      let* '(ro, s, w) := f x (sy_drv sy) (sy_world sy) in
      Ok (mk_system s match ro with Some x => <[i := x]> (sy_list sy) | None => delete i (sy_list sy) end
            (sy_unlisted sy) w)
  | None =>
      let* '(i, x) := deref (find_obj h (sy_unlisted sy)) WILD_ACCESS in
      let* '(ro, s, w) := f x (sy_drv sy) (sy_world sy) in
      Ok (mk_system s (sy_list sy)
            match ro with Some x => <[i := x]> (sy_unlisted sy) | None => delete i (sy_unlisted sy) end w)
  end.

(** The device found there, or the state as it is. *)
Definition obj_at (h : Z) (sy : system) : option listed :=
  match find_obj h (sy_list sy) with
  | Some (_, x) => Some x
  | None => snd <$> find_obj h (sy_unlisted sy)
  end.

Definition life_state (x : listed) (lf : option bool * Z) : life := mk_life (Some (o_dev x.1)) lf.1 lf.2.

(** A step of the device's life; the device goes with its last reference. *)
Definition life_act (l : life) (x : listed) (s : driver) (w : world)
  : outcome (option listed * driver * world) :=
  match lf_dev l with
  | Some d => Ok (Some (set_o_dev d x.1, x.2), s, w)
  | None => let* '(s, km) := ubbd_dev_destroy x.1 s (w_km w) in Ok (None, s, set_w_km km w)
  end.

Definition io_state (x : listed) (w : world) (refused : list Z) : io :=
  mk_io (o_dev x.1) (set_w_wq x.2 w) refused.

Definition io_act (r : io) (x : listed) (s : driver) (w : world)
  : outcome (option listed * driver * world) :=
  Ok (Some (set_o_dev (io_dev r) x.1, w_wq (io_world r)), s, set_w_wq (w_wq w) (io_world r)).

(** A backend opens the kring device of a queue, maps or unmaps it. *)
Definition user_queue (a : user_act) (q : ubbd_queue) : ubbd_queue :=
  match a with
  | UserOpen inode => ubbd_kring_dev_open inode q
  | UserBackend b pid => set_q_backend b pid q
  end.

Definition user_dev (i : nat) (a : user_act) (d : ubbd_device) : outcome ubbd_device :=
  let* q := deref (d_queues d !! i) OUT_OF_BOUNDS in
  Ok (set_d_queues (<[i := user_queue a q]> (d_queues d)) d).

Definition sys_step (op : sys_op) (s : sys) : outcome sys :=
  match op with
  | SCmd cmd env attrs =>
      let* '(_, _, sy) := ubbd_genl_ops cmd env attrs (s_sys s) in
      Ok (mk_sys sy (s_life s) (s_refused s))
  | SLife h op =>
      let* x := deref (obj_at h (s_sys s)) WILD_ACCESS in
      let* l := life_step op (life_state x (s_life s h)) in
      let* sy := on_obj h (life_act l) (s_sys s) in
      Ok (mk_sys sy (set_life h (lf_work l, lf_maps l) (s_life s)) (s_refused s))
  | SIo h op =>
      let* x := deref (obj_at h (s_sys s)) WILD_ACCESS in
      let* r := io_step op (io_state x (sy_world (s_sys s)) (s_refused s)) in
      let* sy := on_obj h (io_act r) (s_sys s) in
      Ok (mk_sys sy (s_life s) (io_refused r))
  | SUser h i a =>
      let* sy := on_obj h (fun x s w =>
        let* d := user_dev i a (o_dev x.1) in Ok (Some (set_o_dev d x.1, x.2), s, w)) (s_sys s) in
      Ok (mk_sys sy (s_life s) (s_refused s))
  end.

(** *** What can happen *)

(** The requests a device holds: waiting for a work, or inflight. *)
Definition held_of (x : listed) : list Z := x.2 ++ inflight_all (d_queues (o_dev x.1)).

Definition all_devs (sy : system) : list listed := sy_list sy ++ sy_unlisted sy.

(** Every queue has been opened by a backend. *)
Definition opened (d : ubbd_device) : Prop := Forall (fun q => is_Some (q_inode (q_pool q))) (d_queues d).

(** The device a command names. *)
Definition target (attrs : genl_attrs) (sy : system) : option listed :=
  dev_id ← at_dev_id attrs; i ← find_ubbd_dev dev_id (sy_list sy); sy_list sy !! i.

(** A command comes with the attributes its handler reads unchecked, from a
    manager that lets a queued add-disk work start before its next add or
    remove of the device.  The kernel gives unused addresses; [del_gendisk],
    when the removal is not forced, returns once no request is held. *)
Definition cmd_can (cmd : genl_cmd) (env : nl_env) (attrs : genl_attrs) (sy : system) : Prop :=
  match cmd with
  | CMD_ADD_DEV =>
      env_fresh (ne_create env) (sy_drv sy) /\
      forall features size dopts, at_flags attrs = Some features -> at_dev_opts attrs = Some (inr dopts) ->
        op_dev_size dopts = Some size ->
        let opts := add_dev_opts env features size dopts in
        disk_env_ok (ne_disk env) (Z.to_nat (ao_num_queues opts)) /\ reply_fits opts (ne_disk env) /\
        0 <= ao_data_pages opts < 2 ^ 31 /\ 0 < ao_num_queues opts < 2 ^ 31
  | CMD_ADD_DISK =>
      is_Some (at_dev_id attrs) /\
      forall x, target attrs sy = Some x -> d_work_pending (o_dev x.1) = false
  | CMD_REMOVE_DISK =>
      is_Some (at_dev_id attrs) /\ is_Some (at_flags attrs) /\
      forall x, target attrs sy = Some x -> intrans (o_dev x.1) = false /\
        (forall flags, at_flags attrs = Some flags -> Z.land flags UBBD_ATTR_FLAGS_REMOVE_FORCE = 0 ->
           held_of x = [])
  | CMD_REMOVE_DEV =>
      is_Some (at_dev_id attrs) /\
      forall x, target attrs sy = Some x ->
        intrans (o_dev x.1) = false /\ d_work_pending (o_dev x.1) = false
  | CMD_QUEUE_OP => forall id, at_queue_id attrs = Some id -> - 2 ^ 31 <= id < 2 ^ 31
  | CMD_STATUS | CMD_CONFIG | CMD_LIST => True
  end.

(** Events of a device's life that are not commands. *)
Definition is_event (op : life_op) : bool :=
  match op with LAddDisk | LRemoveDisk | LRemoveDev => false | _ => true end.

(** What happens to a device between commands: requests arrive on an added
    disk, time out while it is running and not in transition, and the backend
    works on queues it has opened. *)
Definition io_event (op : io_op) (d : ubbd_device) : Prop :=
  match op with
  | IOSubmit _ _ _ => exists k, d_disk d = Some k /\ dk_phase k = DISK_ADDED
  | IOWork _ | IOBackend _ _ | IOData _ | IOComplete _ => True
  | IOTimeout _ => d_status d = UBBD_DEV_KSTATUS_RUNNING
  | IOStop _ | IOStart _ | IOConfig _ | IORemoveDisk _ => False
  end.

Definition sys_can (FB : gset Z) (op : sys_op) (s : sys) : Prop :=
  match op with
  | SCmd cmd env attrs => cmd_can cmd env attrs (s_sys s)
  | SLife h op =>
      is_event op = true /\ exists x, obj_at h (s_sys s) = Some x /\ can true op (life_state x (s_life s h))
  | SIo h op =>
      exists x, obj_at h (s_sys s) = Some x /\ opened (o_dev x.1) /\ io_event op (o_dev x.1) /\
        io_can FB op (io_state x (sy_world (s_sys s)) (s_refused s)) /\
        forall tag, tag ∈ new_tags op -> tag ∉ concat (map held_of (all_devs (s_sys s)))
  | SUser h i a =>
      exists x, obj_at h (s_sys s) = Some x /\ (i < length (d_queues (o_dev x.1)))%nat
  end.

Definition submits (op : sys_op) : bool := match op with SIo _ op => is_submit op | _ => false end.

(** The driver [s0] with no device; the pages allocated are [P0]. *)
Definition sys_start (FB P0 : gset Z) (s0 : driver) (s : sys) : Prop :=
  exists w, s_sys s = mk_system s0 [] [] w /\ (forall h, s_life s h = (None, 0)) /\ s_refused s = [] /\
    live (w_km w) = P0 /\ FB ⊆ P0 /\ w_wq w = [] /\ w_blk w = [].

(** [sys_reach FB P0 s0 n s]: [s] is reached with [n] submissions. *)
Inductive sys_reach (FB P0 : gset Z) (s0 : driver) : Z -> sys -> Prop :=
| sys_reach_start s : sys_start FB P0 s0 s -> sys_reach FB P0 s0 0 s
| sys_reach_next n s op s' :
    sys_reach FB P0 s0 n s -> sys_can FB op s -> sys_step op s = Ok s' ->
    sys_reach FB P0 s0 (if submits op then n + 1 else n) s'.
End machine.
