(* ===== verification/SystemInv.v ===== *)
(** * The invariant of the driver

    What holds of every device ([dev_ok]) and of all of them together
    ([sys_inv]): the resources of the driver are exactly those of its devices
    ([owned]), no data page, request, id or address belongs to two of them, and
    every started request is accounted for.  The invariant does not depend on
    the order of the devices, so a step on one of them is a step on the head of
    a list. *)

From S2P Require Import Prelude Abi Ring Pages Request Balance Queue Kring KringMap Device DeviceInv DeviceProps.
From S2P Require Import Operation OperationProps Lifecycle Create CreateInv CreateProps Netlink NetlinkProps System.

(** ** The queues of one device in the shared state *)

Section queues.
Context `{A : UbbdAbi} `{K : KernelApi} `{M : KernelMem}.
Implicit Types (q : ubbd_queue) (qs : list ubbd_queue) (d : ubbd_device) (w : world).

(** A queue as if a backend had opened it. *)
Definition with_inode q : ubbd_queue := ubbd_kring_dev_open (default 0 (q_inode (q_pool q))) q.
Definition as_opened d : ubbd_device := set_d_queues (map with_inode (d_queues d)) d.

(** The part of [io_inv] that is the device's own. *)
Record dev_core (FB : gset Z) (n : Z) d w : Prop := {
  dc_dev : dev_inv (d_queues d) w FB;
  dc_works : works_ok (d_queues d) w FB (w_wq w);
  dc_count i q : d_queues d !! i = Some q -> q_req_tid q + Z.of_nat (length (w_wq w)) <= n;
  dc_index i q : d_queues d !! i = Some q -> q_index q = Z.of_nat i;
  dc_compr i q : d_queues d !! i = Some q -> compr_ok (q_ring q);
  dc_hctx i r : d_hctx d !! i = Some (Some r) -> 0 <= r < Z.of_nat (length (d_queues d));
  dc_len : Z.of_nat (length (d_queues d)) < 2 ^ 31;
  dc_disk : d_status d = UBBD_DEV_KSTATUS_RUNNING -> is_Some (d_disk d);
}.
End queues.

Section queue_lemmas.
Context `{L : UbbdAbiLaws} `{KL : KernelApiLaws} `{ML : KernelMemLaws}.
Implicit Types (q : ubbd_queue) (qs : list ubbd_queue) (d : ubbd_device) (w : world) (F : gset Z).

Lemma io_inv_core FB n d w r : io_inv FB n (mk_io d w r) <-> dev_core FB n d w /\ ledger r (d_queues d) w.
Proof. split; [intros []; by split|intros [[] ?]; by split]. Qed.

Lemma elem_of_pages_in qs pg : pg ∈ pages_in qs <-> exists i q, qs !! i = Some q /\ owns (q_pool q) pg.
Proof.
  unfold pages_in. rewrite elem_of_union_list. split.
  - intros (X & HX & Hpg). apply list_elem_of_fmap in HX as (q & -> & Hq).
    apply list_elem_of_lookup in Hq as [i Hi]. exists i, q. split; [done|]. by apply elem_of_map_img in Hpg.
  - intros (i & q & Hi & Ho). eexists. split; [apply list_elem_of_fmap; exists q; split; [done|]|].
    + by eapply list_elem_of_lookup_2.
    + by apply elem_of_map_img.
Qed.

(** The pages of a device are live and not the block layer's. *)
Lemma dev_inv_pages qs w F : dev_inv qs w F -> pages_in qs ⊆ live (w_km w) /\ pages_in qs ## F.
Proof.
  intros [Hm _]. assert (forall pg, pg ∈ pages_in qs -> pg ∈ live (w_km w) /\ pg ∉ F) as H.
  { intros pg (i & q & Hi & j & Hj)%elem_of_pages_in.
    destruct (Hm i q Hi) as [(es & F0 & Hq & HF & _) _ _].
    destruct (pl_live _ _ _ _ (qi_pool _ _ _ _ _ Hq) j pg Hj) as (? & _ & ?). split; [done|]. set_solver. }
  split; [intros pg Hpg; by apply H|]. intros pg Hpg HF. by apply H in Hpg as [_ ?].
Qed.

(** The invariant of the queues against other foreign pages, in another
    world: the requests inflight are the same and the pages are still there. *)
Lemma dev_inv_frame qs w F w' F' :
  dev_inv qs w F ->
  (forall i q t, qs !! i = Some q -> t ∈ q_inflight q -> w_reqs w' !! t = w_reqs w !! t) ->
  pages_in qs ⊆ live (w_km w') -> F' ⊆ live (w_km w') -> pages_in qs ## F' ->
  (forall i q t e, qs !! i = Some q -> t ∈ q_inflight q -> w_reqs w !! t = Some e -> rq_ok (e_rq e) F') ->
  dev_inv qs w' F'.
Proof.
  intros [Hm Ht] Hr Hl HF Hd Hrq. split; [|done]. intros i q Hi.
  destruct (Hm i q Hi) as [(es & F0 & Hq & HFB & Ho) _ Hst].
  set (P := pages_in (delete i qs)).
  assert (forall pg, owns (q_pool q) pg -> pg ∈ pages_in qs) as Hown
    by (intros pg Hpg; apply elem_of_pages_in; eauto).
  assert (P ⊆ pages_in qs /\ forall pg, owns (q_pool q) pg -> pg ∉ P) as [HP1 HP2].
  { assert (forall j qj, delete i qs !! j = Some qj -> exists k, k <> i /\ qs !! k = Some qj) as Hdel.
    { intros j qj Hj. destruct (decide (j < i)%nat).
      - rewrite list_lookup_delete_lt in Hj by done. exists j. split; [lia|done].
      - rewrite list_lookup_delete_ge in Hj by lia. exists (S j). split; [lia|done]. }
    split.
    - intros pg (j & qj & Hj & Hpg)%elem_of_pages_in. destruct (Hdel j qj Hj) as (k & _ & Hk).
      apply elem_of_pages_in. eauto.
    - intros pg Hpg (j & qj & Hj & Hpg')%elem_of_pages_in. destruct (Hdel j qj Hj) as (k & Hne & Hk).
      pose proof (Ho k qj pg Hne Hk Hpg') as HF0. destruct Hpg as [x Hx].
      by destruct (pl_live _ _ _ _ (qi_pool _ _ _ _ _ Hq) x pg Hx) as (_ & _ & ?). }
  split; [|intros t e Hin; rewrite (Hr i q) by done; by apply (Hrq i q)|done].
  exists es, (F' ∪ P). split_and!.
  - eapply queue_inv_other; [exact Hq| | | |].
    + intros t Hin. by apply (Hr i q).
    + intros pg Hpg. split; [by apply Hl, Hown|]. rewrite not_elem_of_union. split; [|by apply HP2].
      intros Hx. by apply (Hd pg (Hown pg Hpg)).
    + set_solver.
    + intros t e Hin He. eapply rq_ok_mono; [by apply (Hrq i q t e)|set_solver].
  - set_solver.
  - intros j qj pg Hne Hj Hpg. apply elem_of_union_r. unfold P. apply elem_of_pages_in.
    destruct (decide (j < i)%nat).
    + exists j, qj. by rewrite list_lookup_delete_lt.
    + exists (pred j), qj. rewrite list_lookup_delete_ge by lia. by replace (S (pred j)) with j by lia.
Qed.

Lemma works_ok_mono qs w F F' tags : works_ok qs w F tags -> F ⊆ F' -> works_ok qs w F' tags.
Proof.
  intros [Hnd Hea Ht] HF. split; [done| |done]. intros t Hin.
  destruct (Hea t Hin) as [(e & op & i & q & H1 & H2 & H3 & H4 & H5 & H6) Hf]. split; [|done].
  exists e, op, i, q. split_and!; try done. by eapply rq_ok_mono.
Qed.

(** A device in a world where others have moved: its requests are the same,
    its pages are still there. *)
Lemma dev_core_frame FB F n n' d w w' :
  dev_core FB n d w -> n <= n' -> w_wq w' = w_wq w ->
  (forall t, t ∈ w_wq w ++ inflight_all (d_queues d) -> w_reqs w' !! t = w_reqs w !! t) ->
  pages_in (d_queues d) ⊆ live (w_km w') -> FB ⊆ F -> F ⊆ live (w_km w') -> pages_in (d_queues d) ## F ->
  dev_core F n' d w'.
Proof.
  intros [Hd Hw Hn Hx Hc Hh Hl Hk] Hle Ew Hr Hp HF HFl Hdis. split; try done.
  - eapply dev_inv_frame; try done.
    + intros i q t Hi Ht. apply Hr, elem_of_app. right. by eapply elem_of_inflight_all.
    + intros i q t e Hi Ht He. eapply rq_ok_mono; [|exact HF]. by apply (mb_rq _ _ _ _ _ (di_member _ _ _ Hd i q Hi) t).
  - rewrite Ew. apply (works_ok_mono _ _ FB); [|done]. eapply works_kept; [exact Hw|done| |].
    + intros t Ht. apply Hr, elem_of_app. by left.
    + intros i q Hi. exists q. split_and!; done || lia.
  - intros i q Hi. rewrite Ew. specialize (Hn i q Hi). lia.
Qed.

Lemma with_inode_id q : is_Some (q_inode (q_pool q)) -> with_inode q = q.
Proof. intros [v Hv]. unfold with_inode, ubbd_kring_dev_open. rewrite Hv. simpl.
  destruct q as [? ? ? p ? ? ? ? ? ? ?], p. simpl in *. by subst.
Qed.

Lemma as_opened_id d : opened d -> as_opened d = d.
Proof.
  intros Ho. unfold as_opened. replace (map with_inode (d_queues d)) with (d_queues d); [by destruct d|].
  unfold opened in Ho. induction Ho as [|q qs Hq _ IH]; [done|]. simpl. by rewrite with_inode_id, <- IH.
Qed.

Lemma pages_as_opened qs : pages_in (map with_inode qs) = pages_in qs.
Proof. by apply pages_in_map. Qed.

Lemma inflight_as_opened qs : inflight_all (map with_inode qs) = inflight_all qs.
Proof. unfold inflight_all. by rewrite map_map. Qed.
End queue_lemmas.

(** ** Commands on a device no backend has opened

    With nothing pending and nothing inflight a command touches no page, so it
    does the same to the device as to one that has been opened. *)

Section commute.
Context `{L : UbbdAbiLaws} `{KL : KernelApiLaws} `{ML : KernelMemLaws}.
Implicit Types (q : ubbd_queue) (qs : list ubbd_queue) (d : ubbd_device) (w : world).

Definition idle_qs qs : Prop := Forall (fun q => q_inflight q = []) qs.

Lemma idle_inflight qs : inflight_all qs = [] <-> idle_qs qs.
Proof.
  unfold idle_qs, inflight_all. induction qs as [|q qs IH]; [done|]. simpl.
  rewrite Forall_cons, <- IH. split; [by intros ?%app_eq_nil|by intros [-> ->]].
Qed.

Definition with_dev_of (f : ubbd_device -> ubbd_device) (m : outcome io) : outcome io :=
  let* s := m in Ok (mk_io (f (io_dev s)) (io_world s) (io_refused s)).

Lemma insert_with_inode i q qs :
  <[i := with_inode q]> (map with_inode qs) = map with_inode (<[i := q]> qs).
Proof. symmetry. apply list_fmap_insert. Qed.

Lemma find_running_with_inode qs i : find_running (map with_inode qs) i = find_running qs i.
Proof. revert i. induction qs as [|q qs IH]; intros i; [done|]. simpl. by rewrite IH. Qed.

Lemma flush_none qs w : w_wq w = [] -> flush_workqueue qs w = Ok (qs, w).
Proof. intros E. unfold flush_workqueue. rewrite E. simpl. destruct w. simpl in *. by subst. Qed.

Lemma bad_id_as_opened d id : bad_queue_id (as_opened d) id = bad_queue_id d id.
Proof. unfold bad_queue_id. simpl. by rewrite length_map. Qed.

Lemma stop_as_opened d w r id :
  w_wq w = [] -> io_step (IOStop id) (mk_io (as_opened d) w r) =
    with_dev_of as_opened (io_step (IOStop id) (mk_io d w r)).
Proof.
  intros Ew. unfold io_step, ubbd_dev_stop_queue, with_dev_of. cbn [io_dev io_world io_refused].
  change (d_status (as_opened d)) with (d_status d). rewrite bad_id_as_opened.
  destruct (negb _); [done|]. destruct (bad_queue_id d id); [done|]. unfold queue_stop.
  cbn [as_opened d_queues set_d_queues]. rewrite list_lookup_fmap.
  destruct (d_queues d !! Z.to_nat id) as [q|] eqn:Eq; [|done]. cbn [fmap option_fmap option_map deref obind].
  change (q_status (with_inode q)) with (q_status q).
  destruct (_ || _); [done|]. destruct (negb _); [done|].
  unfold find_running_queue. cbn [as_opened d_queues set_d_queues d_hctx]. rewrite find_running_with_inode.
  change (set_q_status UBBD_QUEUE_KSTATUS_STOPPING (with_inode q)) with
    (with_inode (set_q_status UBBD_QUEUE_KSTATUS_STOPPING q)).
  assert (Z.to_nat id < length (d_queues d))%nat as Hlt by (by eapply lookup_lt_Some).
  destruct (d_hctx d !! Z.to_nat id) as [[?|]|]; [destruct (find_running _ _)|..];
    cbn [as_opened d_queues set_d_queues set_d_hctx];
    rewrite insert_with_inode, !flush_none by done; cbn [obind];
    rewrite list_lookup_fmap, list_lookup_insert_eq by done; cbn [fmap option_fmap option_map deref obind];
    change (q_inflight (with_inode (set_q_status UBBD_QUEUE_KSTATUS_STOPPING q))) with (q_inflight q);
    change (q_inflight (set_q_status UBBD_QUEUE_KSTATUS_STOPPING q)) with (q_inflight q);
    case_bool_decide; unfold as_opened; cbn [io_dev io_world io_refused d_queues set_d_queues];
    try change (set_q_status UBBD_QUEUE_KSTATUS_STOPPED (with_inode ?x)) with
      (with_inode (set_q_status UBBD_QUEUE_KSTATUS_STOPPED x));
    by rewrite insert_with_inode.
Qed.

Lemma start_as_opened d w r id :
  io_step (IOStart id) (mk_io (as_opened d) w r) = with_dev_of as_opened (io_step (IOStart id) (mk_io d w r)).
Proof.
  unfold io_step, ubbd_dev_start_queue, with_dev_of. cbn [io_dev io_world io_refused].
  change (d_status (as_opened d)) with (d_status d). rewrite bad_id_as_opened.
  destruct (negb _); [done|]. destruct (bad_queue_id d id); [done|]. unfold queue_start.
  cbn [as_opened d_queues set_d_queues]. rewrite list_lookup_fmap.
  destruct (d_queues d !! Z.to_nat id) as [q|] eqn:Eq; [|done]. cbn [fmap option_fmap option_map deref obind].
  change (q_status (with_inode q)) with (q_status q).
  destruct (_ =? _); [done|]. destruct (_ =? _); [done|].
  change (set_q_status UBBD_QUEUE_KSTATUS_RUNNING (with_inode q)) with
    (with_inode (set_q_status UBBD_QUEUE_KSTATUS_RUNNING q)).
  cbn [d_hctx as_opened set_d_queues]. rewrite insert_with_inode.
  by destruct (d_hctx d !! _) as [[?|]|]; [destruct (negb _)|..].
Qed.

Lemma config_as_opened d w r opts :
  io_step (IOConfig opts) (mk_io (as_opened d) w r) = with_dev_of as_opened (io_step (IOConfig opts) (mk_io d w r)).
Proof.
  unfold io_step, ubbd_dev_config, with_dev_of. cbn [io_dev io_world io_refused].
  change (d_status (as_opened d)) with (d_status d).
  destruct (negb _); [done|]. destruct (_ && _); [done|].
  assert (map (set_queue_reserve (co_dp_reserve_percnt opts)) (map with_inode (d_queues d)) =
    map with_inode (map (set_queue_reserve (co_dp_reserve_percnt opts)) (d_queues d))) as Em
    by (rewrite !map_map; done).
  destruct (negb (Z.land (co_flags opts) UBBD_DEV_CONFIG_FLAG_DP_RESERVE =? 0));
    destruct (negb (Z.land (co_flags opts) UBBD_DEV_CONFIG_FLAG_DEV_SIZE =? 0));
    cbn [as_opened set_d_queues d_queues d_disk]; try (destruct (d_disk d); [|done]); cbn [deref obind];
    unfold as_opened; cbn [set_d_disk set_d_queues d_queues io_dev]; by rewrite <- ?Em.
Qed.
Lemma remove_queue_idle force i qs w q :
  w_wq w = [] -> idle_qs qs -> qs !! i = Some q ->
  remove_queue force i qs w = Ok (<[i := set_q_status UBBD_QUEUE_KSTATUS_REMOVING q]> qs, w).
Proof.
  intros Ew Hi Hq. unfold remove_queue. rewrite Hq. cbn [deref obind]. rewrite flush_none by done. cbn [obind].
  destruct force; [|done]. rewrite list_lookup_insert_eq by (by eapply lookup_lt_Some). cbn [deref obind].
  assert (q_inflight q = []) as E by (unfold idle_qs in Hi; rewrite Forall_lookup in Hi; by apply (Hi i)).
  unfold ubbd_queue_end_inflight_reqs. change (q_inflight (set_q_status _ q)) with (q_inflight q). rewrite E.
  cbn [end_inflight_list obind]. rewrite list_insert_insert_eq. do 3 f_equal. destruct q. simpl in *. by subst.
Qed.

Lemma idle_insert qs i q : idle_qs qs -> q_inflight q = [] -> idle_qs (<[i := q]> qs).
Proof. intros Hi Hq. by apply Forall_insert. Qed.

Lemma idle_lookup qs i q : idle_qs qs -> qs !! i = Some q -> q_inflight q = [].
Proof. intros Hi. unfold idle_qs in Hi. rewrite Forall_lookup in Hi. apply Hi. Qed.

Lemma remove_queues_idle force n : forall i qs w, w_wq w = [] -> idle_qs qs -> (i + n <= length qs)%nat ->
  exists qs', remove_queues_from force n i qs w = Ok (qs', w) /\ idle_qs qs' /\
    remove_queues_from force n i (map with_inode qs) w = Ok (map with_inode qs', w).
Proof.
  induction n as [|n IH]; intros i qs w Ew Hi Hn; cbn [remove_queues_from]; [by exists qs|].
  destruct (lookup_lt_is_Some_2 qs i ltac:(lia)) as [q Hq].
  assert (idle_qs (map with_inode qs)) as Hi' by (by apply Forall_map).
  assert (map with_inode qs !! i = Some (with_inode q)) as Hq' by (by rewrite list_lookup_fmap, Hq).
  rewrite (remove_queue_idle _ _ _ _ q), (remove_queue_idle _ _ _ _ (with_inode q)) by done. cbn [obind].
  change (set_q_status UBBD_QUEUE_KSTATUS_REMOVING (with_inode q)) with
    (with_inode (set_q_status UBBD_QUEUE_KSTATUS_REMOVING q)). rewrite insert_with_inode.
  apply IH; [done| |by rewrite length_insert; lia].
  apply idle_insert; [done|]. by apply (idle_lookup _ _ _ Hi Hq).
Qed.

Lemma remove_as_opened d w r force :
  w_wq w = [] -> idle_qs (d_queues d) ->
  io_step (IORemoveDisk force) (mk_io (as_opened d) w r) =
    with_dev_of as_opened (io_step (IORemoveDisk force) (mk_io d w r)).
Proof.
  intros Ew Hi. unfold io_step, ubbd_dev_remove_disk, ubbd_dev_remove_queues, with_dev_of.
  cbn [io_dev io_world io_refused as_opened d_queues set_d_queues]. rewrite length_map.
  destruct (remove_queues_idle force (length (d_queues d)) 0 (d_queues d) w Ew Hi) as (qs' & -> & _ & ->); [lia|].
  cbn [obind]. unfold remove_disk_status, del_gendisk. simpl.
  destruct (_ =? _); [destruct (d_disk d)|]; done.
Qed.

(** The commands on a device. *)
Definition is_mgmt (op : io_op) : bool :=
  match op with IOStop _ | IOStart _ | IOConfig _ | IORemoveDisk _ => true | _ => false end.

Lemma mgmt_as_opened op d w r s1 :
  is_mgmt op = true -> opened d \/ (w_wq w = [] /\ idle_qs (d_queues d)) ->
  io_step op (mk_io (as_opened d) w r) = Ok s1 ->
  exists d', io_step op (mk_io d w r) = Ok (mk_io d' (io_world s1) (io_refused s1)) /\
    (opened d -> d' = io_dev s1) /\ (~ opened d -> io_dev s1 = as_opened d').
Proof.
  intros Hm Ho E. destruct (decide (opened d)) as [Hop|Hno].
  - rewrite as_opened_id in E by done. exists (io_dev s1). rewrite E. by destruct s1.
  - destruct Ho as [?|[Ew Hi]]; [done|].
    assert (with_dev_of as_opened (io_step op (mk_io d w r)) = Ok s1) as E1.
    { rewrite <- E. destruct op; try done; symmetry;
        [by apply stop_as_opened|apply start_as_opened|apply config_as_opened|by apply remove_as_opened]. }
    unfold with_dev_of in E1. inv_ok E1. injection E1 as <-. exists (io_dev r0).
    rewrite E0. by destruct r0.
Qed.
End commute.

(** ** A step of operation, seen from the other devices *)

Section steps.
Context `{L : UbbdAbiLaws} `{KL : KernelApiLaws} `{ML : KernelMemLaws}.
Implicit Types (q : ubbd_queue) (qs : list ubbd_queue) (d : ubbd_device) (w : world) (s : io).

Lemma io_can_mono FB F op s : FB ⊆ F -> io_can FB op s -> io_can F op s.
Proof.
  intros HF. destruct op; simpl; try done. intros (Hr & Hf & Hok). split_and!; try done.
  by eapply rq_ok_mono.
Qed.

Lemma core_opened FB n d w : dev_core FB n d w -> opened d.
Proof.
  intros Hc. apply Forall_lookup. intros i q Hi.
  destruct (di_member _ _ _ (dc_dev _ _ _ _ Hc) i q Hi) as [(es & F & Hq & _) _ _].
  apply (qi_inode _ _ _ _ _ Hq).
Qed.

(** The number of submissions after an operation. *)
Definition after (op : io_op) (n : Z) : Z := if is_submit op then n + 1 else n.

(** An operation keeps the device good against the block layer's pages [FB] and
    against any further pages [F] of others. *)
Lemma io_step_core FB F op n d w r :
  dev_core FB n (as_opened d) w -> ledger r (d_queues d) w ->
  FB ⊆ F -> F ⊆ live (w_km w) -> pages_in (d_queues d) ## F ->
  (if is_mgmt op then opened d \/ (w_wq w = [] /\ idle_qs (d_queues d)) else opened d) ->
  io_can FB op (mk_io d w r) -> n < 2 ^ 64 -> after op n < 2 ^ 64 ->
  exists d' w' r', io_step op (mk_io d w r) = Ok (mk_io d' w' r') /\
    dev_core FB (after op n) (as_opened d') w' /\ dev_inv (d_queues (as_opened d')) w' F /\
    ledger r' (d_queues d') w' /\ (opened d -> opened d') /\
    io_moves (new_tags op) (mk_io d w r) (mk_io d' w' r').
Proof.
  intros Hc Hg HF HFl Hdis Ho Hcan Hn Hb.
  assert (opened d \/ (w_wq w = [] /\ idle_qs (d_queues d))) as Ho' by (destruct (is_mgmt op); auto).
  assert (dev_core F n (as_opened d) w) as HcF.
  { eapply (dev_core_frame FB F); try done.
    - apply (dev_inv_pages _ _ _ (dc_dev _ _ _ _ Hc)).
    - simpl. by rewrite pages_as_opened. }
  assert (ledger r (d_queues (as_opened d)) w) as Hg'
    by (unfold ledger in *; simpl; by rewrite inflight_as_opened).
  assert (io_can FB op (mk_io (as_opened d) w r)) as Hcan'.
  { destruct (is_mgmt op) eqn:Em; [by destruct op|by rewrite as_opened_id by done]. }
  assert (io_inv FB n (mk_io (as_opened d) w r) /\ io_inv F n (mk_io (as_opened d) w r)) as [HiB HiF]
    by (split; by apply io_inv_core).
  destruct (io_step_inv FB n _ op HiB Hn Hb Hcan') as (s1 & E & H1 & Hm).
  destruct (io_step_inv F n _ op HiF Hn Hb (io_can_mono _ _ _ _ HF Hcan')) as (s2 & E2 & H2 & _).
  rewrite E in E2. injection E2 as <-.
  assert (exists d', io_step op (mk_io d w r) = Ok (mk_io d' (io_world s1) (io_refused s1)) /\
    io_dev s1 = as_opened d' /\ (opened d -> opened d')) as (d' & E' & Ed & Hop).
  { destruct s1 as [d1 w1 r1]. apply io_inv_core in H1 as [H1 _].
    destruct (is_mgmt op) eqn:Em.
    - destruct (mgmt_as_opened op d w r _ Em Ho' E) as (d' & E' & Hy & Hn'). exists d'. split; [done|].
      cbn [io_dev] in *. destruct (decide (opened d)) as [Hd|Hd]; [|split; [by apply Hn'|done]].
      rewrite (Hy Hd). pose proof (core_opened _ _ _ _ H1). by rewrite as_opened_id by done.
    - rewrite as_opened_id in E by done. exists d1. split; [done|]. pose proof (core_opened _ _ _ _ H1).
      cbn [io_dev]. by rewrite as_opened_id by done. }
  destruct s1 as [d1 w1 r1]. cbn [io_dev io_world io_refused] in *. subst d1.
  apply io_inv_core in H1 as [H1 H1g]. apply io_inv_core in H2 as [H2 _].
  exists d', w1, r1. split; [done|]. split; [done|]. split; [apply H2|]. split.
  { unfold ledger in *. simpl in H1g. by rewrite inflight_as_opened in H1g. }
  split; [done|]. destruct Hm as [M1 M2 M3 M4 M5]. unfold held in *. simpl in *. rewrite !inflight_as_opened in *.
  split; simpl; try done.
  - by rewrite !length_map in M1.
  - intros i q' Hi. destruct (M2 i (with_inode q')) as (q0 & H0 & Hx); [by rewrite list_lookup_fmap, Hi|].
    apply list_lookup_fmap_Some in H0 as (q & -> & Hq). by exists q.
  - unfold outside_all in *. by rewrite !pages_as_opened in M5.
Qed.

(** The refused requests only grow, by the same ones whatever they were. *)
Lemma io_step_refused op d w r1 r2 d' w' r' :
  io_step op (mk_io d w r1) = Ok (mk_io d' w' r') ->
  exists x, r' = r1 ++ x /\ io_step op (mk_io d w r2) = Ok (mk_io d' w' (r2 ++ x)).
Proof.
  intros H. unfold io_step in *. cbn [io_dev io_world io_refused] in *.
  destruct op; repeat (inv_ok H; repeat match goal with
    | x : (_ * _)%type |- _ => destruct x
    | E : _ = Ok ?x |- _ => rewrite E; clear E; cbn [obind] end);
    injection H as <- <- <-; eexists; (split; [|reflexivity || (rewrite (app_nil_r r2); reflexivity)]);
    reflexivity || (by rewrite app_nil_r).
Qed.
End steps.

(** ** Life *)

Section life.
Context `{L : UbbdAbiLaws} `{KL : KernelApiLaws} `{ML : KernelMemLaws}.
Implicit Types (d : ubbd_device) (w : world).

(** What the life of a device is about, and its id. *)
Definition life_view d :=
  (d_status d, d_status_flags d, d_in_list d, d_kref d, d_open_count d, d_work_pending d,
   dk_phase <$> d_disk d, d_dev_id d).

Lemma stage_view d d' wk : life_view d' = life_view d -> stage d wk -> stage d' wk.
Proof.
  unfold life_view. intros [= Es Ef El Ek Eo Ep Ed _] Hst.
  assert (intrans d' = intrans d) as Ei by (unfold intrans, ubbd_dev_status_flags_test; by rewrite Ef).
  assert (forall k, d_disk d = Some k -> exists k', d_disk d' = Some k' /\ dk_phase k' = dk_phase k) as Hk.
  { intros k Hk. rewrite Hk in Ed. destruct (d_disk d') as [k'|]; [|done]. exists k'. by injection Ed. }
  destruct Hst as [k ? ? H1|k ? ? H1|k ? ? H1|? ? H1].
  - destruct (Hk k H1) as (k' & ? & ?). apply (stage_prepared _ _ k'); congruence || by rewrite Ei.
  - destruct (Hk k H1) as (k' & ? & ?). apply (stage_running _ _ k'); congruence.
  - destruct (Hk k H1) as (k' & ? & ?). apply (stage_removing _ _ k'); congruence.
  - apply stage_unlisted; try congruence. rewrite H1 in Ed. by destruct (d_disk d').
Qed.

Lemma life_inv_view d d' wk mp :
  life_view d' = life_view d -> life_inv (mk_life (Some d) wk mp) -> life_inv (mk_life (Some d') wk mp).
Proof.
  intros Hv (Hk & Hp & Ho & Hm & Hst). pose proof (stage_view _ _ _ Hv Hst) as Hst'.
  unfold life_view in Hv. injection Hv as Es Ef El Ek Eo Ep Ed _. unfold life_inv, holders in *. simpl in *.
  rewrite El, Ek, Eo, Ep. done.
Qed.

Lemma life_running_disk d wk mp :
  life_inv (mk_life (Some d) wk mp) -> d_status d = UBBD_DEV_KSTATUS_RUNNING -> is_Some (d_disk d).
Proof. intros (_ & _ & _ & _ & []) Es; eauto. congruence. Qed.

Lemma life_unlisted d wk mp :
  life_inv (mk_life (Some d) wk mp) -> d_in_list d = false ->
  d_disk d = None /\ d_status d <> UBBD_DEV_KSTATUS_RUNNING.
Proof. intros (_ & _ & _ & _ & []) El; congruence || done. Qed.

Lemma life_listed d wk mp :
  life_inv (mk_life (Some d) wk mp) -> d_in_list d = true -> is_Some (d_disk d).
Proof. intros (_ & _ & _ & _ & []) El; eauto. congruence. Qed.

(** An operation that is neither a removal nor a timeout leaves it alone. *)
Lemma io_step_view op d w r d' w' r' :
  io_step op (mk_io d w r) = Ok (mk_io d' w' r') ->
  match op with IORemoveDisk _ | IOTimeout _ => True | _ => life_view d' = life_view d end.
Proof.
  intros H. unfold io_step in H. cbn [io_dev io_world io_refused] in H. destruct op; try done.
  - inv_oks. done.
  - inv_oks. done.
  - inv_oks. done.
  - inv_oks. done.
  - inv_oks. done.
  - inv_ok H. destruct r0 as [[ret d1] w1]. injection H as <- <- <-.
    unfold ubbd_dev_stop_queue, queue_stop in E.
    repeat (case_match; [injection E as <- <- <-; done|]). inv_ok E.
    repeat (case_match; [injection E as <- <- <-; done|]). inv_oks.
    by repeat case_match.
  - inv_ok H. destruct r0 as [ret d1]. injection H as <- <- <-.
    unfold ubbd_dev_start_queue, queue_start in E.
    repeat (case_match; [injection E as <- <-; done|]). inv_ok E.
    repeat (case_match; try (injection E as <- <-; done)).
  - inv_ok H. destruct r0 as [ret d1]. injection H as <- <- <-. unfold ubbd_dev_config in E.
    repeat (case_match; [injection E as <- <-; done|]).
    set (d2 := if negb (Z.land (co_flags opts) UBBD_DEV_CONFIG_FLAG_DP_RESERVE =? 0) then _ else d) in E.
    assert (life_view d2 = life_view d) as <- by (unfold d2; destruct (negb (Z.land (co_flags opts) UBBD_DEV_CONFIG_FLAG_DP_RESERVE =? 0)); reflexivity).
    destruct (negb (Z.land (co_flags opts) UBBD_DEV_CONFIG_FLAG_DEV_SIZE =? 0)).
    + clearbody d2. inv_ok E. injection E as <- <-. unfold life_view.
      destruct (d_disk d2) as [k|] eqn:Ek; [|done]. injection E0 as <-. done.
    + by injection E as <- <-.
Qed.

(** The part of a device its life does not touch. *)
Definition still d d' : Prop :=
  d_queues d' = d_queues d /\ d_hctx d' = d_hctx d /\ d_dev_id d' = d_dev_id d.

Ltac solve_still := unfold still in *; destruct_and?; simpl in *; split_and!; auto; done || congruence.

(** What an event does to the device, gone or not. *)
Lemma event_frame op d wk mp l :
  is_event op = true -> life_inv (mk_life (Some d) wk mp) -> can true op (mk_life (Some d) wk mp) ->
  life_step op (mk_life (Some d) wk mp) = Ok l ->
  match lf_dev l with
  | Some d' => still d d' /\ d_in_list d' = d_in_list d /\ (is_Some (d_disk d') <-> is_Some (d_disk d)) /\
      (d_status d' = d_status d \/ d_status d' = UBBD_DEV_KSTATUS_RUNNING)
  | None => d_in_list d = false
  end.
Proof.
  intros He (Hk & Hp & Ho & Hm & Hst) Hc E.
  assert (forall d1, ubbd_dev_put d1 = None -> d_kref d1 = 1) as Hput.
  { intros d1. unfold ubbd_dev_put. by destruct (Z.eqb_spec (d_kref d1) 1). }
  unfold holders, b2z in Hk. cbn [lf_work lf_maps] in *. destruct op; try done; unfold life_step in E; cbn [lf_dev deref obind] in E.
  - inv_ok E. destruct r as [b d1]. injection E as <-. simpl. unfold add_disk_begin in E0.
    case_match; [injection E0 as <- <-; solve_still|]. inv_ok E0. injection E0 as <- <-. solve_still.
  - destruct wk as [b|]; [|done]. cbn [lf_work deref obind] in E. inv_ok E. injection E as <-. cbn [lf_dev].
    unfold add_disk_end in E0. inv_ok E0. injection E0 as <-.
    assert (still d r0 /\ d_in_list r0 = d_in_list d /\ d_kref r0 = d_kref d /\ d_status r0 = d_status d /\
      (is_Some (d_disk r0) <-> is_Some (d_disk d))) as (H1 & H2 & H3 & H4 & H5).
    { destruct (b && _); [|injection E as <-; solve_still]. inv_ok E. injection E as <-.
      destruct (d_disk d) as [k|] eqn:Ek; [|done]. unfold still. simpl.
      by split_and!. }
    set (d2 := if b && _ then _ else _).
    assert (still d d2 /\ d_in_list d2 = d_in_list d /\ d_kref d2 = d_kref d /\
      (d_status d2 = d_status d \/ d_status d2 = UBBD_DEV_KSTATUS_RUNNING) /\
      (is_Some (d_disk d2) <-> is_Some (d_disk d))) as (K1 & K2 & K3 & K4 & K5)
      by (unfold d2; destruct (b && _); solve_still).
    pose proof (Hput d2) as Hn. unfold ubbd_dev_put in *.
    destruct (Z.eqb_spec (d_kref d2) 1); [|solve_still].
    destruct (d_in_list d); [|done]. simpl in Hk. destruct (d_work_pending d); lia.
  - injection E as <-. solve_still.
  - injection E as <-. cbn [lf_dev]. unfold can in Hc. cbn [lf_dev] in Hc.
    pose proof (Hput (set_d_open_count (d_open_count d - 1) d)) as Hn. unfold ubbd_release, ubbd_dev_put in *.
    simpl in *. destruct (Z.eqb_spec (d_kref d) 1); [|solve_still].
    destruct (d_in_list d); [|done]. unfold work_ref in Hk. simpl in Hc.
    destruct (d_work_pending d), wk; lia.
  - injection E as <-. solve_still.
  - injection E as <-. cbn [lf_dev]. unfold can in Hc. cbn [lf_dev] in Hc. simpl in Hc.
    pose proof (Hput d) as Hn. unfold ubbd_dev_put in *.
    destruct (Z.eqb_spec (d_kref d) 1); [|solve_still].
    destruct (d_in_list d); [|done]. unfold work_ref in Hk. simpl in Hc.
    destruct (d_work_pending d), wk; lia.
Qed.
End life.

(** ** The resources of the driver *)

Section owned.
Context `{L : UbbdAbiLaws} `{KL : KernelApiLaws} `{ML : KernelMemLaws} `{IL : KernelIdrLaws}.
Abbreviation listed := (device_obj * list Z)%type.
Implicit Types (o : device_obj) (devs rest : list listed) (s : driver).

Lemma kreg_app_inv l1 : forall k l2 k', kreg k (l1 ++ l2) k' -> exists k1, kreg k l1 k1 /\ kreg k1 l2 k'.
Proof.
  induction l1 as [|i l1 IH]; intros k l2 k' H; [exists k; split; [constructor|done]|].
  inversion H as [|? ? ? ? Hd Hk|? ? ? hd m q ? Hd Hf Hk]; subst; destruct (IH _ _ _ Hk) as (k1 & H1 & H2);
    exists k1; split; [by apply kreg_none|done|by apply (kreg_some _ _ _ hd m q)|done].
Qed.

(** The order of registration does not matter. *)
Lemma kreg_perm l l' : l ≡ₚ l' -> forall k k', kreg k l k' -> kreg k l' k'.
Proof.
  induction 1 as [|i l l' _ IH|i j l|l1 l2 l3 _ IH1 _ IH2]; intros k k' H; [done| | |by apply IH2, IH1].
  - inversion H as [|? ? ? ? Hd Hk|? ? ? hd m q ? Hd Hf Hk]; subst; [apply kreg_none; auto|].
    apply (kreg_some _ _ _ hd m q); auto.
  - inversion H as [|? ? ? ? Hd Hk|? ? ? hd m q ? Hd Hf Hk]; subst;
      inversion Hk as [|? ? ? ? Hd2 Hk2|? ? ? hd2 m2 q2 ? Hd2 Hf2 Hk2]; subst.
    + by repeat apply kreg_none.
    + apply (kreg_some _ _ _ hd2 m2 q2); [done..|by apply kreg_none].
    + apply kreg_none; [done|]. by apply (kreg_some _ _ _ hd m q).
    + destruct Hf as [Hf1 Hf1'], Hf2 as [Hf2 Hf2']. simpl in Hf2, Hf2'.
      apply lookup_insert_None in Hf2 as [Hf2 Hne]. apply lookup_insert_None in Hf2' as [Hf2' Hne'].
      apply (kreg_some _ _ _ hd2 m2 q2); [done|done|]. apply (kreg_some _ _ _ hd m q); [done| |].
      * split; simpl; by apply lookup_insert_None.
      * by rewrite kadd_commute.
Qed.

Definition handles devs : list Z := map (fun x => o_h x.1) devs.
Definition ids devs : list Z := map (fun x => d_dev_id (o_dev x.1)) devs.
Definition disk_part o : gset object := match d_disk (o_dev o) with Some _ => disk_objs (o_h o) | None => ∅ end.
Definition objs_of o : gset object := device_objs (o_h o) (o_parts o) ∪ disk_part o.
Definition objs_all devs : gset object := ⋃ map (fun x => objs_of x.1) devs.
Definition infos_all devs : list kring_info := concat (map (fun x => qp_info <$> o_parts x.1) devs).

Definition disk_obj (x : object) : Prop := exists h, x = OBJ_DISK h \/ x = OBJ_TAG_SET h.

(** A queue that was completely set up. *)
Definition part_ok (p : queue_parts) : Prop := is_Some (ki_dev (qp_info p)) /\ qp_bitmap p = true.

(** What a device must look like for its destruction. *)
Definition sound o : Prop :=
  Forall slot_named (o_slots o) /\ length (d_queues (o_dev o)) = length (o_parts o) /\
  Forall part_ok (o_parts o) /\ 0 <= d_dev_id (o_dev o) < 2 ^ 16.

(** From [s0] the driver has got exactly what its devices have, and the disks
    that failed creations leaked. *)
Record owned (s0 : driver) devs s : Prop := {
  ow_handles : NoDup (handles devs);
  ow_heap : exists B, dv_heap s = objs_all devs ∪ B /\ dv_heap s0 ⊆ B /\
    (forall x, x ∈ B -> x ∈ dv_heap s0 \/ disk_obj x) /\ (forall x, x ∈ B -> owner x ∉ handles devs);
  ow_kring : kreg (dv_kring s0) (infos_all devs) (dv_kring s);
  ow_sound : Forall (fun x => sound x.1) devs;
  ow_nodup : NoDup (ids devs);
  ow_ids : dv_ids s = list_to_set (ids devs) ∪ dv_ids s0;
  ow_fresh id : id ∈ ids devs -> id ∉ dv_ids s0;
  ow_mod : dv_modrefs s = dv_modrefs s0 + Z.of_nat (length devs);
}.

Lemma union_list_perm {X} (f : X -> gset object) l l' : l ≡ₚ l' -> ⋃ map f l = ⋃ map f l'.
Proof. induction 1; simpl; [done|congruence|set_solver|congruence]. Qed.

Lemma owned_perm s0 devs devs' s : devs ≡ₚ devs' -> owned s0 devs s -> owned s0 devs' s.
Proof.
  intros Hp [H1 (B & HB1 & HB2 & HB3 & HB4) H3 H4 H5 H6 H7 H8].
  assert (handles devs ≡ₚ handles devs') as Hh by (by apply Permutation_map).
  assert (ids devs ≡ₚ ids devs') as Hi by (by apply Permutation_map).
  assert (length devs = length devs') as Hl by (by apply Permutation_length).
  split.
  - by rewrite <- Hh.
  - exists B. split_and!; try done; [|intros x Hx; rewrite <- Hh; auto]. rewrite HB1. f_equal. by apply union_list_perm.
  - eapply kreg_perm; [|exact H3]. unfold infos_all. by rewrite Hp.
  - by rewrite <- Hp.
  - by rewrite <- Hi.
  - rewrite H6. f_equal. apply set_eq. intros i. rewrite !elem_of_list_to_set. by rewrite Hi.
  - intros i. rewrite <- Hi. auto.
  - by rewrite <- Hl.
Qed.

Lemma owned_start s0 : owned s0 [] s0.
Proof.
  split; try done; simpl.
  - constructor.
  - exists (dv_heap s0). split_and!; try done; [unfold objs_all; simpl; set_solver|auto|]. intros x _ Hx. inversion Hx.
  - constructor.
  - constructor.
  - set_solver.
  - intros i Hi. inversion Hi.
  - lia.
Qed.

Lemma objs_owner o x : x ∈ objs_of o -> owner x = o_h o.
Proof.
  unfold objs_of, device_objs, disk_part, disk_objs. intros Hx.
  assert (x ∈ objs_from (o_h o) 0 (o_parts o) -> owner x = o_h o) as Hq.
  { intros H. apply objs_from_spec in H. by destruct x; simpl in *; destruct_and?. }
  destruct (d_disk (o_dev o)); set_unfold in Hx; destruct_or?; subst; auto.
Qed.

Lemma objs_all_owner devs x : x ∈ objs_all devs -> owner x ∈ handles devs.
Proof.
  unfold objs_all. rewrite elem_of_union_list. intros (X & HX & Hx).
  apply list_elem_of_fmap in HX as (y & -> & Hy). apply objs_owner in Hx as ->.
  apply list_elem_of_fmap. eauto.
Qed.

(** One device is up on top of the others. *)
Lemma owned_take s0 x rest s :
  owned s0 (x :: rest) s -> exists s1, owned s0 rest s1 /\ up s1 x.1 s (disk_part x.1).
Proof.
  intros [H1 (B & HB1 & HB2 & HB3 & HB4) H3 H4 H5 H6 H7 H8].
  apply Forall_cons in H4 as [(Hs1 & Hs2 & _) H4]. simpl in H1, H5. apply NoDup_cons in H1 as [Hn1 H1].
  apply NoDup_cons in H5 as [Hn5 H5].
  assert (infos_all (x :: rest) ≡ₚ infos_all rest ++ (qp_info <$> o_parts x.1)) as Hp
    by (unfold infos_all; simpl; by rewrite Permutation_app_comm).
  apply (kreg_perm _ _ Hp) in H3. destruct (kreg_app_inv _ _ _ _ H3) as (k1 & K1 & K2).
  exists (mk_driver (list_to_set (ids rest) ∪ dv_ids s0) k1 (objs_all rest ∪ B) (dv_modrefs s - 1)).
  split.
  - split; simpl in *; try done.
    + exists B. split_and!; try done. intros y Hy. specialize (HB4 y Hy). rewrite not_elem_of_cons in HB4. tauto.
    + intros i Hi. apply H7. by right.
    + lia.
  - split; simpl; try done.
    + intros y [Hy|Hy]%elem_of_union.
      * intros E. apply Hn1. rewrite <- E. by apply objs_all_owner.
      * intros E. apply (HB4 y Hy). rewrite E. simpl. by left.
    + unfold disk_part, disk_objs. destruct (d_disk _); set_solver.
    + rewrite HB1. unfold objs_all. simpl. unfold objs_of. by rewrite <- !(assoc_L (∪)).
    + rewrite not_elem_of_union, elem_of_list_to_set. split; [done|]. apply H7. by left.
    + rewrite H6. simpl. by rewrite (assoc_L (∪)).
    + lia.
Qed.

Lemma owned_put s0 x rest s1 s :
  owned s0 rest s1 -> up s1 x.1 s (disk_part x.1) ->
  Forall part_ok (o_parts x.1) -> 0 <= d_dev_id (o_dev x.1) < 2 ^ 16 ->
  owned s0 (x :: rest) s.
Proof.
  intros [H1 (B & HB1 & HB2 & HB3 & HB4) H3 H4 H5 H6 H7 H8] [U1 U2 U3 U4 U5 U6 U7 U8 U9] Hparts Hid.
  assert (o_h x.1 ∉ handles rest) as Hn.
  { intros (y & E & Hy)%list_elem_of_fmap. apply (U1 (OBJ_DEV (o_h y.1))); [|done]. rewrite HB1.
    apply elem_of_union_l. unfold objs_all. apply elem_of_union_list. eexists. split.
    - apply list_elem_of_fmap. by exists y.
    - unfold objs_of, device_objs. set_solver. }
  rewrite H6, not_elem_of_union, elem_of_list_to_set in U7. destruct U7 as [U7 U7'].
  split; simpl.
  - by apply NoDup_cons.
  - exists B. split_and!; try done.
    + rewrite U3, HB1. unfold objs_all. simpl. unfold objs_of. by rewrite <- !(assoc_L (∪)).
    + intros y Hy. rewrite not_elem_of_cons. split; [|auto]. apply U1. rewrite HB1. by apply elem_of_union_r.
  - unfold infos_all in *. simpl. eapply kreg_perm; [|by eapply kreg_app]. by rewrite Permutation_app_comm.
  - apply Forall_cons. by split.
  - by apply NoDup_cons.
  - rewrite U8, H6. simpl. by rewrite (assoc_L (∪)).
  - intros i [->|Hi]%elem_of_cons; auto.
  - lia.
Qed.

(** A device may change, but for what identifies it and owns its objects. *)
Lemma owned_same s0 o o' wq wq' rest s :
  owned s0 ((o, wq) :: rest) s -> o_h o' = o_h o -> o_parts o' = o_parts o ->
  d_dev_id (o_dev o') = d_dev_id (o_dev o) ->
  length (d_queues (o_dev o')) = length (d_queues (o_dev o)) ->
  (is_Some (d_disk (o_dev o')) <-> is_Some (d_disk (o_dev o))) -> owned s0 ((o', wq') :: rest) s.
Proof.
  intros Ho Eh Ep Ei El Ed. destruct (owned_take _ _ _ _ Ho) as (s1 & H1 & Hu).
  pose proof (ow_sound _ _ _ Ho) as Hs. apply Forall_cons in Hs as [(_ & _ & Hs1 & Hs2) _]. simpl in Hs1, Hs2.
  eapply owned_put; [exact H1| |simpl; by rewrite Ep|simpl; by rewrite Ei]. simpl in *.
  replace (disk_part o') with (disk_part o); [by apply (up_same _ o)|].
  unfold disk_part. rewrite Eh. rewrite !is_Some_alt in Ed. by destruct (d_disk (o_dev o)), (d_disk (o_dev o')); intuition.
Qed.

(** A disk leaks. *)
Lemma owned_leak s0 devs s h :
  owned s0 devs s -> h ∉ handles devs -> owned s0 devs (set_dv_heap (disk_objs h ∪ dv_heap s) s).
Proof.
  intros [H1 (B & HB1 & HB2 & HB3 & HB4) H3 H4 H5 H6 H7 H8] Hh. split; try done. simpl.
  exists (disk_objs h ∪ B). split_and!.
  - rewrite HB1. set_solver.
  - set_solver.
  - intros x [Hx|Hx]%elem_of_union; [|auto]. right. exists h. unfold disk_objs in Hx. set_solver.
  - intros x [Hx|Hx]%elem_of_union; [|auto]. unfold disk_objs in Hx. set_unfold in Hx. by destruct Hx as [-> | ->].
Qed.

Lemma owned_handle s0 devs s x : owned s0 devs s -> x ∈ devs -> OBJ_DEV (o_h x.1) ∈ dv_heap s.
Proof.
  intros [_ (B & -> & _) _ _ _ _ _ _] Hx. apply elem_of_union_l. unfold objs_all. apply elem_of_union_list.
  eexists. split; [apply list_elem_of_fmap; by exists x|]. unfold objs_of, device_objs. set_solver.
Qed.
End owned.
