(* ===== verification/SystemStep.v ===== *)
(** * The steps of the driver

    The invariant of all the devices together ([fleet]: their queues, pages and
    requests; [alive]: their lives), what a step on one of them does to it, and
    its preservation by every step of [System]. *)

From S2P Require Import Prelude Abi Ring Pages Request Balance Queue PoolProps QueueProps Kring KringMap Device DeviceInv DeviceProps.
From S2P Require Import Operation OperationProps Lifecycle Create CreateInv CreateProps Netlink NetlinkProps.
From S2P Require Import System SystemInv.

(** ** All the devices in the shared state *)

Section fleet.
Context `{L : UbbdAbiLaws} `{KL : KernelApiLaws} `{ML : KernelMemLaws}.
Abbreviation listed := (device_obj * list Z)%type.
Implicit Types (x : listed) (devs rest : list listed) (w : world) (d : ubbd_device) (FB : gset Z).

Fixpoint sets_apart (Xs : list (gset Z)) : Prop :=
  match Xs with [] => True | X :: Xs => X ## ⋃ Xs /\ sets_apart Xs end.

Definition pages_of x : gset Z := pages_in (d_queues (o_dev x.1)).
Definition held_all devs : list Z := concat (map held_of devs).

(** A device of the fleet, in a world whose work list is its own. *)
Record dev_io FB n w x : Prop := {
  do_core : dev_core FB n (as_opened (o_dev x.1)) (set_w_wq x.2 w);
  do_unopened : opened (o_dev x.1) \/ held_of x = [];
  do_queues : d_queues (o_dev x.1) <> [];
  do_fits : 21 + sumZ (map counted_size (d_queues (o_dev x.1))) < 2 ^ 60;
}.

(** The pages allocated that belong to no device. *)
Definition outside_devs devs w : gset Z := live (w_km w) ∖ ⋃ map pages_of devs.

(** [n] submissions so far; no page or request belongs to two devices. *)
Record fleet FB n devs w (refused : list Z) : Prop := {
  ft_dev : Forall (dev_io FB n w) devs;
  ft_apart : sets_apart (map pages_of devs);
  ft_held : NoDup (held_all devs);
  ft_ledger : starts (w_blk w) ≡ₚ ends (w_blk w) ++ refused ++ held_all devs;
  ft_foreign : FB ⊆ live (w_km w);
  ft_quiet : w_wq w = [];
  ft_count : 0 <= n;
}.

Lemma union_list_app_perm (Xs Ys : list (gset Z)) : Xs ≡ₚ Ys -> ⋃ Xs = ⋃ Ys.
Proof. induction 1; simpl; [done|congruence|set_solver|congruence]. Qed.

Lemma sets_apart_perm (Xs Ys : list (gset Z)) : Xs ≡ₚ Ys -> sets_apart Xs -> sets_apart Ys.
Proof.
  induction 1 as [|X Xs Ys Hp IH|X Y Xs|Xs Ys Zs _ IH1 _ IH2]; simpl; [done| |set_solver|auto].
  intros [H1 H2]. rewrite <- (union_list_app_perm _ _ Hp). auto.
Qed.

Lemma held_all_perm devs devs' : devs ≡ₚ devs' -> held_all devs ≡ₚ held_all devs'.
Proof. intros Hp. unfold held_all. by rewrite Hp. Qed.

Lemma fleet_perm FB n devs devs' w r : devs ≡ₚ devs' -> fleet FB n devs w r -> fleet FB n devs' w r.
Proof.
  intros Hp [H1 H2 H3 H4 H5 H6 H7]. split; try done.
  - by rewrite <- Hp.
  - eapply sets_apart_perm; [|exact H2]. by apply Permutation_map.
  - by rewrite <- (held_all_perm _ _ Hp).
  - by rewrite <- (held_all_perm _ _ Hp).
Qed.

Lemma outside_perm devs devs' w : devs ≡ₚ devs' -> outside_devs devs w = outside_devs devs' w.
Proof. intros Hp. unfold outside_devs. f_equal. apply union_list_app_perm. by apply Permutation_map. Qed.

Lemma elem_of_union_map {X} (f : X -> gset Z) l pg : pg ∈ ⋃ map f l <-> exists y, y ∈ l /\ pg ∈ f y.
Proof.
  rewrite elem_of_union_list. split.
  - intros (Y & HY & Hpg). apply list_elem_of_fmap in HY as (y & -> & Hy). eauto.
  - intros (y & Hy & Hpg). exists (f y). split; [by apply list_elem_of_fmap_2|done].
Qed.

Lemma dev_io_pages FB n w x : dev_io FB n w x -> pages_of x ⊆ live (w_km w) /\ pages_of x ## FB.
Proof.
  intros [Hc _ _ _]. pose proof (dev_inv_pages _ _ _ (dc_dev _ _ _ _ Hc)) as Hp. simpl in Hp.
  by rewrite pages_as_opened in Hp.
Qed.

(** What is foreign to the first device. *)
Definition foreign FB rest : gset Z := FB ∪ ⋃ map pages_of rest.

Lemma fleet_foreign FB n x rest w r :
  fleet FB n (x :: rest) w r -> foreign FB rest ⊆ live (w_km w) /\ pages_of x ## foreign FB rest.
Proof.
  intros [Hd [Ha _] _ _ HF _ _]. apply Forall_cons in Hd as [Hx Hd]. unfold foreign. split.
  - intros pg [Hpg|Hpg]%elem_of_union; [by apply HF|]. apply elem_of_union_map in Hpg as (y & Hy & Hpg).
    rewrite Forall_forall in Hd. by apply (dev_io_pages _ _ _ _ (Hd y Hy)).
  - pose proof (dev_io_pages _ _ _ _ Hx) as [_ ?]. simpl in Ha. set_solver.
Qed.

(** The other devices do not notice a step that keeps their requests and their
    pages. *)
Lemma fleet_rest FB n n' x rest w r w' :
  fleet FB n (x :: rest) w r -> n <= n' ->
  (forall t, t ∈ held_all rest -> w_reqs w' !! t = w_reqs w !! t) ->
  foreign FB rest ⊆ live (w_km w') -> Forall (dev_io FB n' w') rest.
Proof.
  intros [Hd _ _ _ _ _ _] Hn Hr Hl. apply Forall_cons in Hd as [_ Hd]. rewrite Forall_forall in Hd |- *.
  intros y Hy. destruct (Hd y Hy) as [Hc Ho Hq Hf]. split; try done.
  assert (forall pg, pg ∈ pages_of y -> pg ∈ live (w_km w')) as Hpg.
  { intros pg Hpg. apply Hl. unfold foreign. apply elem_of_union_r, elem_of_union_map. eauto. }
  eapply (dev_core_frame FB FB); try done.
  - intros t Ht. apply Hr. unfold held_all. change (d_queues (as_opened ?d)) with (map with_inode (d_queues d)) in Ht.
    rewrite inflight_as_opened in Ht. apply list_elem_of_In, in_concat. exists (held_of y). split.
    + apply in_map. by apply list_elem_of_In.
    + by apply list_elem_of_In.
  - simpl. rewrite pages_as_opened. exact Hpg.
  - intros pg Hpg'. apply Hl. unfold foreign. by apply elem_of_union_l.
  - simpl. rewrite pages_as_opened. by apply (dev_io_pages _ _ _ _ (Hd y Hy)).
Qed.

(** *** A device in operation among the others *)

Lemma counted_fixed (qs qs' : list ubbd_queue) :
  length qs' = length qs ->
  (forall i q', qs' !! i = Some q' -> exists q, qs !! i = Some q /\ q_fixed q' = q_fixed q) ->
  map counted_size qs' = map counted_size qs.
Proof.
  intros Hl Hq. apply list_eq. intros i. rewrite !list_lookup_fmap.
  destruct (qs' !! i) as [q'|] eqn:E.
  - destruct (Hq i q' E) as (q & -> & [= _ Hm]). simpl. unfold counted_size. by rewrite Hm.
  - rewrite lookup_ge_None_2; [done|]. rewrite <- Hl. by apply lookup_ge_None.
Qed.

Lemma held_nodup_core FB n d w r :
  dev_core FB n (as_opened d) w -> ledger r (d_queues d) w -> NoDup (w_wq w ++ inflight_all (d_queues d)).
Proof.
  intros Hc Hg. pose proof (held_nodup FB n (mk_io (as_opened d) w r)) as H. simpl in H.
  rewrite inflight_as_opened in H. apply H, io_inv_core. split; [done|]. unfold ledger in *. simpl.
  by rewrite inflight_as_opened.
Qed.

Lemma fleet_io FB op n x rest w r d :
  fleet FB n (x :: rest) w r -> dev_core FB n (as_opened d) (set_w_wq x.2 w) ->
  d_queues d = d_queues (o_dev x.1) -> (is_mgmt op = true \/ opened d) ->
  io_can FB op (mk_io d (set_w_wq x.2 w) r) ->
  (forall t, t ∈ new_tags op -> t ∉ held_all (x :: rest)) -> n < 2 ^ 64 -> after op n < 2 ^ 64 ->
  exists d' w' r', io_step op (mk_io d (set_w_wq x.2 w) r) = Ok (mk_io d' w' r') /\
    fleet FB (after op n) ((set_o_dev d' x.1, w_wq w') :: rest) (set_w_wq [] w') r' /\
    outside_devs ((set_o_dev d' x.1, w_wq w') :: rest) (set_w_wq [] w') = outside_devs (x :: rest) w /\
    length (d_queues d') = length (d_queues d) /\
    forall t, t ∈ held_of (set_o_dev d' x.1, w_wq w') -> t ∈ new_tags op ++ held_of x.
Proof.
  intros Hfl Hc Eq Ho Hcan Hnew Hn Hb. pose proof (fleet_foreign _ _ _ _ _ _ Hfl) as [HFl HFd].
  pose proof Hfl as [Hd [Ha Har] Hh Hg HF Hw Hn0]. apply Forall_cons in Hd as [[Hxc Hxo Hxq Hxf] Hd].
  set (r0 := r ++ held_all rest).
  assert (ledger r0 (d_queues d) (set_w_wq x.2 w)) as Hg0.
  { unfold ledger, r0. simpl. rewrite Hg, Eq. apply Permutation_app_head. rewrite <- app_assoc.
    apply Permutation_app_head. apply Permutation_app_comm. }
  assert (if is_mgmt op then opened d \/ (w_wq (set_w_wq x.2 w) = [] /\ idle_qs (d_queues d)) else opened d) as Ho'.
  { destruct (is_mgmt op); [|by destruct Ho]. rewrite Eq. destruct Hxo as [Hxo|Hxo].
    - left. unfold opened in *. by rewrite Eq.
    - right. apply app_eq_nil in Hxo as [? Hi]. split; [done|]. by apply idle_inflight. }
  destruct (io_step_core FB (foreign FB rest) op n d (set_w_wq x.2 w) r0 Hc Hg0) as
    (d' & w' & r1 & E & Hc' & Hd' & Hg' & Hop & [M1 M2 M3 M4 M5]); try done.
  { unfold foreign. set_solver. }
  { rewrite Eq. exact HFd. }
  destruct (io_step_refused _ _ _ r0 r _ _ _ E) as (r' & -> & E').
  exists d', w', (r ++ r'). split; [done|]. unfold held in M3, M4. simpl in M1, M2, M3, M4, M5.
  rewrite Eq in M3, M4, M5. fold (held_of x) in M3, M4.
  assert (foreign FB rest ⊆ live (w_km w')) as HFl'.
  { destruct (d_queues d') as [|q' qs'] eqn:Eqs; [rewrite Eq in M1; destruct (d_queues (o_dev x.1)); done|].
    destruct (di_member _ _ _ Hd' 0%nat (with_inode q')) as [(es & F & Hq & HFF & _) _ _].
    - simpl. by rewrite Eqs.
    - destruct (qi_pool _ _ _ _ _ Hq). set_solver. }
  assert (dev_inv_disj : pages_in (d_queues d') ## foreign FB rest).
  { pose proof (dev_inv_pages _ _ _ Hd') as [_ Hp]. simpl in Hp. by rewrite pages_as_opened in Hp. }
  assert (forall t, t ∈ held_all rest -> t ∉ new_tags op ++ held_of x) as Hother.
  { intros t Ht. rewrite not_elem_of_app. split.
    - intros Hin. apply (Hnew t Hin). unfold held_all. simpl. apply elem_of_app. by right.
    - intros Hin. unfold held_all in Hh. simpl in Hh. apply NoDup_app in Hh as (_ & Hh & _). by apply (Hh t Hin). }
  split; [|split_and!; [|congruence|exact M3]].
  2: { unfold outside_devs. simpl. unfold outside_all in M5. simpl in M5. unfold pages_of at 1 3. simpl. set_solver. }
  split.
  - apply Forall_cons. split.
    + split; simpl.
      * by destruct w'.
      * destruct (is_mgmt op) eqn:Em; [|left; apply Hop; by destruct Ho].
        destruct Hxo as [Hxo|Hxo]; [left; apply Hop; unfold opened in *; by rewrite Eq|right].
        assert (new_tags op = []) as Et by (by destruct op). rewrite Et, Hxo in M3.
        unfold held_of. simpl. destruct (w_wq w' ++ inflight_all (d_queues d')) as [|t l] eqn:El; [done|].
        specialize (M3 t ltac:(by left)). by apply elem_of_nil in M3.
      * intros E0. rewrite E0, Eq in M1. by destruct (d_queues (o_dev x.1)).
      * rewrite Eq in M1, M2. by rewrite (counted_fixed _ _ M1 M2).
    + eapply (fleet_rest _ n _ x _ _ _ (set_w_wq [] w')); [done| | |done].
      * unfold after. destruct (is_submit op); lia.
      * intros t Ht. apply M4. by apply Hother.
  - simpl. split; [|done]. unfold foreign in dev_inv_disj. unfold pages_of at 1. simpl. set_solver.
  - unfold held_all. simpl. apply NoDup_app. split_and!.
    + exact (held_nodup_core _ _ _ _ _ Hc' Hg').
    + intros t Ht Ht'. by apply (Hother t Ht'), M3.
    + unfold held_all in Hh. simpl in Hh. by apply NoDup_app in Hh as (_ & _ & ?).
  - simpl. unfold ledger, r0 in Hg'. rewrite Hg'. apply Permutation_app_head. unfold held_all. simpl.
    unfold held_of at 2. simpl. rewrite <- !app_assoc. apply Permutation_app_head.
    rewrite (Permutation_app_comm (concat _)), <- !app_assoc. done.
  - simpl. unfold foreign in HFl'. set_solver.
  - done.
  - unfold after. destruct (is_submit op); lia.
Qed.

(** *** Other changes of one device *)

Lemma core_view FB n d d' w :
  dev_core FB n (as_opened d) w -> d_queues d' = d_queues d -> d_hctx d' = d_hctx d ->
  (d_status d' = UBBD_DEV_KSTATUS_RUNNING -> is_Some (d_disk d')) -> dev_core FB n (as_opened d') w.
Proof.
  intros [H1 H2 H3 H4 H5 H6 H7 H8] Eq Eh Hk. unfold as_opened in *. simpl in *.
  split; simpl; rewrite ?Eq, ?Eh; done.
Qed.

Lemma fleet_view FB n o o' wq rest w r :
  fleet FB n ((o, wq) :: rest) w r -> d_queues (o_dev o') = d_queues (o_dev o) ->
  d_hctx (o_dev o') = d_hctx (o_dev o) ->
  (d_status (o_dev o') = UBBD_DEV_KSTATUS_RUNNING -> is_Some (d_disk (o_dev o'))) ->
  fleet FB n ((o', wq) :: rest) w r.
Proof.
  intros [Hd Ha Hh Hg HF Hw Hn] Eq Eh Hk. apply Forall_cons in Hd as [[H1 H2 H3 H4] Hd].
  assert (held_of (o', wq) = held_of (o, wq)) as Ehld by (unfold held_of; simpl; by rewrite Eq).
  assert (held_all ((o', wq) :: rest) = held_all ((o, wq) :: rest)) as Eall
    by (unfold held_all; simpl map; by rewrite Ehld).
  assert (pages_of (o', wq) = pages_of (o, wq)) as Ep by (unfold pages_of; simpl; by rewrite Eq).
  split; rewrite ?Eall; try done.
  - apply Forall_cons. split; [|done]. split; simpl in *.
    + by eapply core_view.
    + rewrite Ehld. unfold opened in *. by rewrite Eq.
    + by rewrite Eq.
    + by rewrite Eq.
  - simpl in *. by rewrite Ep.
Qed.

(** A device that holds nothing goes with its pages. *)
Lemma fleet_drop FB n x rest w r km :
  fleet FB n (x :: rest) w r -> held_of x = [] -> foreign FB rest ⊆ live km ->
  fleet FB n rest (set_w_km km w) r.
Proof.
  intros Hfl Hx Hl. pose proof Hfl as [Hd [Ha Har] Hh Hg HF Hw Hn].
  assert (held_all (x :: rest) = held_all rest) as E by (unfold held_all; simpl; by rewrite Hx).
  rewrite E in *. split; try done.
  - by apply (fleet_rest FB n n x rest w r).
  - intros pg Hpg. apply Hl. unfold foreign. by apply elem_of_union_l.
Qed.

(** The queues of a device change in what backends have opened and mapped. *)
Lemma core_user FB n d d' w :
  dev_core FB n d w -> length (d_queues d') = length (d_queues d) ->
  (forall i q', d_queues d' !! i = Some q' ->
     exists q a, d_queues d !! i = Some q /\ q' = user_queue a q) ->
  d_hctx d' = d_hctx d -> d_status d' = d_status d -> d_disk d' = d_disk d -> dev_core FB n d' w.
Proof.
  intros [Hd Hw Hn Hx Hc Hh Hl Hk] El Hq Eh Es Ek. split.
  - destruct Hd as [Hm Ht]. split.
    + intros i q' Hi. destruct (Hq i q' Hi) as (q & a & Hi0 & ->).
      destruct (Hm i q Hi0) as [(es & F & [Hp Hi' Hr Htid Hnd Hlv Hap] & HF & Ho) Hrq Hst].
      split; [|by destruct a..]. exists es, F. split_and!; [|done|].
      * split; try by destruct a.
        -- destruct a; simpl; destruct Hp; by split.
        -- intros t Hin. destruct (Hlv t) as (e & He & [H1 H2 H3 H4 H5 H6 H7 H8]); [by destruct a|]. exists e.
           split; [done|]. destruct a; by split.
      * intros j qj pg Hne Hj Hpg. destruct (Hq j qj Hj) as (q0 & a0 & Hj0 & ->). apply (Ho j q0); [done..|]. by destruct a0.
    + intros i j qi qj t Hi Hj. destruct (Hq i qi Hi) as (q0 & a0 & Hi0 & ->).
      destruct (Hq j qj Hj) as (q1 & a1 & Hj0 & ->). destruct a0, a1; by apply (Ht i j q0 q1).
  - eapply works_kept; [exact Hw|done|done|]. intros i q' Hi. destruct (Hq i q' Hi) as (q & a & Hi0 & ->).
    exists q. destruct a; split_and!; done || simpl; lia.
  - intros i q' Hi. destruct (Hq i q' Hi) as (q & [] & Hi0 & ->); exact (Hn i q Hi0).
  - intros i q' Hi. destruct (Hq i q' Hi) as (q & [] & Hi0 & ->); exact (Hx i q Hi0).
  - intros i q' Hi. destruct (Hq i q' Hi) as (q & [] & Hi0 & ->); exact (Hc i q Hi0).
  - rewrite Eh, El. exact Hh.
  - by rewrite El.
  - by rewrite Es, Ek.
Qed.

Lemma fleet_user FB n x rest w r i a :
  fleet FB n (x :: rest) w r -> (i < length (d_queues (o_dev x.1)))%nat ->
  exists d', user_dev i a (o_dev x.1) = Ok d' /\ fleet FB n ((set_o_dev d' x.1, x.2) :: rest) w r /\
    outside_devs ((set_o_dev d' x.1, x.2) :: rest) w = outside_devs (x :: rest) w /\
    life_view d' = life_view (o_dev x.1) /\ length (d_queues d') = length (d_queues (o_dev x.1)) /\
    inflight_all (d_queues d') = inflight_all (d_queues (o_dev x.1)).
Proof.
  intros [Hd Ha Hh Hg HF Hw Hn] Hi. apply Forall_cons in Hd as [[H1 H2 H3 H4] Hd].
  destruct (lookup_lt_is_Some_2 _ _ Hi) as [q Hq]. unfold user_dev. rewrite Hq. cbn [deref obind].
  set (qs := d_queues (o_dev x.1)) in *. set (qs' := <[i := user_queue a q]> qs).
  assert (forall (X : Type) (f : ubbd_queue -> X), f (user_queue a q) = f q -> map f qs' = map f qs) as Hmap.
  { intros X f Hf. unfold qs'. change (map f (<[i := user_queue a q]> qs)) with
      (f <$> <[i := user_queue a q]> qs). rewrite list_fmap_insert, Hf.
    apply list_insert_id. change (map f qs !! i) with ((f <$> qs) !! i). rewrite list_lookup_fmap, Hq. done. }
  assert (inflight_all qs' = inflight_all qs) as Einf by (unfold inflight_all; by rewrite Hmap by (by destruct a)).
  assert (pages_in qs' = pages_in qs) as Ep by (unfold pages_in; by rewrite Hmap by (by destruct a)).
  eexists. split; [done|]. simpl. fold qs'. split_and!; try done;
    [|by unfold outside_devs, pages_of; simpl; rewrite Ep|by unfold qs'; rewrite length_insert].
  set (x' := (set_o_dev (set_d_queues qs' (o_dev x.1)) x.1, x.2)).
  assert (held_of x' = held_of x) as Eh by (unfold held_of, x'; simpl; by rewrite Einf).
  assert (held_all (x' :: rest) = held_all (x :: rest)) as Eall by (unfold held_all; simpl map; by rewrite Eh).
  assert (pages_of x' = pages_of x) as Epo by exact Ep.
  split; rewrite ?Eall; try done.
  - apply Forall_cons. split; [|done]. split.
    + eapply core_user; [exact H1| | |done..]; simpl.
      * unfold qs'. by rewrite !length_map, length_insert.
      * intros j q' Hj. apply list_lookup_fmap_Some in Hj as (q0 & -> & Hj).
        apply list_lookup_insert_Some in Hj as [(<- & <- & _)|(_ & Hj)].
        -- exists (with_inode q), a.
           split; [|by destruct a].
           change (map with_inode (d_queues (o_dev x.1))) with (with_inode <$> qs). by rewrite list_lookup_fmap, Hq.
        -- exists (with_inode q0), (UserOpen (default 0 (q_inode (q_pool q0)))). split; [|done].
           change (map with_inode (d_queues (o_dev x.1))) with (with_inode <$> qs). by rewrite list_lookup_fmap, Hj.
    + rewrite Eh. destruct H2 as [H2|]; [left|by right]. unfold opened in *. simpl. unfold qs'.
      apply Forall_insert; [done|]. destruct a; [by eexists|]. by apply (Forall_lookup_1 _ _ _ _ H2 Hq).
    + simpl. unfold qs'. intros E. apply H3. apply length_zero_iff_nil. fold qs. by rewrite <- (length_insert qs i (user_queue a q)), E.
    + simpl. by rewrite Hmap by (by destruct a).
  - simpl. by rewrite Epo.
Qed.

(** *** A new device *)

Lemma fleet_add FB n opts kenv o rest w r :
  fleet FB n rest w r -> added opts kenv o -> reply_fits opts kenv ->
  disk_env_ok kenv (Z.to_nat (ao_num_queues opts)) -> 0 <= ao_data_pages opts < 2 ^ 31 ->
  0 < ao_num_queues opts < 2 ^ 31 ->
  fleet FB n ((o, []) :: rest) w r /\ outside_devs ((o, []) :: rest) w = outside_devs rest w.
Proof.
  intros [Hd Ha Hh Hg HF Hw Hn] Had Hfit [Hctx _] Hp Hnum.
  pose proof (ad_len _ _ _ Had) as El. pose proof (ad_queue _ _ _ Had) as Hq.
  assert (inflight_all (d_queues (o_dev o)) = []) as Einf.
  { apply idle_inflight, Forall_lookup. intros i q Hi. by destruct (Hq i q Hi) as (m & -> & _). }
  assert (held_of (o, []) = []) as Eh by (unfold held_of; simpl; by rewrite Einf).
  assert (held_all ((o, []) :: rest) = held_all rest) as Eall by (unfold held_all; simpl; by rewrite Eh).
  assert (pages_of (o, []) = ∅) as Epg.
  { apply set_eq. intros pg. unfold pages_of. simpl. rewrite elem_of_pages_in. split; [|set_solver].
    intros (i & q & Hi & j & Hj). destruct (Hq i q Hi) as (m & -> & _). simpl in Hj. by rewrite lookup_empty in Hj. }
  assert (forall i q, map with_inode (d_queues (o_dev o)) !! i = Some q -> exists m,
    q = ubbd_kring_dev_open 0 (set_q_cpumask m (ready_queue (Z.of_nat i) (ao_data_pages opts)))) as Hw'.
  { intros i q Hi. apply list_lookup_fmap_Some in Hi as (q0 & -> & Hi).
    destruct (Hq i q0 Hi) as (m & -> & _). by exists m. }
  assert (dev_inv (map with_inode (d_queues (o_dev o))) (set_w_wq [] w) FB) as Hdi.
  { split.
    - intros i q Hi. destruct (Hw' i q Hi) as (m & ->).
      destruct (ready_queue_core (Z.of_nat i) (ao_data_pages opts) 0 m (set_w_wq [] w) FB Hp HF) as [Hqi _]. split.
      + exists [], FB. split_and!; try done. intros j qj pg _ Hj [k Hk]. destruct (Hw' j qj Hj) as (mj & ->).
        simpl in Hk. by rewrite lookup_empty in Hk.
      + intros t e Ht. by apply elem_of_nil in Ht.
      + unfold kstatus_ok. simpl. rewrite !elem_of_cons. auto.
    - intros i j qi qj t Hi _ _ Ht. destruct (Hw' i qi Hi) as (m & ->). by apply elem_of_nil in Ht. }
  split; [|unfold outside_devs; simpl; by rewrite Epg, (left_id_L ∅ (∪))].
  split; rewrite ?Eall; try done.
  - apply Forall_cons. split; [|done]. split.
    + split; simpl; try done.
      * apply works_ok_nil. intros i q Hi. by eapply dev_inv_tids.
      * intros i q Hi. destruct (Hw' i q Hi) as (m & ->). done.
      * intros i q Hi. by destruct (Hw' i q Hi) as (m & ->).
      * intros i q Hi. destruct (Hw' i q Hi) as (m & ->). exists [].
        by destruct (ready_queue_core (Z.of_nat i) (ao_data_pages opts) 0 m w FB Hp HF).
      * intros i k Hi. destruct (ad_mapped _ _ _ Had i k Hi) as [_ Hk]. rewrite Forall_forall in Hctx.
        rewrite length_map, El. by apply Hctx.
      * rewrite length_map, El. lia.
      * intros _. rewrite (ad_disk _ _ _ Had). by eexists.
    + right. exact Eh.
    + simpl. intros E. rewrite E in El. simpl in El. lia.
    + by eapply added_counted.
  - simpl. rewrite Epg. split; [set_solver|done].
Qed.
End fleet.

(** ** Their lives *)

Section alive.
Context `{L : UbbdAbiLaws} `{KL : KernelApiLaws} `{ML : KernelMemLaws}.
Abbreviation listed := (device_obj * list Z)%type.
Implicit Types (x : listed) (devs rest : list listed) (d : ubbd_device) (lf : Z -> option bool * Z).

(** Only a running device holds requests. *)
Definition life_ok (v : option bool * Z) x : Prop :=
  life_inv (life_state x v) /\
  (d_status (o_dev x.1) <> UBBD_DEV_KSTATUS_RUNNING -> held_of x = []).

Record alive lf devs : Prop := {
  al_dev : Forall (fun x => life_ok (lf (o_h x.1)) x) devs;
  al_dead h : h ∉ handles devs -> lf h = (None, 0);
}.

Lemma alive_perm lf devs devs' : devs ≡ₚ devs' -> alive lf devs -> alive lf devs'.
Proof.
  intros Hp [H1 H2]. split; [by rewrite <- Hp|]. intros h Hh. apply H2. unfold handles in *. by rewrite Hp.
Qed.

Lemma alive_set lf x x' rest v :
  alive lf (x :: rest) -> NoDup (handles (x :: rest)) -> o_h x'.1 = o_h x.1 -> life_ok v x' ->
  alive (set_life (o_h x.1) v lf) (x' :: rest).
Proof.
  intros [H1 H2] Hn Eh Hx. apply Forall_cons in H1 as [_ H1]. apply NoDup_cons in Hn as [Hn _]. split.
  - apply Forall_cons. unfold set_life. split; [by rewrite Eh, decide_True|].
    rewrite Forall_forall in H1 |- *. intros y Hy. rewrite decide_False; [by apply H1|].
    intros E. apply Hn. rewrite <- E. apply list_elem_of_fmap. eauto.
  - intros h. unfold set_life. simpl. rewrite Eh. intros Hh. rewrite not_elem_of_cons in Hh.
    rewrite decide_False by naive_solver. apply H2. simpl. by rewrite not_elem_of_cons.
Qed.

Lemma alive_same lf x x' rest :
  alive lf (x :: rest) -> o_h x'.1 = o_h x.1 -> life_ok (lf (o_h x.1)) x' -> alive lf (x' :: rest).
Proof.
  intros [H1 H2] Eh Hx. apply Forall_cons in H1 as [_ H1]. split.
  - apply Forall_cons. by rewrite Eh.
  - intros h. simpl. rewrite Eh. apply H2.
Qed.

(** A device has gone. *)
Lemma alive_gone lf lf' x rest :
  alive lf (x :: rest) -> lf' (o_h x.1) = (None, 0) -> (forall h, h <> o_h x.1 -> lf' h = lf h) ->
  NoDup (handles (x :: rest)) -> alive lf' rest.
Proof.
  intros [H1 H2] E Hlf Hn. apply Forall_cons in H1 as [_ H1]. apply NoDup_cons in Hn as [Hn _]. split.
  - rewrite Forall_forall in H1 |- *. intros y Hy. rewrite Hlf; [by apply H1|].
    intros E'. apply Hn. rewrite <- E'. apply list_elem_of_fmap. eauto.
  - intros h Hh. destruct (decide (h = o_h x.1)) as [->|Hne]; [done|]. rewrite Hlf by done. apply H2.
    simpl. rewrite not_elem_of_cons. done.
Qed.

Lemma alive_add lf x rest :
  alive lf rest -> o_h x.1 ∉ handles rest -> prepared_device (o_dev x.1) -> held_of x = [] ->
  alive lf (x :: rest).
Proof.
  intros [H1 H2] Hn (Hs & Hk & Ho & Hl & Hw & Hi & k & Hd & Hph) Hx. split.
  - apply Forall_cons. split; [|done]. rewrite (H2 _ Hn). split; [|done]. unfold life_inv, holders. simpl.
    rewrite Hk, Ho, Hl, Hw. simpl. split_and!; try lia. apply (stage_prepared _ _ k); try done. by rewrite Hi.
  - intros h Hh. apply H2. simpl in Hh. rewrite not_elem_of_cons in Hh. tauto.
Qed.

(** *** The life of one device *)

Lemma life_in_list_kref d wk mp :
  life_inv (mk_life (Some d) wk mp) -> 0 < d_kref d.
Proof. by intros (_ & ? & _). Qed.

(** Removing the disk, with any number of references held meanwhile. *)
Lemma remove_life qs k d d1 wk mp :
  life_inv (mk_life (Some d) wk mp) -> d_in_list d = true -> intrans d = false ->
  remove_disk_status (set_d_queues qs (set_d_kref k d)) = Ok d1 ->
  life_inv (mk_life (Some (set_d_kref (d_kref d) d1)) wk mp) /\ d_kref d1 = k /\ d_in_list d1 = true /\
  d_dev_id d1 = d_dev_id d /\ is_Some (d_disk d1) /\ d_status d1 = UBBD_DEV_KSTATUS_REMOVING.
Proof.
  intros (Hk & Hp & Ho & Hm & Hst) Hl Hi E. unfold remove_disk_status in E.
  cbn [d_status set_d_queues set_d_kref] in E. pose proof dev_kstatus_distinct as Hdist. simpl in Hst.
  assert (exists kd, d1 = set_d_disk (Some kd) (set_d_status UBBD_DEV_KSTATUS_REMOVING
    (set_d_queues qs (set_d_kref k d))) /\ dk_phase kd <> DISK_ADDED /\ wk <> Some true) as (kd & -> & Hkd & Hwk).
  { destruct Hst as [kd Hs _ Hd Hph Hit|kd Hs _ Hd Hph _ Hx|kd Hs _ Hd Hph _ Hx|_ Hl2]; [..|congruence];
      rewrite Hs in E.
    - destruct (Z.eqb_spec UBBD_DEV_KSTATUS_PREPARED UBBD_DEV_KSTATUS_RUNNING); [intuition congruence|].
      injection E as <-. exists kd. split_and!; [by rewrite <- Hd|congruence|].
      intros Ew. apply Hit in Ew. congruence.
    - rewrite Z.eqb_refl in E. unfold del_gendisk in E. simpl d_disk in E. rewrite Hd in E.
      cbn [deref obind] in E. injection E as <-. by eexists.
    - destruct (Z.eqb_spec UBBD_DEV_KSTATUS_REMOVING UBBD_DEV_KSTATUS_RUNNING); [intuition congruence|].
      injection E as <-. exists kd. split_and!; [by rewrite <- Hd|done..]. }
  split_and!; try done. unfold life_inv, holders. simpl. split_and!; try done.
  by apply (stage_removing _ _ kd).
Qed.
End alive.

(** ** Destruction *)

Section destroy.
Context `{L : UbbdAbiLaws} `{KL : KernelApiLaws} `{ML : KernelMemLaws} `{IL : KernelIdrLaws}.
Abbreviation listed := (device_obj * list Z)%type.
Implicit Types (x : listed) (devs rest : list listed) (w : world) (d : ubbd_device) (s : driver) (km : kmem).

(** Every stored page has an index that the release goes through. *)
Definition keys_in (p : data_pool) : Prop :=
  forall i pg, data_pages_array p !! i = Some pg -> 0 <= i <= data_pages p.

Lemma page_release_live (p : data_pool) km :
  keys_in p -> live (ubbd_page_release p km).2 = live km ∖ map_img (data_pages_array p).
Proof.
  intros Hk. unfold ubbd_page_release. simpl.
  rewrite map_filter_id by (intros i pg Hi; by apply (Hk i pg)).
  assert (forall pg, pg ∈ map_img (SA := gset Z) (data_pages_array p) <-> exists kv, kv ∈ map_to_list (data_pages_array p) /\ kv.2 = pg) as Himg.
  { intros pg. rewrite elem_of_map_img. split.
    - intros [i Hi]. exists (i, pg). split; [by apply elem_of_map_to_list|done].
    - intros ([i q] & Hin & <-). exists i. by apply elem_of_map_to_list. }
  apply set_eq. intros pg. rewrite elem_of_difference, Himg. clear Himg.
  induction (map_to_list (data_pages_array p)) as [|kv l IH]; simpl.
  - split; [intros H; split; [done|]; intros (? & Hin & _); by apply elem_of_nil in Hin|by intros []].
  - rewrite free_page_live, elem_of_difference, IH, elem_of_singleton. split.
    + intros [[Hl Hn] Hne]. split; [done|]. intros (kv' & [->|Hin]%elem_of_cons & E); [done|]. apply Hn. eauto.
    + intros [Hl Hn]. split_and!; [done| |].
      * intros (kv' & Hin & E). apply Hn. exists kv'. split; [by right|done].
      * intros ->. apply Hn. exists kv. split; [by left|done].
Qed.

(** Destruction gives back exactly the pages of the device. *)
Lemma release_slots_live sls : forall km,
  Forall (fun sl => qp_bitmap sl.2 = true /\ keys_in (q_pool sl.1)) sls ->
  live (release_slots sls km) = live km ∖ pages_in sls.*1.
Proof.
  induction sls as [|[q p] sls IH]; intros km H; [unfold pages_in; simpl; set_solver|].
  apply Forall_cons in H as [[Hb Hk] H]. simpl in Hb, Hk. unfold release_slots in *. cbn [foldl].
  rewrite IH by done. unfold release_slot. cbn [fst snd]. rewrite Hb, page_release_live by done.
  unfold pages_in. simpl. unfold queue_pages at 2. set_solver.
Qed.

Lemma fleet_keys FB n x rest w r i q :
  fleet FB n (x :: rest) w r -> d_queues (o_dev x.1) !! i = Some q -> keys_in (q_pool q).
Proof.
  intros Hf Hi. pose proof (ft_dev _ _ _ _ _ Hf) as Hd. apply Forall_cons in Hd as [[Hc _ _ _] _].
  destruct (di_member _ _ _ (dc_dev _ _ _ _ Hc) i (with_inode q)) as [(es & F & Hq & _) _ _].
  { simpl. by rewrite list_lookup_fmap, Hi. }
  intros j pg Hj. pose proof (pl_keys _ _ _ _ (qi_pool _ _ _ _ _ Hq) j pg Hj) as Hb. simpl in Hb. lia.
Qed.

(** The last reference of a device without its disk goes: the driver is left
    with the other devices. *)
Lemma destroy_step FB s0 n x rest w r s :
  fleet FB n (x :: rest) w r -> owned s0 (x :: rest) s -> d_disk (o_dev x.1) = None -> held_of x = [] ->
  exists s1 km, ubbd_dev_destroy x.1 s (w_km w) = Ok (s1, km) /\
    fleet FB n rest (set_w_km km w) r /\ owned s0 rest s1 /\
    outside_devs rest (set_w_km km w) = outside_devs (x :: rest) w.
Proof.
  intros Hf Ho Hd Hx. destruct (owned_take _ _ _ _ Ho) as (s1 & Ho1 & Hu).
  unfold disk_part in Hu. rewrite Hd in Hu. exists s1, (release_slots (o_slots x.1) (w_km w)).
  rewrite (destroy_up _ _ _ _ _ Hu). split; [rewrite (left_id_L ∅ (∪)); by destruct s1|].
  pose proof (ow_sound _ _ _ Ho) as Hs. apply Forall_cons in Hs as [(_ & _ & Hp & _) _].
  assert (live (release_slots (o_slots x.1) (w_km w)) = live (w_km w) ∖ pages_of x) as El.
  { rewrite release_slots_live.
    - unfold pages_of, o_slots. rewrite fst_zip; [done|]. by rewrite (up_len _ _ _ _ Hu).
    - apply Forall_lookup. intros i [q p] Hi. unfold o_slots in Hi.
      apply lookup_zip_with_Some in Hi as (q1 & p1 & [= <- <-] & Hq & Hpi). simpl.
      rewrite Forall_lookup in Hp. split; [by apply (Hp i p)|by eapply fleet_keys]. }
  pose proof (fleet_foreign _ _ _ _ _ _ Hf) as [HFl HFd]. split_and!; [|done|].
  - apply (fleet_drop FB n x); [done..|]. rewrite El. set_solver.
  - unfold outside_devs. simpl. rewrite El. set_solver.
Qed.
End destroy.

(** ** The driver with its devices *)

Section good.
Context `{L : UbbdAbiLaws} `{KL : KernelApiLaws} `{ML : KernelMemLaws} `{IL : KernelIdrLaws}.
Abbreviation listed := (device_obj * list Z)%type.
Implicit Types (x : listed) (devs rest : list listed) (w : world) (d : ubbd_device)
  (lf : Z -> option bool * Z).

(** What the driver started from: its tables, and the pages allocated then. *)
Record origin : Type := mk_origin {
  or_drv : driver;
  or_pages : gset Z;
}.

Record good (FB : gset Z) (s0 : origin) n devs s w lf (r : list Z) : Prop := {
  gd_fleet : fleet FB n devs w r;
  gd_alive : alive lf devs;
  gd_owned : owned (or_drv s0) devs s;
  gd_pages : outside_devs devs w = or_pages s0;
}.

Lemma good_perm FB s0 n devs devs' s w lf r :
  devs ≡ₚ devs' -> good FB s0 n devs s w lf r -> good FB s0 n devs' s w lf r.
Proof.
  intros Hp [H1 H2 H3 H4]. split; eauto using fleet_perm, alive_perm, owned_perm.
  by rewrite <- (outside_perm _ _ _ Hp).
Qed.

(** The operations that may take the disk away, and whether by force. *)
Definition removes (op : io_op) : option bool :=
  match op with IORemoveDisk force => Some force | IOTimeout _ => Some true | _ => None end.

Lemma io_step_remove op d w r d' w' r' :
  io_step op (mk_io d w r) = Ok (mk_io d' w' r') ->
  (life_view d' = life_view d) \/
  exists force, removes op = Some force /\ ubbd_dev_remove_disk d force w = Ok (d', w').
Proof.
  intros E. pose proof (io_step_view _ _ _ _ _ _ _ E) as Hv.
  destruct op; auto; unfold io_step in E; cbn [io_dev io_world] in E.
  - right. inv_ok E. destruct r0 as [d1 w1]. injection E as <- <- <-. by exists force.
  - unfold ubbd_timeout in E. destruct (_ =? _); [injection E as <- <- <-; by left|].
    right. inv_ok E. inv_ok E0. destruct r1 as [d2 w2]. injection E0 as <-. injection E as <- <- <-. by exists true.
Qed.

Lemma set_kref_view d d' : life_view d' = life_view d -> d_kref d' = d_kref d.
Proof. by intros [= _ _ _ -> _ _ _ _]. Qed.

(** An operation on one device, while [k] references are held on it. *)
Lemma good_step FB s0 op n x rest s w lf r k :
  good FB s0 n (x :: rest) s w lf r ->
  (is_mgmt op = true \/ opened (o_dev x.1)) ->
  io_can FB op (mk_io (set_d_kref k (o_dev x.1)) (set_w_wq x.2 w) r) ->
  (forall t, t ∈ new_tags op -> t ∉ held_all (x :: rest)) ->
  (is_submit op = true -> d_status (o_dev x.1) = UBBD_DEV_KSTATUS_RUNNING) ->
  (forall force, removes op = Some force -> d_in_list (o_dev x.1) = true /\ intrans (o_dev x.1) = false /\
     (force = false -> held_of x = [])) ->
  n < 2 ^ 64 -> after op n < 2 ^ 64 ->
  exists d' w' r', io_step op (mk_io (set_d_kref k (o_dev x.1)) (set_w_wq x.2 w) r) = Ok (mk_io d' w' r') /\
    d_kref d' = k /\ d_in_list d' = d_in_list (o_dev x.1) /\
    good FB s0 (after op n) ((set_o_dev (set_d_kref (d_kref (o_dev x.1)) d') x.1, w_wq w') :: rest) s
      (set_w_wq [] w') lf r'.
Proof.
  intros [Hf Ha Ho Hpg] Hop Hcan Hnew Hsub Hrem Hn Hb. set (d := set_d_kref k (o_dev x.1)) in *.
  pose proof (ft_dev _ _ _ _ _ Hf) as Hd. apply Forall_cons in Hd as [[Hc Hun _ _] _].
  pose proof (al_dev _ _ Ha) as Hal. apply Forall_cons in Hal as [[Hlife Hidle] _].
  set (v := lf (o_h x.1)) in *.
  assert (dev_core FB n (as_opened d) (set_w_wq x.2 w)) as Hcd.
  { eapply core_view; [exact Hc|done|done|]. exact (life_running_disk _ _ _ Hlife). }
  destruct (fleet_io FB op n x rest w r d Hf Hcd eq_refl Hop Hcan Hnew Hn Hb)
    as (d' & w' & r' & E & Hf' & Hpg' & El & Hheld).
  exists d', w', r'. split; [done|].
  set (d1 := set_d_kref (d_kref (o_dev x.1)) d').
  assert (life_inv (mk_life (Some d1) v.1 v.2) /\ d_kref d' = k /\ d_in_list d' = d_in_list (o_dev x.1) /\
    d_dev_id d' = d_dev_id (o_dev x.1) /\ (is_Some (d_disk d') <-> is_Some (d_disk (o_dev x.1))) /\
    (d_status d1 <> UBBD_DEV_KSTATUS_RUNNING -> held_of (set_o_dev d1 x.1, w_wq w') = []))
    as (Hlife' & Ek & Eil & Eid & Edk & Hidle').
  { assert (held_of x = [] -> is_submit op = false -> held_of (set_o_dev d1 x.1, w_wq w') = []) as Hempty.
    { intros Hx Hns. assert (new_tags op = []) as En by (by destruct op). rewrite En, Hx in Hheld.
      destruct (held_of (set_o_dev d1 x.1, w_wq w')) as [|t l] eqn:Eh; [done|]. exfalso.
      apply (not_elem_of_nil t), Hheld. change (t ∈ held_of (set_o_dev d1 x.1, w_wq w')). rewrite Eh. by left. }
    destruct (io_step_remove _ _ _ _ _ _ _ E) as [Hv|(force & Hr & Er)].
    - split_and!.
      + apply (life_inv_view (o_dev x.1)); [|done]. unfold life_view in *. simpl in *. congruence.
      + apply (set_kref_view _ _ Hv).
      + by injection Hv.
      + by injection Hv.
      + injection Hv as _ _ _ _ _ _ Hdk _. simpl in Hdk. destruct (d_disk d'), (d_disk (o_dev x.1)); try done;
          split; intros [? ?]; done.
      + intros Hns. assert (d_status d' = d_status (o_dev x.1)) as Es by (by injection Hv).
        simpl in Hns. rewrite Es in Hns. apply Hempty; [by apply Hidle|].
        destruct (is_submit op) eqn:Esub; [|done]. by rewrite Hsub in Hns.
    - destruct (Hrem _ Hr) as (Hil & Hit & Hnf). destruct (remove_disk_queues _ _ _ _ _ Er) as [_ Es].
      destruct (remove_life _ k (o_dev x.1) d' v.1 v.2 Hlife Hil Hit Es) as (H1 & H2 & H3 & H4 & H5 & H6).
      split_and!; try done; [congruence|split; [|done]; intros _; by eapply life_listed|].
      intros _. assert (is_submit op = false) as Hns by (by destruct op).
      destruct force; [|by apply Hempty; [apply Hnf|]]. destruct Hun as [Hun|Hun]; [|by apply Hempty].
      rewrite as_opened_id in Hcd by done.
      destruct (remove_disk_idle _ _ _ _ _ _ (dc_dev _ _ _ _ Hcd) (dc_works _ _ _ _ Hcd) Er) as [Hwq Hin].
      unfold held_of. simpl. by rewrite Hwq, Hin. }
  split_and!; try done. split.
  - eapply fleet_view; [exact Hf'|done|done|]. exact (life_running_disk _ _ _ Hlife').
  - apply (alive_same _ x); [done|done|]. by split.
  - destruct x as [o wq]. apply (owned_same _ o _ wq); simpl; done.
  - rewrite <- Hpg, <- Hpg'. done.
Qed.

(** An event of a device's life; the device may go. *)
Lemma good_event FB s0 n x rest s w lf r op :
  good FB s0 n (x :: rest) s w lf r -> is_event op = true -> can true op (life_state x (lf (o_h x.1))) ->
  exists l ro s' w', life_step op (life_state x (lf (o_h x.1))) = Ok l /\ life_act l x s w = Ok (ro, s', w') /\
    (forall x', ro = Some x' -> d_in_list (o_dev x'.1) = d_in_list (o_dev x.1)) /\
    good FB s0 n (option_list ro ++ rest) s' w' (set_life (o_h x.1) (lf_work l, lf_maps l) lf) r.
Proof.
  intros [Hf Ha Ho Hpg] He Hc. pose proof (al_dev _ _ Ha) as Hal. apply Forall_cons in Hal as [[Hlife Hidle] _].
  destruct (life_step_inv _ _ Hlife Hc) as (l & E & Hl). exists l.
  pose proof (event_frame op (o_dev x.1) _ _ l He Hlife Hc E) as Hfr. unfold life_act.
  pose proof (ow_handles _ _ _ Ho) as Hn. destruct (lf_dev l) as [d'|] eqn:Ed.
  - destruct Hfr as ((Eq & Eh & Ei) & Eil & Edk & Est).
    assert (life_inv (mk_life (Some d') (lf_work l) (lf_maps l))) as Hl' by (rewrite <- Ed; by destruct l).
    do 3 eexists. split; [done|]. split; [done|]. split; [by intros x' [= <-]|]. simpl. split.
    + destruct x as [o wq]. eapply fleet_view; [exact Hf|done|done|]. exact (life_running_disk _ _ _ Hl').
    + apply (alive_set _ _ (set_o_dev d' x.1, x.2)); try done. split; [exact Hl'|]. simpl. intros Hns.
      unfold held_of. simpl. rewrite Eq. apply Hidle. destruct Est as [<-|?]; done.
    + destruct x as [o wq]. apply (owned_same _ o _ wq); simpl; try done. by rewrite Eq.
    + rewrite <- Hpg. unfold outside_devs, pages_of. simpl. by rewrite Eq.
  - destruct (life_unlisted _ _ _ Hlife Hfr) as [Hdk Hns].
    destruct (destroy_step FB _ n x rest w r s Hf Ho Hdk (Hidle Hns)) as (s1 & km & -> & Hf' & Ho' & Hpg').
    cbn [obind]. do 3 eexists. split; [done|]. split; [done|]. split; [done|]. simpl.
    split; [done| |done|congruence].
    assert (lf_work l = None /\ lf_maps l = 0) as [-> ->] by (unfold life_inv in Hl; by rewrite Ed in Hl).
    apply (alive_gone lf _ x); try done; unfold set_life; [by rewrite decide_True|].
    intros h Hh. by rewrite decide_False.
Qed.

(** A backend opens, maps or unmaps a queue. *)
Lemma good_user FB s0 n x rest s w lf r i a :
  good FB s0 n (x :: rest) s w lf r -> (i < length (d_queues (o_dev x.1)))%nat ->
  exists d', user_dev i a (o_dev x.1) = Ok d' /\ d_in_list d' = d_in_list (o_dev x.1) /\
    good FB s0 n ((set_o_dev d' x.1, x.2) :: rest) s w lf r.
Proof.
  intros [Hf Ha Ho Hpg] Hi.
  destruct (fleet_user FB n x rest w r i a Hf Hi) as (d' & E & Hf' & Hpg' & Hv & El & Ein).
  exists d'. split; [done|]. pose proof (al_dev _ _ Ha) as Hal. apply Forall_cons in Hal as [[Hlife Hidle] _].
  pose proof Hv as [= Es _ Eil _ _ _ Edk Eid]. split; [done|]. split; [done| | |congruence].
  - apply (alive_same _ x); [done|done|]. split; [by apply (life_inv_view (o_dev x.1))|]. simpl.
    rewrite Es. unfold held_of. simpl. by rewrite Ein.
  - destruct x as [o wq]. apply (owned_same _ o _ wq); simpl in *; try done.
    destruct (d_disk d'), (d_disk (o_dev o)); try done; split; intros [? ?]; done.
Qed.

(** *** A command on a device *)

(** A command returns the device without the reference it took. *)
Definition put_ref (o : device_obj) : device_obj := set_o_dev (set_d_kref (d_kref (o_dev o) - 1) (o_dev o)) o.

Lemma run_on_kept sy i o wq (f : device_obj -> driver -> world -> outcome (Z * option device_obj * driver * world))
    ret o' s' w' :
  sy_list sy !! i = Some (o, wq) ->
  f (set_o_dev (ubbd_dev_get (o_dev o)) o) (sy_drv sy) (set_w_wq wq (sy_world sy)) = Ok (ret, Some o', s', w') ->
  1 < d_kref (o_dev o') -> d_in_list (o_dev o') = true ->
  run_on i f sy = Ok (ret, mk_system s' (<[i := (put_ref o', w_wq w')]> (sy_list sy)) (sy_unlisted sy)
    (set_w_wq (w_wq (sy_world sy)) w')).
Proof.
  intros Hi Hf Hk Hl. unfold run_on. rewrite Hi. cbn [deref obind]. rewrite Hf. cbn [deref obind].
  unfold dev_put, ubbd_dev_put. rewrite (proj2 (Z.eqb_neq (d_kref (o_dev o')) 1)) by lia. cbn [obind].
  rewrite set_w_km_same. unfold put_back. simpl. by rewrite Hl.
Qed.
End good.
