(* ===== verification/SystemRun.v ===== *)
(** * The commands and the machine

    Every command of the netlink interface keeps the invariant of the driver
    ([sys_good]), and so does every step of [System]: the state reached is good
    whatever the order of commands, events and requests. *)

From S2P Require Import Prelude Abi Ring Pages Request Balance Queue PoolProps QueueProps Kring KringMap Device DeviceInv DeviceProps.
From S2P Require Import Operation OperationProps Lifecycle Create CreateInv CreateProps Netlink NetlinkProps.
From S2P Require Import System SystemInv SystemStep.

(** ** The lists of devices *)

Section lists.
Context `{L : UbbdAbiLaws} `{KL : KernelApiLaws} `{ML : KernelMemLaws} `{IL : KernelIdrLaws}
  `{DL : KernelIdaLaws} `{T : UbbdAttrs} `{NL : NetlinkLaws}.
Abbreviation listed := (device_obj * list Z)%type.
Implicit Types (x : listed) (sy : system) (lf : Z -> option bool * Z).

Definition lists_ok sy : Prop :=
  Forall (fun x => d_in_list (o_dev x.1) = true) (sy_list sy) /\
  Forall (fun x => d_in_list (o_dev x.1) = false) (sy_unlisted sy).

(** The invariant of the driver. *)
Definition sys_good (FB : gset Z) (s0 : origin) n sy lf r : Prop :=
  good FB s0 n (all_devs sy) (sy_drv sy) (sy_world sy) lf r /\ lists_ok sy.

Definition sys_inv (FB : gset Z) (s0 : origin) n (s : sys) : Prop :=
  sys_good FB s0 n (s_sys s) (s_life s) (s_refused s).

Lemma insert_perm (l : list listed) i x y : l !! i = Some x -> <[i := y]> l ≡ₚ y :: delete i l.
Proof.
  intros Hi. rewrite insert_take_drop by (by eapply lookup_lt_Some). rewrite delete_take_drop.
  by rewrite Permutation_middle.
Qed.

(** The listed device at a position, among the others. *)
Definition others sy i : list listed := delete i (sy_list sy) ++ sy_unlisted sy.

Lemma all_devs_at sy i x : sy_list sy !! i = Some x -> all_devs sy ≡ₚ x :: others sy i.
Proof. intros Hi. unfold all_devs, others. by rewrite (delete_Permutation _ _ _ Hi) at 1. Qed.

Lemma sys_good_at FB s0 n sy lf r i x :
  sys_good FB s0 n sy lf r -> sy_list sy !! i = Some x ->
  good FB s0 n (x :: others sy i) (sy_drv sy) (sy_world sy) lf r /\ d_in_list (o_dev x.1) = true.
Proof.
  intros [Hg [Hl _]] Hi. split; [by eapply good_perm; [apply all_devs_at|]|].
  rewrite Forall_lookup in Hl. by apply (Hl i).
Qed.

(** It changes, stays listed, leaves the list or goes. *)
Lemma sys_good_put FB s0 n n' sy lf lf' r r' i x x' s w :
  sys_good FB s0 n sy lf r -> sy_list sy !! i = Some x -> d_in_list (o_dev x'.1) = true ->
  good FB s0 n' (x' :: others sy i) s w lf' r' ->
  sys_good FB s0 n' (mk_system s (<[i := x']> (sy_list sy)) (sy_unlisted sy) w) lf' r'.
Proof.
  intros [_ [H1 H2]] Hi Hl Hg. split; [|split; simpl; [by apply Forall_insert|done]].
  eapply good_perm; [|exact Hg]. unfold all_devs, others. simpl. by rewrite (insert_perm _ _ _ x' Hi).
Qed.

Lemma sys_good_gone FB s0 n n' sy lf lf' r r' i s w :
  sys_good FB s0 n sy lf r -> good FB s0 n' (others sy i) s w lf' r' ->
  sys_good FB s0 n' (mk_system s (delete i (sy_list sy)) (sy_unlisted sy) w) lf' r'.
Proof. intros [_ [H1 H2]] Hg. split; [exact Hg|]. split; simpl; [by apply Forall_delete|done]. Qed.

Lemma sys_good_unlist FB s0 n n' sy lf lf' r r' i x' s w :
  sys_good FB s0 n sy lf r -> d_in_list (o_dev x'.1) = false -> good FB s0 n' (x' :: others sy i) s w lf' r' ->
  sys_good FB s0 n' (mk_system s (delete i (sy_list sy)) (x' :: sy_unlisted sy) w) lf' r'.
Proof.
  intros [_ [H1 H2]] Hl Hg. split; [|split; simpl; [by apply Forall_delete|by apply Forall_cons]].
  eapply good_perm; [|exact Hg]. unfold all_devs, others. simpl. by rewrite Permutation_middle.
Qed.

(** *** Something happens to the device at an address *)

Lemma obj_at_spec h sy x :
  obj_at h sy = Some x ->
  o_h x.1 = h /\ exists rest, all_devs sy ≡ₚ x :: rest /\
    forall f ro s w, f x (sy_drv sy) (sy_world sy) = Ok (ro, s, w) ->
      exists sy', on_obj h f sy = Ok sy' /\ sy_drv sy' = s /\ sy_world sy' = w /\
        all_devs sy' ≡ₚ option_list ro ++ rest /\
        (lists_ok sy -> (forall x', ro = Some x' -> d_in_list (o_dev x'.1) = d_in_list (o_dev x.1)) -> lists_ok sy').
Proof.
  unfold obj_at, on_obj. intros H. destruct (find_obj h (sy_list sy)) as [[i y]|] eqn:E.
  - injection H as ->. apply list_find_Some in E as (Hi & Eh & _). split; [done|]. exists (others sy i).
    split; [by apply all_devs_at|]. intros f ro s w ->. cbn [obind]. eexists. split; [done|]. split_and!; try done.
    + unfold all_devs, others. simpl. destruct ro as [x'|]; simpl; [by rewrite (insert_perm _ _ _ x' Hi)|done].
    + intros [H1 H2] Hro. split; simpl; [|done]. destruct ro as [x'|]; [|by apply Forall_delete].
      apply Forall_insert; [done|]. rewrite (Hro x' eq_refl). rewrite Forall_lookup in H1. by apply (H1 i).
  - destruct (find_obj h (sy_unlisted sy)) as [[i y]|] eqn:E2; [|done]. injection H as ->.
    apply list_find_Some in E2 as (Hi & Eh & _). split; [done|].
    exists (sy_list sy ++ delete i (sy_unlisted sy)).
    split; [unfold all_devs; rewrite (delete_Permutation _ _ _ Hi) at 1; by rewrite Permutation_middle|].
    intros f ro s w Hf. cbn [deref obind]. rewrite Hf. cbn [obind]. eexists. split; [done|]. split_and!; try done.
    + unfold all_devs. simpl. destruct ro as [x'|]; simpl; [|done].
      by rewrite (insert_perm _ _ _ x' Hi), Permutation_middle.
    + intros [H1 H2] Hro. split; simpl; [done|]. destruct ro as [x'|]; [|by apply Forall_delete].
      apply Forall_insert; [done|]. rewrite (Hro x' eq_refl). rewrite Forall_lookup in H2. by apply (H2 i).
Qed.
End lists.

(** ** Commands on a listed device *)

Section commands.
Context `{L : UbbdAbiLaws} `{KL : KernelApiLaws} `{ML : KernelMemLaws} `{IL : KernelIdrLaws}
  `{DL : KernelIdaLaws} `{T : UbbdAttrs} `{NL : NetlinkLaws}.
Abbreviation listed := (device_obj * list Z)%type.
Implicit Types (x : listed) (sy : system) (lf : Z -> option bool * Z) (o : device_obj) (rest : list listed).

Abbreviation dev_action := (device_obj -> driver -> world -> outcome (Z * option device_obj * driver * world)).

(** What a command does to the device it has taken a reference on. *)
Definition keeps FB s0 n rest s w lf r o wq (f : dev_action) : Prop :=
  exists ret o' s' w', f (set_o_dev (ubbd_dev_get (o_dev o)) o) s (set_w_wq wq w) = Ok (ret, Some o', s', w') /\
    1 < d_kref (o_dev o') /\ d_in_list (o_dev o') = true /\
    good FB s0 n ((put_ref o', w_wq w') :: rest) s' (set_w_wq [] w') lf r.

Lemma find_dev_lookup dev_id (l : list listed) i : find_ubbd_dev dev_id l = Some i -> is_Some (l !! i).
Proof.
  revert i. induction l as [|y l IH]; intros i; [done|]. simpl. destruct (_ =? _); [by intros [= <-]|].
  destruct (find_ubbd_dev dev_id l) as [j|]; [|done]. intros [= <-]. by apply IH.
Qed.

Lemma run_on_keeps FB s0 n sy lf r i o wq f :
  sys_good FB s0 n sy lf r -> sy_list sy !! i = Some (o, wq) ->
  keeps FB s0 n (others sy i) (sy_drv sy) (sy_world sy) lf r o wq f ->
  exists ret sy', run_on i f sy = Ok (ret, sy') /\ sys_good FB s0 n sy' lf r.
Proof.
  intros Hg Hi (ret & o' & s' & w' & Ef & Hk & Hl' & Hg').
  rewrite (run_on_kept sy i o wq f ret o' s' w' Hi Ef Hk Hl'). do 2 eexists. split; [done|].
  rewrite (ft_quiet _ _ _ _ _ (gd_fleet _ _ _ _ _ _ _ _ (proj1 Hg))).
  by eapply sys_good_put.
Qed.

Lemma with_dev_step FB s0 n sy lf r dev_id f :
  sys_good FB s0 n sy lf r ->
  (forall i o wq, find_ubbd_dev dev_id (sy_list sy) = Some i -> sy_list sy !! i = Some (o, wq) ->
     d_in_list (o_dev o) = true -> good FB s0 n ((o, wq) :: others sy i) (sy_drv sy) (sy_world sy) lf r ->
     exists ret sy', run_on i f sy = Ok (ret, sy') /\ sys_good FB s0 n sy' lf r) ->
  exists ret msg sy', with_dev dev_id f sy = Ok (ret, msg, sy') /\ sys_good FB s0 n sy' lf r.
Proof.
  intros Hg Hf. unfold with_dev. destruct (find_ubbd_dev dev_id (sy_list sy)) as [i|] eqn:E; [|eauto 10].
  destruct (find_dev_lookup _ _ _ E) as [[o wq] Hi]. destruct (sys_good_at _ _ _ _ _ _ _ _ Hg Hi) as [Hgi Hl].
  destruct (Hf i o wq eq_refl Hi Hl Hgi) as (ret & sy' & -> & Hg'). cbn [obind]. eauto.
Qed.

Lemma good_kref FB s0 n o wq rest s w lf r :
  good FB s0 n ((o, wq) :: rest) s w lf r -> 0 < d_kref (o_dev o).
Proof.
  intros [_ Ha _ _]. apply al_dev in Ha. apply Forall_cons in Ha as [[Hl _] _].
  by eapply life_in_list_kref.
Qed.

(** It may leave everything as it is. *)
Lemma keeps_same FB s0 n rest s w lf r o wq (f : dev_action) ret :
  good FB s0 n ((o, wq) :: rest) s w lf r -> d_in_list (o_dev o) = true ->
  f (set_o_dev (ubbd_dev_get (o_dev o)) o) s (set_w_wq wq w) =
    Ok (ret, Some (set_o_dev (ubbd_dev_get (o_dev o)) o), s, set_w_wq wq w) ->
  keeps FB s0 n rest s w lf r o wq f.
Proof.
  intros Hg Hl Hf. pose proof (good_kref _ _ _ _ _ _ _ _ _ _ Hg). do 4 eexists. split; [exact Hf|].
  split; [simpl; lia|]. split; [done|].
  replace (put_ref _) with o.
  2: { unfold put_ref. simpl. rewrite Z.add_simpl_r. destruct o as [? d]. by destruct d. }
  change (w_wq (set_w_wq wq w)) with wq. change (set_w_wq [] (set_w_wq wq w)) with (set_w_wq [] w).
  replace (set_w_wq [] w) with w; [done|]. pose proof (ft_quiet _ _ _ _ _ (gd_fleet _ _ _ _ _ _ _ _ Hg)).
  destruct w. simpl in *. by subst.
Qed.

Lemma io_step_mgmt_refused op d w r d' w' r' :
  is_mgmt op = true -> io_step op (mk_io d w r) = Ok (mk_io d' w' r') -> r' = r.
Proof. intros Hm H. destruct op; try done; unfold io_step in H; inv_oks; done. Qed.

(** A management operation. *)
Lemma keeps_mgmt FB s0 n rest s w lf r o wq (f : dev_action) op :
  good FB s0 n ((o, wq) :: rest) s w lf r -> d_in_list (o_dev o) = true -> is_mgmt op = true ->
  match op with IOStop id | IOStart id => - 2 ^ 31 <= id < 2 ^ 31 | _ => True end ->
  (forall force, op = IORemoveDisk force -> intrans (o_dev o) = false /\ (force = false -> held_of (o, wq) = [])) ->
  n < 2 ^ 64 ->
  (forall d' w', io_step op (mk_io (ubbd_dev_get (o_dev o)) (set_w_wq wq w) r) = Ok (mk_io d' w' r) ->
     exists ret, f (set_o_dev (ubbd_dev_get (o_dev o)) o) s (set_w_wq wq w) = Ok (ret, Some (set_o_dev d' o), s, w')) ->
  keeps FB s0 n rest s w lf r o wq f.
Proof.
  intros Hg Hl Hm Hid Hrem Hn Hf. pose proof (good_kref _ _ _ _ _ _ _ _ _ _ Hg) as Hk.
  assert (is_submit op = false) as Hsub by (by destruct op).
  assert (after op n = n) as En by (unfold after; by rewrite Hsub).
  destruct (good_step FB s0 op n (o, wq) rest s w lf r (d_kref (o_dev o) + 1) Hg) as
    (d' & w' & r' & E & Ekr & El & Hg'); try done.
  - by left.
  - by destruct op.
  - intros t Ht. destruct op; try done; by apply elem_of_nil in Ht.
  - by rewrite Hsub.
  - intros force Hr. destruct op; try done. injection Hr as <-. simpl. split; [done|]. by apply Hrem.
  - by rewrite En.
  - pose proof (io_step_mgmt_refused _ _ _ _ _ _ _ Hm E) as ->. destruct (Hf d' w' E) as [ret Ef].
    simpl in Ekr, El, Hg'. do 4 eexists. split; [exact Ef|]. simpl. split; [lia|]. split; [congruence|].
    rewrite En in Hg'. unfold put_ref. simpl.
    replace (d_kref d' - 1) with (d_kref (o_dev o)) by lia. exact Hg'.
Qed.

(** The add-disk command queues its work. *)
Lemma keeps_add_disk FB s0 n rest s w lf r o wq :
  good FB s0 n ((o, wq) :: rest) s w lf r -> d_in_list (o_dev o) = true -> d_work_pending (o_dev o) = false ->
  keeps FB s0 n rest s w lf r o wq (fun o s w =>
    let* '(ret, d) := ubbd_dev_add_disk (o_dev o) in Ok (ret, Some (set_o_dev d o), s, w)).
Proof.
  intros Hg Hl Hp. pose proof (good_kref _ _ _ _ _ _ _ _ _ _ Hg) as Hk.
  destruct (Z.eqb_spec (d_status (o_dev o)) UBBD_DEV_KSTATUS_PREPARED) as [Es|Es].
  2: { eapply (keeps_same _ _ _ _ _ _ _ _ _ _ _ (- EINVAL)); [exact Hg|done|]. unfold ubbd_dev_add_disk. simpl.
    by rewrite (proj2 (Z.eqb_neq _ _) Es). }
  do 4 eexists. split.
  { unfold ubbd_dev_add_disk. cbn [o_dev set_o_dev d_status ubbd_dev_get set_d_kref].
    rewrite Es, Z.eqb_refl. cbn [negb]. unfold queue_device_work. simpl d_work_pending. rewrite Hp. cbn [obind]. done. }
  split; [simpl; lia|]. split; [done|].
  replace (set_w_wq [] (set_w_wq wq w)) with w.
  2: { pose proof (ft_quiet _ _ _ _ _ (gd_fleet _ _ _ _ _ _ _ _ Hg)). destruct w. simpl in *. by subst. }
  simpl w_wq. unfold put_ref. simpl. set (o' := set_o_dev _ _). destruct Hg as [Hf Ha Ho Hpg].
  pose proof (al_dev _ _ Ha) as Hal. apply Forall_cons in Hal as [[Hlife Hidle] _].
  simpl in Hlife, Hidle. split.
  - eapply fleet_view; [exact Hf|done|done|]. exact (life_running_disk _ _ _ Hlife).
  - apply (alive_same _ (o, wq)); [done|done|]. split; [|exact Hidle].
    destruct Hlife as (H1 & H2 & H3 & H4 & H5). unfold life_inv, holders in *. simpl in *. rewrite Hp in H1. simpl in H1.
    split_and!; try lia. destruct H5 as [k|k|k|]; [by apply (stage_prepared _ _ k)|by apply (stage_running _ _ k)|
      by apply (stage_removing _ _ k)|congruence].
  - by apply (owned_same _ o _ wq).
  - exact Hpg.
Qed.

(** The remove-dev command frees the disk and takes the device off the list;
    it is destroyed here or with its last reference. *)
Lemma remove_dev_command FB s0 n sy lf r i o wq :
  sys_good FB s0 n sy lf r -> sy_list sy !! i = Some (o, wq) -> intrans (o_dev o) = false ->
  d_work_pending (o_dev o) = false ->
  exists ret sy', run_on i (fun o s w =>
      let* '(ret, ro, s, km) := remove_dev o s (w_km w) in Ok (ret, ro, s, set_w_km km w)) sy = Ok (ret, sy') /\
    sys_good FB s0 n sy' lf r.
Proof.
  intros Hg Hi Hit Hp. destruct (sys_good_at _ _ _ _ _ _ _ _ Hg Hi) as [Hgi Hl]. simpl in Hl.
  set (st := d_status (o_dev o)).
  destruct (negb (st =? UBBD_DEV_KSTATUS_REMOVING) && negb (st =? UBBD_DEV_KSTATUS_PREPARED)) eqn:Est.
  { eapply run_on_keeps; [exact Hg|exact Hi|]. eapply (keeps_same _ _ _ _ _ _ _ _ _ _ _ (- EINVAL)); [exact Hgi|done|].
    unfold remove_dev, ubbd_dev_state_get_lock. change (intrans (o_dev (set_o_dev (ubbd_dev_get (o_dev o)) o))) with
      (intrans (o_dev o)). rewrite Hit. cbn [obind].
    change (d_status (o_dev (set_o_dev (ubbd_dev_get (o_dev o)) o))) with st. rewrite Est. cbn [obind].
    by rewrite set_w_km_same. }
  assert (st = UBBD_DEV_KSTATUS_PREPARED \/ st = UBBD_DEV_KSTATUS_REMOVING) as Hst.
  { apply andb_false_iff in Est as [Est|Est]; apply negb_false_iff, Z.eqb_eq in Est; auto. }
  assert (st <> UBBD_DEV_KSTATUS_RUNNING) as Hnr.
  { pose proof dev_kstatus_distinct. intros E. destruct Hst as [E'|E']; rewrite E' in E; intuition congruence. }
  clear Est. pose proof Hgi as [Hf Ha Ho Hpg]. pose proof (al_dev _ _ Ha) as Hal.
  apply Forall_cons in Hal as [[Hlife Hidle] _]. simpl in Hlife, Hidle. set (v := lf (o_h o)) in *.
  destruct (life_listed _ _ _ Hlife Hl) as [k Hk]. specialize (Hidle Hnr).
  pose proof (life_in_list_kref _ _ _ Hlife) as Hkr.
  destruct (owned_take _ _ _ _ Ho) as (s1 & Ho1 & Hu). simpl in Hu.
  unfold disk_part in Hu. cbn [fst] in Hk, Hkr. rewrite Hk in Hu. set (o1 := set_o_dev (ubbd_dev_get (o_dev o)) o).
  assert (up s1 o1 (sy_drv sy) (disk_objs (o_h o1))) as Hu1 by (by apply (up_same _ o)).
  destruct (remove_step s1 o1 (sy_drv sy) (w_km (sy_world sy)) k Hu1 Hit Hst Hk) as (s2 & Hu2 & E).
  set (gone := fun kr => set_o_dev (set_d_kref kr (set_d_disk None (set_d_in_list false (o_dev o)))) o).
  assert (forall kr, up s1 (gone kr) s2 ∅) as Hug by (intros kr; by apply (up_same _ _ _ _ _ Hu2)).
  pose proof (ow_sound _ _ _ Ho) as Hs. apply Forall_cons in Hs as [(_ & _ & Hs1 & Hs2) _]. simpl in Hs1, Hs2.
  assert (forall kr, owned (or_drv s0) ((gone kr, wq) :: others sy i) s2) as Hog
    by (intros kr; eapply owned_put; [exact Ho1|apply Hug|done|done]).
  assert (forall kr, fleet FB n ((gone kr, wq) :: others sy i) (sy_world sy) r) as Hfg.
  { intros kr. eapply fleet_view; [exact Hf|done|done|]. simpl. done. }
  assert (life_inv (mk_life (ubbd_dev_put (set_d_disk None (set_d_in_list false (o_dev o)))) v.1 v.2)) as Hput.
  { destruct Hlife as (H1 & H2 & H3 & H4 & H5). simpl in *. apply put_inv; try done.
    - unfold holders in *. simpl. rewrite Hl in H1. simpl in H1. lia.
    - destruct H5 as [? _ _ _ _ Hx| | |]; apply stage_unlisted; try done. intros Ew. apply Hx in Ew. congruence. }
  unfold run_on. rewrite Hi. cbn [deref obind]. fold o1. change (w_km (set_w_wq wq (sy_world sy))) with (w_km (sy_world sy)).
  rewrite E. unfold dev_put at 1, ubbd_dev_put. simpl d_kref. rewrite (proj2 (Z.eqb_neq (d_kref (o_dev o) + 1) 1)) by lia.
  cbn [obind deref]. rewrite Z.add_simpl_r.
  match goal with |- context [dev_put ?a s2] => change a with (gone (d_kref (o_dev o))) end.
  simpl w_km. unfold dev_put, ubbd_dev_put in *. simpl d_kref in *.
  destruct (Z.eqb_spec (d_kref (o_dev o)) 1) as [E1|E1].
  - destruct (destroy_step FB (or_drv s0) n (gone (d_kref (o_dev o)), wq) (others sy i) (sy_world sy) r s2) as
      (s3 & km & Ed & Hf3 & Ho3 & Hpg3); [apply Hfg|apply Hog|done|exact Hidle|].
    simpl in Ed. rewrite Ed. cbn [obind]. do 2 eexists. split; [done|]. simpl.
    replace (set_w_wq _ _) with (set_w_km km (sy_world sy)) by (by destruct (sy_world sy)).
    eapply sys_good_gone; [exact Hg|]. split; [done| |done|exact (eq_trans Hpg3 Hpg)].
    apply (alive_gone lf _ (o, wq)); try done; [|by apply (ow_handles _ _ _ Ho)].
    destruct Hput as [Hv1 Hv2]. simpl in Hv1, Hv2. simpl. fold v. destruct v as [v1 v2]. simpl in *. by subst.
  - cbn [obind]. do 2 eexists. split; [done|]. unfold put_back. simpl d_in_list. cbn iota.
    replace (set_w_wq (w_wq _) _) with (sy_world sy) by (by destruct (sy_world sy)).
    change (w_wq (set_w_km _ _)) with wq. eapply sys_good_unlist; [exact Hg|done|].
    match goal with |- good _ _ _ ((?a, _) :: _) _ _ _ _ => change a with (gone (d_kref (o_dev o) - 1)) end.
    split; [apply Hfg| |apply Hog|exact Hpg]. apply (alive_same _ (o, wq)); [done|done|]. split; [exact Hput|]. intros _. exact Hidle.
Qed.
End commands.

(** ** All the commands *)

Section handlers.
Context `{L : UbbdAbiLaws} `{KL : KernelApiLaws} `{ML : KernelMemLaws} `{IL : KernelIdrLaws}
  `{DL : KernelIdaLaws} `{T : UbbdAttrs} `{NL : NetlinkLaws}.
Abbreviation listed := (device_obj * list Z)%type.
Implicit Types (x : listed) (sy : system) (lf : Z -> option bool * Z) (o : device_obj) (rest : list listed).

Lemma owned_krings s0 o wq rest s : owned s0 ((o, wq) :: rest) s -> krings_live (dv_kring s) o.
Proof.
  intros Ho. pose proof (ow_sound _ _ _ Ho) as Hs. apply Forall_cons in Hs as [(_ & _ & Hp & _) _]. simpl in Hp.
  apply Forall_lookup. intros i [q p] Hi. unfold o_slots in Hi.
  apply lookup_zip_with_Some in Hi as (q1 & p1 & [= <- <-] & _ & Hi). simpl.
  rewrite Forall_lookup in Hp. destruct (Hp i p Hi) as [[hd Ehd] _]. unfold queue_minor. rewrite Ehd. simpl.
  destruct (kreg_lookup _ _ _ (qp_info p) hd (ow_kring _ _ _ Ho)) as [kd ->]; [|done|by eexists].
  unfold infos_all. simpl. apply elem_of_app. left. apply list_elem_of_fmap_2. exact (list_elem_of_lookup_2 _ _ _ Hi).
Qed.

(** There are no more devices than ids. *)
Lemma owned_length s0 devs s : owned s0 devs s -> Z.of_nat (length devs) <= 2 ^ 16.
Proof.
  intros Ho. assert (ids devs ⊆+ seqZ 0 (2 ^ 16)) as Hs.
  { apply NoDup_submseteq; [apply (ow_nodup _ _ _ Ho)|]. intros id (x & -> & Hx)%list_elem_of_fmap.
    pose proof (ow_sound _ _ _ Ho) as Hall. rewrite Forall_forall in Hall.
    destruct (Hall x Hx) as (_ & _ & _ & Hid). apply elem_of_seqZ. lia. }
  apply submseteq_length in Hs. unfold ids in Hs. rewrite length_map, length_seqZ in Hs. lia.
Qed.

Lemma added_id opts kenv o : added opts kenv o -> 0 <= d_dev_id (o_dev o) < 2 ^ 16.
Proof.
  intros Ha. destruct (ad_minor _ _ _ Ha) as [<- Hm]. unfold minor_to_ubbd_dev_id, UBBD_SINGLE_MAJOR_PART_SHIFT.
  rewrite Z.shiftr_div_pow2 by lia. change (2 ^ 4) with 16.
  split; [apply Z.div_pos; lia|]. apply Z.div_lt_upper_bound; lia.
Qed.

Lemma sys_good_add FB s0 n sy lf r opts kenv o s :
  sys_good FB s0 n sy lf r -> added opts kenv o -> up (sy_drv sy) o s (disk_objs (o_h o)) -> reply_fits opts kenv ->
  disk_env_ok kenv (Z.to_nat (ao_num_queues opts)) -> 0 <= ao_data_pages opts < 2 ^ 31 ->
  0 < ao_num_queues opts < 2 ^ 31 ->
  sys_good FB s0 n (mk_system s (sy_list sy ++ [(o, [])]) (sy_unlisted sy) (sy_world sy)) lf r.
Proof.
  intros [[Hf Ha Ho Hpg] [H1 H2]] Had Hu Hfit Henv Hp Hn.
  pose proof (ad_prepared _ _ _ Had) as Hprep. pose proof Hprep as (_ & _ & _ & Hl & _).
  split; [|split; simpl; [by apply Forall_app; split; [|apply Forall_singleton]|done]].
  apply (good_perm _ _ _ ((o, []) :: all_devs sy)).
  { unfold all_devs. simpl. rewrite <- app_assoc. simpl. by rewrite Permutation_middle. }
  assert (owned (or_drv s0) ((o, []) :: all_devs sy) s) as Ho'.
  { eapply owned_put; [exact Ho| | |].
    - simpl. unfold disk_part. by rewrite (ad_disk _ _ _ Had).
    - simpl. apply Forall_lookup. intros i p Hi. split; apply (ad_parts _ _ _ Had i p Hi).
    - simpl. by eapply added_id. }
  destruct (fleet_add _ _ _ _ _ _ _ _ Hf Had Hfit Henv Hp Hn) as [Hf' Hpg'].
  split; [done| |done|exact (eq_trans Hpg' Hpg)]. apply alive_add; try done.
  - pose proof (ow_handles _ _ _ Ho') as Hn'. by apply NoDup_cons in Hn' as [? _].
  - unfold held_of. simpl. apply idle_inflight, Forall_lookup. intros i q Hi.
    by destruct (ad_queue _ _ _ Had i q Hi) as (m & -> & _).
Qed.

Lemma sys_good_leak FB s0 n sy lf r h :
  sys_good FB s0 n sy lf r -> (forall y, y ∈ dv_heap (sy_drv sy) -> owner y <> h) ->
  sys_good FB s0 n (mk_system (set_dv_heap (disk_objs h ∪ dv_heap (sy_drv sy)) (sy_drv sy)) (sy_list sy)
    (sy_unlisted sy) (sy_world sy)) lf r.
Proof.
  intros [[Hf Ha Ho Hpg] Hl] Hh. split; [|done]. split; [done..| |done]. apply owned_leak; [done|].
  intros (x & -> & Hx)%list_elem_of_fmap. apply (Hh (OBJ_DEV (o_h x.1))); [|done]. by eapply owned_handle.
Qed.

Lemma add_dev_keeps FB s0 n sy lf r env attrs :
  sys_good FB s0 n sy lf r -> cmd_can CMD_ADD_DEV env attrs sy ->
  exists ret msg sy', handle_cmd_add_dev env attrs sy = Ok (ret, msg, sy') /\ sys_good FB s0 n sy' lf r.
Proof.
  intros Hg [Hfr Hcan].
  destruct (at_dev_opts attrs) as [[err|dopts]|] eqn:Eo; destruct (at_flags attrs) as [features|] eqn:Ef;
    try (unfold handle_cmd_add_dev; rewrite Eo, ?Ef; eauto).
  destruct (op_dev_size dopts) as [size|] eqn:Es; [|eauto].
  destruct (Hcan features size dopts eq_refl eq_refl Es) as (Henv & Hfit & Hp & Hn).
  destruct (add_dev_command_spec env attrs sy features size dopts Ef Eo Es Hfr Henv Hfit)
    as (ret & msg & sy' & E & Ew & Eu & H0 & H1).
  unfold handle_cmd_add_dev in E. rewrite Eo, Ef, Es in E. rewrite E. do 3 eexists. split; [done|].
  destruct (decide (ret = 0)) as [E0|E0].
  - destruct (H0 E0) as (o & b & El & Had & Hu & _).
    pose proof (sys_good_add _ _ _ _ _ _ _ _ _ _ Hg Had Hu Hfit Henv Hp Hn) as Hg'.
    rewrite <- El, <- Eu, <- Ew in Hg'. by destruct sy'.
  - destruct (H1 E0) as (El & _ & Hd). destruct sy' as [s' l' u' w']. simpl in *. subst l' u' w'.
    destruct Hd as [-> |(_ & h & Eh & ->)]; [by destruct sy|]. apply sys_good_leak; [done|].
    by apply (Hfr h).
Qed.

Lemma status_keeps FB s0 n sy lf r env attrs :
  sys_good FB s0 n sy lf r ->
  exists ret msg sy', handle_cmd_status env attrs sy = Ok (ret, msg, sy') /\ sys_good FB s0 n sy' lf r.
Proof.
  intros Hg. destruct (at_dev_id attrs) as [dev_id|] eqn:Ed; [|unfold handle_cmd_status; rewrite Ed; eauto 10].
  destruct (find_ubbd_dev dev_id (sy_list sy)) as [i|] eqn:Ei; [|unfold handle_cmd_status; rewrite Ed, Ei; eauto 10].
  destruct (find_dev_lookup _ _ _ Ei) as [[o wq] Hi]. destruct (sys_good_at _ _ _ _ _ _ _ _ Hg Hi) as [Hgi Hl].
  pose proof (good_kref _ _ _ _ _ _ _ _ _ _ Hgi) as Hk. destruct Hgi as [Hf _ Ho _].
  pose proof (ft_dev _ _ _ _ _ Hf) as Hd. apply Forall_cons in Hd as [[_ _ _ Hfit] _].
  destruct (status_reply_spec env attrs sy dev_id i o wq Ed Ei Hi Hk Hl (owned_krings _ _ _ _ _ Ho) Hfit)
    as (ret & msg & E & _). eauto.
Qed.

Lemma list_keeps FB s0 n sy lf r env attrs :
  sys_good FB s0 n sy lf r ->
  exists ret msg sy', handle_cmd_list env attrs sy = Ok (ret, msg, sy') /\ sys_good FB s0 n sy' lf r.
Proof.
  intros Hg. destruct (list_reply_complete env attrs sy) as (ret & msg & E & _); [|eauto].
  destruct Hg as [[_ _ Ho _] _]. pose proof (owned_length _ _ _ Ho) as Hlen. unfold all_devs in Hlen.
  rewrite length_app in Hlen. lia.
Qed.
End handlers.

(** ** Every step *)

Section machine.
Context `{L : UbbdAbiLaws} `{KL : KernelApiLaws} `{ML : KernelMemLaws} `{IL : KernelIdrLaws}
  `{DL : KernelIdaLaws} `{T : UbbdAttrs} `{NL : NetlinkLaws}.
Implicit Types (sy : system) (lf : Z -> option bool * Z) (o : device_obj).

Lemma target_at attrs sy dev_id i x :
  at_dev_id attrs = Some dev_id -> find_ubbd_dev dev_id (sy_list sy) = Some i -> sy_list sy !! i = Some x ->
  target attrs sy = Some x.
Proof. intros H1 H2 H3. unfold target. rewrite H1. simpl. by rewrite H2. Qed.

Lemma remove_disk_keeps FB s0 n sy lf r env attrs :
  sys_good FB s0 n sy lf r -> n < 2 ^ 64 -> cmd_can CMD_REMOVE_DISK env attrs sy ->
  exists ret msg sy', handle_cmd_remove_disk env attrs sy = Ok (ret, msg, sy') /\ sys_good FB s0 n sy' lf r.
Proof.
  intros Hg Hn ([dev_id Ed] & [flags Ef] & Hcan). unfold handle_cmd_remove_disk. rewrite Ed, Ef.
  cbn [nla_get deref obind]. set (force := negb (Z.land flags UBBD_ATTR_FLAGS_REMOVE_FORCE =? 0)).
  apply (with_dev_step FB s0 n); [done|]. intros i o wq Ei Hi Hl Hgi.
  destruct (Hcan (o, wq) (target_at _ _ _ _ _ Ed Ei Hi)) as [Hit Hh]. simpl in Hit.
  eapply run_on_keeps; [exact Hg|exact Hi|].
  destruct (negb force && negb (d_open_count (o_dev o) =? 0)) eqn:Eb.
  { eapply (keeps_same _ _ _ _ _ _ _ _ _ _ _ (- EBUSY)); [exact Hgi|exact Hl|]. simpl. by rewrite Eb. }
  apply (keeps_mgmt FB s0 n _ _ _ _ r _ _ _ (IORemoveDisk force)); try done.
  - intros f [= <-]. split; [done|]. intros Hf. apply (Hh flags Ef). unfold force in Hf.
    by apply negb_false_iff, Z.eqb_eq in Hf.
  - intros d' w' E. exists 0. cbn [o_dev set_o_dev d_open_count ubbd_dev_get set_d_kref]. rewrite Eb.
    unfold ubbd_dev_state_get_lock. change (intrans _) with (intrans (o_dev o)).
    rewrite Hit. cbn [obind]. unfold io_step in E. cbn [io_dev io_world] in E. unfold ubbd_dev_get in E.
    destruct (ubbd_dev_remove_disk _ force _) as [[d1 w1]|]; [|done]. cbn [obind] in *. by injection E as <- <-.
Qed.

Lemma config_keeps FB s0 n sy lf r env attrs :
  sys_good FB s0 n sy lf r -> n < 2 ^ 64 ->
  exists ret msg sy', handle_cmd_config env attrs sy = Ok (ret, msg, sy') /\ sys_good FB s0 n sy' lf r.
Proof.
  intros Hg Hn. unfold handle_cmd_config. destruct (at_dev_id attrs) as [dev_id|]; [|eauto 10].
  destruct (at_dev_opts attrs) as [nest|]; [|eauto 10].
  apply (with_dev_step FB s0 n); [done|]. intros i o wq Ei Hi Hl Hgi.
  eapply run_on_keeps; [exact Hg|exact Hi|]. destruct nest as [err|opts].
  { by eapply (keeps_same _ _ _ _ _ _ _ _ _ _ _ err). }
  destruct (config_opts opts) as [err|co] eqn:Eco.
  { by eapply (keeps_same _ _ _ _ _ _ _ _ _ _ _ err). }
  apply (keeps_mgmt FB s0 n _ _ _ _ r _ _ _ (IOConfig co)); try done.
  intros d' w' E. unfold io_step in E. cbn [io_dev io_world] in E. cbn [o_dev set_o_dev].
  destruct (ubbd_dev_config _ co) as [[ret d1]|]; [|done]. cbn [obind] in *. injection E as <- <-. by exists ret.
Qed.

Lemma queue_op_keeps FB s0 n sy lf r env attrs :
  sys_good FB s0 n sy lf r -> n < 2 ^ 64 -> cmd_can CMD_QUEUE_OP env attrs sy ->
  exists ret msg sy', handle_cmd_queue_op env attrs sy = Ok (ret, msg, sy') /\ sys_good FB s0 n sy' lf r.
Proof.
  intros Hg Hn Hid. unfold handle_cmd_queue_op. destruct (at_dev_id attrs) as [dev_id|]; [|eauto 10].
  simpl in Hid. destruct (at_queue_id attrs) as [id|]; [|eauto 10]. destruct (at_flags attrs) as [flags|]; [|eauto 10].
  specialize (Hid id eq_refl).
  apply (with_dev_step FB s0 n); [done|]. intros i o wq Ei Hi Hl Hgi.
  eapply run_on_keeps; [exact Hg|exact Hi|].
  destruct (negb (Z.land flags UBBD_ATTR_FLAGS_QUEUE_OP_STOP =? 0)).
  { apply (keeps_mgmt FB s0 n _ _ _ _ r _ _ _ (IOStop id)); try done.
    intros d' w' E. unfold io_step in E. cbn [io_dev io_world] in E. cbn [o_dev set_o_dev].
    destruct (ubbd_dev_stop_queue _ id _) as [[[ret d1] w1]|]; [|done]. cbn [obind] in *. injection E as <- <-.
    by exists ret. }
  destruct (negb (Z.land flags UBBD_ATTR_FLAGS_QUEUE_OP_START =? 0)).
  { apply (keeps_mgmt FB s0 n _ _ _ _ r _ _ _ (IOStart id)); try done.
    intros d' w' E. unfold io_step in E. cbn [io_dev io_world] in E. cbn [o_dev set_o_dev].
    destruct (ubbd_dev_start_queue _ id) as [[ret d1]|]; [|done]. cbn [obind] in *. injection E as <- <-.
    by exists ret. }
  by eapply (keeps_same _ _ _ _ _ _ _ _ _ _ _ (- EINVAL)).
Qed.

(** Every command keeps the driver good. *)
Lemma command_keeps FB s0 n sy lf r cmd env attrs :
  sys_good FB s0 n sy lf r -> n < 2 ^ 64 -> cmd_can cmd env attrs sy ->
  exists ret msg sy', ubbd_genl_ops cmd env attrs sy = Ok (ret, msg, sy') /\ sys_good FB s0 n sy' lf r.
Proof.
  intros Hg Hn Hcan. destruct cmd; cbn [ubbd_genl_ops].
  - by apply add_dev_keeps.
  - destruct Hcan as [[dev_id Ed] Hcan]. unfold handle_cmd_add_disk. rewrite Ed. cbn [nla_get deref obind].
    apply (with_dev_step FB s0 n); [done|]. intros i o wq Ei Hi Hl Hgi.
    eapply run_on_keeps; [exact Hg|exact Hi|]. apply keeps_add_disk; [done..|].
    by apply (Hcan (o, wq) (target_at _ _ _ _ _ Ed Ei Hi)).
  - by apply remove_disk_keeps.
  - destruct Hcan as [[dev_id Ed] Hcan]. unfold handle_cmd_remove_dev. rewrite Ed. cbn [nla_get deref obind].
    apply (with_dev_step FB s0 n); [done|]. intros i o wq Ei Hi Hl Hgi.
    destruct (Hcan (o, wq) (target_at _ _ _ _ _ Ed Ei Hi)) as [Hit Hp]. by eapply remove_dev_command.
  - by apply status_keeps.
  - by apply config_keeps.
  - by apply queue_op_keeps.
  - by apply list_keeps.
Qed.

(** Every step keeps the invariant, and none faults. *)
Lemma sys_step_inv FB s0 n s op :
  sys_inv FB s0 n s -> n < 2 ^ 64 -> (if submits op then n + 1 else n) < 2 ^ 64 -> sys_can FB op s ->
  exists s', sys_step op s = Ok s' /\ sys_inv FB s0 (if submits op then n + 1 else n) s'.
Proof.
  intros Hg Hn Hb Hcan. unfold sys_inv in *. destruct op as [cmd env attrs|h op|h op|h i a]; cbn [submits sys_step] in *.
  - destruct (command_keeps FB s0 n (s_sys s) _ _ cmd env attrs Hg Hn Hcan) as (ret & msg & sy' & -> & Hg').
    cbn [obind]. eauto.
  - destruct Hcan as (He & x & Hx & Hcan). rewrite Hx. cbn [deref obind].
    destruct (obj_at_spec _ _ _ Hx) as (<- & rest & Hp & Hon). destruct Hg as [Hg Hl].
    apply (good_perm _ _ _ _ _ _ _ _ _ Hp) in Hg.
    destruct (good_event _ _ _ _ _ _ _ _ _ op Hg He Hcan) as (l & ro & s' & w' & E & Ea & Hil & Hg').
    rewrite E. cbn [obind]. destruct (Hon _ _ _ _ Ea) as (sy' & -> & Es & Ew & Hp' & Hl'). cbn [obind].
    eexists. split; [done|]. split; simpl; [|by apply Hl']. rewrite Es, Ew. by eapply good_perm; [symmetry|].
  - destruct Hcan as (x & Hx & Ho & He & Hcan & Hnew). rewrite Hx. cbn [deref obind].
    destruct (obj_at_spec _ _ _ Hx) as (<- & rest & Hp & Hon). destruct Hg as [Hg Hl].
    apply (good_perm _ _ _ _ _ _ _ _ _ Hp) in Hg.
    pose proof (al_dev _ _ (gd_alive _ _ _ _ _ _ _ _ Hg)) as Hal. apply Forall_cons in Hal as [[Hlife _] _].
    pose proof (ft_quiet _ _ _ _ _ (gd_fleet _ _ _ _ _ _ _ _ Hg)) as Hq.
    assert (set_d_kref (d_kref (o_dev x.1)) (o_dev x.1) = o_dev x.1) as Eid by (by destruct (o_dev x.1)).
    destruct (good_step FB s0 op n x rest _ _ _ _ (d_kref (o_dev x.1)) Hg) as (d' & w' & r' & E & Ek & Eil & Hg').
    + by right.
    + by rewrite Eid.
    + intros t Ht. unfold held_all. rewrite <- (Permutation_map held_of Hp). by apply Hnew.
    + intros Hs. destruct op; try done. destruct He as (k & Hk & Hph). destruct Hlife as (_ & _ & _ & _ & Hst).
      destruct Hst; simplify_eq/=; congruence.
    + intros force Hr. destruct op; try done. injection Hr as <-.
      destruct Hlife as (_ & _ & _ & _ & Hst). simpl in He. simpl in Hst. pose proof dev_kstatus_distinct.
      destruct Hst; try (split_and!; done); rewrite He in *; intuition congruence.
    + done.
    + done.
    + rewrite Eid in E. unfold io_state. rewrite E. cbn [obind].
      destruct (Hon (io_act (mk_io d' w' r')) _ _ _ eq_refl) as (sy' & -> & Es & Ew & Hp' & Hl'). cbn [obind].
      eexists. split; [done|]. cbn [s_sys s_life s_refused io_refused].
      split; [|apply Hl'; [done|]; by intros x' [= <-]].
      rewrite Es, Ew. simpl io_world. rewrite Hq. eapply good_perm; [symmetry; exact Hp'|]. simpl.
      replace (set_o_dev d' x.1) with (set_o_dev (set_d_kref (d_kref (o_dev x.1)) d') x.1); [exact Hg'|].
      rewrite <- Ek. by destruct d'.
  - destruct Hcan as (x & Hx & Hi). destruct (obj_at_spec _ _ _ Hx) as (<- & rest & Hp & Hon).
    destruct Hg as [Hg Hl]. apply (good_perm _ _ _ _ _ _ _ _ _ Hp) in Hg.
    destruct (good_user _ _ _ _ _ _ _ _ _ i a Hg Hi) as (d' & Ea & Eil & Hg').
    edestruct Hon as (sy' & -> & Es & Ew & Hp' & Hl').
    { cbv beta. rewrite Ea. cbn [obind]. done. }
    cbn [obind]. eexists. split; [done|]. split; simpl; [|apply Hl'; [done|]; by intros x' [= <-]].
    rewrite Es, Ew. by eapply good_perm; [symmetry|].
Qed.

Lemma sys_start_inv FB P0 s0 s : sys_start FB P0 s0 s -> sys_inv FB (mk_origin s0 P0) 0 s.
Proof.
  intros (w & Es & Hl & Hr & HP & HF & Hq & Hb). unfold sys_inv. rewrite Es, Hr. split; [|split; constructor].
  split; [|by split|by apply owned_start|].
  2: { unfold outside_devs, all_devs. simpl. rewrite HP. set_solver. }
  split; unfold all_devs, held_all; simpl; try done; [constructor|by rewrite Hb|by rewrite HP].
Qed.

Lemma sys_reach_inv FB P0 s0 n s : sys_reach FB P0 s0 n s -> n < 2 ^ 64 -> sys_inv FB (mk_origin s0 P0) n s.
Proof.
  induction 1 as [s Hs|n s op s' _ IH Hc E]; intros Hn; [by apply sys_start_inv|].
  assert (n < 2 ^ 64) as Hn' by (destruct (submits op); lia).
  destruct (sys_step_inv FB (mk_origin s0 P0) n s op (IH Hn') Hn' Hn Hc) as (s2 & E2 & Hi). congruence.
Qed.
End machine.
