(* ===== verification/SystemDrain.v ===== *)
(** * Emptying the driver

    The steps that take something down ([drain]): events that end an add-disk
    work, an open or a mapping, forced removals of disks that are not being
    removed yet, removals of devices whose disk is.  Each of them lowers a
    weight of the driver ([load]), and one can happen as long as there is a
    device. *)

From stdpp Require Import relations.
From S2P Require Import Prelude Abi Ring Pages Request Balance Queue PoolProps QueueProps Kring KringMap Device DeviceInv DeviceProps.
From S2P Require Import Operation OperationProps Lifecycle Create CreateInv CreateProps Netlink NetlinkProps.
From S2P Require Import System SystemInv SystemStep SystemRun.

(** ** Runs that lower a weight *)

Section weighted.
Context {X : Type} (R : relation X) (I : X -> Prop) (W : X -> Z).
Hypothesis W_pos : forall x, I x -> 0 <= W x.
Hypothesis W_down : forall x y, I x -> R x y -> I y /\ W y < W x.

Lemma weighted_steps k x y : I x -> nsteps R k x y -> I y /\ Z.of_nat k <= W x - W y.
Proof.
  intros Hx Hr. revert Hx. induction Hr as [x|k x y z Hxy _ IH]; intros Hx; [split; [done|lia]|].
  destruct (W_down _ _ Hx Hxy) as [Hy Hw]. destruct (IH Hy). split; [done|lia].
Qed.

Lemma weighted_rtc x y : I x -> rtc R x y -> I y.
Proof. intros Hx [k Hk]%rtc_nsteps. by eapply weighted_steps. Qed.

(** A run that can always go on until [G] gets there. *)
Lemma weighted_wn (G : X -> Prop) x :
  (forall y, I y -> G y -> W y = 0) -> (forall y, I y -> ~ G y -> exists z, R y z) -> (forall y, Decision (G y)) ->
  I x -> wn R x.
Proof.
  intros H0 Hgo Hdec. remember (Z.to_nat (W x)) as k eqn:Ek. revert x Ek.
  induction (lt_wf k) as [k _ IH]. intros x -> Hx. destruct (Hdec x) as [Hg|Hg].
  - exists x. split; [done|]. intros [y Hy]. destruct (W_down _ _ Hx Hy) as [Hiy ?]. pose proof (W_pos _ Hiy).
    specialize (H0 _ Hx Hg). lia.
  - destruct (Hgo _ Hx Hg) as [y Hy]. destruct (W_down _ _ Hx Hy) as [Hiy ?].
    eapply wn_step; [|exact Hy]. eapply IH; [|done|done]. pose proof (W_pos _ Hiy). lia.
Qed.
End weighted.

(** ** The weight of the driver *)

Section drain.
Context `{A : UbbdAbi} `{K : KernelApi} `{M : KernelMem} `{I : KernelIdr} `{D : KernelIda}
  `{T : UbbdAttrs} `{N : NetlinkApi}.
Abbreviation listed := (device_obj * list Z)%type.

(** What is left to take down on a device: its place in the list (two steps
    until its disk is being removed), the queued work (two steps), the running
    work, the opens and the mappings. *)
Definition weight (d : ubbd_device) (v : option bool * Z) : Z :=
  (if d_in_list d then if d_status d =? UBBD_DEV_KSTATUS_REMOVING then 1 else 2 else 0) +
  2 * b2z (d_work_pending d) + work_ref v.1 + d_open_count d + v.2.

Definition load (s : sys) : Z := sumZ (map (fun x => weight (o_dev x.1) (s_life s (o_h x.1))) (all_devs (s_sys s))).

(** The events that end something. *)
Definition ending (op : life_op) : bool :=
  match op with LWorkBegin | LWorkEnd _ | LRelease | LUnmap => true | _ => false end.

Inductive drains (s : sys) : sys_op -> Prop :=
| drains_event h op : ending op = true -> drains s (SLife h op)
| drains_remove_disk env attrs flags x :
    target attrs (s_sys s) = Some x -> at_flags attrs = Some flags ->
    Z.land flags UBBD_ATTR_FLAGS_REMOVE_FORCE <> 0 -> d_status (o_dev x.1) <> UBBD_DEV_KSTATUS_REMOVING ->
    drains s (SCmd CMD_REMOVE_DISK env attrs)
| drains_remove_dev env attrs x :
    target attrs (s_sys s) = Some x -> d_status (o_dev x.1) <> UBBD_DEV_KSTATUS_RUNNING ->
    drains s (SCmd CMD_REMOVE_DEV env attrs).

Definition drain (FB : gset Z) : relation sys := fun s s' =>
  exists op, drains s op /\ sys_can FB op s /\ sys_step op s = Ok s'.
End drain.

(** ** Every such step lowers it *)

Section lowers.
Context `{L : UbbdAbiLaws} `{KL : KernelApiLaws} `{ML : KernelMemLaws} `{IL : KernelIdrLaws}
  `{DL : KernelIdaLaws} `{T : UbbdAttrs} `{NL : NetlinkLaws}.
Abbreviation listed := (device_obj * list Z)%type.
Implicit Types (x : listed) (sy : system) (lf : Z -> option bool * Z) (o : device_obj) (rest : list listed)
  (d : ubbd_device).

Definition weights lf devs : Z := sumZ (map (fun x => weight (o_dev x.1) (lf (o_h x.1))) devs).

Lemma weights_perm lf devs devs' : devs ≡ₚ devs' -> weights lf devs = weights lf devs'.
Proof. intros Hp. unfold weights. by rewrite Hp. Qed.

Lemma weights_cons lf x devs : weights lf (x :: devs) = weight (o_dev x.1) (lf (o_h x.1)) + weights lf devs.
Proof. done. Qed.

(** A device there is weighs something. *)
Lemma weight_pos d v : life_inv (mk_life (Some d) v.1 v.2) -> 0 < weight d v.
Proof.
  destruct v as [wk mp]. intros (Hk & Hp & Ho & Hm & _). cbn [fst snd lf_work lf_maps] in *.
  unfold weight, holders, b2z, work_ref in *. cbn [fst snd] in *. repeat case_match; lia.
Qed.

Lemma weights_pos lf devs : Forall (fun x => life_ok (lf (o_h x.1)) x) devs -> 0 <= weights lf devs.
Proof.
  induction 1 as [|x devs [Hx _] _ IH]; [done|]. rewrite weights_cons. pose proof (weight_pos _ _ Hx). lia.
Qed.

Lemma put_weight d d' v : ubbd_dev_put d = Some d' -> weight d' v = weight d v.
Proof. unfold ubbd_dev_put. destruct (_ =? _); [done|]. by intros [= <-]. Qed.

Lemma status_weight d d' v :
  d_status d <> UBBD_DEV_KSTATUS_REMOVING -> d_in_list d' = d_in_list d -> d_work_pending d' = d_work_pending d ->
  d_open_count d' = d_open_count d -> weight d' v <= weight d v.
Proof.
  intros Hs El Ep Eo. unfold weight. rewrite El, Ep, Eo, (proj2 (Z.eqb_neq _ _) Hs). repeat case_match; lia.
Qed.

(** An event that ends something. *)
Lemma ending_weight op d v l :
  ending op = true -> life_inv (mk_life (Some d) v.1 v.2) -> can true op (mk_life (Some d) v.1 v.2) ->
  life_step op (mk_life (Some d) v.1 v.2) = Ok l ->
  match lf_dev l with Some d' => weight d' (lf_work l, lf_maps l) < weight d v | None => True end.
Proof.
  intros He (_ & _ & _ & _ & Hst) Hc E.
  destruct op; try done; unfold life_step in E; cbn [lf_dev deref obind] in E; simpl in Hc, Hst.
  - destruct Hc as (Hp & Hn & _). simpl in Hn. inv_ok E. destruct r as [b d1]. injection E as <-. simpl.
    assert (d_status d1 = d_status d /\ d_in_list d1 = d_in_list d /\ d_work_pending d1 = false /\
      d_open_count d1 = d_open_count d) as (Es & El & Ep & Eo).
    { unfold add_disk_begin in E0. destruct (negb _); [by injection E0 as <- <-|]. inv_ok E0. by injection E0 as <- <-. }
    unfold weight. simpl. rewrite Es, El, Ep, Eo, Hp, Hn. simpl. lia.
  - destruct v as [wk mp]. simpl in *. destruct wk as [b|]; [|done]. cbn [deref obind] in E. inv_ok E.
    injection E as <-. simpl. destruct r as [d'|]; [|done]. unfold add_disk_end in E0. inv_ok E0.
    injection E0 as E0. rewrite (put_weight _ _ _ E0). clear E0. destruct (b && (add_ret =? 0)) eqn:Eb.
    + inv_ok E. injection E as <-. apply andb_true_iff in Eb as [-> _].
      destruct Hst as [k' Hs _ _ _ _|? _ _ _ _ _ Hx|? _ _ _ _ _ Hx|_ _ _ _ _ Hx]; [|by destruct Hx..].
      pose proof dev_kstatus_distinct. unfold weight. simpl. rewrite Hs.
      rewrite (proj2 (Z.eqb_neq UBBD_DEV_KSTATUS_PREPARED UBBD_DEV_KSTATUS_REMOVING)) by (intuition congruence).
      repeat case_match; lia.
    + injection E as <-. unfold weight. simpl. lia.
  - injection E as <-. simpl. destruct (ubbd_release d) as [d'|] eqn:Ed; [|done].
    rewrite (put_weight _ _ _ Ed). unfold weight. simpl. lia.
  - injection E as <-. simpl. destruct (ubbd_dev_put d) as [d'|] eqn:Ed; [|done].
    rewrite (put_weight _ _ _ Ed). unfold weight. simpl. lia.
Qed.

(** What a command leaves of the device it ran on. *)
Lemma run_on_inv i f sy ret sy' o wq :
  run_on i f sy = Ok (ret, sy') -> sy_list sy !! i = Some (o, wq) ->
  exists o1 s w ro, f (set_o_dev (ubbd_dev_get (o_dev o)) o) (sy_drv sy) (set_w_wq wq (sy_world sy)) =
      Ok (ret, Some o1, s, w) /\
    all_devs sy' ≡ₚ option_list ro ++ others sy i /\
    forall x' v, ro = Some x' -> o_h x'.1 = o_h o1 /\ weight (o_dev x'.1) v = weight (o_dev o1) v.
Proof.
  unfold run_on. intros E Hi. rewrite Hi in E. cbn [deref obind] in E. inv_ok E.
  destruct r as [[[ret' ro1] s] w]. inv_ok E. destruct ro1 as [o1|]; [|done]. injection E1 as <-. inv_ok E.
  destruct r as [[ro s'] km]. injection E as <- <-. exists o1, s, w, (ro ≫= fun o' => Some (o', w_wq w)).
  split; [done|]. unfold dev_put in E1. destruct (ubbd_dev_put (o_dev o1)) as [d|] eqn:Ed.
  - injection E1 as <- <- <-. split.
    + unfold put_back, all_devs. cbn [o_dev set_o_dev]. destruct (d_in_list d); simpl.
      * by rewrite (insert_perm _ _ _ _ Hi).
      * unfold others. by rewrite Permutation_middle.
    + intros x' v [= <-]. simpl. split; [done|]. by apply put_weight.
  - inv_ok E1. destruct r. injection E1 as <- <- <-. done.
Qed.

Lemma weights_set lf h v rest :
  h ∉ handles rest -> weights (set_life h v lf) rest = weights lf rest.
Proof.
  unfold weights, handles. induction rest as [|y rest IH]; simpl; [done|]. rewrite not_elem_of_cons. intros [Hy Hr].
  unfold sumZ in *. simpl. rewrite IH by done. unfold set_life. by rewrite decide_False.
Qed.

Lemma good_weights FB s0 n devs s w lf r : good FB s0 n devs s w lf r -> 0 <= weights lf devs.
Proof. intros Hg. apply weights_pos, (al_dev _ _ (gd_alive _ _ _ _ _ _ _ _ Hg)). Qed.

(** One device becomes [ro] among the others. *)
Lemma weights_one FB s0 n x rest s w lf r ro :
  good FB s0 n (x :: rest) s w lf r ->
  (forall x', ro = Some x' -> o_h x'.1 = o_h x.1 /\ weight (o_dev x'.1) (lf (o_h x.1)) < weight (o_dev x.1) (lf (o_h x.1))) ->
  weights lf (option_list ro ++ rest) < weights lf (x :: rest).
Proof.
  intros Hg Hro. rewrite weights_cons. destruct ro as [x'|]; simpl.
  - destruct (Hro x' eq_refl) as [Eh Hw]. rewrite weights_cons, Eh. lia.
  - pose proof (al_dev _ _ (gd_alive _ _ _ _ _ _ _ _ Hg)) as Ha. apply Forall_cons in Ha as [[Hx _] _].
    pose proof (weight_pos _ _ Hx). lia.
Qed.

Lemma event_lowers FB s0 n s h op s' :
  sys_inv FB s0 n s -> ending op = true -> sys_can FB (SLife h op) s -> sys_step (SLife h op) s = Ok s' ->
  load s' < load s.
Proof.
  intros [Hg _] He (Hev & x & Hx & Hcan) E. cbn [sys_step] in E. rewrite Hx in E. cbn [deref obind] in E.
  destruct (obj_at_spec _ _ _ Hx) as (<- & rest & Hp & Hon). apply (good_perm _ _ _ _ _ _ _ _ _ Hp) in Hg.
  pose proof (ow_handles _ _ _ (gd_owned _ _ _ _ _ _ _ _ Hg)) as Hn. apply NoDup_cons in Hn as [Hn _].
  destruct (good_event _ _ _ _ _ _ _ _ _ op Hg Hev Hcan) as (l & ro & drv & w & El & Ea & _).
  rewrite El in E. cbn [obind] in E. destruct (Hon _ _ _ _ Ea) as (sy' & Eo & _ & _ & Hp' & _).
  rewrite Eo in E. cbn [obind] in E. injection E as <-.
  change (weights (set_life (o_h x.1) (lf_work l, lf_maps l) (s_life s)) (all_devs sy') <
    weights (s_life s) (all_devs (s_sys s))).
  rewrite (weights_perm _ _ _ Hp), (weights_perm _ _ _ Hp').
  pose proof (al_dev _ _ (gd_alive _ _ _ _ _ _ _ _ Hg)) as Ha. apply Forall_cons in Ha as [[Hlife _] _].
  pose proof (weight_pos _ _ Hlife). pose proof (ending_weight _ _ _ _ He Hlife Hcan El) as Hw.
  rewrite weights_cons. unfold life_act in Ea. destruct (lf_dev l) as [d'|].
  - injection Ea as <- _ _. simpl. rewrite weights_cons, weights_set by done. simpl.
    unfold set_life at 1. rewrite decide_True by done. lia.
  - inv_ok Ea. destruct r as [? ?]. injection Ea as <- _ _. simpl. rewrite weights_set by done. lia.
Qed.

(** A command on the device it names. *)
Lemma with_dev_inv sy attrs dev_id f x ret msg sy' :
  at_dev_id attrs = Some dev_id -> target attrs sy = Some x -> with_dev dev_id f sy = Ok (ret, msg, sy') ->
  exists i, sy_list sy !! i = Some x /\ run_on i f sy = Ok (ret, sy').
Proof.
  unfold target, with_dev. intros ->. simpl. destruct (find_ubbd_dev dev_id (sy_list sy)) as [i|]; [|done]. simpl.
  intros Hi E. inv_ok E. destruct r. injection E as <- _ <-. eauto.
Qed.

Lemma command_lowers FB s0 n s cmd env attrs dev_id f x s' :
  sys_inv FB s0 n s -> sys_step (SCmd cmd env attrs) s = Ok s' ->
  at_dev_id attrs = Some dev_id -> target attrs (s_sys s) = Some x ->
  ubbd_genl_ops cmd env attrs (s_sys s) = with_dev dev_id f (s_sys s) ->
  (forall ret o1 drv w, life_inv (life_state x (s_life s (o_h x.1))) ->
     f (set_o_dev (ubbd_dev_get (o_dev x.1)) x.1) (sy_drv (s_sys s)) (set_w_wq x.2 (sy_world (s_sys s))) =
     Ok (ret, Some o1, drv, w) ->
     o_h o1 = o_h x.1 /\ weight (o_dev o1) (s_life s (o_h x.1)) < weight (o_dev x.1) (s_life s (o_h x.1))) ->
  load s' < load s.
Proof.
  intros Hg E Hid Ht Ec Hf. cbn [sys_step] in E. rewrite Ec in E. inv_ok E. destruct r as [[ret msg] sy'].
  injection E as <-. destruct (with_dev_inv _ _ _ _ _ _ _ _ Hid Ht E0) as (i & Hi & Er). destruct x as [o wq].
  destruct (run_on_inv _ _ _ _ _ _ _ Er Hi) as (o1 & drv & w & ro & Ef & Hp & Hro).
  destruct (sys_good_at _ _ _ _ _ _ _ _ Hg Hi) as [Hgi _].
  change (weights (s_life s) (all_devs sy') < weights (s_life s) (all_devs (s_sys s))).
  rewrite (weights_perm _ _ _ Hp), (weights_perm _ _ _ (all_devs_at _ _ _ Hi)).
  eapply weights_one; [exact Hgi|]. intros x' ->.
  pose proof (al_dev _ _ (gd_alive _ _ _ _ _ _ _ _ Hgi)) as Ha. apply Forall_cons in Ha as [[Hlife _] _].
  destruct (Hf _ _ _ _ Hlife Ef) as [Eh Hw]. destruct (Hro x' (s_life s (o_h (o, wq).1)) eq_refl) as [-> ->]. done.
Qed.

Lemma target_listed FB s0 n s attrs x :
  sys_inv FB s0 n s -> target attrs (s_sys s) = Some x -> d_in_list (o_dev x.1) = true.
Proof.
  intros [_ [Hl _]]. unfold target. destruct (at_dev_id attrs) as [dev_id|]; simpl; [|done].
  destruct (find_ubbd_dev _ _) as [i|]; simpl; [|done]. rewrite Forall_lookup in Hl. apply Hl.
Qed.

Lemma remove_disk_lowers FB s0 n s env attrs flags x s' :
  sys_inv FB s0 n s -> sys_can FB (SCmd CMD_REMOVE_DISK env attrs) s ->
  sys_step (SCmd CMD_REMOVE_DISK env attrs) s = Ok s' -> target attrs (s_sys s) = Some x ->
  at_flags attrs = Some flags -> Z.land flags UBBD_ATTR_FLAGS_REMOVE_FORCE <> 0 ->
  d_status (o_dev x.1) <> UBBD_DEV_KSTATUS_REMOVING -> load s' < load s.
Proof.
  intros Hg ([dev_id Hid] & _ & Hcan) E Ht Hfl Hf Hs. destruct (Hcan x Ht) as [Hit _].
  eapply (command_lowers _ _ _ _ _ _ _ dev_id); [exact Hg|exact E|exact Hid|exact Ht| |].
  { cbn [ubbd_genl_ops]. unfold handle_cmd_remove_disk. rewrite Hid, Hfl. cbn [nla_get deref obind].
    rewrite (proj2 (Z.eqb_neq _ _) Hf). reflexivity. }
  intros ret o1 drv w Hlife Ef. cbn [negb andb] in Ef. unfold ubbd_dev_state_get_lock in Ef.
  change (intrans _) with (intrans (o_dev x.1)) in Ef. rewrite Hit in Ef. cbn [obind] in Ef. inv_ok Ef.
  destruct r as [d1 w1]. injection Ef as _ <- _ _. split; [done|]. cbn [o_dev set_o_dev].
  destruct (remove_disk_queues _ _ _ _ _ E0) as [_ Er]. unfold remove_disk_status in Er.
  assert (d_in_list d1 = d_in_list (o_dev x.1) /\ d_status d1 = UBBD_DEV_KSTATUS_REMOVING /\
    d_open_count d1 = d_open_count (o_dev x.1) /\ d_work_pending d1 = d_work_pending (o_dev x.1)) as (El & Es & Eo & Ep).
  { destruct (_ =? _) in Er; [unfold del_gendisk in Er; inv_ok Er|]; by injection Er as <-. }
  assert (d_in_list (o_dev x.1) = true) as Hl by (by eapply target_listed; [exact Hg|exact Ht]).
  unfold weight. rewrite El, Es, Eo, Ep, Hl, Z.eqb_refl, (proj2 (Z.eqb_neq _ _) Hs). lia.
Qed.

Lemma remove_dev_lowers FB s0 n s env attrs x s' :
  sys_inv FB s0 n s -> sys_can FB (SCmd CMD_REMOVE_DEV env attrs) s ->
  sys_step (SCmd CMD_REMOVE_DEV env attrs) s = Ok s' -> target attrs (s_sys s) = Some x ->
  d_status (o_dev x.1) <> UBBD_DEV_KSTATUS_RUNNING -> load s' < load s.
Proof.
  intros Hg ([dev_id Hid] & Hcan) E Ht Hs. destruct (Hcan x Ht) as [Hit _].
  assert (d_in_list (o_dev x.1) = true) as Hl by (eapply target_listed; [exact Hg|exact Ht]).
  eapply (command_lowers _ _ _ _ _ _ _ dev_id); [exact Hg|exact E|exact Hid|exact Ht| |].
  { cbn [ubbd_genl_ops]. unfold handle_cmd_remove_dev. rewrite Hid. cbn [nla_get deref obind]. reflexivity. }
  intros ret o1 drv w (_ & _ & _ & _ & Hst) Ef. cbn beta in Ef. inv_ok Ef. destruct r as [[[ret' ro] drv'] km].
  injection Ef as _ -> _ _. unfold remove_dev, ubbd_dev_state_get_lock in E0.
  change (intrans _) with (intrans (o_dev x.1)) in E0. rewrite Hit in E0. cbn [obind] in E0.
  change (d_status (o_dev (set_o_dev (ubbd_dev_get (o_dev x.1)) x.1))) with (d_status (o_dev x.1)) in E0.
  destruct (negb (d_status (o_dev x.1) =? UBBD_DEV_KSTATUS_REMOVING) &&
            negb (d_status (o_dev x.1) =? UBBD_DEV_KSTATUS_PREPARED)) eqn:Eg.
  { exfalso. apply andb_true_iff in Eg as [E1 E2]. apply negb_true_iff, Z.eqb_neq in E1, E2.
    simpl in Hst. destruct Hst as [? H1|? H1|? H1|_ H1]; congruence. }
  inv_ok E0. destruct r as [o2 s2]. inv_ok E0. destruct r as [[ro2 s3] km3]. injection E0 as _ -> _ _.
  unfold free_disk, ubbd_free_disk in E1. inv_oks. unfold dev_put in E2. cbn [o_dev set_o_dev] in E2.
  match type of E2 with context [ubbd_dev_put ?d] => destruct (ubbd_dev_put d) as [d2|] eqn:Ed end.
  2: { inv_ok E2. destruct r. done. }
  injection E2 as <- _ _. split; [done|]. cbn [o_dev set_o_dev]. rewrite (put_weight _ _ _ Ed).
  unfold weight. simpl in *. rewrite Hl. repeat case_match; lia.
Qed.

(** Every step that takes something down lowers the weight. *)
Lemma drain_lowers FB s0 n s s' :
  n < 2 ^ 64 -> sys_inv FB s0 n s -> drain FB s s' -> sys_inv FB s0 n s' /\ load s' < load s.
Proof.
  intros Hn Hg (op & Hd & Hc & E). assert (submits op = false) as Hsub by (by destruct Hd).
  destruct (sys_step_inv FB s0 n s op Hg Hn) as (s1 & E1 & Hg1); [by rewrite Hsub|done|]. rewrite Hsub in Hg1.
  assert (s1 = s') as -> by congruence. split; [done|].
  destruct Hd; eauto using event_lowers, remove_disk_lowers, remove_dev_lowers.
Qed.

Lemma load_pos FB s0 n s : sys_inv FB s0 n s -> 0 <= load s.
Proof. intros [Hg _]. eapply good_weights. exact Hg. Qed.

(** *** One can happen while there is a device *)

Lemma head_at h sy x rest : all_devs sy = x :: rest -> o_h x.1 = h -> obj_at h sy = Some x.
Proof.
  unfold all_devs, obj_at, find_obj. intros E Eh. destruct (sy_list sy) as [|y l]; simpl in *.
  - rewrite E. simpl. by rewrite decide_True.
  - injection E as -> _. by rewrite decide_True.
Qed.

Lemma head_target sy x rest attrs :
  all_devs sy = x :: rest -> lists_ok sy -> d_in_list (o_dev x.1) = true ->
  at_dev_id attrs = Some (d_dev_id (o_dev x.1)) -> target attrs sy = Some x.
Proof.
  unfold all_devs, target. intros E [_ Hu] Hl ->. destruct (sy_list sy) as [|y l]; simpl in *.
  - rewrite E in Hu. apply Forall_cons in Hu as [Hu _]. congruence.
  - injection E as -> _. by rewrite Z.eqb_refl.
Qed.

Definition no_env : nl_env :=
  mk_nl_env (mk_create_env None false (fun _ => mk_queue_env false false false (mk_register_env None 0 0)) false)
    (mk_disk_env 0 0 [] (mk_limits false false 0 0 0 0) [] (fun _ => 0) 0) 0 (mk_reply_env false 0).

(** The attributes of a forced removal. *)
Definition force_attrs (dev_id : Z) : genl_attrs :=
  mk_attrs (Some dev_id) None (Some UBBD_ATTR_FLAGS_REMOVE_FORCE) None.

Lemma drain_listed FB s x :
  target (force_attrs (d_dev_id (o_dev x.1))) (s_sys s) = Some x -> intrans (o_dev x.1) = false ->
  d_work_pending (o_dev x.1) = false -> exists op, drains s op /\ sys_can FB op s.
Proof.
  intros Ht Hit Hp. set (attrs := force_attrs (d_dev_id (o_dev x.1))) in *.
  assert (Z.land UBBD_ATTR_FLAGS_REMOVE_FORCE UBBD_ATTR_FLAGS_REMOVE_FORCE <> 0) as Hf
    by (rewrite Z.land_diag; pose proof remove_force_pos; lia).
  destruct (decide (d_status (o_dev x.1) = UBBD_DEV_KSTATUS_REMOVING)) as [Es|Es].
  - exists (SCmd CMD_REMOVE_DEV no_env attrs). split.
    + eapply drains_remove_dev; [exact Ht|]. pose proof dev_kstatus_distinct. rewrite Es. intuition congruence.
    + split; [by eexists|]. intros y Hy. by simplify_eq.
  - exists (SCmd CMD_REMOVE_DISK no_env attrs). split; [by eapply drains_remove_disk|].
    split_and!; [by eexists|by eexists|]. intros y Hy. simplify_eq. split; [done|].
    intros flags [= <-] H0. by destruct Hf.
Qed.

Lemma drain_possible FB s0 n s :
  sys_inv FB s0 n s -> all_devs (s_sys s) <> [] -> exists op, drains s op /\ sys_can FB op s.
Proof.
  intros [Hg Hl] Hne. destruct (all_devs (s_sys s)) as [|x rest] eqn:Ed; [done|].
  pose proof (al_dev _ _ (gd_alive _ _ _ _ _ _ _ _ Hg)) as Ha. apply Forall_cons in Ha as [[Hlife _] _].
  pose proof (head_at _ _ _ _ Ed eq_refl) as Hx. set (h := o_h x.1) in *. destruct Hlife as (Hk & Hp & Ho & Hm & Hst).
  unfold holders in Hk. simpl in Hk, Hp, Ho, Hm, Hst.
  assert (forall op, ending op = true -> is_event op = true -> can true op (life_state x (s_life s h)) ->
    exists op, drains s op /\ sys_can FB op s) as Hev.
  { intros op He Hi Hc. exists (SLife h op). split; [by apply drains_event|]. split; [done|]. by exists x. }
  destruct (s_life s h).1 as [b|] eqn:Ew; [apply (Hev (LWorkEnd 0)); [done|done|]; cbn; by rewrite Ew|].
  assert (intrans (o_dev x.1) = false) as Hit.
  { destruct Hst as [k _ _ _ _ Hx'|? _ _ _ _ ?|? _ _ _ _ ?|]; try done. apply not_true_is_false. by intros ?%Hx'. }
  destruct (d_work_pending (o_dev x.1)) eqn:Ep; [by apply (Hev LWorkBegin)|].
  destruct (decide (0 < d_open_count (o_dev x.1))); [by apply (Hev LRelease)|].
  destruct (decide (0 < (s_life s h).2)); [by apply (Hev LUnmap)|].
  destruct (d_in_list (o_dev x.1)) eqn:El; [|simpl in Hk; lia].
  apply (drain_listed FB s x); [|done..]. by eapply head_target.
Qed.

(** An empty driver weighs nothing. *)
Lemma load_empty s : all_devs (s_sys s) = [] -> load s = 0.
Proof. unfold load. by intros ->. Qed.

Lemma reach_drains FB P0 s0 n s s' :
  sys_reach FB P0 s0 n s -> rtc (drain FB) s s' -> sys_reach FB P0 s0 n s'.
Proof.
  intros Hr Hd. induction Hd as [|s s1 s2 (op & Hop & Hc & E) _ IH]; [done|]. apply IH.
  pose proof (sys_reach_next _ _ _ _ _ _ _ Hr Hc E) as H. by destruct Hop.
Qed.
End lowers.
