(* ===== verification/SystemProps.v ===== *)
(** * Properties of the driver

    The theorems about the whole driver, in every state [System] reaches: no
    step faults, the devices share nothing, the driver holds exactly what its
    devices need, and no request is lost. *)

From stdpp Require Import relations.
From S2P Require Import Prelude Abi Ring Pages Request Balance Queue PoolProps QueueProps Kring KringMap Device DeviceInv DeviceProps.
From S2P Require Import Operation OperationProps Lifecycle Create CreateInv CreateProps Netlink NetlinkProps.
From S2P Require Import System SystemInv SystemStep SystemRun SystemDrain.

Section properties.
Context `{L : UbbdAbiLaws} `{KL : KernelApiLaws} `{ML : KernelMemLaws} `{IL : KernelIdrLaws}
  `{DL : KernelIdaLaws} `{T : UbbdAttrs} `{NL : NetlinkLaws}.
Abbreviation listed := (device_obj * list Z)%type.
Implicit Types (x y : listed).

(** Two devices have nothing in common. *)
Record apart_devs x y : Prop := {
  ap_handle : o_h x.1 <> o_h y.1;
  ap_id : d_dev_id (o_dev x.1) <> d_dev_id (o_dev y.1);
  ap_held t : t ∈ held_of x -> t ∉ held_of y;
  ap_pages : pages_in (d_queues (o_dev x.1)) ## pages_in (d_queues (o_dev y.1));
}.

Lemma good_apart FB s0 n x y rest s w lf r : good FB s0 n (x :: y :: rest) s w lf r -> apart_devs x y.
Proof.
  intros [[_ [Ha _] Hh _ _ _ _] _ [Hn _ _ _ Hi _ _ _] _]. unfold held_all, handles, ids in *. simpl in *.
  apply NoDup_cons in Hn as [Hn _]. apply NoDup_cons in Hi as [Hi _]. rewrite not_elem_of_cons in Hn, Hi.
  apply NoDup_app in Hh as (_ & Hh & _). split; try tauto.
  - intros t H1 H2. apply (Hh t H1). apply elem_of_app. by left.
  - change (pages_of x ## pages_of y). set_solver.
Qed.

Lemma pair_perm (l : list listed) i j x y :
  i <> j -> l !! i = Some x -> l !! j = Some y -> exists rest, l ≡ₚ x :: y :: rest.
Proof.
  intros Hne Hi Hj. pose proof (delete_Permutation _ _ _ Hi) as Hp.
  assert (exists k, delete i l !! k = Some y) as [k Hk].
  { destruct (decide (j < i)%nat).
    - exists j. by rewrite list_lookup_delete_lt.
    - exists (pred j). rewrite list_lookup_delete_ge by lia. by replace (S (pred j)) with j by lia. }
  exists (delete k (delete i l)). rewrite Hp at 1. by rewrite (delete_Permutation _ _ _ Hk) at 1.
Qed.

(** C1: the driver does not fault under a careful manager.  In every state
    reached by netlink commands on any number of devices, their add-disk works,
    opens, closes and mappings, the opens of their queues by backends, and
    requests submitted, worked on, completed by backends and timing out on all
    of them, in any interleaving, the next step goes through if it meets
    [sys_can]: a command has the attributes its handler reads without a check
    ([unchecked_attributes_fault] is the command that has not); no add-disk and
    no remove-dev while an add-disk work of the device is queued, and no
    removal while the device is in transition ([impatient_manager_faults]); a
    removal of the disk without force only once the device holds no request;
    requests, works, completions and timeouts only on a device whose every
    queue a backend has opened ([release_without_backend_faults]), requests with
    a free tag on an added disk and timeouts while it is running; backends that
    append completion entries, of any content, and leave the rest of the rings
    to the driver ([backend_step]); a new device with at least one queue and
    sizes within the limits of its reply; a kernel that gives out new objects
    and sound queue maps; fewer than 2^64 requests.  And two devices never share
    an address, an id, a request or a data page. *)
Theorem driver_safe (FB P0 : gset Z) (s0 : driver) (n : Z) (s : sys) (op : sys_op) :
  sys_reach FB P0 s0 n s -> n + 1 < 2 ^ 64 -> sys_can FB op s ->
  (exists s', sys_step op s = Ok s') /\
  forall i j x y, i <> j -> all_devs (s_sys s) !! i = Some x -> all_devs (s_sys s) !! j = Some y -> apart_devs x y.
Proof.
  intros Hr Hn Hc. assert (sys_inv FB (mk_origin s0 P0) n s) as Hi by (apply sys_reach_inv; [done|lia]). split.
  - destruct (sys_step_inv _ _ n s op Hi) as (s' & E & _); [lia|destruct (submits op); lia|done|]. eauto.
  - intros i j x y Hne Hx Hy. destruct (pair_perm _ _ _ _ _ Hne Hx Hy) as [rest Hp].
    destruct Hi as [Hg _]. eapply good_apart. eapply good_perm; [exact Hp|exact Hg].
Qed.

(** A live device: its references are its holders, an added disk means it is
    running and listed, and its kring devices are registered. *)
Record live_dev (s : sys) x : Prop := {
  ld_obj : OBJ_DEV (o_h x.1) ∈ dv_heap (sy_drv (s_sys s));
  ld_refs : d_kref (o_dev x.1) = holders (o_dev x.1) (s_life s (o_h x.1)).1 (s_life s (o_h x.1)).2 /\
    0 < d_kref (o_dev x.1);
  ld_disk k : d_disk (o_dev x.1) = Some k -> dk_phase k = DISK_ADDED ->
    d_status (o_dev x.1) = UBBD_DEV_KSTATUS_RUNNING /\ d_in_list (o_dev x.1) = true;
  ld_krings : krings_live (dv_kring (sy_drv (s_sys s))) x.1;
}.

Lemma good_live FB s0 n x rest (s : sys) r :
  good FB s0 n (x :: rest) (sy_drv (s_sys s)) (sy_world (s_sys s)) (s_life s) r -> live_dev s x.
Proof.
  intros [_ Ha Ho _]. apply al_dev in Ha. apply Forall_cons in Ha as [[(Hk & Hp & _ & _ & Hst) _] _]. split.
  - eapply owned_handle; [exact Ho|by left].
  - done.
  - intros k Hd Hph. destruct Hst; simplify_eq/=; try done; congruence.
  - destruct x as [o wq]. by eapply owned_krings.
Qed.

Lemma good_world_pages FB s0 n devs s w lf r :
  good FB s0 n devs s w lf r -> live (w_km w) = or_pages s0 ∪ ⋃ map pages_of devs.
Proof.
  intros [Hf _ _ <-]. unfold outside_devs.
  assert (⋃ map pages_of devs ⊆ live (w_km w)) as Hs.
  { intros pg Hpg. apply elem_of_union_map in Hpg as (y & Hy & Hpg).
    pose proof (ft_dev _ _ _ _ _ Hf) as Hd. rewrite Forall_forall in Hd. by apply (dev_io_pages _ _ _ _ (Hd y Hy)). }
  rewrite difference_union_L. set_solver.
Qed.

(** With no device left everything is as at the start, but for disks that failed
    creations left behind. *)
Definition as_started (s0 : driver) (P0 : gset Z) (sy : system) : Prop :=
  dv_ids (sy_drv sy) = dv_ids s0 /\ dv_kring (sy_drv sy) = dv_kring s0 /\ dv_modrefs (sy_drv sy) = dv_modrefs s0 /\
  live (w_km (sy_world sy)) = P0 /\ dv_heap s0 ⊆ dv_heap (sy_drv sy) /\
  forall ob, ob ∈ dv_heap (sy_drv sy) -> ob ∈ dv_heap s0 \/ exists h, ob = OBJ_DISK h \/ ob = OBJ_TAG_SET h.

Lemma good_started FB s0 P0 n sy lf r :
  good FB (mk_origin s0 P0) n [] (sy_drv sy) (sy_world sy) lf r -> as_started s0 P0 sy.
Proof.
  intros Hg. pose proof (good_world_pages _ _ _ _ _ _ _ _ Hg) as Hp. destruct Hg as [_ _ Ho _]. simpl in Hp, Ho.
  destruct Ho as [_ (B & HB1 & HB2 & HB3 & _) Hk _ _ Hi _ Hm]. split_and!.
  - rewrite Hi. simpl. set_solver.
  - unfold infos_all in Hk. simpl in Hk. by inversion Hk.
  - rewrite Hm. simpl. lia.
  - rewrite Hp. simpl. set_solver.
  - rewrite HB1. set_solver.
  - rewrite HB1. unfold objs_all. simpl. intros ob Hob. apply HB3. set_solver.
Qed.

(** The requests of devices that hold none. *)
Lemma good_requests FB s0 n devs s w lf r :
  good FB s0 n devs s w lf r -> (forall x, x ∈ devs -> held_of x = []) -> starts (w_blk w) ≡ₚ ends (w_blk w) ++ r.
Proof.
  intros [Hf _ _ _] Hidle. rewrite (ft_ledger _ _ _ _ _ Hf).
  assert (held_all devs = []) as ->; [|by rewrite app_nil_r]. unfold held_all.
  clear -Hidle. induction devs as [|x devs IH]; [done|]. simpl.
  rewrite (Hidle x) by (auto using list_elem_of_here). apply IH; intros y Hy; auto using list_elem_of_further.
Qed.

(** C6: the driver holds what its devices need and nothing else.  In every
    reachable state the ids taken, the module references and the pages
    allocated beyond those of the start are exactly those of the devices there
    are; each of these is alive, has one reference per holder, and is in the
    list exactly when it is marked so; and when no device is left everything is
    as at the start (ids, kring devices and minors, module references, pages),
    but for disks that failed creations left behind. *)
Theorem driver_resources (FB P0 : gset Z) (s0 : driver) (n : Z) (s : sys) :
  sys_reach FB P0 s0 n s -> n < 2 ^ 64 ->
  let devs := all_devs (s_sys s) in
  let drv := sy_drv (s_sys s) in
  let w := sy_world (s_sys s) in
  dv_ids drv = list_to_set (map (fun x => d_dev_id (o_dev x.1)) devs) ∪ dv_ids s0 /\
  dv_modrefs drv = dv_modrefs s0 + Z.of_nat (length devs) /\
  live (w_km w) = P0 ∪ ⋃ map (fun x => pages_in (d_queues (o_dev x.1))) devs /\
  (forall x, x ∈ devs -> live_dev s x) /\
  (forall x, x ∈ sy_list (s_sys s) -> d_in_list (o_dev x.1) = true) /\
  (forall x, x ∈ sy_unlisted (s_sys s) -> d_in_list (o_dev x.1) = false) /\
  (devs = [] -> as_started s0 P0 (s_sys s)).
Proof.
  intros Hr Hn devs drv w. destruct (sys_reach_inv _ _ _ _ _ Hr Hn) as [Hg [Hl Hu]]. fold devs drv w in Hg.
  pose proof (gd_owned _ _ _ _ _ _ _ _ Hg) as Ho. simpl in Ho.
  pose proof (good_world_pages _ _ _ _ _ _ _ _ Hg) as Hp. simpl in Hp.
  rewrite Forall_forall in Hl, Hu. split_and!; try done; try apply Ho.
  - intros x Hx. apply list_elem_of_lookup in Hx as [i Hi]. eapply good_live.
    eapply good_perm; [exact (delete_Permutation _ _ _ Hi)|exact Hg].
  - intros Ed. rewrite Ed in Hg. by eapply good_started.
Qed.

(** C2: the driver loses no request.  In every reachable state the requests
    started on all the devices together are exactly those ended or given back,
    those refused with a status, and those its devices hold, waiting for a work
    or inflight; no request is held twice; only running devices hold any, so
    when no device is running everything that was started has been ended, given
    back or refused. *)
Theorem driver_no_request_lost (FB P0 : gset Z) (s0 : driver) (n : Z) (s : sys) :
  sys_reach FB P0 s0 n s -> n < 2 ^ 64 ->
  let devs := all_devs (s_sys s) in
  let blk := w_blk (sy_world (s_sys s)) in
  starts blk ≡ₚ ends blk ++ s_refused s ++ concat (map held_of devs) /\
  NoDup (concat (map held_of devs)) /\
  (forall x, x ∈ devs -> d_status (o_dev x.1) <> UBBD_DEV_KSTATUS_RUNNING -> held_of x = []) /\
  ((forall x, x ∈ devs -> d_status (o_dev x.1) <> UBBD_DEV_KSTATUS_RUNNING) ->
     starts blk ≡ₚ ends blk ++ s_refused s).
Proof.
  intros Hr Hn devs blk. destruct (sys_reach_inv _ _ _ _ _ Hr Hn) as [Hgd _]. fold devs in Hgd.
  pose proof Hgd as [Hf Ha _ _].
  assert (forall x, x ∈ devs -> d_status (o_dev x.1) <> UBBD_DEV_KSTATUS_RUNNING -> held_of x = []) as Hidle.
  { intros x Hx. apply al_dev in Ha. rewrite Forall_forall in Ha. by apply (Ha x Hx). }
  pose proof (ft_ledger _ _ _ _ _ Hf) as Hg. pose proof (ft_held _ _ _ _ _ Hf) as Hh. unfold held_all in Hg, Hh.
  split_and!; try done. intros Hnone. eapply good_requests; [exact Hgd|]. auto.
Qed.

(** The driver can always be emptied.  From every reachable state, the steps
    that take something down (the end of an add-disk work, a close, an unmap, a
    forced removal of a disk that is not being removed, a removal of a device
    that is not running), in any order and on any devices, are at most [load]
    in a row; a run of them that goes as far as it can exists; and every such
    run ends with no device, the driver as at its start, and every request that
    was started ended, given back or refused. *)
Theorem driver_can_be_emptied (FB P0 : gset Z) (s0 : driver) (n : Z) (s : sys) :
  sys_reach FB P0 s0 n s -> n < 2 ^ 64 ->
  (forall k s', nsteps (drain FB) k s s' -> Z.of_nat k <= load s) /\
  wn (drain FB) s /\
  (forall s', rtc (drain FB) s s' -> nf (drain FB) s' ->
     all_devs (s_sys s') = [] /\ as_started s0 P0 (s_sys s') /\
     starts (w_blk (sy_world (s_sys s'))) ≡ₚ ends (w_blk (sy_world (s_sys s'))) ++ s_refused s').
Proof.
  intros Hr Hn. set (I := sys_inv FB (mk_origin s0 P0) n).
  assert (I s) as Hi by (by apply sys_reach_inv).
  assert (forall c, I c -> 0 <= load c) as Hpos by (intros c; apply load_pos).
  assert (forall c c', I c -> drain FB c c' -> I c' /\ load c' < load c) as Hdown by (intros c c'; by apply drain_lowers).
  assert (forall c, I c -> all_devs (s_sys c) <> [] -> exists c', drain FB c c') as Hgo.
  { intros c Hx Hne. destruct (drain_possible _ _ _ _ Hx Hne) as (op & Hd & Hc).
    assert (submits op = false) as Hsub by (by destruct Hd).
    destruct (sys_step_inv _ _ _ _ op Hx Hn) as (c' & E & _); [by rewrite Hsub|done|]. by exists c', op. }
  split_and!.
  - intros k s' Hk. destruct (weighted_steps _ _ _ Hdown _ _ _ Hi Hk) as [Hi' ?]. specialize (Hpos _ Hi'). lia.
  - apply (weighted_wn _ _ _ Hpos Hdown (fun c => all_devs (s_sys c) = [])); [intros c _; apply load_empty|done| |done].
    intros c. destruct (all_devs (s_sys c)); [by left|by right].
  - intros s' Hrtc Hnf. assert (I s') as Hi' by (by apply (weighted_rtc _ _ _ Hdown s)).
    assert (all_devs (s_sys s') = []) as E.
    { destruct (all_devs (s_sys s')) eqn:E; [done|]. destruct Hnf. apply (Hgo _ Hi'). congruence. }
    destruct Hi' as [Hg _]. rewrite E in Hg. split_and!; [done|by eapply good_started|].
    eapply good_requests; [exact Hg|]. intros x Hx. by apply elem_of_nil in Hx.
Qed.
End properties.

(** ** Witnesses *)

(** One device of two queues: added, opened by a backend, its disk added, a
    read submitted and worked on, its disk removed by force, removed. *)
Definition demo_run (op : sys_op) (s : sys) : sys :=
  match sys_step op s with Ok s' => s' | Fault _ => s end.

Definition demo_s0 : sys := mk_sys demo_sys (fun _ => (None, 0)) [].
Definition demo_s1 : sys := demo_run (SCmd CMD_ADD_DEV (demo_nl_env 0) demo_add_attrs) demo_s0.
Definition demo_s2 : sys := demo_run (SUser 100 0 (UserOpen 55)) demo_s1.
Definition demo_s3 : sys := demo_run (SUser 100 1 (UserOpen 56)) demo_s2.
Definition demo_s4 : sys := demo_run (SCmd CMD_ADD_DISK (demo_nl_env 0) (demo_dev_attrs 1 0)) demo_s3.
Definition demo_s5 : sys := demo_run (SLife 100 LWorkBegin) demo_s4.
Definition demo_s6 : sys := demo_run (SLife 100 (LWorkEnd 0)) demo_s5.
Definition demo_s7 : sys := demo_run (SIo 100 (IOSubmit 0 7 (demo_rq REQ_OP_READ))) demo_s6.
Definition demo_s8 : sys := demo_run (SIo 100 (IOWork 0)) demo_s7.
Definition demo_s9 : sys :=
  demo_run (SCmd CMD_REMOVE_DISK (demo_nl_env 0) (demo_dev_attrs 1 UBBD_ATTR_FLAGS_REMOVE_FORCE)) demo_s8.
Definition demo_s10 : sys := demo_run (SCmd CMD_REMOVE_DEV (demo_nl_env 0) (demo_dev_attrs 1 0)) demo_s9.

Lemma demo_run_reach FB P0 s0 n op s :
  sys_reach FB P0 s0 n s -> sys_can FB op s -> is_ok (sys_step op s) = true ->
  sys_reach FB P0 s0 (if submits op then n + 1 else n) (demo_run op s).
Proof.
  intros Hr Hc Hok. apply (sys_reach_next FB P0 s0 n s op); [done..|]. unfold demo_run. by destruct (sys_step op s).
Qed.

(** Something computed of the device at an address, or of the target of a command. *)
Lemma demo_obj h sy (P : device_obj * list Z -> bool) :
  match obj_at h sy with Some x => P x | None => false end = true ->
  exists x, obj_at h sy = Some x /\ P x = true.
Proof. destruct (obj_at h sy) as [x|]; [eauto|done]. Qed.

Lemma demo_target attrs sy (P : device_obj * list Z -> bool) :
  match target attrs sy with Some x => P x | None => true end = true ->
  forall x, target attrs sy = Some x -> P x = true.
Proof. intros H x E. by rewrite E in H. Qed.

Definition opened_b (d : ubbd_device) : bool :=
  bool_decide (Forall (fun q => is_Some (q_inode (q_pool q))) (d_queues d)).

Lemma demo_start : sys_start demo_foreign demo_foreign demo_driver demo_s0.
Proof. eexists. split; [reflexivity|]. by repeat split. Qed.

Lemma demo_add_can FB s :
  env_fresh demo_env (sy_drv (s_sys s)) -> sys_can FB (SCmd CMD_ADD_DEV (demo_nl_env 0) demo_add_attrs) s.
Proof.
  intros Hf. split; [exact Hf|]. intros features size dopts [= <-] [= <-] [= <-].
  split_and!; [apply demo_disk_env_ok|apply demo_disk_fits|vm_compute; congruence..].
Qed.

Lemma demo_s1_reach : sys_reach demo_foreign demo_foreign demo_driver 0 demo_s1.
Proof.
  apply (demo_run_reach _ _ _ 0 (SCmd CMD_ADD_DEV (demo_nl_env 0) demo_add_attrs)).
  - apply sys_reach_start, demo_start.
  - apply demo_add_can, demo_env_fresh.
  - vm_compute. reflexivity.
Qed.

Lemma demo_open_reach s i inode :
  sys_reach demo_foreign demo_foreign demo_driver 0 s ->
  match obj_at 100 (s_sys s) with Some x => (i <? length (d_queues (o_dev x.1)))%nat | None => false end = true ->
  is_ok (sys_step (SUser 100 i (UserOpen inode)) s) = true ->
  sys_reach demo_foreign demo_foreign demo_driver 0 (demo_run (SUser 100 i (UserOpen inode)) s).
Proof.
  intros Hr Hx Hok. apply (demo_run_reach _ _ _ 0 (SUser 100 i (UserOpen inode))); [done| |done].
  destruct (demo_obj _ _ _ Hx) as (x & E & Hi). exists x. split; [exact E|]. apply Nat.ltb_lt. exact Hi.
Qed.

(** The guards of the run, in states where what they need is computed. *)
Definition check_at (h : Z) (s : sys) (P : device_obj * list Z -> bool) : bool :=
  match obj_at h (s_sys s) with Some x => P x | None => false end.

Lemma demo_add_disk_can FB s :
  match target (demo_dev_attrs 1 0) (s_sys s) with Some x => negb (d_work_pending (o_dev x.1)) | None => true end = true ->
  sys_can FB (SCmd CMD_ADD_DISK (demo_nl_env 0) (demo_dev_attrs 1 0)) s.
Proof.
  intros H. split; [by eexists|]. intros x Hx.
  apply negb_true_iff. by apply (demo_target _ _ (fun x => negb (d_work_pending (o_dev x.1)))) with (x := x) in H.
Qed.

Lemma demo_begin_can FB s :
  check_at 100 s (fun x => d_work_pending (o_dev x.1) && negb (intrans (o_dev x.1)) &&
    bool_decide ((s_life s 100).1 = None)) = true ->
  sys_can FB (SLife 100 LWorkBegin) s.
Proof.
  intros (x & E & Hx)%demo_obj. split; [done|]. rewrite !andb_true_iff, bool_decide_eq_true in Hx.
  destruct Hx as [[H1 H2%negb_true_iff] H3]. by exists x.
Qed.

Lemma demo_end_can FB s : check_at 100 s (fun x => bool_decide ((s_life s 100).1 <> None)) = true ->
  sys_can FB (SLife 100 (LWorkEnd 0)) s.
Proof.
  intros (x & E & Hx)%demo_obj. split; [done|]. apply bool_decide_eq_true in Hx. by exists x.
Qed.

(** What an operation on a device needs, computed. *)
Definition demo_ready (x : device_obj * list Z) : bool :=
  opened_b (o_dev x.1) &&
  match d_disk (o_dev x.1) with Some k => bool_decide (dk_phase k = DISK_ADDED) | None => false end &&
  bool_decide (d_hctx (o_dev x.1) !! 0%nat = Some (Some 0)) && bool_decide (x.2 = []) &&
  bool_decide (Forall (fun q => q_inflight q = []) (d_queues (o_dev x.1))).

Lemma demo_submit_can s :
  check_at 100 s demo_ready = true -> concat (map held_of (all_devs (s_sys s))) = [] ->
  sys_can demo_foreign (SIo 100 (IOSubmit 0 7 (demo_rq REQ_OP_READ))) s.
Proof.
  intros (x & E & Hx)%demo_obj Hnone.
  unfold demo_ready in Hx. rewrite !andb_true_iff in Hx. destruct Hx as ((((H1 & H2) & H3) & H4) & H5).
  unfold opened_b in H1. rewrite !bool_decide_eq_true in *. exists x. split; [exact E|]. split; [exact H1|]. split.
  { destruct (d_disk (o_dev x.1)) as [k|] eqn:Ek; [|done]. exists k. split; [done|]. by apply bool_decide_eq_true in H2. }
  split.
  - split; [by exists 0|]. split; [|apply demo_rq_ok]. split.
    + simpl. rewrite H4. apply not_elem_of_nil.
    + intros i q Hi. rewrite Forall_lookup in H5. rewrite (H5 i q Hi). apply not_elem_of_nil.
  - intros tag _. rewrite Hnone. apply not_elem_of_nil.
Qed.

Lemma demo_work_can FB s : check_at 100 s (fun x => opened_b (o_dev x.1) && (0 <? length x.2)%nat) = true ->
  sys_can FB (SIo 100 (IOWork 0)) s.
Proof.
  intros (x & E & Hx)%demo_obj.
  apply andb_true_iff in Hx as [H1 H2]. unfold opened_b in H1. rewrite bool_decide_eq_true in H1.
  exists x. split; [exact E|]. split; [exact H1|]. split; [exact I|]. split; [apply Nat.ltb_lt; exact H2|].
  intros tag Ht. destruct (not_elem_of_nil tag Ht).
Qed.

Lemma demo_s4_reach : sys_reach demo_foreign demo_foreign demo_driver 0 demo_s4.
Proof.
  apply (demo_run_reach _ _ _ 0 (SCmd CMD_ADD_DISK (demo_nl_env 0) (demo_dev_attrs 1 0))).
  - apply demo_open_reach; [apply demo_open_reach; [apply demo_s1_reach|..]|..]; vm_compute; reflexivity.
  - apply demo_add_disk_can. vm_compute. reflexivity.
  - vm_compute. reflexivity.
Qed.

Lemma demo_s6_reach : sys_reach demo_foreign demo_foreign demo_driver 0 demo_s6.
Proof.
  apply (demo_run_reach _ _ _ 0 (SLife 100 (LWorkEnd 0))); [|apply demo_end_can|]; [|vm_compute; reflexivity..].
  apply (demo_run_reach _ _ _ 0 (SLife 100 LWorkBegin)); [exact demo_s4_reach|apply demo_begin_can|]; vm_compute; reflexivity.
Qed.

Lemma demo_s7_reach : sys_reach demo_foreign demo_foreign demo_driver 1 demo_s7.
Proof.
  apply (demo_run_reach _ _ _ 0 (SIo 100 (IOSubmit 0 7 (demo_rq REQ_OP_READ)))); [apply demo_s6_reach|apply demo_submit_can|];
    vm_compute; reflexivity.
Qed.

Lemma demo_work_possible : sys_can demo_foreign (SIo 100 (IOWork 0)) demo_s7.
Proof. apply demo_work_can. vm_compute. reflexivity. Qed.

Lemma demo_s10_reach : sys_reach demo_foreign demo_foreign demo_driver 1 demo_s10.
Proof.
  assert (sys_reach demo_foreign demo_foreign demo_driver 1 demo_s8) as H8.
  { apply (demo_run_reach _ _ _ 1 (SIo 100 (IOWork 0))); [apply demo_s7_reach|apply demo_work_possible|vm_compute; reflexivity]. }
  assert (sys_reach demo_foreign demo_foreign demo_driver 1 demo_s9) as H9.
  { apply (demo_run_reach _ _ _ 1 (SCmd CMD_REMOVE_DISK (demo_nl_env 0) (demo_dev_attrs 1 UBBD_ATTR_FLAGS_REMOVE_FORCE)));
      [exact H8| |vm_compute; reflexivity].
    split; [by eexists|]. split; [by eexists|]. intros x Hx. split.
    - apply negb_true_iff. apply (demo_target _ _ (fun x => negb (intrans (o_dev x.1)))) in Hx; [done|].
      vm_compute. reflexivity.
    - intros flags [= <-]. vm_compute. discriminate. }
  apply (demo_run_reach _ _ _ 1 (SCmd CMD_REMOVE_DEV (demo_nl_env 0) (demo_dev_attrs 1 0)));
    [exact H9| |vm_compute; reflexivity].
  split; [by eexists|]. intros x Hx.
  apply (demo_target _ _ (fun x => negb (intrans (o_dev x.1)) && negb (d_work_pending (o_dev x.1)))) in Hx;
    [|vm_compute; reflexivity].
  apply andb_true_iff in Hx as [H1 H2]. apply negb_true_iff in H1, H2. done.
Qed.

(** The read pending on the work queue is submitted. *)
Lemma driver_safe_witness : exists s', sys_step (SIo 100 (IOWork 0)) demo_s7 = Ok s'.
Proof.
  apply (driver_safe demo_foreign demo_foreign demo_driver 1 demo_s7 (SIo 100 (IOWork 0)) demo_s7_reach);
    [reflexivity|exact demo_work_possible].
Defined.

(** Its pages have been given back. *)
Lemma driver_resources_witness :
  live (w_km (sy_world (s_sys demo_s10))) = demo_foreign /\ dv_ids (sy_drv (s_sys demo_s10)) = {[0]}.
Proof.
  assert (all_devs (s_sys demo_s10) = []) as E by (vm_compute; reflexivity).
  destruct (driver_resources demo_foreign demo_foreign demo_driver 1 demo_s10 demo_s10_reach eq_refl)
    as (_ & _ & _ & _ & _ & _ & H).
  destruct (H E) as (Hi & _ & _ & Hl & _). split; [exact Hl|exact Hi].
Defined.

(** The read has been ended. *)
Lemma driver_no_request_lost_witness :
  starts (w_blk (sy_world (s_sys demo_s10))) ≡ₚ ends (w_blk (sy_world (s_sys demo_s10))) ++ s_refused demo_s10.
Proof.
  apply (driver_no_request_lost demo_foreign demo_foreign demo_driver 1 demo_s10 demo_s10_reach eq_refl).
  assert (all_devs (s_sys demo_s10) = []) as -> by (vm_compute; reflexivity).
  intros x Hx. inversion Hx.
Defined.

(** A running device with a request waiting. *)
Lemma driver_can_be_emptied_witness :
  exists s', rtc (drain demo_foreign) demo_s7 s' /\ live (w_km (sy_world (s_sys s'))) = demo_foreign.
Proof.
  destruct (driver_can_be_emptied demo_foreign demo_foreign demo_driver 1 demo_s7 demo_s7_reach eq_refl)
    as (_ & (s' & Hr & Hnf) & H).
  exists s'. split; [exact Hr|]. apply (H s' Hr Hnf).
Defined.
