(* ===== verification/KringFrame.v ===== *)
(** * The registry of kring devices and their open files

    The rest of the driver registers and unregisters kring devices without
    looking at their open files: an operation that goes through on the
    [registry] of a state (no files, one reference per registered device) goes
    through on the state itself, with the same answer and the same open files,
    and ends in a state of the resulting registry. *)

From S2P Require Import Prelude Abi Ring Pages Request Queue Kring KringLife KringMap Device Create CreateInv.

(** ** Simulation of outcomes *)

Section sim.
Context {X Y : Type}.

(** Whatever [m] returns, [m'] returns something related. *)
Definition sim (R : X -> Y -> Prop) (m : outcome X) (m' : outcome Y) : Prop :=
  forall x, m = Ok x -> exists y, m' = Ok y /\ R x y.

Lemma sim_ok (R : X -> Y -> Prop) x y : R x y -> sim R (Ok x) (Ok y).
Proof. intros H z [= <-]. eauto. Qed.

Lemma sim_fault (R : X -> Y -> Prop) f m : sim R (Fault f) m.
Proof. by intros z. Qed.
End sim.

Lemma sim_bind {X Y X' Y'} (R : X -> Y -> Prop) (R' : X' -> Y' -> Prop) m m' k k' :
  sim R m m' -> (forall x y, R x y -> sim R' (k x) (k' y)) -> sim R' (obind m k) (obind m' k').
Proof.
  intros Hm Hk z H. apply obind_ok in H as (x & E & H). destruct (Hm x E) as (y & -> & Hr). by apply (Hk x y).
Qed.

Lemma sim_eq {X} (m : outcome X) : sim eq m m.
Proof. intros x ->. eauto. Qed.

(** Pairs of an equal answer and related states. *)
Definition same {X S} (R : relation S) : relation (X * S) := prod_relation eq R.

Lemma sim_same {X S} (R : relation S) (x : X) s s' : R s s' -> sim (same R) (Ok (x, s)) (Ok (x, s')).
Proof. intros H. by apply sim_ok. Qed.

(** ** The registry *)

Definition registry_dev (d : kring_device) : option kring_device :=
  match kd_info d with Some q => Some (mk_kdev (kd_minor d) (Some q) 1) | None => None end.

Definition registry (k : kring_state) : kring_state :=
  mk_kring (ks_class_registered k) (ks_idr k) (omap registry_dev (ks_devs k)) ∅ 0.

(** [k] is the registry of [ks], whose open files are [fs]. *)
Inductive kring_sim (fs : gmap Z listener) : kring_state -> kring_state -> Prop :=
| kring_sim_intro k : kring_inv k -> ks_files k = fs -> kring_sim fs (registry k) k.

Lemma kring_sim_of fs k ks : k = registry ks -> kring_inv ks -> ks_files ks = fs -> kring_sim fs k ks.
Proof. intros ->. by constructor. Qed.

Section kring.
Context `{IL : KernelIdrLaws} (fs : gmap Z listener).
Abbreviation kring_sim := (KringFrame.kring_sim fs).
Implicit Types (k : kring_state) (d : kring_device).

Lemma registry_lookup k h d :
  ks_devs (registry k) !! h = Some d ->
  exists d' q, ks_devs k !! h = Some d' /\ kd_info d' = Some q /\ d = mk_kdev (kd_minor d') (Some q) 1.
Proof.
  simpl. rewrite lookup_omap. destruct (ks_devs k !! h) as [d'|] eqn:E; [|done]. simpl. unfold registry_dev.
  destruct (kd_info d') as [q|] eqn:Eq; [|done]. intros [= <-]. eauto.
Qed.

Lemma registry_fresh k h : ks_devs k !! h = None -> ks_devs (registry k) !! h = None.
Proof. simpl. rewrite lookup_omap. by intros ->. Qed.

(** Registering. *)
Lemma register_sim env ok q info k ks :
  kring_sim k ks -> match re_kzalloc env with Some h => ks_devs ks !! h = None | None => True end ->
  sim (fun r r' => same kring_sim r r' /\
        forall h, re_kzalloc env <> Some h -> ks_devs ks !! h = None -> ks_devs r'.2 !! h = None)
    (ubbd_queue_kring_init env ok q info k) (ubbd_queue_kring_init env ok q info ks).
Proof.
  intros Hs Hh. destruct Hs as [k0 Hi Hfs]. unfold ubbd_queue_kring_init. destruct ok; cbn [negb].
  2: { apply sim_ok. split; [by split|done]. }
  set (info' := mk_info _ _).
  destruct (register_spec env q info' k0 Hi Hh) as (ret & i2 & k' & E & Hi' & Hr). rewrite E.
  revert E Hr. unfold __ubbd_kring_register_device. cbn [ks_class_registered registry].
  destruct (ks_class_registered k0) eqn:Ec; cbn [negb].
  2: { intros [= <- <- <-] _. apply sim_ok. split; [by split|done]. }
  cbn [negb orb]. destruct (bool_decide (ki_name info' = NAME_NULL)).
  { intros [= <- <- <-] _. apply sim_ok. split; [by split|done]. }
  destruct (re_kzalloc env) as [h|].
  2: { intros [= <- <- <-] _. apply sim_ok. split; [by split|done]. }
  pose proof (registry_fresh _ _ Hh) as Hhr. unfold ubbd_kring_get_minor. cbn [registry ks_idr].
  set (m := idr_alloc (ks_idr k0) 0 KRING_MAX_DEVICES) in *.
  destruct (Z.leb_spec 0 m) as [Hm|Hm].
  2: { destruct (m =? - ENOSPC).
    - intros [= <- <- <-] _. apply sim_ok. split; [by split|done].
    - destruct (Z.eqb_spec m 0); [lia|]. cbn [negb]. intros [= <- <- <-] _. apply sim_ok. split; [by split|done]. }
  change (negb (0 =? 0)) with false. cbv iota.
  set (rc := if re_set_name env =? 0 then re_device_add env else re_set_name env).
  destruct (Z.eqb_spec rc 0) as [Er|Er]; cbn [negb].
  - intros [= <- <- <-] _. apply sim_ok. split; [split; [done|]|].
    + apply kring_sim_of; [|done|done]. unfold registry, set_ks_devs, set_ks_idr. simpl. f_equal.
      symmetry. by apply omap_insert_Some.
    + intros h' Hne Hn. simpl. rewrite lookup_insert_ne by congruence. done.
  - destruct (idr_alloc_fresh _ _ _ Hm) as [_ Hnew]. fold m in Hnew.
    unfold put_device, ubbd_kring_free_minor. cbn [set_ks_devs set_ks_idr ks_devs ks_idr].
    rewrite !lookup_insert_eq. cbn [deref obind kd_refs]. change (1 =? 1) with true. cbv iota. cbn [obind].
    intros E [[_ ->]|(E0 & _)]; [|exfalso; injection E as E1 _ _; congruence].
    injection E as <- <- _. apply sim_ok. split; [|done]. split; [done|].
    apply kring_sim_of; [|done|done]. unfold registry, set_ks_devs, set_ks_idr. simpl. rewrite !delete_insert_eq.
    rewrite !delete_id by done. by rewrite Ec.
Qed.

Lemma put_device_class h k k' : put_device h k = Ok k' -> ks_class_registered k' = ks_class_registered k.
Proof. unfold put_device. intros E. inv_ok E. destruct (_ =? _); by injection E as <-. Qed.

Lemma unregister_class info k k' :
  ubbd_kring_unregister_device info k = Ok k' -> ks_class_registered k' = ks_class_registered k.
Proof.
  unfold ubbd_kring_unregister_device, unregister_device_part. destruct (ki_dev info); [|by intros [= ->]].
  intros E. inv_ok E. inv_ok E. injection E as <-. inv_ok E1. apply put_device_class in E1. exact E1.
Qed.

(** Unregistering. *)
Lemma unregister_sim info k ks :
  kring_sim k ks ->
  sim kring_sim (ubbd_kring_unregister_device info k) (ubbd_kring_unregister_device info ks).
Proof.
  intros Hs. destruct Hs as [k0 Hi Hfs]. destruct info as [[h|] n]; [|by apply sim_ok]. intros k1 E.
  unfold ubbd_kring_unregister_device, unregister_device_part in E. cbn [ki_dev] in E.
  destruct (ks_devs (registry k0) !! h) as [d|] eqn:Ed; [|done].
  destruct (registry_lookup _ _ _ Ed) as (d' & q & Hd' & Hq & ->). cbn [deref obind kd_minor kd_info kd_refs] in E.
  unfold put_device in E. cbn [set_ks_devs ks_devs] in E. rewrite lookup_insert_eq in E.
  cbn [deref obind kd_refs] in E. change (1 =? 1) with true in E. cbv iota in E. cbn [obind] in E. injection E as <-.
  destruct (unregister_spec k0 h d' q n Hi Hd' Hq) as (k2 & E2 & Hi2 & Eidr & Ef & En & Edevs).
  exists k2. split; [done|].
  apply kring_sim_of; [|done|congruence].
  unfold registry, ubbd_kring_free_minor, set_ks_idr, set_ks_devs. simpl. f_equal.
  - symmetry. by eapply unregister_class.
  - done.
  - rewrite delete_insert_eq, Edevs. destruct (opens k0 h =? 0).
    + by rewrite omap_delete.
    + by rewrite omap_insert_None.
Qed.
End kring.

(** ** The driver *)

(** The same driver over related kring states. *)
Inductive driver_sim (fs : gmap Z listener) : driver -> driver -> Prop :=
| driver_sim_intro ids k ks heap n :
    kring_sim fs k ks -> driver_sim fs (mk_driver ids k heap n) (mk_driver ids ks heap n).

(** [x] is free in the kring state of [s]. *)
Definition fresh_in (s : driver) (h : Z) : Prop := ks_devs (dv_kring s) !! h = None.

Section driver.
Context `{A : UbbdAbi} `{K : KernelApi} `{M : KernelMem} `{IL : KernelIdrLaws} `{D : KernelIda}
  (fs : gmap Z listener).
Abbreviation kring_sim := (KringFrame.kring_sim fs).
Abbreviation driver_sim := (KringFrame.driver_sim fs).
Implicit Types (c s : driver) (km : kmem) (o : device_obj).

(** Answers that carry a driver, and the memory after it. *)
Abbreviation with_km := (fun R => prod_relation R (@eq kmem)).

Ltac sim_if := match goal with |- sim _ (if ?b then _ else _) (if ?b then _ else _) => destruct b end.

Lemma halloc_sim x c s : driver_sim c s -> driver_sim (halloc x c) (halloc x s).
Proof. intros []. by constructor. Qed.

Lemma hfree_sim x c s : driver_sim c s -> sim driver_sim (hfree x c) (hfree x s).
Proof.
  intros [ids k ks heap n Hk]. unfold hfree. cbn [dv_heap]. destruct (decide _); [|apply sim_fault].
  apply sim_ok. by constructor.
Qed.

Lemma hfree_ptr_sim b x c s : driver_sim c s -> sim driver_sim (hfree_ptr b x c) (hfree_ptr b x s).
Proof. intros H. destruct b; [by apply hfree_sim|by apply sim_ok]. Qed.

Lemma queue_destroy_sim h i sl c s km :
  driver_sim c s -> sim (with_km driver_sim) (ubbd_queue_destroy h i sl c km) (ubbd_queue_destroy h i sl s km).
Proof.
  intros Hd. destruct Hd as [ids k ks heap n Hk]. destruct sl as [q parts].
  unfold ubbd_queue_destroy, ubbd_queue_kring_destroy. cbn [dv_kring].
  destruct (kfree_name (qp_info parts)) as [info|]; cbn [obind]; [|apply sim_fault].
  assert (sim (same kring_sim) (let* s := ubbd_kring_unregister_device info k in Ok (info, s))
    (let* s := ubbd_kring_unregister_device info ks in Ok (info, s))) as Hu.
  { eapply sim_bind; [by apply unregister_sim|]. intros k1 k2 H. by apply sim_ok. }
  eapply sim_bind; [exact Hu|]. intros [i1 k1] [i2 k2] [_ Hk1]. simpl in Hk1.
  eapply sim_bind; [apply hfree_ptr_sim; by constructor|]. intros s1 s2 Hs.
  destruct (qp_bitmap parts); [|by apply sim_ok]. destruct (ubbd_page_release _ km) as [p km'].
  eapply sim_bind; [by apply hfree_sim|]. intros s3 s4 Hs2. by apply sim_ok.
Qed.

Lemma destroy_queues_sim h sls : forall i c s km,
  driver_sim c s -> sim (with_km driver_sim) (destroy_queues_from h i sls c km) (destroy_queues_from h i sls s km).
Proof.
  induction sls as [|sl sls IH]; intros i c s km Hd; cbn [destroy_queues_from]; [by apply sim_ok|].
  eapply sim_bind; [by apply queue_destroy_sim|]. intros [c1 km1] [s1 km2] [Hs E]. simpl in Hs, E. subst km2. by apply IH.
Qed.

Lemma dev_destroy_queues_sim h sls c s km :
  driver_sim c s -> sim (with_km driver_sim) (ubbd_dev_destroy_queues h sls c km) (ubbd_dev_destroy_queues h sls s km).
Proof.
  intros Hd. unfold ubbd_dev_destroy_queues. eapply sim_bind; [by apply destroy_queues_sim|].
  intros [c1 km1] [s1 km2] [Hs E]. simpl in Hs, E. subst km2.
  eapply sim_bind; [by apply hfree_sim|]. intros s3 s4 Hs2. by apply sim_ok.
Qed.

Lemma dev_destroy_sim o c s km :
  driver_sim c s -> sim (with_km driver_sim) (ubbd_dev_destroy o c km) (ubbd_dev_destroy o s km).
Proof.
  intros Hd. unfold ubbd_dev_destroy. eapply sim_bind; [by apply hfree_sim|]. intros c1 s1 H1.
  eapply sim_bind; [by apply hfree_sim|]. intros c2 s2 H2.
  eapply sim_bind; [by apply dev_destroy_queues_sim|]. intros [c3 km1] [s3 km2] [H3 E]. simpl in H3, E. subst km2.
  destruct H3 as [ids k ks heap n Hk].
  eapply sim_bind; [apply hfree_sim; by constructor|]. intros c4 s4 H4. apply sim_ok. destruct H4. by repeat constructor.
Qed.

Lemma dev_put_sim o c s km :
  driver_sim c s -> sim (with_km (same driver_sim)) (dev_put o c km) (dev_put o s km).
Proof.
  intros Hd. unfold dev_put. destruct (ubbd_dev_put (o_dev o)); [by apply sim_ok|].
  eapply sim_bind; [by apply dev_destroy_sim|]. intros [c3 km1] [s3 km2] [H3 E]. simpl in H3, E. subst km2. by apply sim_ok.
Qed.

(** *** Creation *)

(** Of the handles free in [s], those that [env] does not return stay free. *)
Definition keeps_fresh (envs : Z -> queue_env) (i : Z) s s' : Prop :=
  forall h, re_kzalloc (qe_register (envs i)) <> Some h -> fresh_in s h -> fresh_in s' h.

Lemma queue_create_sim env h n sl c s :
  driver_sim c s -> match re_kzalloc (qe_register env) with Some hd => fresh_in s hd | None => True end ->
  sim (fun r r' => same driver_sim r r' /\ keeps_fresh (fun _ => env) 0 s r'.2)
    (ubbd_queue_create env h n sl c) (ubbd_queue_create env h n sl s).
Proof.
  intros Hd Hf. destruct sl as [q parts]. destruct Hd as [ids k ks heap m Hk].
  unfold ubbd_queue_create, ubbd_mgmt_need_fault. cbv iota.
  destruct (qe_bitmap_ok env); cbn [negb]; [|apply sim_ok; split; [by repeat constructor|by intros ? ?]].
  destruct (ubbd_queue_sb_init _ _) as [ret q1]. destruct (ret =? 0); cbn [negb]; [|apply sim_ok; split; [by repeat constructor|by intros ? ?]].
  eapply sim_bind; [by apply register_sim|].
  intros [[r1 i1] k1] [[r2 i2] k2] [[E Hk1] Hkeep]. simpl in E, Hk1, Hkeep. injection E as <- <-.
  destruct (r1 =? 0); cbn [negb]; apply sim_ok; (split; [by repeat constructor|exact Hkeep]).
Qed.

Lemma create_queues_sim envs h n todo : forall i c s,
  driver_sim c s -> (forall j hd, i <= j -> re_kzalloc (qe_register (envs j)) = Some hd -> fresh_in s hd) ->
  handles_distinct envs ->
  sim (same driver_sim) (create_queues_from envs h n i todo c) (create_queues_from envs h n i todo s).
Proof.
  induction todo as [|todo IH]; intros i c s Hd Hf Hdist; cbn [create_queues_from]; [by apply sim_ok|].
  eapply sim_bind.
  { apply queue_create_sim; [exact Hd|]. destruct (re_kzalloc _) eqn:E; [|done]. by apply (Hf i); [lia|]. }
  intros [[r1 sl1] c1] [[r2 sl2] s1] [[E Hs] Hk]. simpl in E, Hs, Hk. injection E as <- <-.
  destruct (r1 =? 0); cbn [negb]; [|by apply sim_ok].
  eapply sim_bind; [apply (IH (i + 1)); [exact Hs| |done]|].
  - intros j hd Hj E. apply Hk; [|by apply (Hf j); [lia|]]. intros E'. specialize (Hdist _ _ _ E E'). lia.
  - intros [[r3 sls] c2] [[r4 sls'] s2] [E Hs2]. simpl in E, Hs2. injection E as <- <-. by apply sim_ok.
Qed.

Lemma dev_create_queues_sim ok envs h num n c s km :
  driver_sim c s -> handles_fresh envs 0 (dv_kring s) -> handles_distinct envs ->
  sim (with_km (same driver_sim)) (ubbd_dev_create_queues ok envs h num n c km) (ubbd_dev_create_queues ok envs h num n s km).
Proof.
  intros Hd Hf Hdist. unfold ubbd_dev_create_queues. destruct ok; cbn [negb]; [|by apply sim_ok].
  eapply sim_bind; [apply create_queues_sim; [by apply halloc_sim|exact Hf|done]|].
  intros [[r1 sls] c1] [[r2 sls'] s1] [E Hs]. simpl in E, Hs. injection E as <- <-.
  destruct (r1 =? 0); cbn [negb]; [by apply sim_ok|].
  eapply sim_bind; [by apply dev_destroy_queues_sim|]. intros [c3 km1] [s3 km2] [H3 E]. simpl in H3, E. subst km2.
  by apply sim_ok.
Qed.

Lemma driver_sim_ids f c s : driver_sim c s -> driver_sim (set_dv_ids (f (dv_ids c)) c) (set_dv_ids (f (dv_ids s)) s).
Proof. intros []. by constructor. Qed.

Lemma dev_create_sim env opts c s km :
  driver_sim c s -> env_fresh env s ->
  sim (with_km (same driver_sim)) (ubbd_dev_create env opts c km) (ubbd_dev_create env opts s km).
Proof.
  intros Hd Hf. unfold ubbd_dev_create, ubbd_mgmt_need_fault. cbv iota.
  destruct (ve_kzalloc env) as [h|] eqn:Eh; [|by apply sim_ok]. destruct (Hf h Eh) as (_ & Hfr & Hdist).
  destruct Hd as [ids k ks heap m Hk]. cbn [halloc set_dv_heap dv_ids dv_kring dv_heap dv_modrefs].
  set (id := ida_alloc_range ids 0 _). destruct (id <? 0).
  { eapply sim_bind; [apply hfree_sim; by constructor|]. intros c1 s1 H1. by apply sim_ok. }
  eapply sim_bind; [apply dev_create_queues_sim; [by constructor|exact Hfr|exact Hdist]|].
  intros [[[r1 sls] c1] km1] [[[r2 sls'] s1] km2] [[E Hs] Ek]. simpl in E, Hs, Ek. injection E as <- <-. subst km2.
  destruct (r1 =? 0); cbn [negb].
  2: { eapply sim_bind; [apply hfree_sim, (driver_sim_ids (fun x => x ∖ {[id]})), Hs|]. intros c2 s2 H2. by apply sim_ok. }
  destruct (ve_task_wq_ok env); cbn [negb].
  2: { eapply sim_bind; [by apply dev_destroy_queues_sim|]. intros [c3 km1'] [s3 km2'] [H3 E]. simpl in H3, E. subst km2'.
    eapply sim_bind; [apply hfree_sim, (driver_sim_ids (fun x => x ∖ {[id]})), H3|]. intros c2 s2 H2. by apply sim_ok. }
  destruct Hs. apply sim_ok. by repeat constructor.
Qed.

(** *** The disk and the set-up *)

Lemma init_disk_sim env h d c s :
  driver_sim c s -> sim (same driver_sim) (ubbd_init_disk env h d c) (ubbd_init_disk env h d s).
Proof.
  intros Hd. unfold ubbd_init_disk, ubbd_mgmt_need_fault. cbv iota.
  destruct (ke_tag_set env =? 0); cbn [negb]; [|by apply sim_ok].
  destruct (ke_alloc_disk env =? 0); cbn [negb].
  2: { eapply sim_bind; [by apply hfree_sim, halloc_sim|]. intros c2 s2 H2. by apply sim_ok. }
  eapply sim_bind; [apply sim_eq|]. intros d1 ? <-. eapply sim_bind; [apply sim_eq|]. intros qs ? <-.
  apply sim_ok. by repeat first [done|apply halloc_sim|constructor].
Qed.

Lemma device_setup_sim env o c s :
  driver_sim c s -> sim (same driver_sim) (ubbd_dev_device_setup env o c) (ubbd_dev_device_setup env o s).
Proof.
  intros Hd. unfold ubbd_dev_device_setup. eapply sim_bind; [by apply init_disk_sim|].
  intros [[r1 d1] c1] [[r2 d2] s1] [E Hs]. simpl in E, Hs. injection E as <- <-.
  destruct (r1 =? 0); cbn [negb]; [|by apply sim_ok]. eapply sim_bind; [apply sim_eq|]. intros k ? <-. by apply sim_ok.
Qed.

Lemma free_disk_sim o c s : driver_sim c s -> sim (same driver_sim) (free_disk o c) (free_disk o s).
Proof.
  intros Hd. unfold free_disk. eapply sim_bind; [apply sim_eq|]. intros d ? <-.
  eapply sim_bind; [by apply hfree_sim|]. intros c1 s1 H1. eapply sim_bind; [by apply hfree_sim|]. intros c2 s2 H2.
  by apply sim_ok.
Qed.

Lemma add_dev_sim env kenv opts c s km :
  driver_sim c s -> env_fresh env s ->
  sim (with_km (same driver_sim)) (ubbd_dev_add_dev env kenv opts c km) (ubbd_dev_add_dev env kenv opts s km).
Proof.
  intros Hd Hf. unfold ubbd_dev_add_dev, ubbd_mgmt_need_fault. cbv iota.
  eapply sim_bind; [by apply dev_create_sim|].
  intros [[r1 c1] km1] [[r2 s1] km2] [[E Hs] Ek]. simpl in E, Hs, Ek. subst r2 km2.
  destruct r1 as [o|]; [|by apply sim_ok]. eapply sim_bind; [by apply device_setup_sim|].
  intros [[rc o1] c2] [[rc' o2] s2] [E Hs2]. simpl in E, Hs2. injection E as <- <-.
  destruct (rc =? 0); cbn [negb]; [by apply sim_ok|].
  eapply sim_bind; [by apply dev_put_sim|]. intros [[r3 c3] km3] [[r4 s3] km4] [[E H3] Ek]. simpl in E, H3, Ek.
  subst. by apply sim_ok.
Qed.
End driver.
