(* ===== verification/SystemFrame.v ===== *)
(** * The driver over the registry

    Every step of [System] that goes through on the registry of the kring
    devices ([KringFrame]) goes through on the driver with its open files, and
    ends in the same state but for these. *)

From S2P Require Import Prelude Abi Ring Pages Request Queue Kring KringLife KringMap Device DeviceInv Operation Lifecycle.
From S2P Require Import Create CreateInv CreateProps Netlink NetlinkProps KringFrame System.

Section commands.
Context `{A : UbbdAbi} `{K : KernelApi} `{M : KernelMem} `{IL : KernelIdrLaws} `{D : KernelIda}
  `{T : UbbdAttrs} `{N : NetlinkApi} (fs : gmap Z listener).
Abbreviation kring_sim := (KringFrame.kring_sim fs).
Abbreviation driver_sim := (KringFrame.driver_sim fs).
Abbreviation listed := (device_obj * list Z)%type.
Implicit Types (c s : driver) (o : device_obj) (sy : system) (w : world).

Inductive system_sim : system -> system -> Prop :=
| system_sim_intro c s l u w : driver_sim c s -> system_sim (mk_system c l u w) (mk_system s l u w).

(** ** Replies *)

Definition filler_sim (f f' : filler) : Prop := forall b, sim eq (f b) (f' b).

Lemma filler_sim_refl f : filler_sim f f.
Proof. intros b. apply sim_eq. Qed.

Lemma fseq_sim f f' g g' : filler_sim f f' -> filler_sim g g' -> filler_sim (fseq f g) (fseq f' g').
Proof.
  intros Hf Hg b. unfold fseq. eapply sim_bind; [apply Hf|]. intros r ? <-. destruct r; [apply sim_eq|apply Hg].
Qed.

Lemma fconcat_sim l l' : Forall2 filler_sim l l' -> filler_sim (fconcat l) (fconcat l').
Proof. induction 1; [apply filler_sim_refl|by apply fseq_sim]. Qed.

Lemma nest_unchecked_sim ty f f' : filler_sim f f' -> filler_sim (nest_unchecked ty f) (nest_unchecked ty f').
Proof. intros Hf b. unfold nest_unchecked. eapply sim_bind; [apply Hf|]. intros r ? <-. apply sim_eq. Qed.

Lemma nest_checked_sim ty f f' : filler_sim f f' -> filler_sim (nest_checked ty f) (nest_checked ty f').
Proof.
  intros Hf b. unfold nest_checked. destruct (nla_nest_start ty b); [|apply sim_eq].
  eapply sim_bind; [apply Hf|]. intros r ? <-. apply sim_eq.
Qed.

Lemma queue_info_sim k ks sl : kring_sim k ks -> filler_sim (fill_queue_info_item k sl) (fill_queue_info_item ks sl).
Proof.
  intros Hk. destruct sl as [q parts]. apply nest_unchecked_sim. intros b. eapply sim_bind; [apply sim_eq|].
  intros hd ? <-. intros r E. apply obind_ok in E as (kd & Ed & E). destruct Hk as [k0 Hi].
  destruct (ks_devs (registry k0) !! hd) as [kd0|] eqn:Er; [|done]. injection Ed as <-.
  destruct (registry_lookup _ _ _ Er) as (d & qi & Hd & _ & ->). rewrite Hd. cbn [deref obind]. simpl kd_minor in E. eauto.
Qed.

Lemma status_detail_sim k ks o :
  kring_sim k ks -> filler_sim (fill_ubbd_status_detail k o) (fill_ubbd_status_detail ks o).
Proof.
  intros Hk. apply fconcat_sim. constructor; [apply filler_sim_refl|]. constructor; [apply filler_sim_refl|].
  constructor; [|constructor]. intros b. eapply (sim_bind eq); [|intros r ? <-; apply sim_eq].
  apply nest_unchecked_sim, fconcat_sim. apply Forall2_fmap_2, Forall_Forall2_diag, Forall_true. intros sl.
  by apply queue_info_sim.
Qed.

Lemma build_reply_sim cmd f f' b e : filler_sim f f' -> sim eq (build_reply cmd f b e) (build_reply cmd f' b e).
Proof.
  intros Hf. unfold build_reply. destruct (genlmsg_put_reply cmd b); [|apply sim_eq].
  by apply fseq_sim; [|apply filler_sim_refl].
Qed.

Lemma add_dev_reply_sim renv k ks o :
  kring_sim k ks -> sim eq (ubbd_nl_reply_add_dev_done renv k o) (ubbd_nl_reply_add_dev_done renv ks o).
Proof.
  intros Hk. unfold ubbd_nl_reply_add_dev_done, ubbd_mgmt_need_fault. cbv iota.
  destruct (ne_new_ok renv); cbn [negb]; [|apply sim_eq].
  eapply sim_bind; [by apply build_reply_sim, nest_checked_sim, status_detail_sim|]. intros r ? <-. apply sim_eq.
Qed.

Lemma driver_sim_kring c s : driver_sim c s -> kring_sim (dv_kring c) (dv_kring s).
Proof. by intros []. Qed.

(** ** Commands on a device *)

Abbreviation with_world := (fun R => prod_relation R (@eq world)).
Abbreviation dev_action := (device_obj -> driver -> world -> outcome (Z * option device_obj * driver * world)).

Definition action_sim (f : dev_action) : Prop :=
  forall o c s w, driver_sim c s -> sim (with_world (same driver_sim)) (f o c w) (f o s w).

Lemma put_back_sim i ro wq c s w sy sy' :
  driver_sim c s -> system_sim sy sy' -> system_sim (put_back i ro wq c w sy) (put_back i ro wq s w sy').
Proof. intros Hd Hs. destruct Hs. unfold put_back. destruct ro as [o|]; [destruct (d_in_list _)|]; by constructor. Qed.

Lemma run_on_sim i f sy sy' :
  action_sim f -> system_sim sy sy' -> sim (same system_sim) (run_on i f sy) (run_on i f sy').
Proof.
  intros Hf Hs. pose proof Hs as Hs0. destruct Hs as [c s l u w Hd]. unfold run_on. cbn [sy_list sy_drv sy_world] in *.
  eapply sim_bind; [apply sim_eq|]. intros [o wq] ? <-. eapply sim_bind; [by apply Hf|].
  intros [[[r1 ro1] c1] w1] [[[r2 ro2] s1] w2] [[E H1] Ew]. simpl in E, H1, Ew. injection E as <- <-. subst w2.
  eapply sim_bind; [apply sim_eq|]. intros o1 ? <-. eapply sim_bind; [by apply dev_put_sim|].
  intros [[ro2 c2] km] [[ro3 s2] km'] [[E H2] Ek]. simpl in E, H2, Ek. subst. apply sim_same. by apply put_back_sim.
Qed.

Lemma with_dev_sim dev_id f sy sy' :
  action_sim f -> system_sim sy sy' -> sim (same system_sim) (with_dev dev_id f sy) (with_dev dev_id f sy').
Proof.
  intros Hf Hs. unfold with_dev. assert (sy_list sy' = sy_list sy) as -> by (by destruct Hs).
  destruct (find_ubbd_dev _ _) as [i|]; [|by apply sim_ok].
  eapply sim_bind; [by apply run_on_sim|]. intros [r1 sy1] [r2 sy2] [E H1]. simpl in E, H1. subst. by apply sim_ok.
Qed.

Lemma remove_dev_sim o c s km :
  driver_sim c s -> sim (prod_relation (same driver_sim) eq) (remove_dev o c km) (remove_dev o s km).
Proof.
  intros Hd. unfold remove_dev. eapply sim_bind; [apply sim_eq|]. intros u ? <-.
  destruct (negb _ && negb _); [by apply sim_ok|].
  eapply sim_bind; [by apply free_disk_sim|]. intros [o1 c1] [o2 s1] [E H1]. simpl in E, H1. subst o2.
  eapply sim_bind; [by apply dev_put_sim|]. intros [[r3 c3] km3] [[r4 s3] km4] [[E H3] Ek]. simpl in E, H3, Ek.
  subst. by apply sim_ok.
Qed.

(** Computations that do not look at the driver's state. *)
Ltac pure_sim := repeat match goal with
  | |- sim _ (Ok _) (Ok _) => by apply sim_ok
  | |- sim _ (obind _ _) _ => eapply sim_bind; [apply sim_eq|]; intros ? ? <-
  | |- sim _ (if ?b then _ else _) _ => destruct b
  | |- sim _ (match ?x with _ => _ end) _ => destruct x
  end.

(** ** The commands *)

Lemma add_dev_command_sim env attrs sy sy' :
  system_sim sy sy' -> env_fresh (ne_create env) (sy_drv sy') ->
  sim (same system_sim) (handle_cmd_add_dev env attrs sy) (handle_cmd_add_dev env attrs sy').
Proof.
  intros Hs Hf. unfold handle_cmd_add_dev, ubbd_mgmt_need_fault. cbv iota.
  destruct (at_dev_opts attrs) as [[e|opts]|]; destruct (at_flags attrs) as [fl|]; try by apply sim_ok.
  destruct (op_dev_size opts) as [size|]; [|by apply sim_ok].
  destruct Hs as [c s l u w Hd]. cbn [sy_list sy_drv sy_world sy_unlisted] in *.
  eapply sim_bind; [by apply add_dev_sim|].
  intros [[r1 c1] km1] [[r2 s1] km2] [[E H1] Ek]. simpl in E, H1, Ek. subst. destruct r2 as [err|o].
  { apply sim_same. by constructor. }
  eapply sim_bind; [by apply add_dev_reply_sim, driver_sim_kring|]. intros [ret msg] ? <-.
  destruct (ret =? 0); [apply sim_same; by constructor|].
  eapply sim_bind; [by apply remove_dev_sim|].
  intros [[[r1 ro1] c2] w1] [[[r2 ro2] s2] w2] [[E H2] Ew]. simpl in E, H2, Ew. injection E as <- <-. subst w2.
  apply sim_same. apply put_back_sim; [done|by constructor].
Qed.

Lemma status_command_sim env attrs sy sy' :
  system_sim sy sy' -> sim (same system_sim) (handle_cmd_status env attrs sy) (handle_cmd_status env attrs sy').
Proof.
  intros Hs. pose proof Hs as Hs0. unfold handle_cmd_status, ubbd_mgmt_need_fault. cbv iota.
  destruct (at_dev_id attrs) as [dev_id|]; [|by apply sim_ok].
  destruct Hs as [c s l u w Hd]. cbn [sy_list sy_drv sy_world] in *.
  destruct (find_ubbd_dev dev_id l) as [i|]; [|by apply sim_ok].
  eapply sim_bind; [apply sim_eq|]. intros [o wq] ? <-.
  eapply (sim_bind eq).
  { destruct (ne_new_ok _); cbn [negb]; [|apply sim_eq]. eapply (sim_bind eq); [|intros r ? <-; apply sim_eq].
    by apply build_reply_sim, nest_checked_sim, status_detail_sim, driver_sim_kring. }
  intros [ret msg] ? <-. eapply sim_bind; [by apply dev_put_sim|].
  intros [[r3 c3] km3] [[r4 s3] km4] [[E H3] Ek]. simpl in E, H3, Ek. subst. apply sim_same. by apply put_back_sim.
Qed.

Lemma list_command_sim env attrs sy sy' :
  system_sim sy sy' -> sim (same system_sim) (handle_cmd_list env attrs sy) (handle_cmd_list env attrs sy').
Proof.
  intros Hs. unfold handle_cmd_list, ubbd_mgmt_need_fault. cbv iota.
  assert (sy_list sy' = sy_list sy) as -> by (by destruct Hs).
  destruct (ne_new_ok _); cbn [negb]; [|by apply sim_ok].
  eapply sim_bind; [apply sim_eq|]. intros [e|b] ? <-; by apply sim_ok.
Qed.

Lemma command_sim cmd env attrs sy sy' :
  system_sim sy sy' -> (cmd = CMD_ADD_DEV -> env_fresh (ne_create env) (sy_drv sy')) ->
  sim (same system_sim) (ubbd_genl_ops cmd env attrs sy) (ubbd_genl_ops cmd env attrs sy').
Proof.
  intros Hs Hf. destruct cmd; cbn [ubbd_genl_ops].
  - apply add_dev_command_sim; auto.
  - eapply sim_bind; [apply sim_eq|]. intros dev_id ? <-. apply with_dev_sim; [|done]. intros o c s w Hd. pure_sim.
  - eapply sim_bind; [apply sim_eq|]. intros dev_id ? <-. eapply sim_bind; [apply sim_eq|]. intros fl ? <-.
    apply with_dev_sim; [|done]. intros o c s w Hd. pure_sim.
  - eapply sim_bind; [apply sim_eq|]. intros dev_id ? <-. apply with_dev_sim; [|done]. intros o c s w Hd.
    eapply sim_bind; [by apply remove_dev_sim|].
    intros [[[r1 ro1] c2] w1] [[[r2 ro2] s2] w2] [[E H2] Ew]. simpl in E, H2, Ew. injection E as <- <-. subst w2.
    by apply sim_ok.
  - by apply status_command_sim.
  - unfold handle_cmd_config. destruct (at_dev_id attrs) as [dev_id|]; [|by apply sim_ok].
    destruct (at_dev_opts attrs) as [nest|]; [|by apply sim_ok].
    apply with_dev_sim; [|done]. intros o c s w Hd. pure_sim.
  - unfold handle_cmd_queue_op. destruct (at_dev_id attrs) as [dev_id|]; [|by apply sim_ok].
    destruct (at_queue_id attrs) as [queue_id|]; [|by apply sim_ok].
    destruct (at_flags attrs) as [fl|]; [|by apply sim_ok].
    apply with_dev_sim; [|done]. intros o c s w Hd. pure_sim.
  - by apply list_command_sim.
Qed.

(** ** Steps *)

Lemma on_obj_sim h f sy sy' :
  (forall x c s w, driver_sim c s -> sim (with_world (same driver_sim)) (f x c w) (f x s w)) ->
  system_sim sy sy' -> sim system_sim (on_obj h f sy) (on_obj h f sy').
Proof.
  intros Hf Hs. destruct Hs as [c s l u w Hd]. unfold on_obj. cbn [sy_list sy_drv sy_world sy_unlisted].
  destruct (find_obj h l) as [[i x]|].
  - eapply sim_bind; [by apply Hf|]. intros [[ro c1] w1] [[ro' s1] w2] [[E H1] Ew]. simpl in E, H1, Ew. subst.
    apply sim_ok. by constructor.
  - eapply sim_bind; [apply sim_eq|]. intros [i x] ? <-.
    eapply sim_bind; [by apply Hf|]. intros [[ro c1] w1] [[ro' s1] w2] [[E H1] Ew]. simpl in E, H1, Ew. subst.
    apply sim_ok. by constructor.
Qed.

Lemma obj_at_sim h sy sy' : system_sim sy sy' -> obj_at h sy' = obj_at h sy.
Proof. by intros []. Qed.

Inductive sys_sim : sys -> sys -> Prop :=
| sys_sim_intro sy sy' lf r : system_sim sy sy' -> sys_sim (mk_sys sy lf r) (mk_sys sy' lf r).

Lemma life_act_sim l x c s w :
  driver_sim c s -> sim (with_world (same driver_sim)) (life_act l x c w) (life_act l x s w).
Proof.
  intros Hd. unfold life_act. destruct (lf_dev l); [by apply sim_ok|].
  eapply sim_bind; [by apply dev_destroy_sim|]. intros [c3 km1] [s3 km2] [H3 E]. simpl in H3, E. subst km2. by apply sim_ok.
Qed.

(** The addresses a creation gets are free also among the devices kept by open
    files. *)
Definition op_fresh (op : sys_op) (S : sys) : Prop :=
  match op with SCmd CMD_ADD_DEV env _ => env_fresh (ne_create env) (sy_drv (s_sys S)) | _ => True end.

Lemma step_sim op (S S' : sys) : sys_sim S S' -> op_fresh op S' -> sim sys_sim (sys_step op S) (sys_step op S').
Proof.
  intros Hs Hf. destruct Hs as [sy sy' lf r Hs]. destruct op as [cmd env attrs|h op|h op|h i a]; cbn [sys_step s_sys s_life s_refused].
  - eapply sim_bind; [apply command_sim; [done|by intros ->]|].
    intros [[r1 m1] sy1] [[r2 m2] sy2] [E H1]. simpl in H1. apply sim_ok. by constructor.
  - rewrite (obj_at_sim _ _ _ Hs). eapply sim_bind; [apply sim_eq|]. intros x ? <-.
    eapply sim_bind; [apply sim_eq|]. intros l ? <-.
    eapply sim_bind; [apply on_obj_sim; [|done]; intros; by apply life_act_sim|].
    intros sy1 sy2 H1. apply sim_ok. by constructor.
  - rewrite (obj_at_sim _ _ _ Hs). eapply sim_bind; [apply sim_eq|]. intros x ? <-.
    assert (sy_world sy' = sy_world sy) as -> by (by destruct Hs). eapply sim_bind; [apply sim_eq|]. intros l ? <-.
    eapply sim_bind; [apply on_obj_sim; [|done]; intros; by apply sim_ok|].
    intros sy1 sy2 H1. apply sim_ok. by constructor.
  - eapply sim_bind; [apply on_obj_sim; [|done]; intros; pure_sim|].
    intros sy1 sy2 H1. apply sim_ok. by constructor.
Qed.
End commands.
