(* ===== verification/Files.v ===== *)
(** * Backends: open files and mappings over the driver

    The file operations of a kring device, run on the driver of [System] with
    its whole kring state: a file leads to a kring device, and a registered
    kring device to the queue whose info points to it.  [ubbd_kring_open] marks
    the queue, [ubbd_kring_write] completes it, [ubbd_kring_mmap], a fork
    ([ubbd_vma_open]) and an unmap ([ubbd_vma_close]) change its backend and the
    references of its device. *)

From S2P Require Import Prelude Abi Ring Pages Request Queue Kring KringLife Device Operation Lifecycle.
From S2P Require Import Create Netlink System.

(** ** State *)

(** A mapping: [vma->vm_private_data], as a device and the index of its queue. *)
Record mapping : Type := mk_mapping {
  mp_dev : Z;
  mp_queue : nat;
  mp_vma : vma;
}.

Section machine.
Context `{A : UbbdAbi} `{K : KernelApi} `{M : KernelMem} `{I : KernelIdr} `{D : KernelIda}
  `{T : UbbdAttrs} `{N : NetlinkApi}.
Abbreviation listed := (device_obj * list Z)%type.

Record files : Type := mk_files {
  f_sys : sys;
  f_maps : gmap Z mapping;
}.

Definition kring_of (y : sys) : kring_state := dv_kring (sy_drv (s_sys y)).

Definition set_sy_drv (s : driver) (sy : system) : system :=
  mk_system s (sy_list sy) (sy_unlisted sy) (sy_world sy).
Definition set_kring (k : kring_state) (y : sys) : sys :=
  mk_sys (set_sy_drv (set_dv_kring k (sy_drv (s_sys y))) (s_sys y)) (s_life y) (s_refused y).

(** The queue of [x] whose info points to the kring device [hd]
    ([container_of] of [idev->info]). *)
Definition queue_of (hd : Z) (x : listed) : option nat :=
  fst <$> list_find (fun p => ki_dev (qp_info p) = Some hd) (o_parts x.1).
Definition info_owner (hd : Z) (sy : system) : option (Z * nat) :=
  head (omap (fun x => pair (o_h x.1) <$> queue_of hd x) (all_devs sy)).

(** The listener of a file. *)
Definition set_listener (file : Z) (l : listener) (k : kring_state) : kring_state :=
  set_ks_files (<[file := l]> (ks_files k)) k.

(** ** Operations *)

(** On success [info->open] marks the queue the device belongs to. *)
Definition file_open (minor file event inode : Z) (module_ok kmalloc_ok : bool) (y : sys)
  : outcome (Z * sys) :=
  let* '(ret, opened, k) := ubbd_kring_open minor file event module_ok kmalloc_ok (kring_of y) in
  let y := set_kring k y in
  match opened with
  | None => Ok (ret, y)
  | Some _ =>
      let* l := deref (ks_files k !! file) WILD_ACCESS in
      let* '(h, i) := deref (info_owner (ls_dev l) (s_sys y)) WILD_ACCESS in
      let* y := sys_step (SUser h i (UserOpen inode)) y in
      Ok (ret, y)
  end.

Definition file_release (file : Z) (y : sys) : outcome sys :=
  let* k := ubbd_kring_release file (kring_of y) in
  Ok (set_kring k y).

Definition file_poll (file event : Z) (y : sys) : outcome (bool * sys) :=
  let* l := deref (ks_files (kring_of y) !! file) WILD_ACCESS in
  let '(ready, l) := ubbd_kring_poll event l in
  Ok (ready, set_kring (set_listener file l (kring_of y)) y).

(** [None] while the reader is asleep. *)
Definition file_read (file count : Z) (nonblock : bool) (rounds : list read_round) (y : sys)
  : outcome (option Z * sys) :=
  let* l := deref (ks_files (kring_of y) !! file) WILD_ACCESS in
  match ubbd_kring_read count nonblock l rounds with
  | None => Ok (None, y)
  | Some (ret, l) => Ok (Some ret, set_kring (set_listener file l (kring_of y)) y)
  end.

(** [idev->info->irqcontrol] runs on the queue of the info. *)
Definition write_queue (file : Z) (i : nat) (x : listed) (s : driver) (w : world)
  : outcome (option listed * driver * world) :=
  let* q := deref (d_queues (o_dev x.1) !! i) OUT_OF_BOUNDS in
  let* '(_, q, w') := ubbd_kring_write compr_fuel file (dv_kring s) q (set_w_wq x.2 w) in
  let d := set_d_queues (<[i := q]> (d_queues (o_dev x.1))) (o_dev x.1) in
  Ok (Some (set_o_dev d x.1, w_wq w'), s, set_w_wq (w_wq w) w').

Definition file_write (file : Z) (y : sys) : outcome sys :=
  let* l := deref (ks_files (kring_of y) !! file) WILD_ACCESS in
  let* '(h, i) := deref (info_owner (ls_dev l) (s_sys y)) NULL_DEREF in
  let* sy := on_obj h (write_queue file i) (s_sys y) in
  Ok (mk_sys sy (s_life y) (s_refused y)).

(** The queue [i] of the device after a change of its backend, with the
    references left; the device goes with the last one. *)
Definition set_backend (i : nat) (q : ubbd_queue) (refs : Z) (x : listed) (s : driver) (w : world)
  : outcome (option listed * driver * world) :=
  let d := set_d_kref refs (set_d_queues (<[i := q]> (d_queues (o_dev x.1))) (o_dev x.1)) in
  if refs =? 0 then
    let* '(s, km) := ubbd_dev_destroy (set_o_dev d x.1) s (w_km w) in
    Ok (None, s, set_w_km km w)
  else Ok (Some (set_o_dev d x.1, x.2), s, w).

(** [s_life] counts the mappings of each device. *)
Definition count_maps (h n : Z) (y : sys) : Z -> option bool * Z :=
  set_life h ((s_life y h).1, (s_life y h).2 + n) (s_life y).

Definition file_mmap (file id pid : Z) (v : vma) (F : files) : outcome (Z * files) :=
  let y := f_sys F in
  let* l := deref (ks_files (kring_of y) !! file) WILD_ACCESS in
  let* kd := deref (ks_devs (kring_of y) !! ls_dev l) WILD_ACCESS in
  match kd_info kd with
  | None => Ok (- EINVAL, F)
  | Some _ =>
      let* '(h, i) := deref (info_owner (ls_dev l) (s_sys y)) WILD_ACCESS in
      let* x := deref (obj_at h (s_sys y)) WILD_ACCESS in
      let* q := deref (d_queues (o_dev x.1) !! i) OUT_OF_BOUNDS in
      let '(ret, q, refs) := ubbd_kring_mmap true pid v q (d_kref (o_dev x.1)) in
      if negb (ret =? 0) then Ok (ret, F)
      else
        let* sy := on_obj h (set_backend i q refs) (s_sys y) in
        Ok (ret, mk_files (mk_sys sy (count_maps h 1 y) (s_refused y)) (<[id := mk_mapping h i v]> (f_maps F)))
  end.

(** A mapping is duplicated by a fork, or split. *)
Definition map_open (id id' : Z) (F : files) : outcome files :=
  let y := f_sys F in
  let* m := deref (f_maps F !! id) WILD_ACCESS in
  let* x := deref (obj_at (mp_dev m) (s_sys y)) WILD_ACCESS in
  let* q := deref (d_queues (o_dev x.1) !! mp_queue m) OUT_OF_BOUNDS in
  let* sy := on_obj (mp_dev m) (set_backend (mp_queue m) q (ubbd_vma_open (d_kref (o_dev x.1)))) (s_sys y) in
  Ok (mk_files (mk_sys sy (count_maps (mp_dev m) 1 y) (s_refused y)) (<[id' := m]> (f_maps F))).

Definition map_close (id : Z) (F : files) : outcome files :=
  let y := f_sys F in
  let* m := deref (f_maps F !! id) WILD_ACCESS in
  let* x := deref (obj_at (mp_dev m) (s_sys y)) WILD_ACCESS in
  let* q := deref (d_queues (o_dev x.1) !! mp_queue m) OUT_OF_BOUNDS in
  let '(q, refs) := ubbd_vma_close (mp_vma m) q (d_kref (o_dev x.1)) in
  let* sy := on_obj (mp_dev m) (set_backend (mp_queue m) q refs) (s_sys y) in
  Ok (mk_files (mk_sys sy (count_maps (mp_dev m) (- 1) y) (s_refused y)) (delete id (f_maps F))).

(** A page fault in a mapping. *)
Definition map_fault (id pgoff : Z) (F : files) : outcome fault_result :=
  let* m := deref (f_maps F !! id) WILD_ACCESS in
  let* x := deref (obj_at (mp_dev m) (s_sys (f_sys F))) WILD_ACCESS in
  let* q := deref (d_queues (o_dev x.1) !! mp_queue m) OUT_OF_BOUNDS in
  Ok (ubbd_vma_fault (q_pool q) pgoff).

(** ** The machine *)

Inductive file_op : Type :=
| FSys (op : sys_op)
| FOpen (minor file event inode : Z) (module_ok kmalloc_ok : bool)
| FRelease (file : Z)
| FPoll (file event : Z)
| FRead (file count : Z) (nonblock : bool) (rounds : list read_round)
| FWrite (file : Z)
| FMmap (file id pid : Z) (v : vma)
| FFork (id id' : Z)
| FUnmap (id : Z)
| FFault (id pgoff : Z).

Definition file_step (op : file_op) (F : files) : outcome files :=
  let on_sys (m : outcome sys) := let* y := m in Ok (mk_files y (f_maps F)) in
  match op with
  | FSys op => on_sys (sys_step op (f_sys F))
  | FOpen minor file event inode mok kok =>
      on_sys (let* '(_, y) := file_open minor file event inode mok kok (f_sys F) in Ok y)
  | FRelease file => on_sys (file_release file (f_sys F))
  | FPoll file event => on_sys (let* '(_, y) := file_poll file event (f_sys F) in Ok y)
  | FRead file count nb rounds => on_sys (let* '(_, y) := file_read file count nb rounds (f_sys F) in Ok y)
  | FWrite file => on_sys (file_write file (f_sys F))
  | FMmap file id pid v => let* '(_, F) := file_mmap file id pid v F in Ok F
  | FFork id id' => map_open id id' F
  | FUnmap id => map_close id F
  | FFault id pgoff => let* _ := map_fault id pgoff F in Ok F
  end.

(** The steps of [System] that are not those of a file. *)
Definition own_step (op : sys_op) : bool :=
  match op with
  | SUser _ _ _ | SIo _ (IOComplete _) | SLife _ LMap | SLife _ LUnmap => false
  | _ => true
  end.

(** New files and mappings are new, others exist.  A backend writes to the file
    of a registered kring device ([write_after_unregister_faults] is the gap)
    once every queue of the device is open. *)
Definition file_can (FB : gset Z) (op : file_op) (F : files) : Prop :=
  let y := f_sys F in
  let k := kring_of y in
  match op with
  | FSys op => own_step op = true /\ sys_can FB op y
  | FOpen _ file _ _ _ _ => ks_files k !! file = None
  | FRelease file | FPoll file _ | FRead file _ _ _ => is_Some (ks_files k !! file)
  | FWrite file =>
      exists l d, ks_files k !! file = Some l /\ ks_devs k !! ls_dev l = Some d /\ is_Some (kd_info d) /\
        forall h i x, info_owner (ls_dev l) (s_sys y) = Some (h, i) -> obj_at h (s_sys y) = Some x ->
          opened (o_dev x.1)
  | FMmap file id _ _ => is_Some (ks_files k !! file) /\ f_maps F !! id = None
  | FFork id id' => is_Some (f_maps F !! id) /\ f_maps F !! id' = None
  | FUnmap id | FFault id _ => is_Some (f_maps F !! id)
  end.

Definition file_submits (op : file_op) : bool := match op with FSys op => submits op | _ => false end.

(** The driver after [ubbd_kring_init]: no device, no file. *)
Definition files_start (FB P0 : gset Z) (s0 : driver) (F : files) : Prop :=
  sys_start FB P0 s0 (f_sys F) /\ dv_kring s0 = kring_initial true /\ f_maps F = ∅.

Inductive files_reach (FB P0 : gset Z) (s0 : driver) : Z -> files -> Prop :=
| files_reach_start F : files_start FB P0 s0 F -> files_reach FB P0 s0 0 F
| files_reach_next n F op F' :
    files_reach FB P0 s0 n F -> file_can FB op F -> file_step op F = Ok F' ->
    files_reach FB P0 s0 (if file_submits op then n + 1 else n) F'.
End machine.
