(* ===== verification/FilesFrame.v ===== *)
(** * What a step leaves of the devices

    A step of [System] changes neither the address nor the parts of a device it
    does not create; steps on the device at an address compose; and the queue of
    a registered kring device is found. *)

From S2P Require Import Prelude Abi Ring Pages Request Queue Kring KringLife KringMap Device DeviceInv Operation Lifecycle.
From S2P Require Import Create CreateInv CreateProps Netlink NetlinkProps System SystemInv SystemStep SystemRun Files.

(** ** Addresses and parts *)

Section frame.
Context `{A : UbbdAbi} `{K : KernelApi} `{M : KernelMem} `{I : KernelIdr} `{D : KernelIda}
  `{T : UbbdAttrs} `{N : NetlinkApi}.
Abbreviation listed := (device_obj * list Z)%type.
Abbreviation dev_action := (device_obj -> driver -> world -> outcome (Z * option device_obj * driver * world)).
Implicit Types (x y : listed) (o : device_obj) (sy : system) (w : world).

Definition same_parts o' o : Prop := o_h o' = o_h o /\ o_parts o' = o_parts o.

(** Every device was there before, or is at one of the addresses of [new]. *)
Definition frame (new : Z -> Prop) sy sy' : Prop :=
  forall y, y ∈ all_devs sy' -> (exists x, x ∈ all_devs sy /\ same_parts y.1 x.1) \/ new (o_h y.1).

Abbreviation nothing := (fun _ : Z => False).

Lemma frame_mono (P Q : Z -> Prop) sy sy' : (forall h, P h -> Q h) -> frame P sy sy' -> frame Q sy sy'.
Proof. intros H F y Hy. destruct (F y Hy) as [|]; auto. Qed.

Lemma frame_incl sy sy' : (forall y, y ∈ all_devs sy' -> y ∈ all_devs sy) -> frame nothing sy sy'.
Proof. intros H y Hy. left. exists y. split; [auto|done]. Qed.

Lemma elem_of_all sy x : x ∈ all_devs sy <-> x ∈ sy_list sy \/ x ∈ sy_unlisted sy.
Proof. unfold all_devs. apply elem_of_app. Qed.

Lemma elem_of_insert_inv {X} (l : list X) (i : nat) (u v : X) : v ∈ <[i := u]> l -> v = u \/ v ∈ l.
Proof.
  intros [j Hj]%list_elem_of_lookup. apply list_lookup_insert_Some in Hj as [(_ & -> & _)|(_ & Hj)]; [by left|].
  right. by eapply list_elem_of_lookup_2.
Qed.

Lemma put_back_frame sy i o wq0 (ro : option device_obj) wq s w :
  sy_list sy !! i = Some (o, wq0) -> (forall o', ro = Some o' -> same_parts o' o) ->
  frame nothing sy (put_back i ro wq s w sy).
Proof.
  intros Hi Hro. assert ((o, wq0) ∈ all_devs sy) as Hin.
  { apply elem_of_all. left. by eapply list_elem_of_lookup_2. }
  unfold put_back. destruct ro as [o'|]; [destruct (d_in_list (o_dev o'))|]; intros y Hy; left; apply elem_of_all in Hy; simpl in Hy.
  - destruct Hy as [[->|Hy]%elem_of_insert_inv|Hy].
    + exists (o, wq0). split; [done|]. by apply Hro.
    + exists y. split; [by apply elem_of_all; left|done].
    + exists y. split; [by apply elem_of_all; right|done].
  - destruct Hy as [Hy|[->|Hy]%elem_of_cons].
    + exists y. split; [apply elem_of_all; left; by eapply list_elem_of_delete_inv|done].
    + exists (o, wq0). split; [done|]. by apply Hro.
    + exists y. split; [by apply elem_of_all; right|done].
  - exists y. split; [|done]. apply elem_of_all. destruct Hy as [Hy|Hy]; [left; by eapply list_elem_of_delete_inv|by right].
Qed.

Lemma on_obj_frame h f sy sy' :
  (forall x s w ro s' w', f x s w = Ok (ro, s', w') -> forall x', ro = Some x' -> same_parts x'.1 x.1) ->
  on_obj h f sy = Ok sy' -> frame nothing sy sy'.
Proof.
  intros Hf. unfold on_obj. destruct (find_obj h (sy_list sy)) as [[i x]|] eqn:E.
  - apply list_find_Some in E as (Hi & _ & _). intros H. inv_ok H. destruct r as [[ro s] w]. injection H as <-.
    specialize (Hf _ _ _ _ _ _ E). intros y Hy. left. apply elem_of_all in Hy as [Hy|Hy]; simpl in Hy.
    + destruct ro as [x'|].
      * apply elem_of_insert_inv in Hy as [->|Hy]; [exists x; split; [|by apply Hf]|exists y; split; [|done]];
          apply elem_of_all; left; [by eapply list_elem_of_lookup_2|done].
      * exists y. split; [apply elem_of_all; left; by eapply list_elem_of_delete_inv|done].
    + exists y. split; [by apply elem_of_all; right|done].
  - intros H. inv_ok H. destruct r as [i x].
    destruct (find_obj h (sy_unlisted sy)) as [[j z]|] eqn:E2; [|done]. injection E0 as -> ->.
    apply list_find_Some in E2 as (Hi & _ & _). inv_ok H. destruct r as [[ro s] w]. injection H as <-.
    specialize (Hf _ _ _ _ _ _ E0). intros y Hy. left. apply elem_of_all in Hy as [Hy|Hy]; simpl in Hy.
    + exists y. split; [by apply elem_of_all; left|done].
    + destruct ro as [x'|].
      * apply elem_of_insert_inv in Hy as [->|Hy]; [exists x; split; [|by apply Hf]|exists y; split; [|done]];
          apply elem_of_all; right; [by eapply list_elem_of_lookup_2|done].
      * exists y. split; [apply elem_of_all; right; by eapply list_elem_of_delete_inv|done].
Qed.

(** *** Commands *)

Lemma dev_put_parts o s km ro s' km' :
  dev_put o s km = Ok (ro, s', km') -> forall o', ro = Some o' -> same_parts o' o.
Proof.
  unfold dev_put. destruct (ubbd_dev_put (o_dev o)) as [d|].
  - intros [= <- <- <-] o' [= <-]. done.
  - intros H o' ->. inv_ok H. by destruct r.
Qed.

Definition keeps_parts (f : dev_action) : Prop :=
  forall o s w r ro s' w', f o s w = Ok (r, ro, s', w') -> forall o', ro = Some o' -> same_parts o' o.

Lemma same_parts_trans o1 o2 o3 : same_parts o1 o2 -> same_parts o2 o3 -> same_parts o1 o3.
Proof. unfold same_parts. intuition congruence. Qed.

Lemma run_on_frame i f sy r sy' : keeps_parts f -> run_on i f sy = Ok (r, sy') -> frame nothing sy sy'.
Proof.
  intros Hf H. unfold run_on in H. inv_ok H. destruct r0 as [o wq].
  destruct (sy_list sy !! i) as [[o0 wq0]|] eqn:Ei; [|done]. injection E as -> ->.
  inv_ok H. destruct r0 as [[[r1 ro1] s1] w1]. inv_ok H. destruct ro1 as [o1|]; [|done]. injection E0 as <-.
  inv_ok H. destruct r0 as [[ro2 s2] km2]. injection H as _ <-.
  apply (put_back_frame _ _ o wq); [done|]. intros o' Ho'. apply (same_parts_trans _ o1).
  - by eapply dev_put_parts.
  - by apply (Hf _ _ _ _ _ _ _ E).
Qed.

Lemma with_dev_frame dev_id f sy r msg sy' :
  keeps_parts f -> with_dev dev_id f sy = Ok (r, msg, sy') -> frame nothing sy sy'.
Proof.
  intros Hf. unfold with_dev. destruct (find_ubbd_dev _ _) as [i|].
  - intros H. inv_ok H. destruct r0 as [r1 sy1]. injection H as _ _ <-. by eapply run_on_frame.
  - intros [= _ _ <-]. by apply frame_incl.
Qed.

Lemma remove_dev_parts o s km r ro s' km' :
  remove_dev o s km = Ok (r, ro, s', km') -> forall o', ro = Some o' -> same_parts o' o.
Proof.
  unfold remove_dev. intros H. inv_ok H. destruct (negb _ && negb _).
  - injection H as _ <- _ _. by intros o' [= <-].
  - inv_ok H. destruct r1 as [o1 s1]. inv_ok H. destruct r1 as [[ro1 s2] km2]. injection H as _ <- _ _.
    intros o' Ho'. apply (same_parts_trans _ o1); [by eapply dev_put_parts|].
    unfold free_disk in E0. inv_ok E0. inv_ok E0. inv_ok E0. by injection E0 as <- _.
Qed.

Lemma setup_parts env o s r o' s' : ubbd_dev_device_setup env o s = Ok (r, o', s') -> same_parts o' o.
Proof.
  unfold ubbd_dev_device_setup. intros H. inv_ok H. destruct r0 as [[r1 d1] s1]. destruct (negb _).
  - by injection H as _ <- _.
  - inv_ok H. by injection H as _ <- _.
Qed.

Lemma add_dev_address env kenv opts s km o s' km' :
  ubbd_dev_add_dev env kenv opts s km = Ok (inr o, s', km') -> ve_kzalloc env = Some (o_h o).
Proof.
  unfold ubbd_dev_add_dev, ubbd_mgmt_need_fault. cbv iota. intros H. inv_ok H. destruct r as [[r s1] km1].
  destruct r as [o1|]; [|done]. inv_ok H. destruct r as [[r2 o2] s2]. destruct (negb _).
  { inv_ok H. by destruct r as [[? ?] ?]. }
  injection H as <- _ _. apply setup_parts in E0 as [Eh _]. simpl in *. rewrite Eh.
  unfold ubbd_dev_create, ubbd_mgmt_need_fault in E. cbv iota in E. destruct (ve_kzalloc env) as [h|]; [|done].
  destruct (_ <? 0); [by inv_ok E|]. inv_ok E. destruct r as [[[r3 sls] s3] km3]. destruct (negb _); [by inv_ok E|].
  destruct (negb _); [inv_ok E; destruct r; by inv_ok E|]. by injection E as <- _ _.
Qed.

(** The address a command gives to a new device. *)
Definition new_address (op : sys_op) (h : Z) : Prop :=
  match op with SCmd CMD_ADD_DEV env _ => ve_kzalloc (ne_create env) = Some h | _ => False end.

Lemma add_dev_frame env attrs sy r msg sy' :
  handle_cmd_add_dev env attrs sy = Ok (r, msg, sy') -> frame (new_address (SCmd CMD_ADD_DEV env attrs)) sy sy'.
Proof.
  assert (forall sy', (forall y, y ∈ all_devs sy' -> y ∈ all_devs sy) ->
    frame (new_address (SCmd CMD_ADD_DEV env attrs)) sy sy') as Hno.
  { intros sy0 H. eapply frame_mono; [|by apply frame_incl]. done. }
  unfold handle_cmd_add_dev, ubbd_mgmt_need_fault. cbv iota.
  destruct (at_dev_opts attrs) as [[e|opts]|], (at_flags attrs) as [fl|];
    try (intros [= _ _ <-]; by apply Hno).
  destruct (op_dev_size opts) as [size|]; [|intros [= _ _ <-]; by apply Hno].
  intros H. inv_ok H. destruct r0 as [[r0 s1] km1]. destruct r0 as [e|o]; [injection H as _ _ <-; by apply Hno|].
  apply add_dev_address in E. set (sy1 := mk_system _ (sy_list sy ++ _) _ _) in H.
  assert (frame (new_address (SCmd CMD_ADD_DEV env attrs)) sy sy1) as H1.
  { intros y [Hy|Hy]%elem_of_all; simpl in Hy.
    - apply elem_of_app in Hy as [Hy| ->%list_elem_of_singleton]; [|by right].
      left. exists y. split; [by apply elem_of_all; left|done].
    - left. exists y. split; [by apply elem_of_all; right|done]. }
  inv_ok H. destruct r0 as [ret m]. destruct (ret =? 0); [by injection H as _ _ <-|].
  inv_ok H. destruct r0 as [[[r2 ro] s2] km2]. injection H as _ _ <-. intros y Hy.
  destruct (put_back_frame sy1 (pred (length (sy_list sy1))) o [] ro [] s2 (set_w_km km2 (set_w_km km1 (sy_world sy)))) with y
    as [(x & Hx & Hs)| []]; [|by eapply remove_dev_parts|done|].
  { unfold sy1. simpl. rewrite length_app. simpl. rewrite lookup_app_r by lia.
    by replace (pred (length (sy_list sy) + 1) - length (sy_list sy))%nat with 0%nat by lia. }
  destruct (H1 x Hx) as [(z & Hz & Hs2)|Hn].
  - left. exists z. split; [done|]. by eapply same_parts_trans.
  - right. destruct Hs as [-> _]. exact Hn.
Qed.

Lemma status_frame env attrs sy r msg sy' : handle_cmd_status env attrs sy = Ok (r, msg, sy') -> frame nothing sy sy'.
Proof.
  unfold handle_cmd_status, ubbd_mgmt_need_fault. cbv iota.
  destruct (at_dev_id attrs) as [dev_id|]; [|intros [= _ _ <-]; by apply frame_incl].
  destruct (find_ubbd_dev _ _) as [i|]; [|intros [= _ _ <-]; by apply frame_incl].
  intros H. inv_ok H. destruct r0 as [o wq]. destruct (sy_list sy !! i) as [[o0 wq0]|] eqn:Ei; [|done].
  injection E as -> ->. inv_ok H. destruct r0 as [ret m]. inv_ok H. destruct r0 as [[ro s] km]. injection H as _ _ <-.
  apply (put_back_frame _ _ o wq); [done|]. intros o' Ho'. by apply (dev_put_parts _ _ _ _ _ _ E0) in Ho'.
Qed.

Lemma list_frame env attrs sy r msg sy' : handle_cmd_list env attrs sy = Ok (r, msg, sy') -> frame nothing sy sy'.
Proof.
  unfold handle_cmd_list, ubbd_mgmt_need_fault. cbv iota.
  destruct (negb _); [intros [= _ _ <-]; by apply frame_incl|].
  intros H. inv_ok H. destruct r0; injection H as _ _ <-; by apply frame_incl.
Qed.

(** Actions that return the device they were given, with other fields. *)
Ltac same_device := let H0 := fresh "H" in intros ? ? ? ? ? ? ? H0;
  repeat match type of H0 with
  | (if ?b then _ else _) = _ => destruct b
  | match ?x with _ => _ end = _ => destruct x
  | obind _ _ = Ok _ => inv_ok H0
  end; try done; injection H0 as _ <- _ _; by intros ? [= <-].

Lemma command_frame cmd env attrs sy r msg sy' :
  ubbd_genl_ops cmd env attrs sy = Ok (r, msg, sy') -> frame (new_address (SCmd cmd env attrs)) sy sy'.
Proof.
  intros H. destruct cmd; [by apply add_dev_frame in H|..]; apply (frame_mono nothing); try done;
    cbn [ubbd_genl_ops] in H.
  - unfold handle_cmd_add_disk in H. inv_ok H. eapply with_dev_frame; [|exact H]. same_device.
  - unfold handle_cmd_remove_disk in H. inv_ok H. inv_ok H. eapply with_dev_frame; [|exact H]. same_device.
  - unfold handle_cmd_remove_dev in H. inv_ok H. eapply with_dev_frame; [|exact H].
    intros o s w r1 ro s1 w1 H1. inv_ok H1. destruct r2 as [[[r2 ro2] s2] km2]. injection H1 as _ <- _ _.
    by eapply remove_dev_parts.
  - by eapply status_frame.
  - unfold handle_cmd_config in H. destruct (at_dev_id attrs), (at_dev_opts attrs);
      try (injection H as _ _ <-; by apply frame_incl). eapply with_dev_frame; [|exact H]. same_device.
  - unfold handle_cmd_queue_op in H. destruct (at_dev_id attrs), (at_queue_id attrs), (at_flags attrs);
      try (injection H as _ _ <-; by apply frame_incl). eapply with_dev_frame; [|exact H]. same_device.
  - by eapply list_frame.
Qed.

Lemma step_frame op (S S' : sys) : sys_step op S = Ok S' -> frame (new_address op) (s_sys S) (s_sys S').
Proof.
  destruct op as [cmd env attrs|h op|h op|h i a]; cbn [sys_step]; intros H.
  - inv_ok H. destruct r as [[r m] sy]. injection H as <-. by eapply command_frame.
  - inv_ok H. inv_ok H. inv_ok H. injection H as <-. eapply on_obj_frame; [|exact E1].
    unfold life_act. intros x s w ro s' w' H x' ->. destruct (lf_dev r0); [by injection H as <- _ _|].
    inv_ok H. by destruct r2.
  - inv_ok H. inv_ok H. inv_ok H. injection H as <-. eapply on_obj_frame; [|exact E1].
    intros x s w ro s' w' H x' ->. by injection H as <- _ _.
  - inv_ok H. injection H as <-. eapply on_obj_frame; [|exact E].
    intros x s w ro s' w' H x' ->. inv_ok H. by injection H as <- _ _.
Qed.

(** ** The device at an address *)

Lemma on_obj_ext h f g sy x :
  obj_at h sy = Some x -> f x (sy_drv sy) (sy_world sy) = g x (sy_drv sy) (sy_world sy) ->
  on_obj h f sy = on_obj h g sy.
Proof.
  unfold obj_at, on_obj. destruct (find_obj h (sy_list sy)) as [[i y]|]; [by intros [= ->] ->|].
  destruct (find_obj h (sy_unlisted sy)) as [[i y]|]; [|done]. simpl. by intros [= ->] ->.
Qed.

Lemma find_obj_insert h (l : list listed) i x x' :
  find_obj h l = Some (i, x) -> o_h x'.1 = h -> find_obj h (<[i := x']> l) = Some (i, x').
Proof.
  unfold find_obj. intros (Hi & _ & Hb)%list_find_Some Eh. apply list_find_Some. split_and!; [|done|].
  - apply list_lookup_insert_eq. by eapply lookup_lt_Some.
  - intros j y Hj Hlt. rewrite list_lookup_insert_ne in Hj by lia. by eapply Hb.
Qed.

Lemma list_delete_insert {X} (l : list X) (i : nat) (u : X) : delete i (<[i := u]> l) = delete i l.
Proof.
  apply list_eq. intros j. destruct (decide (j < i)%nat).
  - by rewrite !list_lookup_delete_lt, list_lookup_insert_ne by lia.
  - by rewrite !list_lookup_delete_ge, list_lookup_insert_ne by lia.
Qed.

(** Two changes of the device at an address, one after the other. *)
Lemma on_obj_seq h f sy x x' s w :
  obj_at h sy = Some x -> f x (sy_drv sy) (sy_world sy) = Ok (Some x', s, w) -> o_h x'.1 = h ->
  exists sy1, on_obj h f sy = Ok sy1 /\ sy_drv sy1 = s /\ sy_world sy1 = w /\ obj_at h sy1 = Some x' /\
    forall g, on_obj h g sy1 = on_obj h (fun _ _ _ => g x' s w) sy.
Proof.
  intros Hx Hf Eh. revert Hx. unfold obj_at, on_obj.
  destruct (find_obj h (sy_list sy)) as [[i y]|] eqn:E.
  - intros [= ->]. rewrite Hf. cbn [obind]. eexists. split; [done|]. cbn [sy_list sy_drv sy_world sy_unlisted].
    rewrite (find_obj_insert _ _ _ _ _ E Eh). split_and!; try done. intros g.
    apply list_find_Some in E as (Hi & _). destruct (g x' s w) as [[[ro s'] w']|]; [|done]. cbn [obind].
    do 2 f_equal. destruct ro as [z|]; [apply list_insert_insert_eq|apply list_delete_insert].
  - destruct (find_obj h (sy_unlisted sy)) as [[i y]|] eqn:E2; [|done]. simpl fmap. intros [= ->]. cbn [deref obind].
    rewrite Hf. cbn [obind]. eexists. split; [done|]. cbn [sy_list sy_drv sy_world sy_unlisted]. rewrite E.
    rewrite (find_obj_insert _ _ _ _ _ E2 Eh). split_and!; try done. intros g. cbn [deref obind].
    destruct (g x' s w) as [[[ro s'] w']|]; [|done]. cbn [obind].
    do 2 f_equal. destruct ro as [z|]; [apply list_insert_insert_eq|apply list_delete_insert].
Qed.

Lemma obj_at_elem h sy x : obj_at h sy = Some x -> x ∈ all_devs sy /\ o_h x.1 = h.
Proof.
  unfold obj_at. rewrite elem_of_all. destruct (find_obj h (sy_list sy)) as [[i y]|] eqn:E.
  - intros [= ->]. apply list_find_Some in E as (Hi & Eh & _). split; [left; by eapply list_elem_of_lookup_2|done].
  - destruct (find_obj h (sy_unlisted sy)) as [[i y]|] eqn:E2; [|done]. intros [= ->].
    apply list_find_Some in E2 as (Hi & Eh & _). split; [right; by eapply list_elem_of_lookup_2|done].
Qed.

Lemma handle_unique (l : list listed) x y : NoDup (handles l) -> x ∈ l -> y ∈ l -> o_h x.1 = o_h y.1 -> x = y.
Proof.
  unfold handles. intros Hn [i Hi]%list_elem_of_lookup [j Hj]%list_elem_of_lookup E.
  assert (i = j) as ->; [|congruence]. eapply (NoDup_lookup _ i j (o_h x.1)); [exact Hn|..].
  - change (map (fun x => o_h x.1) l !! i) with (((fun x => o_h x.1) <$> l) !! i). by rewrite list_lookup_fmap, Hi.
  - change (map (fun x => o_h x.1) l !! j) with (((fun x => o_h x.1) <$> l) !! j). rewrite list_lookup_fmap, Hj. by rewrite E.
Qed.

Lemma obj_at_in sy x : NoDup (handles (all_devs sy)) -> x ∈ all_devs sy -> obj_at (o_h x.1) sy = Some x.
Proof.
  intros Hn Hx. destruct (obj_at (o_h x.1) sy) as [y|] eqn:E.
  - apply obj_at_elem in E as [Hy Eh]. f_equal. by eapply handle_unique.
  - exfalso. unfold obj_at in E. destruct (find_obj _ (sy_list sy)) as [[i y]|] eqn:E1; [done|].
    destruct (find_obj _ (sy_unlisted sy)) as [[i y]|] eqn:E2; [done|].
    unfold find_obj in E1, E2. rewrite list_find_None in E1, E2. rewrite Forall_forall in E1, E2.
    apply elem_of_all in Hx as [Hx|Hx]; [by apply (E1 x)|by apply (E2 x)].
Qed.
End frame.

(** ** The queue of a kring device *)

Section owner.
Context `{L : UbbdAbiLaws} `{KL : KernelApiLaws} `{ML : KernelMemLaws} `{IL : KernelIdrLaws}
  `{DL : KernelIdaLaws} `{T : UbbdAttrs} `{NL : NetlinkLaws}.
Abbreviation listed := (device_obj * list Z)%type.
Implicit Types (x : listed) (sy : system).

Lemma kreg_registered k infos k' hd d :
  kreg k infos k' -> ks_devs k' !! hd = Some d ->
  ks_devs k !! hd = Some d \/ exists info, info ∈ infos /\ ki_dev info = Some hd.
Proof.
  induction 1 as [k|k info l k' Hd H IH|k info l hd' m q k' Hd Hf H IH]; intros Hk; [by left|..].
  - destruct (IH Hk) as [|(i & Hi & ?)]; [by left|]. right. exists i. split; [by apply elem_of_cons; right|done].
  - destruct (IH Hk) as [Hl|(i & Hi & ?)].
    + simpl in Hl. apply lookup_insert_Some in Hl as [[<- _]|[_ Hl]]; [|by left].
      right. exists info. split; [by apply elem_of_cons; left|done].
    + right. exists i. split; [by apply elem_of_cons; right|done].
Qed.

Lemma queue_of_Some hd x i : queue_of hd x = Some i ->
  exists p, o_parts x.1 !! i = Some p /\ ki_dev (qp_info p) = Some hd.
Proof.
  unfold queue_of. destruct (list_find _ _) as [[j p]|] eqn:E; [|done]. intros [= ->].
  apply list_find_Some in E as (Hi & Hp & _). eauto.
Qed.

(** A registered kring device belongs to a queue of a device. *)
Lemma owner_found s0 sy hd d :
  owned s0 (all_devs sy) (sy_drv sy) -> dv_kring s0 = kring_initial true ->
  ks_devs (dv_kring (sy_drv sy)) !! hd = Some d ->
  exists h i x p, info_owner hd sy = Some (h, i) /\ obj_at h sy = Some x /\ x ∈ all_devs sy /\
    o_parts x.1 !! i = Some p /\ ki_dev (qp_info p) = Some hd.
Proof.
  intros Ho E0 Hd. pose proof (ow_kring _ _ _ Ho) as Hk.
  destruct (kreg_registered _ _ _ _ _ Hk Hd) as [Hl|(info & Hin & Hi)].
  { rewrite E0 in Hl. simpl in Hl. by rewrite lookup_empty in Hl. }
  unfold info_owner. set (f := fun x : listed => pair (o_h x.1) <$> queue_of hd x).
  assert (exists x, x ∈ all_devs sy /\ is_Some (f x)) as (x & Hx & [hi Hhi]).
  { unfold infos_all in Hin. apply list_elem_of_In, in_concat in Hin as (l & Hl & Hin).
    apply in_map_iff in Hl as (x & <- & Hx). apply list_elem_of_In in Hx, Hin.
    apply list_elem_of_fmap in Hin as (p & -> & Hp). exists x. split; [done|].
    unfold f, queue_of. destruct (list_find _ _) as [[j q]|] eqn:E; [by eexists|].
    rewrite list_find_None, Forall_forall in E. by destruct (E p Hp). }
  assert (hi ∈ omap f (all_devs sy)) as Hin' by (apply list_elem_of_omap; eauto).
  destruct (omap f (all_devs sy)) as [|[h i] l] eqn:El; [by apply elem_of_nil in Hin'|].
  assert ((h, i) ∈ omap f (all_devs sy)) as Hh by (rewrite El; by apply elem_of_cons; left).
  apply list_elem_of_omap in Hh as (y & Hy & Hfy). unfold f in Hfy.
  destruct (queue_of hd y) as [j|] eqn:Eq; [|done]. injection Hfy as <- ->.
  destruct (queue_of_Some _ _ _ Eq) as (p & Hp & Hhd). exists (o_h y.1), i, y, p.
  split_and!; try done. apply obj_at_in; [|done]. apply (ow_handles _ _ _ Ho).
Qed.

Lemma part_queue s0 sy x i p :
  owned s0 (all_devs sy) (sy_drv sy) -> x ∈ all_devs sy -> o_parts x.1 !! i = Some p ->
  exists q, d_queues (o_dev x.1) !! i = Some q.
Proof.
  intros Ho Hx Hp. pose proof (ow_sound _ _ _ Ho) as Hs. rewrite Forall_forall in Hs.
  destruct (Hs x Hx) as (_ & El & _). apply lookup_lt_is_Some_2. rewrite El. by eapply lookup_lt_Some.
Qed.
End owner.
