(* ===== verification/FilesInv.v ===== *)
(** * The invariant of the driver with its open files

    Seen through the [registry] of its kring devices, a driver with open files
    takes the steps of [System]: an open marks a queue, a write is a completion,
    a mapping is a reference of the device and a mark on its queue. *)

From S2P Require Import Prelude Abi Ring Pages Request Queue Kring KringLife KringMap Device DeviceInv Operation Lifecycle.
From S2P Require Import Create CreateInv CreateProps Netlink NetlinkProps KringFrame.
From S2P Require Import System SystemInv SystemStep SystemRun SystemFrame Files FilesFrame.

(** ** The registry of kring states *)

Section registry.
Context `{IL : KernelIdrLaws}.
Implicit Types (k : kring_state).

Lemma registry_refs k h d n :
  ks_devs k !! h = Some d ->
  registry (set_ks_devs (<[h := mk_kdev (kd_minor d) (kd_info d) n]> (ks_devs k)) k) = registry k.
Proof.
  intros Hd. unfold registry, set_ks_devs. simpl. f_equal. apply map_eq. intros j. rewrite !lookup_omap.
  destruct (decide (h = j)) as [<-|]; [by rewrite lookup_insert_eq, Hd|by rewrite lookup_insert_ne].
Qed.

Lemma registry_freed k h d :
  ks_devs k !! h = Some d -> kd_info d = None -> registry (set_ks_devs (delete h (ks_devs k)) k) = registry k.
Proof.
  intros Hd Hi. unfold registry, set_ks_devs. simpl. f_equal. apply map_eq. intros j. rewrite !lookup_omap.
  destruct (decide (h = j)) as [<-|]; [|by rewrite lookup_delete_ne].
  rewrite lookup_delete_eq, Hd. simpl. unfold registry_dev. by rewrite Hi.
Qed.

Lemma open_registry k minor f ev mok kok :
  kring_inv k -> ks_files k !! f = None ->
  exists ret opened k', ubbd_kring_open minor f ev mok kok k = Ok (ret, opened, k') /\ kring_inv k' /\
    registry k' = registry k /\
    (opened = None \/ exists h d q, ks_devs k !! h = Some d /\ kd_info d = Some q /\ opened = Some q /\
       ks_files k' !! f = Some (mk_listener h ev)).
Proof.
  intros Hi Hf. destruct (open_spec k minor f ev mok kok Hi Hf) as (ret & opened & k' & E & Hi' & Hr).
  exists ret, opened, k'. split; [done|]. split; [done|].
  destruct Hr as [(_ & -> & ->)|(E0 & h & d & Em & Hd & Eo & Ef & _)]; [split; [done|by left]|].
  destruct (ki_idr _ Hi _ _ Em) as (d' & q & Hd' & Hq & _). replace d' with d in * by congruence.
  split; [|right; exists h, d, q; split_and!; try congruence; by rewrite Ef, lookup_insert_eq].
  assert (0 < ENODEV /\ 0 < ENOMEM) as [? ?] by (unfold ENODEV, ENOMEM; lia).
  unfold ubbd_kring_open in E. rewrite Em in E. unfold open_found, get_device in E. rewrite Hd in E.
  cbn [deref obind] in E. set (k1 := set_ks_devs _ k) in E.
  destruct mok; cbn [negb] in E; [|inv_ok E; injection E as <- _ _; lia].
  destruct kok; cbn [negb] in E; [|inv_ok E; injection E as <- _ _; lia].
  change (ks_devs (set_ks_modrefs _ k1)) with (ks_devs k1) in E. unfold k1 in E at 1. simpl in E.
  rewrite lookup_insert_eq in E. cbn [deref obind kd_info] in E. rewrite Hq in E. injection E as _ _ <-.
  change (registry (set_ks_files _ (set_ks_modrefs _ k1))) with (registry k1). by apply registry_refs.
Qed.

Lemma release_registry k f :
  kring_inv k -> is_Some (ks_files k !! f) ->
  exists k', ubbd_kring_release f k = Ok k' /\ kring_inv k' /\ registry k' = registry k.
Proof.
  intros Hi Hf. destruct (release_spec k f Hi Hf) as (k' & E & Hi' & _). exists k'. split; [done|]. split; [done|].
  destruct Hf as [l Hf]. destruct (ki_files _ Hi _ _ Hf) as [d Hd]. destruct (ki_refs _ Hi _ _ Hd) as [Hr _].
  pose proof (opens_pos _ _ _ Hf) as Hop. unfold ubbd_kring_release in E. rewrite Hf in E. cbn [deref obind] in E.
  rewrite Hd in E. cbn [deref obind] in E. unfold put_device in E. cbn [set_ks_files set_ks_modrefs ks_devs] in E.
  rewrite Hd in E. cbn [deref obind] in E.
  set (k1 := set_ks_files _ _) in E. destruct (Z.eqb_spec (kd_refs d) 1) as [E1|_]; injection E as <-.
  - change (registry k) with (registry k1). apply (registry_freed k1 _ d); [done|].
    unfold registered_ref in Hr. destruct (kd_info d); [lia|done].
  - change (registry k) with (registry k1). by apply (registry_refs k1).
Qed.

Lemma listener_inv k f l l' :
  kring_inv k -> ks_files k !! f = Some l -> ls_dev l' = ls_dev l ->
  kring_inv (set_listener f l' k) /\ registry (set_listener f l' k) = registry k.
Proof.
  intros Hi Hf El. split; [|done].
  assert (forall h, opens (set_listener f l' k) h = opens k h) as Ho.
  { intros h. set (k0 := set_ks_files (delete f (ks_files k)) k).
    assert (set_listener f l' k = set_ks_files (<[f := l']> (ks_files k0)) k0) as E.
    { unfold set_listener, k0, set_ks_files. simpl. by rewrite insert_delete_eq. }
    rewrite E, (opens_insert k0 f l' h) by apply lookup_delete_eq. unfold k0.
    rewrite (opens_delete k f l h Hf), El. lia. }
  destruct Hi as [Hr Hfi Hid Hm Hn]. split; simpl; try done.
  - intros h d Hd. rewrite Ho. auto.
  - intros f' l1. rewrite lookup_insert_Some. intros [[<- <-]|[_ Hl]]; [rewrite El|]; eauto.
  - rewrite Hn. rewrite map_size_insert_Some by eauto. done.
Qed.

(** Without open files only the registry is left. *)
Lemma no_files_registry k : kring_inv k -> ks_files k = ∅ -> registry k = k.
Proof.
  intros Hi Ef. assert (forall h, opens k h = 0) as Ho.
  { intros h. apply opens_zero. intros f l. by rewrite Ef, lookup_empty. }
  pose proof (ki_modrefs _ Hi) as Hm. rewrite Ef, map_size_empty in Hm.
  assert (omap registry_dev (ks_devs k) = ks_devs k) as Ed.
  { apply map_eq. intros h. rewrite lookup_omap. destruct (ks_devs k !! h) as [d|] eqn:E; [|done]. simpl.
    destruct (ki_refs _ Hi _ _ E) as [Hr Hp]. rewrite Ho in Hr. unfold registered_ref in Hr. unfold registry_dev.
    destruct d as [m [q|] n]; simpl in *; [|lia]. do 2 f_equal. lia. }
  unfold registry. rewrite Ed. destruct k; simpl in *; by subst.
Qed.
End registry.

(** ** Steps through the registry *)

Section steps.
Context `{L : UbbdAbiLaws} `{KL : KernelApiLaws} `{ML : KernelMemLaws} `{IL : KernelIdrLaws}
  `{DL : KernelIdaLaws} `{T : UbbdAttrs} `{NL : NetlinkLaws}.
Abbreviation listed := (device_obj * list Z)%type.
Implicit Types (x : listed) (S : sys) (F : files).

Definition reg_sys S : sys := set_kring (registry (kring_of S)) S.

Lemma sys_sim_reg S : kring_inv (kring_of S) -> sys_sim (ks_files (kring_of S)) (reg_sys S) S.
Proof.
  intros Hk. destruct S as [[[ids k heap m] l u w] lf r]. unfold reg_sys, kring_of, set_kring, set_sy_drv, set_dv_kring in *. simpl in *.
  do 3 constructor. by apply kring_sim_of.
Qed.

Lemma sys_sim_inv fs S1 S :
  sys_sim fs S1 S -> S1 = reg_sys S /\ kring_inv (kring_of S) /\ ks_files (kring_of S) = fs.
Proof. intros H. destruct H as [? ? ? ? H]. destruct H as [? ? ? ? ? H]. destruct H as [? ? ? ? ? H]. by destruct H. Qed.

(** Replacing the kring state by one of the same registry. *)
Lemma reg_set_kring k S : registry k = registry (kring_of S) -> reg_sys (set_kring k S) = reg_sys S.
Proof. intros E. unfold reg_sys, kring_of, set_kring, set_sy_drv, set_dv_kring. simpl. by rewrite E. Qed.

Lemma reg_can FB op S : sys_can FB op S -> sys_can FB op (reg_sys S).
Proof.
  destruct op as [cmd env attrs|h op|h op|h i a]; try done. destruct cmd; try done. intros [Hf H]. split; [|exact H].
  intros h Eh. destruct (Hf h Eh) as (H1 & H2 & H3). split; [exact H1|]. split; [|exact H3].
  intros j hd Hj E. by apply registry_fresh, (H2 j).
Qed.

Lemma can_fresh FB op S : sys_can FB op S -> op_fresh op S.
Proof. destruct op as [cmd env attrs|h op|h op|h i a]; try done. destruct cmd; try done. by intros [Hf _]. Qed.

(** The registry is that of a state of [System], and the kring device counts
    its references. *)
Record reg_inv FB P0 s0 n S : Prop := {
  ri_reach : sys_reach FB P0 s0 n (reg_sys S);
  ri_sys : sys_inv FB (mk_origin s0 P0) n (reg_sys S);
  ri_kring : kring_inv (kring_of S);
}.

Definition counts (op : sys_op) (n : Z) : Z := if submits op then n + 1 else n.

Lemma reg_step FB P0 s0 n op S :
  reg_inv FB P0 s0 n S -> counts op n < 2 ^ 64 -> sys_can FB op S ->
  exists S', sys_step op S = Ok S' /\ reg_inv FB P0 s0 (counts op n) S' /\
    sys_step op (reg_sys S) = Ok (reg_sys S') /\ ks_files (kring_of S') = ks_files (kring_of S).
Proof.
  intros [Hr Hi Hk] Hb Hc. pose proof (reg_can _ _ _ Hc) as Hc'. unfold counts in *.
  destruct (sys_step_inv FB _ n _ op Hi) as (S1 & E1 & Hi1); [destruct (submits op); lia|done..|].
  destruct (step_sim _ op _ S (sys_sim_reg S Hk) (can_fresh _ _ _ Hc) _ E1) as (S' & E & Hs).
  apply sys_sim_inv in Hs as (-> & Hk' & Ef). exists S'. split; [done|]. split; [|done]. split; [|done..].
  by eapply sys_reach_next.
Qed.

Lemma reg_kring FB P0 s0 n S k :
  reg_inv FB P0 s0 n S -> kring_inv k -> registry k = registry (kring_of S) -> reg_inv FB P0 s0 n (set_kring k S).
Proof. intros [Hr Hi Hk] Hk' E. split; [by rewrite reg_set_kring..|done]. Qed.

(** What the registry does not change. *)
Lemma ri_owned FB P0 s0 n S : reg_inv FB P0 s0 n S -> owned s0 (all_devs (s_sys S)) (sy_drv (s_sys (reg_sys S))).
Proof. intros [_ [Hg _] _]. apply (gd_owned _ _ _ _ _ _ _ _ Hg). Qed.

Lemma ri_nodup FB P0 s0 n S : reg_inv FB P0 s0 n S -> NoDup (handles (all_devs (s_sys S))).
Proof. intros Hi. apply (ow_handles _ _ _ (ri_owned _ _ _ _ _ Hi)). Qed.

Lemma ri_alive FB P0 s0 n S : reg_inv FB P0 s0 n S -> alive (s_life S) (all_devs (s_sys S)).
Proof. intros [_ [Hg _] _]. apply (gd_alive _ _ _ _ _ _ _ _ Hg). Qed.

(** A registered kring device leads to a queue. *)
Lemma ri_owner FB P0 s0 n S hd d q :
  reg_inv FB P0 s0 n S -> dv_kring s0 = kring_initial true ->
  ks_devs (kring_of S) !! hd = Some d -> kd_info d = Some q ->
  exists h i x p qu, info_owner hd (s_sys S) = Some (h, i) /\ obj_at h (s_sys S) = Some x /\ x ∈ all_devs (s_sys S) /\
    o_parts x.1 !! i = Some p /\ ki_dev (qp_info p) = Some hd /\ d_queues (o_dev x.1) !! i = Some qu.
Proof.
  intros Hi E0 Hd Hq. pose proof (ri_owned _ _ _ _ _ Hi) as Ho.
  destruct (owner_found _ (s_sys (reg_sys S)) hd (mk_kdev (kd_minor d) (Some q) 1) Ho E0) as (h & i & x & p & H1 & H2 & H3 & H4 & H5).
  { simpl. rewrite lookup_omap, Hd. simpl. unfold registry_dev. by rewrite Hq. }
  destruct (part_queue _ (s_sys (reg_sys S)) x i p Ho H3 H4) as [qu Hqu].
  exists h, i, x, p, qu. by split_and!.
Qed.

(** ** Mappings *)

Definition maps_of (h : Z) (maps : gmap Z mapping) : Z :=
  Z.of_nat (size (filter (fun kv => mp_dev kv.2 = h) maps)).

Lemma maps_of_insert maps id m h :
  maps !! id = None -> maps_of h (<[id := m]> maps) = maps_of h maps + (if decide (mp_dev m = h) then 1 else 0).
Proof.
  intros Hf. unfold maps_of. case_decide as E.
  - rewrite map_filter_insert_True by done. rewrite map_size_insert_None; [lia|]. by rewrite map_lookup_filter, Hf.
  - rewrite map_filter_insert_False by done. rewrite delete_id by done. lia.
Qed.

Lemma maps_of_pos maps id m : maps !! id = Some m -> 0 < maps_of (mp_dev m) maps.
Proof.
  intros Hf. unfold maps_of. assert (size (filter (fun kv => mp_dev kv.2 = mp_dev m) maps) <> 0%nat); [|lia].
  intros E0. apply map_size_empty_inv in E0.
  assert (filter (fun kv => mp_dev kv.2 = mp_dev m) maps !! id = Some m) as Hl by (by apply map_lookup_filter_Some).
  by rewrite E0, lookup_empty in Hl.
Qed.

Lemma maps_of_delete maps id m h :
  maps !! id = Some m -> maps_of h (delete id maps) = maps_of h maps - (if decide (mp_dev m = h) then 1 else 0).
Proof.
  intros Hf. replace (maps_of h maps) with (maps_of h (<[id := m]> (delete id maps))) by (by rewrite insert_delete_id).
  rewrite maps_of_insert by apply lookup_delete_eq. lia.
Qed.

(** The queue of a mapping is there. *)
Definition mapped (S : sys) (m : mapping) : Prop :=
  exists x p, obj_at (mp_dev m) (s_sys S) = Some x /\ o_parts x.1 !! mp_queue m = Some p.

(** A device with mappings stays, and keeps its queues. *)
Lemma mapped_kept FB P0 s0 n n' S S' new m :
  reg_inv FB P0 s0 n S -> reg_inv FB P0 s0 n' S' -> frame new (s_sys S) (s_sys S') ->
  (forall h, new h -> h ∉ handles (all_devs (s_sys S))) -> (s_life S' (mp_dev m)).2 <> 0 ->
  mapped S m -> mapped S' m.
Proof.
  intros Hi Hi' Hf Hnew Hl (x & p & Hx & Hp). apply obj_at_elem in Hx as [Hin Eh].
  destruct (decide (mp_dev m ∈ handles (all_devs (s_sys S')))) as [Hin'|Hn].
  2: { rewrite (al_dead _ _ (ri_alive _ _ _ _ _ Hi') _ Hn) in Hl. done. }
  unfold handles in Hin'. apply list_elem_of_fmap in Hin' as (y & Ey & Hy).
  destruct (Hf y Hy) as [(z & Hz & Ez & Ep)|Hn].
  - assert (z = x) as -> by (apply (handle_unique _ _ _ (ri_nodup _ _ _ _ _ Hi)); [done|done|congruence]).
    exists y, p. split; [|by rewrite Ep]. rewrite Ey. apply obj_at_in; [exact (ri_nodup _ _ _ _ _ Hi')|done].
  - exfalso. apply (Hnew _ Hn). unfold handles. apply list_elem_of_fmap. exists x. split; [congruence|done].
Qed.

Lemma new_address_fresh FB P0 s0 n S op h :
  reg_inv FB P0 s0 n S -> sys_can FB op S -> new_address op h -> h ∉ handles (all_devs (s_sys S)).
Proof.
  intros Hi Hc Hn Hin. destruct op as [cmd env attrs|h' op|h' op|h' i a]; try done. destruct cmd; try done.
  destruct Hc as [Hf _]. destruct (Hf h Hn) as [Hf' _]. unfold handles in Hin.
  apply list_elem_of_fmap in Hin as (x & -> & Hx). apply (Hf' (OBJ_DEV (o_h x.1))); [|done].
  exact (owned_handle _ _ _ x (ri_owned _ _ _ _ _ Hi) Hx).
Qed.

(** *** Changes of a queue's backend as steps of [System] *)

Lemma life_maps op l l' :
  life_step op l = Ok l' -> op <> LMap -> op <> LUnmap -> lf_maps l' = lf_maps l.
Proof.
  intros H ? ?. unfold life_step in H. inv_ok H. destruct op; try done; inv_oks; done.
Qed.

Lemma own_step_maps op S S' h : sys_step op S = Ok S' -> own_step op = true -> (s_life S' h).2 = (s_life S h).2.
Proof.
  destruct op as [cmd env attrs|h' op|h' op|h' i a]; cbn [sys_step]; intros H Ho; try done.
  - inv_ok H. destruct r as [[? ?] ?]. by injection H as <-.
  - inv_ok H. inv_ok H. inv_ok H. injection H as <-. simpl. unfold set_life. case_decide as Eh; [|done]. subst h'.
    simpl. apply life_maps in E0; [exact E0|by intros ->..].
  - inv_ok H. inv_ok H. inv_ok H. by injection H as <-.
Qed.
End steps.
