(* ===== verification/FilesStep.v ===== *)
(** * Every step of a backend goes through

    A backend's operations are steps of [System] through the registry: the
    change of a queue's backend is a [SUser], a new reference of a mapping an
    [LMap], its end an [LUnmap], and a write an [IOComplete]. *)

From S2P Require Import Prelude Abi Ring Pages Request Queue Kring KringLife KringMap Device DeviceInv Operation Lifecycle.
From S2P Require Import Create CreateInv CreateProps Netlink NetlinkProps KringFrame.
From S2P Require Import System SystemInv SystemStep SystemRun SystemFrame Files FilesFrame FilesInv.

Section steps.
Context `{L : UbbdAbiLaws} `{KL : KernelApiLaws} `{ML : KernelMemLaws} `{IL : KernelIdrLaws}
  `{DL : KernelIdaLaws} `{T : UbbdAttrs} `{NL : NetlinkLaws}.
Abbreviation listed := (device_obj * list Z)%type.
Implicit Types (x : listed) (S : sys) (F : files) (q : ubbd_queue).

(** ** The backend of a queue *)

(** The event of the device's life that goes with [n] mappings more. *)
Inductive map_event : life_op -> Z -> Prop :=
| event_map : map_event LMap 1
| event_unmap : map_event LUnmap (- 1).

Lemma set_queue_same i q (d : ubbd_device) :
  d_queues d !! i = Some q -> set_d_queues (<[i := q]> (d_queues d)) d = d.
Proof. intros Hq. rewrite list_insert_id by done. by destruct d. Qed.

Lemma set_o_dev_same (o : device_obj) : set_o_dev (o_dev o) o = o.
Proof. by destruct o. Qed.

Lemma map_life op n x s w v i q :
  map_event op n -> d_queues (o_dev x.1) !! i = Some q -> 0 < d_kref (o_dev x.1) ->
  exists l, life_step op (life_state x v) = Ok l /\ lf_work l = v.1 /\ lf_maps l = v.2 + n /\
    life_act l x s w = set_backend i q (d_kref (o_dev x.1) + n) x s w.
Proof.
  intros Hop Hq Hk. unfold set_backend. rewrite (set_queue_same _ _ _ Hq).
  destruct Hop; cbn [life_step life_state lf_dev deref obind lf_work lf_maps]; (eexists; split; [done|]);
    (split; [done|]); (split; [done|]); unfold life_act; cbn [lf_dev].
  - destruct (Z.eqb_spec (d_kref (o_dev x.1) + 1) 0); [lia|done].
  - unfold ubbd_dev_put. change (d_kref (o_dev x.1) + - 1) with (d_kref (o_dev x.1) - 1).
    destruct (Z.eqb_spec (d_kref (o_dev x.1)) 1) as [E|E]; [by rewrite E|].
    destruct (Z.eqb_spec (d_kref (o_dev x.1) - 1) 0); [lia|done].
Qed.

Lemma life_backend S h op n x i q :
  obj_at h (s_sys S) = Some x -> map_event op n -> d_queues (o_dev x.1) !! i = Some q -> 0 < d_kref (o_dev x.1) ->
  sys_step (SLife h op) S =
    (let* sy := on_obj h (set_backend i q (d_kref (o_dev x.1) + n)) (s_sys S) in
     Ok (mk_sys sy (count_maps h n S) (s_refused S))).
Proof.
  intros Hx Hop Hq Hk. cbn [sys_step]. rewrite Hx. cbn [deref obind].
  destruct (map_life op n x (sy_drv (s_sys S)) (sy_world (s_sys S)) (s_life S h) i q Hop Hq Hk)
    as (l & -> & E1 & E2 & Ea). cbn [obind]. rewrite (on_obj_ext h _ _ _ x Hx Ea). unfold count_maps. by rewrite E1, E2.
Qed.

Lemma user_backend S h x i q a :
  obj_at h (s_sys S) = Some x -> d_queues (o_dev x.1) !! i = Some q ->
  let d1 := set_d_queues (<[i := user_queue a q]> (d_queues (o_dev x.1))) (o_dev x.1) in
  exists S1, sys_step (SUser h i a) S = Ok S1 /\ obj_at h (s_sys S1) = Some (set_o_dev d1 x.1, x.2) /\
    s_life S1 = s_life S /\ s_refused S1 = s_refused S /\
    forall refs, on_obj h (set_backend i (user_queue a q) refs) (s_sys S1) =
                 on_obj h (set_backend i (user_queue a q) refs) (s_sys S).
Proof.
  intros Hx Hq d1. pose proof (obj_at_elem _ _ _ Hx) as [_ Eh].
  destruct (on_obj_seq h (fun x s w => let* d := user_dev i a (o_dev x.1) in Ok (Some (set_o_dev d x.1, x.2), s, w))
    (s_sys S) x (set_o_dev d1 x.1, x.2) (sy_drv (s_sys S)) (sy_world (s_sys S)) Hx) as (sy1 & E & Es & Ew & Hx1 & Hon).
  { unfold user_dev. by rewrite Hq. }
  { exact Eh. }
  cbn [sys_step]. rewrite E. cbn [obind]. eexists. split; [done|]. split; [exact Hx1|]. split; [done|]. split; [done|].
  intros refs. simpl s_sys. rewrite Hon. apply (on_obj_ext h _ _ _ x Hx).
  unfold set_backend, d1. simpl. by rewrite !list_insert_insert_eq.
Qed.

Lemma ri_kref FB P0 s0 n S h x : reg_inv FB P0 s0 n S -> obj_at h (s_sys S) = Some x -> 0 < d_kref (o_dev x.1).
Proof.
  intros Hi Hx. apply obj_at_elem in Hx as [Hx _]. pose proof (al_dev _ _ (ri_alive _ _ _ _ _ Hi)) as Ha.
  rewrite Forall_forall in Ha. destruct (Ha x Hx) as [Hl _]. by eapply life_in_list_kref.
Qed.

Lemma set_backend_frame h i q refs sy sy' :
  on_obj h (set_backend i q refs) sy = Ok sy' -> frame (fun _ => False) sy sy'.
Proof.
  intros H. eapply on_obj_frame; [|exact H]. intros x s w ro s' w' Hf x' ->. unfold set_backend in Hf.
  destruct (refs =? 0); [inv_ok Hf; by destruct r|]. by injection Hf as <- _ _.
Qed.

(** A mapping more or less, with or without a change of its queue. *)
Lemma backend_change FB P0 s0 n S h op k x i q oa :
  reg_inv FB P0 s0 n S -> n < 2 ^ 64 -> obj_at h (s_sys S) = Some x -> d_queues (o_dev x.1) !! i = Some q ->
  map_event op k -> (op = LUnmap -> 0 < (s_life S h).2) ->
  let q' := match oa with Some a => user_queue a q | None => q end in
  exists sy, on_obj h (set_backend i q' (d_kref (o_dev x.1) + k)) (s_sys S) = Ok sy /\
    reg_inv FB P0 s0 n (mk_sys sy (count_maps h k S) (s_refused S)) /\ frame (fun _ => False) (s_sys S) sy /\
    ks_files (dv_kring (sy_drv sy)) = ks_files (kring_of S).
Proof.
  intros Hi Hn Hx Hq Hop Hm q'. pose proof (ri_kref _ _ _ _ _ _ _ Hi Hx) as Hk.
  assert (forall S x, reg_inv FB P0 s0 n S -> obj_at h (s_sys S) = Some x -> d_queues (o_dev x.1) !! i = Some q' ->
    (op = LUnmap -> 0 < (s_life S h).2) -> 0 < d_kref (o_dev x.1) ->
    exists sy, on_obj h (set_backend i q' (d_kref (o_dev x.1) + k)) (s_sys S) = Ok sy /\
      reg_inv FB P0 s0 n (mk_sys sy (count_maps h k S) (s_refused S)) /\
      ks_files (dv_kring (sy_drv sy)) = ks_files (kring_of S)) as Hlife.
  { clear S x Hi Hx Hq Hm Hk. intros S x Hi Hx Hq Hm Hk.
    destruct (reg_step FB P0 s0 n (SLife h op) S Hi) as (S' & E & Hi' & _ & Ef); [done| |].
    - split; [by destruct Hop|]. exists x. split; [done|]. destruct Hop; [done|]. by apply Hm.
    - rewrite (life_backend S h op k x i q') in E by done. inv_ok E. injection E as <-. eauto. }
  assert (exists sy, on_obj h (set_backend i q' (d_kref (o_dev x.1) + k)) (s_sys S) = Ok sy /\
    reg_inv FB P0 s0 n (mk_sys sy (count_maps h k S) (s_refused S)) /\
    ks_files (dv_kring (sy_drv sy)) = ks_files (kring_of S)) as (sy & E & Hi' & Ef).
  { destruct oa as [a|]; [|by apply (Hlife S x)].
    destruct (user_backend S h x i q a Hx Hq) as (S1 & E1 & Hx1 & El & Er & Hon).
    destruct (reg_step FB P0 s0 n (SUser h i a) S Hi) as (S2 & E2 & Hi2 & _ & Ef2); [done| |].
    { exists x. split; [done|]. by eapply lookup_lt_Some. }
    rewrite E1 in E2. injection E2 as <-. unfold counts in Hi2. simpl submits in Hi2.
    destruct (Hlife S1 _ Hi2 Hx1) as (sy & E & Hi' & Ef).
    - simpl. apply list_lookup_insert_eq. by eapply lookup_lt_Some.
    - by rewrite El.
    - exact Hk.
    - simpl in E. unfold q' in E. rewrite Hon in E. exists sy. split; [exact E|].
      unfold count_maps in *. rewrite El, Er in Hi'. split; [exact Hi'|congruence]. }
  exists sy. split; [exact E|]. split; [exact Hi'|]. split; [by eapply set_backend_frame|exact Ef].
Qed.

(** ** The invariant *)

(** The mappings of a device are those [s_life] counts, and their queues are
    there. *)
Record files_inv FB P0 s0 n F : Prop := {
  fi_reg : reg_inv FB P0 s0 n (f_sys F);
  fi_count h : (s_life (f_sys F) h).2 = maps_of h (f_maps F);
  fi_maps id m : f_maps F !! id = Some m -> mapped (f_sys F) m;
}.

(** A step that changes no mapping. *)
Lemma files_inv_sys FB P0 s0 n n' S' F new :
  files_inv FB P0 s0 n F -> reg_inv FB P0 s0 n' S' -> frame new (s_sys (f_sys F)) (s_sys S') ->
  (forall h, new h -> h ∉ handles (all_devs (s_sys (f_sys F)))) ->
  (forall h, (s_life S' h).2 = (s_life (f_sys F) h).2) -> files_inv FB P0 s0 n' (mk_files S' (f_maps F)).
Proof.
  intros [Hi Hc Hm] Hi' Hf Hn Hl. split; [done| |]; simpl.
  - intros h. by rewrite Hl.
  - intros id m Hid. eapply mapped_kept; [exact Hi|exact Hi'|exact Hf|exact Hn| |by eapply Hm].
    rewrite Hl, Hc. pose proof (maps_of_pos _ _ _ Hid). lia.
Qed.

Lemma files_inv_kring FB P0 s0 n k F :
  files_inv FB P0 s0 n F -> kring_inv k -> registry k = registry (kring_of (f_sys F)) ->
  files_inv FB P0 s0 n (mk_files (set_kring k (f_sys F)) (f_maps F)).
Proof.
  intros Hi Hk E. apply (files_inv_sys _ _ _ n n _ _ (fun _ => False) Hi); try done.
  - apply reg_kring; [by apply fi_reg|done..].
  - by apply frame_incl.
Qed.

(** A change of the mappings of [h]. *)
Lemma files_inv_maps FB P0 s0 n F h k sy maps :
  files_inv FB P0 s0 n F ->
  reg_inv FB P0 s0 n (mk_sys sy (count_maps h k (f_sys F)) (s_refused (f_sys F))) ->
  frame (fun _ => False) (s_sys (f_sys F)) sy ->
  (forall h', maps_of h' maps = maps_of h' (f_maps F) + (if decide (h = h') then k else 0)) ->
  (forall id m, maps !! id = Some m -> mapped (f_sys F) m) ->
  files_inv FB P0 s0 n (mk_files (mk_sys sy (count_maps h k (f_sys F)) (s_refused (f_sys F))) maps).
Proof.
  intros [Hi Hc Hm] Hi' Hf Hk Hmaps.
  assert (forall h', (count_maps h k (f_sys F) h').2 = maps_of h' maps) as Hc'.
  { intros h'. rewrite Hk, <- Hc. unfold count_maps, set_life. destruct (decide (h' = h)) as [->|].
    - by rewrite decide_True.
    - rewrite decide_False by done. lia. }
  split; [done| |]; simpl; [done|].
  intros id m Hid. eapply mapped_kept; [exact Hi|exact Hi'|exact Hf|done| |by eapply Hmaps].
  simpl. rewrite Hc'. pose proof (maps_of_pos _ _ _ Hid). lia.
Qed.

Lemma fi_queue FB P0 s0 n F m :
  files_inv FB P0 s0 n F -> mapped (f_sys F) m ->
  exists x q, obj_at (mp_dev m) (s_sys (f_sys F)) = Some x /\ d_queues (o_dev x.1) !! mp_queue m = Some q.
Proof.
  intros [Hi _ _] (x & p & Hx & Hp).
  destruct (part_queue s0 (s_sys (reg_sys (f_sys F))) x (mp_queue m) p (ri_owned _ _ _ _ _ Hi)) as [q Hq]; [|done|eauto].
  apply obj_at_elem in Hx as [Hx _]. exact Hx.
Qed.

(** ** The operations *)

Section ops.
Context (FB P0 : gset Z) (s0 : driver) (E0 : dv_kring s0 = kring_initial true) (n : Z) (F : files).
Hypothesis Hinv : files_inv FB P0 s0 n F.
Hypothesis Hn : n < 2 ^ 64.

Let Hreg : reg_inv FB P0 s0 n (f_sys F) := fi_reg _ _ _ _ _ Hinv.
Let Hkring : kring_inv (kring_of (f_sys F)) := ri_kring _ _ _ _ _ Hreg.

Lemma step_sys op :
  counts op n < 2 ^ 64 -> own_step op = true -> sys_can FB op (f_sys F) ->
  exists F', file_step (FSys op) F = Ok F' /\ files_inv FB P0 s0 (counts op n) F'.
Proof.
  intros Hb Ho Hc. destruct (reg_step FB P0 s0 n op _ Hreg Hb Hc) as (S' & E & Hi' & _).
  cbn [file_step]. rewrite E. cbn [obind]. eexists. split; [done|].
  eapply files_inv_sys; [done|done|by eapply step_frame| |].
  - intros h. by eapply new_address_fresh.
  - intros h. by eapply own_step_maps.
Qed.

Lemma step_open minor file event inode mok kok :
  ks_files (kring_of (f_sys F)) !! file = None ->
  exists F', file_step (FOpen minor file event inode mok kok) F = Ok F' /\ files_inv FB P0 s0 n F'.
Proof.
  intros Hf. destruct (open_registry _ minor file event mok kok Hkring Hf) as (ret & opened & k & E & Hk & Er & Hop).
  pose proof (files_inv_kring _ _ _ _ k F Hinv Hk Er) as Hi'. cbn [file_step]. unfold file_open. rewrite E. cbn [obind].
  destruct Hop as [->|(hd & d & qi & Hd & Hqi & -> & Hl)]; [cbn [obind]; eauto|].
  rewrite Hl. cbn [deref obind ls_dev].
  destruct (ri_owner _ _ _ _ _ hd d qi Hreg E0 Hd Hqi) as (h & i & x & p & q & Eo & Hx & _ & _ & _ & Hq).
  change (info_owner hd (s_sys (set_kring k (f_sys F)))) with (info_owner hd (s_sys (f_sys F))). rewrite Eo.
  cbn [deref obind].
  destruct (reg_step FB P0 s0 n (SUser h i (UserOpen inode)) (set_kring k (f_sys F))) as (S' & E' & Hi2 & _);
    [by apply (fi_reg _ _ _ _ _ Hi')|done| |].
  { exists x. split; [exact Hx|]. by eapply lookup_lt_Some. }
  rewrite E'. cbn [obind]. eexists. split; [done|].
  apply (files_inv_sys _ _ _ n n S' _ (fun _ => False) Hi'); [exact Hi2|by apply step_frame in E'|done|].
  intros h'. cbn [sys_step] in E'. inv_ok E'. by injection E' as <-.
Qed.

Lemma step_release file :
  is_Some (ks_files (kring_of (f_sys F)) !! file) ->
  exists F', file_step (FRelease file) F = Ok F' /\ files_inv FB P0 s0 n F'.
Proof.
  intros Hf. destruct (release_registry _ file Hkring Hf) as (k & E & Hk & Er).
  cbn [file_step]. unfold file_release. rewrite E. cbn [obind]. eexists. split; [done|]. by apply files_inv_kring.
Qed.

Lemma step_poll file event :
  is_Some (ks_files (kring_of (f_sys F)) !! file) ->
  exists F', file_step (FPoll file event) F = Ok F' /\ files_inv FB P0 s0 n F'.
Proof.
  intros [l Hl]. cbn [file_step]. unfold file_poll. rewrite Hl. cbn [deref obind].
  destruct (ubbd_kring_poll event l) as [ready l'] eqn:E. cbn [obind]. eexists. split; [done|].
  destruct (listener_inv _ file l l' Hkring Hl) as [? ?]; [|by apply files_inv_kring].
  unfold ubbd_kring_poll in E. destruct (negb _); by injection E as _ <-.
Qed.

Lemma read_loop_dev nb l rounds ret l' : read_loop nb l rounds = Some (ret, l') -> ls_dev l' = ls_dev l.
Proof.
  induction rounds as [|r rounds IH]; simpl; [done|].
  repeat (case_match; try (by intros [= _ <-])). apply IH.
Qed.

Lemma step_read file count nb rounds :
  is_Some (ks_files (kring_of (f_sys F)) !! file) ->
  exists F', file_step (FRead file count nb rounds) F = Ok F' /\ files_inv FB P0 s0 n F'.
Proof.
  intros [l Hl]. cbn [file_step]. unfold file_read. rewrite Hl. cbn [deref obind].
  destruct (ubbd_kring_read count nb l rounds) as [[ret l']|] eqn:E; cbn [obind].
  2: { eexists. split; [done|]. by destruct F. }
  eexists. split; [done|]. destruct (listener_inv _ file l l' Hkring Hl) as [? ?]; [|by apply files_inv_kring].
  unfold ubbd_kring_read in E. destruct (negb _); [by injection E as _ <-|]. by eapply read_loop_dev.
Qed.

Lemma on_obj_same h f (sy : system) x :
  obj_at h sy = Some x -> f x (sy_drv sy) (sy_world sy) = Ok (Some x, sy_drv sy, sy_world sy) -> on_obj h f sy = Ok sy.
Proof.
  unfold obj_at, on_obj. destruct (find_obj h (sy_list sy)) as [[i y]|] eqn:E.
  - intros [= ->] ->. cbn [obind]. apply list_find_Some in E as (Hi & _). rewrite list_insert_id by done. by destruct sy.
  - destruct (find_obj h (sy_unlisted sy)) as [[i y]|] eqn:E2; [|done]. simpl fmap. intros [= ->] Hf.
    cbn [deref obind]. rewrite Hf. cbn [obind]. apply list_find_Some in E2 as (Hi & _).
    rewrite list_insert_id by done. by destruct sy.
Qed.

Lemma kring_write_eq file (k : kring_state) l d qi q w :
  ks_files k !! file = Some l -> ks_devs k !! ls_dev l = Some d -> kd_info d = Some qi ->
  ubbd_kring_write compr_fuel file k q w =
    if q_status q =? UBBD_QUEUE_KSTATUS_REMOVING then Ok (4, q, w)
    else let* '(q, w) := ubbd_queue_complete compr_fuel q w in Ok (4, q, w).
Proof.
  intros Hl Hd Hq. unfold ubbd_kring_write, ubbd_irqcontrol. rewrite Hl. cbn [deref obind]. rewrite Hd.
  cbn [deref obind]. rewrite Hq. cbn [deref obind]. destruct (_ =? _); [done|].
  by destruct (ubbd_queue_complete compr_fuel q w) as [[? ?]|].
Qed.

(** A write is a completion of the queue of the file, if it is not being removed. *)
Lemma step_write file :
  file_can FB (FWrite file) F -> exists F', file_step (FWrite file) F = Ok F' /\ files_inv FB P0 s0 n F'.
Proof.
  intros (l & d & Hl & Hd & [qi Hqi] & Hop). cbn [file_step]. unfold file_write. rewrite Hl. cbn [deref obind].
  destruct (ri_owner _ _ _ _ _ _ d qi Hreg E0 Hd Hqi) as (h & i & x & p & q & Eo & Hx & _ & _ & _ & Hq).
  specialize (Hop h i x Eo Hx). rewrite Eo. cbn [deref obind].
  assert (write_queue file i x (sy_drv (s_sys (f_sys F))) (sy_world (s_sys (f_sys F))) =
    let w := sy_world (s_sys (f_sys F)) in
    let* '(q, w') := (if q_status q =? UBBD_QUEUE_KSTATUS_REMOVING then Ok (q, set_w_wq x.2 w)
                      else ubbd_queue_complete compr_fuel q (set_w_wq x.2 w)) in
    let d := set_d_queues (<[i := q]> (d_queues (o_dev x.1))) (o_dev x.1) in
    Ok (Some (set_o_dev d x.1, w_wq w'), sy_drv (s_sys (f_sys F)), set_w_wq (w_wq w) w')) as Ew.
  { unfold write_queue. rewrite Hq. cbn [deref obind]. rewrite (kring_write_eq file _ l d qi) by done.
    destruct (_ =? _); [done|]. by destruct (ubbd_queue_complete _ _ _) as [[? ?]|]. }
  destruct (Z.eqb_spec (q_status q) UBBD_QUEUE_KSTATUS_REMOVING) as [Er|Er].
  { rewrite (on_obj_same h _ _ x Hx).
    - cbn [obind]. eexists. split; [done|]. by destruct F as [[] ?].
    - rewrite Ew. cbv zeta. cbn [obind]. rewrite (set_queue_same _ _ _ Hq), set_o_dev_same. simpl.
      destruct x as [o wq]. simpl. by destruct (sy_world _). }
  destruct (reg_step FB P0 s0 n (SIo h (IOComplete i)) _ Hreg Hn) as (S' & E & Hi' & _).
  { exists x. split; [done|]. split; [done|]. split; [done|]. split; [by eapply lookup_lt_Some|].
    intros tag Ht. by apply elem_of_nil in Ht. }
  pose proof E as E'. cbn [sys_step] in E. rewrite Hx in E. cbn [deref obind] in E. inv_ok E. inv_ok E. injection E as <-.
  cbn [io_step io_state io_dev io_world] in E1. rewrite Hq in E1. cbn [deref obind] in E1. inv_ok E1. destruct r1 as [q1 w1].
  injection E1 as <-. cbn [io_refused] in *.
  rewrite (on_obj_ext h _ (io_act (mk_io (set_d_queues (<[i := q1]> (d_queues (o_dev x.1))) (o_dev x.1)) w1 (s_refused (f_sys F)))) _ x Hx).
  2: { rewrite Ew. cbv zeta. by rewrite E. }
  rewrite E2. cbn [obind]. eexists. split; [done|].
  apply (files_inv_sys _ _ _ n n _ _ (fun _ => False) Hinv); [exact Hi'|by apply step_frame in E'|done|done].
Qed.

(** ** Mappings *)

Lemma step_mmap file id pid v :
  is_Some (ks_files (kring_of (f_sys F)) !! file) -> f_maps F !! id = None ->
  exists F', file_step (FMmap file id pid v) F = Ok F' /\ files_inv FB P0 s0 n F'.
Proof.
  intros [l Hl] Hid. cbn [file_step]. unfold file_mmap. rewrite Hl. cbn [deref obind].
  destruct (ki_files _ Hkring _ _ Hl) as [d Hd]. rewrite Hd. cbn [deref obind].
  destruct (kd_info d) as [qi|] eqn:Hqi; [|cbn [obind]; eauto].
  destruct (ri_owner _ _ _ _ _ _ d qi Hreg E0 Hd Hqi) as (h & i & x & p & q & Eo & Hx & _ & Hp & _ & Hq).
  rewrite Eo. cbn [deref obind]. rewrite Hx. cbn [deref obind]. rewrite Hq. cbn [deref obind].
  destruct (ubbd_kring_mmap true pid v q (d_kref (o_dev x.1))) as [[ret q'] refs] eqn:Em.
  destruct (Z.eqb_spec ret 0) as [->|]; cbn [negb obind]; [|eauto].
  apply mmap_ok in Em as (_ & _ & -> & ->).
  destruct (backend_change FB P0 s0 n _ h LMap 1 x i q (Some (UserBackend true pid)) Hreg Hn Hx Hq event_map)
    as (sy & E & Hi' & Hf & _); [done|].
  cbn [user_queue] in E. rewrite E. cbn [obind]. eexists. split; [done|].
  apply files_inv_maps; [done|done|done| |].
  - intros h'. by rewrite maps_of_insert by done.
  - intros id' m. rewrite lookup_insert_Some. intros [[_ <-]|[_ Hm]]; [by exists x, p|]. by eapply fi_maps.
Qed.

Lemma step_fork id id' :
  is_Some (f_maps F !! id) -> f_maps F !! id' = None ->
  exists F', file_step (FFork id id') F = Ok F' /\ files_inv FB P0 s0 n F'.
Proof.
  intros [m Hm] Hid. cbn [file_step]. unfold map_open. rewrite Hm. cbn [deref obind].
  destruct (fi_queue _ _ _ _ F m Hinv) as (x & q & Hx & Hq); [by eapply fi_maps|].
  rewrite Hx. cbn [deref obind]. rewrite Hq. cbn [deref obind].
  destruct (backend_change FB P0 s0 n _ _ LMap 1 x _ q None Hreg Hn Hx Hq event_map) as (sy & E & Hi' & Hf & _); [done|].
  unfold ubbd_vma_open. cbv zeta in E. rewrite E. cbn [obind]. eexists. split; [done|].
  apply files_inv_maps; [done|done|done| |].
  - intros h'. by rewrite maps_of_insert by done.
  - intros j m'. rewrite lookup_insert_Some. intros [[_ <-]|[_ Hj]]; by eapply fi_maps.
Qed.

Lemma step_unmap id :
  is_Some (f_maps F !! id) -> exists F', file_step (FUnmap id) F = Ok F' /\ files_inv FB P0 s0 n F'.
Proof.
  intros [m Hm]. cbn [file_step]. unfold map_close. rewrite Hm. cbn [deref obind].
  destruct (fi_queue _ _ _ _ F m Hinv) as (x & q & Hx & Hq); [by eapply fi_maps|].
  rewrite Hx. cbn [deref obind]. rewrite Hq. cbn [deref obind]. unfold ubbd_vma_close.
  set (oa := if vm_write (mp_vma m) then Some (UserBackend false 0) else None).
  destruct (backend_change FB P0 s0 n _ _ LUnmap (- 1) x _ q oa Hreg Hn Hx Hq event_unmap) as (sy & E & Hi' & Hf & _).
  { intros _. rewrite (fi_count _ _ _ _ _ Hinv). by eapply maps_of_pos. }
  assert (match oa with Some a => user_queue a q | None => q end = if vm_write (mp_vma m) then set_q_backend false 0 q else q) as Eq
    by (unfold oa; by destruct (vm_write _)).
  cbv zeta in E. rewrite Eq in E. change (d_kref (o_dev x.1) - 1) with (d_kref (o_dev x.1) + - 1). rewrite E.
  cbn [obind]. eexists. split; [done|]. apply files_inv_maps; [done|done|done| |].
  - intros h'. rewrite (maps_of_delete _ _ _ _ Hm). case_decide; lia.
  - intros j m'. rewrite lookup_delete_Some. intros [_ Hj]. by eapply fi_maps.
Qed.

Lemma step_fault id pgoff :
  is_Some (f_maps F !! id) -> exists F', file_step (FFault id pgoff) F = Ok F' /\ files_inv FB P0 s0 n F'.
Proof.
  intros [m Hm]. cbn [file_step]. unfold map_fault. rewrite Hm. cbn [deref obind].
  destruct (fi_queue _ _ _ _ F m Hinv) as (x & q & Hx & Hq); [by eapply fi_maps|].
  rewrite Hx. cbn [deref obind]. rewrite Hq. cbn [deref obind]. eauto.
Qed.

(** A step that can happen goes through. *)
Lemma file_step_inv op :
  (if file_submits op then n + 1 else n) < 2 ^ 64 -> file_can FB op F ->
  exists F', file_step op F = Ok F' /\ files_inv FB P0 s0 (if file_submits op then n + 1 else n) F'.
Proof.
  intros Hb Hc. destruct op as [op|minor file event inode mok kok|file|file event|file count nb rounds|file|file id pid v|id id'|id|id pgoff].
  - destruct Hc as [Ho Hc]. by apply step_sys.
  - by apply step_open.
  - by apply step_release.
  - by apply step_poll.
  - by apply step_read.
  - by apply step_write.
  - destruct Hc. by apply step_mmap.
  - destruct Hc. by apply step_fork.
  - by apply step_unmap.
  - by apply step_fault.
Qed.
End ops.

Lemma files_start_inv FB P0 s0 F : files_start FB P0 s0 F -> files_inv FB P0 s0 0 F.
Proof.
  intros (Hs & E0 & Em). assert (kring_of (f_sys F) = kring_initial true) as Ek.
  { unfold kring_of. destruct Hs as (w & -> & _). exact E0. }
  assert (kring_inv (kring_initial true)) as Hk.
  { split; simpl; try (intros ? ?; rewrite ?lookup_empty; done). done. }
  assert (reg_sys (f_sys F) = f_sys F) as Er.
  { unfold reg_sys. rewrite Ek. change (registry (kring_initial true)) with (mk_kring true ∅ (omap registry_dev ∅) ∅ 0).
    rewrite omap_empty. change (mk_kring true ∅ ∅ ∅ 0) with (kring_initial true). rewrite <- Ek. destruct F as [[[[] ? ? ?] ? ?] ?]. done. }
  split.
  - split; rewrite ?Er, ?Ek; [by constructor|by apply sys_start_inv|done].
  - intros h. destruct Hs as (w & _ & Hl & _). by rewrite Hl, Em.
  - intros id m. by rewrite Em, lookup_empty.
Qed.

Lemma files_reach_origin FB P0 s0 n F : files_reach FB P0 s0 n F -> dv_kring s0 = kring_initial true.
Proof. induction 1 as [F (_ & ? & _)|]; done. Qed.

Lemma files_reach_inv FB P0 s0 n F : files_reach FB P0 s0 n F -> n < 2 ^ 64 -> files_inv FB P0 s0 n F.
Proof.
  intros H. pose proof (files_reach_origin _ _ _ _ _ H) as E0. induction H as [F Hs|n F op F' _ IH Hc E]; intros Hn.
  - by apply files_start_inv.
  - assert (n < 2 ^ 64) as Hn' by (destruct (file_submits op); lia).
    destruct (file_step_inv FB P0 s0 E0 n F (IH Hn') Hn' op Hn Hc) as (F2 & E2 & Hi). congruence.
Qed.
End steps.
