(* ===== verification/FilesDrain.v ===== *)
(** * Emptying the driver and its backends

    The steps of [SystemDrain], the releases of files and the unmaps: each
    lowers the weight of the driver and its files ([file_load]), and one can
    happen as long as there is a device or a file. *)

From stdpp Require Import relations.
From S2P Require Import Prelude Abi Ring Pages Request Balance Queue Kring KringLife KringMap Device DeviceInv Operation Lifecycle.
From S2P Require Import Create CreateInv CreateProps Netlink NetlinkProps KringFrame.
From S2P Require Import System SystemInv SystemStep SystemRun SystemDrain SystemFrame Files FilesFrame FilesInv FilesStep.

Section drain.
Context `{L : UbbdAbiLaws} `{KL : KernelApiLaws} `{ML : KernelMemLaws} `{IL : KernelIdrLaws}
  `{DL : KernelIdaLaws} `{T : UbbdAttrs} `{NL : NetlinkLaws}.
Abbreviation listed := (device_obj * list Z)%type.
Implicit Types (x : listed) (S : sys) (F : files).

Definition file_load F : Z := load (f_sys F) + Z.of_nat (size (ks_files (kring_of (f_sys F)))).

Inductive file_drains F : file_op -> Prop :=
| file_drains_sys op : drains (f_sys F) op -> file_drains F (FSys op)
| file_drains_release file : file_drains F (FRelease file)
| file_drains_unmap id : file_drains F (FUnmap id).

Definition file_drain (FB : gset Z) : relation files := fun F F' =>
  exists op, file_drains F op /\ file_can FB op F /\ file_step op F = Ok F'.

Lemma drains_reg S op : drains S op -> drains (reg_sys S) op.
Proof. destruct 1; by econstructor. Qed.

Lemma drains_unreg S op : drains (reg_sys S) op -> drains S op.
Proof. destruct 1; by econstructor. Qed.

(** A step of the driver. *)
Lemma sys_lowers FB P0 s0 n op S S' :
  reg_inv FB P0 s0 n S -> n < 2 ^ 64 -> drains S op -> sys_can FB op S -> sys_step op S = Ok S' ->
  load S' < load S /\ ks_files (kring_of S') = ks_files (kring_of S).
Proof.
  intros Hi Hn Hd Hc E. assert (counts op n = n) as Ec by (by destruct Hd).
  destruct (reg_step FB P0 s0 n op S Hi) as (S2 & E2 & _ & Er & Ef); [by rewrite Ec|done|].
  replace S2 with S' in * by congruence. split; [|done].
  destruct (drain_lowers FB _ n (reg_sys S) (reg_sys S') Hn (ri_sys _ _ _ _ _ Hi)) as [_ Hl]; [|exact Hl].
  exists op. split; [by apply drains_reg|]. split; [by apply reg_can|exact Er].
Qed.

(** An unmap. *)
Lemma unmap_weight x s w i q refs v ro s' w' :
  set_backend i q refs x s w = Ok (ro, s', w') ->
  forall x', ro = Some x' -> o_h x'.1 = o_h x.1 /\ weight (o_dev x'.1) (v.1, v.2 + - 1) = weight (o_dev x.1) v - 1.
Proof.
  unfold set_backend. intros H x' ->. destruct (refs =? 0); [inv_ok H; by destruct r|]. injection H as <- _ _.
  split; [done|]. unfold weight. simpl. lia.
Qed.

Lemma unmap_lowers FB P0 s0 n F id F' :
  files_inv FB P0 s0 n F -> n < 2 ^ 64 -> is_Some (f_maps F !! id) -> file_step (FUnmap id) F = Ok F' ->
  load (f_sys F') < load (f_sys F) /\ ks_files (kring_of (f_sys F')) = ks_files (kring_of (f_sys F)).
Proof.
  intros Hi Hn [m Hm] E. pose proof (fi_reg _ _ _ _ _ Hi) as Hreg.
  cbn [file_step] in E. unfold map_close in E. rewrite Hm in E. cbn [deref obind] in E.
  destruct (fi_queue _ _ _ _ F m Hi) as (x & q & Hx & Hq); [by eapply fi_maps|].
  rewrite Hx in E. cbn [deref obind] in E. rewrite Hq in E. cbn [deref obind] in E. unfold ubbd_vma_close in E.
  set (oa := if vm_write (mp_vma m) then Some (UserBackend false 0) else None).
  destruct (backend_change FB P0 s0 n _ _ LUnmap (- 1) x _ q oa Hreg Hn Hx Hq event_unmap) as (sy & E1 & _ & _ & Ef).
  { intros _. rewrite (fi_count _ _ _ _ _ Hi). by eapply maps_of_pos. }
  assert (match oa with Some a => user_queue a q | None => q end = if vm_write (mp_vma m) then set_q_backend false 0 q else q) as Eq
    by (unfold oa; by destruct (vm_write _)).
  cbv zeta in E1. rewrite Eq in E1. change (d_kref (o_dev x.1) - 1) with (d_kref (o_dev x.1) + - 1) in E.
  rewrite E1 in E. cbn [obind] in E. injection E as <-. split; [|exact Ef]. simpl.
  destruct (obj_at_spec _ _ _ Hx) as (Eh & rest & Hp & Hon). rewrite <- Eh in *. clear Eh.
  destruct (set_backend (mp_queue m) (if vm_write (mp_vma m) then set_q_backend false 0 q else q)
    (d_kref (o_dev x.1) + - 1) x (sy_drv (s_sys (f_sys F))) (sy_world (s_sys (f_sys F)))) as [[[ro s'] w']|] eqn:Ea.
  2: { exfalso. revert E1. unfold on_obj, obj_at in *. destruct (find_obj _ (sy_list _)) as [[j y]|].
    - injection Hx as ->. by rewrite Ea.
    - destruct (find_obj _ (sy_unlisted _)) as [[j y]|]; [|done]. injection Hx as ->. cbn [deref obind]. by rewrite Ea. }
  destruct (Hon _ _ _ _ Ea) as (sy1 & E2 & _ & _ & Hp' & _). rewrite E1 in E2. injection E2 as <-.
  set (v := s_life (f_sys F) (o_h x.1)).
  pose proof (unmap_weight x _ _ _ _ _ v _ _ _ Ea) as Hw.
  destruct Hreg as [_ [Hg _] _]. change (all_devs (s_sys (reg_sys (f_sys F)))) with (all_devs (s_sys (f_sys F))) in Hg.
  apply (good_perm _ _ _ _ _ _ _ _ _ Hp) in Hg.
  pose proof (ow_handles _ _ _ (gd_owned _ _ _ _ _ _ _ _ Hg)) as Hnd. apply NoDup_cons in Hnd as [Hnd _].
  unfold load. simpl s_sys. simpl s_life. fold (weights (count_maps (o_h x.1) (- 1) (f_sys F)) (all_devs sy)).
  fold (weights (s_life (f_sys F)) (all_devs (s_sys (f_sys F)))).
  rewrite (weights_perm _ _ _ Hp), (weights_perm _ _ _ Hp').
  pose proof (al_dev _ _ (gd_alive _ _ _ _ _ _ _ _ Hg)) as Ha. apply Forall_cons in Ha as [[Hlx _] _].
  pose proof (weight_pos (o_dev x.1) v Hlx) as Hpos.
  rewrite weights_cons. fold v. unfold count_maps. fold v.
  destruct ro as [x'|]; simpl.
  - destruct (Hw x' eq_refl) as [Eh' Ew]. rewrite weights_cons, Eh', weights_set by done.
    unfold set_life. rewrite decide_True by done. lia.
  - rewrite weights_set by done. lia.
Qed.

Lemma file_drain_lowers FB P0 s0 n F F' :
  dv_kring s0 = kring_initial true -> n < 2 ^ 64 -> files_inv FB P0 s0 n F -> file_drain FB F F' ->
  files_inv FB P0 s0 n F' /\ file_load F' < file_load F.
Proof.
  intros E0 Hn Hi (op & Hd & Hc & E). assert (file_submits op = false) as Hsub by (destruct Hd as [op Hd| |]; [by destruct Hd|done..]).
  destruct (file_step_inv FB P0 s0 E0 n F Hi Hn op) as (F2 & E2 & Hi2); [by rewrite Hsub|done|]. rewrite Hsub in Hi2.
  replace F2 with F' in * by congruence. split; [done|]. unfold file_load. destruct Hd as [op Hd|file|id].
  - cbn [file_step] in E. inv_ok E. injection E as <-. destruct Hc as [_ Hc]. simpl.
    destruct (sys_lowers FB P0 s0 n op _ _ (fi_reg _ _ _ _ _ Hi) Hn Hd Hc E1) as [Hl ->]. lia.
  - cbn [file_step] in E. unfold file_release in E. inv_ok E. injection E as <-. inv_ok E1. injection E1 as <-.
    destruct (release_spec _ file (ri_kring _ _ _ _ _ (fi_reg _ _ _ _ _ Hi)) Hc) as (k & Ek & _ & Ef & _).
    rewrite Ek in E. injection E as <-. simpl. change (load (set_kring k (f_sys F))) with (load (f_sys F)).
    change (kring_of (set_kring k (f_sys F))) with k. rewrite Ef, map_size_delete_Some by done.
    assert (size (ks_files (kring_of (f_sys F))) <> 0%nat); [|lia].
    intros Es. apply map_size_empty_inv in Es. destruct Hc as [l Hl]. by rewrite Es, lookup_empty in Hl.
  - destruct (unmap_lowers FB P0 s0 n F id F' Hi Hn Hc E) as [Hl ->]. lia.
Qed.

(** One can happen while there is a device or a file. *)
Lemma file_drain_possible FB P0 s0 n F :
  files_inv FB P0 s0 n F -> all_devs (s_sys (f_sys F)) <> [] \/ ks_files (kring_of (f_sys F)) <> ∅ ->
  exists op, file_drains F op /\ file_can FB op F.
Proof.
  intros Hi [Hne|Hne].
  - destruct (drain_possible FB _ n (reg_sys (f_sys F)) (ri_sys _ _ _ _ _ (fi_reg _ _ _ _ _ Hi)) Hne) as (op & Hd & Hc).
    assert ((exists h, op = SLife h LUnmap) \/ own_step op = true) as [[h ->]|Hown].
    { destruct Hd as [h op He|? ? ? ? ? ? ? ?|? ? ? ? ?]; [|by right..]. destruct op; try done; [by right..|left; eauto]. }
    + destruct Hc as (_ & x & _ & Hpos). change (0 < (s_life (f_sys F) h).2) in Hpos. rewrite (fi_count _ _ _ _ _ Hi) in Hpos.
      unfold maps_of in Hpos. destruct (decide (filter (fun kv => mp_dev kv.2 = h) (f_maps F) = ∅)) as [E|E].
      { rewrite E, map_size_empty in Hpos. lia. }
      apply map_choose in E as (id & m & Hm). apply map_lookup_filter_Some in Hm as [Hm _].
      exists (FUnmap id). split; [constructor|by eexists].
    + exists (FSys op). split; [by constructor; apply drains_unreg|]. split; [done|]. by destruct Hd.
  - apply map_choose in Hne as (file & l & Hl). exists (FRelease file). split; [constructor|by eexists].
Qed.
End drain.
