(* ===== verification/FilesProps.v ===== *)
(** * Properties of the driver with its backends

    The theorems about the driver with any number of open files and mappings of
    its kring devices, in every state [Files] reaches: it is the driver of
    [System], no step faults, files and mappings keep alive what they use, and a
    mapping shows no page but those of its queue. *)

From stdpp Require Import relations.
From S2P Require Import Prelude Abi Ring Pages Request Balance Queue PoolProps QueueProps Kring KringLife KringMap Device DeviceInv DeviceProps.
From S2P Require Import Operation OperationProps Lifecycle Create CreateInv CreateProps Netlink NetlinkProps KringFrame.
From S2P Require Import System SystemInv SystemStep SystemRun SystemDrain SystemProps.
From S2P Require Import SystemFrame Files FilesFrame FilesInv FilesStep FilesDrain.

Section properties.
Context `{L : UbbdAbiLaws} `{KL : KernelApiLaws} `{ML : KernelMemLaws} `{IL : KernelIdrLaws}
  `{DL : KernelIdaLaws} `{T : UbbdAttrs} `{NL : NetlinkLaws}.
Abbreviation listed := (device_obj * list Z)%type.
Implicit Types (x y : listed) (F : files) (q : ubbd_queue).

(** ** Pages of a queue among all devices *)

Lemma fleet_pages FB n x rest w r i q pg :
  fleet FB n (x :: rest) w r -> d_queues (o_dev x.1) !! i = Some q -> owns (q_pool q) pg ->
  pg ∈ live (w_km w) /\ (pg ∉ FB) /\
  (forall j q', j <> i -> d_queues (o_dev x.1) !! j = Some q' -> ~ owns (q_pool q') pg) /\
  (forall y j q', y ∈ rest -> d_queues (o_dev y.1) !! j = Some q' -> ~ owns (q_pool q') pg).
Proof.
  intros Hf Hq Ho. pose proof (ft_dev _ _ _ _ _ Hf) as Hd. apply Forall_cons in Hd as [Hd _].
  assert (forall y j q', d_queues (o_dev y.1) !! j = Some q' -> owns (q_pool q') pg -> pg ∈ pages_of y) as Hin.
  { intros y j q' Hj Hown. apply elem_of_pages_in. eauto. }
  destruct (dev_io_pages _ _ _ _ Hd) as [Hl Hfb]. pose proof (Hin x i q Hq Ho) as Hx.
  split; [by apply Hl|]. split; [intros HF; by apply (Hfb pg Hx)|]. split.
  - intros j q' Hne Hj Ho'. destruct (do_core _ _ _ _ Hd) as [[Hm _] _ _ _ _ _ _ _].
    assert (d_queues (as_opened (o_dev x.1)) !! i = Some (with_inode q)) as Hi'
      by (change (d_queues (as_opened (o_dev x.1))) with (with_inode <$> d_queues (o_dev x.1)); by rewrite list_lookup_fmap, Hq).
    assert (d_queues (as_opened (o_dev x.1)) !! j = Some (with_inode q')) as Hj'
      by (change (d_queues (as_opened (o_dev x.1))) with (with_inode <$> d_queues (o_dev x.1)); by rewrite list_lookup_fmap, Hj).
    destruct (Hm i _ Hi') as [(es & F & Hqi & _ & Hothers) _ _]. pose proof (Hothers j _ pg Hne Hj' Ho') as HF.
    destruct Ho as [k Hk]. by destruct (pl_live _ _ _ _ (qi_pool _ _ _ _ _ Hqi) k pg Hk) as (_ & _ & ?).
  - intros y j q' Hy Hj Ho'. destruct (ft_apart _ _ _ _ _ Hf) as [Ha _]. apply (Ha pg Hx).
    apply elem_of_union_map. exists y. split; [done|]. by eapply Hin.
Qed.

Lemma fault_page (p : data_pool) pgoff pg : ubbd_vma_fault p pgoff = FAULT_DATA pg -> owns p pg.
Proof.
  unfold ubbd_vma_fault, ubbd_try_get_data_page. destruct (_ <? _); [done|].
  destruct (data_pages_array p !! _) as [pg'|] eqn:E; [|done]. intros [= <-]. by eexists.
Qed.

(** What is left without devices and files. *)
Lemma files_started FB P0 s0 n F :
  files_inv FB P0 s0 n F -> all_devs (s_sys (f_sys F)) = [] -> ks_files (kring_of (f_sys F)) = ∅ ->
  f_maps F = ∅ /\ as_started s0 P0 (s_sys (f_sys F)).
Proof.
  intros Hi Ed Ef. pose proof (fi_reg _ _ _ _ _ Hi) as Hreg. split.
  - apply map_empty. intros id. destruct (f_maps F !! id) as [m|] eqn:Em; [|done].
    destruct (fi_maps _ _ _ _ _ Hi id m Em) as (x & _ & Hx & _). apply obj_at_elem in Hx as [Hx _].
    rewrite Ed in Hx. by apply elem_of_nil in Hx.
  - destruct (ri_sys _ _ _ _ _ Hreg) as [Hg _].
    change (all_devs (s_sys (reg_sys (f_sys F)))) with (all_devs (s_sys (f_sys F))) in Hg. rewrite Ed in Hg.
    destruct (good_started _ _ _ _ _ _ _ Hg) as (H1 & H2 & H3). split; [exact H1|]. split; [|exact H3].
    change (dv_kring (sy_drv (s_sys (reg_sys (f_sys F))))) with (registry (kring_of (f_sys F))) in H2.
    rewrite (no_files_registry _ (ri_kring _ _ _ _ _ Hreg) Ef) in H2. exact H2.
Qed.

(** ** Theorems *)

(** C9: the driver with backends is the driver.  Whatever files are open on the
    kring devices, whatever is mapped, read, polled or written, what the driver
    has registered together with its devices, requests and pages is a state that
    [System] reaches, with the same submissions; so every theorem about the
    driver holds with backends present. *)
Theorem files_refine_driver (FB P0 : gset Z) (s0 : driver) (n : Z) (F : files) :
  files_reach FB P0 s0 n F -> n < 2 ^ 64 ->
  sys_reach FB P0 s0 n (reg_sys (f_sys F)) /\ s_refused (reg_sys (f_sys F)) = s_refused (f_sys F) /\
  all_devs (s_sys (reg_sys (f_sys F))) = all_devs (s_sys (f_sys F)) /\
  sy_world (s_sys (reg_sys (f_sys F))) = sy_world (s_sys (f_sys F)).
Proof. intros Hr Hn. split; [|done]. by eapply ri_reach, fi_reg, files_reach_inv. Qed.

(** C8: backends do not make the driver fault.  In every state reached by
    commands, requests and events on any number of devices interleaved with
    opens, releases, reads, polls, writes, mappings, forks, unmaps and page
    faults of any number of backends, the next step goes through if it meets
    [file_can]: a step of the driver meets the conditions of [driver_safe]; a
    file operation is on an open file and a page fault, fork or unmap in a
    mapping; and a write is to a file whose kring device is still registered
    ([write_after_unregister_faults] is the other write) and belongs to a device
    whose every queue a backend has opened. *)
Theorem driver_with_backends_safe (FB P0 : gset Z) (s0 : driver) (n : Z) (F : files) (op : file_op) :
  files_reach FB P0 s0 n F -> n + 1 < 2 ^ 64 -> file_can FB op F -> exists F', file_step op F = Ok F'.
Proof.
  intros Hr Hn Hc.
  destruct (file_step_inv FB P0 s0 (files_reach_origin _ _ _ _ _ Hr) n F) with op as (F' & E & _); [|lia| |done|eauto].
  - apply files_reach_inv; [done|lia].
  - destruct (file_submits op); lia.
Qed.

(** C10: files and mappings keep alive what they use, and nothing else.  A kring
    device has one reference per open file and one while it is registered, the
    module one per open file; a registered kring device leads to one queue of a
    device; a mapping has its device and its queue, and a device one reference
    per mapping besides its other holders; without devices and files the kring
    devices are as at the start. *)
Theorem backends_accounted (FB P0 : gset Z) (s0 : driver) (n : Z) (F : files) :
  files_reach FB P0 s0 n F -> n < 2 ^ 64 ->
  let k := kring_of (f_sys F) in
  let sy := s_sys (f_sys F) in
  (forall hd d, ks_devs k !! hd = Some d -> kd_refs d = opens k hd + registered_ref d /\ 0 < kd_refs d) /\
  (forall f l, ks_files k !! f = Some l -> is_Some (ks_devs k !! ls_dev l)) /\
  ks_modrefs k = Z.of_nat (size (ks_files k)) /\
  (forall hd d qi, ks_devs k !! hd = Some d -> kd_info d = Some qi ->
     exists h i x q, info_owner hd sy = Some (h, i) /\ obj_at h sy = Some x /\ d_queues (o_dev x.1) !! i = Some q) /\
  (forall id m, f_maps F !! id = Some m ->
     exists x q, obj_at (mp_dev m) sy = Some x /\ d_queues (o_dev x.1) !! mp_queue m = Some q) /\
  (forall h x, obj_at h sy = Some x ->
     d_kref (o_dev x.1) = holders (o_dev x.1) (s_life (f_sys F) h).1 (maps_of h (f_maps F))) /\
  (all_devs sy = [] -> f_maps F = ∅ /\ (ks_files k = ∅ -> k = dv_kring s0)).
Proof.
  intros Hr Hn k sy. pose proof (files_reach_origin _ _ _ _ _ Hr) as E0.
  pose proof (files_reach_inv _ _ _ _ _ Hr Hn) as Hi. pose proof (fi_reg _ _ _ _ _ Hi) as Hreg.
  pose proof (ri_kring _ _ _ _ _ Hreg) as Hk. split_and!; try apply Hk.
  - intros hd d qi Hd Hq. destruct (ri_owner _ _ _ _ _ hd d qi Hreg E0 Hd Hq) as (h & i & x & p & q & ? & ? & _ & _ & _ & ?).
    exists h, i, x, q. by split_and!.
  - intros id m Hm. eapply fi_queue; [exact Hi|]. by eapply fi_maps.
  - intros h x Hx. apply obj_at_elem in Hx as [Hx <-]. pose proof (al_dev _ _ (ri_alive _ _ _ _ _ Hreg)) as Ha.
    rewrite Forall_forall in Ha. destruct (Ha x Hx) as [(E & _) _]. rewrite <- (fi_count _ _ _ _ _ Hi). exact E.
  - intros Ed. split.
    + apply map_empty. intros id. destruct (f_maps F !! id) as [m|] eqn:Em; [|done].
      destruct (fi_maps _ _ _ _ _ Hi id m Em) as (x & _ & Hx & _). apply obj_at_elem in Hx as [Hx _].
      unfold sy in Ed. rewrite Ed in Hx. by apply elem_of_nil in Hx.
    + intros Ef. by destruct (files_started _ _ _ _ _ Hi Ed Ef) as (_ & _ & Ek & _).
Qed.

(** C11: a mapping shows the pages of its queue and no other.  A page fault
    anywhere in a mapping of a queue is answered by a page of the rings of that
    queue, by SIGBUS, or by a data page that is allocated, that the queue owns,
    and that neither the block layer nor any other queue of any device has. *)
Theorem mapping_shows_own_pages (FB P0 : gset Z) (s0 : driver) (n : Z) (F : files) (id pgoff : Z) (m : mapping) :
  files_reach FB P0 s0 n F -> n < 2 ^ 64 -> f_maps F !! id = Some m ->
  let sy := s_sys (f_sys F) in
  exists x q r, obj_at (mp_dev m) sy = Some x /\ d_queues (o_dev x.1) !! mp_queue m = Some q /\
    map_fault id pgoff F = Ok r /\
    match r with
    | FAULT_RING off => off < data_off (q_pool q)
    | FAULT_SIGBUS => True
    | FAULT_DATA pg =>
        owns (q_pool q) pg /\ pg ∈ live (w_km (sy_world sy)) /\ (pg ∉ FB) /\
        forall y j q', y ∈ all_devs sy -> d_queues (o_dev y.1) !! j = Some q' -> owns (q_pool q') pg ->
          o_h y.1 = mp_dev m /\ j = mp_queue m
    end.
Proof.
  intros Hr Hn Hm sy. pose proof (files_reach_inv _ _ _ _ _ Hr Hn) as Hi. pose proof (fi_reg _ _ _ _ _ Hi) as Hreg.
  destruct (fi_queue _ _ _ _ F m Hi) as (x & q & Hx & Hq); [by eapply fi_maps|].
  exists x, q, (ubbd_vma_fault (q_pool q) pgoff). split; [done|]. split; [done|]. split.
  { unfold map_fault. rewrite Hm. cbn [deref obind]. rewrite Hx. cbn [deref obind]. by rewrite Hq. }
  destruct (ubbd_vma_fault (q_pool q) pgoff) as [off|pg|] eqn:E; [| |done].
  - unfold ubbd_vma_fault in E. destruct (Z.ltb_spec (u64 (Z.shiftl pgoff PAGE_SHIFT)) (data_off (q_pool q))); [by injection E as <-|].
    by destruct (ubbd_try_get_data_page _ _).
  - apply fault_page in E. split; [done|]. destruct (obj_at_spec _ _ _ Hx) as (Eh & rest & Hp & _).
    destruct (ri_sys _ _ _ _ _ Hreg) as [Hg _]. change (all_devs (s_sys (reg_sys (f_sys F)))) with (all_devs sy) in Hg.
    apply (good_perm _ _ _ _ _ _ _ _ _ Hp) in Hg.
    destruct (fleet_pages _ _ _ _ _ _ _ _ _ (gd_fleet _ _ _ _ _ _ _ _ Hg) Hq E) as (Hl & Hfb & Hsame & Hother).
    split; [done|]. split; [done|]. intros y j q' Hy Hj Ho. unfold sy in Hy. rewrite Hp in Hy. apply elem_of_cons in Hy as [->|Hy].
    + split; [done|]. destruct (decide (j = mp_queue m)) as [|Hne]; [done|]. by destruct (Hsame j q' Hne Hj).
    + by destruct (Hother y j q' Hy Hj).
Qed.
(** C7: the driver can be emptied with its backends.  From every reachable state,
    the steps that take something down (those of a driver without backends, the
    releases of files and the unmaps), in any order, are at most [file_load] in a
    row; a run of them that goes as far as it can exists; and every such run ends
    with no device, no file and no mapping, every request that was started ended,
    given back or refused, and the driver as at its start except for the disks
    and tag sets of the devices whose limits were refused, which the source
    leaks and which stay in the heap. *)
Theorem backends_and_driver_emptied (FB P0 : gset Z) (s0 : driver) (n : Z) (F : files) :
  files_reach FB P0 s0 n F -> n < 2 ^ 64 ->
  (forall k F', nsteps (file_drain FB) k F F' -> Z.of_nat k <= file_load F) /\
  wn (file_drain FB) F /\
  (forall F', rtc (file_drain FB) F F' -> nf (file_drain FB) F' ->
     all_devs (s_sys (f_sys F')) = [] /\ ks_files (kring_of (f_sys F')) = ∅ /\ f_maps F' = ∅ /\
     as_started s0 P0 (s_sys (f_sys F')) /\
     let blk := w_blk (sy_world (s_sys (f_sys F'))) in starts blk ≡ₚ ends blk ++ s_refused (f_sys F')).
Proof.
  intros Hr Hn. pose proof (files_reach_origin _ _ _ _ _ Hr) as E0. set (I := files_inv FB P0 s0 n).
  assert (I F) as Hi by (by apply files_reach_inv).
  assert (forall c, I c -> 0 <= file_load c) as Hpos.
  { intros c Hc. pose proof (load_pos _ _ _ _ (ri_sys _ _ _ _ _ (fi_reg _ _ _ _ _ Hc))) as Hp.
    change (load (reg_sys (f_sys c))) with (load (f_sys c)) in Hp. unfold file_load. lia. }
  assert (forall c c', I c -> file_drain FB c c' -> I c' /\ file_load c' < file_load c) as Hdown
    by (intros c c' Hc; by apply file_drain_lowers).
  set (G := fun c => all_devs (s_sys (f_sys c)) = [] /\ ks_files (kring_of (f_sys c)) = ∅).
  assert (forall c, Decision (G c)) as Hdec.
  { intros c. unfold G. destruct (all_devs (s_sys (f_sys c))); [|right; by intros [? _]].
    destruct (decide (ks_files (kring_of (f_sys c)) = ∅)); [by left|right; by intros [_ ?]]. }
  assert (forall c, I c -> ~ G c -> exists c', file_drain FB c c') as Hgo.
  { intros c Hc Hne. destruct (file_drain_possible FB P0 s0 n c Hc) as (op & Hd & Hcan).
    - unfold G in Hne. destruct (all_devs (s_sys (f_sys c))); [|by left]. right. intros E. by apply Hne.
    - assert (file_submits op = false) as Hsub by (destruct Hd as [op Hd| |]; [by destruct Hd|done..]).
      destruct (file_step_inv FB P0 s0 E0 n c Hc Hn op) as (c' & E & _); [by rewrite Hsub|done|]. by exists c', op. }
  split_and!.
  - intros k F' Hk. destruct (weighted_steps _ _ _ Hdown _ _ _ Hi Hk) as [Hi' ?]. specialize (Hpos _ Hi'). lia.
  - apply (weighted_wn _ _ _ Hpos Hdown G); [|done|done|done].
    intros c _ [Ed Ef]. unfold file_load. rewrite load_empty, Ef, map_size_empty by done. done.
  - intros F' Hrtc Hnf. assert (I F') as Hi' by (by apply (weighted_rtc _ _ _ Hdown F)).
    destruct (Hdec F') as [[Ed Ef]|Hne]; [|by destruct Hnf; apply (Hgo _ Hi')].
    destruct (files_started _ _ _ _ _ Hi' Ed Ef) as [Em Hst]. split_and!; try done.
    destruct (ri_sys _ _ _ _ _ (fi_reg _ _ _ _ _ Hi')) as [Hg _].
    change (all_devs (s_sys (reg_sys (f_sys F')))) with (all_devs (s_sys (f_sys F'))) in Hg. rewrite Ed in Hg.
    apply (good_requests _ _ _ _ _ _ _ _ Hg). intros x Hx. by apply elem_of_nil in Hx.
Qed.
End properties.

(** ** Witnesses *)

(** A device of two queues; a backend opens both and maps the first; the disk
    is added, a read submitted and worked on, and a data page shown. *)
Definition demo_empty : driver := mk_driver {[0]} (kring_initial true) ∅ 0.
Definition demo_do (op : file_op) (F : files) : files :=
  match file_step op F with Ok F' => F' | Fault _ => F end.

Definition demo_f0 : files :=
  mk_files (mk_sys (mk_system demo_empty [] [] demo_read_world) (fun _ => (None, 0)) []) ∅.
Definition demo_f1 : files := demo_do (FSys (SCmd CMD_ADD_DEV (demo_nl_env 0) demo_add_attrs)) demo_f0.
Definition demo_f2 : files := demo_do (FOpen 0 40 0 55 true true) demo_f1.
Definition demo_f3 : files := demo_do (FOpen 1 41 0 56 true true) demo_f2.
Definition demo_f4 : files := demo_do (FMmap 40 9 1234 (mk_vma 8 true)) demo_f3.
Definition demo_f5 : files := demo_do (FSys (SCmd CMD_ADD_DISK (demo_nl_env 0) (demo_dev_attrs 1 0))) demo_f4.
Definition demo_f6 : files := demo_do (FSys (SLife 100 LWorkBegin)) demo_f5.
Definition demo_f7 : files := demo_do (FSys (SLife 100 (LWorkEnd 0))) demo_f6.
Definition demo_f8 : files := demo_do (FSys (SIo 100 (IOSubmit 0 7 (demo_rq REQ_OP_READ)))) demo_f7.
Definition demo_f9 : files := demo_do (FSys (SIo 100 (IOWork 0))) demo_f8.

Lemma demo_do_reach FB P0 s0 n op F :
  files_reach FB P0 s0 n F -> file_can FB op F -> is_ok (file_step op F) = true ->
  files_reach FB P0 s0 (if file_submits op then n + 1 else n) (demo_do op F).
Proof.
  intros Hr Hc Hok. apply (files_reach_next FB P0 s0 n F op); [done..|]. unfold demo_do. by destruct (file_step op F).
Qed.

Lemma demo_empty_fresh : env_fresh demo_env demo_empty.
Proof.
  intros h [= <-]. split_and!; [|by intros j hd _ _|by destruct (demo_env_fresh 100 eq_refl) as (_ & _ & ?)].
  intros ob Hob. by apply elem_of_empty in Hob.
Qed.

Lemma demo_f1_reach : files_reach demo_foreign demo_foreign demo_empty 0 demo_f1.
Proof.
  apply (demo_do_reach _ _ _ 0 (FSys (SCmd CMD_ADD_DEV (demo_nl_env 0) demo_add_attrs)) demo_f0).
  - constructor. split; [|done]. eexists. split; [reflexivity|]. by repeat split.
  - split; [done|]. apply demo_add_can. exact demo_empty_fresh.
  - vm_compute. reflexivity.
Qed.

Lemma demo_f3_reach : files_reach demo_foreign demo_foreign demo_empty 0 demo_f3.
Proof.
  apply (demo_do_reach _ _ _ 0 (FOpen 1 41 0 56 true true)); [|vm_compute; reflexivity..].
  apply (demo_do_reach _ _ _ 0 (FOpen 0 40 0 55 true true)); [exact demo_f1_reach|vm_compute; reflexivity..].
Qed.

Lemma demo_is_some {X} (o : option X) : bool_decide (is_Some o) = true -> is_Some o.
Proof. apply bool_decide_eq_true. Qed.

Lemma demo_f4_reach : files_reach demo_foreign demo_foreign demo_empty 0 demo_f4.
Proof.
  apply (demo_do_reach _ _ _ 0 (FMmap 40 9 1234 (mk_vma 8 true))); [exact demo_f3_reach| |vm_compute; reflexivity].
  split; [apply demo_is_some|]; vm_compute; reflexivity.
Qed.

Lemma demo_f9_reach : files_reach demo_foreign demo_foreign demo_empty 1 demo_f9.
Proof.
  apply (demo_do_reach _ _ _ 1 (FSys (SIo 100 (IOWork 0)))).
  2: { split; [done|apply demo_work_can]. vm_compute. reflexivity. }
  2: { vm_compute. reflexivity. }
  apply (demo_do_reach _ _ _ 0 (FSys (SIo 100 (IOSubmit 0 7 (demo_rq REQ_OP_READ))))).
  2: { split; [done|apply demo_submit_can]; vm_compute; reflexivity. }
  2: { vm_compute. reflexivity. }
  apply (demo_do_reach _ _ _ 0 (FSys (SLife 100 (LWorkEnd 0)))).
  2: { split; [done|apply demo_end_can]. vm_compute. reflexivity. }
  2: { vm_compute. reflexivity. }
  apply (demo_do_reach _ _ _ 0 (FSys (SLife 100 LWorkBegin))).
  2: { split; [done|apply demo_begin_can]. vm_compute. reflexivity. }
  2: { vm_compute. reflexivity. }
  apply (demo_do_reach _ _ _ 0 (FSys (SCmd CMD_ADD_DISK (demo_nl_env 0) (demo_dev_attrs 1 0)))); [exact demo_f4_reach| |vm_compute; reflexivity].
  split; [done|apply demo_add_disk_can]. vm_compute. reflexivity.
Qed.

(** What the driver has registered, seen by [System]. *)
Lemma files_refine_driver_witness :
  sys_reach demo_foreign demo_foreign demo_empty 1 (reg_sys (f_sys demo_f9)).
Proof.
  destruct (files_refine_driver demo_foreign demo_foreign demo_empty 1 demo_f9 demo_f9_reach eq_refl) as [H _].
  exact H.
Defined.

(** The backend writes to the file of the first queue. *)
Definition demo_can_write (F : files) : bool :=
  match ks_files (kring_of (f_sys F)) !! 40 with
  | Some l =>
      match ks_devs (kring_of (f_sys F)) !! ls_dev l with
      | Some d => bool_decide (is_Some (kd_info d)) &&
          match info_owner (ls_dev l) (s_sys (f_sys F)) with
          | Some (h, _) => match obj_at h (s_sys (f_sys F)) with Some x => opened_b (o_dev x.1) | None => true end
          | None => true
          end
      | None => false
      end
  | None => false
  end.

Lemma demo_write_can F : demo_can_write F = true -> file_can demo_foreign (FWrite 40) F.
Proof.
  unfold demo_can_write. simpl. destruct (ks_files (kring_of (f_sys F)) !! 40) as [l|]; [|done].
  destruct (ks_devs (kring_of (f_sys F)) !! ls_dev l) as [d|] eqn:Ed; [|done].
  intros [H1 H2]%andb_true_iff. apply bool_decide_eq_true in H1. exists l, d. split_and!; [done..|].
  intros h i x Eo Ex. rewrite Eo, Ex in H2. by apply bool_decide_eq_true in H2.
Qed.

Lemma driver_with_backends_safe_witness : exists F', file_step (FWrite 40) demo_f9 = Ok F'.
Proof.
  apply (driver_with_backends_safe demo_foreign demo_foreign demo_empty 1 demo_f9 (FWrite 40) demo_f9_reach);
    [reflexivity|]. apply demo_write_can. vm_compute. reflexivity.
Defined.

(** The mapping holds the device. *)
Lemma backends_accounted_witness :
  exists x, obj_at 100 (s_sys (f_sys demo_f9)) = Some x /\
    d_kref (o_dev x.1) = holders (o_dev x.1) None 1 /\ ks_modrefs (kring_of (f_sys demo_f9)) = 2.
Proof.
  destruct (backends_accounted demo_foreign demo_foreign demo_empty 1 demo_f9 demo_f9_reach eq_refl)
    as (_ & _ & Hm & _ & _ & Hk & _).
  destruct (demo_obj 100 (s_sys (f_sys demo_f9)) (fun _ => true)) as (x & E & _); [vm_compute; reflexivity|].
  exists x. split; [exact E|]. split; [|rewrite Hm; vm_compute; reflexivity].
  rewrite (Hk 100 x E). apply f_equal2; vm_compute; reflexivity.
Defined.

(** A data page of the read, seen through the mapping. *)
Lemma mapping_shows_own_pages_witness :
  map_fault 9 4 demo_f9 = Ok (FAULT_DATA 901) /\ 901 ∈ live (w_km (sy_world (s_sys (f_sys demo_f9)))).
Proof.
  destruct (mapping_shows_own_pages demo_foreign demo_foreign demo_empty 1 demo_f9 9 4 (mk_mapping 100 0 (mk_vma 8 true))
    demo_f9_reach eq_refl) as (x & q & r & _ & _ & E & H); [vm_compute; reflexivity|].
  assert (map_fault 9 4 demo_f9 = Ok (FAULT_DATA 901)) as E' by (vm_compute; reflexivity).
  rewrite E' in E. injection E as <-. split; [exact E'|]. apply H.
Defined.

(** A running device with a mapped queue and two open files. *)
Lemma backends_and_driver_emptied_witness :
  exists F', rtc (file_drain demo_foreign) demo_f9 F' /\ f_maps F' = ∅ /\
    live (w_km (sy_world (s_sys (f_sys F')))) = demo_foreign.
Proof.
  destruct (backends_and_driver_emptied demo_foreign demo_foreign demo_empty 1 demo_f9 demo_f9_reach eq_refl)
    as (_ & (F' & Hr & Hnf) & H).
  exists F'. split; [exact Hr|]. destruct (H F' Hr Hnf) as (_ & _ & Hm & Hs & _). split; [exact Hm|].
  destruct Hs as (_ & _ & _ & Hl & _). exact Hl.
Defined.
