(* ===== verification/ModuleInit.v ===== *)
(** * Loading and unloading the module

    Models [ubbd_init] and [ubbd_exit] of [src/src/ubbd_main.c] with
    [__ubbd_init] and [__ubbd_exit] of [ubbd_internal.h] and the kring class of
    [ubbd_kring.c]: what is acquired, in which order, and what each error exit
    gives back. *)

From S2P Require Import Prelude.

(** ** Resources *)

Inductive resource : Type :=
| RES_WQ          (* [ubbd_wq] *)
| RES_BLKDEV      (* the block major *)
| RES_GENL        (* the netlink family *)
| RES_CHRDEV      (* the character device region *)
| RES_CDEV        (* the cdev object *)
| RES_CDEV_LIVE   (* the cdev added to the system *)
| RES_CLASS       (* the kring class *)
| RES_ROOT_DEV    (* [ubbd_kring_root_device] *)
| RES_DEBUGFS.

#[export] Instance resource_eq_dec : EqDecision resource.
Proof. solve_decision. Defined.

Record mod_state : Type := mk_mod {
  mod_res : list resource;          (* held, newest first *)
  class_registered : bool;          (* [ubbd_kring_class_registered] *)
}.

Definition acquire (r : resource) (s : mod_state) : mod_state :=
  mk_mod (r :: mod_res s) (class_registered s).

Definition set_class_registered (b : bool) (s : mod_state) : mod_state := mk_mod (mod_res s) b.

Fixpoint remove_first (r : resource) (l : list resource) : option (list resource) :=
  match l with
  | [] => None
  | x :: l => if decide (x = r) then Some l else option_map (cons x) (remove_first r l)
  end.

(** Giving back what is not held is a fault. *)
Definition give_back (r : resource) (s : mod_state) : outcome mod_state :=
  let* l := deref (remove_first r (mod_res s)) WILD_ACCESS in
  Ok (mk_mod l (class_registered s)).

(** What the kernel answers. *)
Record mod_env : Type := mk_mod_env {
  me_wq_ok : bool;               (* [alloc_workqueue] *)
  me_blkdev : Z;                 (* [register_blkdev] *)
  me_genl : Z;                   (* [genl_register_family] *)
  me_chrdev : Z;                 (* [alloc_chrdev_region] *)
  me_cdev_ok : bool;             (* [cdev_alloc] *)
  me_cdev_add : Z;               (* [cdev_add] *)
  me_class : Z;                  (* [class_register] *)
  me_root : Z;                   (* [root_device_register]: 0 or the error of the pointer *)
}.

(** ** The kring class *)

Definition ubbd_kring_major_init (env : mod_env) (s : mod_state) : outcome (Z * mod_state) :=
  let result := me_chrdev env in
  if negb (result =? 0) then Ok (result, s)
  else
    let s := acquire RES_CHRDEV s in
    if negb (me_cdev_ok env) then
      let* s := give_back RES_CHRDEV s in Ok (- ENOMEM, s)
    else
      let s := acquire RES_CDEV s in
      let result := me_cdev_add env in
      if negb (result =? 0) then
        let* s := give_back RES_CDEV s in
        let* s := give_back RES_CHRDEV s in
        Ok (result, s)
      else Ok (0, acquire RES_CDEV_LIVE s).

(** [cdev_del] takes the cdev out and drops it. *)
Definition ubbd_kring_major_cleanup (s : mod_state) : outcome mod_state :=
  let* s := give_back RES_CHRDEV s in
  let* s := give_back RES_CDEV_LIVE s in
  give_back RES_CDEV s.

Definition init_ubbd_kring_class (env : mod_env) (s : mod_state) : outcome (Z * mod_state) :=
  let* '(ret, s) := ubbd_kring_major_init env s in
  if negb (ret =? 0) then Ok (ret, s)
  else
    let ret := me_class env in
    if negb (ret =? 0) then
      let* s := ubbd_kring_major_cleanup s in Ok (ret, s)
    else Ok (0, set_class_registered true (acquire RES_CLASS s)).

Definition release_ubbd_kring_class (s : mod_state) : outcome mod_state :=
  let s := set_class_registered false s in
  let* s := give_back RES_CLASS s in
  ubbd_kring_major_cleanup s.

Definition ubbd_kring_init (env : mod_env) (s : mod_state) : outcome (Z * mod_state) :=
  init_ubbd_kring_class env s.

Definition ubbd_kring_exit (s : mod_state) : outcome mod_state := release_ubbd_kring_class s.

(** ** The module *)

(** The error labels, each falling into the next. *)
Definition err_out_wq (rc : Z) (s : mod_state) : outcome (Z * mod_state) :=
  let* s := give_back RES_WQ s in Ok (rc, s).
Definition err_out_blkdev (rc : Z) (s : mod_state) : outcome (Z * mod_state) :=
  let* s := give_back RES_BLKDEV s in err_out_wq rc s.
Definition err_out_genl (rc : Z) (s : mod_state) : outcome (Z * mod_state) :=
  let* s := give_back RES_GENL s in err_out_blkdev rc s.
Definition err_exit_kring (rc : Z) (s : mod_state) : outcome (Z * mod_state) :=
  let* s := ubbd_kring_exit s in err_out_genl rc s.

Definition __ubbd_init (env : mod_env) (s : mod_state) : outcome (Z * mod_state) :=
  if negb (me_wq_ok env) then Ok (- ENOMEM, s)
  else
    let s := acquire RES_WQ s in
    if me_blkdev env <? 0 then err_out_wq (me_blkdev env) s
    else
      let s := acquire RES_BLKDEV s in
      let rc := me_genl env in
      if rc <? 0 then err_out_blkdev rc s
      else
        let s := acquire RES_GENL s in
        let* '(rc, s) := ubbd_kring_init env s in
        if rc <? 0 then err_out_genl rc s
        else if negb (me_root env =? 0) then err_exit_kring (me_root env) s
        else Ok (0, acquire RES_DEBUGFS (acquire RES_ROOT_DEV s)).

(** [ida_destroy], between the first two, frees memory of the id allocator and
    gives back nothing that [__ubbd_init] acquired. *)
Definition __ubbd_exit (s : mod_state) : outcome mod_state :=
  let* s := give_back RES_DEBUGFS s in
  let* s := give_back RES_GENL s in
  let* s := give_back RES_ROOT_DEV s in
  let* s := give_back RES_BLKDEV s in
  let* s := give_back RES_WQ s in
  ubbd_kring_exit s.

(** [module_init] and [module_exit] *)
Definition ubbd_init (env : mod_env) (s : mod_state) : outcome (Z * mod_state) := __ubbd_init env s.
Definition ubbd_exit (s : mod_state) : outcome mod_state := __ubbd_exit s.

(** ** Properties *)

(** The kernel's documented answers: 0, or a negative error number. *)
Record env_ok (env : mod_env) : Prop := {
  eo_genl : me_genl env <= 0;
  eo_chrdev : me_chrdev env <= 0;
  eo_cdev_add : me_cdev_add env <= 0;
  eo_class : me_class env <= 0;
  eo_root : me_root env <= 0;
}.

Definition unloaded : mod_state := mk_mod [] false.

(** C32: loading is all or nothing and unloading undoes it.  Whatever the
    kernel refuses, [ubbd_init] does not fault; on an error it returns a
    negative number with nothing held and the class not registered; on success
    [ubbd_exit] gives back everything it acquired, each thing once. *)
Theorem init_exit_balanced (env : mod_env) :
  env_ok env ->
  exists rc s, ubbd_init env unloaded = Ok (rc, s) /\
    ((rc < 0 /\ s = unloaded) \/ (rc = 0 /\ ubbd_exit s = Ok unloaded)).
Proof.
  intros [Hg Hc Ha Hcl Hr]. assert (- ENOMEM < 0) by (unfold ENOMEM; lia).
  unfold ubbd_init, __ubbd_init. destruct (me_wq_ok env); cbn [negb]; [|eauto 10].
  destruct (Z.ltb_spec (me_blkdev env) 0); [do 2 eexists; split; [reflexivity|by left]|].
  destruct (Z.ltb_spec (me_genl env) 0); [do 2 eexists; split; [reflexivity|by left]|].
  unfold ubbd_kring_init, init_ubbd_kring_class, ubbd_kring_major_init.
  destruct (Z.eqb_spec (me_chrdev env) 0) as [|]; cbn [negb obind].
  2: { replace (me_chrdev env =? 0) with false by (symmetry; by apply Z.eqb_neq). cbn [negb obind].
    replace (me_chrdev env <? 0) with true by (symmetry; apply Z.ltb_lt; lia).
    do 2 eexists. split; [reflexivity|]. left. split; [lia|done]. }
  destruct (me_cdev_ok env); [|do 2 eexists; split; [reflexivity|by left]]. cbn [negb].
  destruct (Z.eqb_spec (me_cdev_add env) 0) as [|]; cbn [negb obind].
  2: { simpl. replace (me_cdev_add env =? 0) with false by (symmetry; by apply Z.eqb_neq). simpl.
    replace (me_cdev_add env <? 0) with true by (symmetry; apply Z.ltb_lt; lia).
    do 2 eexists. split; [reflexivity|]. left. split; [lia|done]. }
  simpl. destruct (Z.eqb_spec (me_class env) 0) as [|]; simpl.
  2: { replace (me_class env <? 0) with true by (symmetry; apply Z.ltb_lt; lia).
    do 2 eexists. split; [reflexivity|]. left. split; [lia|done]. }
  destruct (Z.eqb_spec (me_root env) 0) as [|]; simpl.
  - do 2 eexists. split; [reflexivity|]. by right.
  - do 2 eexists. split; [reflexivity|]. left. split; [lia|done].
Qed.

Lemma init_exit_balanced_witness :
  exists rc s, ubbd_init (mk_mod_env true 252 0 0 true 0 0 (- ENOMEM)) unloaded = Ok (rc, s) /\
    (rc < 0 /\ s = unloaded \/ rc = 0 /\ ubbd_exit s = Ok unloaded).
Proof.
  apply (init_exit_balanced (mk_mod_env true 252 0 0 true 0 0 (- ENOMEM))).
  split; simpl; unfold ENOMEM; lia.
Defined.
